(* ===== verification/_CoqProject ===== *)
-Q . S2P
Prelude.v
Strings.v
Filesys.v
Paging.v
Mem.v
State.v
Pic.v
Console.v
Rtc.v
Terminal.v
Sched.v
Syscalls.v
Process.v
Switch.v
Keyboard.v
Handlers.v
Boot.v
User.v
Reference.v
Userlib.v
Programs.v
Grep.v
Blink.v
Fish.v
Syserr.v
Userland.v
Slices.v
Session.v
System.v
