(* ===== verification/Prelude.v ===== *)
(** * OreOS: a verification development

    OreOS is a small 32-bit x86 kernel: it boots into three text terminals, runs
    programs from a read-only file system in seven page slots, switches
    between the programs of the terminals on clock interrupts and between the
    terminals on alt-F1 to alt-F3. This library models the C code of
    [src/student-distrib/] and of the programs of [src/syscalls/] and [src/fish/], proves what the
    parts do, and runs the programs on the kernel.

    ** Modelling

    A kernel function is a function on [State.kstate], the record of the file-scope
    variables, the physical memory and the registers that the inline assembly
    touches. A function that cannot leave by an unusual way returns
    [res kstate] (or [res (A * kstate)]): [Ok], [Undef] for what C leaves undefined
    or a fault (an index out of bounds, an unmapped page, an uninitialised
    variable), and [NoFuel]. One that can is [K A]: its value is [Ret], or [Stop]
    with the reason ([State.stop]): entering a user program, going back to
    the caller of [execute], loading another terminal's stack, waiting for an
    interrupt, or not returning. Machine integers are [Z] with the wrap-around written
    out ([u8], [u16], [u32], [s8], [s32]); memory is a map from physical addresses to
    bytes; every load and store of the kernel goes through the page walk
    ([State.kld], [State.kst] over [Paging.walk]). A port access appends to the log of
    the state ([State.inb], [State.outb]), the devices are stated on that log
    ([Pic.chip], [Rtc.rtc_chip]), and what a port answers is a parameter ([Env]).

    ** Files

    - [Prelude]: integers, bytes, arrays as lists ([aget], [aset]), the result monad,
      [for] loops, byte readers ([reader]) and the tactics; no code of the kernel.
    - [Strings]: the string routines of [lib.c]. [itoa_roundtrip] reads the digits
      back; the copies are characterised with what lies behind the string.
    - [Filesys]: [filesys.c]. An image is described by [dir_is] and [file_at];
      [read_data_file] and [read_dentry_by_name_refines] say that the routines
      compute on the image what the two relations say.
    - [Paging]: [paging.c], with the page walk of the processor. [paging_inv] is
      preserved by all the code that writes the tables; it gives the isolation of
      the programs and of the kernel's page.
    - [Mem]: [memset], [memcpy], [memmove] of [lib.c], instruction by instruction.
    - [State]: the state of the kernel, ports, the way functions end.
    - [Pic], [Rtc]: [i8259.c] and [rtc.c] against the documented chips.
    - [Console]: [putc], [puts], [printf] and the rest of the console of [lib.c]. The
      specification is the type [screen] with [type_char], [type_string], and the
      relation [displays] says that a state shows a screen; the refinement theorems
      are in terms of both.
    - [Terminal]: the line buffers and the terminal device ([keyboard.c]).
    - [Sched]: [sched.c] but for [switchTerm]; [sched_ok] is the invariant.
    - [Syscalls]: descriptors, [open], [read], [write], [close] ([sys_call.c]).
    - [Process]: [execute], [halt], [getargs], [vidmap] and the dispatch.
    - [Switch]: [switchTerm] ([sched.c]), which starts shells with [execute].
    - [Keyboard]: the scancode handler ([keyboard.c]).
    - [Handlers]: [handlers.c] and the clock's handler of [rtc.c]; [tick] follows the
      handler into the call that the resumed stack returns to.
    - [Boot]: [entry] of [kernel.c], the descriptor tables, the banner.
    - [User]: the system calls as a program sees them. The class [Os] has the
      calls; a [view] is the abstract machine (the directory and the contents of
      its files, the descriptors, the screen, the line buffer, the argument, the
      lines and ticks to come), and the class [OsSpec] the contract of the calls in
      terms of it ([view_open], [view_read], [view_write], [view_close]).
    - [Reference]: the contract as a machine of its own, whose states are views.
    - [Userlib]: [ece391support.c].
    - [Programs]: [ece391cat.c], [ece391ls.c], [ece391grep.c], [ece391hello.c],
      [ece391counter.c], [ece391shell.c], [ece391pingpong.c], [ece391testprint.c];
      [Grep]: what grep prints, in terms of lines; [Syserr]: [ece391syserr.c]. All
      against [OsSpec], on any machine that keeps it.
    - [Blink]: the linked list of blinking characters of [blink.S] with the pool of
      [fish.c], against a list of characters; [Fish]: [fish.c], over the system calls.
    - [Userland]: the kernel as an instance of [Os] (the wrapper of
      [sys_call_jmptable.S] around the functions of [Syscalls], [Process] and
      [Terminal], with the keyboard and clock interrupts that come while a call
      waits), the relation [seen] between the kernel's state and a view, and the
      instance [kernel_spec] of [OsSpec].
    - [Slices]: what the processor does between two switches ([work]), what happens
      while a terminal waits ([meanwhile]) and during a program's life ([life]).
    - [Session]: the programs on the kernel.
    - [System]: from the boot loader to the dialogue with the shell.

    ** How the parts interact

    [Boot.entry] builds the tables, initialises the devices and runs the shell with
    [Process.execute]. That looks the program up ([Filesys]), takes a page slot
    ([Paging.new_pde]), enters it in the scheduler ([Sched.new_process]), copies the
    file through the new page tables and fills a process control block. A system
    call ([Process.sys_call]) finds this block by masking the stack pointer, and
    its descriptors select the file system, the clock or the terminal. The keyboard handler
    fills the line of the terminal on screen, which [Terminal.read_terminal] waits
    for, and calls [Switch.switchTerm]; the clock's handler calls [Sched.do_events].
    Both give the processor away through [Sched.run_proc].

    The types that one part uses another by: [Sink] (in [Filesys]) is what a routine
    that fills a buffer needs from it, with the instances list and kernel
    memory ([Process.kbuf]), so [read_data] is proved once and used for [read] and
    for loading a program; [Layout], [Linker] and [Symbols] are the addresses that
    the linker chooses; [Env] is what the ports answer.

    ** Theorems

    - What the machine does from end to end: [System.boot_session] (from power-on
      to a dialogue with the shell), [Boot.entry_boots_shell],
      [Process.execute_starts], [Slices.execute_halt_roundtrip] (a program that is
      started, runs and halts comes back to where it was started),
      [Keyboard.typed_line_read], [Syscalls.read_all_file], [Handlers.periodic_tick].
    - Invariants: [Paging.paging_reachable_inv], with [program_pages_disjoint] and
      [kernel_page_protected]; [Sched.sched_ok]; [Pic.pic_masks_agree];
      [Session.started_sees] (what [execute] starts sees the machine rightly, if the
      kernel's copy of the screen with the number of the process agrees with the screen:
      so the first shell, and [started_scrolls] says what happens otherwise).
    - The scheduler: [do_events] returns or resumes the next terminal in use
      ([do_events_round_robin]); whatever is done between the ticks, no terminal waits
      for more than two turns ([Slices.do_events_fair]), and a terminal gets its
      registers and cursor back ([Slices.context_roundtrip]). The work between the ticks
      starts and ends no program: [execute] stores a process number in [bg_term],
      after which the next tick saves the context in the wrong place
      ([execute_breaks_scheduler]).
    - Refinements: [putc_refines], [printf_refines], [write_terminal_refines],
      [read_dentry_by_name_refines], and the chips.
    - The kernel under its programs: [Session.kernel_refines_view] says that the
      kernel keeps the contract of the calls; [shell_answers], [cat_prints],
      [cat_complains], [ls_lists], [grep_matches], [hello_greets],
      [counter_rejects], [syserr_passes] and [pingpong_bounces] say what the
      programs leave on the screen and in their descriptors, keys and ticks included. The
      programs are their C code; what their compiled images do is not modelled.
    - The fish: [Blink.blink_refines], [characters_blink] and [corner_breaks_list]
      for the list, [Fish.fish_plays] for the program.
    - Error paths: [execute_fails], [descriptor_errors], [extended_key_undefined],
      [alt_keys], [execute_breaks_scheduler], [new_pde_moves_kernel] and
      [disable_irq_masks]. The last five state what the code does where it departs
      from what it means to do.

    A theorem with hypotheses is followed by its [_witness], which applies it to a
    concrete machine; [Process] and [Boot] build such machines ([demo]).

    ** Fuel

    Loops whose bound is not an argument of the code carry fuel: the string loops
    (the length of the string and one), [printf] (the length of its format and of
    its arguments), the search for the next terminal (3, since an initialised terminal
    exists), the module list of the boot information. Each theorem gives the fuel
    that is enough, and none assumes that a function returns. Under a program the
    kernel gets 1024, the size of the largest buffer; the programs get a bound for
    their longest string literal (200), and the length of the file, the directory
    or the dialogue for their loops. [pingpong], which never returns, is modelled up
    to a number of rounds.

    ** Not modelled

    - [boot.S] and [x86_desc.S], assembly that sets up the stack and loads the
      segments before [entry]; the interrupt descriptor, segment and task state
      structures of [x86_desc.h] are in [Boot].
    - The registers that the wrapper of [sys_call_jmptable.S] saves, and the
      kernel stacks: local arrays are values, so the array of the file's size that
      [execute] puts on an 8 kB stack is not seen to overrun it. What the
      frame and stack pointers hold at the inline assembly are arguments.
    - The process control blocks as bytes of memory. They are values at their
      physical addresses, in a map of their own, so the model does not see a kernel
      stack, or a store of a program, run into one; [Slices] leaves the stores
      into the kernel's stacks and these blocks out ([kernel_stacks]).
    - What runs after [run_proc] loads a stack is not part of [do_events]:
      [Resume] ends it there, and [Handlers.return_from] is the rest.
    - The translation buffer of the processor: [walk] reads the tables of the
      moment.
    - [rtc_test], which nothing calls, and the dead code of [sched.c] in comments.
    - Under a program ([Userland]): calls that give the processor to another
      program ([execute] of an executable, [halt], a tick while another terminal is
      in use) end the run of this one in the model; [Process], [Sched] and
      [Switch] say what they do. Programs run on the terminal on screen.
    - [ece391sigtest.c]: it needs signals, which the kernel does not have.
    - [ece391emulate.c], which makes the calls on a host's system.
    - The fish writes to video memory itself, which a [view] does not describe, so
      it is run on machines that keep the contract of the calls and not on the
      kernel; what [vidmap] maps for it is a page of its own in the model.
    - The frames and the file system image, which are data. *)

From stdpp Require Export base numbers list option gmap.
From Stdlib Require Export ZArith Lia.

Local Open Scope Z_scope.

(** ** Case analysis on the boolean tests of the code *)

Ltac zcase_one :=
  match goal with
  | |- context [?a =? ?b] => destruct (Z.eqb_spec a b)
  | |- context [?a <? ?b] => destruct (Z.ltb_spec a b)
  | |- context [?a <=? ?b] => destruct (Z.leb_spec a b)
  | H : context [?a =? ?b] |- _ => destruct (Z.eqb_spec a b)
  | H : context [?a <? ?b] |- _ => destruct (Z.ltb_spec a b)
  | H : context [?a <=? ?b] |- _ => destruct (Z.leb_spec a b)
  end.

(** [zcases] splits on the integer tests in sight and closes the branches
    that arithmetic refutes or decides. *)
Ltac zcases := repeat (zcase_one; simpl in *; try lia; try congruence).

(** ** Machine integers

    The C integer types of [types.h], as [Z] with the wrap-around written out:
    [uint8_t], [uint16_t], [uint32_t] and the signed readings [int8_t] (plain
    [char] on this target) and [int32_t]. *)

Definition u8 (x : Z) : Z := x mod 2 ^ 8.
Definition u16 (x : Z) : Z := x mod 2 ^ 16.
Definition u32 (x : Z) : Z := x mod 2 ^ 32.

Definition s8 (x : Z) : Z :=
  let y := u8 x in if y <? 2 ^ 7 then y else y - 2 ^ 8.

Definition s32 (x : Z) : Z :=
  let y := u32 x in if y <? 2 ^ 31 then y else y - 2 ^ 32.

Definition byte_ok (b : Z) : Prop := 0 <= b < 256.

Create HintDb words.
Create Rewrite HintDb words.

Lemma u8_range x : 0 <= u8 x < 256.
Proof. unfold u8. apply (Z.mod_pos_bound x (2 ^ 8)). lia. Qed.

Lemma u16_range x : 0 <= u16 x < 65536.
Proof. unfold u16. apply (Z.mod_pos_bound x (2 ^ 16)). lia. Qed.

Lemma u32_range x : 0 <= u32 x < 4294967296.
Proof. unfold u32. apply (Z.mod_pos_bound x (2 ^ 32)). lia. Qed.

Lemma u8_id x : 0 <= x < 256 -> u8 x = x.
Proof. intros. unfold u8. apply Z.mod_small. lia. Qed.

Lemma u16_id x : 0 <= x < 65536 -> u16 x = x.
Proof. intros. unfold u16. apply Z.mod_small. lia. Qed.

Lemma u32_id x : 0 <= x < 4294967296 -> u32 x = x.
Proof. intros. unfold u32. apply Z.mod_small. lia. Qed.

Lemma u32_idem x : u32 (u32 x) = u32 x.
Proof. apply u32_id, u32_range. Qed.

Lemma u32_add_l x y : u32 (u32 x + y) = u32 (x + y).
Proof. unfold u32. apply Zplus_mod_idemp_l. Qed.

Lemma s32_id x : - 2 ^ 31 <= x < 2 ^ 31 -> s32 x = x.
Proof.
  intros H. unfold s32. destruct (decide (0 <= x)).
  - rewrite u32_id by lia. destruct (Z.ltb_spec x (2 ^ 31)); lia.
  - assert (u32 x = x + 2 ^ 32) as ->.
    { unfold u32. rewrite <- (Z.mod_small (x + 2 ^ 32) (2 ^ 32)) by lia.
      rewrite <- (Z.mod_add x 1 (2 ^ 32)) by lia. f_equal; lia. }
    destruct (Z.ltb_spec (x + 2 ^ 32) (2 ^ 31)); lia.
Qed.

Lemma s32_range x : - 2 ^ 31 <= s32 x < 2 ^ 31.
Proof.
  unfold s32. pose proof (u32_range x).
  destruct (Z.ltb_spec (u32 x) (2 ^ 31)); lia.
Qed.

Lemma s8_inj a b : byte_ok a -> byte_ok b -> s8 a = s8 b -> a = b.
Proof.
  unfold byte_ok, s8. intros Ha Hb. rewrite !u8_id by lia.
  destruct (Z.ltb_spec a (2 ^ 7)), (Z.ltb_spec b (2 ^ 7)); lia.
Qed.

#[export] Hint Resolve u8_range u16_range u32_range : words.
#[export] Hint Rewrite u8_id u16_id u32_id s32_id using lia : words.

(** ** Masks and shifts

    The bit operations of the code on page-table entries and port values, as
    arithmetic. *)

Lemma testbit_high_mask k n :
  0 <= k <= 32 -> 0 <= n ->
  Z.testbit (Z.shiftl (Z.ones (32 - k)) k) n = (k <=? n) && (n <? 32).
Proof.
  intros Hk Hn. rewrite Z.shiftl_spec by done.
  destruct (Z.leb_spec k n); simpl.
  - rewrite Z.testbit_ones by lia. zcases.
  - apply Z.testbit_neg_r. lia.
Qed.

(** Clearing the low [k] bits of a 32-bit word. *)
Lemma land_high_mask a k :
  0 <= k <= 32 -> 0 <= a < 2 ^ 32 ->
  Z.land a (Z.shiftl (Z.ones (32 - k)) k) = 2 ^ k * (a / 2 ^ k).
Proof.
  intros Hk Ha. rewrite Z.mul_comm, <- Z.shiftr_div_pow2, <- Z.shiftl_mul_pow2 by lia.
  apply Z.bits_inj'. intros n Hn. rewrite Z.land_spec, testbit_high_mask by lia.
  rewrite Z.shiftl_spec by lia. destruct (Z.leb_spec k n); simpl.
  - rewrite Z.shiftr_spec by lia. replace (n - k + k) with n by lia.
    destruct (Z.ltb_spec n 32); [by rewrite andb_true_r |].
    rewrite andb_false_r. symmetry. rewrite <- (Z.mod_small a (2 ^ 32)) by lia.
    by apply Z.mod_pow2_bits_high.
  - rewrite andb_false_r. symmetry. apply Z.testbit_neg_r. lia.
Qed.

(** Selecting a field of [w] bits at bit [k]. *)
Lemma land_field a k w :
  0 <= k -> 0 <= w -> Z.land a (Z.shiftl (Z.ones w) k) = 2 ^ k * ((a / 2 ^ k) mod 2 ^ w).
Proof.
  intros Hk Hw. rewrite Z.mul_comm, <- Z.shiftr_div_pow2, <- Z.land_ones, <- Z.shiftl_mul_pow2 by lia.
  apply Z.bits_inj'. intros n Hn. rewrite Z.land_spec, !Z.shiftl_spec by lia.
  destruct (Z.ltb_spec n k).
  - rewrite !(Z.testbit_neg_r _ (n - k)) by lia. by rewrite andb_false_r.
  - rewrite Z.land_spec, Z.shiftr_spec by lia. by replace (n - k + k) with n by lia.
Qed.

Lemma testbit_page q k f n :
  0 <= n < k -> Z.testbit (2 ^ k * q + f) n = Z.testbit f n.
Proof.
  intros Hn. rewrite <- (Z.mod_pow2_bits_low _ k) by lia.
  rewrite <- (Z.mod_pow2_bits_low f k) by lia. f_equal.
  rewrite Z.add_comm, Z.mul_comm. apply Z_mod_plus_full.
Qed.

(** Setting low bits of a word whose low bits are clear. *)
Lemma lor_low q k f : 0 <= k -> 0 <= f < 2 ^ k -> Z.lor (2 ^ k * q) f = 2 ^ k * q + f.
Proof.
  intros Hk Hf. assert (Z.land (2 ^ k * q) f = 0) as E.
  { apply Z.bits_inj'. intros n Hn. rewrite Z.land_spec, Z.bits_0.
    destruct (Z.ltb_spec n k).
    - rewrite <- (Z.add_0_r (2 ^ k * q)), testbit_page by lia. by rewrite Z.bits_0.
    - rewrite <- (Z.mod_small f (2 ^ k)) by lia.
      rewrite (Z.mod_pow2_bits_high f k n) by lia. apply andb_false_r. }
  pose proof (Z.add_lor_land (2 ^ k * q) f). lia.
Qed.

Lemma div_page q k f : 0 <= k -> 0 <= f < 2 ^ k -> (2 ^ k * q + f) / 2 ^ k = q.
Proof. intros Hk Hf. symmetry. apply (Z.div_unique_pos _ _ _ f); lia. Qed.

(** ** Results of C code

    [Ok] is a normal return; [Undef] is undefined behaviour of the C abstract
    machine (an access outside an object, a read of an uninitialised local, a
    division by zero) or a fault of the CPU; [NoFuel] says that a loop was cut
    off by its fuel. The two are kept apart so that a theorem which says that a
    call runs into undefined behaviour is not about a short fuel. *)

Inductive res (A : Type) : Type :=
| Ok (x : A)
| Undef
| NoFuel.
Arguments Ok {A} x.
Arguments Undef {A}.
Arguments NoFuel {A}.

#[export] Instance res_ret : MRet res := fun A x => Ok x.
#[export] Instance res_bind : MBind res := fun A B f m =>
  match m with Ok x => f x | Undef => Undef | NoFuel => NoFuel end.

Lemma res_bind_ok {A B} (x : A) (f : A -> res B) : (Ok x ≫= f) = f x.
Proof. reflexivity. Qed.

Lemma res_bind_assoc {A B C} (m : res A) (f : A -> res B) (g : B -> res C) :
  (m ≫= f) ≫= g = m ≫= (fun x => f x ≫= g).
Proof. by destruct m. Qed.

Lemma res_bind_ok_inv {A B} (m : res A) (f : A -> res B) y :
  (m ≫= f) = Ok y -> exists x, m = Ok x /\ f x = Ok y.
Proof. destruct m; try discriminate. eauto. Qed.

(** [rstep] computes through the returns of a result computation. *)
Ltac rstep := rewrite ?res_bind_ok; cbn [mbind res_bind mret res_ret].

(** [res_inv] takes apart every hypothesis that says that a sequence of steps
    returned. *)
Ltac res_inv :=
  repeat match goal with
  | H : (_ ≫= _) = Ok _ |- _ => apply res_bind_ok_inv in H as (? & ? & H)
  | H : Ok _ = Ok _ |- _ => injection H as H
  end; subst.

(** ** C arrays

    A C array object is the list of its elements; an index outside it is
    [Undef] on reads and on writes. *)

Section Arrays.
Context {A : Type}.
Implicit Types (l : list A) (x : A) (i j : Z).

Definition zlen l : Z := Z.of_nat (length l).

Definition aget l i : res A :=
  if i <? 0 then Undef
  else match l !! Z.to_nat i with Some x => Ok x | None => Undef end.

Definition aset l i x : res (list A) :=
  if (0 <=? i) && (i <? zlen l) then Ok (<[Z.to_nat i := x]> l) else Undef.

Lemma zlen_app l k : zlen (l ++ k) = zlen l + zlen k.
Proof. unfold zlen. rewrite length_app. lia. Qed.

Lemma zlen_cons x l : zlen (x :: l) = 1 + zlen l.
Proof. unfold zlen. simpl. lia. Qed.

Lemma zlen_nil : zlen (@nil A) = 0.
Proof. done. Qed.

Lemma zlen_nonneg l : 0 <= zlen l.
Proof. unfold zlen. lia. Qed.

Lemma aget_lookup l i x :
  aget l i = Ok x <-> 0 <= i /\ l !! Z.to_nat i = Some x.
Proof.
  unfold aget. destruct (Z.ltb_spec i 0).
  - split; [discriminate | lia].
  - destruct (l !! Z.to_nat i) eqn:E.
    + split; [intros [= ->]; auto | intros [_ [= ->]]; auto].
    + split; [discriminate | intros [_ [=]]].
Qed.

Lemma aget_nat l (n : nat) x : l !! n = Some x -> aget l (Z.of_nat n) = Ok x.
Proof. intros. apply aget_lookup. rewrite Nat2Z.id. split; [lia | done]. Qed.

Lemma aget_in_range l i : 0 <= i < zlen l -> exists x, aget l i = Ok x.
Proof.
  unfold zlen. intros Hi.
  destruct (lookup_lt_is_Some_2 l (Z.to_nat i)) as [x Hx]; [lia |].
  exists x. apply aget_lookup. split; [lia | done].
Qed.

Lemma aget_Ok_range l i x : aget l i = Ok x -> 0 <= i < zlen l.
Proof.
  rewrite aget_lookup. intros [Hi Hl%lookup_lt_Some]. unfold zlen. lia.
Qed.

Lemma aget_out l i : i < 0 \/ zlen l <= i -> aget l i = Undef.
Proof.
  unfold zlen, aget. intros Hi. destruct (Z.ltb_spec i 0); [done |].
  rewrite (proj2 (lookup_ge_None l (Z.to_nat i))); [done | lia].
Qed.

Lemma aset_in l i x :
  0 <= i < zlen l -> aset l i x = Ok (<[Z.to_nat i := x]> l).
Proof. intros. unfold aset. by zcases. Qed.

Lemma aset_out l i x : i < 0 \/ zlen l <= i -> aset l i x = Undef.
Proof. intros. unfold aset. by zcases. Qed.

Lemma aset_Ok l i x l' :
  aset l i x = Ok l' -> 0 <= i < zlen l /\ l' = <[Z.to_nat i := x]> l.
Proof. unfold aset. zcases. by intros [= <-]. Qed.

Lemma zlen_insert l n x : zlen (<[n := x]> l) = zlen l.
Proof. unfold zlen. by rewrite length_insert. Qed.

Lemma zlen_aset l i x l' : aset l i x = Ok l' -> zlen l' = zlen l.
Proof. intros [_ ->]%aset_Ok. apply zlen_insert. Qed.

Lemma aget_insert_eq l i x :
  0 <= i < zlen l -> aget (<[Z.to_nat i := x]> l) i = Ok x.
Proof.
  unfold zlen. intros. apply aget_lookup. split; [lia |].
  apply list_lookup_insert_eq. lia.
Qed.

Lemma aget_insert_ne l i j x :
  i <> j -> 0 <= i -> aget (<[Z.to_nat i := x]> l) j = aget l j.
Proof.
  intros. unfold aget. destruct (Z.ltb_spec j 0); [done |].
  rewrite list_lookup_insert_ne by lia. done.
Qed.

Lemma aget_app_l l k i : i < zlen l -> aget (l ++ k) i = aget l i.
Proof.
  unfold zlen, aget. intros. destruct (Z.ltb_spec i 0); [done |].
  rewrite lookup_app_l by lia. done.
Qed.

Lemma aget_app_r l k i :
  zlen l <= i -> aget (l ++ k) i = aget k (i - zlen l).
Proof.
  unfold zlen, aget. intros. rewrite lookup_app_r by lia.
  zcases. replace (Z.to_nat i - length l)%nat
    with (Z.to_nat (i - Z.of_nat (length l))) by lia. done.
Qed.

(** Two arrays with the same reads are the same array. *)
Lemma array_ext l k :
  zlen l = zlen k ->
  (forall i, 0 <= i < zlen l -> aget l i = aget k i) -> l = k.
Proof.
  unfold zlen. intros Hlen Hext. apply list_eq_same_length with (length k); [done | lia |].
  intros i x y Hi Hx Hy.
  specialize (Hext (Z.of_nat i) ltac:(lia)).
  rewrite (aget_nat _ _ _ Hx), (aget_nat _ _ _ Hy) in Hext. congruence.
Qed.
End Arrays.

Create HintDb arrays.
Create Rewrite HintDb arrays.
#[export] Hint Rewrite @zlen_app @zlen_cons @zlen_nil @zlen_insert @length_insert : arrays.
#[export] Hint Resolve zlen_nonneg : arrays.

(** ** Counting loops

    [for_range lo hi body] is the C loop [for (i = lo; i < hi; i++) body] of a
    body without [break]. *)

Section Loops.
Context {S : Type}.

Fixpoint for_loop (n : nat) (i : Z) (body : Z -> S -> res S) (s : S) : res S :=
  match n with
  | O => Ok s
  | Datatypes.S n => s' ← body i s; for_loop n (i + 1) body s'
  end.

Definition for_range (lo hi : Z) (body : Z -> S -> res S) (s : S) : res S :=
  for_loop (Z.to_nat (hi - lo)) lo body s.

Lemma for_loop_inv (Inv : Z -> S -> Prop) body n i s :
  Inv i s ->
  (forall j t, i <= j < i + Z.of_nat n -> Inv j t ->
     exists t', body j t = Ok t' /\ Inv (j + 1) t') ->
  exists s', for_loop n i body s = Ok s' /\ Inv (i + Z.of_nat n) s'.
Proof.
  revert i s. induction n as [|n IH]; intros i s H0 Hstep; cbn [for_loop].
  - exists s. by rewrite Z.add_0_r.
  - destruct (Hstep i s ltac:(lia) H0) as (s1 & -> & H1). rstep.
    destruct (IH (i + 1) s1 H1) as (s2 & -> & H2).
    { intros j t Hj. apply Hstep. lia. }
    exists s2. split; [done |].
    by replace (i + Z.of_nat (Datatypes.S n)) with (i + 1 + Z.of_nat n) by lia.
Qed.

(** The invariant rule of a counting loop: it also says that the loop
    returns. *)
(** A relation that every turn of the loop keeps, when the loop returns. *)
Lemma for_loop_rel (R : S -> S -> Prop) body n i s s' :
  (forall x, R x x) -> (forall x y z, R x y -> R y z -> R x z) ->
  (forall j x y, body j x = Ok y -> R x y) -> for_loop n i body s = Ok s' -> R s s'.
Proof.
  intros Hrefl Htrans Hbody. revert i s. induction n as [|n IH]; intros i s; cbn [for_loop].
  - by intros [= <-].
  - intros (t & Et & E)%res_bind_ok_inv. eapply Htrans; [by eapply Hbody | by eapply IH].
Qed.

Lemma for_range_inv (Inv : Z -> S -> Prop) body lo hi s :
  lo <= hi -> Inv lo s ->
  (forall j t, lo <= j < hi -> Inv j t ->
     exists t', body j t = Ok t' /\ Inv (j + 1) t') ->
  exists s', for_range lo hi body s = Ok s' /\ Inv hi s'.
Proof.
  intros Hle H0 Hstep. unfold for_range.
  destruct (for_loop_inv Inv body (Z.to_nat (hi - lo)) lo s H0) as (s' & E & H').
  { intros j t Hj. apply Hstep. lia. }
  exists s'. split; [done |]. by replace hi with (lo + Z.of_nat (Z.to_nat (hi - lo))) by lia.
Qed.
End Loops.

(** ** Readers

    A [const char *] argument is a [reader]: what the pointer's [i]-th byte
    is. A pointer into an array object reads [aget]; a pointer into memory
    reads memory. *)

Definition reader := Z -> res Z.

Definition roff (r : reader) (k : Z) : reader := fun i => r (k + i).

(** [cstr r s]: the reader holds the C string [s], that is its bytes (none of
    them NUL) and then a NUL. *)
Definition cstr (r : reader) (s : list Z) : Prop :=
  (forall n c, s !! n = Some c -> r (Z.of_nat n) = Ok c /\ c <> 0 /\ byte_ok c) /\
  r (zlen s) = Ok 0.

Definition nonnul (s : list Z) : Prop := Forall (fun c => c <> 0 /\ byte_ok c) s.

Lemma cstr_nonnul r s : cstr r s -> nonnul s.
Proof.
  intros [H _]. apply Forall_lookup. intros n c Hc.
  destruct (H n c Hc) as (_ & ? & ?). done.
Qed.

Lemma cstr_array s rest : nonnul s -> cstr (aget (s ++ 0 :: rest)) s.
Proof.
  intros Hs. split.
  - intros n c Hc. split.
    + apply aget_nat. apply lookup_app_l_Some. done.
    + by apply (Forall_lookup_1 _ _ _ _ Hs Hc).
  - unfold zlen. apply aget_nat. rewrite lookup_app_r by lia.
    by rewrite Nat.sub_diag.
Qed.

(** The string a reader holds is unique. *)
Lemma cstr_unique r s t : cstr r s -> cstr r t -> s = t.
Proof.
  assert (Hlen : forall a b, cstr r a -> cstr r b -> (length a <= length b)%nat).
  { intros a b [Ha _] [_ Hb]. destruct (decide (length a <= length b)%nat); [done |].
    destruct (lookup_lt_is_Some_2 a (length b)) as [c Hc]; [lia |].
    destruct (Ha _ _ Hc) as (E & ? & _). unfold zlen in Hb. congruence. }
  intros Hs Ht. pose proof (Hlen _ _ Hs Ht). pose proof (Hlen _ _ Ht Hs).
  apply list_eq_same_length with (length t); [done | lia |].
  intros i x y _ Hx Hy. destruct (proj1 Hs _ _ Hx) as (E1 & _).
  destruct (proj1 Ht _ _ Hy) as (E2 & _). congruence.
Qed.
