(* ===== verification/Strings.v ===== *)
(** * The string routines of the kernel library

    [student-distrib/lib.c]: [strlen], [strrev], [itoa], [strncmp], [strcpy]
    and [strncpy]. A [const char *] is a [reader], a [char *] that is written
    is the array object it points into; the loops carry the code's own index
    variables. Loops over a string of unknown length take fuel; the theorems
    give the fuel that is enough. *)

From S2P Require Import Prelude.

Local Open Scope Z_scope.

(** ** The code *)

(** [while (s[len] != '\0') len++;] with [len] a [uint32_t]. *)
Fixpoint strlen_loop (fuel : nat) (s : reader) (len : Z) : res Z :=
  match fuel with
  | O => NoFuel
  | S fuel =>
      c ← s len;
      if c =? 0 then Ok len else strlen_loop fuel s (u32 (len + 1))
  end.

Definition strlen (fuel : nat) (s : reader) : res Z := strlen_loop fuel s 0.

(** The swap loop of [strrev]. *)
Fixpoint strrev_loop (fuel : nat) (s : list Z) (beg end_ : Z) : res (list Z) :=
  match fuel with
  | O => NoFuel
  | S fuel =>
      if beg <? end_ then
        tmp ← aget s end_;
        x ← aget s beg;
        s1 ← aset s end_ x;
        s2 ← aset s1 beg tmp;
        strrev_loop fuel s2 (beg + 1) (end_ - 1)
      else Ok s
  end.

Definition strrev (s : list Z) : res (list Z) :=
  n ← strlen (S (length s)) (aget s);
  strrev_loop (S (length s)) s 0 (s32 (n - 1)).

(** [static int8_t lookup[]]: the 36 digits and the terminating NUL. *)
Definition lookup_digits : list Z :=
  [48; 49; 50; 51; 52; 53; 54; 55; 56; 57;
   65; 66; 67; 68; 69; 70; 71; 72; 73; 74; 75; 76; 77;
   78; 79; 80; 81; 82; 83; 84; 85; 86; 87; 88; 89; 90; 0].

(** The digit loop: [newval] is [uint32_t], so [radix] is converted to
    unsigned in [newval % radix] and [newval /= radix]. Every round writes one
    more byte of [buf], so the length of [buf] bounds the rounds. *)
Fixpoint itoa_loop (fuel : nat) (newval : Z) (buf : list Z) (newbuf radix : Z)
    : res (list Z * Z) :=
  match fuel with
  | O => NoFuel
  | S fuel =>
      if 0 <? newval then
        if u32 radix =? 0 then Undef else
        d ← aget lookup_digits (s32 (newval mod u32 radix));
        buf' ← aset buf newbuf d;
        itoa_loop fuel (newval / u32 radix) buf' (newbuf + 1) radix
      else Ok (buf, newbuf)
  end.

Definition itoa (value : Z) (buf : list Z) (radix : Z) : res (list Z) :=
  if value =? 0 then
    buf1 ← aset buf 0 48;
    aset buf1 1 0
  else
    '(buf1, newbuf) ← itoa_loop (S (length buf)) value buf 0 radix;
    buf2 ← aset buf1 newbuf 0;
    strrev buf2.

(** [strncmp]: characters are signed ([int8_t]). *)
Fixpoint strncmp_loop (fuel : nat) (s1 s2 : reader) (i : Z) : res Z :=
  match fuel with
  | O => Ok 0
  | S fuel =>
      c1 ← s1 i;
      c2 ← s2 i;
      if negb (c1 =? c2) || (c1 =? 0) then Ok (s8 c1 - s8 c2)
      else strncmp_loop fuel s1 s2 (i + 1)
  end.

Definition strncmp (s1 s2 : reader) (n : Z) : res Z :=
  strncmp_loop (Z.to_nat n) s1 s2 0.

Fixpoint strcpy_loop (fuel : nat) (dest : list Z) (src : reader) (i : Z)
    : res (list Z) :=
  match fuel with
  | O => NoFuel
  | S fuel =>
      c ← src i;
      if c =? 0 then aset dest i 0
      else
        dest' ← aset dest i c;
        strcpy_loop fuel dest' src (i + 1)
  end.

Definition strcpy (fuel : nat) (dest : list Z) (src : reader) : res (list Z) :=
  strcpy_loop fuel dest src 0.

(** First loop of [strncpy]: [src[i]] is read before [i < n] is tested. *)
Fixpoint strncpy_loop (fuel : nat) (dest : list Z) (src : reader) (i n : Z)
    : res (list Z * Z) :=
  match fuel with
  | O => NoFuel
  | S fuel =>
      c ← src i;
      if negb (c =? 0) && (i <? n) then
        dest' ← aset dest i c;
        strncpy_loop fuel dest' src (i + 1) n
      else Ok (dest, i)
  end.

Definition strncpy (dest : list Z) (src : reader) (n : Z) : res (list Z) :=
  '(dest1, i) ← strncpy_loop (S (Z.to_nat n)) dest src 0 n;
  for_range i n (fun j d => aset d j 0) dest1.

(** ** Reading strings *)

(** The bytes of a fixed-width field. *)
Definition field (r : reader) (b : list Z) : Prop :=
  forall n c, b !! n = Some c -> r (Z.of_nat n) = Ok c /\ byte_ok c.

(** The string a field holds: its bytes up to the first NUL. *)
Fixpoint upto_nul (b : list Z) : list Z :=
  match b with
  | [] => []
  | c :: b => if c =? 0 then [] else c :: upto_nul b
  end.

Lemma cstr_roff0 r s : cstr r s -> cstr (roff r 0) s.
Proof. intros [H1 H2]. split; intros; unfold roff; [by apply H1 | done]. Qed.

Lemma field_roff0 r s : field r s -> field (roff r 0) s.
Proof. intros H n c Hc. unfold roff. by apply H. Qed.

Lemma roff_succ_cstr r i c s :
  cstr (roff r i) (c :: s) ->
  r i = Ok c /\ c <> 0 /\ byte_ok c /\ cstr (roff r (i + 1)) s.
Proof.
  intros [H1 H2]. destruct (H1 0%nat c eq_refl) as (E & ? & ?).
  unfold roff in *. rewrite Z.add_0_r in E. split_and!; try done. split.
  - intros n x Hx. destruct (H1 (S n) x Hx) as (Hr & ? & ?).
    by replace (i + 1 + Z.of_nat n) with (i + Z.of_nat (S n)) by lia.
  - rewrite zlen_cons in H2. by rewrite <- Z.add_assoc.
Qed.

Lemma roff_nil_cstr r i : cstr (roff r i) [] -> r i = Ok 0.
Proof. intros [_ H]. unfold roff in H. by rewrite Z.add_0_r in H. Qed.

Lemma roff_succ_field r i c b :
  field (roff r i) (c :: b) ->
  r i = Ok c /\ byte_ok c /\ field (roff r (i + 1)) b.
Proof.
  intros H. destruct (H 0%nat c eq_refl) as (E & ?).
  unfold roff in *. rewrite Z.add_0_r in E. split_and!; try done.
  intros n x Hx. destruct (H (S n) x Hx) as (Hr & ?).
  by replace (i + 1 + Z.of_nat n) with (i + Z.of_nat (S n)) by lia.
Qed.

Lemma upto_nul_id s rest : nonnul s -> upto_nul (s ++ 0 :: rest) = s.
Proof.
  induction 1 as [|c s [Hc _] _ IH]; simpl; [done |].
  destruct (Z.eqb_spec c 0); [done |]. by rewrite IH.
Qed.

Lemma upto_nul_length b : (length (upto_nul b) <= length b)%nat.
Proof. induction b as [|c b IH]; simpl; [lia |]. zcases. Qed.

(** ** [strlen] *)

Lemma strlen_loop_spec s r i fuel :
  cstr (roff r i) s -> 0 <= i -> i + zlen s < 2 ^ 32 -> (length s < fuel)%nat ->
  strlen_loop fuel r i = Ok (i + zlen s).
Proof.
  revert i fuel. induction s as [|c s IH]; intros i fuel Hs Hi Hb Hf;
    (destruct fuel as [|fuel]; [simpl in Hf; lia |]); simpl.
  - rewrite (roff_nil_cstr _ _ Hs). rstep. f_equal. unfold zlen. simpl. lia.
  - destruct (roff_succ_cstr _ _ _ _ Hs) as (-> & Hc & _ & Hs'). rstep.
    rewrite zlen_cons in *. zcases. pose proof (zlen_nonneg s).
    rewrite u32_id by lia. simpl in Hf.
    rewrite (IH (i + 1) fuel) by (done || lia). f_equal. lia.
Qed.

Lemma strlen_spec r s fuel :
  cstr r s -> zlen s < 2 ^ 32 -> (length s < fuel)%nat ->
  strlen fuel r = Ok (zlen s).
Proof.
  intros Hs Hb Hf. unfold strlen.
  by rewrite (strlen_loop_spec s r 0 fuel) by (done || lia || by apply cstr_roff0).
Qed.

(** ** [strcpy] *)

Lemma aset_app_mid {A} (p q : list A) x y i :
  i = zlen p -> aset (p ++ x :: q) i y = Ok (p ++ y :: q).
Proof.
  intros ->. rewrite aset_in.
  - f_equal. unfold zlen. rewrite Nat2Z.id.
    rewrite insert_app_r_alt by lia. by rewrite Nat.sub_diag.
  - pose proof (zlen_nonneg p). pose proof (zlen_nonneg q).
    autorewrite with arrays. lia.
Qed.

Lemma aget_app_mid {A} (p q : list A) x i :
  i = zlen p -> aget (p ++ x :: q) i = Ok x.
Proof. intros ->. rewrite aget_app_r by lia. by rewrite Z.sub_diag. Qed.

Lemma snoc_shift {A} (p : list A) x q : (p ++ [x]) ++ q = p ++ x :: q.
Proof. by rewrite <- app_assoc. Qed.

Lemma strcpy_loop_fits s r p q i fuel :
  cstr (roff r i) s -> i = zlen p -> (length s < length q)%nat ->
  (length s < fuel)%nat ->
  strcpy_loop fuel (p ++ q) r i = Ok (p ++ s ++ 0 :: drop (S (length s)) q).
Proof.
  revert p q i fuel. induction s as [|c s IH]; intros p q i fuel Hs Hi Hq Hf;
    (destruct fuel as [|fuel]; [simpl in Hf; lia |]);
    (destruct q as [|x q]; [simpl in Hq; lia |]); simpl in *.
  - rewrite (roff_nil_cstr _ _ Hs). rstep. by rewrite aset_app_mid by done.
  - destruct (roff_succ_cstr _ _ _ _ Hs) as (-> & Hc & _ & Hs'). rstep. zcases.
    rewrite aset_app_mid by done. rstep. rewrite <- snoc_shift.
    rewrite (IH (p ++ [c]) q (i + 1) fuel); [by rewrite snoc_shift | done | | lia | lia].
    subst i. rewrite zlen_app. done.
Qed.

Lemma strcpy_loop_overflow s r p q i fuel :
  cstr (roff r i) s -> i = zlen p -> (length q <= length s)%nat ->
  (length s < fuel)%nat ->
  strcpy_loop fuel (p ++ q) r i = Undef.
Proof.
  revert p q i fuel. induction s as [|c s IH]; intros p q i fuel Hs Hi Hq Hf;
    (destruct fuel as [|fuel]; [simpl in Hf; lia |]); simpl in *.
  - rewrite (roff_nil_cstr _ _ Hs). rstep. destruct q; [|simpl in Hq; lia].
    rewrite aset_out; [done |]. rewrite app_nil_r. lia.
  - destruct (roff_succ_cstr _ _ _ _ Hs) as (-> & Hc & _ & Hs'). rstep. zcases.
    destruct q as [|x q].
    + rewrite aset_out; [done |]. rewrite app_nil_r. lia.
    + simpl in Hq. rewrite aset_app_mid by done. rstep. rewrite <- snoc_shift.
      apply IH; [done | | lia | lia]. subst i. by rewrite zlen_app.
Qed.

(** The copy fits exactly when the destination has room for the string and
    its NUL; it leaves the rest of the destination alone. *)
Lemma strcpy_fits r s dest fuel :
  cstr r s -> (length s < length dest)%nat -> (length s < fuel)%nat ->
  strcpy fuel dest r = Ok (s ++ 0 :: drop (S (length s)) dest).
Proof.
  intros Hs Hd Hf.
  apply (strcpy_loop_fits s r [] dest 0 fuel (cstr_roff0 _ _ Hs)); done.
Qed.

Lemma strcpy_overflow r s dest fuel :
  cstr r s -> (length dest <= length s)%nat -> (length s < fuel)%nat ->
  strcpy fuel dest r = Undef.
Proof.
  intros Hs Hd Hf.
  apply (strcpy_loop_overflow s r [] dest 0 fuel (cstr_roff0 _ _ Hs)); done.
Qed.

(** ** [strncpy] and [strncmp] on fixed-width fields *)

Lemma strncpy_loop_spec b r p q i n fuel :
  field (roff r i) b -> i = zlen p -> n = i + zlen b ->
  (upto_nul b = b -> exists c, r n = Ok c) ->
  (length b <= length q)%nat -> (length b < fuel)%nat ->
  strncpy_loop fuel (p ++ q) r i n =
  Ok (p ++ upto_nul b ++ drop (length (upto_nul b)) q, i + zlen (upto_nul b)).
Proof.
  revert p q i fuel. induction b as [|c b IH]; intros p q i fuel Hb Hi Hn Hr Hq Hf;
    (destruct fuel as [|fuel]; [simpl in Hf; lia |]); simpl in *.
  - destruct (Hr eq_refl) as [c Hc]. unfold zlen in Hn. simpl in Hn.
    replace n with i in * by lia. rewrite Hc. rstep.
    rewrite Z.ltb_irrefl, andb_false_r. unfold zlen. simpl. by rewrite Z.add_0_r.
  - destruct (roff_succ_field _ _ _ _ Hb) as (-> & Hc & Hb'). rstep.
    rewrite zlen_cons in Hn. pose proof (zlen_nonneg b).
    destruct (Z.eqb_spec c 0) as [->|Hne]; simpl.
    + unfold zlen. simpl. by rewrite Z.add_0_r.
    + destruct (Z.ltb_spec i n); [|lia]. destruct q as [|x q]; [simpl in Hq; lia |].
      rewrite aset_app_mid by done. rstep. rewrite <- snoc_shift.
      rewrite (IH (p ++ [c]) q (i + 1) fuel).
      * rewrite snoc_shift, zlen_cons. simpl. do 2 f_equal. lia.
      * done.
      * subst i. by rewrite zlen_app.
      * lia.
      * intros E. apply Hr. by rewrite E.
      * simpl in Hq. lia.
      * lia.
Qed.

Lemma for_loop_fill (p q : list Z) i k v :
  i = zlen p -> (k <= length q)%nat ->
  for_loop k i (fun j d => aset d j v) (p ++ q) = Ok (p ++ replicate k v ++ drop k q).
Proof.
  revert p q i. induction k as [|k IH]; intros p q i Hi Hk; simpl; [done |].
  destruct q as [|x q]; [simpl in Hk; lia |].
  rewrite aset_app_mid by done. rstep. rewrite <- snoc_shift.
  rewrite (IH (p ++ [v]) q (i + 1)); [by rewrite snoc_shift | | simpl in Hk; lia].
  subst i. by rewrite zlen_app.
Qed.

(** [strncpy dest src n] copies the string of the [n]-byte field [b] and pads
    with NULs to [n] bytes. It reads [src[n]] when the field has no NUL. *)
Lemma strncpy_spec r b dest n :
  field r b -> n = zlen b -> (upto_nul b = b -> exists c, r n = Ok c) ->
  (length b <= length dest)%nat ->
  strncpy dest r n =
  Ok (upto_nul b ++ replicate (length b - length (upto_nul b)) 0 ++ drop (length b) dest).
Proof.
  intros Hb Hn Hr Hd. unfold strncpy. pose proof (upto_nul_length b).
  assert (Z.to_nat n = length b) as -> by (subst n; unfold zlen; lia).
  pose proof (strncpy_loop_spec b r [] dest 0 n (S (length b)) (field_roff0 _ _ Hb)) as E.
  rewrite !app_nil_l in E. rewrite E by (done || lia). clear E. rstep. unfold for_range.
  replace (Z.to_nat (n - (0 + zlen (upto_nul b))))
    with (length b - length (upto_nul b))%nat by (subst n; unfold zlen; lia).
  rewrite for_loop_fill; [| lia | rewrite length_drop; lia].
  rewrite drop_drop. do 4 f_equal. lia.
Qed.

Lemma strncmp_loop_spec b s r1 r2 i :
  cstr (roff r1 i) s -> field (roff r2 i) b -> (length s < length b)%nat ->
  exists d, strncmp_loop (length b) r1 r2 i = Ok d /\ (d = 0 <-> upto_nul b = s).
Proof.
  revert s i. induction b as [|c b IH]; intros s i Hs Hb Hl; [simpl in Hl; lia |].
  destruct (roff_succ_field _ _ _ _ Hb) as (E2 & Hc & Hb'). simpl. rewrite E2.
  destruct s as [|x s].
  - rewrite (roff_nil_cstr _ _ Hs). rstep. rewrite orb_true_r.
    exists (s8 0 - s8 c). split; [done |]. destruct (Z.eqb_spec c 0) as [->|Hne].
    + done.
    + split; [|done]. intros Hz. exfalso. apply Hne. symmetry.
      apply s8_inj; [done | done | lia].
  - destruct (roff_succ_cstr _ _ _ _ Hs) as (-> & Hx & Hxb & Hs'). rstep.
    destruct (Z.eqb_spec x 0); [done |]. destruct (Z.eqb_spec x c) as [->|Hxc]; simpl.
    + destruct (IH s (i + 1) Hs' Hb') as (d & -> & Hd); [simpl in Hl; lia |].
      exists d. split; [done |]. rewrite Hd. destruct (Z.eqb_spec c 0); [done |].
      split; [intros -> | intros [= ->]]; done.
    + exists (s8 x - s8 c). split; [done |]. destruct (Z.eqb_spec c 0).
      * split; [|done]. intros. exfalso. apply Hxc. apply s8_inj; [done.. | lia].
      * split; [|congruence]. intros. exfalso. apply Hxc. apply s8_inj; [done.. | lia].
Qed.

(** Comparing a string shorter than [n] with an [n]-byte field: the result is
    zero exactly when the field holds that string. *)
Lemma strncmp_field r1 r2 s b n :
  cstr r1 s -> field r2 b -> n = zlen b -> zlen s < n ->
  exists d, strncmp r1 r2 n = Ok d /\ (d = 0 <-> upto_nul b = s).
Proof.
  intros Hs Hb -> Hl. unfold strncmp. replace (Z.to_nat (zlen b)) with (length b)
    by (unfold zlen; lia).
  apply strncmp_loop_spec; [by apply cstr_roff0 | by apply field_roff0 |].
  unfold zlen in Hl. lia.
Qed.

(** ** [strrev] *)

Lemma strrev_loop_spec fuel p mid q :
  (length mid < fuel)%nat ->
  strrev_loop fuel (p ++ mid ++ q) (zlen p) (zlen p + zlen mid - 1) =
  Ok (p ++ reverse mid ++ q).
Proof.
  revert p mid q. induction fuel as [|fuel IH]; intros p mid q Hf; [lia |]. simpl.
  destruct mid as [|x mid].
  { autorewrite with arrays. by zcases. }
  destruct mid as [|y m _] using rev_ind.
  { autorewrite with arrays. by zcases. }
  rewrite reverse_cons, reverse_snoc. simpl in Hf. rewrite length_app in Hf.
  autorewrite with arrays. pose proof (zlen_nonneg m). simpl in Hf.
  destruct (Z.ltb_spec (zlen p)
    (zlen p + (1 + (zlen m + (1 + 0))) - 1)); [|lia].
  set (e := zlen p + (1 + (zlen m + (1 + 0))) - 1).
  assert (He : e = zlen (p ++ x :: m)) by (subst e; autorewrite with arrays; lia).
  replace (p ++ (x :: m ++ [y]) ++ q) with ((p ++ x :: m) ++ y :: q)
    by (simpl; by rewrite <- !app_assoc).
  rewrite (aget_app_mid (p ++ x :: m) q y e) by done. rstep.
  rewrite <- app_assoc, <- app_comm_cons.
  rewrite (aget_app_mid p (m ++ y :: q) x (zlen p)) by done. rstep.
  rewrite app_comm_cons, app_assoc, (aset_app_mid (p ++ x :: m) q y x e) by done. rstep.
  rewrite <- app_assoc, <- app_comm_cons, (aset_app_mid p (m ++ x :: q) x y (zlen p)) by done. rstep.
  replace (zlen p + 1) with (zlen (p ++ [y])) by (by rewrite zlen_app).
  replace (e - 1) with (zlen (p ++ [y]) + zlen m - 1)
    by (subst e; autorewrite with arrays; lia).
  rewrite <- (snoc_shift p y), IH by lia.
  simpl. by rewrite <- !app_assoc.
Qed.

(** [strrev] reverses the string and keeps what follows it. *)
Lemma strrev_spec s rest :
  nonnul s -> zlen s < 2 ^ 31 ->
  strrev (s ++ 0 :: rest) = Ok (reverse s ++ 0 :: rest).
Proof.
  intros Hs Hl. unfold strrev.
  assert (Hlt : (length s < length (s ++ 0%Z :: rest))%nat) by (rewrite length_app; simpl; lia).
  rewrite (strlen_spec _ s) by first [by apply cstr_array | lia].
  rstep. pose proof (zlen_nonneg s).
  rewrite s32_id by lia.
  apply (strrev_loop_spec _ [] s (0 :: rest)). lia.
Qed.

(** ** [itoa] *)

(** The number a list of digits denotes, most significant digit first. *)
Definition num_of (r : Z) (ds : list Z) : Z := fold_left (fun acc d => acc * r + d) ds 0.

Definition digit_char (d : Z) : Z := default 0 (lookup_digits !! Z.to_nat d).

(** The value of a printed digit. *)
Definition char_val (c : Z) : Z := if c <=? 57 then c - 48 else c - 55.

Lemma digit_char_ok d :
  0 <= d < 36 ->
  aget lookup_digits d = Ok (digit_char d) /\ digit_char d <> 0 /\
  byte_ok (digit_char d) /\ char_val (digit_char d) = d.
Proof.
  intros Hd. pattern d. apply (Forall_forall _ (seqZ 0 36)); [|apply elem_of_seqZ; lia].
  let l := eval vm_compute in (seqZ 0 36) in change (seqZ 0 36) with l.
  repeat (constructor; [vm_compute; intuition congruence |]). constructor.
Qed.

Definition lsf_val (r : Z) (ds : list Z) : Z := foldr (fun d acc => d + r * acc) 0 ds.

Lemma num_of_reverse r ds : num_of r (reverse ds) = lsf_val r ds.
Proof.
  unfold num_of, lsf_val. induction ds as [|d ds IH]; [done |].
  rewrite reverse_cons, fold_left_app. simpl. rewrite IH. lia.
Qed.

Lemma itoa_loop_spec q t r v p fuel :
  2 <= r <= 36 -> 0 <= v < 2 ^ 32 -> v < r ^ zlen q -> (length q < fuel)%nat ->
  exists ds, itoa_loop fuel v (p ++ q ++ t) (zlen p) r =
      Ok (p ++ map digit_char ds ++ drop (length ds) (q ++ t), zlen p + zlen ds) /\
    Forall (fun d => 0 <= d < r) ds /\ lsf_val r ds = v /\ (length ds <= length q)%nat /\
    (v = 0 -> ds = []) /\ (v <> 0 -> exists ds' d, ds = ds' ++ [d] /\ d <> 0).
Proof.
  intros Hr. assert (Hu : u32 r = r) by (apply u32_id; lia).
  revert v p fuel. induction q as [|x q IH]; intros v p fuel Hv Hp Hf;
    (destruct fuel as [|fuel]; [simpl in Hf; lia |]); simpl.
  - rewrite zlen_nil in Hp. destruct (Z.ltb_spec 0 v); [lia |].
    exists []. rewrite zlen_nil, Z.add_0_r. simpl. split_and!; (done || lia).
  - destruct (Z.ltb_spec 0 v).
    2:{ exists []. rewrite zlen_nil, Z.add_0_r. simpl. split_and!; (done || lia). }
    rewrite Hu. destruct (Z.eqb_spec r 0); [lia |].
    pose proof (Z.mod_pos_bound v r ltac:(lia)). rewrite s32_id by lia.
    destruct (digit_char_ok (v mod r)) as (-> & _ & _ & _); [lia |]. rstep.
    rewrite aset_app_mid by done. rstep. rewrite <- snoc_shift.
    replace (zlen p + 1) with (zlen (p ++ [digit_char (v mod r)])) by (by rewrite zlen_app).
    assert (0 <= v / r <= v) by (split; [apply Z.div_pos; lia | apply Z.div_le_upper_bound; nia]).
    destruct (IH (v / r) (p ++ [digit_char (v mod r)]) fuel) as (ds & -> & Hds & Hval & Hlen & Hnil & Hlast).
    { lia. }
    { apply Z.div_lt_upper_bound; [lia |]. rewrite zlen_cons in Hp.
      pose proof (zlen_nonneg q). rewrite Z.pow_add_r in Hp by lia. lia. }
    { simpl in Hf. lia. }
    exists (v mod r :: ds). simpl. split_and!.
    + rewrite snoc_shift. autorewrite with arrays. do 2 f_equal. lia.
    + constructor; done.
    + unfold lsf_val in *. simpl. rewrite Hval. rewrite Z.add_comm. symmetry. apply Z.div_mod. lia.
    + lia.
    + lia.
    + intros _. destruct (decide (v / r = 0)) as [Hz|Hz].
      * rewrite (Hnil Hz). exists [], (v mod r). split; [done |].
        apply Z.div_small_iff in Hz; [|lia]. rewrite Z.mod_small; lia.
      * destruct (Hlast Hz) as (ds' & d & -> & Hd). by exists (v mod r :: ds'), d.
Qed.

Lemma map_digit_char_nonnul r ds :
  r <= 36 -> Forall (fun d => 0 <= d < r) ds -> nonnul (map digit_char ds).
Proof.
  intros Hr Hds. apply Forall_map. eapply Forall_impl; [exact Hds |].
  intros d Hd. simpl in *. destruct (digit_char_ok d) as (_ & ? & ? & _); [lia | done].
Qed.

Lemma map_char_val r ds :
  r <= 36 -> Forall (fun d => 0 <= d < r) ds -> map char_val (map digit_char ds) = ds.
Proof.
  intros Hr Hds. rewrite map_map. induction Hds as [|d ds Hd _ IH]; simpl; [done |].
  rewrite IH. destruct (digit_char_ok d) as (_ & _ & _ & ->); [lia | done].
Qed.

Lemma map_reverse {A B} (f : A -> B) l : map f (reverse l) = reverse (map f l).
Proof. unfold reverse. rewrite <- !rev_alt. apply map_rev. Qed.

(** What [itoa] leaves in the buffer: the digits of the value, most
    significant first, a NUL, and then the bytes that were there. *)
Lemma itoa_spec v buf r :
  2 <= r <= 36 -> 0 <= v < 2 ^ 32 -> 2 <= zlen buf < 2 ^ 31 -> v < r ^ (zlen buf - 1) ->
  exists ds, itoa v buf r = Ok (map digit_char ds ++ 0 :: drop (S (length ds)) buf) /\
    Forall (fun d => 0 <= d < r) ds /\ num_of r ds = v /\ ds <> [] /\
    (v <> 0 -> head ds <> Some 0) /\ (length ds < length buf)%nat /\ (v = 0 -> ds = [0]).
Proof.
  intros Hr Hv Hb Hp. unfold itoa. destruct (Z.eqb_spec v 0) as [->|Hnz].
  - destruct buf as [|x [|y buf]]; [unfold zlen in Hb; simpl in Hb; lia.. |].
    exists [0]. simpl. split_and!; try (done || lia).
    + exact (aset_app_mid [48] buf y 0 1 eq_refl).
    + repeat constructor; lia.
  - destruct buf as [|x0 buf0 _] using rev_ind; [unfold zlen in Hb; simpl in Hb; lia |].
    rewrite zlen_app, zlen_cons, zlen_nil in *.
    replace (zlen buf0 + (1 + 0) - 1) with (zlen buf0) in Hp by lia.
    destruct (itoa_loop_spec buf0 [x0] r v [] (S (length (buf0 ++ [x0]))))
      as (ds & E & Hds & Hval & Hlen & _ & Hlast); [done.. | rewrite length_app; simpl; lia |].
    rewrite !app_nil_l, zlen_nil in E. rewrite E. clear E. rstep.
    assert (exists y rest, drop (length ds) (buf0 ++ [x0]) = y :: rest /\
              drop (S (length ds)) (buf0 ++ [x0]) = rest) as (y & rest & E1 & E2).
    { destruct (drop (length ds) (buf0 ++ [x0])) as [|y rest] eqn:E.
      - apply (f_equal length) in E. rewrite length_drop, length_app in E. simpl in E. lia.
      - exists y, rest. split; [done |]. rewrite <- Nat.add_1_r, <- drop_drop, E. done. }
    rewrite E1, aset_app_mid by (unfold zlen; rewrite length_map; lia). rstep.
    exists (reverse ds). rewrite strrev_spec.
    + rewrite map_reverse, length_reverse, E2. split_and!.
      * done.
      * by apply Forall_reverse.
      * by rewrite num_of_reverse.
      * intros Hr0. destruct (Hlast Hnz) as (ds' & d & -> & _).
        by rewrite reverse_snoc in Hr0.
      * intros _. destruct (Hlast Hnz) as (ds' & d & -> & Hd). rewrite reverse_snoc. simpl. congruence.
      * rewrite length_app. simpl. lia.
      * done.
    + apply (map_digit_char_nonnul r); [lia | done].
    + unfold zlen in *. rewrite length_map. lia.
Qed.

(** [txt] is the numeral of [v] in radix [r], as [itoa] prints it. *)
Definition numeral (r v : Z) (txt : list Z) : Prop :=
  exists ds, txt = map digit_char ds /\ Forall (fun d => 0 <= d < r) ds /\ num_of r ds = v /\
    ds <> [] /\ (v <> 0 -> head ds <> Some 0) /\ (v = 0 -> ds = [0]).

Lemma itoa_numeral v buf r :
  2 <= r <= 36 -> 0 <= v < 2 ^ 32 -> 2 <= zlen buf < 2 ^ 31 -> v < r ^ (zlen buf - 1) ->
  exists txt, itoa v buf r = Ok (txt ++ 0 :: drop (S (length txt)) buf) /\
    numeral r v txt /\ nonnul txt /\ (length txt < length buf)%nat.
Proof.
  intros Hr Hv Hb Hp. destruct (itoa_spec v buf r Hr Hv Hb Hp)
    as (ds & E & Hds & Hnum & Hne & Hhead & Hlen & Hz).
  exists (map digit_char ds). rewrite length_map. split_and!; [done | by exists ds | | done].
  by apply (map_digit_char_nonnul r); [lia |].
Qed.

Lemma num_of_cons r d ds : num_of r (d :: ds) = d * r ^ zlen ds + num_of r ds.
Proof.
  unfold num_of. cbn [fold_left]. assert (H : forall ds a, fold_left (fun acc d => acc * r + d) ds a =
    a * r ^ zlen ds + fold_left (fun acc d => acc * r + d) ds 0).
  { clear. intros ds. induction ds as [|x ds IH]; intros a; cbn [fold_left].
    - rewrite zlen_nil. lia.
    - rewrite IH, (IH (0 * r + x)), zlen_cons, Z.pow_add_r by (lia || apply zlen_nonneg). lia. }
  rewrite H. lia.
Qed.

Lemma num_of_nonneg r ds : 0 <= r -> Forall (fun d => 0 <= d < r) ds -> 0 <= num_of r ds.
Proof.
  intros Hr Hds. induction Hds as [|d ds Hd _ IH]; [done |].
  rewrite num_of_cons. pose proof (Z.pow_nonneg r (zlen ds) Hr). nia.
Qed.

(** A value below [r ^ k] has a numeral of at most [k] digits. *)
Lemma numeral_length r v txt k :
  2 <= r -> numeral r v txt -> 1 <= k -> v < r ^ k -> zlen txt <= k.
Proof.
  intros Hr (ds & -> & Hds & Hnum & Hne & Hhead & Hz) Hk Hv.
  assert (zlen (map digit_char ds) = zlen ds) as -> by (unfold zlen; by rewrite length_map).
  destruct (decide (v = 0)) as [E|E]; [rewrite (Hz E); unfold zlen; simpl; lia |].
  destruct ds as [|d ds]; [done |]. specialize (Hhead E). simpl in Hhead.
  inversion Hds as [|? ? Hd Hds']; subst. rewrite num_of_cons in Hv.
  pose proof (num_of_nonneg r ds ltac:(lia) Hds'). rewrite zlen_cons. pose proof (zlen_nonneg ds).
  assert (d <> 0) by congruence.
  assert (~ k <= zlen ds); [|lia]. intros Hle.
  pose proof (Z.pow_le_mono_r r k (zlen ds) ltac:(lia) Hle). nia.
Qed.

Lemma num_of_lt r ds : 0 < r -> Forall (fun d => 0 <= d < r) ds -> num_of r ds < r ^ zlen ds.
Proof.
  intros Hr Hds. induction Hds as [|d ds Hd _ IH]; [done |].
  rewrite num_of_cons, zlen_cons, Z.pow_add_r by (lia || apply zlen_nonneg).
  pose proof (Z.pow_pos_nonneg r (zlen ds) ltac:(lia) (zlen_nonneg ds)). nia.
Qed.

Lemma num_of_inj r ds es :
  2 <= r -> Forall (fun d => 0 <= d < r) ds -> Forall (fun d => 0 <= d < r) es ->
  zlen ds = zlen es -> num_of r ds = num_of r es -> ds = es.
Proof.
  intros Hr Hds. revert es. induction Hds as [|d ds Hd Hds IH]; intros es Hes El Hn.
  - destruct es; [done | by apply Nat2Z.inj in El].
  - destruct es as [|e es]; [by apply Nat2Z.inj in El |].
    apply Forall_cons in Hes as [He Hes]. rewrite !zlen_cons in El. rewrite !num_of_cons in Hn.
    assert (El' : zlen ds = zlen es) by lia. rewrite El' in Hn.
    pose proof (num_of_lt r ds ltac:(lia) Hds). pose proof (num_of_lt r es ltac:(lia) Hes).
    pose proof (num_of_nonneg r ds ltac:(lia) Hds). pose proof (num_of_nonneg r es ltac:(lia) Hes).
    rewrite El' in *. assert (d = e) as -> by nia. f_equal. apply IH; [done | done | lia].
Qed.

(** A value has one numeral. *)
Lemma numeral_unique r v a b : 2 <= r -> numeral r v a -> numeral r v b -> a = b.
Proof.
  intros Hr Ha Hb. pose proof Ha as (ds & -> & Hds & Hn & _ & Hh & Hz).
  pose proof Hb as (es & -> & Hes & Hm & _ & Hh' & Hz'). f_equal.
  destruct (decide (v = 0)) as [E|E]; [by rewrite Hz, Hz' |].
  assert (Hlen : forall xs ys, Forall (fun d => 0 <= d < r) xs -> Forall (fun d => 0 <= d < r) ys ->
    num_of r xs = num_of r ys -> head xs <> Some 0 -> zlen xs <= zlen ys).
  { intros xs ys Hx Hy Hxy Hx0. destruct xs as [|x xs]; [apply zlen_nonneg |].
    apply Forall_cons in Hx as [Hx1 Hx2]. simpl in Hx0. assert (x <> 0) by congruence.
    rewrite num_of_cons, zlen_cons in *. pose proof (num_of_nonneg r xs ltac:(lia) Hx2).
    pose proof (num_of_lt r ys ltac:(lia) Hy).
    assert (~ zlen ys <= zlen xs); [|lia]. intros Hle.
    pose proof (Z.pow_le_mono_r r _ _ ltac:(lia) Hle). nia. }
  apply (num_of_inj r); [done.. | | congruence].
  apply Z.le_antisymm; apply Hlen; auto; congruence.
Qed.

(** C38. The number printed by [itoa] reads back as the number: for every radix
    from 2 to 36, every 32-bit value and every buffer with room for its digits
    and the NUL, [itoa] returns, stays inside the buffer, and the string it
    leaves denotes the value in that radix, without a leading zero. *)
Theorem itoa_roundtrip v buf r :
  2 <= r <= 36 -> 0 <= v < 2 ^ 32 -> 2 <= zlen buf < 2 ^ 31 -> v < r ^ (zlen buf - 1) ->
  exists out, itoa v buf r = Ok out /\ zlen out = zlen buf /\
    num_of r (map char_val (upto_nul out)) = v /\
    (v <> 0 -> head (upto_nul out) <> Some 48).
Proof.
  intros Hr Hv Hb Hp. destruct (itoa_spec v buf r Hr Hv Hb Hp)
    as (ds & E & Hds & Hnum & Hne & Hhead & Hlen & _).
  exists (map digit_char ds ++ 0 :: drop (S (length ds)) buf). split; [done |].
  rewrite upto_nul_id by (eapply map_digit_char_nonnul; [|done]; lia).
  rewrite (map_char_val r) by (done || lia). split_and!; [|done |].
  - unfold zlen. rewrite length_app, length_map. simpl. rewrite length_drop. lia.
  - intros Hnz. specialize (Hhead Hnz). destruct ds as [|d ds]; [done |].
    inversion Hds; subst. simpl in *. intros [= E48].
    destruct (digit_char_ok d) as (_ & _ & _ & Ev); [lia |]. rewrite E48 in Ev.
    apply Hhead. f_equal. rewrite <- Ev. done.
Qed.

Lemma itoa_roundtrip_witness :
  exists out, itoa 48879 (replicate 36 7) 16 = Ok out /\ zlen out = zlen (replicate 36 7) /\
    num_of 16 (map char_val (upto_nul out)) = 48879 /\
    (48879 <> 0 -> head (upto_nul out) <> Some 48).
Proof. apply itoa_roundtrip; [lia.. | split; [vm_compute; congruence | reflexivity] | reflexivity]. Defined.
