(* ===== verification/Filesys.v ===== *)
(** * The read-only file system

    [student-distrib/filesys.c]. The image is memory: a boot block with 64-byte
    directory entries, [N] inode blocks and [D] data blocks of 4 kB. The
    routines below read it through [rd], the byte a load at an address gives
    (an address is a [uint32_t]; a load that faults is [Undef]), exactly where
    the code dereferences a pointer. *)

From S2P Require Import Prelude Strings.

Local Open Scope Z_scope.

(** ** Data *)

(** [dentry_t] of [filesys.h]. *)
Record dentry_t := mkDentry {
  file_name : list Z;   (* uint8_t file_name[32] *)
  file_type : Z;
  inode_num : Z;
  reserved : list Z     (* uint8_t reserved[24] *)
}.

(** The static variables of [filesys.c]. *)
Record filesys := mkFs {
  num_de : Z;           (* int num_de *)
  fs_N : Z;             (* int N *)
  fs_D : Z;             (* int D *)
  bbp : Z;              (* uint32_t* bbp *)
  de_ptr : Z;           (* dentry_t* de_ptr *)
  inode_ptr : Z;        (* uint32_t* inode_ptr *)
  db_ptr : Z;           (* uint8_t* db_ptr *)
  dir_index : Z         (* int dir_index *)
}.

Definition num_64B_entries : Z := 64.
Definition size_block : Z := 4096.
Definition max_str_length : Z := 32.

(** A local [dentry_t] before anything is stored in it. *)
Definition uninit_dentry : dentry_t :=
  mkDentry (replicate 32 0) 0 0 (replicate 24 0).

(** A little-endian 32-bit load. *)
Definition rd32 (rd : reader) (a : Z) : res Z :=
  b0 ← rd a;
  b1 ← rd (u32 (a + 1));
  b2 ← rd (u32 (a + 2));
  b3 ← rd (u32 (a + 3));
  Ok (b0 + 2 ^ 8 * b1 + 2 ^ 16 * b2 + 2 ^ 24 * b3).

(** The bytes from address [a] on. *)
Definition mem_at (rd : reader) (a : Z) : reader := fun i => rd (u32 (a + i)).

(** The bytes of a [dentry_t] from its [file_name] on, up to the end of
    [file_type], which follows it in the struct. *)
Definition dentry_bytes (d : dentry_t) : list Z :=
  file_name d ++ map (fun k => u8 (Z.shiftr (file_type d) (8 * k))) [0; 1; 2; 3].

(** Where read data goes: [buf_rd[i] = b]. The destination is an array object,
    or memory when a program is loaded. *)
Class Sink (B : Type) := sink_put : B -> Z -> Z -> res B.

#[export] Instance array_sink : Sink (list Z) := @aset Z.

(** ** The code *)

Definition set_filesys_meta (rd : reader) (boot_block_ptr : Z) : res filesys :=
  n ← rd32 rd boot_block_ptr;
  ni ← rd32 rd (u32 (boot_block_ptr + 4));
  nd ← rd32 rd (u32 (boot_block_ptr + 8));
  Ok {| num_de := s32 n; fs_N := s32 ni; fs_D := s32 nd;
        dir_index := 0;
        bbp := boot_block_ptr;
        de_ptr := u32 (boot_block_ptr + num_64B_entries);
        inode_ptr := u32 (boot_block_ptr + size_block);
        db_ptr := u32 (boot_block_ptr + size_block + s32 ni * size_block) |}.

(** [de_ptr[i]]. *)
Definition de_addr (fs : filesys) (i : Z) : Z := u32 (de_ptr fs + 64 * i).

(** The byte address [inode_ptr + size_block * inode]. *)
Definition inode_addr (fs : filesys) (inode : Z) : Z :=
  u32 (inode_ptr fs + u32 (size_block * inode)).

(** The search loop of [read_dentry_by_name]; [n] rounds are left. [check] is
    [None] while the local is uninitialised. *)
Fixpoint dentry_search (n : nat) (rd : reader) (fs : filesys) (fname : reader)
    (i : Z) (check : option Z) (dentry : dentry_t) : res (option Z * dentry_t) :=
  match n with
  | O => Ok (check, dentry)
  | S n =>
      let e := de_addr fs i in
      c ← strncmp fname (mem_at rd e) max_str_length;
      if c =? 0 then
        name ← strncpy (file_name dentry) (mem_at rd e) max_str_length;
        ty ← rd32 rd (u32 (e + 32));
        ino ← rd32 rd (u32 (e + 36));
        Ok (Some 0, mkDentry name ty ino (reserved dentry))
      else dentry_search n rd fs fname (i + 1) (Some c) dentry
  end.

Definition read_dentry_by_name (fuel : nat) (rd : reader) (fs : filesys)
    (fname : reader) (dentry : dentry_t) : res (Z * dentry_t) :=
  len ← strlen fuel fname;
  if max_str_length - 1 <? s32 len then Ok (-1, dentry) else
  '(check, dentry) ← dentry_search (Z.to_nat (num_de fs)) rd fs fname 0 None dentry;
  match check with
  | None => Undef
  | Some c =>
      if negb (c =? 0) then Ok (-1, dentry) else
      B ← rd32 rd (inode_addr fs (inode_num dentry));
      Ok (s32 B, dentry)
  end.

(** [index] is a [uint32_t], so [num_de] is converted to unsigned. *)
Definition read_dentry_by_index (rd : reader) (fs : filesys) (index : Z)
    (dentry : dentry_t) : res (Z * dentry_t) :=
  if u32 (num_de fs) <=? index then Ok (-1, dentry) else
  let e := de_addr fs index in
  name ← for_range 0 32 (fun i nm => c ← mem_at rd e i; aset nm i c) (file_name dentry);
  ty ← rd32 rd (u32 (e + 32));
  ino ← rd32 rd (u32 (e + 36));
  Ok (0, mkDentry name ty ino (reserved dentry)).

(** The copy loop of [read_data]; [n] rounds of [i < length] are left.
    [offset + i] is unsigned, and so is its comparison with [B]. *)
Fixpoint read_data_loop `{Sink Buf} (n : nat) (rd : reader) (fs : filesys)
    (curr_inode_ptr B offset : Z) (i : Z) (buf_rd : Buf) : res (Z * Buf) :=
  match n with
  | O => Ok (i, buf_rd)
  | S n =>
      let block_offset := u32 (offset + i) / size_block in
      let offset_in_block := u32 (offset + i) mod size_block in
      if u32 B <=? u32 (offset + i) then Ok (i, buf_rd) else
      blk ← rd32 rd (u32 (curr_inode_ptr + 4 * (block_offset + 1)));
      c ← rd (u32 (db_ptr fs + u32 (size_block * blk + offset_in_block)));
      buf' ← sink_put buf_rd i c;
      read_data_loop n rd fs curr_inode_ptr B offset (i + 1) buf'
  end.

Definition read_data `{Sink Buf} (rd : reader) (fs : filesys) (inode offset : Z)
    (buf_rd : Buf) (length : Z) : res (Z * Buf) :=
  let curr_inode_ptr := inode_addr fs inode in
  B ← rd32 rd curr_inode_ptr;
  if u32 (fs_N fs) <=? inode then Ok (-1, buf_rd) else
  read_data_loop (Z.to_nat length) rd fs curr_inode_ptr (s32 B) offset 0 buf_rd.

Definition file_write : Z := -1.
Definition file_close : Z := 0.
Definition filesys_write (freq : Z) : unit := tt.

Definition set_dir_index (fs : filesys) (k : Z) : filesys :=
  mkFs (num_de fs) (fs_N fs) (fs_D fs) (bbp fs) (de_ptr fs) (inode_ptr fs) (db_ptr fs) k.

Definition dir_read (rd : reader) (fs : filesys) (buff : list Z)
    : res (Z * filesys * list Z) :=
  '(retval, dentry) ← read_dentry_by_index rd fs (u32 (dir_index fs)) uninit_dentry;
  let fs := set_dir_index fs (s32 (dir_index fs + 1)) in
  if retval =? -1 then Ok (0, set_dir_index fs 0, buff)
  else
    buff' ← strncpy buff (aget (dentry_bytes dentry)) max_str_length;
    Ok (max_str_length, fs, buff').

(** ** What an image holds *)

(** Inode [ino] holds a file with these bytes: the length word, and for each
    byte the data block the inode names for it. *)
Definition file_at (rd : reader) (fs : filesys) (ino : Z) (content : list Z) : Prop :=
  0 <= ino < fs_N fs /\ fs_N fs < 2 ^ 31 /\ zlen content < 2 ^ 31 /\
  rd32 rd (inode_addr fs ino) = Ok (zlen content) /\
  forall k c, content !! k = Some c ->
    exists blk,
      rd32 rd (u32 (inode_addr fs ino + 4 * (Z.of_nat k / size_block + 1))) = Ok blk /\
      rd (u32 (db_ptr fs + u32 (size_block * blk + Z.of_nat k mod size_block))) = Ok c.

(** Directory slot [i] holds the entry [d] ([reserved] is not looked at). *)
Definition entry_at (rd : reader) (fs : filesys) (i : Z) (d : dentry_t) : Prop :=
  field (mem_at rd (de_addr fs i)) (file_name d) /\ length (file_name d) = 32%nat /\
  rd32 rd (u32 (de_addr fs i + 32)) = Ok (file_type d) /\
  rd32 rd (u32 (de_addr fs i + 36)) = Ok (inode_num d).

(** The directory holds exactly the entries [ds], in order. *)
Definition dir_is (rd : reader) (fs : filesys) (ds : list dentry_t) : Prop :=
  num_de fs = zlen ds /\ 0 < zlen ds < 2 ^ 31 /\
  forall i d, ds !! i = Some d -> entry_at rd fs (Z.of_nat i) d.

(** The name of an entry: its bytes up to the first NUL. *)
Definition dname (d : dentry_t) : list Z := upto_nul (file_name d).

Lemma rd32_readable rd a v : rd32 rd a = Ok v -> exists c, rd a = Ok c.
Proof. unfold rd32. intros (c & E & _)%res_bind_ok_inv. eauto. Qed.

(** ** Readers that know more

    A statement about a reader holds for every reader that agrees with it where
    it is defined: for the image as the kernel reads it under any directory. *)

Definition rd_le (rd rd' : reader) : Prop := forall a c, rd a = Ok c -> rd' a = Ok c.

Lemma rd32_mono rd rd' a v : rd_le rd rd' -> rd32 rd a = Ok v -> rd32 rd' a = Ok v.
Proof.
  intros Hle. unfold rd32. intros (b0 & E0 & E)%res_bind_ok_inv.
  apply res_bind_ok_inv in E as (b1 & E1 & E). apply res_bind_ok_inv in E as (b2 & E2 & E).
  apply res_bind_ok_inv in E as (b3 & E3 & E).
  by rewrite (Hle _ _ E0), (Hle _ _ E1), (Hle _ _ E2), (Hle _ _ E3).
Qed.

Lemma file_at_mono rd rd' fs ino content :
  rd_le rd rd' -> file_at rd fs ino content -> file_at rd' fs ino content.
Proof.
  intros Hle (? & ? & ? & Hlen & Hd). do 3 (split; [done |]).
  split; [by apply (rd32_mono rd) |]. intros k c Hk. destruct (Hd k c Hk) as (blk & Hb & Hc). exists blk.
  split; [by apply (rd32_mono rd) | by apply Hle].
Qed.

Lemma dir_is_mono rd rd' fs ds : rd_le rd rd' -> dir_is rd fs ds -> dir_is rd' fs ds.
Proof.
  intros Hle (? & ? & Hent). do 2 (split; [done |]). intros i d Hd.
  destruct (Hent i d Hd) as (Hf & Hl & Ht & Hi). split; [|by split_and!; [|apply (rd32_mono rd)..]].
  intros n c Hc. destruct (Hf n c Hc) as (E & ?). split; [by apply Hle | done].
Qed.

(** ** Reading files *)

Fixpoint sink_puts `{Sink Buf} (b : Buf) (i : Z) (cs : list Z) : res Buf :=
  match cs with
  | [] => Ok b
  | c :: cs => b' ← sink_put b i c; sink_puts b' (i + 1) cs
  end.

Lemma sink_puts_array p q cs i :
  i = zlen p -> (length cs <= length q)%nat ->
  sink_puts (p ++ q) i cs = Ok (p ++ cs ++ drop (length cs) q).
Proof.
  revert p q i. induction cs as [|c cs IH]; intros p q i Hi Hq; [done |].
  destruct q as [|x q]; [simpl in Hq; lia |]. simpl. unfold sink_put, array_sink.
  rewrite aset_app_mid by done. rstep. rewrite <- snoc_shift.
  rewrite (IH (p ++ [c])); [by rewrite snoc_shift | | simpl in Hq; lia].
  subst i. by rewrite zlen_app.
Qed.

Lemma sink_puts_overflow p q cs i :
  i = zlen p -> (length q < length cs)%nat -> sink_puts (p ++ q) i cs = Undef.
Proof.
  revert p q i. induction cs as [|c cs IH]; intros p q i Hi Hq; [simpl in Hq; lia |].
  simpl. unfold sink_put, array_sink. destruct q as [|x q].
  - rewrite aset_out; [done |]. rewrite app_nil_r. lia.
  - rewrite aset_app_mid by done. rstep. rewrite <- snoc_shift.
    apply IH; [|simpl in Hq; lia]. subst i. by rewrite zlen_app.
Qed.

Section ReadData.
Context `{Sink Buf} (rd : reader) (fs : filesys) (ino : Z) (content : list Z).
Hypothesis Hfile : file_at rd fs ino content.

Lemma read_data_loop_spec n ofs i (buf : Buf) :
  0 <= ofs -> 0 <= i -> ofs + i < 2 ^ 32 ->
  read_data_loop n rd fs (inode_addr fs ino) (zlen content) ofs i buf =
  let cs := take n (drop (Z.to_nat (ofs + i)) content) in
  b' ← sink_puts buf i cs; Ok (i + zlen cs, b').
Proof.
  destruct Hfile as (_ & _ & Hlen & _ & Hbytes). pose proof (zlen_nonneg content).
  revert i buf. induction n as [|n IH]; intros i buf Ho Hi Hb; simpl.
  - by rewrite Z.add_0_r.
  - rewrite !(u32_id (ofs + i)), (u32_id (zlen content)) by lia.
    destruct (Z.leb_spec (zlen content) (ofs + i)).
    + rewrite drop_ge by (unfold zlen in *; lia). simpl.
      by rewrite Z.add_0_r.
    + destruct (lookup_lt_is_Some_2 content (Z.to_nat (ofs + i))) as [c Hc];
        [unfold zlen in *; lia |].
      rewrite (drop_S _ _ _ Hc).
      destruct (Hbytes _ _ Hc) as (blk & E1 & E2). rewrite Z2Nat.id in E1, E2 by lia.
      rewrite E1. rstep. rewrite E2. rstep. simpl.
      destruct (sink_put buf i c) as [buf'| |]; rstep; [|done..].
      rewrite IH by lia. simpl.
      replace (Z.to_nat (ofs + (i + 1))) with (S (Z.to_nat (ofs + i))) by lia.
      destruct (sink_puts buf' (i + 1) _); rstep; [|done..].
      rewrite zlen_cons. do 2 f_equal. lia.
Qed.

Lemma read_data_spec ofs (buf : Buf) len :
  0 <= ofs < 2 ^ 32 -> 
  read_data rd fs ino ofs buf len =
  let cs := take (Z.to_nat len) (drop (Z.to_nat ofs) content) in
  b' ← sink_puts buf 0 cs; Ok (zlen cs, b').
Proof.
  intros Ho. destruct Hfile as (Hino & HN & Hlen & Hsz & _). unfold read_data.
  rewrite Hsz. rstep. rewrite u32_id by lia. pose proof (zlen_nonneg content).
  destruct (Z.leb_spec (fs_N fs) ino); [lia |]. rewrite s32_id by lia.
  rewrite read_data_loop_spec by lia. simpl. by rewrite Z.add_0_r.
Qed.
End ReadData.

Lemma read_data_array rd fs ino content ofs (buf : list Z) len :
  file_at rd fs ino content -> 0 <= ofs < 2 ^ 32 ->
  let cs := take (Z.to_nat len) (drop (Z.to_nat ofs) content) in
  (length cs <= length buf)%nat ->
  read_data rd fs ino ofs buf len = Ok (zlen cs, cs ++ drop (length cs) buf).
Proof.
  intros Hf Ho cs Hb. rewrite (read_data_spec rd fs ino content Hf) by done. fold cs. simpl.
  change buf with ([] ++ buf). rewrite sink_puts_array by done. done.
Qed.

(** C1. Reading a file. For an inode whose blocks hold [content],
    [read_data] with any offset and length returns the number of bytes of the
    file in that range and copies exactly those bytes to the start of the
    buffer, leaving the rest of the buffer alone; it never touches a byte past
    the end of the file. *)
Theorem read_data_file rd fs ino content ofs (buf : list Z) len :
  file_at rd fs ino content -> 0 <= ofs < 2 ^ 32 ->
  let cs := take (Z.to_nat len) (drop (Z.to_nat ofs) content) in
  (length cs <= length buf)%nat ->
  read_data rd fs ino ofs buf len = Ok (zlen cs, cs ++ drop (length cs) buf).
Proof. apply read_data_array. Qed.

(** Errors and bounds of [read_data]: an inode number at or past [N]
    gives -1 with the buffer untouched (the length word of the block it would
    name is loaded all the same), and a buffer shorter than the bytes to copy
    is overrun. *)
Theorem read_data_errors rd fs ino ofs (buf : list Z) len B content :
  (rd32 rd (inode_addr fs ino) = Ok B -> u32 (fs_N fs) <= ino ->
     read_data rd fs ino ofs buf len = Ok (-1, buf)) /\
  (file_at rd fs ino content -> 0 <= ofs < 2 ^ 32 ->
     (length buf < length (take (Z.to_nat len) (drop (Z.to_nat ofs) content)))%nat ->
     read_data rd fs ino ofs buf len = Undef).
Proof.
  split.
  - intros E HN. unfold read_data. rewrite E. rstep.
    by destruct (Z.leb_spec (u32 (fs_N fs)) ino); [|lia].
  - intros Hf Ho Hb. rewrite (read_data_spec rd fs ino content Hf) by done. simpl.
    change buf with ([] ++ buf). by rewrite sink_puts_overflow.
Qed.

(** ** Reading the directory *)

Lemma dname_padded d :
  length (file_name d) = 32%nat ->
  length (dname d ++ replicate (32 - length (dname d)) 0) = 32%nat.
Proof.
  intros E. pose proof (upto_nul_length (file_name d)). unfold dname.
  rewrite length_app, length_replicate. lia.
Qed.

(** What [read_dentry_by_name] stores for entry [d] in the caller's dentry. *)
Definition found_dentry (d old : dentry_t) : dentry_t :=
  mkDentry (dname d ++ replicate (32 - length (dname d)) 0)
    (file_type d) (inode_num d) (reserved old).

Lemma strncpy_entry rd fs i d old :
  entry_at rd fs i d -> length old = 32%nat ->
  strncpy old (mem_at rd (de_addr fs i)) max_str_length =
  Ok (dname d ++ replicate (32 - length (dname d)) 0).
Proof.
  intros (Hf & Hl & Ht & _) Ho.
  rewrite (strncpy_spec _ (file_name d)).
  - rewrite Hl, drop_ge by lia. by rewrite app_nil_r.
  - done.
  - unfold zlen, max_str_length. by rewrite Hl.
  - intros _. unfold mem_at. apply rd32_readable in Ht. done.
  - lia.
Qed.

Section Search.
Context (rd : reader) (fs : filesys) (ds : list dentry_t).
Context (fname : reader) (s : list Z).
Hypothesis Hdir : dir_is rd fs ds.
Hypothesis Hname : cstr fname s.
Hypothesis Hshort : zlen s < 32.

(** The entries that are not called [s] are skipped, the first one that is
    is taken. *)
Lemma dentry_search_spec rest i check old :
  drop i ds = rest -> length (file_name old) = 32%nat ->
  exists check',
    dentry_search (length rest) rd fs fname (Z.of_nat i) check old =
    Ok (match list_find (fun d => dname d = s) rest with
        | Some (_, d) => (Some 0, found_dentry d old)
        | None => (check', old)
        end) /\
    (rest = [] -> check' = check) /\
    (rest <> [] -> exists c, check' = Some c /\ c <> 0 \/ is_Some (list_find (fun d => dname d = s) rest)).
Proof.
  intros Hrest Hold. revert i check Hrest.
  induction rest as [|d rest IH]; intros i check Hrest; simpl.
  { exists check. done. }
  assert (Hd : ds !! i = Some d).
  { by rewrite <- (take_drop i ds), Hrest, lookup_app_r, length_take_le, Nat.sub_diag
      by (rewrite ?length_take; pose proof (f_equal length Hrest) as E;
          rewrite length_drop in E; simpl in E; lia). }
  pose proof (proj2 (proj2 Hdir) _ _ Hd) as Hent. pose proof Hent as (Hf & Hl & Ht & Hi).
  destruct (strncmp_field fname (mem_at rd (de_addr fs (Z.of_nat i))) s (file_name d) max_str_length)
    as (c & -> & Hc); [done | done | unfold zlen, max_str_length; by rewrite Hl | done |].
  rstep. fold (dname d) in Hc. destruct (Z.eqb_spec c 0) as [->|Hne].
  - rewrite (strncpy_entry rd fs _ d _ Hent Hold). rstep. rewrite Ht. rstep. rewrite Hi. rstep.
    destruct (decide (dname d = s)); [|tauto]. exists check. split; [done |].
    split; [done |]. intros _. exists 0. right. eauto.
  - destruct (decide (dname d = s)) as [E|E]; [tauto |].
    destruct (IH (S i) (Some c)) as (check' & E' & Hnil & Hcons).
    { rewrite <- Nat.add_1_r, <- drop_drop, Hrest. done. }
    replace (Z.of_nat i + 1) with (Z.of_nat (S i)) by lia. rewrite E'.
    exists check'. split.
    + destruct (list_find _ rest) as [[j d']|]; done.
    + split; [done |]. intros _. destruct rest as [|d2 rest2] eqn:Er.
      * exists c. left. split; [by apply Hnil | done].
      * destruct Hcons as (c' & [Hx|[x Hx]]); [done | by exists c'; left |].
        exists c'. right. rewrite Hx. destruct x. eauto.
Qed.
End Search.

Lemma read_dentry_by_name_spec fuel rd fs ds fname s old :
  dir_is rd fs ds -> cstr fname s -> zlen s < 2 ^ 31 -> (length s < fuel)%nat ->
  length (file_name old) = 32%nat ->
  read_dentry_by_name fuel rd fs fname old =
  if 31 <? zlen s then Ok (-1, old) else
  match list_find (fun d => dname d = s) ds with
  | Some (_, d) => B ← rd32 rd (inode_addr fs (inode_num d)); Ok (s32 B, found_dentry d old)
  | None => Ok (-1, old)
  end.
Proof.
  intros Hdir Hs Hl Hf Ho. unfold read_dentry_by_name.
  rewrite (strlen_spec _ s) by (done || lia). rstep. pose proof (zlen_nonneg s).
  rewrite s32_id by lia. unfold max_str_length at 1. change (32 - 1) with 31.
  destruct (Z.ltb_spec 31 (zlen s)); [done |].
  destruct (dentry_search_spec rd fs ds fname s Hdir Hs ltac:(lia) ds 0 None old eq_refl Ho)
    as (check & E & _ & Hcheck).
  destruct Hdir as (Hn & Hpos & _). rewrite Hn.
  replace (Z.to_nat (zlen ds)) with (length ds) by (unfold zlen; lia).
  change (Z.of_nat 0) with 0 in E. rewrite E. clear E. rstep.
  destruct (list_find (fun d => dname d = s) ds) as [[j d]|] eqn:Ef; [done |].
  destruct Hcheck as (c & [[-> Hc]|[x Hx]]); [|by destruct (Z.eqb_spec c 0) |done].
  intros ->. unfold zlen in Hpos. simpl in Hpos. lia.
Qed.

(** C28. Looking a file up by name refines a search of the directory for the
    first entry of that name: names longer than 31 characters and names that
    no entry has give -1 and leave the caller's dentry alone; otherwise the
    call returns the length word of the entry's inode and the dentry holds the
    entry's name (NUL-padded), type and inode number. *)
Theorem read_dentry_by_name_refines fuel rd fs ds fname s old :
  dir_is rd fs ds -> cstr fname s -> zlen s < 2 ^ 31 -> (length s < fuel)%nat ->
  length (file_name old) = 32%nat ->
  read_dentry_by_name fuel rd fs fname old =
  if 31 <? zlen s then Ok (-1, old) else
  match list_find (fun d => dname d = s) ds with
  | Some (_, d) => B ← rd32 rd (inode_addr fs (inode_num d)); Ok (s32 B, found_dentry d old)
  | None => Ok (-1, old)
  end.
Proof. apply read_dentry_by_name_spec. Qed.

Lemma copy_name_loop (r : reader) b p q i :
  field (roff r i) b -> i = zlen p -> length q = length b ->
  for_loop (length b) i (fun i nm => c ← r i; aset nm i c) (p ++ q) = Ok (p ++ b).
Proof.
  revert p q i. induction b as [|c b IH]; intros p q i Hb Hi Hq; simpl.
  { by destruct q; [|simpl in Hq; lia]. }
  destruct q as [|x q]; [simpl in Hq; lia |].
  destruct (roff_succ_field _ _ _ _ Hb) as (-> & _ & Hb'). rstep.
  rewrite aset_app_mid by done. rstep. rewrite <- snoc_shift.
  rewrite (IH (p ++ [c]) q (i + 1)); [by rewrite snoc_shift | done | | simpl in Hq; lia].
  subst i. by rewrite zlen_app.
Qed.

(** Lookup by index: the entry itself inside the directory, -1 past its end. *)
Lemma read_dentry_by_index_spec rd fs ds k old :
  dir_is rd fs ds -> length (file_name old) = 32%nat -> 0 <= k ->
  read_dentry_by_index rd fs k old =
  Ok (match ds !! Z.to_nat k with
      | Some d => (0, mkDentry (file_name d) (file_type d) (inode_num d) (reserved old))
      | None => (-1, old)
      end).
Proof.
  intros (Hn & Hpos & Hent) Ho Hk. unfold read_dentry_by_index.
  rewrite Hn, u32_id by lia. destruct (Z.leb_spec (zlen ds) k) as [Hle|Hlt].
  - rewrite (proj2 (lookup_ge_None ds (Z.to_nat k))); [done | unfold zlen in *; lia].
  - destruct (lookup_lt_is_Some_2 ds (Z.to_nat k)) as [d Hd]; [unfold zlen in *; lia |].
    rewrite Hd. destruct (Hent _ _ Hd) as (Hf & Hl & Ht & Hi).
    rewrite Z2Nat.id in Hf, Ht, Hi by lia. unfold for_range.
    pose proof (copy_name_loop (mem_at rd (de_addr fs k)) (file_name d) [] (file_name old) 0) as E.
    rewrite Hl in E. simpl app in E. change (Z.to_nat (32 - 0)) with 32%nat.
    rewrite E; [| by apply field_roff0 | done | lia].
    rstep. rewrite Ht. rstep. rewrite Hi. done.
Qed.

Lemma dir_is_set_dir_index rd fs ds k : dir_is rd fs ds -> dir_is rd (set_dir_index fs k) ds.
Proof. done. Qed.

(** One [dir_read]: inside the directory it returns 32 with the next name and
    moves on; past the end it returns 0 and starts over. *)
Lemma dir_read_spec rd fs ds buff :
  dir_is rd fs ds -> 0 <= dir_index fs <= zlen ds -> (32 <= length buff)%nat ->
  dir_read rd fs buff =
  Ok (match ds !! Z.to_nat (dir_index fs) with
      | Some d => (32, set_dir_index fs (dir_index fs + 1),
                   dname d ++ replicate (32 - length (dname d)) 0 ++ drop 32 buff)
      | None => (0, set_dir_index fs 0, buff)
      end).
Proof.
  intros Hdir Hk Hb. pose proof Hdir as (Hn & Hpos & Hent). unfold dir_read.
  rewrite u32_id by lia. rewrite (read_dentry_by_index_spec rd fs ds) by (done || lia).
  destruct (ds !! Z.to_nat (dir_index fs)) as [d|] eqn:Hd; rstep; [|done].
  pose proof (lookup_lt_Some _ _ _ Hd). rewrite s32_id by (unfold zlen in *; lia).
  destruct (Hent _ _ Hd) as (Hf & Hl & _ & _). simpl.
  rewrite (strncpy_spec _ (file_name d)).
  - rstep. unfold dname. by rewrite Hl.
  - intros n c Hc. split; [|by destruct (Hf n c Hc)].
    apply aget_nat. unfold dentry_bytes. by apply lookup_app_l_Some.
  - unfold zlen, max_str_length. by rewrite Hl.
  - intros _. unfold dentry_bytes, max_str_length. rewrite aget_app_r.
    + unfold zlen. simpl. rewrite Hl. eauto.
    + unfold zlen. simpl. rewrite Hl. lia.
  - simpl. lia.
Qed.

(** The reads a directory listing makes: [dir_read] into the same buffer until
    it returns 0, with the names it delivered. *)
Fixpoint list_dir (fuel : nat) (rd : reader) (fs : filesys) (buff : list Z)
    : res (list (list Z) * filesys) :=
  match fuel with
  | O => NoFuel
  | S fuel =>
      '(cnt, fs, buff) ← dir_read rd fs buff;
      if cnt =? 0 then Ok ([], fs)
      else
        '(names, fs) ← list_dir fuel rd fs buff;
        Ok (upto_nul (take 32 buff) :: names, fs)
  end.

Lemma upto_nul_nonzero b : Forall (fun c => c <> 0) (upto_nul b).
Proof.
  induction b as [|c b IH]; simpl; [constructor |].
  destruct (Z.eqb_spec c 0); by constructor.
Qed.

Lemma upto_nul_pad s k : Forall (fun c => c <> 0) s -> upto_nul (s ++ replicate k 0) = s.
Proof.
  induction 1 as [|c s Hc _ IH]; simpl; [by destruct k |].
  destruct (Z.eqb_spec c 0); [done |]. by rewrite IH.
Qed.

Lemma list_dir_from rd fs ds buff fuel k :
  dir_is rd fs ds -> dir_index fs = Z.of_nat k -> (k <= length ds)%nat ->
  (32 <= length buff)%nat -> (length ds - k < fuel)%nat ->
  list_dir fuel rd fs buff = Ok (map dname (drop k ds), set_dir_index fs 0).
Proof.
  revert fs buff k. induction fuel as [|fuel IH]; intros fs buff k Hdir Hk Hle Hb Hf; [lia |].
  simpl. rewrite (dir_read_spec rd fs ds) by (done || (rewrite Hk; unfold zlen; lia)).
  rewrite Hk, Nat2Z.id. destruct (ds !! k) as [d|] eqn:Hd; rstep.
  - rewrite (drop_S _ _ _ Hd). pose proof (lookup_lt_Some _ _ _ Hd).
    destruct (proj2 (proj2 Hdir) _ _ Hd) as (_ & Hl & _).
    pose proof (dname_padded d Hl) as Hp. rewrite app_assoc.
    rewrite (IH _ _ (S k)); [| done | simpl; lia | lia | rewrite length_app, length_drop; lia | lia].
    rstep. rewrite take_app_le, take_ge by lia.
    rewrite upto_nul_pad by apply upto_nul_nonzero. done.
  - rewrite drop_ge; [done |]. by apply lookup_ge_None.
Qed.

(** Listing the directory: from a fresh position, successive [dir_read]s
    into a 32-byte buffer deliver the name of every entry once, in order, and
    then 0; the position is back at the start, so the next listing sees the
    whole directory again. *)
Theorem list_dir_all rd fs ds buff fuel :
  dir_is rd fs ds -> dir_index fs = 0 -> (32 <= length buff)%nat ->
  (length ds < fuel)%nat ->
  list_dir fuel rd fs buff = Ok (map dname ds, fs).
Proof.
  intros Hdir H0 Hb Hf. rewrite (list_dir_from rd fs ds buff fuel 0) by (done || lia).
  rewrite drop_0. destruct fs; simpl in *. by subst.
Qed.

(** ** Checking an image

    Whether an image holds a given file or directory, by evaluation. *)

Definition okb (r : res Z) (v : Z) : bool := match r with Ok x => x =? v | _ => false end.

Lemma okb_spec r v : okb r v = true <-> r = Ok v.
Proof. destruct r; simpl; split; try done; [by intros ->%Z.eqb_eq | injection 1 as ->; apply Z.eqb_refl]. Qed.

Definition byte_at (rd : reader) (fs : filesys) (ino : Z) (k : nat) (c : Z) : bool :=
  match rd32 rd (u32 (inode_addr fs ino + 4 * (Z.of_nat k / size_block + 1))) with
  | Ok blk => okb (rd (u32 (db_ptr fs + u32 (size_block * blk + Z.of_nat k mod size_block)))) c
  | _ => false
  end.

Fixpoint bytes_from (rd : reader) (fs : filesys) (ino : Z) (k : nat) (cs : list Z) : bool :=
  match cs with [] => true | c :: cs => byte_at rd fs ino k c && bytes_from rd fs ino (S k) cs end.

Definition file_atb (rd : reader) (fs : filesys) (ino : Z) (content : list Z) : bool :=
  (0 <=? ino) && (ino <? fs_N fs) && (fs_N fs <? 2 ^ 31) && (zlen content <? 2 ^ 31) &&
  okb (rd32 rd (inode_addr fs ino)) (zlen content) && bytes_from rd fs ino 0 content.

Lemma bytes_from_at rd fs ino cs k i c :
  bytes_from rd fs ino k cs = true -> cs !! i = Some c -> byte_at rd fs ino (k + i) c = true.
Proof.
  revert k i. induction cs as [|x cs IH]; intros k i; [done |]. simpl. intros [Hx Hcs]%andb_prop.
  destruct i as [|i]; simpl; [by intros [= <-]; rewrite Nat.add_0_r |].
  intros Hi. rewrite <- Nat.add_succ_comm. by apply IH.
Qed.

Lemma file_atb_at rd fs ino content : file_atb rd fs ino content = true -> file_at rd fs ino content.
Proof.
  unfold file_atb. rewrite !andb_true_iff, !Z.ltb_lt, Z.leb_le, okb_spec.
  intros (((((? & ?) & ?) & ?) & Hlen) & Hb). do 3 (split; [done |]). split; [done |].
  intros k c Hk. pose proof (bytes_from_at _ _ _ _ _ _ _ Hb Hk) as E. simpl in E. revert E. unfold byte_at.
  clear Hlen. destruct (rd32 rd _) as [blk| |] eqn:Eb; [|done..]. intros E. exists blk. split; [done | by apply okb_spec].
Qed.

Fixpoint fieldb (r : reader) (k : Z) (b : list Z) : bool :=
  match b with [] => true | c :: b => okb (r k) c && (0 <=? c) && (c <? 256) && fieldb r (k + 1) b end.

Lemma fieldb_field r k b : fieldb r k b = true -> field (roff r k) b.
Proof.
  revert k. induction b as [|c b IH]; intros k; simpl; [done |].
  rewrite !andb_true_iff, okb_spec, Z.leb_le, Z.ltb_lt. intros (((E & ?) & ?) & Hb) n x.
  destruct n as [|n]; simpl; [intros [= <-]; unfold roff; by rewrite Z.add_0_r |].
  intros Hx. destruct (IH _ Hb n x Hx) as (Hr & ?). split; [|done]. unfold roff in *.
  by replace (k + Z.of_nat (S n)) with (k + 1 + Z.of_nat n) by lia.
Qed.

Definition entryb (rd : reader) (fs : filesys) (i : Z) (d : dentry_t) : bool :=
  fieldb (mem_at rd (de_addr fs i)) 0 (file_name d) && (zlen (file_name d) =? 32) &&
  okb (rd32 rd (u32 (de_addr fs i + 32))) (file_type d) && okb (rd32 rd (u32 (de_addr fs i + 36))) (inode_num d).

Fixpoint entriesb (rd : reader) (fs : filesys) (i : Z) (ds : list dentry_t) : bool :=
  match ds with [] => true | d :: ds => entryb rd fs i d && entriesb rd fs (i + 1) ds end.

Definition dir_isb (rd : reader) (fs : filesys) (ds : list dentry_t) : bool :=
  (num_de fs =? zlen ds) && (0 <? zlen ds) && (zlen ds <? 2 ^ 31) && entriesb rd fs 0 ds.

Lemma entryb_at rd fs i d : entryb rd fs i d = true -> entry_at rd fs i d.
Proof.
  unfold entryb. rewrite !andb_true_iff, !okb_spec, Z.eqb_eq. intros (((Hf & Hl) & ?) & ?).
  split; [|unfold zlen in Hl; split_and!; (done || lia)].
  intros n c Hc. apply fieldb_field in Hf. by apply Hf in Hc.
Qed.

Lemma entriesb_at rd fs ds k i d :
  entriesb rd fs k ds = true -> ds !! i = Some d -> entry_at rd fs (k + Z.of_nat i) d.
Proof.
  revert k i. induction ds as [|x ds IH]; intros k i; [done |]. simpl. rewrite andb_true_iff.
  intros [Hx Hds]. destruct i as [|i]; simpl.
  - intros [= ->]. rewrite Z.add_0_r. by apply entryb_at.
  - intros Hi. replace (k + Z.of_nat (S i)) with (k + 1 + Z.of_nat i) by lia. by apply IH.
Qed.

Lemma dir_isb_is rd fs ds : dir_isb rd fs ds = true -> dir_is rd fs ds.
Proof.
  unfold dir_isb. rewrite !andb_true_iff, Z.eqb_eq, !Z.ltb_lt. intros (((? & ?) & ?) & He).
  do 2 (split; [done |]). intros i d. by apply (entriesb_at rd fs ds 0).
Qed.

(** ** A concrete image *)

(** A small image at 4 MB: two directory entries (the directory itself and a
    file [hi]), two inodes, two data blocks; [hi] holds five bytes. *)
Definition demo_base : Z := 4194304.

Definition demo_bytes : gmap Z Z :=
  list_to_map
    [(demo_base, 2); (demo_base + 4, 2); (demo_base + 8, 2);
     (demo_base + 64, 46); (demo_base + 96, 1);
     (demo_base + 128, 104); (demo_base + 129, 105); (demo_base + 160, 2); (demo_base + 164, 1);
     (demo_base + 8192, 5); (demo_base + 8196, 1);
     (demo_base + 16384, 104); (demo_base + 16385, 101); (demo_base + 16386, 108);
     (demo_base + 16387, 108); (demo_base + 16388, 111)].

Definition demo_rd : reader := fun a => Ok (default 0 (demo_bytes !! a)).

Definition demo_fs : filesys := mkFs 2 2 2 demo_base (demo_base + 64) (demo_base + 4096)
  (demo_base + 12288) 0.

Definition demo_dir : list dentry_t :=
  [mkDentry (46 :: replicate 31 0) 1 0 []; mkDentry (104 :: 105 :: replicate 30 0) 2 1 []].

Definition demo_content : list Z := [104; 101; 108; 108; 111].

Lemma demo_meta : set_filesys_meta demo_rd demo_base = Ok demo_fs.
Proof. vm_compute. reflexivity. Qed.

Lemma demo_file : file_at demo_rd demo_fs 1 demo_content.
Proof. apply file_atb_at. vm_compute. reflexivity. Qed.

Lemma demo_dir_is : dir_is demo_rd demo_fs demo_dir.
Proof. apply dir_isb_is. vm_compute. reflexivity. Qed.

Lemma read_data_file_witness :
  read_data demo_rd demo_fs 1 1 (replicate 8 9) 100 = Ok (4, [101; 108; 108; 111; 9; 9; 9; 9]).
Proof.
  exact (read_data_file demo_rd demo_fs 1 demo_content 1 (replicate 8 9) 100 demo_file
           ltac:(lia) ltac:(simpl; lia)).
Defined.

Lemma read_data_errors_witness :
  read_data demo_rd demo_fs 2 0 [7] 100 = Ok (-1, [7]) /\
  read_data demo_rd demo_fs 1 0 [7] 100 = Undef.
Proof.
  split.
  - apply (proj1 (read_data_errors demo_rd demo_fs 2 0 [7] 100 0 [])); [vm_compute; reflexivity |].
    vm_compute. congruence.
  - apply (proj2 (read_data_errors demo_rd demo_fs 1 0 [7] 100 0 demo_content));
      [exact demo_file | lia | simpl; lia].
Defined.

Lemma read_dentry_by_name_refines_witness :
  read_dentry_by_name 33 demo_rd demo_fs (aget [104; 105; 0]) uninit_dentry =
    Ok (5, mkDentry (104 :: 105 :: replicate 30 0) 2 1 (replicate 24 0)) /\
  read_dentry_by_name 33 demo_rd demo_fs (aget [104; 0]) uninit_dentry = Ok (-1, uninit_dentry).
Proof.
  split.
  - rewrite (read_dentry_by_name_refines 33 demo_rd demo_fs demo_dir (aget [104; 105; 0]) [104; 105]
       uninit_dentry demo_dir_is); [vm_compute; reflexivity | | done | simpl; lia | done].
    apply (cstr_array [104; 105] []). repeat constructor; lia.
  - rewrite (read_dentry_by_name_refines 33 demo_rd demo_fs demo_dir (aget [104; 0]) [104]
       uninit_dentry demo_dir_is); [vm_compute; reflexivity | | done | simpl; lia | done].
    apply (cstr_array [104] []). repeat constructor; lia.
Defined.

Lemma list_dir_all_witness :
  list_dir 3 demo_rd demo_fs (replicate 33 0) = Ok ([[46]; [104; 105]], demo_fs).
Proof.
  exact (list_dir_all demo_rd demo_fs demo_dir (replicate 33 0) 3 demo_dir_is eq_refl
           ltac:(simpl; lia) ltac:(simpl; lia)).
Defined.
