(* ===== verification/Paging.v ===== *)
(** * Page directories and the process slots

    [student-distrib/paging.c] and [paging.h], with the control registers its
    inline assembly writes. The address the linker gives the page table [PTE]
    is a parameter ([Layout]); a value of CR3 is the row of [PDE] it points at.
    [walk] is the page walk of the x86 MMU over these tables, with 4 MB pages
    (CR4.PSE) and the user/supervisor bit. *)

From S2P Require Import Prelude.

Local Open Scope Z_scope.

(** ** Data *)

(** [uint32_t PTE[NUM_ENTRIES] __attribute__((aligned(4096)))]: the linker
    chooses the address and keeps to the alignment. *)
Class Layout := {
  PTE_addr : Z;
  PTE_aligned : PTE_addr mod 2 ^ 12 = 0;
  PTE_range : 0 <= PTE_addr < 2 ^ 32
}.

Definition NUM_ENTRIES : Z := 1024.
Definition MAX_NUM_PROC : Z := 8.

Definition CTRL_PTE : Z := 0x01.
Definition CTRL_PTE_USR : Z := 0x07.
Definition CTRL_VIDEO : Z := 0x01.
Definition CTRL_VIDEO_USR : Z := 0x07.
Definition CTRL_KERNEL : Z := 0x183.
Definition CTRL_EMPTY : Z := 0x83.
Definition CTRL_EMPTY_USR : Z := 0x87.

Record paging := mkPaging {
  PDE : list (list Z);   (* uint32_t PDE[MAX_NUM_PROC][NUM_ENTRIES] *)
  PTE : list Z;          (* uint32_t PTE[NUM_ENTRIES] *)
  proc : list Z;         (* char proc[MAX_NUM_PROC] *)
  cr0 : Z;
  cr3 : Z;               (* the row of PDE that CR3 points at *)
  cr4 : Z
}.

Definition set_PDE (pg : paging) x := mkPaging x (PTE pg) (proc pg) (cr0 pg) (cr3 pg) (cr4 pg).
Definition set_PTE (pg : paging) x := mkPaging (PDE pg) x (proc pg) (cr0 pg) (cr3 pg) (cr4 pg).
Definition set_proc (pg : paging) x := mkPaging (PDE pg) (PTE pg) x (cr0 pg) (cr3 pg) (cr4 pg).
Definition set_cr3 (pg : paging) x := mkPaging (PDE pg) (PTE pg) (proc pg) (cr0 pg) x (cr4 pg).

(** [PDE[r][c]], [PDE[r][c] = v] and [PDE[r][c] op= ...]. *)
Definition pde_get (pg : paging) (r c : Z) : res Z := row ← aget (PDE pg) r; aget row c.

Definition pde_set (pg : paging) (r c v : Z) : res paging :=
  row ← aget (PDE pg) r;
  row' ← aset row c v;
  pde' ← aset (PDE pg) r row';
  Ok (set_PDE pg pde').

Definition pde_upd (f : Z -> Z) (pg : paging) (r c : Z) : res paging :=
  v ← pde_get pg r c; pde_set pg r c (f v).

Definition pte_set (pg : paging) (i v : Z) : res paging :=
  pte' ← aset (PTE pg) i v; Ok (set_PTE pg pte').

Definition pte_upd (f : Z -> Z) (pg : paging) (i : Z) : res paging :=
  v ← aget (PTE pg) i; pte_set pg i (f v).

(** The assembly blocks that turn on PSE and PGE in CR4 and PG in CR0. *)
Definition enable_paging (pg : paging) : paging :=
  mkPaging (PDE pg) (PTE pg) (proc pg)
    (Z.lor (cr0 pg) 0x80000000) (cr3 pg) (Z.lor (cr4 pg) 0x00000090).

(** ** The code *)

Section Code.
Context `{Layout}.

Definition remove_page (pg : paging) (proc_id : Z) : res paging :=
  proc' ← aset (proc pg) proc_id 0; Ok (set_proc pg proc').

Definition init_paging (pg : paging) : res paging :=
  (* video memory *)
  pg ← pde_set pg 0 0 PTE_addr;
  pg ← pde_upd (fun v => Z.land v 0xFFFFF000) pg 0 0;
  pg ← pde_upd (fun v => Z.lor v CTRL_VIDEO) pg 0 0;
  (* kernel memory *)
  pg ← pde_set pg 0 1 (Z.shiftl 1 22);
  pg ← pde_upd (fun v => Z.lor v CTRL_KERNEL) pg 0 1;
  (* the remaining PDE directly to physical memory *)
  pg ← for_range 2 NUM_ENTRIES (fun i pg =>
         pg ← pde_set pg 0 i (u32 (Z.shiftl i 22));
         pde_upd (fun v => Z.lor v CTRL_EMPTY) pg 0 i) pg;
  (* the page table entries *)
  pg ← for_range 0 NUM_ENTRIES (fun i pg =>
         pg ← pte_set pg i (u32 (Z.shiftl i 12));
         pte_upd (fun v => Z.lor v CTRL_PTE) pg i) pg;
  (* a directory for each process *)
  pg ← for_range 1 MAX_NUM_PROC (fun j pg =>
         for_range 0 NUM_ENTRIES (fun i pg => pde_set pg j i CTRL_EMPTY_USR) pg) pg;
  (* clear the present bit of page 0 *)
  pg ← pte_upd (fun v => Z.land v 0xFFFFFFE) pg 0;
  Ok (enable_paging (set_cr3 pg 0)).

(** [for (i=0; i<MAX_NUM_PROC; i++) if (proc[i] == 0) break;] *)
Fixpoint find_slot (n : nat) (proc : list Z) (i : Z) : res Z :=
  match n with
  | O => Ok i
  | S n => p ← aget proc i; if p =? 0 then Ok i else find_slot n proc (i + 1)
  end.

Definition new_pde (pg : paging) (v_entry : Z) : res (Z * paging) :=
  i ← find_slot (Z.to_nat MAX_NUM_PROC) (proc pg) 0;
  if i =? 7 then Ok (-1, pg) else
  proc' ← aset (proc pg) i 1;
  let pg := set_proc pg proc' in
  (* video memory *)
  pg ← pde_set pg (i + 1) 0 PTE_addr;
  pg ← pde_upd (fun v => Z.land v 0xFFFFF000) pg (i + 1) 0;
  pg ← pde_upd (fun v => Z.lor v CTRL_VIDEO) pg (i + 1) 0;
  (* kernel memory *)
  pg ← pde_set pg (i + 1) 1 (Z.shiftl 1 22);
  pg ← pde_upd (fun v => Z.lor v CTRL_KERNEL) pg (i + 1) 1;
  let pg := enable_paging pg in
  (* the program's page *)
  let temp := u32 (0x400000 * i + 0x800000) in
  let temp := Z.land temp 0xFFC00000 in
  let v_entry := Z.shiftr v_entry 22 in
  pg ← pde_upd (fun v => Z.lor v (Z.lor temp 0x87)) pg (i + 1) v_entry;
  Ok (i, pg).

Definition change_cr3 (pg : paging) (process_id : Z) : Z * paging :=
  if (process_id <? 0) || (7 <? process_id) then (-1, pg)
  else (0, set_cr3 pg (process_id + 1)).

Definition change_pte (pg : paging) (i value : Z) : res paging :=
  pg ← pte_set pg i (u32 (Z.shiftl value 12));
  pte_upd (fun v => Z.lor v CTRL_PTE) pg i.

(** [get_PDE] of [sys_call.c]: the directory of a process. *)
Definition get_PDE (proc_id : Z) : Z := proc_id + 1.

(** The paging part of [sys_vidmap] of [sys_call.c]: a user-accessible page
    table entry for video memory, reached through directory entry 12. *)
Definition vidmap_pages (pg : paging) (proc_id : Z) : res paging :=
  pg ← pte_set pg 1 0xB8000;
  pg ← pte_upd (fun v => Z.lor v CTRL_PTE_USR) pg 1;
  pg ← pde_set pg (proc_id + 1) 12 PTE_addr;
  pg ← pde_upd (fun v => Z.land v 0xFFFFF000) pg (proc_id + 1) 12;
  pde_upd (fun v => Z.lor v CTRL_VIDEO_USR) pg (proc_id + 1) 12.

(** ** The page walk *)

(** The physical address of virtual address [v], for a supervisor or a user
    access; [None] is a page fault. *)
Definition walk (pg : paging) (user : bool) (v : Z) : option Z :=
  if negb (Z.testbit (cr0 pg) 31) then Some v else
  match pde_get pg (cr3 pg) (Z.shiftr v 22) with
  | Ok e =>
      if negb (Z.testbit e 0) || (user && negb (Z.testbit e 2)) then None else
      if Z.testbit e 7 then
        Some (Z.lor (Z.land e 0xFFC00000) (Z.land v 0x3FFFFF))
      else if Z.land e 0xFFFFF000 =? PTE_addr then
        match aget (PTE pg) (Z.land (Z.shiftr v 12) 0x3FF) with
        | Ok p =>
            if negb (Z.testbit p 0) || (user && negb (Z.testbit p 2)) then None
            else Some (Z.lor (Z.land p 0xFFFFF000) (Z.land v 0xFFF))
        | _ => None
        end
      else None
  | _ => None
  end.
End Code.

(** ** Reads after writes *)

(** The tables have their declared sizes. *)
Definition shaped (pg : paging) : Prop :=
  zlen (PDE pg) = 8 /\ Forall (fun row => zlen row = 1024) (PDE pg) /\
  zlen (PTE pg) = 1024 /\ zlen (proc pg) = 8.

(** [pde_set] and [pte_set] as total updates, used when the indices are in
    range. *)
Definition pde_put (pg : paging) (r c v : Z) : paging :=
  set_PDE pg (alter (fun row => <[Z.to_nat c := v]> row) (Z.to_nat r) (PDE pg)).

Definition pte_put (pg : paging) (i v : Z) : paging :=
  set_PTE pg (<[Z.to_nat i := v]> (PTE pg)).

Lemma shaped_row pg r :
  shaped pg -> 0 <= r < 8 -> exists row, PDE pg !! Z.to_nat r = Some row /\ zlen row = 1024.
Proof.
  intros (Hp & Hrows & _ & _) Hr.
  destruct (lookup_lt_is_Some_2 (PDE pg) (Z.to_nat r)) as [row Hrow]; [unfold zlen in Hp; lia |].
  exists row. split; [done |]. by apply (Forall_lookup_1 _ _ _ _ Hrows Hrow).
Qed.

Lemma shaped_pde_put pg r c v : shaped pg -> shaped (pde_put pg r c v).
Proof.
  intros (Hp & Hrows & Ht & Hpr). unfold shaped, pde_put. simpl. split_and!; [|clear Hp|done|done].
  - unfold zlen in *. by rewrite length_alter.
  - apply Forall_lookup. intros n row. rewrite list_lookup_alter.
    destruct (decide _).
    + intros (row0 & Hrow0 & ->)%fmap_Some. rewrite zlen_insert.
      by apply (Forall_lookup_1 _ _ _ _ Hrows Hrow0).
    + intros Hrow. by apply (Forall_lookup_1 _ _ _ _ Hrows Hrow).
Qed.

Lemma shaped_pte_put pg i v : shaped pg -> shaped (pte_put pg i v).
Proof.
  intros (? & ? & ? & ?). unfold shaped, pte_put. simpl. by rewrite zlen_insert.
Qed.

Lemma pde_set_put pg r c v :
  shaped pg -> 0 <= r < 8 -> 0 <= c < 1024 -> pde_set pg r c v = Ok (pde_put pg r c v).
Proof.
  intros Hs Hr Hc. destruct (shaped_row pg r Hs Hr) as (row & Hrow & Hlen).
  destruct Hs as (Hp & _ & _ & _). unfold pde_set.
  rewrite (proj2 (aget_lookup (PDE pg) r row)) by (split; [lia | done]). rstep.
  rewrite aset_in by lia. rstep. rewrite aset_in by lia. rstep.
  unfold pde_put. do 2 f_equal. apply list_eq. intros n.
  rewrite list_lookup_insert, list_lookup_alter. unfold zlen in Hp.
  destruct (decide (Z.to_nat r = n)) as [<-|].
  - rewrite Hrow. simpl. destruct (decide _); [done |]. lia.
  - by destruct (decide _); [lia|].
Qed.

Lemma pde_get_put pg r c v r' c' :
  shaped pg -> 0 <= r < 8 -> 0 <= c < 1024 ->
  pde_get (pde_put pg r c v) r' c' =
  if (r' =? r) && (c' =? c) then Ok v else pde_get pg r' c'.
Proof.
  intros Hs Hr Hc. destruct (shaped_row pg r Hs Hr) as (row & Hrow & Hlen).
  unfold pde_get, pde_put. simpl. destruct (Z.eqb_spec r' r) as [->|Hne].
  - assert (E : aget (alter (fun row => <[Z.to_nat c := v]> row) (Z.to_nat r) (PDE pg)) r
                = Ok (<[Z.to_nat c := v]> row)).
    { apply aget_lookup. split; [lia |]. rewrite list_lookup_alter.
      destruct (decide _); [|done]. by rewrite Hrow. }
    rewrite E, (proj2 (aget_lookup (PDE pg) r row)) by (split; [lia | done]). rstep. simpl.
    destruct (Z.eqb_spec c' c) as [->|Hc'].
    + apply aget_insert_eq. lia.
    + by apply aget_insert_ne; [|lia].
  - simpl. assert (E : forall f, aget (alter f (Z.to_nat r) (PDE pg)) r' = aget (PDE pg) r').
    { intros f. unfold aget. destruct (Z.ltb_spec r' 0); [done |].
      by rewrite list_lookup_alter_ne by lia. }
    by rewrite E.
Qed.

Lemma pde_put_put pg r c v w : pde_put (pde_put pg r c v) r c w = pde_put pg r c w.
Proof.
  unfold pde_put, set_PDE. simpl. f_equal. apply list_eq. intros n.
  rewrite !list_lookup_alter. destruct (decide _); [|done].
  rewrite decide_True by done. destruct (PDE pg !! Z.to_nat r); [|done]. simpl.
  by rewrite list_insert_insert_eq.
Qed.

Lemma pde_upd_put f pg r c v :
  shaped pg -> 0 <= r < 8 -> 0 <= c < 1024 -> pde_get pg r c = Ok v ->
  pde_upd f pg r c = Ok (pde_put pg r c (f v)).
Proof. intros ??? E. unfold pde_upd. rewrite E. rstep. by apply pde_set_put. Qed.

Lemma pte_set_put pg i v :
  shaped pg -> 0 <= i < 1024 -> pte_set pg i v = Ok (pte_put pg i v).
Proof. intros (_ & _ & Ht & _) Hi. unfold pte_set. by rewrite aset_in by lia. Qed.

Lemma pte_upd_put f pg i v :
  shaped pg -> 0 <= i < 1024 -> aget (PTE pg) i = Ok v ->
  pte_upd f pg i = Ok (pte_put pg i (f v)).
Proof. intros ?? E. unfold pte_upd. rewrite E. rstep. by apply pte_set_put. Qed.

Lemma pte_put_put pg i v w : pte_put (pte_put pg i v) i w = pte_put pg i w.
Proof. unfold pte_put, set_PTE. simpl. f_equal. apply list_insert_insert_eq. Qed.

Lemma aget_pte_put pg i v j :
  shaped pg -> 0 <= i < 1024 ->
  aget (PTE (pte_put pg i v)) j = if j =? i then Ok v else aget (PTE pg) j.
Proof.
  intros (_ & _ & Ht & _) Hi. unfold pte_put. simpl. destruct (Z.eqb_spec j i) as [->|].
  - apply aget_insert_eq. lia.
  - apply aget_insert_ne; lia.
Qed.

(** A write that succeeds keeps the sizes, wherever it goes. *)
Lemma pde_set_shaped pg r c v pg' : pde_set pg r c v = Ok pg' -> shaped pg -> shaped pg'.
Proof.
  unfold pde_set. intros (row & Hr & E)%res_bind_ok_inv (Hp & Hrows & Ht & Hpr).
  apply res_bind_ok_inv in E as (row' & Hc & E). apply res_bind_ok_inv in E as (pde' & Hs & [= <-]).
  apply aget_lookup in Hr as [_ Hr]. pose proof (Forall_lookup_1 _ _ _ _ Hrows Hr) as Hl. simpl in Hl.
  apply aset_Ok in Hs as [_ ->]. unfold shaped. simpl. rewrite zlen_insert. split_and!; try done.
  apply Forall_insert; [done |]. by rewrite (zlen_aset _ _ _ _ Hc).
Qed.

Lemma pde_upd_shaped f pg r c pg' : pde_upd f pg r c = Ok pg' -> shaped pg -> shaped pg'.
Proof. unfold pde_upd. intros (v & _ & E)%res_bind_ok_inv. by eapply pde_set_shaped. Qed.

Lemma pte_set_shaped pg i v pg' : pte_set pg i v = Ok pg' -> shaped pg -> shaped pg'.
Proof.
  unfold pte_set. intros (t & Ht & [= <-])%res_bind_ok_inv (? & ? & ? & ?). unfold shaped. simpl.
  by rewrite (zlen_aset _ _ _ _ Ht).
Qed.

Lemma pte_upd_shaped f pg i pg' : pte_upd f pg i = Ok pg' -> shaped pg -> shaped pg'.
Proof. unfold pte_upd. intros (v & _ & E)%res_bind_ok_inv. by eapply pte_set_shaped. Qed.

Lemma vidmap_pages_shaped `{Layout} pg p pg' : vidmap_pages pg p = Ok pg' -> shaped pg -> shaped pg'.
Proof.
  unfold vidmap_pages. intros (p1 & E1 & E)%res_bind_ok_inv Hs. apply res_bind_ok_inv in E as (p2 & E2 & E).
  apply res_bind_ok_inv in E as (p3 & E3 & E). apply res_bind_ok_inv in E as (p4 & E4 & E).
  apply (pde_upd_shaped _ _ _ _ _ E), (pde_upd_shaped _ _ _ _ _ E4), (pde_set_shaped _ _ _ _ _ E3).
  by apply (pte_upd_shaped _ _ _ _ E2), (pte_set_shaped _ _ _ _ E1).
Qed.

(** ** The invariant of the tables *)

Section Invariant.
Context `{Layout}.

Lemma PTE_page : PTE_addr = 2 ^ 12 * (PTE_addr / 2 ^ 12).
Proof. apply Z.div_exact; [lia | apply PTE_aligned]. Qed.

Lemma PTE_masked : Z.land PTE_addr 0xFFFFF000 = PTE_addr.
Proof.
  change 0xFFFFF000 with (Z.shiftl (Z.ones (32 - 12)) 12).
  rewrite land_high_mask by (lia || apply PTE_range). symmetry. apply PTE_page.
Qed.

Lemma PTE_flags f : 0 <= f < 2 ^ 12 -> Z.lor PTE_addr f = PTE_addr + f.
Proof. intros. rewrite PTE_page at 1. rewrite lor_low by lia. by rewrite <- PTE_page. Qed.

(** The 4 MB frame of the program of the process with directory [r]. *)
Definition frame (r : Z) : Z := 2 ^ 22 * (r + 1).

(** Entry [c] of the directory [r] of a process: [used] once the slot has been
    allocated, [vid] once it has called [vidmap]. *)
Definition row_entry (used vid : bool) (r c : Z) : Z :=
  if used && (c =? 0) then PTE_addr + CTRL_VIDEO
  else if used && (c =? 1) then 2 ^ 22 + CTRL_KERNEL
  else if used && (c =? 32) then frame r + CTRL_EMPTY_USR
  else if vid && (c =? 12) then PTE_addr + CTRL_VIDEO_USR
  else CTRL_EMPTY_USR.

Definition row_is (pg : paging) (used vid : bool) (r : Z) : Prop :=
  (aget (proc pg) (r - 1) = Ok 1 -> used = true) /\
  forall c, 0 <= c < 1024 -> pde_get pg r c = Ok (row_entry used vid r c).

Record paging_inv (pg : paging) : Prop := {
  inv_shaped : shaped pg;
  inv_flags : forall i p, aget (proc pg) i = Ok p -> p = 0 \/ p = 1;
  inv_last : aget (proc pg) 7 = Ok 0;
  inv_boot : pde_get pg 0 0 = Ok (PTE_addr + CTRL_VIDEO) /\
             pde_get pg 0 1 = Ok (2 ^ 22 + CTRL_KERNEL) /\
             (forall c, 2 <= c < 1024 -> pde_get pg 0 c = Ok (2 ^ 22 * c + CTRL_EMPTY));
  inv_rows : forall r, 1 <= r < 8 -> exists used vid, row_is pg used vid r;
  inv_null : aget (PTE pg) 0 = Ok 0;
  inv_user : forall i e, aget (PTE pg) i = Ok e -> Z.testbit e 2 = true ->
               i = 1 /\ e = 0xB8000 + CTRL_PTE_USR;
  inv_on : Z.testbit (cr0 pg) 31 = true
}.

(** *** Initialisation *)

Lemma init_row0_loop pg :
  shaped pg ->
  exists pg', for_range 2 NUM_ENTRIES (fun i pg =>
      pg ← pde_set pg 0 i (u32 (Z.shiftl i 22));
      pde_upd (fun v => Z.lor v CTRL_EMPTY) pg 0 i) pg = Ok pg' /\
    shaped pg' /\ PTE pg' = PTE pg /\ proc pg' = proc pg /\ cr0 pg' = cr0 pg /\
    (forall c, c < 2 -> pde_get pg' 0 c = pde_get pg 0 c) /\
    (forall c, 2 <= c < 1024 -> pde_get pg' 0 c = Ok (2 ^ 22 * c + CTRL_EMPTY)).
Proof.
  intros Hs. apply (for_range_inv (fun i q =>
    shaped q /\ PTE q = PTE pg /\ proc q = proc pg /\ cr0 q = cr0 pg /\
    (forall c, c < 2 -> pde_get q 0 c = pde_get pg 0 c) /\
    (forall c, 2 <= c < i -> pde_get q 0 c = Ok (2 ^ 22 * c + CTRL_EMPTY)))).
  { unfold NUM_ENTRIES. lia. }
  { split_and!; try done. lia. }
  unfold NUM_ENTRIES. intros j q Hj (Hq & E1 & E2 & E3 & Hlow & Hdone).
  rewrite pde_set_put by (done || lia). rstep.
  pose proof (shaped_pde_put q 0 j (u32 (Z.shiftl j 22)) Hq) as Hq'.
  erewrite pde_upd_put; [|done|lia|lia|].
  2:{ rewrite pde_get_put by (done || lia). by rewrite !Z.eqb_refl. }
  rewrite pde_put_put. eexists. split; [done |]. split_and!; try done.
  { by apply shaped_pde_put. }
  - intros c Hc. rewrite pde_get_put by (done || lia). zcases. by apply Hlow.
  - intros c Hc. rewrite pde_get_put by (done || lia). zcases.
    + subst. rewrite Z.shiftl_mul_pow2, u32_id, Z.mul_comm by lia.
      by rewrite lor_low by (unfold CTRL_EMPTY; lia).
    + apply Hdone. lia.
Qed.

Lemma init_pte_loop pg :
  shaped pg ->
  exists pg', for_range 0 NUM_ENTRIES (fun i pg =>
      pg ← pte_set pg i (u32 (Z.shiftl i 12));
      pte_upd (fun v => Z.lor v CTRL_PTE) pg i) pg = Ok pg' /\
    shaped pg' /\ PDE pg' = PDE pg /\ proc pg' = proc pg /\ cr0 pg' = cr0 pg /\
    (forall i, 0 <= i < 1024 -> aget (PTE pg') i = Ok (2 ^ 12 * i + CTRL_PTE)).
Proof.
  intros Hs. apply (for_range_inv (fun i q =>
    shaped q /\ PDE q = PDE pg /\ proc q = proc pg /\ cr0 q = cr0 pg /\
    (forall k, 0 <= k < i -> aget (PTE q) k = Ok (2 ^ 12 * k + CTRL_PTE)))).
  { unfold NUM_ENTRIES. lia. }
  { split_and!; try done. lia. }
  unfold NUM_ENTRIES. intros j q Hj (Hq & E1 & E2 & E3 & Hdone).
  rewrite pte_set_put by (done || lia). rstep.
  pose proof (shaped_pte_put q j (u32 (Z.shiftl j 12)) Hq) as Hq'.
  erewrite pte_upd_put; [|done|lia|].
  2:{ rewrite aget_pte_put by (done || lia). by rewrite Z.eqb_refl. }
  rewrite pte_put_put. eexists. split; [done |]. split_and!; try done.
  { by apply shaped_pte_put. }
  intros k Hk. rewrite aget_pte_put by (done || lia). zcases.
  - subst. rewrite Z.shiftl_mul_pow2, u32_id, Z.mul_comm by lia.
    by rewrite lor_low by (unfold CTRL_PTE; lia).
  - apply Hdone. lia.
Qed.

Lemma init_rows_loop pg :
  shaped pg ->
  exists pg', for_range 1 MAX_NUM_PROC (fun j pg =>
      for_range 0 NUM_ENTRIES (fun i pg => pde_set pg j i CTRL_EMPTY_USR) pg) pg = Ok pg' /\
    shaped pg' /\ PTE pg' = PTE pg /\ proc pg' = proc pg /\ cr0 pg' = cr0 pg /\
    (forall c, pde_get pg' 0 c = pde_get pg 0 c) /\
    (forall r c, 1 <= r < 8 -> 0 <= c < 1024 -> pde_get pg' r c = Ok CTRL_EMPTY_USR).
Proof.
  intros Hs. apply (for_range_inv (fun j q =>
    shaped q /\ PTE q = PTE pg /\ proc q = proc pg /\ cr0 q = cr0 pg /\
    (forall c, pde_get q 0 c = pde_get pg 0 c) /\
    (forall r c, 1 <= r < j -> 0 <= c < 1024 -> pde_get q r c = Ok CTRL_EMPTY_USR))).
  { unfold MAX_NUM_PROC. lia. }
  { split_and!; try done. lia. }
  unfold MAX_NUM_PROC. intros j q Hj (Hq & E1 & E2 & E3 & Hboot & Hdone).
  destruct (for_range_inv (fun i q' =>
    shaped q' /\ PTE q' = PTE q /\ proc q' = proc q /\ cr0 q' = cr0 q /\
    (forall r c, r <> j -> pde_get q' r c = pde_get q r c) /\
    (forall c, 0 <= c < i -> pde_get q' j c = Ok CTRL_EMPTY_USR))
    (fun i pg => pde_set pg j i CTRL_EMPTY_USR) 0 NUM_ENTRIES q)
    as (q' & -> & Hq' & F1 & F2 & F3 & Fother & Frow).
  { unfold NUM_ENTRIES. lia. }
  { split_and!; try done. lia. }
  { unfold NUM_ENTRIES. intros i t Hi (Ht & G1 & G2 & G3 & Gother & Grow).
    rewrite pde_set_put by (done || lia). eexists. split; [done |].
    split_and!; try done; [by apply shaped_pde_put | |].
    - intros r c Hr. rewrite pde_get_put by (done || lia). zcases. by apply Gother.
    - intros c Hc. rewrite pde_get_put by (done || lia). zcases. apply Grow. lia. }
  exists q'. split; [done |]. split_and!; try congruence; try done.
  - intros c. rewrite Fother by lia. apply Hboot.
  - intros r c Hr Hc. destruct (decide (r = j)) as [->|].
    + by apply Frow.
    + rewrite Fother by done. apply Hdone; lia.
Qed.

(** Three writes of one directory entry, as [init_paging], [new_pde] and
    [sys_vidmap] make them. *)
Lemma pde_table_entry pg r c f :
  shaped pg -> 0 <= r < 8 -> 0 <= c < 1024 -> 0 <= f < 2 ^ 12 ->
  (pg ← pde_set pg r c PTE_addr;
   pg ← pde_upd (fun v => Z.land v 0xFFFFF000) pg r c;
   pde_upd (fun v => Z.lor v f) pg r c) = Ok (pde_put pg r c (PTE_addr + f)).
Proof.
  intros Hs Hr Hc Hf. rewrite pde_set_put by done. rstep.
  pose proof (shaped_pde_put pg r c PTE_addr Hs).
  erewrite pde_upd_put; [|done..|]; [|rewrite pde_get_put, !Z.eqb_refl by done; done].
  rewrite pde_put_put, PTE_masked. rstep.
  erewrite pde_upd_put; [|done..|]; [|rewrite pde_get_put, !Z.eqb_refl by done; done].
  by rewrite pde_put_put, PTE_flags.
Qed.

Lemma pde_kernel_entry pg r :
  shaped pg -> 0 <= r < 8 ->
  (pg ← pde_set pg r 1 (Z.shiftl 1 22);
   pde_upd (fun v => Z.lor v CTRL_KERNEL) pg r 1) = Ok (pde_put pg r 1 (2 ^ 22 + CTRL_KERNEL)).
Proof.
  intros Hs Hr. rewrite pde_set_put by (done || lia). rstep.
  pose proof (shaped_pde_put pg r 1 (Z.shiftl 1 22) Hs).
  erewrite pde_upd_put; [|done|lia|lia|]; [|rewrite pde_get_put, !Z.eqb_refl by (done || lia); done].
  by rewrite pde_put_put.
Qed.

Lemma enable_paging_on pg : Z.testbit (cr0 (enable_paging pg)) 31 = true.
Proof.
  change (cr0 (enable_paging pg)) with (Z.lor (cr0 pg) 0x80000000).
  rewrite Z.lor_spec. apply orb_true_r.
Qed.

Lemma init_paging_inv pg :
  shaped pg -> proc pg = replicate 8 0 ->
  exists pg', init_paging pg = Ok pg' /\ paging_inv pg' /\ proc pg' = replicate 8 0 /\
    cr3 pg' = 0 /\ (forall i, 1 <= i < 1024 -> aget (PTE pg') i = Ok (2 ^ 12 * i + CTRL_PTE)).
Proof.
  intros Hs Hproc. unfold init_paging.
  pose proof (pde_table_entry pg 0 0 CTRL_VIDEO Hs ltac:(lia) ltac:(lia) ltac:(done)) as E.
  apply res_bind_ok_inv in E as (pg1 & -> & E). rstep.
  apply res_bind_ok_inv in E as (pg2 & -> & E). rstep. rewrite E. rstep. clear pg1 pg2 E.
  set (pg1 := pde_put pg 0 0 _). assert (H1 : shaped pg1) by by apply shaped_pde_put.
  pose proof (pde_kernel_entry pg1 0 H1 ltac:(lia)) as E.
  apply res_bind_ok_inv in E as (pg2 & -> & E). rstep. rewrite E. rstep. clear pg2 E.
  set (pg2 := pde_put pg1 0 1 _). assert (H2 : shaped pg2) by by apply shaped_pde_put.
  destruct (init_row0_loop pg2 H2) as (pg3 & -> & H3 & T3 & P3 & _ & Low3 & Row3). rstep.
  destruct (init_pte_loop pg3 H3) as (pg4 & -> & H4 & D4 & P4 & _ & T4). rstep.
  destruct (init_rows_loop pg4 H4) as (pg5 & -> & H5 & T5 & P5 & _ & B5 & R5). rstep.
  erewrite pte_upd_put; [|done|lia|]; [|rewrite T5; by apply T4]. rstep.
  eexists. split; [done |].
  assert (Hp : proc pg5 = replicate 8 0) by (rewrite P5, P4, P3; exact Hproc).
  assert (B : forall c, pde_get pg5 0 c = pde_get pg3 0 c).
  { intros c. rewrite B5. unfold pde_get. by rewrite D4. }
  split; [constructor; simpl |].
  - by apply (shaped_pte_put pg5 0 0).
  - rewrite Hp. intros i p Hi. left. apply aget_lookup in Hi as [_ Hi].
    by apply lookup_replicate in Hi as [-> _].
  - by rewrite Hp.
  - change (pde_get (enable_paging (set_cr3 (pte_put pg5 0 (Z.land (2 ^ 12 * 0 + CTRL_PTE) 268435454)) 0)))
      with (pde_get pg5). rewrite !B, !Low3 by lia. unfold pg2, pg1.
    rewrite !pde_get_put by (done || lia). simpl. split_and!; try done.
    intros c Hc. rewrite B. by apply Row3.
  - intros r Hr. exists false, false. split.
    + cbn [proc enable_paging set_cr3 pte_put set_PTE]. rewrite Hp. intros E%aget_lookup. destruct E as [_ E].
      apply lookup_replicate in E as [E _]. done.
    + intros c Hc. unfold row_entry. simpl.
      change (pde_get (enable_paging (set_cr3 (pte_put pg5 0 (Z.land (2 ^ 12 * 0 + CTRL_PTE) 268435454)) 0)))
        with (pde_get pg5). by apply R5.
  - apply (aget_pte_put pg5 0 0 0 H5). lia.
  - intros i e He Hbit. exfalso. change (Z.testbit e 2 = true) in Hbit. change (aget (PTE (pte_put pg5 0 0)) i = Ok e) in He.
    rewrite (aget_pte_put pg5 0 0 i H5) in He by lia.
    destruct (Z.eqb_spec i 0) as [->|]; [by injection He as <- |]. rewrite T5 in He.
    pose proof (aget_Ok_range _ _ _ He) as Hi. destruct H4 as (_ & _ & L4 & _). rewrite L4 in Hi.
    rewrite T4 in He by lia. assert (e = 2 ^ 12 * i + CTRL_PTE) as -> by congruence.
    by rewrite testbit_page in Hbit by lia.
  - apply enable_paging_on.
  - split_and!; [done | done |]. intros i Hi.
    etrans; [exact (aget_pte_put pg5 0 0 i H5 ltac:(lia)) |]. zcases. rewrite T5. apply T4. lia.
Qed.

(** *** Allocating and releasing process slots *)

Lemma find_slot_spec pr n i :
  zlen pr = 8 -> (forall j p, aget pr j = Ok p -> p = 0 \/ p = 1) -> aget pr 7 = Ok 0 ->
  0 <= i <= 7 -> Z.of_nat n = 8 - i ->
  exists k, find_slot n pr i = Ok k /\ i <= k <= 7 /\ aget pr k = Ok 0 /\
    forall j, i <= j < k -> aget pr j = Ok 1.
Proof.
  intros Hl Hflags H7. revert i. induction n as [|n IH]; intros i Hi Hn; [lia |]. simpl.
  destruct (aget_in_range pr i) as [p Hp]; [lia |]. rewrite Hp. rstep.
  destruct (Hflags i p Hp) as [-> | ->]; simpl.
  - exists i. split_and!; (done || lia).
  - assert (i <> 7) by congruence.
    destruct (IH (i + 1)) as (k & -> & Hk & E & Hbusy); [lia.. |].
    exists k. split_and!; (done || lia || idtac). intros j Hj.
    destruct (decide (j = i)) as [->|]; [done |]. apply Hbusy. lia.
Qed.

Lemma frame_bits i :
  0 <= i < 7 ->
  Z.lor (Z.land (u32 (0x400000 * i + 0x800000)) 0xFFC00000) 0x87 = frame (i + 1) + 0x87.
Proof.
  intros Hi. rewrite u32_id by lia.
  change 0xFFC00000 with (Z.shiftl (Z.ones (32 - 22)) 22). rewrite land_high_mask by lia.
  replace (0x400000 * i + 0x800000) with (2 ^ 22 * (i + 2) + 0) by lia.
  rewrite div_page by lia. rewrite lor_low by lia. unfold frame. lia.
Qed.

(** What allocating slot [i] for a program with entry page [k] stores. *)
Definition alloc_pages (pg : paging) (i k old : Z) : paging :=
  pde_put (enable_paging
    (pde_put (pde_put (set_proc pg (<[Z.to_nat i := 1]> (proc pg))) (i + 1) 0 (PTE_addr + CTRL_VIDEO))
       (i + 1) 1 (2 ^ 22 + CTRL_KERNEL)))
    (i + 1) k (Z.lor old (frame (i + 1) + 0x87)).

Lemma shaped_set_proc pg i v : shaped pg -> shaped (set_proc pg (<[i := v]> (proc pg))).
Proof. intros (? & ? & ? & ?). unfold shaped. simpl. by rewrite zlen_insert. Qed.

Lemma new_pde_alloc pg v i :
  shaped pg -> find_slot 8 (proc pg) 0 = Ok i -> 0 <= i < 7 -> 0 <= v < 2 ^ 32 ->
  exists old,
    new_pde pg v = Ok (i, alloc_pages pg i (v / 2 ^ 22) old) /\
    (2 <= v / 2 ^ 22 -> pde_get pg (i + 1) (v / 2 ^ 22) = Ok old) /\
    (v / 2 ^ 22 = 1 -> old = 2 ^ 22 + CTRL_KERNEL).
Proof.
  intros Hs Hslot Hi Hv. unfold new_pde. change (Z.to_nat MAX_NUM_PROC) with 8%nat.
  rewrite Hslot. rstep. destruct (Z.eqb_spec i 7); [lia |].
  rewrite aset_in by (destruct Hs as (_ & _ & _ & ->); lia). rstep.
  set (pg0 := set_proc pg _). assert (H0 : shaped pg0) by by apply shaped_set_proc.
  pose proof (pde_table_entry pg0 (i + 1) 0 CTRL_VIDEO H0 ltac:(lia) ltac:(lia) ltac:(done)) as E.
  apply res_bind_ok_inv in E as (pg1 & -> & E). rstep.
  apply res_bind_ok_inv in E as (pg2 & -> & E). rstep. rewrite E. rstep. clear pg1 pg2 E.
  set (pg1 := pde_put pg0 (i + 1) 0 _). assert (H1 : shaped pg1) by by apply shaped_pde_put.
  pose proof (pde_kernel_entry pg1 (i + 1) H1 ltac:(lia)) as E.
  apply res_bind_ok_inv in E as (pg2 & -> & E). rstep. rewrite E. rstep. clear pg2 E.
  set (pg2 := pde_put pg1 (i + 1) 1 _). assert (H2 : shaped pg2) by by apply shaped_pde_put.
  rewrite Z.shiftr_div_pow2 by lia. set (k := v / 2 ^ 22).
  assert (Hk : 0 <= k < 1024) by (unfold k; split;
    [apply Z.div_pos; lia | apply Z.div_lt_upper_bound; lia]).
  destruct (shaped_row pg2 (i + 1) H2 ltac:(lia)) as (row & Hrow & Hlen).
  destruct (aget_in_range row k ltac:(lia)) as [old Hold].
  assert (Hget : pde_get pg2 (i + 1) k = Ok old).
  { unfold pde_get. rewrite (proj2 (aget_lookup (PDE pg2) (i + 1) row)) by (split; [lia | done]).
    exact Hold. }
  exists old. erewrite pde_upd_put; [|exact H2|lia|done|exact Hget]. rstep.
  rewrite frame_bits by lia. split; [done |]. revert Hget. unfold pg2, pg1.
  rewrite !pde_get_put by (done || lia). intros Hget. split.
  - intros Hk2. rewrite <- Hget. by zcases.
  - intros Hk1. rewrite Hk1, Z.eqb_refl in Hget. by injection Hget.
Qed.

Lemma pde_get_alloc pg i k old r c :
  shaped pg -> 0 <= i < 7 -> 0 <= k < 1024 ->
  pde_get (alloc_pages pg i k old) r c =
  if (r =? i + 1) && (c =? k) then Ok (Z.lor old (frame (i + 1) + 0x87))
  else if (r =? i + 1) && (c =? 1) then Ok (2 ^ 22 + CTRL_KERNEL)
  else if (r =? i + 1) && (c =? 0) then Ok (PTE_addr + CTRL_VIDEO)
  else pde_get pg r c.
Proof.
  intros Hs Hi Hk. unfold alloc_pages.
  pose proof (shaped_set_proc pg (Z.to_nat i) 1 Hs).
  rewrite pde_get_put by (lia || done || (apply shaped_pde_put, shaped_pde_put; done)).
  destruct ((r =? i + 1) && (c =? k)); [done |].
  rewrite <- (pde_get_put _ (i + 1) 0 (PTE_addr + CTRL_VIDEO) r c (shaped_set_proc pg (Z.to_nat i) 1 Hs))
    by lia.
  by rewrite <- (pde_get_put _ (i + 1) 1) by (lia || by apply shaped_pde_put).
Qed.

Lemma frame_or_empty r : 0 <= r -> Z.lor CTRL_EMPTY_USR (frame r + 0x87) = frame r + 0x87.
Proof.
  intros Hr. unfold frame. rewrite <- lor_low by lia.
  by rewrite (Z.lor_comm (2 ^ 22 * _)), Z.lor_assoc.
Qed.

(** Allocating a slot for a program linked at 128 MB keeps the invariant. *)
Lemma alloc_inv pg i old :
  paging_inv pg -> 0 <= i < 7 -> aget (proc pg) i = Ok 0 ->
  pde_get pg (i + 1) 32 = Ok old -> paging_inv (alloc_pages pg i 32 old).
Proof.
  intros [Hs Hfl Hlast Hboot Hrows Hnull Huser Hon] Hi Hfree Hold.
  assert (Hp : zlen (proc pg) = 8) by apply Hs.
  assert (Hget := pde_get_alloc pg i 32 old). constructor.
  - apply shaped_pde_put, shaped_pde_put, shaped_pde_put, shaped_set_proc, Hs.
  - simpl. intros j p Hj. destruct (decide (j = i)) as [->|].
    + rewrite aget_insert_eq in Hj by lia. injection Hj as <-. auto.
    + rewrite aget_insert_ne in Hj by lia. eauto.
  - simpl. by rewrite aget_insert_ne by lia.
  - destruct Hboot as (B0 & B1 & B2). rewrite !Hget by (done || lia).
    destruct (Z.eqb_spec 0 (i + 1)); [lia |]. simpl. split_and!; [done.. |].
    intros c Hc. rewrite Hget by (done || lia). destruct (Z.eqb_spec 0 (i + 1)); [lia |].
    by apply B2.
  - intros r Hr. destruct (Hrows r Hr) as (used & vid & Hused & Hrow).
    destruct (decide (r = i + 1)) as [->|Hne].
    + exists true, vid. split; [done |]. intros c Hc. rewrite Hget by (done || lia).
      rewrite Z.eqb_refl. rewrite Hrow in Hold by lia. injection Hold as <-.
      unfold row_entry. simpl. destruct (Z.eqb_spec c 32) as [->|]; simpl.
      { f_equal. destruct used; simpl; [apply Z.lor_diag |].
        rewrite andb_false_r. apply frame_or_empty. lia. }
      destruct (Z.eqb_spec c 1) as [->|]; [done |]. simpl.
      destruct (Z.eqb_spec c 0) as [->|]; [done |]. simpl.
      rewrite Hrow by lia. unfold row_entry. destruct used; simpl; zcases; done.
    + exists used, vid. split.
      * simpl. rewrite aget_insert_ne by lia. done.
      * intros c Hc. rewrite Hget by (done || lia). destruct (Z.eqb_spec r (i + 1)); [lia |].
        by apply Hrow.
  - done.
  - exact Huser.
  - apply enable_paging_on.
Qed.

Lemma remove_page_inv pg p :
  paging_inv pg -> 0 <= p < 8 ->
  exists pg', remove_page pg p = Ok pg' /\ paging_inv pg' /\
    proc pg' = <[Z.to_nat p := 0]> (proc pg) /\ PDE pg' = PDE pg.
Proof.
  intros [Hs Hfl Hlast Hboot Hrows Hnull Huser Hon] Hp.
  assert (Hl : zlen (proc pg) = 8) by apply Hs. unfold remove_page.
  rewrite aset_in by lia. eexists. split; [done |]. split; [|done]. constructor; try done.
  - by apply shaped_set_proc.
  - simpl. intros j q Hj. destruct (decide (j = p)) as [->|].
    + rewrite aget_insert_eq in Hj by lia. injection Hj as <-. auto.
    + rewrite aget_insert_ne in Hj by lia. eauto.
  - simpl. destruct (decide (p = 7)) as [->|]; [by rewrite aget_insert_eq by lia |].
    by rewrite aget_insert_ne by lia.
  - intros r Hr. destruct (Hrows r Hr) as (used & vid & Hused & Hrow).
    exists used, vid. split; [|done]. simpl. destruct (decide (r - 1 = p)) as [->|].
    + rewrite aget_insert_eq by lia. done.
    + rewrite aget_insert_ne by lia. done.
Qed.

Lemma pte_put_inv pg i v :
  paging_inv pg -> 0 < i < 1024 ->
  (Z.testbit v 2 = true -> i = 1 /\ v = 0xB8000 + CTRL_PTE_USR) ->
  paging_inv (pte_put pg i v).
Proof.
  intros [Hs Hfl Hlast Hboot Hrows Hnull Huser Hon] Hi Hv. constructor; try done.
  - by apply shaped_pte_put.
  - rewrite aget_pte_put by (done || lia). by zcases.
  - intros j e. rewrite aget_pte_put by (done || lia).
    destruct (Z.eqb_spec j i) as [->|]; [by intros [= <-] | apply Huser].
Qed.

Lemma change_pte_put pg i v :
  shaped pg -> 0 <= i < 1024 -> 0 <= v < 2 ^ 20 ->
  change_pte pg i v = Ok (pte_put pg i (2 ^ 12 * v + CTRL_PTE)).
Proof.
  intros Hs Hi Hv. unfold change_pte. rewrite pte_set_put by done. rstep.
  erewrite pte_upd_put; [|by apply shaped_pte_put|done|
    by rewrite aget_pte_put, Z.eqb_refl by done].
  rewrite pte_put_put, Z.shiftl_mul_pow2, u32_id, Z.mul_comm by lia.
  by rewrite lor_low by (unfold CTRL_PTE; lia).
Qed.

Lemma change_pte_inv pg i v :
  paging_inv pg -> 0 < i < 1024 -> 0 <= v < 2 ^ 20 ->
  exists pg', change_pte pg i v = Ok pg' /\ paging_inv pg'.
Proof.
  intros Hinv Hi Hv. rewrite change_pte_put by (lia || apply Hinv).
  eexists. split; [done |]. apply pte_put_inv; [done.. |].
  rewrite testbit_page by lia. done.
Qed.

Lemma vidmap_pages_put pg p :
  shaped pg -> 0 <= p < 7 ->
  vidmap_pages pg p =
  Ok (pde_put (pte_put pg 1 (0xB8000 + CTRL_PTE_USR)) (p + 1) 12 (PTE_addr + CTRL_VIDEO_USR)).
Proof.
  intros Hs Hp. unfold vidmap_pages. rewrite pte_set_put by (done || lia). rstep.
  erewrite pte_upd_put; [|by apply shaped_pte_put|lia|
    by rewrite aget_pte_put, Z.eqb_refl by (done || lia)]. rstep.
  rewrite pte_put_put. apply pde_table_entry; [by apply shaped_pte_put | lia.. | done].
Qed.

Lemma vidmap_pages_inv pg p :
  paging_inv pg -> 0 <= p < 7 ->
  exists pg', vidmap_pages pg p = Ok pg' /\ paging_inv pg'.
Proof.
  intros Hinv Hp. rewrite vidmap_pages_put by (lia || apply Hinv).
  eexists. split; [done |].
  apply (pte_put_inv pg 1 (0xB8000 + CTRL_PTE_USR)) in Hinv; [|lia|done].
  set (pg1 := pte_put _ _ _) in *. destruct Hinv as [Hs Hfl Hlast Hboot Hrows Hnull Huser Hon].
  assert (Hget := fun r c => pde_get_put pg1 (p + 1) 12 (PTE_addr + CTRL_VIDEO_USR) r c Hs
                     ltac:(lia) ltac:(lia)).
  constructor; try done.
  - by apply shaped_pde_put.
  - destruct Hboot as (B0 & B1 & B2). rewrite !Hget.
    destruct (Z.eqb_spec 0 (p + 1)); [lia |]. split_and!; [done.. |].
    intros c Hc. rewrite Hget. destruct (Z.eqb_spec 0 (p + 1)); [lia |]. by apply B2.
  - intros r Hr. destruct (Hrows r Hr) as (used & vid & Hused & Hrow).
    destruct (decide (r = p + 1)) as [->|].
    + exists used, true. split; [done |]. intros c Hc. rewrite Hget, Z.eqb_refl. simpl.
      unfold row_entry. destruct (Z.eqb_spec c 12) as [->|]; simpl.
      * by rewrite !andb_false_r.
      * rewrite Hrow by done. unfold row_entry. rewrite (proj2 (Z.eqb_neq c 12)) by done.
        by rewrite !andb_false_r.
    + exists used, vid. split; [done |]. intros c Hc. rewrite Hget.
      destruct (Z.eqb_spec r (p + 1)); [lia |]. by apply Hrow.
Qed.
End Invariant.

(** ** Reachable tables *)

Section Reachable.
Context `{Layout}.

(** The tables as the loader leaves them: zeroed data, any CR0 and CR4. *)
Definition boot_paging (c0 c4 : Z) : paging :=
  mkPaging (replicate 8 (replicate 1024 0)) (replicate 1024 0) (replicate 8 0) c0 0 c4.

(** The calls by which the kernel changes the tables after booting, with any
    arguments. *)
Inductive pg_op : Type :=
| Op_new_pde (v_entry : Z)
| Op_remove_page (proc_id : Z)
| Op_change_pte (i value : Z)
| Op_change_cr3 (process_id : Z)
| Op_vidmap (proc_id : Z).

Definition pg_exec (op : pg_op) (pg : paging) : res paging :=
  match op with
  | Op_new_pde v => '(_, pg) ← new_pde pg v; Ok pg
  | Op_remove_page p => remove_page pg p
  | Op_change_pte i v => change_pte pg i v
  | Op_change_cr3 p => Ok (change_cr3 pg p).2
  | Op_vidmap p => vidmap_pages pg p
  end.

Fixpoint pg_run (ops : list pg_op) (pg : paging) : res paging :=
  match ops with
  | [] => Ok pg
  | op :: ops => pg ← pg_exec op pg; pg_run ops pg
  end.

(** The arguments that the tables can bear. The entry point of a program lies in
    the 4 MB page at 128 MB; [execute] takes it from the file and does not check
    it (see [new_pde_moves_kernel]). Process ids come from [new_pde]; page 0 is not
    remapped (the kernel only ever remaps page 0xb8). *)
Definition op_ok (op : pg_op) : Prop :=
  match op with
  | Op_new_pde v => v / 2 ^ 22 = 32
  | Op_remove_page p => 0 <= p < 8
  | Op_change_pte i v => 0 < i < 1024 /\ 0 <= v < 2 ^ 20
  | Op_change_cr3 _ => True
  | Op_vidmap p => 0 <= p < 7
  end.

Lemma set_cr3_inv pg r : paging_inv pg -> paging_inv (set_cr3 pg r).
Proof. by intros [? ? ? ? ? ? ? ?]; constructor. Qed.

Lemma free_slot pg :
  paging_inv pg ->
  exists i, find_slot 8 (proc pg) 0 = Ok i /\ 0 <= i <= 7 /\ aget (proc pg) i = Ok 0 /\
    (forall j, 0 <= j < i -> aget (proc pg) j = Ok 1).
Proof.
  intros Hinv. destruct (find_slot_spec (proc pg) 8 0) as (i & E & Hi & Hf & Hb);
    [apply Hinv | apply Hinv | apply Hinv | lia | done |].
  exists i. by rewrite E.
Qed.

Lemma pg_exec_inv op pg :
  paging_inv pg -> op_ok op -> exists pg', pg_exec op pg = Ok pg' /\ paging_inv pg'.
Proof.
  intros Hinv Hop. destruct op as [v|p|i v|p|p]; simpl in *.
  - destruct (free_slot pg Hinv) as (i & Hslot & Hi & Hfree & _).
    destruct (decide (i = 7)) as [->|].
    { exists pg. split; [|done]. unfold new_pde. change (Z.to_nat MAX_NUM_PROC) with 8%nat. by rewrite Hslot. }
    pose proof (Z.div_mod v (2 ^ 22) ltac:(lia)). pose proof (Z.mod_pos_bound v (2 ^ 22) ltac:(lia)).
    destruct (new_pde_alloc pg v i ltac:(apply Hinv) Hslot ltac:(lia) ltac:(lia)) as (old & E & Hold & _).
    rewrite E, Hop in *. eexists. split; [reflexivity |]. apply alloc_inv; [done | lia | done | apply Hold; lia].
  - destruct (remove_page_inv pg p Hinv Hop) as (q & E & Hq & _). by exists q.
  - destruct Hop. by apply change_pte_inv.
  - eexists. split; [done |]. unfold change_cr3. destruct (_ || _); [done | by apply set_cr3_inv].
  - by apply vidmap_pages_inv.
Qed.

Lemma pg_run_inv ops pg :
  paging_inv pg -> Forall op_ok ops -> exists pg', pg_run ops pg = Ok pg' /\ paging_inv pg'.
Proof.
  intros Hinv Hops. revert pg Hinv. induction Hops as [|op ops Hop _ IH]; intros pg Hinv; [by exists pg |].
  destruct (pg_exec_inv op pg Hinv Hop) as (pg1 & E & Hinv1). destruct (IH pg1 Hinv1) as (pg2 & E2 & Hinv2).
  exists pg2. split; [|done]. simpl. by rewrite E.
Qed.

(** C6. Booting sets the paging tables up, and every sequence of the kernel's
    operations on them runs to its end and keeps their invariant, for programs whose
    entry point lies in the 4 MB page at 128 MB, process ids in range, and
    remappings of pages other than page 0. The invariant: the declared sizes, the
    flags of the process slots with slot 7 never taken, the boot directory, each
    process directory (page table, kernel page, program frame, video page), page 0
    unmapped, no user-accessible page of the low 4 MB but video memory, and
    paging on. The code checks none of the arguments. *)
Theorem paging_reachable_inv c0 c4 :
  exists pg1, init_paging (boot_paging c0 c4) = Ok pg1 /\ paging_inv pg1 /\
    forall ops, Forall op_ok ops -> exists pg, pg_run ops pg1 = Ok pg /\ paging_inv pg.
Proof.
  destruct (init_paging_inv (boot_paging c0 c4)) as (pg1 & E & Hinv & _).
  { split_and!; try done. simpl. repeat constructor. }
  { done. }
  exists pg1. split_and!; [done | done |]. intros ops. by apply pg_run_inv.
Qed.

(** [new_pde] always returns on reachable tables, whatever the entry
    point of the program, and never writes outside [PDE] and [proc]: it takes
    the lowest free slot among the seven usable ones and marks it, or returns
    -1 without a change when all seven are taken. *)
Theorem new_pde_slots pg v :
  paging_inv pg -> 0 <= v < 2 ^ 32 ->
  (exists i pg', new_pde pg v = Ok (i, pg') /\ 0 <= i < 7 /\ shaped pg' /\
     aget (proc pg) i = Ok 0 /\ (forall j, 0 <= j < i -> aget (proc pg) j = Ok 1) /\
     proc pg' = <[Z.to_nat i := 1]> (proc pg)) \/
  (new_pde pg v = Ok (-1, pg) /\ forall j, 0 <= j < 7 -> aget (proc pg) j = Ok 1).
Proof.
  intros Hinv Hv. destruct (free_slot pg Hinv) as (i & Hslot & Hi & Hfree & Hbusy).
  destruct (decide (i = 7)) as [->|].
  - right. split; [|done]. unfold new_pde.
    change (Z.to_nat MAX_NUM_PROC) with 8%nat. by rewrite Hslot.
  - left. destruct (new_pde_alloc pg v i ltac:(apply Hinv) Hslot ltac:(lia) Hv) as (old & E & _).
    exists i, (alloc_pages pg i (v / 2 ^ 22) old). split_and!; try (done || lia).
    + destruct Hinv as [Hs]. unfold alloc_pages.
      apply shaped_pde_put. apply (shaped_pde_put _ (i + 1) 1), shaped_pde_put.
      by apply shaped_set_proc.
Qed.

(** ** Address spaces *)

(** A walk through a 4 MB page. *)
Lemma walk_large pg user v q f :
  Z.testbit (cr0 pg) 31 = true -> 0 <= v < 2 ^ 32 -> 0 <= f < 2 ^ 22 -> 0 <= q < 1024 ->
  pde_get pg (cr3 pg) (v / 2 ^ 22) = Ok (2 ^ 22 * q + f) ->
  Z.testbit f 0 = true -> Z.testbit f 7 = true -> (user = true -> Z.testbit f 2 = true) ->
  walk pg user v = Some (2 ^ 22 * q + v mod 2 ^ 22).
Proof.
  intros Hon Hv Hf Hq E B0 B7 B2. unfold walk. rewrite Hon. change (negb true) with false. cbv iota.
  rewrite Z.shiftr_div_pow2, E by lia. rewrite !testbit_page by lia. rewrite B0, B7.
  assert ((negb true || user && negb (Z.testbit f 2))%bool = false) as ->.
  { destruct user; [by rewrite B2 | done]. }
  change 0xFFC00000 with (Z.shiftl (Z.ones (32 - 22)) 22). rewrite land_high_mask by lia.
  rewrite div_page by lia. change 0x3FFFFF with (Z.ones 22). rewrite Z.land_ones by lia.
  rewrite lor_low; [done | lia |]. apply Z.mod_pos_bound. lia.
Qed.

(** An executable whose entry point lies in the kernel's page (4 MB to 8 MB). The
    directory that [new_pde] makes for it maps the whole page to another frame,
    for user code, too: the kernel is not there any more when [execute] loads the
    directory. *)
Theorem new_pde_moves_kernel pg v i :
  paging_inv pg -> find_slot 8 (proc pg) 0 = Ok i -> 0 <= i < 7 -> v / 2 ^ 22 = 1 ->
  exists pg' f, new_pde pg v = Ok (i, pg') /\ 2 <= f /\
    forall user a, 2 ^ 22 <= a < 2 ^ 23 -> walk (snd (change_cr3 pg' i)) user a = Some (2 ^ 22 * f + a mod 2 ^ 22).
Proof.
  intros Hinv Hslot Hi Hv. pose proof (Z.div_mod v (2 ^ 22) ltac:(lia)). pose proof (Z.mod_pos_bound v (2 ^ 22) ltac:(lia)).
  destruct (new_pde_alloc pg v i ltac:(apply Hinv) Hslot ltac:(lia) ltac:(lia)) as (old & E & _ & Hold).
  rewrite (Hold Hv), Hv in E. set (pg' := alloc_pages pg i 1 (2 ^ 22 + CTRL_KERNEL)) in *.
  assert (Hf : Z.lor (2 ^ 22 + CTRL_KERNEL) (frame (i + 1) + 0x87) = 2 ^ 22 * Z.lor 1 (i + 2) + 0x187 /\
    2 <= Z.lor 1 (i + 2) < 1024).
  { assert (i = 0 \/ i = 1 \/ i = 2 \/ i = 3 \/ i = 4 \/ i = 5 \/ i = 6) as Hc by lia.
    by repeat (destruct Hc as [->|Hc]); [..|subst i]. }
  destruct Hf as (Ef & Hf). exists pg', (Z.lor 1 (i + 2)). split_and!; [done | lia |]. intros user a Ha.
  assert (snd (change_cr3 pg' i) = set_cr3 pg' (i + 1)) as -> by (unfold change_cr3; by zcases).
  assert (Ha1 : a / 2 ^ 22 = 1) by (symmetry; apply (Z.div_unique _ _ _ (a - 2 ^ 22)); lia).
  apply (walk_large _ user a _ 0x187); try (done || lia).
  - apply enable_paging_on.
  - rewrite Ha1. transitivity (pde_get pg' (i + 1) 1); [done |]. unfold pg'.
    rewrite pde_get_alloc, !Z.eqb_refl by (lia || apply Hinv). simpl. by rewrite Ef.
Qed.

(** A walk through the page table. *)
Lemma walk_small pg user v f p :
  Z.testbit (cr0 pg) 31 = true -> 0 <= v < 2 ^ 32 -> 0 <= f < 2 ^ 12 ->
  pde_get pg (cr3 pg) (v / 2 ^ 22) = Ok (PTE_addr + f) ->
  Z.testbit f 0 = true -> Z.testbit f 7 = false -> (user = true -> Z.testbit f 2 = true) ->
  aget (PTE pg) ((v / 2 ^ 12) mod 2 ^ 10) = Ok p ->
  walk pg user v =
  if negb (Z.testbit p 0) || (user && negb (Z.testbit p 2)) then None
  else Some (Z.lor (Z.land p 0xFFFFF000) (v mod 2 ^ 12)).
Proof.
  intros Hon Hv Hf E B0 B7 B2 Hp. unfold walk. rewrite Hon. change (negb true) with false. cbv iota.
  rewrite (Z.shiftr_div_pow2 v 22), E by lia. rewrite PTE_page, !testbit_page by lia.
  rewrite B0, B7. assert ((negb true || user && negb (Z.testbit f 2))%bool = false) as ->.
  { destruct user; [by rewrite B2 | done]. }
  assert (Z.land (2 ^ 12 * (PTE_addr / 2 ^ 12) + f) 0xFFFFF000 = PTE_addr) as ->.
  { pose proof PTE_range. pose proof PTE_page.
    change 0xFFFFF000 with (Z.shiftl (Z.ones (32 - 12)) 12).
    assert (PTE_addr / 2 ^ 12 < 2 ^ 20) by (apply Z.div_lt_upper_bound; lia).
    assert (0 <= PTE_addr / 2 ^ 12) by (apply Z.div_pos; lia).
    rewrite land_high_mask, div_page by lia. lia. }
  rewrite <- PTE_page, Z.eqb_refl. change 0x3FF with (Z.ones 10).
  rewrite Z.land_ones, Z.shiftr_div_pow2, Hp by lia.
  change 0xFFF with (Z.ones 12). by rewrite Z.land_ones by lia.
Qed.

(** Everything user code of process [p] can reach: its own 4 MB frame at
    128 MB; nothing of the low 4 MB and of the kernel page; video memory if it
    asked for it; and, through every other directory entry, physical memory
    from 0 to 4 MB. *)
Lemma user_view_at pg p :
  paging_inv pg -> 0 <= p < 7 -> aget (proc pg) p = Ok 1 -> cr3 pg = p + 1 ->
  exists vid screen : bool, forall v, 0 <= v < 2 ^ 32 ->
    walk pg true v =
    let c := v / 2 ^ 22 in
    if c =? 32 then Some (frame (p + 1) + v mod 2 ^ 22)
    else if c <=? 1 then None
    else if vid && (c =? 12) then
      if ((v / 2 ^ 12) mod 2 ^ 10 =? 1) && screen then Some (0xB8000 + v mod 2 ^ 12) else None
    else Some (v mod 2 ^ 22).
Proof.
  intros Hinv Hp Hlive Hcr3. destruct (inv_rows pg Hinv (p + 1)) as (used & vid & Hused & Hrow); [lia |].
  replace (p + 1 - 1) with p in Hused by lia. rewrite (Hused Hlive) in Hrow.
  assert (Hlen : zlen (PTE pg) = 1024) by apply Hinv.
  destruct (aget_in_range (PTE pg) 1 ltac:(lia)) as [p1 Hp1].
  exists vid, (Z.testbit p1 2 && Z.testbit p1 0). intros v Hv.
  assert (Hc : 0 <= v / 2 ^ 22 < 1024)
    by (split; [apply Z.div_pos | apply Z.div_lt_upper_bound]; lia).
  specialize (Hrow _ Hc). rewrite <- Hcr3 in Hrow at 1. pose proof (inv_on pg Hinv) as Hon.
  revert Hrow. unfold row_entry. rewrite !andb_true_l. cbv zeta.
  destruct (Z.eqb_spec (v / 2 ^ 22) 0) as [E0|].
  { intros Hrow. rewrite E0. simpl Z.leb. simpl Z.eqb. cbv iota. unfold walk. rewrite Hon.
    change (negb true) with false. cbv iota. rewrite Z.shiftr_div_pow2, Hrow by lia.
    rewrite PTE_page, !testbit_page by lia. done. }
  destruct (Z.eqb_spec (v / 2 ^ 22) 1) as [E1|].
  { intros Hrow. rewrite E1. simpl Z.leb. simpl Z.eqb. cbv iota. unfold walk. rewrite Hon.
    change (negb true) with false. cbv iota. by rewrite Z.shiftr_div_pow2, Hrow by lia. }
  destruct (Z.eqb_spec (v / 2 ^ 22) 32) as [E32|]; intros Hrow.
  { by apply (walk_large pg true v (p + 1 + 1) 0x87); try (done || lia). }
  destruct (Z.leb_spec (v / 2 ^ 22) 1); [lia |].
  destruct (vid && (v / 2 ^ 22 =? 12)) eqn:Ev.
  2:{ replace (v mod 2 ^ 22) with (2 ^ 22 * 0 + v mod 2 ^ 22) by lia.
      by apply (walk_large pg true v 0 0x87); try (done || lia). }
  assert (Hi : 0 <= (v / 2 ^ 12) mod 2 ^ 10 < 1024) by (apply (Z.mod_pos_bound _ (2 ^ 10)); lia).
  destruct (aget_in_range (PTE pg) ((v / 2 ^ 12) mod 2 ^ 10) ltac:(lia)) as [pe Hpe].
  rewrite (walk_small pg true v CTRL_VIDEO_USR pe) by (done || (unfold CTRL_VIDEO_USR; lia)).
  destruct (Z.eqb_spec ((v / 2 ^ 12) mod 2 ^ 10) 1) as [Ei|Ei].
  - rewrite Ei, Hp1 in Hpe. injection Hpe as <-.
    destruct (Z.testbit p1 2) eqn:Eb; [|by destruct (Z.testbit p1 0)].
    destruct (inv_user pg Hinv _ _ Hp1 Eb) as [_ ->].
    change (Z.testbit (0xB8000 + CTRL_PTE_USR) 0) with true. cbv beta iota delta [negb andb orb]. f_equal.
    change (Z.land (0xB8000 + CTRL_PTE_USR) 0xFFFFF000) with (2 ^ 12 * 0xB8).
    apply lor_low; [lia |]. apply Z.mod_pos_bound. lia.
  - destruct (Z.testbit pe 2) eqn:Eb; [|by destruct (Z.testbit pe 0)].
    by destruct (inv_user pg Hinv _ _ Hpe Eb).
Qed.

(** The directories the kernel runs with: the boot directory or that of a live
    process. *)
Definition kernel_dir (pg : paging) : Prop :=
  cr3 pg = 0 \/ exists p, 0 <= p < 7 /\ cr3 pg = p + 1 /\ aget (proc pg) p = Ok 1.

(** What the kernel sees in the low 4 MB: the frames of the page table. *)
Lemma kernel_low_walk pg v f k :
  paging_inv pg -> kernel_dir pg -> 0 <= v < 2 ^ 22 ->
  aget (PTE pg) (v / 2 ^ 12) = Ok (2 ^ 12 * k + f) -> 0 <= k < 2 ^ 20 -> f = CTRL_PTE \/ f = CTRL_PTE_USR ->
  walk pg false v = Some (2 ^ 12 * k + v mod 2 ^ 12).
Proof.
  intros Hinv Hdir Hv Hpte Hk Hf.
  assert (Hentry : pde_get pg (cr3 pg) (v / 2 ^ 22) = Ok (PTE_addr + CTRL_VIDEO)).
  { rewrite (Z.div_small v (2 ^ 22)) by lia. destruct Hdir as [-> | (p & Hp & -> & Hlive)].
    - apply (inv_boot _ Hinv).
    - destruct (inv_rows pg Hinv (p + 1)) as (used & vid & Hused & Hrow); [lia |].
      replace (p + 1 - 1) with p in Hused by lia. rewrite (Hused Hlive) in Hrow. apply Hrow. lia. }
  assert (Hi : (v / 2 ^ 12) mod 2 ^ 10 = v / 2 ^ 12).
  { apply Z.mod_small. split; [apply Z.div_pos | apply Z.div_lt_upper_bound]; lia. }
  rewrite (walk_small pg false v CTRL_VIDEO (2 ^ 12 * k + f) (inv_on _ Hinv) ltac:(lia) ltac:(done) Hentry
             eq_refl eq_refl ltac:(done)) by by rewrite Hi.
  rewrite testbit_page by lia.
  assert (negb (Z.testbit f 0) || false && negb (Z.testbit (2 ^ 12 * k + f) 2) = false)%bool as ->
    by by destruct Hf as [-> | ->].
  f_equal. change 0xFFFFF000 with (Z.shiftl (Z.ones (32 - 12)) 12).
  assert (0 <= f < 2 ^ 12) by (destruct Hf as [-> | ->]; done).
  rewrite land_high_mask, div_page, lor_low by (lia || (apply Z.mod_pos_bound; lia)). done.
Qed.

(** What the kernel sees from 4 MB on with the directory of a live process: its
    own page, the program's frame, and the low 4 MB again elsewhere. *)
Lemma kernel_high_walk pg p v :
  paging_inv pg -> 0 <= p < 7 -> cr3 pg = p + 1 -> aget (proc pg) p = Ok 1 ->
  2 ^ 22 <= v < 2 ^ 32 -> v / 2 ^ 22 <> 12 ->
  walk pg false v = Some (if v / 2 ^ 22 =? 1 then v
    else if v / 2 ^ 22 =? 32 then frame (p + 1) + v mod 2 ^ 22 else v mod 2 ^ 22).
Proof.
  intros Hinv Hp Hcr Hlive Hv Hc12. destruct (inv_rows pg Hinv (p + 1)) as (used & vid & Hused & Hrow); [lia |].
  replace (p + 1 - 1) with p in Hused by lia. rewrite (Hused Hlive) in Hrow.
  assert (Hc : 1 <= v / 2 ^ 22 < 1024)
    by (split; [apply Z.div_le_lower_bound | apply Z.div_lt_upper_bound]; lia).
  specialize (Hrow (v / 2 ^ 22) ltac:(lia)). rewrite <- Hcr in Hrow at 1. pose proof (inv_on pg Hinv) as Hon.
  revert Hrow. unfold row_entry. rewrite !andb_true_l, (proj2 (Z.eqb_neq _ 12)), andb_false_r by done.
  destruct (Z.eqb_spec (v / 2 ^ 22) 0) as [|_]; [lia |].
  destruct (Z.eqb_spec (v / 2 ^ 22) 1) as [E1|_].
  { intros Hrow. rewrite (walk_large pg false v 1 CTRL_KERNEL Hon ltac:(lia)); try done.
    f_equal. rewrite (Z.div_mod v (2 ^ 22)) at 2 by lia. rewrite E1. done. }
  destruct (Z.eqb_spec (v / 2 ^ 22) 32) as [E32|_]; intros Hrow.
  - by apply (walk_large pg false v (p + 1 + 1) CTRL_EMPTY_USR); try (done || lia).
  - replace (v mod 2 ^ 22) with (2 ^ 22 * 0 + v mod 2 ^ 22) by lia.
    by apply (walk_large pg false v 0 CTRL_EMPTY_USR); try (done || lia).
Qed.

(** The kernel page is mapped to itself, in every directory. *)
Lemma kernel_page_walk pg v :
  paging_inv pg -> kernel_dir pg -> 2 ^ 22 <= v < 2 ^ 23 -> walk pg false v = Some v.
Proof.
  intros Hinv [Hcr | (p & Hp & Hcr & Hlive)] Hv.
  - assert (Hc : v / 2 ^ 22 = 1) by (symmetry; apply (Z.div_unique _ _ _ (v - 2 ^ 22)); lia).
    rewrite (walk_large pg false v 1 CTRL_KERNEL (inv_on pg Hinv)); try done; [|lia|].
    + f_equal. rewrite (Z.div_mod v (2 ^ 22)) at 2 by lia. rewrite Hc. done.
    + rewrite Hcr, Hc. apply (inv_boot _ Hinv).
  - assert (Hc : v / 2 ^ 22 = 1) by (symmetry; apply (Z.div_unique _ _ _ (v - 2 ^ 22)); lia).
    rewrite (kernel_high_walk pg p v) by (done || lia). by rewrite Hc.
Qed.

(** C23. Isolation of program memory: when two different processes are live,
    user code of one, run with its directory, can reach through its program
    page (128 MB to 132 MB) no byte that user code of the other reaches
    through its own, and neither reaches the first 8 MB (the low memory and
    the kernel) that way. *)
Theorem program_pages_disjoint pg p q v w :
  paging_inv pg -> 0 <= p < 7 -> 0 <= q < 7 -> p <> q ->
  aget (proc pg) p = Ok 1 -> aget (proc pg) q = Ok 1 ->
  v / 2 ^ 22 = 32 -> w / 2 ^ 22 = 32 ->
  exists a b, walk (snd (change_cr3 pg p)) true v = Some a /\
    walk (snd (change_cr3 pg q)) true w = Some b /\
    a <> b /\ 2 ^ 23 <= a < 2 ^ 23 + 7 * 2 ^ 22 /\ 2 ^ 23 <= b < 2 ^ 23 + 7 * 2 ^ 22.
Proof.
  intros Hinv Hp Hq Hne Lp Lq Ev Ew.
  assert (Hload : forall r, 0 <= r < 7 -> snd (change_cr3 pg r) = set_cr3 pg (r + 1)).
  { intros r Hr. unfold change_cr3. by zcases. }
  pose proof (Z.div_mod v (2 ^ 22) ltac:(lia)). pose proof (Z.div_mod w (2 ^ 22) ltac:(lia)).
  pose proof (Z.mod_pos_bound v (2 ^ 22) ltac:(lia)). pose proof (Z.mod_pos_bound w (2 ^ 22) ltac:(lia)).
  rewrite !Hload by done.
  destruct (user_view_at (set_cr3 pg (p + 1)) p) as (? & ? & Hv); [by apply set_cr3_inv | done..|].
  destruct (user_view_at (set_cr3 pg (q + 1)) q) as (? & ? & Hw); [by apply set_cr3_inv | done..|].
  exists (frame (p + 1) + v mod 2 ^ 22), (frame (q + 1) + w mod 2 ^ 22).
  rewrite Hv, Hw, Ev, Ew by lia. unfold frame. split_and!; (done || lia).
Qed.

(** Null pointers and the kernel page: in a process directory no user
    access to the low 4 MB or to the kernel's page (4 MB to 8 MB) succeeds,
    and an access to page 0 faults even in the kernel. *)
Theorem kernel_page_protected pg p v :
  paging_inv pg -> 0 <= p < 7 -> aget (proc pg) p = Ok 1 -> 0 <= v < 2 ^ 23 ->
  walk (snd (change_cr3 pg p)) true v = None /\
  (v < 4096 -> walk (snd (change_cr3 pg p)) false v = None).
Proof.
  intros Hinv Hp Lp Hv. assert (snd (change_cr3 pg p) = set_cr3 pg (p + 1)) as ->.
  { unfold change_cr3. by zcases. }
  assert (Hc : 0 <= v / 2 ^ 22 < 2) by (split; [apply Z.div_pos | apply Z.div_lt_upper_bound]; lia).
  pose proof (set_cr3_inv pg (p + 1) Hinv) as Hinv'. split.
  - destruct (user_view_at _ p Hinv' Hp Lp eq_refl) as (? & ? & Hview). rewrite Hview by lia. by zcases.
  - intros Hnull. destruct (inv_rows _ Hinv' (p + 1)) as (used & vid & Hused & Hrow); [lia |].
    replace (p + 1 - 1) with p in Hused by lia. rewrite (Hused Lp) in Hrow.
    assert (E0 : v / 2 ^ 22 = 0) by (apply Z.div_small; lia).
    assert (E1 : aget (PTE (set_cr3 pg (p + 1))) ((v / 2 ^ 12) mod 2 ^ 10) = Ok 0).
    { rewrite (Z.div_small v (2 ^ 12)) by lia. apply (inv_null _ Hinv'). }
    assert (E2 : pde_get (set_cr3 pg (p + 1)) (p + 1) (v / 2 ^ 22) = Ok (PTE_addr + CTRL_VIDEO)).
    { rewrite E0. apply Hrow. lia. }
    by rewrite (walk_small _ false v CTRL_VIDEO 0 (inv_on _ Hinv') ltac:(lia) ltac:(done) E2
                  eq_refl eq_refl ltac:(done) E1).
Qed.

(** The kernel stacks and process control blocks are not protected: user
    code of any live process reaches the PCB of every process (placed
    8 kB apart below 128 MB) through its own directory, and all directories
    lead to the same physical bytes below 4 MB. *)
Theorem pcbs_user_accessible pg p q :
  paging_inv pg -> 0 <= p < 7 -> aget (proc pg) p = Ok 1 -> 0 <= q < 8 ->
  walk (snd (change_cr3 pg p)) true (134217728 - 8192 * (q + 1)) =
  Some (4194304 - 8192 * (q + 1)).
Proof.
  intros Hinv Hp Lp Hq. assert (snd (change_cr3 pg p) = set_cr3 pg (p + 1)) as ->.
  { unfold change_cr3. by zcases. }
  destruct (user_view_at _ p (set_cr3_inv pg (p + 1) Hinv) Hp Lp eq_refl) as (vid & ? & ->); [|lia].
  replace (134217728 - 8192 * (q + 1)) with (2 ^ 22 * 31 + (4194304 - 8192 * (q + 1))) by lia.
  rewrite div_page by lia. simpl Z.eqb. rewrite andb_false_r. cbv iota. f_equal.
  symmetry. apply (Z.mod_unique_pos _ _ 31); lia.
Qed.
End Reachable.

(** ** A concrete layout and its witnesses *)

Definition demo_layout : Layout := {|
  PTE_addr := 0x40B000; PTE_aligned := eq_refl; PTE_range := ltac:(lia)
|}.

#[local] Existing Instance demo_layout.

(** Two processes started after booting: slots 0 and 1 live. *)
Lemma demo_two_live :
  exists pg, paging_inv pg /\ aget (proc pg) 0 = Ok 1 /\ aget (proc pg) 1 = Ok 1 /\
    aget (proc pg) 2 = Ok 0.
Proof.
  destruct (init_paging_inv (boot_paging 0 0)) as (pg1 & _ & Hinv & Hproc & _).
  { split_and!; try done. simpl. repeat constructor. }
  { done. }
  destruct (new_pde_alloc pg1 0x8048000 0) as (old1 & _ & Hold1 & _);
    [apply Hinv | by rewrite Hproc | lia | lia |].
  set (pg2 := alloc_pages pg1 0 32 old1).
  assert (Hinv2 : paging_inv pg2) by (apply alloc_inv; [done | lia | by rewrite Hproc | by apply Hold1]).
  assert (Hproc2 : proc pg2 = [1; 0; 0; 0; 0; 0; 0; 0]) by (unfold pg2; simpl; by rewrite Hproc).
  destruct (new_pde_alloc pg2 0x8048000 1) as (old2 & _ & Hold2 & _);
    [apply Hinv2 | by rewrite Hproc2 | lia | lia |].
  exists (alloc_pages pg2 1 32 old2). split_and!.
  - apply alloc_inv; [done | lia | by rewrite Hproc2 | by apply Hold2].
  - change (proc (alloc_pages pg2 1 32 old2)) with (<[1%nat := 1]> (proc pg2)). by rewrite Hproc2.
  - change (proc (alloc_pages pg2 1 32 old2)) with (<[1%nat := 1]> (proc pg2)). by rewrite Hproc2.
  - change (proc (alloc_pages pg2 1 32 old2)) with (<[1%nat := 1]> (proc pg2)). by rewrite Hproc2.
Qed.

Lemma new_pde_slots_witness :
  exists pg i pg', paging_inv pg /\ new_pde pg 0x8048000 = Ok (i, pg') /\ 2 <= i < 7.
Proof.
  destruct demo_two_live as (pg & Hinv & L0 & L1 & L2). exists pg.
  destruct (new_pde_slots pg 0x8048000 Hinv ltac:(lia))
    as [(i & pg' & E & Hi & _ & Hf & _) | (E & Hall)].
  - exists i, pg'. split_and!; try done; [|lia].
    destruct (decide (i = 0)) as [->|]; [congruence |].
    destruct (decide (i = 1)) as [->|]; [congruence | lia].
  - exfalso. rewrite Hall in L2; [discriminate | lia].
Defined.

Lemma new_pde_moves_kernel_witness :
  exists pg i pg' f, paging_inv pg /\ new_pde pg 0x400000 = Ok (i, pg') /\ 2 <= f /\
    walk (snd (change_cr3 pg' i)) false 0x400000 = Some (2 ^ 22 * f).
Proof.
  destruct demo_two_live as (pg & Hinv & _ & _ & L2). destruct (free_slot pg Hinv) as (i & Hslot & Hi & _ & Hb).
  assert (Hi2 : i <= 2).
  { destruct (Z.le_gt_cases i 2) as [?|Hgt]; [done |]. specialize (Hb 2 ltac:(lia)). congruence. }
  destruct (new_pde_moves_kernel pg 0x400000 i Hinv Hslot ltac:(lia) eq_refl) as (pg' & f & E & Hf & Hw).
  exists pg, i, pg', f. split_and!; [done.. |]. rewrite Hw by lia. f_equal. change (0x400000 mod 2 ^ 22) with 0. lia.
Defined.

Lemma program_pages_disjoint_witness :
  exists pg a b, paging_inv pg /\ walk (snd (change_cr3 pg 0)) true 0x8048000 = Some a /\
    walk (snd (change_cr3 pg 1)) true 0x8048000 = Some b /\ a <> b.
Proof.
  destruct demo_two_live as (pg & Hinv & L0 & L1 & L2).
  destruct (program_pages_disjoint pg 0 1 0x8048000 0x8048000 Hinv ltac:(lia) ltac:(lia) ltac:(lia)
              L0 L1 eq_refl eq_refl) as (a & b & Ha & Hb & Hne & _).
  by exists pg, a, b.
Defined.

Lemma kernel_page_protected_witness :
  exists pg, paging_inv pg /\ walk (snd (change_cr3 pg 1)) true 0x400000 = None /\
    walk (snd (change_cr3 pg 1)) false 0 = None.
Proof.
  destruct demo_two_live as (pg & Hinv & L0 & L1 & L2). exists pg. split_and!; [done | |].
  - apply (kernel_page_protected pg 1 0x400000); (done || lia).
  - by apply (kernel_page_protected pg 1 0); (done || lia).
Defined.

Lemma pcbs_user_accessible_witness :
  exists pg, paging_inv pg /\
    walk (snd (change_cr3 pg 1)) true (134217728 - 8192) = Some (4194304 - 8192).
Proof.
  destruct demo_two_live as (pg & Hinv & L0 & L1 & L2). exists pg.
  split; [done |]. apply (pcbs_user_accessible pg 1 0); (done || lia).
Defined.
