(* ===== verification/Mem.v ===== *)
(** * The memory routines of the kernel library

    [memset], [memset_word], [memset_dword], [memcpy] and [memmove] of
    [student-distrib/lib.c] are inline assembly. The model follows the
    instructions: the byte loops up to the alignment, the [rep stos] and
    [rep movs] instructions with the direction flag, and the byte loops of the
    rest, on a byte-addressed memory behind an address translation. *)

From S2P Require Import Prelude.

Local Open Scope Z_scope.

(** Physical memory, by byte address. An address outside it does not answer. *)
Abbreviation mem := (gmap Z Z).

Section Routines.
(** The address translation in force: the page walk of the MMU. *)
Context (tr : Z -> option Z).
Implicit Types (m : mem).

Definition ld m (a : Z) : res Z :=
  match tr (u32 a) with
  | Some p => match m !! p with Some b => Ok b | None => Undef end
  | None => Undef
  end.

Definition st m (a v : Z) : res mem :=
  match tr (u32 a) with
  | Some p => match m !! p with Some _ => Ok (<[p := u8 v]> m) | None => Undef end
  | None => Undef
  end.

(** Little-endian accesses of [w] bytes. *)
Fixpoint ldn (w : nat) m (a : Z) : res Z :=
  match w with
  | O => Ok 0
  | S w => b ← ld m a; hi ← ldn w m (a + 1); Ok (b + 256 * hi)
  end.

Fixpoint stn (w : nat) m (a v : Z) : res mem :=
  match w with
  | O => Ok m
  | S w => m ← st m a (v mod 256); stn w m (a + 1) (v / 256)
  end.

Definition dir (df : bool) (w : nat) : Z := if df then - Z.of_nat w else Z.of_nat w.

(** [rep stosb/stosw/stosl]: [ecx] stores of the low [w] bytes of EAX at EDI. *)
Fixpoint rep_stos (w ecx : nat) (df : bool) m (edi eax : Z) : res (Z * mem) :=
  match ecx with
  | O => Ok (edi, m)
  | S ecx => m ← stn w m edi eax; rep_stos w ecx df m (u32 (edi + dir df w)) eax
  end.

(** [rep movsb/movsl]. *)
Fixpoint rep_movs (w ecx : nat) (df : bool) m (edi esi : Z) : res (Z * Z * mem) :=
  match ecx with
  | O => Ok (edi, esi, m)
  | S ecx =>
      x ← ldn w m esi;
      m ← stn w m edi x;
      rep_movs w ecx df m (u32 (edi + dir df w)) (u32 (esi + dir df w))
  end.

(** The loop at [.memset_top]: bytes until EDI is aligned or ECX is zero. *)
Fixpoint memset_top (ecx : nat) m (edi al : Z) : res (nat * Z * mem) :=
  match ecx with
  | O => Ok (O, edi, m)
  | S ecx' =>
      if Z.land edi 3 =? 0 then Ok (ecx, edi, m)
      else m ← st m edi al; memset_top ecx' m (u32 (edi + 1)) al
  end.

(** The loop at [.memset_bottom]. *)
Fixpoint memset_bottom (edx : nat) m (edi al : Z) : res mem :=
  match edx with
  | O => Ok m
  | S edx => m ← st m edi al; memset_bottom edx m (u32 (edi + 1)) al
  end.

Definition memset m (s c n : Z) : res mem :=
  let c := Z.land c 0xFF in
  let eax := u32 (Z.lor (Z.shiftl c 24) (Z.lor (Z.shiftl c 16) (Z.lor (Z.shiftl c 8) c))) in
  '(ecx, edi, m) ← memset_top (Z.to_nat n) m s (u8 eax);
  match ecx with
  | O => Ok m
  | _ =>
      let edx := (ecx mod 4)%nat in
      '(edi, m) ← rep_stos 4 (ecx / 4) false m edi eax;
      memset_bottom edx m edi (u8 eax)
  end.

Definition memset_word m (s c n : Z) : res mem :=
  '(_, m) ← rep_stos 2 (Z.to_nat n) false m s (u16 c); Ok m.

Definition memset_dword m (s c n : Z) : res mem :=
  '(_, m) ← rep_stos 4 (Z.to_nat n) false m s (u32 c); Ok m.

(** The loops at [.memcpy_top] and [.memcpy_bottom]. *)
Fixpoint memcpy_top (ecx : nat) m (edi esi : Z) : res (nat * Z * Z * mem) :=
  match ecx with
  | O => Ok (O, edi, esi, m)
  | S ecx' =>
      if Z.land edi 3 =? 0 then Ok (ecx, edi, esi, m)
      else al ← ld m esi; m ← st m edi al; memcpy_top ecx' m (u32 (edi + 1)) (u32 (esi + 1))
  end.

Fixpoint memcpy_bottom (edx : nat) m (edi esi : Z) : res mem :=
  match edx with
  | O => Ok m
  | S edx =>
      al ← ld m esi; m ← st m edi al; memcpy_bottom edx m (u32 (edi + 1)) (u32 (esi + 1))
  end.

Definition memcpy m (dest src n : Z) : res mem :=
  '(ecx, edi, esi, m) ← memcpy_top (Z.to_nat n) m dest src;
  match ecx with
  | O => Ok m
  | _ =>
      let edx := (ecx mod 4)%nat in
      '(edi, esi, m) ← rep_movs 4 (ecx / 4) false m edi esi;
      memcpy_bottom edx m edi esi
  end.

(** [memmove]; the direction flag it leaves is part of the result. *)
Definition memmove m (dest src n : Z) : res (bool * mem) :=
  if dest <=? src then
    '(_, m) ← rep_movs 1 (Z.to_nat n) false m dest src; Ok (false, m)
  else
    '(_, m) ← rep_movs 1 (Z.to_nat n) true m (u32 (dest + n - 1)) (u32 (src + n - 1));
    Ok (true, m).

(** ** Reference definitions *)

(** [n] bytes from virtual address [v] are mapped to the [n] bytes of memory
    from [p]. *)
Definition maps m (v p : Z) (n : nat) : Prop :=
  forall i, 0 <= i < Z.of_nat n ->
    tr (u32 (v + i)) = Some (p + i) /\ exists b, m !! (p + i) = Some b /\ byte_ok b.
End Routines.

(** Byte-by-byte filling and copying of physical memory. *)
Fixpoint fill (n : nat) (p v : Z) (m : mem) : mem :=
  match n with O => m | S n => fill n (p + 1) v (<[p := v]> m) end.

Fixpoint copy (n : nat) (pd ps : Z) (m : mem) : mem :=
  match n with
  | O => m
  | S n => copy n (pd + 1) (ps + 1) (partial_alter (fun _ => m !! ps) pd m)
  end.

(** The low [w] bytes of a word, stored in little-endian order. *)
Fixpoint write_le (w : nat) (p x : Z) (m : mem) : mem :=
  match w with O => m | S w => write_le w (p + 1) (x / 256) (<[p := x mod 256]> m) end.

Fixpoint fillw (w n : nat) (p x : Z) (m : mem) : mem :=
  match n with O => m | S n => fillw w n (p + Z.of_nat w) x (write_le w p x m) end.

(** [m'] has bytes wherever [m] has. *)
Definition covers (m m' : mem) : Prop :=
  forall q b, m !! q = Some b -> byte_ok b -> exists b', m' !! q = Some b' /\ byte_ok b'.

Lemma covers_insert m q b : byte_ok b -> covers m (<[q := b]> m).
Proof.
  intros Hb k b' Hk Hb'. destruct (decide (k = q)) as [->|].
  - exists b. by rewrite lookup_insert_eq.
  - exists b'. by rewrite lookup_insert_ne by done.
Qed.

Lemma covers_trans m1 m2 m3 : covers m1 m2 -> covers m2 m3 -> covers m1 m3.
Proof. intros H1 H2 q b Hq Hb. destruct (H1 q b Hq Hb) as (b' & Hq' & Hb'). eauto. Qed.

Lemma covers_write_le w p x m : covers m (write_le w p x m).
Proof.
  revert p x m. induction w as [|w IH]; intros p x m; simpl; [by intros q b; eauto |].
  eapply covers_trans; [|apply IH]. apply covers_insert.
  apply (Z.mod_pos_bound x 256). lia.
Qed.

Lemma byte_u8 x : byte_ok (u8 x).
Proof. unfold byte_ok. apply u8_range. Qed.

#[export] Hint Resolve covers_insert covers_write_le byte_u8 : words.

Section Facts.
Context (tr : Z -> option Z).
Implicit Types (m : mem).

Lemma maps_covers m m' v p n : covers m m' -> maps tr m v p n -> maps tr m' v p n.
Proof.
  intros Hc Hm i Hi. destruct (Hm i Hi) as (Ht & b & Hb & Hok). split; [done |]. eauto.
Qed.

Lemma maps_u32 m v p n : maps tr m v p n -> maps tr m (u32 v) p n.
Proof. intros Hm i Hi. rewrite u32_add_l. by apply Hm. Qed.

Lemma maps_drop m v p n k :
  maps tr m v p (k + n) -> maps tr m (v + Z.of_nat k) (p + Z.of_nat k) n.
Proof.
  intros Hm i Hi. destruct (Hm (Z.of_nat k + i)) as (Ht & b & Hb & Hok); [lia |].
  rewrite !Z.add_assoc in *. eauto.
Qed.

Lemma maps_take m v p n k : maps tr m v p (k + n) -> maps tr m v p k.
Proof. intros Hm i Hi. apply Hm. lia. Qed.

Lemma maps_next m v p n : maps tr m v p (S n) -> maps tr m (u32 (v + 1)) (p + 1) n.
Proof. intros Hm. apply maps_u32, (maps_drop m v p n 1 Hm). Qed.

(** The registers after [k] bytes point at the rest of the range. *)
Lemma maps_rest m v p k n e :
  maps tr m v p (k + n) -> u32 e = u32 (v + Z.of_nat k) -> maps tr m e (p + Z.of_nat k) n.
Proof.
  intros Hm He i Hi. rewrite <- u32_add_l, He, u32_add_l. by apply (maps_drop m v p n k).
Qed.

Lemma st_maps m v p n x :
  maps tr m v p (S n) -> st tr m v x = Ok (<[p := u8 x]> m).
Proof.
  intros Hm. destruct (Hm 0) as (Ht & b & Hb & _); [lia |]. rewrite !Z.add_0_r in *.
  unfold st. by rewrite Ht, Hb.
Qed.

Lemma ld_maps m v p n :
  maps tr m v p (S n) -> exists b, ld tr m v = Ok b /\ m !! p = Some b /\ byte_ok b.
Proof.
  intros Hm. destruct (Hm 0) as (Ht & b & Hb & Hok); [lia |]. rewrite !Z.add_0_r in *.
  exists b. unfold ld. by rewrite Ht, Hb.
Qed.

(** *** Stores *)

Lemma stn_write_le w m v p x :
  maps tr m v p w -> stn tr w m v x = Ok (write_le w p x m).
Proof.
  revert m v p x. induction w as [|w IH]; intros m v p x Hm; simpl; [done |].
  rewrite (st_maps _ _ _ _ _ Hm). rstep. rewrite u8_id by (apply (Z.mod_pos_bound x 256); lia).
  apply IH. apply (maps_covers m); [apply covers_insert, (Z.mod_pos_bound x 256); lia |].
  by apply (maps_drop m v p w 1).
Qed.

Lemma rep_stos_fillw w n m v p x :
  maps tr m v p (n * w) ->
  exists edi, rep_stos tr w n false m v x = Ok (edi, fillw w n p x m) /\
    u32 edi = u32 (v + Z.of_nat (n * w)).
Proof.
  revert m v p. induction n as [|n IH]; intros m v p Hm; simpl.
  { exists v. by rewrite Z.add_0_r. }
  rewrite (stn_write_le _ _ _ p) by (by apply (maps_take _ _ _ (n * w))). rstep.
  destruct (IH (write_le w p x m) (u32 (v + Z.of_nat w)) (p + Z.of_nat w)) as (edi & E & Hedi).
  { apply (maps_covers m); [auto with words |]. by apply maps_u32, (maps_drop m v p (n * w) w). }
  exists edi. unfold dir. rewrite E. split; [done |]. rewrite Hedi, u32_add_l. f_equal. lia.
Qed.

Lemma memset_bottom_fill n m v p al :
  maps tr m v p n -> memset_bottom tr n m v al = Ok (fill n p (u8 al) m).
Proof.
  revert m v p. induction n as [|n IH]; intros m v p Hm; simpl; [done |].
  rewrite (st_maps _ _ _ _ _ Hm). rstep. apply IH.
  apply (maps_covers m); [auto with words | by apply maps_next].
Qed.

Lemma memset_top_fill n m v p al :
  maps tr m v p n ->
  exists k edi, (k <= n)%nat /\ memset_top tr n m v al = Ok ((n - k)%nat, edi, fill k p (u8 al) m) /\
    u32 edi = u32 (v + Z.of_nat k).
Proof.
  revert m v p. induction n as [|n IH]; intros m v p Hm; simpl.
  { exists 0%nat, v. by rewrite Z.add_0_r. }
  destruct (Z.land v 3 =? 0).
  { exists 0%nat, v. rewrite Z.add_0_r. split_and!; [lia | done..]. }
  rewrite (st_maps _ _ _ _ _ Hm). rstep.
  destruct (IH (<[p := u8 al]> m) (u32 (v + 1)) (p + 1)) as (k & edi & Hk & E & Hedi).
  { apply (maps_covers m); [auto with words | by apply maps_next]. }
  exists (S k), edi. rewrite E. split_and!; [lia | done |].
  rewrite Hedi, u32_add_l. f_equal. lia.
Qed.
End Facts.

(** *** Chunks *)

Lemma fill_app a b p v m : fill (a + b) p v m = fill b (p + Z.of_nat a) v (fill a p v m).
Proof.
  revert p m. induction a as [|a IH]; intros p m; simpl; [by rewrite Z.add_0_r |].
  rewrite IH. f_equal. lia.
Qed.

Lemma covers_fill n p v m : byte_ok v -> covers m (fill n p v m).
Proof.
  intros Hv. revert p m. induction n as [|n IH]; intros p m; simpl; [by intros q b; eauto |].
  eapply covers_trans; [|apply IH]. by apply covers_insert.
Qed.

Lemma lookup_fill n p v m q :
  fill n p v m !! q = if (p <=? q) && (q <? p + Z.of_nat n) then Some v else m !! q.
Proof.
  revert p m. induction n as [|n IH]; intros p m; cbn [fill].
  { by zcases. }
  rewrite IH. destruct (decide (q = p)) as [->|].
  - rewrite lookup_insert_eq. by zcases.
  - rewrite lookup_insert_ne by done. by zcases.
Qed.

Lemma fillw_bytes k p c m :
  byte_ok c -> fillw 4 k p (c * 0x01010101) m = fill (k * 4) p c m.
Proof.
  intros Hc. unfold byte_ok in Hc. revert p m. induction k as [|k IH]; intros p m; [done |].
  cbn [fillw]. rewrite IH. replace (S k * 4)%nat with (4 + k * 4)%nat by lia. rewrite fill_app.
  f_equal. cbn [write_le fill].
  assert (E : forall x, (256 * x + c) mod 256 = c /\ (256 * x + c) / 256 = x).
  { intros x. split; [symmetry; apply (Z.mod_unique_pos _ _ x); lia
                     | symmetry; apply (Z.div_unique_pos _ _ _ c); lia]. }
  replace (c * 0x01010101) with (256 * (c * 0x010101) + c) by lia. rewrite !(proj1 (E _)), !(proj2 (E _)).
  replace (c * 0x010101) with (256 * (c * 0x0101) + c) by lia. rewrite !(proj1 (E _)), !(proj2 (E _)).
  replace (c * 0x0101) with (256 * c + c) by lia. rewrite !(proj1 (E _)), !(proj2 (E _)).
  by rewrite Z.mod_small by lia.
Qed.

Lemma memset_eax c :
  u32 (Z.lor (Z.shiftl (Z.land c 0xFF) 24) (Z.lor (Z.shiftl (Z.land c 0xFF) 16)
    (Z.lor (Z.shiftl (Z.land c 0xFF) 8) (Z.land c 0xFF)))) = u8 c * 0x01010101.
Proof.
  change 0xFF with (Z.ones 8). rewrite Z.land_ones by lia. fold (u8 c).
  pose proof (u8_range c). rewrite !Z.shiftl_mul_pow2 by lia. rewrite !(Z.mul_comm (u8 c)).
  rewrite (lor_low _ 8), (lor_low _ 16), (lor_low _ 24) by lia. rewrite u32_id by lia. lia.
Qed.

(** [memset] is the byte-by-byte fill whatever the alignment and the length:
    on a mapped range it returns, every byte of the range holds the low byte of
    [c] and no other byte of memory changes. *)
Theorem memset_fills tr m s p c n :
  0 <= n < 2 ^ 32 -> maps tr m s p (Z.to_nat n) ->
  exists m', memset tr m s c n = Ok m' /\
    forall q, m' !! q = if (p <=? q) && (q <? p + n) then Some (u8 c) else m !! q.
Proof.
  intros Hn Hm. unfold memset. rewrite memset_eax.
  assert (Hal : u8 (u8 c * 0x01010101) = u8 c).
  { unfold u8 at 1. symmetry. pose proof (u8_range c). apply (Z.mod_unique_pos _ _ (u8 c * 0x010101)); lia. }
  rewrite Hal. assert (Hu : u8 (u8 c) = u8 c) by apply u8_id, u8_range.
  destruct (memset_top_fill tr _ m s p (u8 c) Hm) as (k & edi & Hk & E & Hedi).
  exists (fill (Z.to_nat n) p (u8 c) m). split.
  2:{ intros q. rewrite lookup_fill. by rewrite Z2Nat.id by lia. }
  rewrite E, Hu. rstep. remember (Z.to_nat n - k)%nat as r eqn:Hr. destruct r as [|r'].
  { assert (Z.to_nat n = k) as -> by lia. done. }
  set (r := S r') in *. assert (Hsplit : Z.to_nat n = (k + (r / 4 * 4 + r mod 4))%nat).
  { pose proof (Nat.div_mod r 4 ltac:(lia)). lia. }
  rewrite Hsplit in Hm.
  assert (Hm' : maps tr (fill k p (u8 c) m) edi (p + Z.of_nat k) (r / 4 * 4 + r mod 4)).
  { apply (maps_covers _ m); [by apply covers_fill, byte_u8 |].
    by apply (maps_rest tr m s p). }
  destruct (rep_stos_fillw tr 4 (r / 4) _ edi (p + Z.of_nat k) (u8 c * 0x01010101)
              (maps_take _ _ _ _ _ _ Hm')) as (edi' & -> & Hedi').
  rstep. rewrite fillw_bytes by apply byte_u8.
  rewrite (memset_bottom_fill tr _ _ _ (p + Z.of_nat k + Z.of_nat (r / 4 * 4))).
  { by rewrite Hu, Hsplit, !fill_app. }
  apply (maps_covers _ (fill k p (u8 c) m)); [by apply covers_fill, byte_u8 |].
  by apply (maps_rest tr _ edi).
Qed.

(** *** Copies *)

(** A forward copy of [n] bytes is right when the ranges are disjoint or the
    destination comes first. *)
Definition forward_ok (n : nat) (pd ps : Z) : Prop := pd <= ps \/ ps + Z.of_nat n <= pd.

Definition bytes_at (m : mem) (p : Z) (n : nat) : Prop :=
  forall i, 0 <= i < Z.of_nat n -> exists b, m !! (p + i) = Some b /\ byte_ok b.

Lemma copy_app a b pd ps m :
  copy (a + b) pd ps m = copy b (pd + Z.of_nat a) (ps + Z.of_nat a) (copy a pd ps m).
Proof.
  revert pd ps m. induction a as [|a IH]; intros pd ps m; simpl; [by rewrite !Z.add_0_r |].
  rewrite IH. f_equal; lia.
Qed.

Lemma lookup_copy n pd ps m q :
  forward_ok n pd ps ->
  copy n pd ps m !! q =
  if (pd <=? q) && (q <? pd + Z.of_nat n) then m !! (ps + (q - pd)) else m !! q.
Proof.
  unfold forward_ok. revert pd ps m. induction n as [|n IH]; intros pd ps m Hf; cbn [copy].
  { by zcases. }
  rewrite IH by lia. destruct (decide (q = pd)) as [->|Hq].
  - rewrite lookup_partial_alter_eq. rewrite Z.sub_diag, Z.add_0_r. by zcases.
  - rewrite (lookup_partial_alter_ne _ _ pd q) by done.
    destruct (Z.leb_spec (pd + 1) q), (Z.ltb_spec q (pd + 1 + Z.of_nat n)); simpl.
    + rewrite lookup_partial_alter_ne by lia. replace (ps + 1 + (q - (pd + 1))) with (ps + (q - pd)) by lia.
      by zcases.
    + by zcases.
    + by zcases.
    + by zcases.
Qed.

Lemma covers_copy n pd ps m : forward_ok n pd ps -> bytes_at m ps n -> covers m (copy n pd ps m).
Proof.
  intros Hf Hb q b Hq Hok. rewrite lookup_copy by done.
  destruct (Z.leb_spec pd q), (Z.ltb_spec q (pd + Z.of_nat n)); simpl; eauto.
  apply Hb. lia.
Qed.

Lemma lookup_write_le w p x m q :
  write_le w p x m !! q =
  if (p <=? q) && (q <? p + Z.of_nat w) then Some (x / 256 ^ (q - p) mod 256) else m !! q.
Proof.
  revert p x m. induction w as [|w IH]; intros p x m; cbn [write_le].
  { by zcases. }
  rewrite IH. destruct (decide (q = p)) as [->|Hq].
  - rewrite lookup_insert_eq, Z.sub_diag, Z.pow_0_r, Z.div_1_r. by zcases.
  - rewrite lookup_insert_ne by done.
    destruct (Z.leb_spec (p + 1) q), (Z.ltb_spec q (p + 1 + Z.of_nat w)); simpl; [|by zcases..].
    replace (q - p) with (1 + (q - (p + 1))) by lia.
    rewrite Z.pow_add_r, <- Z.div_div by lia. by zcases.
Qed.

Section Copies.
Context (tr : Z -> option Z).
Implicit Types (m : mem).

Lemma maps_bytes m v p n : maps tr m v p n -> bytes_at m p n.
Proof. intros Hm i Hi. by apply Hm. Qed.

Lemma ldn_bytes w : forall m v p x,
  (forall i, 0 <= i < Z.of_nat w -> tr (u32 (v + i)) = Some (p + i) /\ m !! (p + i) = Some (x / 256 ^ i mod 256)) ->
  ldn tr w m v = Ok (x mod 256 ^ Z.of_nat w).
Proof.
  induction w as [|w IH]; intros m v p x Hb; cbn [ldn]; [by rewrite Z.mod_1_r |].
  destruct (Hb 0 ltac:(lia)) as (Ht & Hm). rewrite !Z.add_0_r in *. unfold ld. rewrite Ht, Hm. rstep.
  rewrite (IH m (v + 1) (p + 1) (x / 256)).
  - rstep. f_equal. rewrite Z.pow_0_r, Z.div_1_r. rewrite Nat2Z.inj_succ, Z.pow_succ_r by lia.
    rewrite Z.rem_mul_r by (try apply Z.pow_pos_nonneg; lia). done.
  - intros i Hi. destruct (Hb (i + 1) ltac:(lia)) as (Ht' & Hm').
    replace (v + 1 + i) with (v + (i + 1)) by lia. replace (p + 1 + i) with (p + (i + 1)) by lia.
    split; [done |]. rewrite Hm'. do 2 f_equal. rewrite Z.div_div by (try apply Z.pow_pos_nonneg; lia).
    by rewrite <- Z.pow_succ_r by lia.
Qed.

Lemma ldn_spec w m v p :
  maps tr m v p w ->
  exists x, ldn tr w m v = Ok x /\
    forall i, 0 <= i < Z.of_nat w -> m !! (p + i) = Some (x / 256 ^ i mod 256).
Proof.
  revert v p. induction w as [|w IH]; intros v p Hm; simpl.
  { exists 0. split; [done | lia]. }
  destruct (ld_maps tr _ _ _ _ Hm) as (b & -> & Hb & Hok). unfold byte_ok in Hok. rstep.
  destruct (IH (v + 1) (p + 1)) as (hi & -> & Hhi); [by apply (maps_drop tr m v p w 1) |]. rstep.
  exists (b + 256 * hi). split; [done |]. intros i Hi. destruct (decide (i = 0)) as [->|].
  - rewrite Z.pow_0_r, Z.div_1_r, Z.add_0_r, Hb. f_equal. apply (Z.mod_unique_pos _ _ hi); lia.
  - replace i with (1 + (i - 1)) at 2 by lia.
    rewrite Z.pow_add_r, <- Z.div_div, Z.pow_1_r by lia.
    assert ((b + 256 * hi) / 256 = hi) as -> by (symmetry; apply (Z.div_unique_pos _ _ _ b); lia).
    rewrite <- Hhi by lia. f_equal. lia.
Qed.

(** One [movs] instruction copies its bytes. *)
Lemma movs_copy w m vd vs pd ps :
  maps tr m vd pd w -> maps tr m vs ps w -> forward_ok w pd ps ->
  exists x, ldn tr w m vs = Ok x /\ stn tr w m vd x = Ok (copy w pd ps m).
Proof.
  intros Hd Hs Hf. destruct (ldn_spec w m vs ps Hs) as (x & E & Hx).
  exists x. split; [done |]. rewrite (stn_write_le tr _ _ _ _ _ Hd). f_equal.
  apply map_eq. intros q. rewrite lookup_write_le, lookup_copy by done.
  destruct (Z.leb_spec pd q), (Z.ltb_spec q (pd + Z.of_nat w)); simpl; try done.
  rewrite Hx by lia. done.
Qed.

Lemma rep_movs_copy w n m vd vs pd ps :
  maps tr m vd pd (n * w) -> maps tr m vs ps (n * w) -> forward_ok (n * w) pd ps ->
  exists edi esi, rep_movs tr w n false m vd vs = Ok (edi, esi, copy (n * w) pd ps m) /\
    u32 edi = u32 (vd + Z.of_nat (n * w)) /\ u32 esi = u32 (vs + Z.of_nat (n * w)).
Proof.
  unfold forward_ok.
  revert m vd vs pd ps. induction n as [|n IH]; intros m vd vs pd ps Hd Hs Hf; simpl.
  { exists vd, vs. by rewrite !Z.add_0_r. }
  destruct (movs_copy w m vd vs pd ps) as (x & -> & E);
    [by apply (maps_take _ _ _ _ (n * w)).. | unfold forward_ok; lia |].
  rstep. rewrite E. rstep.
  assert (Hc : covers m (copy w pd ps m)).
  { apply covers_copy; [unfold forward_ok; lia |].
    apply (maps_bytes _ vs). by apply (maps_take _ _ _ _ (n * w)). }
  destruct (IH (copy w pd ps m) (u32 (vd + Z.of_nat w)) (u32 (vs + Z.of_nat w))
              (pd + Z.of_nat w) (ps + Z.of_nat w)) as (edi & esi & E' & Hedi & Hesi).
  { apply (maps_covers _ m); [done |]. by apply maps_u32, (maps_drop _ m vd pd (n * w) w). }
  { apply (maps_covers _ m); [done |]. by apply maps_u32, (maps_drop _ m vs ps (n * w) w). }
  { lia. }
  exists edi, esi. unfold dir. rewrite E', copy_app. split; [done |].
  rewrite Hedi, Hesi, !u32_add_l. split; f_equal; lia.
Qed.

(** The byte loops of [memcpy] as one-byte [movs] instructions. *)
Lemma memcpy_step n m vd vs pd ps :
  maps tr m vd pd (S n) -> maps tr m vs ps (S n) -> forward_ok (S n) pd ps ->
  exists b, ld tr m vs = Ok b /\ st tr m vd b = Ok (copy 1 pd ps m) /\
    maps tr (copy 1 pd ps m) (u32 (vd + 1)) (pd + 1) n /\
    maps tr (copy 1 pd ps m) (u32 (vs + 1)) (ps + 1) n /\ forward_ok n (pd + 1) (ps + 1).
Proof.
  unfold forward_ok. intros Hd Hs Hf.
  destruct (ld_maps tr _ _ _ _ Hs) as (b & E & Hb & Hok). exists b.
  assert (Hc : covers m (copy 1 pd ps m)).
  { apply covers_copy; [unfold forward_ok; lia |].
    apply (maps_bytes _ vs). by apply (maps_take _ _ _ _ n 1). }
  split_and!; [done | | by apply (maps_covers _ m), maps_next..|lia].
  rewrite (st_maps _ _ _ _ _ _ Hd). unfold byte_ok in Hok. rewrite u8_id by lia.
  f_equal. cbn [copy]. by rewrite Hb.
Qed.

Lemma memcpy_bottom_copy n m vd vs pd ps :
  maps tr m vd pd n -> maps tr m vs ps n -> forward_ok n pd ps ->
  memcpy_bottom tr n m vd vs = Ok (copy n pd ps m).
Proof.
  revert m vd vs pd ps. induction n as [|n IH]; intros m vd vs pd ps Hd Hs Hf; [done |].
  cbn [memcpy_bottom].
  destruct (memcpy_step n m vd vs pd ps Hd Hs Hf) as (b & -> & E & Hd' & Hs' & Hf').
  rstep. rewrite E. rstep. by rewrite (IH _ _ _ _ _ Hd' Hs' Hf').
Qed.

Lemma memcpy_top_copy n m vd vs pd ps :
  maps tr m vd pd n -> maps tr m vs ps n -> forward_ok n pd ps ->
  exists k edi esi, (k <= n)%nat /\
    memcpy_top tr n m vd vs = Ok ((n - k)%nat, edi, esi, copy k pd ps m) /\
    u32 edi = u32 (vd + Z.of_nat k) /\ u32 esi = u32 (vs + Z.of_nat k).
Proof.
  revert m vd vs pd ps. induction n as [|n IH]; intros m vd vs pd ps Hd Hs Hf.
  { exists 0%nat, vd, vs. by rewrite !Z.add_0_r. }
  cbn [memcpy_top]. destruct (Z.land vd 3 =? 0).
  { exists 0%nat, vd, vs. rewrite !Z.add_0_r. split_and!; [lia | done..]. }
  destruct (memcpy_step n m vd vs pd ps Hd Hs Hf) as (b & -> & E & Hd' & Hs' & Hf').
  rstep. rewrite E. rstep.
  destruct (IH _ _ _ _ _ Hd' Hs' Hf') as (k & edi & esi & Hk & -> & Hedi & Hesi).
  exists (S k), edi, esi. rewrite Hedi, Hesi, !u32_add_l.
  split_and!; [lia | by rewrite (copy_app 1 k) | f_equal; lia..].
Qed.
End Copies.

(** The copy, as the other components use it. *)
Lemma memcpy_spec tr m dest src pd ps n :
  0 <= n < 2 ^ 32 ->
  maps tr m dest pd (Z.to_nat n) -> maps tr m src ps (Z.to_nat n) ->
  pd <= ps \/ ps + n <= pd ->
  exists m', memcpy tr m dest src n = Ok m' /\
    forall q, m' !! q = if (pd <=? q) && (q <? pd + n) then m !! (ps + (q - pd)) else m !! q.
Proof.
  intros Hn Hd Hs Hov. assert (Hf : forward_ok (Z.to_nat n) pd ps) by (unfold forward_ok; lia).
  unfold memcpy. destruct (memcpy_top_copy tr _ m dest src pd ps Hd Hs Hf)
    as (k & edi & esi & Hk & -> & Hedi & Hesi). rstep.
  exists (copy (Z.to_nat n) pd ps m). split.
  2:{ intros q. rewrite lookup_copy by done. by rewrite Z2Nat.id by lia. }
  remember (Z.to_nat n - k)%nat as r eqn:Hr. destruct r as [|r'].
  { by replace (Z.to_nat n) with k by lia. }
  set (r := S r') in *. assert (Hsplit : Z.to_nat n = (k + (r / 4 * 4 + r mod 4))%nat).
  { pose proof (Nat.div_mod r 4 ltac:(lia)). lia. }
  clearbody r. unfold forward_ok in Hf. rewrite Hsplit in *. set (k4 := (r / 4 * 4)%nat) in *.
  assert (Hc : covers m (copy k pd ps m)).
  { apply covers_copy; [unfold forward_ok; lia |]. by apply (maps_bytes tr _ src), (maps_take _ _ _ _ _ _ Hs). }
  assert (Hd' : maps tr (copy k pd ps m) edi (pd + Z.of_nat k) (k4 + r mod 4))
    by by apply (maps_covers _ m), (maps_rest tr m dest pd).
  assert (Hs' : maps tr (copy k pd ps m) esi (ps + Z.of_nat k) (k4 + r mod 4))
    by by apply (maps_covers _ m), (maps_rest tr m src ps).
  destruct (rep_movs_copy tr 4 (r / 4) _ edi esi _ _ (maps_take _ _ _ _ _ _ Hd')
              (maps_take _ _ _ _ _ _ Hs')) as (edi' & esi' & -> & Hedi' & Hesi');
    [unfold forward_ok; lia |]. fold k4 in Hedi', Hesi' |- *. rstep.
  rewrite (copy_app k), (copy_app k4).
  assert (Hc' : covers (copy k pd ps m)
                  (copy k4 (pd + Z.of_nat k) (ps + Z.of_nat k) (copy k pd ps m))).
  { apply covers_copy; [unfold forward_ok; lia |]. apply (maps_bytes tr _ esi), (maps_take _ _ _ _ _ _ Hs'). }
  apply memcpy_bottom_copy; [| |unfold forward_ok; lia].
  - by apply (maps_covers _ (copy k pd ps m)), (maps_rest tr _ edi).
  - by apply (maps_covers _ (copy k pd ps m)), (maps_rest tr _ esi).
Qed.

(** C35. [memcpy] copies: on mapped ranges that do not overlap, or where the
    destination lies before the source in memory, it returns, the destination
    holds what the source held and no other byte of memory changes; the
    alignment of the destination does not matter. *)
Theorem memcpy_copies tr m dest src pd ps n :
  0 <= n < 2 ^ 32 ->
  maps tr m dest pd (Z.to_nat n) -> maps tr m src ps (Z.to_nat n) ->
  pd <= ps \/ ps + n <= pd ->
  exists m', memcpy tr m dest src n = Ok m' /\
    forall q, m' !! q = if (pd <=? q) && (q <? pd + n) then m !! (ps + (q - pd)) else m !! q.
Proof. apply memcpy_spec. Qed.

(** A copy from the last byte to the first, for a destination after the source. *)
Lemma rep_movs_back tr n m edi esi d s :
  maps tr m d d n -> maps tr m s s n -> s <= d ->
  u32 edi = u32 (d + Z.of_nat n - 1) -> u32 esi = u32 (s + Z.of_nat n - 1) ->
  exists r m', rep_movs tr 1 n true m edi esi = Ok (r, m') /\
    forall q, m' !! q = if (d <=? q) && (q <? d + Z.of_nat n) then m !! (s + (q - d)) else m !! q.
Proof.
  revert m edi esi. induction n as [|n IH]; intros m edi esi Hd Hs Hle Hedi Hesi.
  { exists (edi, esi), m. split; [done |]. intros q. by zcases. }
  assert (Hd1 : maps tr m edi (d + Z.of_nat n) 1).
  { apply (maps_rest tr m d); [by replace (n + 1)%nat with (S n) by lia |]. rewrite Hedi. f_equal. lia. }
  assert (Hs1 : maps tr m esi (s + Z.of_nat n) 1).
  { apply (maps_rest tr m s); [by replace (n + 1)%nat with (S n) by lia |]. rewrite Hesi. f_equal. lia. }
  cbn [rep_movs]. destruct (ldn_spec tr 1 m esi _ Hs1) as (x & -> & Hx). rstep.
  rewrite (stn_write_le tr _ _ _ _ _ Hd1). rstep. set (m1 := write_le _ _ _ _).
  assert (Hc : covers m m1) by apply covers_write_le.
  destruct (IH m1 (u32 (edi + dir true 1)) (u32 (esi + dir true 1))) as (r & m' & E & Hm').
  - apply (maps_covers _ m); [done |]. apply (maps_take _ _ _ _ 1). by replace (n + 1)%nat with (S n) by lia.
  - apply (maps_covers _ m); [done |]. apply (maps_take _ _ _ _ 1). by replace (n + 1)%nat with (S n) by lia.
  - done.
  - rewrite u32_idem. rewrite <- u32_add_l, Hedi, u32_add_l. unfold dir. f_equal. lia.
  - rewrite u32_idem. rewrite <- u32_add_l, Hesi, u32_add_l. unfold dir. f_equal. lia.
  - exists r, m'. split; [done |]. intros q. rewrite Hm'. unfold m1. rewrite !lookup_write_le.
    specialize (Hx 0 ltac:(lia)). rewrite Z.add_0_r in Hx.
    destruct (decide (q = d + Z.of_nat n)) as [->|].
    + rewrite Z.sub_diag. replace (s + (d + Z.of_nat n - d)) with (s + Z.of_nat n) by lia.
      rewrite <- Hx. by zcases.
    + by zcases.
Qed.

(** [memmove] moves, whatever the overlap of the two ranges: the destination
    ends with what the source held and no other byte changes. It returns with
    the direction flag set exactly when the destination lies after the
    source. *)
Theorem memmove_moves tr m dest src n :
  0 <= n < 2 ^ 32 ->
  maps tr m dest dest (Z.to_nat n) -> maps tr m src src (Z.to_nat n) ->
  exists m', memmove tr m dest src n = Ok (src <? dest, m') /\
    forall q, m' !! q = if (dest <=? q) && (q <? dest + n) then m !! (src + (q - dest)) else m !! q.
Proof.
  intros Hn Hd Hs. unfold memmove. destruct (Z.leb_spec dest src).
  - destruct (Z.ltb_spec src dest); [lia |].
    destruct (rep_movs_copy tr 1 (Z.to_nat n) m dest src dest src) as (edi & esi & E & _).
    1,2: by rewrite Nat.mul_1_r. { unfold forward_ok. lia. }
    rewrite E. rstep. eexists. split; [done |]. intros q. rewrite Nat.mul_1_r, lookup_copy.
    + by rewrite Z2Nat.id by lia.
    + unfold forward_ok. lia.
  - destruct (Z.ltb_spec src dest); [|lia].
    destruct (rep_movs_back tr (Z.to_nat n) m (u32 (dest + n - 1)) (u32 (src + n - 1)) dest src)
      as ([edi esi] & m' & E & Hm'); [done | done | lia | rewrite u32_idem; f_equal; lia..|].
    rewrite E. rstep. exists m'. split; [done |]. intros q. rewrite Hm'. by rewrite Z2Nat.id by lia.
Qed.

(** ** Witnesses: sixteen bytes of memory, identity mapped *)

Definition demo_mem : mem :=
  list_to_map (zip (seqZ 100 16) [0; 1; 2; 3; 4; 5; 6; 7; 8; 9; 10; 11; 12; 13; 14; 15]).

Definition demo_bytes_ok (v : Z) (n : nat) : bool :=
  forallb (fun i => match demo_mem !! i with Some b => (0 <=? b) && (b <? 256) | None => false end)
    (seqZ v (Z.of_nat n)).

Lemma demo_maps v n :
  demo_bytes_ok v n = true -> 0 <= v < 1000 -> (n <= 100)%nat -> maps Some demo_mem v v n.
Proof.
  intros H Hv Hn i Hi. rewrite u32_id by lia. split; [done |].
  unfold demo_bytes_ok in H. rewrite forallb_forall in H.
  assert (Hin : In (v + i) (seqZ v (Z.of_nat n))) by (apply list_elem_of_In, elem_of_seqZ; lia).
  specialize (H _ Hin). destruct (demo_mem !! (v + i)) as [b|]; [|done].
  apply andb_prop in H as [H1%Z.leb_le H2%Z.ltb_lt]. by exists b.
Qed.

Lemma memset_fills_witness :
  exists m', memset Some demo_mem 101 0x141 7 = Ok m' /\ m' !! 107 = Some 0x41 /\ m' !! 108 = Some 8.
Proof.
  destruct (memset_fills Some demo_mem 101 101 0x141 7 ltac:(lia)) as (m' & E & Hm').
  - apply demo_maps; [reflexivity | lia..].
  - exists m'. split; [exact E |]. split; rewrite Hm'; reflexivity.
Defined.

Lemma memcpy_copies_witness :
  exists m', memcpy Some demo_mem 109 101 7 = Ok m' /\ m' !! 109 = Some 1 /\ m' !! 115 = Some 7.
Proof.
  destruct (memcpy_copies Some demo_mem 109 101 109 101 7 ltac:(lia)) as (m' & E & Hm').
  - apply demo_maps; [reflexivity | lia..].
  - apply demo_maps; [reflexivity | lia..].
  - lia.
  - exists m'. split; [exact E |]. split; rewrite Hm'; reflexivity.
Defined.

Lemma memmove_moves_witness :
  exists m', memmove Some demo_mem 102 101 7 = Ok (true, m') /\ m' !! 102 = Some 1 /\ m' !! 108 = Some 7.
Proof.
  destruct (memmove_moves Some demo_mem 102 101 7 ltac:(lia)) as (m' & E & Hm').
  - apply demo_maps; [reflexivity | lia..].
  - apply demo_maps; [reflexivity | lia..].
  - exists m'. split; [exact E |]. split; rewrite Hm'; reflexivity.
Defined.
