(* ===== verification/State.v ===== *)
(** * The state of the kernel

    The file-scope variables of the kernel under [student-distrib/], grouped by
    the file that declares them, the physical memory and the registers that the
    inline assembly touches, the port instructions of [lib.h], and the ways a
    kernel function can end.

    Of [pcb_t] the field [command_2], which nothing uses, is left out. The blocks are
    kept by their physical addresses and not as bytes of [ph]: a store of a program or
    of the kernel into one is not seen in it.

    The devices behind the ports are not part of the source: [Env] gives the
    value an [inb] reads as a function of the port traffic so far. *)

From S2P Require Import Prelude Strings Filesys Paging Mem.

Local Open Scope Z_scope.

(** ** Data *)

(** What the kernel does to the outside, latest first. *)
Inductive ioev : Type :=
| Out (port data : Z)
| In (port data : Z).

Class Env := {
  port_in : list ioev -> Z -> Z
}.

(** The address the linker gives the array [zeros] of [sched.h]. *)
Class Linker := { zeros_addr : Z; zeros_range : 0 <= zeros_addr < 2 ^ 32 }.

(** [uint8_t master_mask, slave_mask] of [i8259.c]. *)
Record pic_t := mkPic { master_mask : Z; slave_mask : Z }.

(** [screen_x], [screen_y], [scr_buf] of [lib.c]. *)
Record console_t := mkConsole {
  screen_x : Z;
  screen_y : Z;
  scr_buf : list (list Z)      (* volatile char scr_buf[3][NUM_COLS*NUM_ROWS] *)
}.

(** The variables of [keyboard.h]. *)
Record keyboard_t := mkKeyboard {
  capson : Z;
  ctrl_on : Z;
  shift_on : Z;
  alt_on : Z;
  fflag : Z;
  buf : list (list Z);         (* unsigned char buf[6][BUF_SIZE] *)
  buf_index : list Z;          (* volatile unsigned int buf_index[6] *)
  ind_entered : list Z         (* volatile unsigned int ind_entered[6] *)
}.

(** The variables of [sched.h]. *)
Record sched_t := mkSched {
  cursor_pos : list (list Z);  (* volatile int cursor_pos[6][2] *)
  active_term : Z;
  term_init : list Z;          (* int term_init[3] *)
  proc_active : list Z;        (* int proc_active[3] *)
  bg_term : Z;
  fake_sti : Z;
  proc_esp : list Z;           (* int proc_esp[3] *)
  proc_ebp : list Z            (* int proc_ebp[3] *)
}.

(** The fields of the TSS that the kernel writes. *)
Record tss_t := mkTss { tss_ss0 : Z; tss_esp0 : Z; tss_esp : Z; tss_ebp : Z; tss_ldt : Z }.

(** [fotp]: which table of file operations a descriptor uses; [otp_none] is a
    pointer that was never set. *)
Inductive fotp_t : Type := otp_terminal | otp_dir | otp_rtc | otp_file | otp_none.

Record fd_t := mkFd { fotp : fotp_t; inode : Z; fp : Z; flags : Z }.

Record pcb_t := mkPcb {
  fd : list fd_t;              (* fd_t fd[8] *)
  old_pcb : Z;
  kstack : Z;
  old_ebp : Z;
  proc_id : Z
}.

Record kstate := mkK {
  log : list ioev;
  iflag : bool;                (* the interrupt flag *)
  pic : pic_t;
  pg : paging;
  ph : mem;                    (* video memory, terminal pages, program memory *)
  con : console_t;
  kb : keyboard_t;
  sch : sched_t;
  interrupt_count : Z;
  fs : filesys;
  tss : tss_t;
  args : list Z;               (* uint8_t args[1024] *)
  pcbs : gmap Z pcb_t          (* the PCBs, by physical address *)
}.

(** ** Updates *)

Definition set_log (s : kstate) x :=
  mkK x (iflag s) (pic s) (pg s) (ph s) (con s) (kb s) (sch s) (interrupt_count s) (fs s) (tss s) (args s) (pcbs s).
Definition set_iflag (s : kstate) x :=
  mkK (log s) x (pic s) (pg s) (ph s) (con s) (kb s) (sch s) (interrupt_count s) (fs s) (tss s) (args s) (pcbs s).
Definition set_pic (s : kstate) x :=
  mkK (log s) (iflag s) x (pg s) (ph s) (con s) (kb s) (sch s) (interrupt_count s) (fs s) (tss s) (args s) (pcbs s).
Definition set_pg (s : kstate) x :=
  mkK (log s) (iflag s) (pic s) x (ph s) (con s) (kb s) (sch s) (interrupt_count s) (fs s) (tss s) (args s) (pcbs s).
Definition set_ph (s : kstate) x :=
  mkK (log s) (iflag s) (pic s) (pg s) x (con s) (kb s) (sch s) (interrupt_count s) (fs s) (tss s) (args s) (pcbs s).
Definition set_con (s : kstate) x :=
  mkK (log s) (iflag s) (pic s) (pg s) (ph s) x (kb s) (sch s) (interrupt_count s) (fs s) (tss s) (args s) (pcbs s).
Definition set_kb (s : kstate) x :=
  mkK (log s) (iflag s) (pic s) (pg s) (ph s) (con s) x (sch s) (interrupt_count s) (fs s) (tss s) (args s) (pcbs s).
Definition set_sch (s : kstate) x :=
  mkK (log s) (iflag s) (pic s) (pg s) (ph s) (con s) (kb s) x (interrupt_count s) (fs s) (tss s) (args s) (pcbs s).
Definition set_interrupt_count (s : kstate) x :=
  mkK (log s) (iflag s) (pic s) (pg s) (ph s) (con s) (kb s) (sch s) x (fs s) (tss s) (args s) (pcbs s).
Definition set_fs (s : kstate) x :=
  mkK (log s) (iflag s) (pic s) (pg s) (ph s) (con s) (kb s) (sch s) (interrupt_count s) x (tss s) (args s) (pcbs s).
Definition set_tss (s : kstate) x :=
  mkK (log s) (iflag s) (pic s) (pg s) (ph s) (con s) (kb s) (sch s) (interrupt_count s) (fs s) x (args s) (pcbs s).
Definition set_args (s : kstate) x :=
  mkK (log s) (iflag s) (pic s) (pg s) (ph s) (con s) (kb s) (sch s) (interrupt_count s) (fs s) (tss s) x (pcbs s).
Definition set_pcbs (s : kstate) x :=
  mkK (log s) (iflag s) (pic s) (pg s) (ph s) (con s) (kb s) (sch s) (interrupt_count s) (fs s) (tss s) (args s) x.

Definition set_xy (s : kstate) (x y : Z) := set_con s (mkConsole x y (scr_buf (con s))).
Definition set_scr_buf (s : kstate) b := set_con s (mkConsole (screen_x (con s)) (screen_y (con s)) b).

Definition set_mods (s : kstate) (caps ctrl shift alt : Z) :=
  set_kb s (mkKeyboard caps ctrl shift alt (fflag (kb s)) (buf (kb s)) (buf_index (kb s)) (ind_entered (kb s))).
Definition set_fflag (s : kstate) x :=
  set_kb s (mkKeyboard (capson (kb s)) (ctrl_on (kb s)) (shift_on (kb s)) (alt_on (kb s)) x
              (buf (kb s)) (buf_index (kb s)) (ind_entered (kb s))).
Definition set_buf (s : kstate) x :=
  set_kb s (mkKeyboard (capson (kb s)) (ctrl_on (kb s)) (shift_on (kb s)) (alt_on (kb s)) (fflag (kb s))
              x (buf_index (kb s)) (ind_entered (kb s))).
Definition set_buf_index (s : kstate) x :=
  set_kb s (mkKeyboard (capson (kb s)) (ctrl_on (kb s)) (shift_on (kb s)) (alt_on (kb s)) (fflag (kb s))
              (buf (kb s)) x (ind_entered (kb s))).
Definition set_ind_entered (s : kstate) x :=
  set_kb s (mkKeyboard (capson (kb s)) (ctrl_on (kb s)) (shift_on (kb s)) (alt_on (kb s)) (fflag (kb s))
              (buf (kb s)) (buf_index (kb s)) x).

Definition set_cursor_pos (c : sched_t) x :=
  mkSched x (active_term c) (term_init c) (proc_active c) (bg_term c) (fake_sti c) (proc_esp c) (proc_ebp c).
Definition set_active_term (c : sched_t) x :=
  mkSched (cursor_pos c) x (term_init c) (proc_active c) (bg_term c) (fake_sti c) (proc_esp c) (proc_ebp c).
Definition set_term_init (c : sched_t) x :=
  mkSched (cursor_pos c) (active_term c) x (proc_active c) (bg_term c) (fake_sti c) (proc_esp c) (proc_ebp c).
Definition set_proc_active (c : sched_t) x :=
  mkSched (cursor_pos c) (active_term c) (term_init c) x (bg_term c) (fake_sti c) (proc_esp c) (proc_ebp c).
Definition set_bg_term (c : sched_t) x :=
  mkSched (cursor_pos c) (active_term c) (term_init c) (proc_active c) x (fake_sti c) (proc_esp c) (proc_ebp c).
Definition set_fake_sti (c : sched_t) x :=
  mkSched (cursor_pos c) (active_term c) (term_init c) (proc_active c) (bg_term c) x (proc_esp c) (proc_ebp c).
Definition set_proc_regs (c : sched_t) esps ebps :=
  mkSched (cursor_pos c) (active_term c) (term_init c) (proc_active c) (bg_term c) (fake_sti c) esps ebps.

(** [a[i][j]] and [a[i][j] = x] on a two-dimensional array. *)
Definition aget2 {A} (a : list (list A)) (i j : Z) : res A := r ← aget a i; aget r j.
Definition aset2 {A} (a : list (list A)) (i j : Z) (x : A) : res (list (list A)) :=
  r ← aget a i; r' ← aset r j x; aset a i r'.

Lemma aget_aset {A} (a a' : list A) i x j :
  aset a i x = Ok a' -> aget a' j = if j =? i then Ok x else aget a j.
Proof.
  intros [Hi ->]%aset_Ok. destruct (Z.eqb_spec j i) as [->|].
  - by apply aget_insert_eq.
  - apply aget_insert_ne; lia.
Qed.

Lemma aget2_aset2 {A} (a a' : list (list A)) i j x i' j' :
  aset2 a i j x = Ok a' -> aget2 a' i' j' = if (i' =? i) && (j' =? j) then Ok x else aget2 a i' j'.
Proof.
  unfold aset2, aget2. intros E. apply res_bind_ok_inv in E as (r & Hr & E).
  apply res_bind_ok_inv in E as (r' & Hr' & E). rewrite (aget_aset _ _ _ _ i' E).
  destruct (Z.eqb_spec i' i) as [->|]; [|done]. simpl. rewrite Hr. rstep. by rewrite (aget_aset _ _ _ _ j' Hr').
Qed.

Lemma aset2_in {A} (a : list (list A)) i j x r :
  aget a i = Ok r -> 0 <= j < zlen r -> exists a', aset2 a i j x = Ok a'.
Proof.
  intros Hr Hj. unfold aset2. rewrite Hr. rstep. rewrite aset_in by done. rstep.
  rewrite aset_in by by apply aget_Ok_range in Hr. by eexists.
Qed.

(** ** Ports, interrupt flag, memory *)

Section Machine.
Context `{Env} `{Layout}.

Definition inb (s : kstate) (port : Z) : Z * kstate :=
  let v := u8 (port_in (log s) port) in (v, set_log s (In port v :: log s)).

Definition outb (s : kstate) (data port : Z) : kstate := set_log s (Out port (u8 data) :: log s).

Definition cli (s : kstate) : kstate := set_iflag s false.
Definition sti (s : kstate) : kstate := set_iflag s true.

(** The kernel's view of memory. *)
Definition ktr (s : kstate) : Z -> option Z := walk (pg s) false.

Definition kst (s : kstate) (a v : Z) : res kstate :=
  m ← st (ktr s) (ph s) a v; Ok (set_ph s m).

Definition kld (s : kstate) (a : Z) : res Z := ld (ktr s) (ph s) a.

(** Before paging is on, addresses are physical. *)
Lemma ktr_off s v : Z.testbit (cr0 (pg s)) 31 = false -> ktr s v = Some v.
Proof. unfold ktr, walk. by intros ->. Qed.

Lemma maps_off s m v n :
  Z.testbit (cr0 (pg s)) 31 = false -> 0 <= v -> v + Z.of_nat n <= 2 ^ 32 -> bytes_at m v n ->
  maps (ktr s) m v v n.
Proof.
  intros Hoff Hv Hn Hb i Hi. rewrite u32_id by lia. split; [by apply ktr_off | by apply Hb].
Qed.
(** What is in the kernel page, by address; nothing else. The boot loader leaves
    the file system image there. *)
Definition page_rd (m : mem) : reader := fun a =>
  if (4194304 <=? a) && (a <? 8388608) then
    match m !! a with Some b => Ok b | None => Undef end
  else Undef.

Lemma page_rd_kld s : paging_inv (pg s) -> kernel_dir (pg s) -> rd_le (page_rd (ph s)) (kld s).
Proof.
  intros Hinv Hdir a c. unfold page_rd, kld, ld.
  destruct (Z.leb_spec 4194304 a); [|done]. destruct (Z.ltb_spec a 8388608); [|done]. cbn [andb].
  rewrite u32_id by lia. unfold ktr. by rewrite kernel_page_walk by (done || lia).
Qed.

(** A page of the low 4 MB that is mapped to itself. *)
Definition id_pte (p : paging) (i : Z) : Prop := aget (PTE p) i = Ok (2 ^ 12 * i + CTRL_PTE).

Lemma low_page_walk p i k :
  paging_inv p -> kernel_dir p -> 0 <= i < 1024 -> id_pte p i -> 0 <= k < 4096 ->
  walk p false (4096 * i + k) = Some (4096 * i + k).
Proof.
  intros Hinv Hdir Hi Hid Hk.
  assert (Hpg : (4096 * i + k) / 2 ^ 12 = i) by (symmetry; apply (Z.div_unique _ _ _ k); lia).
  assert (Hmd : (4096 * i + k) mod 2 ^ 12 = k) by (symmetry; apply (Z.mod_unique _ _ i); lia).
  rewrite (kernel_low_walk p _ CTRL_PTE i) by first [done | lia | by rewrite Hpg | by left].
  by rewrite Hmd.
Qed.

(** Copying one of these pages to another. *)
Lemma copy_page s i j :
  paging_inv (pg s) -> kernel_dir (pg s) -> 0 <= i < 1024 -> 0 <= j < 1024 -> i <> j ->
  id_pte (pg s) i -> id_pte (pg s) j ->
  bytes_at (ph s) (4096 * i) 4096 -> bytes_at (ph s) (4096 * j) 4096 ->
  exists m, memcpy (ktr s) (ph s) (4096 * i) (4096 * j) 4096 = Ok m /\
    forall a, m !! a = if (4096 * i <=? a) && (a <? 4096 * i + 4096)
                       then ph s !! (4096 * j + (a - 4096 * i)) else ph s !! a.
Proof.
  intros Hinv Hdir Hi Hj Hne Hpi Hpj Hbi Hbj.
  assert (Hmaps : forall k, 0 <= k < 1024 -> id_pte (pg s) k -> bytes_at (ph s) (4096 * k) 4096 ->
    maps (ktr s) (ph s) (4096 * k) (4096 * k) (Z.to_nat 4096)).
  { intros k Hk Hp Hb n Hn. change (Z.of_nat (Z.to_nat 4096)) with 4096 in Hn. rewrite u32_id by lia.
    split; [by apply low_page_walk | apply Hb; change (Z.of_nat 4096) with 4096; lia]. }
  destruct (memcpy_spec (ktr s) (ph s) (4096 * i) (4096 * j) (4096 * i) (4096 * j) 4096) as (m & E & Hm);
    [lia | by apply Hmaps | by apply Hmaps | lia |].
  by exists m.
Qed.
End Machine.

(** ** Control

    How a kernel function ends: it returns, or control leaves it for good
    ([Stop]) or until an interrupt changes what it polls ([Blocked]). *)

Inductive stop : Type :=
| EnterUser (eip esp : Z)   (* [iret] into a user program *)
| UsrEnd (esp ebp : Z)      (* [jmp usr_end] with the given registers *)
| ExitShell                 (* [jmp exit_shell] *)
| Resume (esp ebp : Z)      (* the stack of another terminal was loaded *)
| Blocked                   (* a loop that waits for an interrupt *)
| Spin.                     (* [while(1);], or a loop around [hlt] *)

Inductive ctl (A : Type) : Type :=
| Ret (x : A)
| Stop (why : stop).
Arguments Ret {A} x.
Arguments Stop {A} why.

Definition K (A : Type) : Type := kstate -> res (ctl A * kstate).

Definition kret {A} (x : A) : K A := fun s => Ok (Ret x, s).
Definition kstop {A} (w : stop) : K A := fun s => Ok (Stop w, s).
Definition kbind {A B} (m : K A) (f : A -> K B) : K B := fun s =>
  '(r, s) ← m s; match r with Ret x => f x s | Stop w => Ok (Stop w, s) end.
(** Steps that always return. *)
Definition kdo (f : kstate -> res kstate) : K unit := fun s => s ← f s; Ok (Ret tt, s).
Definition kget {A} (f : kstate -> res A) : K A := fun s => x ← f s; Ok (Ret x, s).

Declare Scope kernel_scope.
Delimit Scope kernel_scope with K.
Notation "'let!' x ':=' m 'in' k" := (kbind m (fun x => k))
  (at level 100, x strict pattern, m at level 90, k at level 200, right associativity) : kernel_scope.
Notation "'do!' m ';;' k" := (kbind m (fun _ : unit => k))
  (at level 100, m at level 90, k at level 200, right associativity) : kernel_scope.

(** ** The state the loader leaves

    The file-scope variables are zero (all of them are in .bss or initialised to
    zero); what memory holds is given. *)

Definition zero_pcb : pcb_t := mkPcb (replicate 8 (mkFd otp_none 0 0 0)) 0 0 0 0.

Definition kboot (m : mem) : kstate :=
  mkK [] false (mkPic 0 0)
    (mkPaging (replicate 8 (replicate 1024 0)) (replicate 1024 0) (replicate 8 0) 0 0 0)
    m
    (mkConsole 0 0 (replicate 3 (replicate 2000 0)))
    (mkKeyboard 0 0 0 0 0 (replicate 6 (replicate 1024 0)) (replicate 6 0) (replicate 6 0))
    (mkSched (replicate 6 [0; 0]) 0 [0; 0; 0] [0; 0; 0] 0 0 [0; 0; 0] [0; 0; 0])
    0
    (mkFs 0 0 0 0 0 0 0 0)
    (mkTss 0 0 0 0 0)
    (replicate 1024 0)
    ∅.
