(* ===== verification/Pic.v ===== *)
(** * The interrupt controller driver

    [student-distrib/i8259.c]: the two software masks and the port writes. The
    contract of the driver is stated against the documented behaviour of the
    8259A ([chip]): what the controllers hold after the writes in the log. *)

From S2P Require Import Prelude Filesys Paging Mem State.

Local Open Scope Z_scope.

Definition MASTER_8259_PORT : Z := 0x20.
Definition SLAVE_8259_PORT : Z := 0xA0.
Definition ICW1 : Z := 0x11.
Definition ICW2_MASTER : Z := 0x20.
Definition ICW2_SLAVE : Z := 0x28.
Definition ICW3_MASTER : Z := 0x04.
Definition ICW3_SLAVE : Z := 0x02.
Definition ICW4 : Z := 0x01.
Definition EOI : Z := 0x60.

(** ** The code *)

Definition set_master_mask (s : kstate) x := set_pic s (mkPic x (slave_mask (pic s))).
Definition set_slave_mask (s : kstate) x := set_pic s (mkPic (master_mask (pic s)) x).

Definition i8259_init (s : kstate) : kstate :=
  let s := outb s ICW1 MASTER_8259_PORT in
  let s := outb s ICW1 SLAVE_8259_PORT in
  let s := outb s ICW2_MASTER (MASTER_8259_PORT + 1) in
  let s := outb s ICW2_SLAVE (SLAVE_8259_PORT + 1) in
  let s := outb s ICW3_MASTER (MASTER_8259_PORT + 1) in
  let s := outb s ICW3_SLAVE (SLAVE_8259_PORT + 1) in
  let s := outb s ICW4 (MASTER_8259_PORT + 1) in
  let s := outb s ICW4 (SLAVE_8259_PORT + 1) in
  let s := set_master_mask s 0xFF in
  let s := set_slave_mask s 0xFF in
  let s := outb s (master_mask (pic s)) (MASTER_8259_PORT + 1) in
  outb s (slave_mask (pic s)) (SLAVE_8259_PORT + 1).

Definition enable_irq (s : kstate) (irq_num : Z) : kstate :=
  if irq_num <=? 7 then
    let s := set_master_mask s
      (u8 (Z.land (master_mask (pic s)) (Z.lnot (Z.shiftl 1 (irq_num mod 8))))) in
    outb s (master_mask (pic s)) (MASTER_8259_PORT + 1)
  else
    let s := set_slave_mask s
      (u8 (Z.land (slave_mask (pic s)) (Z.lnot (Z.shiftl 1 (irq_num mod 8))))) in
    outb s (slave_mask (pic s)) (SLAVE_8259_PORT + 1).

Definition disable_irq (s : kstate) (irq_num : Z) : kstate :=
  if irq_num <=? 7 then
    let s := set_master_mask s
      (u8 (Z.lor (master_mask (pic s)) (Z.shiftl 1 (irq_num mod 8)))) in
    outb s (master_mask (pic s)) (MASTER_8259_PORT + 1)
  else
    let s := set_slave_mask s
      (u8 (Z.land (slave_mask (pic s)) (Z.shiftl 1 (irq_num mod 8)))) in
    outb s (slave_mask (pic s)) (SLAVE_8259_PORT + 1).

(** The recursive call [send_eoi(2)] takes the first branch. *)
Definition send_eoi_master (s : kstate) (irq_num : Z) : kstate :=
  outb s (Z.lor EOI irq_num) MASTER_8259_PORT.

Definition send_eoi (s : kstate) (irq_num : Z) : kstate :=
  if irq_num <? 8 then send_eoi_master s irq_num
  else
    let irq_num := u32 (irq_num - 8) in
    let s := outb s (Z.lor EOI irq_num) SLAVE_8259_PORT in
    send_eoi_master s 2.

(** ** The controllers

    One 8259A at a base port, as its data sheet describes it: a write of a word
    with bit 4 to the even port starts the initialisation sequence, in which the
    next writes to the odd port are ICW2, ICW3 and ICW4; otherwise a write to the
    odd port sets the interrupt mask, and a write to the even port with 011 in
    the top three bits ends the interrupt of the given level. *)

Inductive icw : Type := want2 | want3 | want4 | ready.

Record chip := mkChip { phase : icw; vector : Z; cascade : Z; imr : Z; eois : list Z }.

Definition chip_step (base : Z) (e : ioev) (c : chip) : chip :=
  match e with
  | In _ _ => c
  | Out port data =>
      if port =? base then
        if Z.testbit data 4 then mkChip want2 (vector c) (cascade c) 0 []
        else if Z.land data 0xE0 =? 0x60 then
          mkChip (phase c) (vector c) (cascade c) (imr c) (Z.land data 7 :: eois c)
        else c
      else if port =? base + 1 then
        match phase c with
        | want2 => mkChip want3 data (cascade c) (imr c) (eois c)
        | want3 => mkChip want4 (vector c) data (imr c) (eois c)
        | want4 => mkChip ready (vector c) (cascade c) (imr c) (eois c)
        | ready => mkChip ready (vector c) (cascade c) data (eois c)
        end
      else c
  end.

Definition chip_after (base : Z) (l : list ioev) : chip :=
  foldr (chip_step base) (mkChip ready 0 0 0 []) l.

#[global] Arguments chip_after _ _ : simpl never.

(** The controllers hold what the driver's variables say, and are set up with
    the vectors and the cascade the kernel relies on. *)
Record pic_ok (s : kstate) : Prop := {
  ok_master : exists l, chip_after MASTER_8259_PORT (log s) =
    mkChip ready ICW2_MASTER ICW3_MASTER (master_mask (pic s)) l;
  ok_slave : exists l, chip_after SLAVE_8259_PORT (log s) =
    mkChip ready ICW2_SLAVE ICW3_SLAVE (slave_mask (pic s)) l;
  ok_master_byte : 0 <= master_mask (pic s) < 256;
  ok_slave_byte : 0 <= slave_mask (pic s) < 256
}.

(** Whether IRQ [k] (0 to 15) is masked. *)
Definition masked (s : kstate) (k : Z) : bool :=
  if k <=? 7 then Z.testbit (master_mask (pic s)) k else Z.testbit (slave_mask (pic s)) (k - 8).

(** ** Proofs *)

(** A write to the mask port of a controller, for a byte. *)
Lemma chip_mask_write base port data l v c m es :
  chip_after base l = mkChip ready v c m es -> port = base + 1 ->
  chip_after base (Out port data :: l) = mkChip ready v c data es.
Proof.
  intros E ->. change (chip_after base (?e :: l)) with (chip_step base e (chip_after base l)).
  rewrite E. unfold chip_step. by zcases.
Qed.

Lemma chip_other base port data l :
  port <> base -> port <> base + 1 -> chip_after base (Out port data :: l) = chip_after base l.
Proof.
  intros ??. change (chip_after base (?e :: l)) with (chip_step base e (chip_after base l)).
  unfold chip_step. by zcases.
Qed.

Lemma testbit_bit n k : 0 <= n -> 0 <= k -> Z.testbit (Z.shiftl 1 n) k = (k =? n).
Proof.
  intros Hn Hk. rewrite Z.shiftl_1_l. destruct (Z.eqb_spec k n) as [->|].
  - by apply Z.pow2_bits_true.
  - by apply Z.pow2_bits_false.
Qed.

Lemma u8_testbit x k : 0 <= k < 8 -> Z.testbit (u8 x) k = Z.testbit x k.
Proof. intros. unfold u8. rewrite Z.mod_pow2_bits_low by lia. done. Qed.

(** Everything the other drivers write leaves the controllers alone. *)
Definition pic_port (p : Z) : Prop := p = 0x20 \/ p = 0x21 \/ p = 0xA0 \/ p = 0xA1.

Lemma pic_ok_outb s data port : ~ pic_port port -> pic_ok s -> pic_ok (outb s data port).
Proof.
  unfold pic_port. intros Hp [[l1 H1] [l2 H2] Hm Hs]. unfold outb.
  constructor; simpl; [exists l1 | exists l2 | done | done];
    rewrite chip_other; done || (unfold MASTER_8259_PORT, SLAVE_8259_PORT; lia).
Qed.

Lemma pic_ok_masks s m :
  pic_ok s -> 0 <= m < 256 ->
  pic_ok (outb (set_master_mask s m) m (MASTER_8259_PORT + 1)) /\
  pic_ok (outb (set_slave_mask s m) m (SLAVE_8259_PORT + 1)).
Proof.
  intros [[l1 H1] [l2 H2] Hm Hs] Hb. unfold outb. rewrite u8_id by done. split; constructor; simpl.
  all: try done; try (eexists; by eapply chip_mask_write).
  - exists l2. by rewrite chip_other.
  - exists l1. by rewrite chip_other.
Qed.

Lemma pic_ok_enable s n : pic_ok s -> pic_ok (enable_irq s n).
Proof.
  intros Hok. unfold enable_irq. destruct (n <=? 7); simpl; apply pic_ok_masks; auto with words.
Qed.

Lemma pic_ok_disable s n : pic_ok s -> pic_ok (disable_irq s n).
Proof.
  intros Hok. unfold disable_irq. destruct (n <=? 7); simpl; apply pic_ok_masks; auto with words.
Qed.

(** An end-of-interrupt command for level [n] of the controller at [base]. *)
Lemma chip_eoi base l n :
  0 <= n < 8 ->
  chip_after base (Out base (u8 (Z.lor EOI n)) :: l) =
  let c := chip_after base l in mkChip (phase c) (vector c) (cascade c) (imr c) (n :: eois c).
Proof.
  intros Hn. change (chip_after base (?e :: l)) with (chip_step base e (chip_after base l)).
  unfold chip_step. rewrite Z.eqb_refl.
  assert (n = 0 \/ n = 1 \/ n = 2 \/ n = 3 \/ n = 4 \/ n = 5 \/ n = 6 \/ n = 7)
    as [->|[->|[->|[->|[->|[->|[->| ->]]]]]]] by lia; reflexivity.
Qed.

Lemma pic_ok_eoi s n : 0 <= n < 16 -> pic_ok s -> pic_ok (send_eoi s n).
Proof.
  intros Hn [[l1 H1] [l2 H2] Hm Hs]. unfold send_eoi, send_eoi_master, outb.
  destruct (Z.ltb_spec n 8); constructor; simpl; try done.
  - rewrite chip_eoi, H1 by lia. by eexists.
  - rewrite chip_other by done. by eexists.
  - rewrite (chip_eoi MASTER_8259_PORT _ 2), chip_other, H1 by (done || lia). by eexists.
  - rewrite chip_other by done. rewrite u32_id by lia. rewrite chip_eoi, H2 by lia. by eexists.
Qed.

Lemma i8259_init_ok s : pic_ok (i8259_init s).
Proof. constructor; simpl; try lia; by eexists. Qed.

(** Port traffic that the controllers do not see. *)
Definition quiet (e : ioev) : Prop := match e with In _ _ => True | Out p _ => ~ pic_port p end.

Lemma chip_quiet base es l :
  (base = MASTER_8259_PORT \/ base = SLAVE_8259_PORT) -> Forall quiet es ->
  chip_after base (es ++ l) = chip_after base l.
Proof.
  intros Hb. induction 1 as [|e es He _ IH]; [done |]. cbn [app]. destruct e as [p d|p d].
  - unfold quiet, pic_port in He. unfold MASTER_8259_PORT, SLAVE_8259_PORT in *. rewrite chip_other by lia. exact IH.
  - exact IH.
Qed.

(** A state reached without traffic to the controllers. *)
Definition quietly (s s' : kstate) : Prop := exists es, log s' = es ++ log s /\ Forall quiet es.

Lemma quietly_refl s : quietly s s.
Proof. by exists []. Qed.

Lemma quietly_trans s1 s2 s3 : quietly s1 s2 -> quietly s2 s3 -> quietly s1 s3.
Proof.
  intros (es1 & E1 & H1) (es2 & E2 & H2). exists (es2 ++ es1). split; [|by apply Forall_app].
  by rewrite E2, E1, app_assoc.
Qed.

Lemma quietly_log s s' : log s' = log s -> quietly s s'.
Proof. intros E. by exists []. Qed.

Lemma pic_ok_quiet s s' : quietly s s' -> pic s' = pic s -> pic_ok s -> pic_ok s'.
Proof.
  intros (es & El & Hes) Ep [[l1 H1] [l2 H2] Hm Hs].
  constructor; rewrite ?Ep, ?El; [exists l1 | exists l2 | done | done]; rewrite chip_quiet; auto.
Qed.

(** The driver's operations after initialisation, and writes of the other
    drivers. *)
Inductive pic_op : kstate -> kstate -> Prop :=
| op_enable s n : pic_op s (enable_irq s n)
| op_disable s n : pic_op s (disable_irq s n)
| op_eoi s n : 0 <= n < 16 -> pic_op s (send_eoi s n)
| op_other s d p : ~ pic_port p -> pic_op s (outb s d p).

(** C36. The driver and the controllers agree: after [i8259_init] every IRQ is
    masked, and after it and any sequence of driver operations and of writes to
    other ports the mask registers of both controllers hold the driver's two
    variables, with the vectors at 0x20 and 0x28 and the slave on line 2. *)
Theorem pic_masks_agree s :
  (forall k, 0 <= k < 16 -> masked (i8259_init s) k = true) /\
  forall s', rtc pic_op (i8259_init s) s' -> pic_ok s'.
Proof.
  split.
  { intros k Hk. unfold masked. simpl. destruct (Z.leb_spec k 7).
    - change 255 with (Z.ones 8). rewrite Z.testbit_ones_nonneg by lia. apply Z.ltb_lt. lia.
    - change 255 with (Z.ones 8). rewrite Z.testbit_ones_nonneg by lia. apply Z.ltb_lt. lia. }
  generalize (i8259_init_ok s). generalize (i8259_init s). intros s0 H0 s' Hr. induction Hr as [|s0 s1 s2 Hop _ IH]; [done |].
  apply IH. destruct Hop; auto using pic_ok_enable, pic_ok_disable, pic_ok_eoi, pic_ok_outb.
Qed.

Lemma lnot_bit m n k :
  0 <= n < 8 -> 0 <= k < 8 ->
  Z.testbit (u8 (Z.land m (Z.lnot (Z.shiftl 1 n)))) k = Z.testbit m k && negb (k =? n).
Proof.
  intros Hn Hk. rewrite u8_testbit, Z.land_spec, Z.lnot_spec, testbit_bit by lia. done.
Qed.

(** [enable_irq] unmasks exactly the IRQ it is given, on either
    controller. *)
Theorem enable_irq_masks s n k :
  0 <= n < 16 -> 0 <= k < 16 ->
  masked (enable_irq s n) k = if k =? n then false else masked s k.
Proof.
  intros Hn Hk. unfold masked, enable_irq.
  destruct (Z.leb_spec n 7); simpl; destruct (Z.leb_spec k 7).
  - rewrite Z.mod_small, lnot_bit by lia. zcases; by rewrite ?andb_false_r, ?andb_true_r.
  - by zcases.
  - by zcases.
  - assert (n mod 8 = n - 8) as -> by (symmetry; apply (Z.mod_unique_pos _ _ 1); lia).
    rewrite lnot_bit by lia. zcases; by rewrite ?andb_false_r, ?andb_true_r.
Qed.

(** [disable_irq] masks exactly the IRQ it is given when that is a line of
    the master; for a line of the slave it does not: the line keeps its state and
    every other line of the slave becomes unmasked. *)
Theorem disable_irq_masks s n k :
  0 <= n < 16 -> 0 <= k < 16 ->
  masked (disable_irq s n) k =
  if n <=? 7 then (if k =? n then true else masked s k)
  else if k <=? 7 then masked s k else if k =? n then masked s k else false.
Proof.
  intros Hn Hk. unfold masked, disable_irq.
  destruct (Z.leb_spec n 7); simpl; destruct (Z.leb_spec k 7).
  - rewrite Z.mod_small, u8_testbit, Z.lor_spec, testbit_bit by lia.
    zcases; by rewrite ?orb_false_r, ?orb_true_r.
  - by zcases.
  - done.
  - assert (n mod 8 = n - 8) as -> by (symmetry; apply (Z.mod_unique_pos _ _ 1); lia).
    rewrite u8_testbit, Z.land_spec, testbit_bit by lia.
    zcases; by rewrite ?andb_false_r, ?andb_true_r.
Qed.

(** [send_eoi] ends the interrupt where it is in service: for a line of
    the master that level on the master; for a line of the slave the level on the
    slave and then the cascade line 2 on the master. Nothing else changes. *)
Theorem send_eoi_levels s n :
  0 <= n < 16 ->
  eois (chip_after MASTER_8259_PORT (log (send_eoi s n))) =
    (if n <? 8 then n else 2) :: eois (chip_after MASTER_8259_PORT (log s)) /\
  eois (chip_after SLAVE_8259_PORT (log (send_eoi s n))) =
    (if n <? 8 then [] else [n - 8]) ++ eois (chip_after SLAVE_8259_PORT (log s)) /\
  (forall k, masked (send_eoi s n) k = masked s k).
Proof.
  intros Hn. unfold send_eoi, send_eoi_master, outb. destruct (Z.ltb_spec n 8); simpl log.
  - rewrite chip_eoi, chip_other by (done || lia). done.
  - rewrite (chip_eoi MASTER_8259_PORT _ 2), !chip_other by (done || lia).
    rewrite u32_id, chip_eoi by lia. done.
Qed.

(** ** Witnesses: the sequence [entry] performs *)

Lemma pic_masks_agree_witness :
  pic_ok (enable_irq (enable_irq (enable_irq (i8259_init (kboot ∅)) 1) 2) 8).
Proof.
  apply (proj2 (pic_masks_agree (kboot ∅))).
  do 3 (eapply rtc_l; [constructor |]). apply rtc_refl.
Defined.

Lemma enable_irq_masks_witness : masked (enable_irq (i8259_init (kboot ∅)) 8) 8 = false.
Proof. rewrite (enable_irq_masks (i8259_init (kboot ∅)) 8 8) by lia. reflexivity. Defined.

Lemma disable_irq_masks_witness :
  masked (disable_irq (i8259_init (kboot ∅)) 8) 9 = false.
Proof. rewrite (disable_irq_masks (i8259_init (kboot ∅)) 8 9) by lia. reflexivity. Defined.

Lemma send_eoi_levels_witness :
  eois (chip_after MASTER_8259_PORT (log (send_eoi (i8259_init (kboot ∅)) 8))) = [2].
Proof. rewrite (proj1 (send_eoi_levels (i8259_init (kboot ∅)) 8 ltac:(lia))). reflexivity. Defined.
