(* ===== verification/Console.v ===== *)
(** * The console

    [student-distrib/lib.c], lines 14 to 326 and [test_interrupts]: the cursor,
    the screen buffer of each terminal, video memory, [putc], [puts],
    [backspacing] and [printf]. Video memory is reached through the page tables,
    so a terminal in the background writes the page its entry maps. [screen] is
    the abstract console: a cursor and a grid of characters; the theorems say
    that the code implements it, in the screen buffer and in video memory. *)

From S2P Require Import Prelude Strings Filesys Paging Mem State Pic.

Local Open Scope Z_scope.

Definition VIDEO : Z := 0xB8000.
Definition NUM_COLS : Z := 80.
Definition NUM_ROWS : Z := 25.
Definition ATTRIB : Z := 0x7.
Definition CRTC_REG : Z := 0x03D4.

(** An argument of [printf] after the format. *)
Inductive parg : Type :=
| PInt (v : Z)       (* a 32-bit word *)
| PStr (r : reader). (* an [int8_t] pointer *)

Section Code.
Context `{Layout}.

Definition getXY (s : kstate) : Z * Z := (screen_x (con s), screen_y (con s)).

Definition change_coord (s : kstate) (x y : Z) : kstate :=
  let s := set_xy s x y in
  let offset := u16 (NUM_COLS * screen_y (con s) + screen_x (con s)) in
  let low := u8 (Z.land offset 0xFF) in
  let high := u8 (Z.land (Z.shiftr offset 8) 0xFF) in
  let s := outb s 0x0E CRTC_REG in
  let s := outb s high (CRTC_REG + 1) in
  let s := outb s 0x0F CRTC_REG in
  outb s low (CRTC_REG + 1).

Definition change_coord_silent (s : kstate) (x y : Z) : kstate := set_xy s x y.

(** [scr_buf[get_bg_term()][i]]. *)
Definition scr_get (s : kstate) (i : Z) : res Z := aget2 (scr_buf (con s)) (bg_term (sch s)) i.
Definition scr_set (s : kstate) (i c : Z) : res kstate :=
  b ← aset2 (scr_buf (con s)) (bg_term (sch s)) i (u8 c); Ok (set_scr_buf s b).

Definition shift_down (s : kstate) : res kstate :=
  s ← for_range 0 (24 * NUM_COLS) (fun i s =>
        c ← scr_get s (i + NUM_COLS);
        s ← kst s (VIDEO + Z.shiftl i 1) c;
        s ← kst s (VIDEO + Z.shiftl i 1 + 1) ATTRIB;
        c ← scr_get s (i + NUM_COLS);
        scr_set s i c) s;
  s ← for_range (24 * NUM_COLS) (NUM_ROWS * NUM_COLS) (fun i s =>
        s ← kst s (VIDEO + Z.shiftl i 1) 32;
        s ← kst s (VIDEO + Z.shiftl i 1 + 1) ATTRIB;
        scr_set s i 32) s;
  Ok (change_coord s 0 24).

Definition clear (s : kstate) : res kstate :=
  s ← for_range 0 (NUM_ROWS * NUM_COLS) (fun i s =>
        s ← kst s (VIDEO + Z.shiftl i 1) 32;
        s ← kst s (VIDEO + Z.shiftl i 1 + 1) ATTRIB;
        scr_set s i 32) s;
  Ok (change_coord s 0 0).

Definition putc (s : kstate) (c : Z) : res kstate :=
  s ← (if (c =? 10) || (c =? 13) then
         if screen_y (con s) =? NUM_ROWS - 1 then shift_down s
         else Ok (set_xy s 0 (screen_y (con s) + 1))
       else
         let i := NUM_COLS * screen_y (con s) + screen_x (con s) in
         s ← kst s (VIDEO + Z.shiftl i 1) c;
         s ← kst s (VIDEO + Z.shiftl i 1 + 1) ATTRIB;
         s ← scr_set s i c;
         let s := set_xy s (screen_x (con s) + 1) (screen_y (con s)) in
         if screen_x (con s) =? NUM_COLS then
           if screen_y (con s) =? NUM_ROWS - 1 then shift_down s
           else Ok (set_xy s 0 (screen_y (con s) + 1))
         else
           let x := Z.rem (screen_x (con s)) NUM_COLS in
           Ok (set_xy s x (Z.rem (screen_y (con s) + Z.quot x NUM_COLS) NUM_ROWS)));
  Ok (change_coord s (screen_x (con s)) (screen_y (con s))).

(** The loop of [puts]; characters are passed to [putc] as [uint8_t]. *)
Fixpoint puts_loop (fuel : nat) (s : kstate) (r : reader) (index : Z) : res (Z * kstate) :=
  match fuel with
  | O => NoFuel
  | S fuel =>
      c ← r index;
      if c =? 0 then Ok (index, s)
      else s ← putc s (u8 c); puts_loop fuel s r (index + 1)
  end.

Definition puts (fuel : nat) (s : kstate) (r : reader) : res (Z * kstate) := puts_loop fuel s r 0.

(** [*buff_index()] as the code uses it, an [int]. *)
Definition backspacing (s : kstate) (physical : Z) : res kstate :=
  k ← aget (buf_index (kb s)) (active_term (sch s));
  if (physical =? 0) || (negb (physical =? 0) && negb (s32 k =? 0)) then
    s ← (if negb (screen_x (con s) =? 0) then
           let s := set_xy s (screen_x (con s) - 1) (screen_y (con s)) in
           s ← putc s 32;
           Ok (set_xy s (screen_x (con s) - 1) (screen_y (con s)))
         else if negb (screen_y (con s) =? 0) then
           let s := set_xy s 79 (screen_y (con s) - 1) in
           s ← putc s 32;
           Ok (set_xy s 79 (screen_y (con s) - 1))
         else Ok s);
    k ← aget (buf_index (kb s)) (active_term (sch s));
    let k := s32 (s32 k - 1) in
    let k := if k <? 0 then 0 else k in
    ix ← aset (buf_index (kb s)) (active_term (sch s)) k;
    let s := set_buf_index s ix in
    b ← aset2 (buf (kb s)) (active_term (sch s)) k 32;
    let s := set_buf s b in
    Ok (change_coord s (screen_x (con s)) (screen_y (con s)))
  else Ok s.

(** *** [printf] *)

(** [conv_buf] after the conversion, as a reader from index [k]. *)
Definition conv (buf : list Z) (k : Z) : reader := roff (aget buf) k.

(** One conversion specifier: the switch at [format_char_switch]. [c] is the
    character at [*buf], [alternate] the flag, [va] the words from [esp].
    The result is the new state and the arguments left. *)
Definition printf_conv (fuel : nat) (s : kstate) (c : Z) (alternate : bool) (va : list parg)
  : res (kstate * list parg) :=
  if c =? 37 then (* '%' *) s ← putc s 37; Ok (s, va)
  else if c =? 120 then (* 'x' *)
    match va with
    | PInt v :: va =>
        if alternate then
          digits ← itoa (u32 v) (replicate 56 0) 16;
          i ← strlen fuel (aget digits);
          conv_buf ← for_range i 8 (fun i b => aset b i 48) (replicate 8 0 ++ digits);
          '(_, s) ← puts fuel s (conv conv_buf i);
          Ok (s, va)
        else
          conv_buf ← itoa (u32 v) (replicate 64 0) 16;
          '(_, s) ← puts fuel s (conv conv_buf 0);
          Ok (s, va)
    | _ => Undef
    end
  else if c =? 117 then (* 'u' *)
    match va with
    | PInt v :: va =>
        conv_buf ← itoa (u32 v) (replicate 36 0) 10;
        '(_, s) ← puts fuel s (conv conv_buf 0);
        Ok (s, va)
    | _ => Undef
    end
  else if c =? 100 then (* 'd' *)
    match va with
    | PInt v :: va =>
        let value := s32 v in
        if value =? - 2 ^ 31 then Undef else (* [-value] overflows *)
        conv_buf ← (if value <? 0 then digits ← itoa (u32 (- value)) (replicate 35 0) 10; Ok (45 :: digits)
                    else itoa (u32 value) (replicate 36 0) 10);
        '(_, s) ← puts fuel s (conv conv_buf 0);
        Ok (s, va)
    | _ => Undef
    end
  else if c =? 99 then (* 'c' *)
    match va with PInt v :: va => s ← putc s (u8 v); Ok (s, va) | _ => Undef end
  else if c =? 115 then (* 's' *)
    match va with PStr r :: va => '(_, s) ← puts fuel s r; Ok (s, va) | _ => Undef end
  else Ok (s, va).

(** The loop: [mode] is [None] outside a conversion and the flag [alternate]
    at [format_char_switch]. *)
Fixpoint printf_loop (fuel n : nat) (s : kstate) (format : reader) (i : Z)
  (mode : option bool) (va : list parg) : res (Z * kstate) :=
  match n with
  | O => NoFuel
  | S n =>
      c ← format i;
      match mode with
      | None =>
          if c =? 0 then Ok (i, s)
          else if c =? 37 then printf_loop fuel n s format (i + 1) (Some false) va
          else s ← putc s (u8 c); printf_loop fuel n s format (i + 1) None va
      | Some alternate =>
          if c =? 35 then printf_loop fuel n s format (i + 1) (Some true) va
          else
            '(s, va) ← printf_conv fuel s c alternate va;
            printf_loop fuel n s format (i + 1) None va
      end
  end.

Definition printf (fuel : nat) (s : kstate) (format : reader) (va : list parg) : res (Z * kstate) :=
  printf_loop fuel fuel s format 0 None va.

Definition test_interrupts (s : kstate) : res kstate :=
  for_range 0 (NUM_ROWS * NUM_COLS) (fun i s =>
    c ← kld s (VIDEO + Z.shiftl i 1); kst s (VIDEO + Z.shiftl i 1) (u8 (c + 1))) s.
End Code.

(** ** The abstract console *)

Record screen := mkScreen { cx : Z; cy : Z; cells : list Z }.

Definition newline (sc : screen) : screen :=
  if cy sc =? 24 then mkScreen 0 24 (drop 80 (cells sc) ++ replicate 80 32)
  else mkScreen 0 (cy sc + 1) (cells sc).

Definition type_char (sc : screen) (c : Z) : screen :=
  if (c =? 10) || (c =? 13) then newline sc
  else
    let sc := mkScreen (cx sc + 1) (cy sc) (<[Z.to_nat (80 * cy sc + cx sc) := c]> (cells sc)) in
    if cx sc =? 80 then newline sc else sc.

Definition type_string (sc : screen) (cs : list Z) : screen := fold_left type_char cs sc.

Definition blank : screen := mkScreen 0 0 (replicate 2000 32).

(** Erasing the character before the cursor. *)
Definition erase (sc : screen) : screen :=
  if negb (cx sc =? 0) then
    mkScreen (cx sc - 1) (cy sc) (<[Z.to_nat (80 * cy sc + (cx sc - 1)) := 32]> (cells sc))
  else if negb (cy sc =? 0) then
    mkScreen 79 (cy sc - 1) (<[Z.to_nat (80 * (cy sc - 1) + 79) := 32]> (cells sc))
  else sc.

(** What a format prints with its arguments: the characters of the format
    itself, numerals in the radix of the conversion (with a minus sign, or padded
    with zeros to eight digits), single characters and strings. *)
Inductive renders : list Z -> list parg -> list Z -> Prop :=
| r_nil va : renders [] va []
| r_lit c fmt va out :
    c <> 37 -> renders fmt va out -> renders (c :: fmt) va (c :: out)
| r_percent fmt va out :
    renders fmt va out -> renders (37 :: 37 :: fmt) va (37 :: out)
| r_x v txt fmt va out :
    numeral 16 (u32 v) txt -> renders fmt va out ->
    renders (37 :: 120 :: fmt) (PInt v :: va) (txt ++ out)
| r_alt_x v txt fmt va out :
    numeral 16 (u32 v) txt -> renders fmt va out ->
    renders (37 :: 35 :: 120 :: fmt) (PInt v :: va) (replicate (8 - length txt) 48 ++ txt ++ out)
| r_u v txt fmt va out :
    numeral 10 (u32 v) txt -> renders fmt va out ->
    renders (37 :: 117 :: fmt) (PInt v :: va) (txt ++ out)
| r_d v txt fmt va out :
    s32 v <> - 2 ^ 31 -> numeral 10 (Z.abs (s32 v)) txt -> renders fmt va out ->
    renders (37 :: 100 :: fmt) (PInt v :: va) ((if s32 v <? 0 then [45] else []) ++ txt ++ out)
| r_c v fmt va out :
    renders fmt va out -> renders (37 :: 99 :: fmt) (PInt v :: va) (u8 v :: out)
| r_s r str fmt va out :
    cstr r str -> renders fmt va out ->
    renders (37 :: 115 :: fmt) (PStr r :: va) (str ++ out).

(** ** Correspondence *)

Section Spec.
Context `{Layout}.

(** Cell [i] of the text page at physical address [p]: the character and its
    attribute. *)
Definition cell (m : mem) (p i c : Z) : Prop :=
  m !! (p + 2 * i) = Some c /\ m !! (p + 2 * i + 1) = Some 7.

(** Video memory is the page at [p], and the first [n] cells of it and all of
    the screen buffer of the running terminal hold [cs]. *)
Record shows (p n : Z) (s : kstate) (cs : list Z) : Prop := {
  sh_map : maps (ktr s) (ph s) VIDEO p 4000;
  sh_buf : aget (scr_buf (con s)) (bg_term (sch s)) = Ok cs;
  sh_len : zlen cs = 2000;
  sh_byte : Forall byte_ok cs;
  sh_cells : forall i c, 0 <= i < n -> aget cs i = Ok c -> cell (ph s) p i c
}.

Record displays (p : Z) (s : kstate) (sc : screen) : Prop := {
  d_shows : shows p 2000 s (cells sc);
  d_x : screen_x (con s) = cx sc;
  d_y : screen_y (con s) = cy sc;
  d_xr : 0 <= cx sc < 80;
  d_yr : 0 <= cy sc < 25
}.

(** What console output leaves alone: everything but the cursor, the screen
    buffer of the running terminal, the page at [p] and the port log. *)
Definition con_frame (p : Z) (s s' : kstate) : Prop :=
  s' = set_log (set_con (set_ph s (ph s')) (con s')) (log s') /\
  (forall k, k <> bg_term (sch s) -> aget (scr_buf (con s')) k = aget (scr_buf (con s)) k) /\
  (forall q, ~ (p <= q < p + 4000) -> ph s' !! q = ph s !! q).

Lemma con_frame_refl p s : con_frame p s s.
Proof. split_and!; [by destruct s | done..]. Qed.

Lemma con_frame_trans p s1 s2 s3 : con_frame p s1 s2 -> con_frame p s2 s3 -> con_frame p s1 s3.
Proof.
  intros (E1 & B1 & M1) (E2 & B2 & M2). split_and!.
  - rewrite E2, E1. done.
  - intros k Hk. rewrite B2, B1; [done | done |]. by rewrite E1.
  - intros q Hq. by rewrite M2, M1.
Qed.

Lemma con_frame_kb p s s' : con_frame p s s' -> kb s' = kb s /\ sch s' = sch s.
Proof. by intros [-> _]. Qed.

(** Moving the cursor and talking to the CRTC. *)
Lemma con_frame_coord p s x y : con_frame p s (change_coord s x y).
Proof. by split_and!. Qed.

Lemma con_frame_xy p s x y : con_frame p s (set_xy s x y).
Proof. split_and!; [by destruct s | done..]. Qed.

Lemma shows_frame_xy p n s cs x y : shows p n s cs -> shows p n (set_xy s x y) cs.
Proof. by intros [? ? ? ? ?]; constructor. Qed.

Lemma shows_coord p n s cs x y : shows p n s cs -> shows p n (change_coord s x y) cs.
Proof. by intros [? ? ? ? ?]; constructor. Qed.

(** *** One cell *)

Lemma kst_video p s j v :
  maps (ktr s) (ph s) VIDEO p 4000 -> 0 <= j < 4000 ->
  kst s (VIDEO + j) v = Ok (set_ph s (<[p + j := u8 v]> (ph s))).
Proof.
  intros Hm Hj. unfold kst, st. destruct (Hm j Hj) as (-> & b & -> & _). done.
Qed.

Definition put_cell (p : Z) (s : kstate) (i c : Z) (cs : list Z) : kstate :=
  set_scr_buf (set_ph s (<[p + 2 * i + 1 := 7]> (<[p + 2 * i := u8 c]> (ph s))))
    (<[Z.to_nat (bg_term (sch s)) := <[Z.to_nat i := u8 c]> cs]> (scr_buf (con s))).

Lemma maps_set_ph p s (q v : Z) :
  maps (ktr s) (ph s) VIDEO p 4000 -> byte_ok v ->
  maps (ktr (set_ph s (<[q := v]> (ph s)))) (<[q := v]> (ph s)) VIDEO p 4000.
Proof. intros Hm Hv. by apply (maps_covers _ (ph s)); [apply covers_insert |]. Qed.

(** The three writes of a character, from the definition of the code. *)
Lemma put_cell_code p n s i c cs :
  shows p n s cs -> 0 <= i < 2000 ->
  (s1 ← kst s (VIDEO + Z.shiftl i 1) c;
   s2 ← kst s1 (VIDEO + Z.shiftl i 1 + 1) ATTRIB;
   scr_set s2 i c) = Ok (put_cell p s i c cs).
Proof.
  intros Hs Hi. destruct Hs as [Hmap Hbuf Hlen _ _].
  rewrite Z.shiftl_mul_pow2, Z.mul_comm by lia. change (2 ^ 1) with 2.
  rewrite (kst_video p) by (done || lia). rstep.
  rewrite <- Z.add_assoc, (kst_video p); [|apply maps_set_ph; auto with words | lia]. rstep.
  unfold scr_set, aset2. simpl. rewrite Hbuf. rstep. rewrite aset_in by lia. rstep.
  rewrite aset_in by by apply aget_Ok_range in Hbuf. rstep.
  unfold put_cell. by rewrite Z.add_assoc.
Qed.

Lemma put_cell_spec p n s i c cs :
  shows p n s cs -> 0 <= i < 2000 -> n <= 2000 ->
  let s' := put_cell p s i c cs in
  shows p n s' (<[Z.to_nat i := u8 c]> cs) /\ cell (ph s') p i (u8 c) /\
  con_frame p s s' /\ getXY s' = getXY s.
Proof.
  intros [Hmap Hbuf Hlen Hbyte Hcells] Hi Hn s'.
  assert (Hcell : cell (ph s') p i (u8 c)).
  { split; simpl; [rewrite lookup_insert_ne by lia |]; apply lookup_insert_eq. }
  split_and!; [constructor | exact Hcell | split_and! | done].
  - simpl. change (ktr s') with (ktr s).
    apply (maps_covers _ (ph s)); [|done].
    eapply covers_trans; [apply covers_insert, byte_u8 | by apply covers_insert].
  - simpl. apply aget_insert_eq. by apply aget_Ok_range in Hbuf.
  - by rewrite zlen_insert.
  - apply Forall_insert; [done | apply byte_u8].
  - intros k d Hk Hd. destruct (decide (k = i)) as [->|Hne].
    + rewrite aget_insert_eq in Hd by lia. by injection Hd as <-.
    + rewrite aget_insert_ne in Hd by lia.
      destruct (Hcells k d Hk Hd). split; simpl; by rewrite !lookup_insert_ne by lia.
  - done.
  - intros k Hk. simpl. apply aget_Ok_range in Hbuf. apply aget_insert_ne; [congruence | lia].
  - intros q Hq. simpl. by rewrite !lookup_insert_ne by lia.
Qed.

Lemma scr_get_shows p n s cs i : shows p n s cs -> scr_get s i = aget cs i.
Proof. intros [_ E _ _ _]. unfold scr_get, aget2. by rewrite E. Qed.

(** Extending the range of cells known to be shown. *)
Lemma shows_extend p n s cs c :
  shows p n s cs -> aget cs n = Ok c -> cell (ph s) p n c -> shows p (n + 1) s cs.
Proof.
  intros [? ? ? ? Hcells] Hc Hcell. constructor; try done.
  intros i d Hi Hd. destruct (decide (i = n)) as [->|]; [congruence |]. apply Hcells; [lia | done].
Qed.

Lemma shows_any p n s cs : shows p n s cs -> shows p 0 s cs.
Proof. intros [? ? ? ? _]. constructor; try done. lia. Qed.

(** *** The loops *)

(** What [i] steps of blanking from cell [lo] leave. *)
Definition blanked (lo : Z) (cs : list Z) (i : Z) : list Z :=
  take (Z.to_nat lo) cs ++ replicate (Z.to_nat (i - lo)) 32 ++ drop (Z.to_nat i) cs.

Lemma blanked_step lo cs i :
  0 <= lo <= i -> i < zlen cs -> <[Z.to_nat i := 32]> (blanked lo cs i) = blanked lo cs (i + 1).
Proof.
  unfold zlen, blanked. intros Hlo Hi.
  replace (Z.to_nat (i + 1 - lo)) with (S (Z.to_nat (i - lo))) by lia.
  replace (Z.to_nat (i + 1)) with (S (Z.to_nat i)) by lia. rewrite replicate_S_end.
  destruct (lookup_lt_is_Some_2 cs (Z.to_nat i)) as [x Hx]; [lia |].
  rewrite (drop_S _ _ _ Hx), insert_app_r_alt by (rewrite length_take; lia).
  rewrite insert_app_r_alt by (rewrite length_take, length_replicate; lia).
  rewrite length_take, length_replicate.
  replace (Z.to_nat i - _ - _)%nat with 0%nat by lia. simpl. by rewrite <- app_assoc.
Qed.

Lemma blanked_start lo cs : 0 <= lo -> blanked lo cs lo = cs.
Proof. intros. unfold blanked. rewrite Z.sub_diag. apply take_drop. Qed.

Lemma blank_loop p n s cs lo :
  shows p n s cs -> 0 <= lo <= 2000 -> (n = lo \/ n = 2000) ->
  exists s', for_range lo 2000 (fun i s =>
      s ← kst s (VIDEO + Z.shiftl i 1) 32;
      s ← kst s (VIDEO + Z.shiftl i 1 + 1) ATTRIB;
      scr_set s i 32) s = Ok s' /\
    shows p 2000 s' (blanked lo cs 2000) /\ con_frame p s s' /\ getXY s' = getXY s.
Proof.
  intros Hs Hlo Hn.
  destruct (for_range_inv (fun i t =>
    shows p (Z.max n i) t (blanked lo cs i) /\ con_frame p s t /\ getXY t = getXY s)
    (fun i s => s ← kst s (VIDEO + Z.shiftl i 1) 32; s ← kst s (VIDEO + Z.shiftl i 1 + 1) ATTRIB; scr_set s i 32)
    lo 2000 s) as (s' & E & Hs' & Hf & Hxy); [lia | | |].
  - rewrite blanked_start, Z.max_l by lia. split_and!; [done | apply con_frame_refl | done].
  - intros i t Hi (Ht & Hf & Hxy). pose proof (sh_len _ _ _ _ Hs) as Hlen.
    rewrite (put_cell_code p _ t i 32 _ Ht) by lia. eexists. split; [done |].
    destruct (put_cell_spec p _ t i 32 _ Ht ltac:(lia) ltac:(lia)) as (H1 & H2 & H3 & H4).
    change (u8 32) with 32 in *. rewrite blanked_step in H1 by lia. split_and!.
    + destruct (Z.max_spec n i) as [[? E]|[? E]]; rewrite E in *.
      * rewrite Z.max_r by lia. eapply shows_extend; [done | | done].
        rewrite <- blanked_step by lia. apply aget_insert_eq. rewrite (sh_len _ _ _ _ Ht). lia.
      * destruct (decide (n = i)) as [->|]; [|by rewrite Z.max_l by lia].
        rewrite Z.max_r by lia. eapply shows_extend; [done | | done].
        rewrite <- blanked_step by lia. apply aget_insert_eq. rewrite (sh_len _ _ _ _ Ht). lia.
    + by eapply con_frame_trans.
    + congruence.
  - exists s'. rewrite Z.max_r in Hs' by lia. done.
Qed.

Definition shifted (cs : list Z) (i : Z) : list Z :=
  take (Z.to_nat i) (drop 80 cs) ++ drop (Z.to_nat i) cs.

Lemma shifted_step cs i c :
  zlen cs = 2000 -> 0 <= i < 1920 -> aget cs (i + 80) = Ok c ->
  aget (shifted cs i) (i + 80) = Ok c /\ <[Z.to_nat i := c]> (shifted cs i) = shifted cs (i + 1).
Proof.
  unfold zlen, shifted. intros Hlen Hi Hc. apply aget_lookup in Hc as [_ Hc].
  assert (Hl : length (take (Z.to_nat i) (drop 80 cs)) = Z.to_nat i)
    by (rewrite length_take, length_drop; lia). split.
  - apply aget_lookup. split; [lia |]. rewrite lookup_app_r by lia. rewrite Hl, lookup_drop.
    replace (Z.to_nat i + (Z.to_nat (i + 80) - Z.to_nat i))%nat with (Z.to_nat (i + 80)) by lia. done.
  - rewrite insert_app_r_alt by lia. rewrite Hl, Nat.sub_diag.
    destruct (lookup_lt_is_Some_2 cs (Z.to_nat i)) as [x Hx]; [lia |].
    rewrite (drop_S _ _ _ Hx). simpl. replace (Z.to_nat (i + 1)) with (S (Z.to_nat i)) by lia.
    rewrite (take_S_r _ _ c). { by rewrite <- app_assoc. }
    rewrite lookup_drop. by replace (80 + Z.to_nat i)%nat with (Z.to_nat (i + 80)) by lia.
Qed.

(** Scrolling shows what the buffer of the running terminal holds, whatever was on
    the screen before. *)
Lemma shift_down_spec p s cs :
  shows p 0 s cs ->
  exists s', shift_down s = Ok s' /\ shows p 2000 s' (drop 80 cs ++ replicate 80 32) /\
    con_frame p s s' /\ getXY s' = (0, 24).
Proof.
  intros Hs. pose proof (sh_len _ _ _ _ Hs) as Hlen. unfold shift_down.
  change (24 * NUM_COLS) with 1920. change (NUM_ROWS * NUM_COLS) with 2000.
  destruct (for_range_inv (fun i t => shows p i t (shifted cs i) /\ con_frame p s t)
    (fun i s => c ← scr_get s (i + NUM_COLS);
        s ← kst s (VIDEO + Z.shiftl i 1) c; s ← kst s (VIDEO + Z.shiftl i 1 + 1) ATTRIB;
        c ← scr_get s (i + NUM_COLS); scr_set s i c) 0 1920 s) as (s1 & E1 & Hs1 & Hf1); [lia | | |].
  - split; [done | apply con_frame_refl].
  - intros i t Hi [Ht Hf]. change NUM_COLS with 80.
    destruct (aget_in_range cs (i + 80)) as [c Hc]; [lia |].
    destruct (shifted_step cs i c Hlen Hi Hc) as [Hc' Hstep].
    assert (Hcb : u8 c = c).
    { apply u8_id. apply aget_lookup in Hc as [_ Hc]. apply (Forall_lookup_1 _ _ _ _ (sh_byte _ _ _ _ Hs) Hc). }
    rewrite (scr_get_shows _ _ _ _ _ Ht), Hc'. rstep.
    pose proof (put_cell_code p _ t i c _ Ht ltac:(lia)) as E.
    apply res_bind_ok_inv in E as (t1 & Et1 & E). rewrite Et1. rstep.
    apply res_bind_ok_inv in E as (t2 & Et2 & E). rewrite Et2. rstep.
    assert (scr_get t2 (i + 80) = Ok c) as ->.
    { rewrite <- Hc', <- (scr_get_shows _ _ _ _ _ Ht).
      unfold kst in Et1, Et2. apply res_bind_ok_inv in Et1 as (? & _ & [= <-]).
      by apply res_bind_ok_inv in Et2 as (? & _ & [= <-]). }
    rstep. rewrite E. eexists. split; [done |].
    destruct (put_cell_spec p _ t i c _ Ht ltac:(lia) ltac:(lia)) as (H1 & H2 & H3 & _).
    rewrite Hcb in H1, H2. split; [|by eapply con_frame_trans]. rewrite <- Hstep.
    eapply shows_extend; [done | | done]. apply aget_insert_eq. rewrite (sh_len _ _ _ _ Ht). lia.
  - rewrite E1. rstep.
    destruct (blank_loop p 1920 s1 _ 1920 Hs1 ltac:(lia) ltac:(lia)) as (s2 & -> & Hs2 & Hf2 & _).
    rstep. eexists. split; [done |]. split_and!.
    + apply shows_coord. assert (blanked 1920 (shifted cs 1920) 2000 = drop 80 cs ++ replicate 80 32) as <-; [|done].
      unfold blanked, shifted. unfold zlen in Hlen.
      rewrite (take_ge (drop 80 cs)) by (rewrite length_drop; lia).
      rewrite take_app_length' by (rewrite length_drop; lia).
      rewrite (drop_ge (_ ++ _)) by (rewrite length_app, !length_drop; lia). by rewrite app_nil_r.
    + eapply con_frame_trans; [done |]. eapply con_frame_trans; [done |]. apply con_frame_coord.
    + done.
Qed.

(** *** The hardware cursor

    The CRT controller as documented: a write to port 0x3D4 selects a register,
    a write to 0x3D5 sets it; registers 14 and 15 hold the cursor offset. *)
Definition crtc_step (e : ioev) (c : Z * Z * Z) : Z * Z * Z :=
  let '(ix, hi, lo) := c in
  match e with
  | In _ _ => c
  | Out port data =>
      if port =? CRTC_REG then (data, hi, lo)
      else if port =? CRTC_REG + 1 then
        if ix =? 0x0E then (ix, data, lo) else if ix =? 0x0F then (ix, hi, data) else c
      else c
  end.

Definition hw_cursor (l : list ioev) : Z :=
  let '(_, hi, lo) := foldr crtc_step (0, 0, 0) l in 256 * hi + lo.

Lemma hw_cursor_coord s x y :
  0 <= x < 80 -> 0 <= y < 25 -> hw_cursor (log (change_coord s x y)) = 80 * y + x.
Proof.
  intros Hx Hy. unfold hw_cursor. simpl.
  destruct (foldr crtc_step (0, 0, 0) (log s)) as [[ix hi] lo]. simpl.
  change NUM_COLS with 80. rewrite u16_id by lia. set (o := 80 * y + x).
  change 255 with (Z.ones 8). rewrite !Z.land_ones, Z.shiftr_div_pow2 by lia.
  change (u8 14) with 14. change (u8 15) with 15.
  assert (H1 : forall a, (a mod 2 ^ 8) = u8 a) by done. rewrite !H1.
  rewrite !(u8_id (u8 _)) by apply u8_range.
  assert (Ho : 0 <= o < 2000) by (unfold o; lia). clear H1. clearbody o. change (2 ^ 8) with 256.
  pose proof (Z.div_mod o 256 ltac:(lia)). pose proof (Z.mod_pos_bound o 256 ltac:(lia)).
  rewrite (u8_id (o / 256)) by nia. unfold u8. change (2 ^ 8) with 256. lia.
Qed.

(** *** Console output implements the abstract console *)

Lemma coord_displays p s sc :
  shows p 2000 s (cells sc) -> 0 <= cx sc < 80 -> 0 <= cy sc < 25 ->
  displays p (change_coord s (cx sc) (cy sc)) sc /\
  hw_cursor (log (change_coord s (cx sc) (cy sc))) = 80 * cy sc + cx sc.
Proof.
  intros Hs Hx Hy. split; [constructor; try done; by apply shows_coord | by apply hw_cursor_coord].
Qed.

Lemma newline_spec p s sc :
  shows p 2000 s (cells sc) -> screen_y (con s) = cy sc -> 0 <= cy sc < 25 ->
  exists s', (if screen_y (con s) =? NUM_ROWS - 1 then shift_down s
              else Ok (set_xy s 0 (screen_y (con s) + 1))) = Ok s' /\
    shows p 2000 s' (cells (newline sc)) /\ con_frame p s s' /\
    getXY s' = (cx (newline sc), cy (newline sc)) /\ 0 <= cy (newline sc) < 25 /\ cx (newline sc) = 0.
Proof.
  intros Hs Hy Hr. unfold newline. rewrite Hy. change (NUM_ROWS - 1) with 24.
  destruct (Z.eqb_spec (cy sc) 24).
  - destruct (shift_down_spec p s _ (shows_any _ _ _ _ Hs)) as (s' & E & H1 & H2 & H3). exists s'. done.
  - eexists. split; [done |]. simpl. split_and!;
      [by apply shows_frame_xy | apply con_frame_xy | done | lia | lia | done].
Qed.

Lemma putc_spec p s sc c :
  displays p s sc -> byte_ok c ->
  exists s', putc s c = Ok s' /\ displays p s' (type_char sc c) /\ con_frame p s s' /\
    hw_cursor (log s') = 80 * cy (type_char sc c) + cx (type_char sc c).
Proof.
  intros [Hs Hx Hy Hxr Hyr] Hc. unfold putc, type_char.
  assert (Hend : forall s1 sc1, shows p 2000 s1 (cells sc1) -> con_frame p s s1 ->
    getXY s1 = (cx sc1, cy sc1) -> 0 <= cx sc1 < 80 -> 0 <= cy sc1 < 25 ->
    exists s', Ok (change_coord s1 (screen_x (con s1)) (screen_y (con s1))) = Ok s' /\
      displays p s' sc1 /\ con_frame p s s' /\ hw_cursor (log s') = 80 * cy sc1 + cx sc1).
  { intros s1 sc1 H1 H2 [= H3 H4] H5 H6. rewrite H3, H4. eexists. split; [done |].
    destruct (coord_displays p s1 sc1 H1 H5 H6) as [Ha Hb]. split_and!; [done | | done].
    eapply con_frame_trans; [done | apply con_frame_coord]. }
  destruct ((c =? 10) || (c =? 13)).
  - destruct (newline_spec p s sc Hs Hy Hyr) as (s1 & -> & H1 & H2 & H3 & H4 & H5). rstep.
    apply Hend; try done. lia.
  - cbv zeta. rewrite Hx, Hy. change NUM_COLS with 80. set (i := 80 * cy sc + cx sc).
    pose proof (put_cell_code p 2000 s i c _ Hs ltac:(lia)) as E.
    destruct (put_cell_spec p 2000 s i c _ Hs ltac:(lia) ltac:(lia)) as (H1 & _ & H3 & H4).
    rewrite u8_id in H1 by done. revert E H1 H3 H4. set (s1 := put_cell _ _ _ _ _). intros E H1 H3 H4.
    apply res_bind_ok_inv in E as (t1 & -> & E). rstep.
    apply res_bind_ok_inv in E as (t2 & -> & E). rstep. rewrite E. rstep.
    assert (Hx1 : screen_x (con s1) = screen_x (con s)) by done.
    assert (Hy1 : screen_y (con s1) = screen_y (con s)) by done.
    clearbody s1. simpl. rewrite Hx1, Hy1, Hx, Hy.
    set (sc1 := mkScreen (cx sc + 1) (cy sc) (<[Z.to_nat i := c]> (cells sc))).
    pose proof (con_frame_xy p s1 (cx sc + 1) (cy sc)) as Hfx.
    destruct (Z.eqb_spec (cx sc + 1) 80).
    + destruct (newline_spec p (set_xy s1 (cx sc + 1) (cy sc)) sc1) as (s2 & E2 & G1 & G2 & G3 & G4 & G5);
        [by apply shows_frame_xy | done | done |].
      simpl in E2. rewrite E2. rstep. apply Hend; try done; [|lia].
      eapply con_frame_trans; [done |]. by eapply con_frame_trans.
    + change NUM_ROWS with 25. rewrite Z.rem_small, Z.quot_small, Z.add_0_r, Z.rem_small by lia. rstep.
      apply Hend; try done; [by apply shows_frame_xy, shows_frame_xy | | simpl; lia..].
      eapply con_frame_trans; [done |]. eapply con_frame_trans; apply con_frame_xy.
Qed.

(** C7. [putc] implements typing a character on the abstract console, for every
    character and cursor position, with wrapping and scrolling: the screen
    buffer of the running terminal and the characters and attributes in video
    memory both hold the new grid, the cursor stays on the screen and the
    hardware cursor is at it; nothing else of the kernel's state changes. *)
Theorem putc_refines p s sc c :
  displays p s sc -> byte_ok c ->
  exists s', putc s c = Ok s' /\ displays p s' (type_char sc c) /\ con_frame p s s' /\
    hw_cursor (log s') = 80 * cy (type_char sc c) + cx (type_char sc c).
Proof. apply putc_spec. Qed.

Lemma putc_step p s sc c :
  displays p s sc -> byte_ok c ->
  exists s', putc s c = Ok s' /\ displays p s' (type_char sc c) /\ con_frame p s s'.
Proof. intros Hd Hc. destruct (putc_spec p s sc c Hd Hc) as (s' & ? & ? & ? & _). eauto. Qed.

Lemma clear_spec p s :
  (exists cs, shows p 0 s cs) ->
  exists s', clear s = Ok s' /\ displays p s' blank /\ con_frame p s s' /\ hw_cursor (log s') = 0.
Proof.
  intros (cs & Hs').
  unfold clear. change (NUM_ROWS * NUM_COLS) with 2000.
  destruct (blank_loop p 0 s cs 0 Hs' ltac:(lia) ltac:(lia)) as (s1 & -> & H1 & H2 & _). rstep.
  assert (E : blanked 0 cs 2000 = cells blank).
  { unfold blanked. pose proof (sh_len _ _ _ _ Hs') as Hl. unfold zlen in Hl.
    rewrite (drop_ge cs) by lia. apply app_nil_r. }
  rewrite E in H1. destruct (coord_displays p s1 blank H1) as [Ha Hb]; [simpl; lia.. |].
  eexists. split; [done |]. split_and!; [done | | done].
  eapply con_frame_trans; [done | apply con_frame_coord].
Qed.

(** [clear], wherever it starts from, leaves the abstract console blank with
    the cursor at the top left, on the screen and in hardware. *)
Theorem clear_refines p s :
  (exists cs, shows p 0 s cs) ->
  exists s', clear s = Ok s' /\ displays p s' blank /\ con_frame p s s' /\ hw_cursor (log s') = 0.
Proof. apply clear_spec. Qed.

(** *** Strings *)

Lemma puts_loop_refines p str r i fuel s sc :
  displays p s sc -> cstr (roff r i) str -> (length str < fuel)%nat ->
  exists s', puts_loop fuel s r i = Ok (i + zlen str, s') /\
    displays p s' (type_string sc str) /\ con_frame p s s'.
Proof.
  revert i fuel s sc. induction str as [|c str IH]; intros i fuel s sc Hd Hc Hf;
    (destruct fuel as [|fuel]; [simpl in Hf; lia |]); cbn [puts_loop].
  - rewrite (roff_nil_cstr _ _ Hc). rstep.
    exists s. change (zlen (@nil Z)) with 0. rewrite Z.add_0_r. split_and!; [done.. | apply con_frame_refl].
  - destruct (roff_succ_cstr _ _ _ _ Hc) as (Hr & Hnz & Hb & Hc').
    rewrite Hr. rstep. destruct (Z.eqb_spec c 0); [done |].
    unfold byte_ok in Hb. rewrite u8_id by lia.
    destruct (putc_step p s sc c Hd Hb) as (s1 & -> & Hd1 & Hf1). rstep.
    destruct (IH (i + 1) fuel s1 (type_char sc c) Hd1 Hc') as (s2 & -> & Hd2 & Hf2); [simpl in Hf; lia |].
    exists s2. rewrite zlen_cons. split_and!; [do 2 f_equal; lia | done | by eapply con_frame_trans].
Qed.

(** [puts] types the string on the abstract console and returns its
    length. *)
Theorem puts_refines p s sc r str fuel :
  displays p s sc -> cstr r str -> (length str < fuel)%nat ->
  exists s', puts fuel s r = Ok (zlen str, s') /\
    displays p s' (type_string sc str) /\ con_frame p s s'.
Proof. intros Hd Hc Hf. apply (puts_loop_refines p str r 0); [done | by apply cstr_roff0 | done]. Qed.

(** *** [backspacing] *)

Lemma kb_displays p s sc k : displays p s sc -> displays p (set_kb s k) sc.
Proof. intros [[? ? ? ? ?] ? ? ? ?]. by constructor; [constructor|..]. Qed.

Lemma xy_displays p s sc x y :
  displays p s sc -> 0 <= x < 80 -> 0 <= y < 25 ->
  displays p (set_xy s x y) (mkScreen x y (cells sc)).
Proof. intros [[? ? ? ? ?] ? ? ? ?] ? ?. by constructor; [constructor|..]. Qed.

Lemma erase_step p s sc :
  displays p s sc ->
  exists s', (if negb (screen_x (con s) =? 0) then
           s ← putc (set_xy s (screen_x (con s) - 1) (screen_y (con s))) 32;
           Ok (set_xy s (screen_x (con s) - 1) (screen_y (con s)))
         else if negb (screen_y (con s) =? 0) then
           s ← putc (set_xy s 79 (screen_y (con s) - 1)) 32;
           Ok (set_xy s 79 (screen_y (con s) - 1))
         else Ok s) = Ok s' /\ displays p s' (erase sc) /\ con_frame p s s'.
Proof.
  intros Hd. pose proof Hd as [Hs Hx Hy Hxr Hyr]. rewrite Hx, Hy. unfold erase. cbv zeta.
  destruct (Z.eqb_spec (cx sc) 0); simpl negb; cbv iota.
  - destruct (Z.eqb_spec (cy sc) 0); simpl negb; cbv iota.
    { exists s. split_and!; [done.. | apply con_frame_refl]. }
    pose proof (xy_displays p s sc 79 (cy sc - 1) Hd ltac:(lia) ltac:(lia)) as Hd1.
    destruct (putc_step p _ _ 32 Hd1 ltac:(by unfold byte_ok)) as (s1 & -> & Hd2 & Hf). rstep.
    unfold type_char, newline in Hd2. simpl in Hd2.
    destruct (Z.eqb_spec (cy sc - 1) 24); [lia |].
    pose proof Hd2 as [_ _ Hy2 _ _]. simpl in Hy2. rewrite Hy2.
    eexists. split; [done |]. replace (cy sc - 1 + 1 - 1) with (cy sc - 1) by lia. split.
    + by apply (xy_displays p s1 _ 79 (cy sc - 1) Hd2); lia.
    + eapply con_frame_trans; [apply con_frame_xy |]. eapply con_frame_trans; [done | apply con_frame_xy].
  - pose proof (xy_displays p s sc (cx sc - 1) (cy sc) Hd ltac:(lia) ltac:(lia)) as Hd1.
    destruct (putc_step p _ _ 32 Hd1 ltac:(by unfold byte_ok)) as (s1 & -> & Hd2 & Hf). rstep.
    unfold type_char, newline in Hd2. simpl in Hd2.
    destruct (Z.eqb_spec (cx sc - 1 + 1) 80); [lia |].
    pose proof Hd2 as [_ Hx2 Hy2 _ _]. simpl in Hx2, Hy2. rewrite Hx2, Hy2.
    eexists. split; [done |]. replace (cx sc - 1 + 1 - 1) with (cx sc - 1) by lia. split.
    + by apply (xy_displays p s1 _ (cx sc - 1) (cy sc) Hd2); lia.
    + eapply con_frame_trans; [apply con_frame_xy |]. eapply con_frame_trans; [done | apply con_frame_xy].
Qed.

(** The index after a backspace. *)
Definition back (k : Z) : Z := Z.max 0 (k - 1).

Lemma backspacing_spec p s sc physical k row :
  displays p s sc ->
  aget (buf_index (kb s)) (active_term (sch s)) = Ok k -> 0 <= k <= 1024 ->
  aget (buf (kb s)) (active_term (sch s)) = Ok row -> zlen row = 1024 ->
  exists s', backspacing s physical = Ok s' /\
    if (physical =? 0) || negb (k =? 0) then
      displays p s' (erase sc) /\
      kb s' = kb (set_buf (set_buf_index s
          (<[Z.to_nat (active_term (sch s)) := back k]> (buf_index (kb s))))
        (<[Z.to_nat (active_term (sch s)) := <[Z.to_nat (back k) := 32]> row]> (buf (kb s)))) /\
      con_frame p (set_kb s (kb s')) s'
    else s' = s.
Proof.
  intros Hd Hk Hkr Hrow Hlen. unfold backspacing. rewrite Hk. rstep. rewrite s32_id by lia.
  assert ((physical =? 0) || (negb (physical =? 0) && negb (k =? 0)) =
          (physical =? 0) || negb (k =? 0))%bool as -> by by destruct (physical =? 0).
  destruct ((physical =? 0) || negb (k =? 0)); [|by exists s].
  destruct (erase_step p s sc Hd) as (s1 & -> & Hd1 & Hf1). rstep.
  assert (Hkb : kb s1 = kb s) by by destruct Hf1 as [-> _].
  assert (Hsch : sch s1 = sch s) by by destruct Hf1 as [-> _].
  rewrite Hkb, Hsch, Hk. rstep. rewrite (s32_id k), (s32_id (k - 1)) by lia.
  assert ((if k - 1 <? 0 then 0 else k - 1) = back k) as -> by (unfold back; zcases).
  pose proof (aget_Ok_range _ _ _ Hk). rewrite aset_in by done. rstep.
  unfold aset2. simpl. rewrite Hkb, Hsch, Hrow. rstep.
  rewrite aset_in by (unfold back; lia). rstep.
  rewrite aset_in by (by apply aget_Ok_range in Hrow). rstep.
  match goal with |- context [change_coord ?t _ _] => set (s2 := t) end.
  eexists. split; [reflexivity |].
  assert (Hd2 : displays p s2 (erase sc)) by apply (kb_displays p s1 (erase sc) (kb s2) Hd1).
  pose proof Hd2 as [Hs2 Hx Hy Hxr Hyr]. change (con s1) with (con s2). rewrite Hx, Hy. split_and!.
  - by apply coord_displays.
  - simpl. by rewrite <- Hkb.
  - destruct Hf1 as (E & Hb & Hm). split_and!; [|done..].
    subst s2. clear -E. unfold set_log, set_con, set_ph in E. destruct s1, s; simpl in *.
    injection E. intros. by subst.
Qed.

(** [backspacing] from the keyboard does nothing when the line buffer of the
    active terminal is empty; otherwise, and always when the caller is the
    kernel, it erases the character before the cursor, stepping back over the
    end of a line but never past the top left corner, and drops the last
    character of the line buffer, never below index 0. *)
Theorem backspacing_refines p s sc physical k row :
  displays p s sc ->
  aget (buf_index (kb s)) (active_term (sch s)) = Ok k -> 0 <= k <= 1024 ->
  aget (buf (kb s)) (active_term (sch s)) = Ok row -> zlen row = 1024 ->
  exists s', backspacing s physical = Ok s' /\
    if (physical =? 0) || negb (k =? 0) then
      displays p s' (erase sc) /\
      kb s' = kb (set_buf (set_buf_index s
          (<[Z.to_nat (active_term (sch s)) := back k]> (buf_index (kb s))))
        (<[Z.to_nat (active_term (sch s)) := <[Z.to_nat (back k) := 32]> row]> (buf (kb s)))) /\
      con_frame p (set_kb s (kb s')) s'
    else s' = s.
Proof. apply backspacing_spec. Qed.

(** *** [printf] *)

Lemma type_string_app sc a b : type_string sc (a ++ b) = type_string (type_string sc a) b.
Proof. apply fold_left_app. Qed.

(** Reading a C string at an offset of an array. *)
Lemma cstr_conv pre txt rest :
  nonnul txt -> cstr (conv (pre ++ txt ++ 0 :: rest) (zlen pre)) txt.
Proof.
  intros Htxt. destruct (cstr_array txt rest Htxt) as [H1 H2]. unfold conv, roff. split.
  - intros n c Hc. destruct (H1 n c Hc) as [E ?]. split; [|done].
    rewrite aget_app_r by lia. by replace (zlen pre + Z.of_nat n - zlen pre) with (Z.of_nat n) by lia.
  - pose proof (zlen_nonneg txt). rewrite aget_app_r by lia.
    by replace (zlen pre + zlen txt - zlen pre) with (zlen txt) by lia.
Qed.

Lemma puts_conv p s sc pre txt rest k fuel :
  displays p s sc -> nonnul txt -> k = zlen pre -> (length txt < fuel)%nat ->
  exists s', puts fuel s (conv (pre ++ txt ++ 0 :: rest) k) = Ok (zlen txt, s') /\
    displays p s' (type_string sc txt) /\ con_frame p s s'.
Proof.
  intros Hd Ht -> Hf. apply (puts_loop_refines p txt _ 0); [done | by apply cstr_roff0, cstr_conv | done].
Qed.

(** [conv_buf] is large enough for every 32-bit value. *)
Lemma itoa_conv v n r :
  r = 10 \/ r = 16 -> n = 35 \/ n = 36 \/ n = 56 \/ n = 64 -> 0 <= v < 2 ^ 32 ->
  exists txt rest, itoa v (replicate (Z.to_nat n) 0) r = Ok (txt ++ 0 :: rest) /\
    numeral r v txt /\ nonnul txt /\ (length txt < 64)%nat.
Proof.
  intros Hr Hn Hv.
  assert (Hl : zlen (replicate (Z.to_nat n) 0) = n) by (unfold zlen; rewrite length_replicate; lia).
  destruct (itoa_numeral v (replicate (Z.to_nat n) 0) r) as (txt & E & H1 & H2 & H3); [lia | lia | lia | |].
  - rewrite Hl. assert (2 ^ 32 <= r ^ (n - 1)); [|lia].
    transitivity (10 ^ 34); [by apply Z.leb_le |]. transitivity (r ^ 34); [apply Z.pow_le_mono_l; lia |].
    apply Z.pow_le_mono_r; lia.
  - rewrite length_replicate in H3. exists txt, (drop (S (length txt)) (replicate (Z.to_nat n) 0)).
    split_and!; [done.. | lia].
Qed.

(** One conversion: the text it prints and the arguments it leaves. *)
Definition converts (fuel : nat) (c : Z) (alternate : bool) (va va' : list parg) (txt : list Z) : Prop :=
  forall p s sc, displays p s sc ->
    exists s', printf_conv fuel s c alternate va = Ok (s', va') /\
      displays p s' (type_string sc txt) /\ con_frame p s s'.

Lemma converts_number fuel c r n v va txt :
  (c = 120 /\ r = 16 /\ n = 64) \/ (c = 117 /\ r = 10 /\ n = 36) ->
  numeral r (u32 v) txt -> (64 <= fuel)%nat -> converts fuel c false (PInt v :: va) va txt.
Proof.
  intros Hc Htxt Hf p s sc Hd.
  destruct (itoa_conv (u32 v) n r) as (txt' & rest & E & H1 & H2 & H3); [lia | lia | apply u32_range |].
  assert (txt' = txt) as -> by (eapply numeral_unique; [|done..]; lia).
  destruct (puts_conv p s sc [] txt rest 0 fuel Hd H2 eq_refl ltac:(lia)) as (s' & Ep & Hd' & Hf').
  rewrite app_nil_l in Ep. exists s'. split; [|done].
  destruct Hc as [(-> & -> & ->) | (-> & -> & ->)]; unfold printf_conv; simpl;
    simpl in E; rewrite E; rstep; rewrite Ep; done.
Qed.

Lemma converts_signed fuel v va txt :
  s32 v <> - 2 ^ 31 -> numeral 10 (Z.abs (s32 v)) txt -> (65 <= fuel)%nat ->
  converts fuel 100 false (PInt v :: va) va ((if s32 v <? 0 then [45] else []) ++ txt).
Proof.
  intros Hmin Htxt Hf p s sc Hd. pose proof (s32_range v) as Hr.
  assert (Hu : u32 (Z.abs (s32 v)) = Z.abs (s32 v)) by (apply u32_id; lia).
  unfold printf_conv. cbn [Z.eqb Pos.eqb]. cbv iota zeta. rewrite (proj2 (Z.eqb_neq _ _) Hmin).
  destruct (Z.ltb_spec (s32 v) 0).
  - destruct (itoa_conv (Z.abs (s32 v)) 35 10) as (txt' & rest & E & H1 & H2 & H3); [lia | lia | lia |].
    assert (txt' = txt) as -> by (eapply numeral_unique; [|done..]; lia).
    destruct (puts_conv p s sc [] (45 :: txt) rest 0 fuel Hd) as (s' & Ep & Hd' & Hf');
      [by constructor | done | simpl; lia |].
    exists s'. split; [|done]. rewrite <- (Z.abs_neq (s32 v)), Hu by lia.
    change 35%nat with (Z.to_nat 35). rewrite E. rstep. simpl in Ep. by rewrite Ep.
  - destruct (itoa_conv (Z.abs (s32 v)) 36 10) as (txt' & rest & E & H1 & H2 & H3); [lia | lia | lia |].
    assert (txt' = txt) as -> by (eapply numeral_unique; [|done..]; lia).
    destruct (puts_conv p s sc [] txt rest 0 fuel Hd H2 eq_refl ltac:(lia)) as (s' & Ep & Hd' & Hf').
    exists s'. split; [|done]. replace (u32 (s32 v)) with (Z.abs (s32 v)) by (rewrite <- Hu; f_equal; lia).
    change 36%nat with (Z.to_nat 36). rewrite E. rstep. simpl in Ep. by rewrite Ep.
Qed.

(** The zero padding of [%#x]. *)
Lemma pad_loop txt rest k :
  0 <= k <= 8 ->
  for_range k 8 (fun i b => aset b i 48) (replicate 8 0 ++ txt ++ 0 :: rest) =
  Ok (replicate (Z.to_nat k) 0 ++ replicate (Z.to_nat (8 - k)) 48 ++ txt ++ 0 :: rest).
Proof.
  intros Hk. assert (k = 0 \/ k = 1 \/ k = 2 \/ k = 3 \/ k = 4 \/ k = 5 \/ k = 6 \/ k = 7 \/ k = 8)
    as [->|[->|[->|[->|[->|[->|[->|[->| ->]]]]]]]] by lia.
  all: unfold for_range; match goal with |- for_loop ?n _ _ _ = _ =>
         let m := eval vm_compute in n in change n with m end; cbn [for_loop].
  all: repeat (rewrite aset_in by (rewrite ?zlen_insert, zlen_app; change (zlen (replicate 8 0)) with 8;
                 pose proof (zlen_nonneg (txt ++ 0 :: rest)); lia); rstep).
  all: reflexivity.
Qed.

Lemma converts_alternate fuel v va txt :
  numeral 16 (u32 v) txt -> (65 <= fuel)%nat ->
  converts fuel 120 true (PInt v :: va) va (replicate (8 - length txt) 48 ++ txt).
Proof.
  intros Htxt Hf p s sc Hd.
  destruct (itoa_conv (u32 v) 56 16) as (txt' & rest & E & H1 & H2 & H3); [lia | lia | apply u32_range |].
  assert (txt' = txt) as -> by (eapply numeral_unique; [|done..]; lia).
  assert (Hlen : zlen txt <= 8).
  { apply (numeral_length 16 (u32 v)); [lia | done | lia |]. pose proof (u32_range v). lia. }
  unfold printf_conv. simpl Z.eqb. cbv iota. change 56%nat with (Z.to_nat 56). rewrite E. rstep.
  rewrite (strlen_spec _ txt) by first [by apply cstr_array | unfold zlen; lia]. rstep.
  rewrite pad_loop by (unfold zlen in *; lia). rstep.
  set (pre := replicate (Z.to_nat (zlen txt)) 0). set (zs := replicate (Z.to_nat (8 - zlen txt)) 48).
  assert (zs = replicate (8 - length txt) 48) as Hzs by (unfold zs, zlen; f_equal; lia).
  destruct (puts_conv p s sc pre (zs ++ txt) rest (zlen txt) fuel Hd) as (s' & Ep & Hd' & Hf').
  { apply Forall_app. split; [|done]. apply Forall_replicate. split; [lia | by unfold byte_ok]. }
  { unfold pre, zlen. rewrite length_replicate. lia. }
  { rewrite length_app. unfold zs. rewrite length_replicate. unfold zlen in *. lia. }
  rewrite <- app_assoc in Ep. rewrite Ep. rstep. exists s'. by rewrite <- Hzs.
Qed.

Lemma converts_char fuel c v va :
  (c = 99 -> converts fuel c false (PInt v :: va) va [u8 v]) /\
  (c = 37 -> converts fuel c false va va [37]).
Proof.
  split; intros -> p s sc Hd; unfold printf_conv; simpl Z.eqb; cbv iota.
  - destruct (putc_step p s sc (u8 v) Hd (byte_u8 v)) as (s' & -> & Hd' & Hf'). by exists s'.
  - destruct (putc_step p s sc 37 Hd) as (s' & -> & Hd' & Hf'); [by unfold byte_ok |]. by exists s'.
Qed.

Lemma converts_string fuel r str va :
  cstr r str -> (length str < fuel)%nat -> converts fuel 115 false (PStr r :: va) va str.
Proof.
  intros Hc Hf p s sc Hd. unfold printf_conv. simpl Z.eqb. cbv iota.
  destruct (puts_loop_refines p str r 0 fuel s sc Hd (cstr_roff0 _ _ Hc) Hf) as (s' & E & Hd' & Hf').
  unfold puts. rewrite E. by exists s'.
Qed.

(** A piece [pre] of the format that consumes [va] down to [va'] and prints
    [txt], and a whole rest of the format. *)
Definition chunk (fuel : nat) (pre : list Z) (va va' : list parg) (txt : list Z) : Prop :=
  forall p s sc format i fmt m, displays p s sc -> cstr (roff format i) (pre ++ fmt) ->
  exists s1, printf_loop fuel (length pre + m) s format i None va =
      printf_loop fuel m s1 format (i + zlen pre) None va' /\
    displays p s1 (type_string sc txt) /\ con_frame p s s1 /\ cstr (roff format (i + zlen pre)) fmt.

Definition prints (fuel : nat) (fmt : list Z) (va : list parg) (out : list Z) : Prop :=
  forall p s sc format i j, displays p s sc -> cstr (roff format i) fmt ->
  exists s', printf_loop fuel (length fmt + S j) s format i None va = Ok (i + zlen fmt, s') /\
    displays p s' (type_string sc out) /\ con_frame p s s'.

Lemma prints_nil fuel va : prints fuel [] va [].
Proof.
  intros p s sc format i j Hd Hc. simpl. rewrite (roff_nil_cstr _ _ Hc). rstep. exists s.
  change (zlen (@nil Z)) with 0. rewrite Z.add_0_r. split_and!; [done.. | apply con_frame_refl].
Qed.

Lemma prints_app fuel pre fmt va va' txt out :
  chunk fuel pre va va' txt -> prints fuel fmt va' out -> prints fuel (pre ++ fmt) va (txt ++ out).
Proof.
  intros H1 H2 p s sc format i j Hd Hc.
  destruct (H1 p s sc format i fmt (length fmt + S j)%nat Hd Hc) as (s1 & E1 & Hd1 & Hf1 & Hc1).
  destruct (H2 p s1 _ format _ j Hd1 Hc1) as (s2 & E2 & Hd2 & Hf2). exists s2.
  rewrite length_app, <- Nat.add_assoc, E1, E2, zlen_app, type_string_app.
  split_and!; [by rewrite Z.add_assoc | done | by eapply con_frame_trans].
Qed.

Lemma chunk_lit fuel c va : c <> 37 -> chunk fuel [c] va va [c].
Proof.
  intros Hne p s sc format i fmt m Hd Hc. destruct (roff_succ_cstr _ _ _ _ Hc) as (Hr & Hnz & Hb & Hc').
  change (length [c] + m)%nat with (S m). cbn [printf_loop]. rewrite Hr. rstep. unfold byte_ok in Hb.
  destruct (Z.eqb_spec c 0); [done |]. destruct (Z.eqb_spec c 37); [done |]. rewrite u8_id by lia.
  destruct (putc_step p s sc c Hd Hb) as (s1 & -> & ? & ?). rstep. by exists s1.
Qed.

Lemma chunk_conv fuel c va va' txt :
  c <> 35 -> converts fuel c false va va' txt -> chunk fuel [37; c] va va' txt.
Proof.
  intros Hne Hconv p s sc format i fmt m Hd Hc. destruct (roff_succ_cstr _ _ _ _ Hc) as (Hr & _ & _ & Hc1).
  destruct (roff_succ_cstr _ _ _ _ Hc1) as (Hr1 & _ & _ & Hc2).
  change (length [37%Z; c] + m)%nat with (S (S m)). change (zlen [37; c]) with 2.
  cbn [printf_loop]. rewrite Hr. rstep. simpl Z.eqb. cbv iota. rewrite Hr1. rstep.
  destruct (Z.eqb_spec c 35); [done |].
  destruct (Hconv p s sc Hd) as (s1 & -> & ? & ?). rstep. exists s1.
  by replace (i + 1 + 1) with (i + 2) in * by lia.
Qed.

Lemma chunk_alt fuel c va va' txt :
  c <> 35 -> converts fuel c true va va' txt -> chunk fuel [37; 35; c] va va' txt.
Proof.
  intros Hne Hconv p s sc format i fmt m Hd Hc. destruct (roff_succ_cstr _ _ _ _ Hc) as (Hr & _ & _ & Hc1).
  destruct (roff_succ_cstr _ _ _ _ Hc1) as (Hr1 & _ & _ & Hc2).
  destruct (roff_succ_cstr _ _ _ _ Hc2) as (Hr2 & _ & _ & Hc3).
  change (length [37%Z; 35%Z; c] + m)%nat with (S (S (S m))). change (zlen [37; 35; c]) with 3.
  cbn [printf_loop]. rewrite Hr. rstep. simpl Z.eqb. cbv iota. rewrite Hr1. rstep.
  simpl Z.eqb. cbv iota. rewrite Hr2. rstep. destruct (Z.eqb_spec c 35); [done |].
  destruct (Hconv p s sc Hd) as (s1 & -> & ? & ?). rstep. exists s1.
  by replace (i + 1 + 1 + 1) with (i + 3) in * by lia.
Qed.

Lemma prints_renders fuel fmt va out :
  renders fmt va out -> (length out + 65 <= fuel)%nat -> prints fuel fmt va out.
Proof.
  induction 1 as [va | c fmt va out Hc _ IH | fmt va out _ IH | v txt fmt va out Hn _ IH
    | v txt fmt va out Hn _ IH | v txt fmt va out Hn _ IH | v txt fmt va out Hm Hn _ IH
    | v fmt va out _ IH | r str fmt va out Hs _ IH]; rewrite ?length_app; simpl; intros Hf.
  - apply prints_nil.
  - apply (prints_app _ [c] _ _ va [c]); [by apply chunk_lit | apply IH; lia].
  - apply (prints_app _ [37; 37] _ _ va [37]); [|apply IH; lia].
    by apply chunk_conv, (proj2 (converts_char fuel 37 0 va)).
  - apply (prints_app _ [37; 120] _ _ va); [|apply IH; lia].
    apply chunk_conv; [done |]. apply (converts_number fuel 120 16 64); [lia | done | lia].
  - rewrite app_assoc. apply (prints_app _ [37; 35; 120] _ _ va); [|apply IH; rewrite ?length_app in Hf; lia].
    apply chunk_alt; [done |]. apply converts_alternate; [done | lia].
  - apply (prints_app _ [37; 117] _ _ va); [|apply IH; lia].
    apply chunk_conv; [done |]. apply (converts_number fuel 117 10 36); [lia | done | lia].
  - rewrite app_assoc. apply (prints_app _ [37; 100] _ _ va); [|apply IH; rewrite ?length_app in Hf; lia].
    apply chunk_conv; [done |]. apply converts_signed; [done | done | lia].
  - apply (prints_app _ [37; 99] _ _ va [u8 v]); [|apply IH; lia].
    by apply chunk_conv, (proj1 (converts_char fuel 99 v va)).
  - apply (prints_app _ [37; 115] _ _ va); [|apply IH; lia].
    apply chunk_conv; [done |]. apply converts_string; [done | lia].
Qed.

Lemma printf_spec p s sc format fmt va out fuel :
  displays p s sc -> cstr format fmt -> renders fmt va out ->
  (length fmt < fuel)%nat -> (length out + 65 <= fuel)%nat ->
  exists s', printf fuel s format va = Ok (zlen fmt, s') /\
    displays p s' (type_string sc out) /\ con_frame p s s'.
Proof.
  intros Hd Hc Hren Hf1 Hf2.
  destruct (prints_renders fuel fmt va out Hren Hf2 p s sc format 0 (fuel - length fmt - 1)%nat Hd
              (cstr_roff0 _ _ Hc)) as (s' & E & ?).
  replace (length fmt + S (fuel - length fmt - 1))%nat with fuel in E by lia.
  exists s'. split; [exact E | done].
Qed.

(** C29. [printf] prints what its format and arguments say: for every format of
    literal characters, [%%], [%x], [%#x], [%u], [%d], [%c] and [%s] conversions
    with arguments that fit, the text of [renders] is typed on the abstract
    console, and the result is the length of the format. Numerals are those of
    the 32-bit value, [%#x] pads to eight digits, [%d] prints a sign; its argument is
    not the least integer, whose negation C leaves undefined. *)
Theorem printf_refines p s sc format fmt va out fuel :
  displays p s sc -> cstr format fmt -> renders fmt va out ->
  (length fmt < fuel)%nat -> (length out + 65 <= fuel)%nat ->
  exists s', printf fuel s format va = Ok (zlen fmt, s') /\
    displays p s' (type_string sc out) /\ con_frame p s s'.
Proof. apply printf_spec. Qed.
End Spec.

(** ** Console output and the interrupt controllers

    Whatever is printed, the only ports written are those of the cursor. *)

Section Quiet.
Context `{Layout}.

Lemma coord_quietly s x y : quietly s (change_coord s x y).
Proof.
  eexists [_; _; _; _]. split; [reflexivity |]. repeat (apply Forall_cons; split); try apply Forall_nil;
    unfold quiet, pic_port, CRTC_REG; lia.
Qed.

Lemma kst_quietly s a v s' : kst s a v = Ok s' -> quietly s s'.
Proof. unfold kst. intros (m & _ & [= <-])%res_bind_ok_inv. by apply quietly_log. Qed.

Lemma scr_set_quietly s i c s' : scr_set s i c = Ok s' -> quietly s s'.
Proof. unfold scr_set. intros (m & _ & [= <-])%res_bind_ok_inv. by apply quietly_log. Qed.

(** Follows the steps of a function that returned. *)
Ltac quiet_steps :=
  cbv beta in *;
  repeat match goal with
  | E : (_ ≫= _) = Ok _ |- _ =>
      let x := fresh "x" in let E1 := fresh "E" in let E2 := fresh "E" in
      apply res_bind_ok_inv in E as (x & E1 & E2)
  | E : kst _ _ _ = Ok _ |- _ => apply kst_quietly in E
  | E : scr_set _ _ _ = Ok _ |- _ => apply scr_set_quietly in E
  | E : Ok _ = Ok _ |- _ => injection E; clear E; intros; subst
  end; eauto using quietly_trans, quietly_refl.

Lemma range_quietly lo hi body s s' :
  (forall j x y, body j x = Ok y -> quietly x y) -> for_range lo hi body s = Ok s' -> quietly s s'.
Proof. intros Hb. apply for_loop_rel; [apply quietly_refl | apply quietly_trans | done]. Qed.

Lemma shift_down_quietly s s' : shift_down s = Ok s' -> quietly s s'.
Proof.
  unfold shift_down. intros (s1 & E1 & (s2 & E2 & [= <-])%res_bind_ok_inv)%res_bind_ok_inv.
  apply quietly_trans with s2; [|apply coord_quietly]. apply quietly_trans with s1.
  - eapply range_quietly; [|exact E1]. intros j x y E. quiet_steps.
  - eapply range_quietly; [|exact E2]. intros j x y E. quiet_steps.
Qed.

Lemma clear_quietly s s' : clear s = Ok s' -> quietly s s'.
Proof.
  unfold clear. intros (s1 & E1 & [= <-])%res_bind_ok_inv. apply quietly_trans with s1; [|apply coord_quietly].
  eapply range_quietly; [|exact E1]. intros j x y E. quiet_steps.
Qed.

Lemma putc_quietly s c s' : putc s c = Ok s' -> quietly s s'.
Proof.
  assert (Hxy : forall t x y, quietly t (set_xy t x y)) by (intros; by apply quietly_log).
  unfold putc. intros (s1 & E1 & [= <-])%res_bind_ok_inv. apply quietly_trans with s1; [|apply coord_quietly].
  destruct (_ || _).
  - destruct (_ =? _); [by apply shift_down_quietly | injection E1 as <-; apply Hxy].
  - apply res_bind_ok_inv in E1 as (s2 & E2 & E1). apply res_bind_ok_inv in E1 as (s3 & E3 & E1).
    apply res_bind_ok_inv in E1 as (s4 & E4 & E1). apply kst_quietly in E2, E3. apply scr_set_quietly in E4.
    assert (Hq : quietly s s4) by eauto using quietly_trans. cbv zeta in E1.
    destruct (_ =? _); [destruct (_ =? _); [apply shift_down_quietly in E1 | injection E1 as <-] | injection E1 as <-];
      (eapply quietly_trans; [exact Hq |]); by eauto using quietly_trans.
Qed.

Lemma puts_loop_quietly fuel : forall s r i n s', puts_loop fuel s r i = Ok (n, s') -> quietly s s'.
Proof.
  induction fuel as [|fuel IH]; intros s r i n s' E; [done |]. cbn [puts_loop] in E.
  apply res_bind_ok_inv in E as (c & _ & E). destruct (c =? 0); [injection E as _ <-; apply quietly_refl |].
  apply res_bind_ok_inv in E as (s1 & E1 & E). eapply quietly_trans; [by eapply putc_quietly | by eapply IH].
Qed.

Lemma puts_quietly fuel s r n s' : puts fuel s r = Ok (n, s') -> quietly s s'.
Proof. apply puts_loop_quietly. Qed.

Lemma conv_quietly fuel s c alt va s' va' : printf_conv fuel s c alt va = Ok (s', va') -> quietly s s'.
Proof.
  assert (Hputs : forall r (va0 : list parg), ('(_, s1) ← puts fuel s r; Ok (s1, va0)) = Ok (s', va') -> quietly s s').
  { intros r va0 ([n s1] & E & [= <- <-])%res_bind_ok_inv. by eapply puts_quietly. }
  assert (Hputc : forall x (va0 : list parg), (s1 ← putc s x; Ok (s1, va0)) = Ok (s', va') -> quietly s s').
  { intros x va0 (s1 & E & [= <- <-])%res_bind_ok_inv. by eapply putc_quietly. }
  unfold printf_conv. destruct (c =? 37); [apply Hputc |].
  destruct (c =? 120).
  { destruct va as [|[v|] va0]; try done. destruct alt.
    - intros (? & _ & (? & _ & (? & _ & E)%res_bind_ok_inv)%res_bind_ok_inv)%res_bind_ok_inv. by eapply Hputs.
    - intros (? & _ & E)%res_bind_ok_inv. by eapply Hputs. }
  destruct (c =? 117).
  { destruct va as [|[v|] va0]; try done. intros (? & _ & E)%res_bind_ok_inv. by eapply Hputs. }
  destruct (c =? 100).
  { destruct va as [|[v|] va0]; try done. cbv zeta. destruct (_ =? - 2 ^ 31); [done |]. intros (? & _ & E)%res_bind_ok_inv. by eapply Hputs. }
  destruct (c =? 99). { destruct va as [|[v|] va0]; try done. apply Hputc. }
  destruct (c =? 115). { destruct va as [|[|r] va0]; try done. apply Hputs. }
  intros [= <- <-]. apply quietly_refl.
Qed.

Lemma printf_loop_quietly fuel n : forall s format i mode va k s',
  printf_loop fuel n s format i mode va = Ok (k, s') -> quietly s s'.
Proof.
  induction n as [|n IH]; intros s format i mode va k s' E; [done |]. cbn [printf_loop] in E.
  apply res_bind_ok_inv in E as (c & _ & E). destruct mode as [alt|].
  - destruct (c =? 35); [by eapply IH |]. apply res_bind_ok_inv in E as ([s1 va1] & E1 & E).
    eapply quietly_trans; [by eapply conv_quietly | by eapply IH].
  - destruct (c =? 0); [injection E as _ <-; apply quietly_refl |]. destruct (c =? 37); [by eapply IH |].
    apply res_bind_ok_inv in E as (s1 & E1 & E). eapply quietly_trans; [by eapply putc_quietly | by eapply IH].
Qed.

Lemma printf_quietly fuel s format va k s' : printf fuel s format va = Ok (k, s') -> quietly s s'.
Proof. unfold printf. apply (printf_loop_quietly fuel fuel s format 0 None va k s'). Qed.
End Quiet.

(** ** Witnesses: the console after the [clear] at the start of [entry] *)

Section Demo.
Context `{Layout}.

(** Before paging is on, video memory is at its physical address. *)
Definition demo_boot : kstate := kboot (fill 4000 VIDEO 0 ∅).

Lemma demo_shows : shows VIDEO 0 demo_boot (replicate 2000 0).
Proof.
  constructor.
  - intros i Hi. change (VIDEO + i) with (753664 + i). rewrite u32_id by lia.
    split; [by apply ktr_off |]. exists 0. unfold byte_ok. split; [|lia].
    change (ph demo_boot) with (fill 4000 VIDEO 0 ∅). rewrite lookup_fill. change VIDEO with 753664. by zcases.
  - apply (aget_nat _ 0). done.
  - unfold zlen. by rewrite length_replicate.
  - by apply Forall_replicate.
  - lia.
Qed.

Lemma demo_displays : exists s, displays VIDEO s blank.
Proof.
  destruct (clear_spec VIDEO demo_boot) as (s & _ & Hd & _); [|by exists s].
  exists (replicate 2000 0). apply demo_shows.
Qed.

End Demo.

#[local] Existing Instance demo_layout.

Lemma clear_refines_witness :
  exists s', clear demo_boot = Ok s' /\ displays VIDEO s' blank /\ hw_cursor (log s') = 0.
Proof.
  destruct (clear_refines VIDEO demo_boot) as (s & E & Hd & _ & Hc).
  - exists (replicate 2000 0). apply demo_shows.
  - exact (ex_intro _ s (conj E (conj Hd Hc))).
Defined.

Lemma putc_refines_witness :
  exists s s', putc s 65 = Ok s' /\ displays VIDEO s' (type_char blank 65) /\ hw_cursor (log s') = 1.
Proof.
  destruct demo_displays as (s & Hd).
  destruct (putc_refines VIDEO s blank 65 Hd) as (s' & E & Hd' & _ & Hc); [by unfold byte_ok |].
  by exists s, s'.
Defined.

Lemma puts_refines_witness :
  exists s s', puts 10 s (aget ([111; 107; 10] ++ [0])) = Ok (3, s') /\
    displays VIDEO s' (type_string blank [111; 107; 10]).
Proof.
  destruct demo_displays as (s & Hd).
  destruct (puts_refines VIDEO s blank (aget ([111; 107; 10] ++ [0])) [111; 107; 10] 10 Hd)
    as (s' & E & Hd' & _).
  - apply cstr_array. repeat constructor; lia.
  - simpl. lia.
  - by exists s, s'.
Defined.

Lemma backspacing_refines_witness :
  exists s s', backspacing s 0 = Ok s' /\ displays VIDEO s' (erase blank).
Proof.
  destruct demo_displays as (s0 & Hd0).
  apply (kb_displays _ _ _ (kb demo_boot)) in Hd0.
  set (s1 := set_kb s0 (kb demo_boot)) in *.
  assert (exists k row, aget (buf_index (kb s1)) 0 = Ok 0 /\ k = 0 /\ aget (buf (kb s1)) 0 = Ok row /\
    zlen row = 1024) as (k & row & Hk & _ & Hrow & Hl).
  { exists 0, (replicate 1024 0). split_and!; done. }
  pose (s := set_sch s1 (set_active_term (sch s1) 0)).
  assert (Hd : displays VIDEO s blank).
  { destruct Hd0 as [[? ? ? ? ?] ? ? ? ?]. by constructor; [constructor|..]. }
  destruct (backspacing_refines VIDEO s blank 0 0 row Hd Hk ltac:(lia) Hrow Hl) as (s' & E & Hd' & _).
  by exists s, s'.
Defined.

Lemma printf_refines_witness :
  exists s s', printf 100 s (aget ([37; 35; 120; 33] ++ [0])) [PInt 14] = Ok (4, s') /\
    displays VIDEO s' (type_string blank [48; 48; 48; 48; 48; 48; 48; 69; 33]).
Proof.
  destruct demo_displays as (s & Hd).
  destruct (printf_refines VIDEO s blank (aget ([37; 35; 120; 33] ++ [0])) [37; 35; 120; 33] [PInt 14]
    [48; 48; 48; 48; 48; 48; 48; 69; 33] 100 Hd) as (s' & E & Hd' & _).
  - apply cstr_array. repeat constructor; lia.
  - apply (r_alt_x 14 [69] [33]); [|by repeat constructor].
    exists [14]. split_and!; try done. by repeat constructor.
  - simpl. lia.
  - simpl. lia.
  - by exists s, s'.
Defined.
