(* ===== verification/Rtc.v ===== *)
(** * The real-time clock driver

    [student-distrib/rtc.c], but for [rtc_test] and the interrupt handler (which
    needs the scheduler and is in [Handlers.v]). The contract is stated against
    the documented register file of the MC146818 ([rtc_chip]): port 0x70 selects
    a register with its low seven bits, port 0x71 reads or writes it. *)

From S2P Require Import Prelude Filesys Paging Mem State.

Local Open Scope Z_scope.

Definition RTC_PORT : Z := 0x70.
Definition CMOS_PORT : Z := 0x71.
Definition REG_A : Z := 0x8A.
Definition REG_B : Z := 0x8B.
Definition NMI : Z := 0x7F.
Definition FREQ_MASK : Z := 0xF0.
Definition NMI_OFF : Z := 0x80.
Definition PIE : Z := 0x40.

(** ** The code *)

Section Code.
Context `{Env}.

(** The common part of [rtc_init] and [rtc_write]: the rate into register A, the
    periodic interrupt bit into register B. *)
Definition rtc_program (s : kstate) (rate : Z) : kstate :=
  (* nmi protection on *)
  let '(v, s) := inb s RTC_PORT in
  let s := outb s (Z.land v NMI) RTC_PORT in
  (* register A *)
  let s := outb s REG_A RTC_PORT in
  let '(prev, s) := inb s CMOS_PORT in
  let s := outb s REG_A RTC_PORT in
  let s := outb s (Z.lor (Z.land prev FREQ_MASK) rate) CMOS_PORT in
  (* register B *)
  let s := outb s REG_B RTC_PORT in
  let '(prev, s) := inb s CMOS_PORT in
  let s := outb s REG_B RTC_PORT in
  let s := outb s (Z.lor (Z.land prev FREQ_MASK) PIE) CMOS_PORT in
  (* nmi protection off *)
  let '(v, s) := inb s (Z.lor RTC_PORT NMI_OFF) in
  outb s v RTC_PORT.

Definition rtc_init (s : kstate) : kstate := rtc_program s 10.

(** The switch of [rtc_write]; [None] is its [default: return]. *)
Definition rtc_rate (freq : Z) : option Z :=
  if freq =? 2 then Some 15
  else if freq =? 4 then Some 14
  else if freq =? 8 then Some 13
  else if freq =? 16 then Some 12
  else if freq =? 32 then Some 11
  else if freq =? 64 then Some 10
  else if freq =? 128 then Some 9
  else if freq =? 256 then Some 8
  else if freq =? 512 then Some 7
  else if freq =? 1024 then Some 6
  else None.

Definition rtc_write (s : kstate) (freq : Z) : kstate :=
  match rtc_rate freq with
  | Some rate => rtc_program s rate
  | None => s
  end.

(** [while(!interrupt_count);] leaves only when an interrupt has set the flag:
    with the flag clear the call is blocked at its start. *)
Definition rtc_read : K Z := fun s =>
  if interrupt_count s =? 0 then Ok (Stop Blocked, s)
  else Ok (Ret 0, set_interrupt_count s 0).

Definition rtc_open : Z := 0.
Definition rtc_close (fd : Z) : Z := 0.
End Code.

(** ** The clock chip *)

Record rtc_chip := mkRtc { sel : Z; reg_a : Z; reg_b : Z }.

Definition rtc_step (e : ioev) (c : rtc_chip) : rtc_chip :=
  match e with
  | In _ _ => c
  | Out port data =>
      if port =? 0x70 then mkRtc (Z.land data 0x7F) (reg_a c) (reg_b c)
      else if port =? 0x71 then
        if sel c =? 0xA then mkRtc (sel c) data (reg_b c)
        else if sel c =? 0xB then mkRtc (sel c) (reg_a c) data
        else c
      else c
  end.

Definition rtc_after (c0 : rtc_chip) (l : list ioev) : rtc_chip := foldr rtc_step c0 l.

#[global] Arguments rtc_after _ _ : simpl never.

(** The environment answers reads of port 0x71 with the selected register. *)
Definition rtc_env `{Env} (c0 : rtc_chip) : Prop :=
  forall l, let c := rtc_after c0 l in
    (sel c = 0xA -> port_in l 0x71 = reg_a c) /\ (sel c = 0xB -> port_in l 0x71 = reg_b c).

(** The periodic rate of register A, in interrupts a second. *)
Definition rtc_hz (c : rtc_chip) : Z := Z.shiftr 32768 (Z.land (reg_a c) 0xF - 1).

(** ** Proofs *)

Section Facts.
Context `{Env}.

Lemma rtc_after_cons c0 e l : rtc_after c0 (e :: l) = rtc_step e (rtc_after c0 l).
Proof. done. Qed.

Lemma rtc_program_chip c0 s rate :
  rtc_env c0 -> 0 <= rate < 16 ->
  let c := rtc_after c0 (log s) in let c' := rtc_after c0 (log (rtc_program s rate)) in
  byte_ok (reg_a c) -> byte_ok (reg_b c) ->
  reg_a c' = Z.lor (Z.land (reg_a c) 0xF0) rate /\ reg_b c' = Z.lor (Z.land (reg_b c) 0xF0) 0x40.
Proof.
  intros Henv Hrate c c' Ha Hb. unfold byte_ok in *.
  assert (Hu : forall x r, 0 <= x < 256 -> 0 <= r < 256 -> u8 (Z.lor (Z.land x 0xF0) r) = Z.lor (Z.land x 0xF0) r).
  { intros x r Hx Hr. unfold u8. apply Z.mod_small. split.
    - apply Z.lor_nonneg. split; [apply Z.land_nonneg; lia | lia].
    - apply (Z.log2_lt_cancel _ (2 ^ 8)); change (Z.log2 (2 ^ 8)) with 8.
      rewrite Z.log2_lor by (lia || (apply Z.land_nonneg; lia)).
      apply Z.max_lub_lt.
      + eapply Z.le_lt_trans; [apply Z.log2_land; lia |]. apply Z.min_lt_iff. right. done.
      + destruct (decide (r = 0)) as [->|]; [done |]. apply Z.log2_lt_pow2; lia. }
  unfold c', rtc_program, inb, outb. cbn [log set_log].
  set (l0 := log s) in *.
  match goal with |- context [port_in ?l CMOS_PORT] =>
    match l with
    | Out _ _ :: In _ _ :: _ => idtac
    | Out _ _ :: Out _ _ :: In _ _ :: l0 => set (l1 := l)
    end end.
  assert (H1 : rtc_after c0 l1 = mkRtc 0xA (reg_a c) (reg_b c)) by done.
  change CMOS_PORT with 0x71. rewrite (proj1 (Henv l1)) by by rewrite H1.
  rewrite H1. simpl reg_a. rewrite (u8_id (reg_a c)) by done.
  match goal with |- context [port_in ?l 0x71] => set (l2 := l) end.
  assert (H2 : rtc_after c0 l2 = mkRtc 0xB (Z.lor (Z.land (reg_a c) 0xF0) rate) (reg_b c)).
  { unfold l2. rewrite !rtc_after_cons, H1. unfold rtc_step. simpl. by rewrite Hu by lia. }
  rewrite (proj2 (Henv l2)) by by rewrite H2.
  rewrite H2. simpl reg_b. rewrite (u8_id (reg_b c)) by done.
  split; apply Hu; (done || lia).
Qed.

(** The mask and the rate of register A do not overlap. *)
Lemma rate_of_reg_a x rate : 0 <= rate < 16 -> Z.land (Z.lor (Z.land x 0xF0) rate) 0xF = rate.
Proof.
  intros Hr. rewrite Z.land_lor_distr_l, <- Z.land_assoc. change (Z.land 0xF0 0xF) with 0.
  rewrite Z.land_0_r, Z.lor_0_l. change 0xF with (Z.ones 4). rewrite Z.land_ones by lia.
  apply Z.mod_small. lia.
Qed.

(** Setting the frequency: for each of the ten supported frequencies, 2 to
    1024 Hz, [rtc_write] leaves the chip interrupting at exactly that frequency,
    keeps the divider bits of register A and turns the periodic interrupt on;
    for any other argument it does nothing. *)
Theorem rtc_write_sets c0 s freq :
  rtc_env c0 ->
  byte_ok (reg_a (rtc_after c0 (log s))) -> byte_ok (reg_b (rtc_after c0 (log s))) ->
  let c := rtc_after c0 (log s) in let c' := rtc_after c0 (log (rtc_write s freq)) in
  if existsb (Z.eqb freq) [2; 4; 8; 16; 32; 64; 128; 256; 512; 1024] then
    rtc_hz c' = freq /\ Z.testbit (reg_b c') 6 = true /\
    Z.land (reg_a c') 0xF0 = Z.land (reg_a c) 0xF0
  else rtc_write s freq = s.
Proof.
  intros Henv Ha Hb c c'.
  assert (Hset : forall rate, 0 <= rate < 16 -> rtc_rate freq = Some rate -> Z.shiftr 32768 (rate - 1) = freq ->
    rtc_hz c' = freq /\ Z.testbit (reg_b c') 6 = true /\ Z.land (reg_a c') 0xF0 = Z.land (reg_a c) 0xF0).
  { intros rate Hr Hrate Hf. unfold c', rtc_write. rewrite Hrate.
    destruct (rtc_program_chip c0 s rate Henv Hr Ha Hb) as [Ea Eb].
    unfold rtc_hz. rewrite Ea, Eb, rate_of_reg_a by done. split_and!; [done | |].
    - by rewrite Z.lor_spec, orb_true_r.
    - rewrite Z.land_lor_distr_l, <- Z.land_assoc. change (Z.land 0xF0 0xF0) with 0xF0.
      assert (Z.land rate 0xF0 = 0) as ->; [|by rewrite Z.lor_0_r].
      rewrite <- (Z.mod_small rate (2 ^ 4)), <- Z.land_ones, <- Z.land_assoc by lia. apply Z.land_0_r. }
  assert (Hout : rtc_rate freq = None -> rtc_write s freq = s) by (unfold rtc_write; by intros ->).
  cbn [existsb]. unfold rtc_rate in *.
  repeat (match goal with |- context [Z.eqb freq ?k] => destruct (Z.eqb_spec freq k) as [Ek|]; cbn [orb] end;
          [rewrite Ek in *; eapply Hset; [|reflexivity|reflexivity]; lia |]).
  by apply Hout.
Qed.

End Facts.

(** ** Witness: a chip that starts with registers A and B at 0x26 and 0x02 *)

Definition demo_rtc : rtc_chip := mkRtc 0 0x26 0x02.

#[local] Instance demo_rtc_env : Env := {|
  port_in l p :=
    let c := rtc_after demo_rtc l in
    if p =? 0x71 then (if sel c =? 0xA then reg_a c else if sel c =? 0xB then reg_b c else 0) else 0
|}.

Lemma rtc_write_sets_witness :
  rtc_hz (rtc_after demo_rtc (log (rtc_write (kboot ∅) 32))) = 32.
Proof.
  assert (rtc_env demo_rtc) as Henv.
  { intros l. simpl. destruct (sel (rtc_after demo_rtc l) =? 0xA) eqn:E1.
    - split; [done |]. apply Z.eqb_eq in E1. congruence.
    - split; [intros E; by rewrite E in E1 |]. intros E. by rewrite E. }
  apply (rtc_write_sets demo_rtc (kboot ∅) 32 Henv); unfold byte_ok; simpl; lia.
Defined.
