(* ===== verification/Terminal.v ===== *)
(** * The terminal device

    [student-distrib/keyboard.c] but for the scancode handler: the line buffer of
    each terminal and the reads and writes of the terminal device. A buffer of the
    caller is the list of its bytes; [read_terminal] waits for [fflag], which only
    the keyboard handler sets. *)

From S2P Require Import Prelude Strings Filesys Paging Mem State Console.

Local Open Scope Z_scope.
Local Open Scope kernel_scope.

Definition BUF_SIZE : Z := 1024.

Section Code.
Context `{Layout}.

Definition curTerm (s : kstate) : Z := active_term (sch s).

(** [buf[get_active_term()][i] = c] and [buf_index[get_active_term()] = k]. *)
Definition buf_set (s : kstate) (i c : Z) : res kstate :=
  b ← aset2 (buf (kb s)) (active_term (sch s)) i c; Ok (set_buf s b).
Definition index_get (s : kstate) : res Z := aget (buf_index (kb s)) (active_term (sch s)).
Definition index_set (s : kstate) (k : Z) : res kstate :=
  ix ← aset (buf_index (kb s)) (active_term (sch s)) k; Ok (set_buf_index s ix).
Definition entered_get (s : kstate) : res Z := aget (ind_entered (kb s)) (active_term (sch s)).
Definition entered_set (s : kstate) (k : Z) : res kstate :=
  ix ← aset (ind_entered (kb s)) (active_term (sch s)) k; Ok (set_ind_entered s ix).

Definition init_buffers (s : kstate) : res kstate :=
  for_range 0 6 (fun i s =>
    ix ← aset (buf_index (kb s)) i 0;
    let s := set_buf_index s ix in
    en ← aset (ind_entered (kb s)) i 0;
    Ok (set_ind_entered s en)) s.

(** [buf[..][buf_index[..]] = c; buf_index[..]++]. *)
Definition buf_push (s : kstate) (c : Z) : res kstate :=
  k ← index_get s;
  s ← buf_set s k c;
  k ← index_get s;
  index_set s (u32 (k + 1)).

Definition check_buf (s : kstate) (n x : Z) : res kstate :=
  if n =? 0 then for_range 0 4 (fun _ s => buf_push s 32) s
  else if x =? 10 then
    k ← index_get s;
    s ← entered_set s k;
    e ← entered_get s;
    s ← (if (e =? BUF_SIZE - 1) && (fflag (kb s) =? 0) then putc s 10 else Ok s);
    Ok (set_fflag s 1)
  else Ok s.

(** [clear_buffer]: [strcpy] of the terminal's buffer into the caller's. *)
Definition clear_buffer (s : kstate) (n : Z) (buf1 : list Z) : res (list Z * kstate) :=
  row ← aget (buf (kb s)) (active_term (sch s));
  buf1 ← strcpy (S (length row)) buf1 (aget row);
  s ← for_range 0 n (fun i s => buf_set s i 32) s;
  s ← index_set s 0;
  Ok (buf1, s).

(** [read_terminal] up to its loop, and from the loop on. *)
Definition read_terminal_start (s : kstate) (nbytes : Z) : res kstate :=
  s ← index_set s 0; entered_set s (u32 nbytes).

Definition read_terminal_wait (buf1 : list Z) (nbytes : Z) : K (Z * list Z) := fun s =>
  if fflag (kb s) =? 0 then Ok (Stop Blocked, s)
  else
    let s := set_fflag s 0 in
    '(buf1, s) ← clear_buffer s nbytes buf1;
    e ← entered_get s;
    Ok (Ret (s32 e, buf1), s).

Definition read_terminal (buf1 : list Z) (nbytes : Z) : K (Z * list Z) :=
  do! kdo (fun s => read_terminal_start s nbytes) ;; read_terminal_wait buf1 nbytes.

Definition write_terminal (s : kstate) (buf1 : reader) (nbytes : Z) : res (Z * kstate) :=
  s ← for_range 0 (nbytes + 1) (fun i s => c ← buf1 i; putc s (u8 c)) s;
  s ← (if negb (nbytes =? BUF_SIZE - 1) then backspacing s 0 else Ok s);
  s ← index_set s 0;
  Ok (nbytes, s).

Definition open_terminal : Z := 0.
Definition close_terminal : Z := 0.
End Code.

(** ** The shape of the line buffers *)

Record kb_ok (s : kstate) : Prop := {
  kb_buf : zlen (buf (kb s)) = 6;
  kb_rows : Forall (fun row => zlen row = 1024) (buf (kb s));
  kb_index : zlen (buf_index (kb s)) = 6;
  kb_entered : zlen (ind_entered (kb s)) = 6;
  kb_term : 0 <= active_term (sch s) < 6
}.

(** The line buffer of the active terminal holds [row], with [k] characters
    counted. *)
Record line_is (s : kstate) (row : list Z) (k : Z) : Prop := {
  line_row : aget (buf (kb s)) (active_term (sch s)) = Ok row;
  line_index : aget (buf_index (kb s)) (active_term (sch s)) = Ok k
}.

Section Facts.
Context `{Layout}.

Lemma kb_ok_line s : kb_ok s -> exists row k, line_is s row k /\ zlen row = 1024.
Proof.
  intros [H1 H2 H3 H4 H5].
  destruct (aget_in_range (buf (kb s)) (active_term (sch s))) as [row Hrow]; [lia |].
  destruct (aget_in_range (buf_index (kb s)) (active_term (sch s))) as [k Hk]; [lia |].
  exists row, k. split; [done |]. apply aget_lookup in Hrow as [_ Hrow].
  apply (Forall_lookup_1 _ _ _ _ H2 Hrow).
Qed.

Lemma line_len s row k : kb_ok s -> line_is s row k -> zlen row = 1024.
Proof.
  intros Hok [Hr _]. destruct (kb_ok_line s Hok) as (row' & k' & [Hr' _] & Hl). congruence.
Qed.

(** The states the single writes lead to. *)
Definition put_row (s : kstate) (row : list Z) : kstate :=
  set_buf s (<[Z.to_nat (active_term (sch s)) := row]> (buf (kb s))).
Definition put_index (s : kstate) (k : Z) : kstate :=
  set_buf_index s (<[Z.to_nat (active_term (sch s)) := k]> (buf_index (kb s))).
Definition put_entered (s : kstate) (k : Z) : kstate :=
  set_ind_entered s (<[Z.to_nat (active_term (sch s)) := k]> (ind_entered (kb s))).

Lemma buf_set_ok s row k i c :
  kb_ok s -> line_is s row k -> 0 <= i < 1024 ->
  buf_set s i c = Ok (put_row s (<[Z.to_nat i := c]> row)).
Proof.
  intros Hok Hl Hi. pose proof (line_len s row k Hok Hl). destruct Hok, Hl as [Hr _].
  unfold buf_set, aset2. rewrite Hr. rstep. rewrite aset_in by lia. rstep. by rewrite aset_in by lia.
Qed.

Lemma index_set_ok s k : kb_ok s -> index_set s k = Ok (put_index s k).
Proof. intros []. unfold index_set. by rewrite aset_in by lia. Qed.

Lemma entered_set_ok s k : kb_ok s -> entered_set s k = Ok (put_entered s k).
Proof. intros []. unfold entered_set. by rewrite aset_in by lia. Qed.

Lemma kb_ok_put_row s row : zlen row = 1024 -> kb_ok s -> kb_ok (put_row s row).
Proof.
  intros Hl []. constructor; simpl; rewrite ?zlen_insert; try done. by apply Forall_insert.
Qed.

Lemma kb_ok_put_index s k : kb_ok s -> kb_ok (put_index s k).
Proof. intros []. constructor; simpl; by rewrite ?zlen_insert. Qed.

Lemma kb_ok_put_entered s k : kb_ok s -> kb_ok (put_entered s k).
Proof. intros []. constructor; simpl; by rewrite ?zlen_insert. Qed.

Lemma kb_ok_fflag s x : kb_ok s -> kb_ok (set_fflag s x).
Proof. by intros []. Qed.

Lemma line_put_row s row row' k : kb_ok s -> line_is s row k -> line_is (put_row s row') row' k.
Proof. intros [] []. split; [simpl; apply aget_insert_eq; lia | done]. Qed.

Lemma line_put_index s row k k' : kb_ok s -> line_is s row k -> line_is (put_index s k') row k'.
Proof. intros [] []. split; [done | simpl; apply aget_insert_eq; lia]. Qed.

Lemma entered_put s k : kb_ok s -> entered_get (put_entered s k) = Ok k.
Proof. intros []. unfold entered_get. simpl. apply aget_insert_eq. lia. Qed.

(** Appending a character to the line. *)
Definition pushed (s : kstate) (row : list Z) (k c : Z) : kstate :=
  put_index (put_row s (<[Z.to_nat k := c]> row)) (k + 1).

Lemma buf_push_ok s row k c :
  kb_ok s -> line_is s row k -> 0 <= k < 1024 ->
  buf_push s c = Ok (pushed s row k c) /\ kb_ok (pushed s row k c) /\
  line_is (pushed s row k c) (<[Z.to_nat k := c]> row) (k + 1).
Proof.
  intros Hok Hl Hk. pose proof (line_len s row k Hok Hl) as Hlen.
  assert (Hok1 : kb_ok (put_row s (<[Z.to_nat k := c]> row))) by (apply kb_ok_put_row; [by rewrite zlen_insert | done]).
  pose proof (line_put_row s row (<[Z.to_nat k := c]> row) k Hok Hl) as Hl1.
  split_and!; [|by apply kb_ok_put_index | by apply (line_put_index _ _ k)].
  unfold buf_push, index_get. rewrite (line_index _ _ _ Hl). rstep.
  rewrite (buf_set_ok s row k) by done. rstep. rewrite (line_index _ _ _ Hl1). rstep.
  rewrite u32_id by lia. by apply index_set_ok.
Qed.

(** A full line: the write is outside the buffer. *)
Lemma buf_push_overflow s row k c :
  kb_ok s -> line_is s row k -> 1024 <= k -> buf_push s c = Undef.
Proof.
  intros Hok Hl Hk. pose proof (line_len s row k Hok Hl). destruct Hl as [Hr Hx].
  unfold buf_push, index_get, buf_set, aset2. rewrite Hx. rstep. rewrite Hr. rstep.
  by rewrite aset_out by lia.
Qed.

(** Seen as text: the line typed so far, and what the buffer holds after it. *)
Lemma insert_line (line rest : list Z) x c :
  <[Z.to_nat (zlen line) := c]> (line ++ x :: rest) = (line ++ [c]) ++ rest.
Proof.
  unfold zlen. rewrite Nat2Z.id, <- app_assoc. rewrite <- (Nat.add_0_r (length line)), insert_app_r. done.
Qed.

Lemma buf_push_line s line x rest c :
  kb_ok s -> line_is s (line ++ x :: rest) (zlen line) ->
  exists s', buf_push s c = Ok s' /\ s' = pushed s (line ++ x :: rest) (zlen line) c /\ kb_ok s' /\
    line_is s' ((line ++ [c]) ++ rest) (zlen (line ++ [c])).
Proof.
  intros Hok Hl. pose proof (line_len s _ _ Hok Hl) as Hlen. rewrite zlen_app, zlen_cons in Hlen.
  pose proof (zlen_nonneg line). pose proof (zlen_nonneg rest).
  destruct (buf_push_ok s _ _ c Hok Hl ltac:(lia)) as (E & Hok' & Hl').
  rewrite insert_line in Hl'. eexists. split; [exact E |]. by rewrite zlen_app.
Qed.

(** C39. The TAB key appends four blanks to the line without looking at the
    127-character limit of the other keys: it is right while four characters fit
    in the buffer of 1024, and writes outside the buffer otherwise. *)
Theorem tab_blanks s line rest x :
  kb_ok s -> line_is s (line ++ rest) (zlen line) ->
  if 4 <=? zlen rest then
    exists s', check_buf s 0 x = Ok s' /\ kb_ok s' /\
      line_is s' ((line ++ [32; 32; 32; 32]) ++ drop 4 rest) (zlen line + 4)
  else check_buf s 0 x = Undef.
Proof.
  intros Hok Hl. unfold check_buf. simpl Z.eqb. cbv iota.
  change (for_range 0 4 ?f s) with (for_loop 4 0 f s).
  destruct (Z.leb_spec 4 (zlen rest)) as [Hr|Hr].
  - destruct rest as [|x1 [|x2 [|x3 [|x4 rest]]]]; try (unfold zlen in Hr; simpl in Hr; lia). cbn [for_loop].
    destruct (buf_push_line s _ _ _ 32 Hok Hl) as (s1 & -> & _ & Hok1 & Hl1). rstep.
    destruct (buf_push_line s1 _ _ _ 32 Hok1 Hl1) as (s2 & -> & _ & Hok2 & Hl2). rstep.
    destruct (buf_push_line s2 _ _ _ 32 Hok2 Hl2) as (s3 & -> & _ & Hok3 & Hl3). rstep.
    destruct (buf_push_line s3 _ _ _ 32 Hok3 Hl3) as (s4 & -> & _ & Hok4 & Hl4). rstep.
    exists s4. split_and!; [done.. |]. rewrite <- !app_assoc, !zlen_app in Hl4. rewrite <- app_assoc.
    simpl in *. by replace (zlen line + 4) with (zlen line + (1 + (1 + (1 + (1 + 0))))) by lia.
  - pose proof (line_len s _ _ Hok Hl) as Hlen. rewrite zlen_app in Hlen.
    assert (Hgo : forall n j t row' k', kb_ok t -> line_is t row' k' -> 0 <= k' <= 1024 -> 1024 < k' + Z.of_nat n ->
      for_loop n j (fun _ s => buf_push s 32) t = Undef).
    { clear. induction n as [|n IH]; intros j t row' k' Hok Hl Hk Hn; [lia |]. cbn [for_loop].
      destruct (decide (k' = 1024)) as [->|].
      - by rewrite (buf_push_overflow t row' 1024).
      - destruct (buf_push_ok t row' k' 32 Hok Hl ltac:(lia)) as (-> & Hok' & Hl'). rstep.
        apply (IH _ _ _ _ Hok' Hl'); lia. }
    pose proof (zlen_nonneg line). pose proof (zlen_nonneg rest).
    apply (Hgo 4%nat 0 s _ _ Hok Hl); lia.
Qed.

(** Blanking the first [n] characters of the line buffer. *)
Lemma clear_loop s row k n :
  kb_ok s -> line_is s row k -> 0 <= n <= 1024 ->
  exists s', for_range 0 n (fun i s => buf_set s i 32) s = Ok s' /\ kb_ok s' /\
    line_is s' (replicate (Z.to_nat n) 32 ++ drop (Z.to_nat n) row) k /\ s' = set_buf s (buf (kb s')).
Proof.
  intros Hok Hl Hn. pose proof (line_len s row k Hok Hl) as Hlen.
  destruct (for_range_inv (fun i t => kb_ok t /\
    line_is t (replicate (Z.to_nat i) 32 ++ drop (Z.to_nat i) row) k /\ t = set_buf s (buf (kb t)))
    (fun i s => buf_set s i 32) 0 n s) as (s' & E & Hok' & Hl' & Hs'); [lia | | |].
  - split_and!; [done | done | by destruct s as [? ? ? ? ? ? []]].
  - intros i t Hi (Ht & Hlt & Et). rewrite (buf_set_ok t _ _ i 32 Ht Hlt) by lia.
    unfold zlen in Hlen. destruct (lookup_lt_is_Some_2 row (Z.to_nat i)) as [x Hx]; [lia |].
    rewrite (drop_S _ _ _ Hx) in *.
    assert (E : <[Z.to_nat i := 32]> (replicate (Z.to_nat i) 32 ++ x :: drop (S (Z.to_nat i)) row) =
                replicate (Z.to_nat (i + 1)) 32 ++ drop (Z.to_nat (i + 1)) row).
    { pose proof (insert_line (replicate (Z.to_nat i) 32) (drop (S (Z.to_nat i)) row) x 32) as E.
      unfold zlen in E. rewrite length_replicate, Z2Nat.id in E by lia. rewrite E.
      replace (Z.to_nat (i + 1)) with (S (Z.to_nat i)) by lia. by rewrite replicate_S_end. }
    eexists. split; [done |]. split_and!.
    + apply kb_ok_put_row; [|done]. rewrite E. unfold zlen.
      rewrite length_app, length_replicate, length_drop. lia.
    + rewrite <- E. by eapply line_put_row.
    + rewrite Et. reflexivity.
  - by exists s'.
Qed.

Lemma read_terminal_line_spec s buf1 nbytes line rest k e :
  kb_ok s -> fflag (kb s) <> 0 -> line_is s (line ++ 0 :: rest) k -> nonnul line ->
  entered_get s = Ok e -> 0 <= nbytes <= 1024 ->
  if zlen line <? zlen buf1 then
    exists s', read_terminal_wait buf1 nbytes s =
        Ok (Ret (s32 e, line ++ 0 :: drop (S (length line)) buf1), s') /\
      kb_ok s' /\ fflag (kb s') = 0 /\
      line_is s' (replicate (Z.to_nat nbytes) 32 ++ drop (Z.to_nat nbytes) (line ++ 0 :: rest)) 0 /\
      exists b ix, s' = set_buf_index (set_buf (set_fflag s 0) b) ix
  else read_terminal_wait buf1 nbytes s = Undef.
Proof.
  intros Hok Hff Hl Hline He Hn. unfold read_terminal_wait, clear_buffer.
  destruct (Z.eqb_spec (fflag (kb s)) 0); [done |].
  change (buf (kb (set_fflag s 0))) with (buf (kb s)).
  change (active_term (sch (set_fflag s 0))) with (active_term (sch s)).
  rewrite (line_row _ _ _ Hl). rstep.
  pose proof (cstr_array line rest Hline) as Hc. unfold zlen. destruct (Z.ltb_spec (Z.of_nat (length line)) (Z.of_nat (length buf1))).
  - rewrite (strcpy_fits _ line) by (done || (rewrite ?length_app; simpl; lia)). rstep.
    destruct (clear_loop (set_fflag s 0) (line ++ 0 :: rest) k nbytes (kb_ok_fflag s 0 Hok)) as (s1 & E & Hok1 & Hl1 & Es1);
      [by destruct Hl | done |].
    rewrite E. rstep. rewrite index_set_ok by done. rstep.
    assert (entered_get (put_index s1 0) = Ok e) as ->.
    { unfold entered_get. rewrite Es1. exact He. }
    rstep. eexists. split; [done |]. split_and!.
    + by apply kb_ok_put_index.
    + rewrite Es1. done.
    + by apply (line_put_index _ _ k).
    + rewrite Es1. by do 2 eexists.
  - rewrite (strcpy_overflow _ line) by (done || (rewrite ?length_app; simpl; lia)). done.
Qed.

(** C30. Reading a line. Once the keyboard handler has set [fflag],
    [read_terminal] returns what the line buffer holds up to its first NUL, with
    the count the handler recorded; it empties the flag and the index and blanks
    the first [nbytes] characters of the buffer, and changes nothing else. The caller's size is not
    respected: when the text does not fit the caller's buffer, whatever [nbytes]
    says, the copy runs past its end. *)
Theorem read_terminal_line s buf1 nbytes line rest k e :
  kb_ok s -> fflag (kb s) <> 0 -> line_is s (line ++ 0 :: rest) k -> nonnul line ->
  entered_get s = Ok e -> 0 <= nbytes <= 1024 ->
  if zlen line <? zlen buf1 then
    exists s', read_terminal_wait buf1 nbytes s =
        Ok (Ret (s32 e, line ++ 0 :: drop (S (length line)) buf1), s') /\
      kb_ok s' /\ fflag (kb s') = 0 /\
      line_is s' (replicate (Z.to_nat nbytes) 32 ++ drop (Z.to_nat nbytes) (line ++ 0 :: rest)) 0 /\
      exists b ix, s' = set_buf_index (set_buf (set_fflag s 0) b) ix
  else read_terminal_wait buf1 nbytes s = Undef.
Proof. apply read_terminal_line_spec. Qed.

Lemma write_loop p s sc buf1 bs :
  displays p s sc -> field buf1 bs ->
  exists s', for_range 0 (zlen bs) (fun i s => c ← buf1 i; putc s (u8 c)) s = Ok s' /\
    displays p s' (type_string sc bs) /\ con_frame p s s'.
Proof.
  intros Hd Hbs.
  destruct (for_range_inv (fun i t => displays p t (type_string sc (take (Z.to_nat i) bs)) /\ con_frame p s t)
    (fun i s => c ← buf1 i; putc s (u8 c)) 0 (zlen bs) s) as (s' & E & Hd' & Hf); [apply zlen_nonneg | | |].
  - split; [exact Hd | apply con_frame_refl].
  - intros i t Hi [Ht Hft]. unfold zlen in Hi.
    destruct (lookup_lt_is_Some_2 bs (Z.to_nat i)) as [c Hc]; [lia |].
    destruct (Hbs _ _ Hc) as [Hr Hb]. rewrite Z2Nat.id in Hr by lia. rewrite Hr. rstep.
    unfold byte_ok in Hb. rewrite u8_id by lia.
    destruct (putc_step p t _ c Ht Hb) as (t' & E & Hd' & Hf'). exists t'. split; [done |].
    split; [|by eapply con_frame_trans]. replace (Z.to_nat (i + 1)) with (S (Z.to_nat i)) by lia.
    rewrite (take_S_r _ _ _ Hc). by rewrite type_string_app.
  - exists s'. unfold zlen in Hd'. rewrite Nat2Z.id, take_ge in Hd' by lia. done.
Qed.

Lemma write_terminal_spec p s sc buf1 bs nbytes row k :
  displays p s sc -> kb_ok s -> line_is s row k -> 0 <= k <= 1024 -> field buf1 bs -> zlen bs = nbytes + 1 ->
  exists s' row', write_terminal s buf1 nbytes = Ok (nbytes, s') /\
    displays p s' (if nbytes =? 1023 then type_string sc bs else erase (type_string sc bs)) /\
    kb_ok s' /\ line_is s' row' 0 /\ (row' = row \/ row' = <[Z.to_nat (back k) := 32]> row) /\
    s' = set_kb s' (kb (set_buf_index (set_buf s (buf (kb s'))) (buf_index (kb s')))) /\
    con_frame p (set_kb s (kb s')) s'.
Proof.
  intros Hd Hok Hl Hkr Hbs Hlen. unfold write_terminal. rewrite <- Hlen.
  destruct (write_loop p s sc buf1 bs Hd Hbs) as (s1 & -> & Hd1 & Hf1). rstep.
  destruct (con_frame_kb _ _ _ Hf1) as [Ekb Esch].
  assert (Hok1 : kb_ok s1) by (destruct Hok; constructor; by rewrite ?Ekb, ?Esch).
  assert (Hl1 : line_is s1 row k) by (destruct Hl; constructor; by rewrite ?Ekb, ?Esch).
  change (BUF_SIZE - 1) with 1023.
  assert (Hlast : forall t sc' row' k', displays p t sc' -> kb_ok t -> line_is t row' k' ->
    (row' = row \/ row' = <[Z.to_nat (back k) := 32]> row) ->
    kb t = kb (set_buf_index (set_buf s (buf (kb t))) (buf_index (kb t))) -> con_frame p (set_kb s (kb t)) t ->
    exists s' row', (s2 ← index_set t 0; Ok (nbytes, s2)) = Ok (nbytes, s') /\ displays p s' sc' /\
      kb_ok s' /\ line_is s' row' 0 /\ (row' = row \/ row' = <[Z.to_nat (back k) := 32]> row) /\
      s' = set_kb s' (kb (set_buf_index (set_buf s (buf (kb s'))) (buf_index (kb s')))) /\
      con_frame p (set_kb s (kb s')) s').
  { intros t sc' row' k' Ht Hokt Hlt Hrow Ek (E & Hb & Hm). rewrite index_set_ok by done. rstep.
    exists (put_index t 0), row'. split_and!; [done | by apply (kb_displays p t sc') | by apply kb_ok_put_index
      | by apply (line_put_index t row' k') | done | | ].
    - clear -Ek. destruct t. simpl in *. unfold put_index, set_buf_index, set_kb. simpl. by rewrite Ek.
    - split_and!; [|done..]. clear -E. unfold set_log, set_con, set_ph, set_kb in E. destruct t, s. simpl in *.
      injection E. intros. by subst. }
  assert (Hself : forall x, set_kb x (kb x) = x) by by intros [].
  destruct (Z.eqb_spec nbytes 1023); simpl negb; cbv iota.
  - rstep. apply (Hlast s1 _ row k); [done.. | by left | |].
    + rewrite Ekb. simpl. by destruct (kb s).
    + rewrite Ekb, Hself. exact Hf1.
  - destruct (backspacing_spec p s1 _ 0 k row Hd1 (line_index _ _ _ Hl1) Hkr (line_row _ _ _ Hl1) (line_len _ _ _ Hok1 Hl1))
      as (s2 & -> & Hd2 & Hkb2 & Hf2). rstep.
    destruct (con_frame_kb _ _ _ Hf2) as [_ Es2]. simpl in Es2.
    pose proof (kb_ok_put_row _ (<[Z.to_nat (back k) := 32]> row) ltac:(by rewrite zlen_insert; apply (line_len _ _ _ Hok1 Hl1))
        (kb_ok_put_index _ (back k) Hok1)) as Hok2.
    pose proof (line_put_row _ row (<[Z.to_nat (back k) := 32]> row) (back k) (kb_ok_put_index _ (back k) Hok1)
        (line_put_index _ _ _ (back k) Hok1 Hl1)) as Hl2.
    apply (Hlast s2 _ (<[Z.to_nat (back k) := 32]> row) (back k)); [done | | | by right | |].
    + destruct Hok2. constructor; by rewrite ?Hkb2, ?Es2.
    + destruct Hl2. constructor; by rewrite ?Hkb2, ?Es2.
    + rewrite Hkb2. simpl. by rewrite Ekb.
    + eapply con_frame_trans; [|exact Hf2]. destruct Hf1 as (E & Hb & Hm). split_and!; [|done..].
      clear -E. unfold set_log, set_con, set_ph, set_kb in *. destruct s1, s. simpl in *.
      injection E. intros. by subst.
Qed.

(** Writing to the terminal: [write_terminal] prints one byte more than it is
    asked to and then erases it again, except for a write of 1023 bytes, where the
    extra byte stays on the screen; it empties the line buffer's index, changes
    nothing else, and returns the size it was given. *)
Theorem write_terminal_refines p s sc buf1 bs nbytes k :
  displays p s sc -> kb_ok s -> index_get s = Ok k -> 0 <= k <= 1024 ->
  field buf1 bs -> zlen bs = nbytes + 1 ->
  exists s', write_terminal s buf1 nbytes = Ok (nbytes, s') /\
    displays p s' (if nbytes =? 1023 then type_string sc bs else erase (type_string sc bs)) /\
    kb_ok s' /\ index_get s' = Ok 0 /\ con_frame p (set_kb s (kb s')) s'.
Proof.
  intros Hd Hok Hk Hkr Hbs Hlen. destruct (kb_ok_line s Hok) as (row & k' & Hl & _).
  assert (k' = k) as -> by (pose proof (line_index _ _ _ Hl); unfold index_get in Hk; congruence).
  destruct (write_terminal_spec p s sc buf1 bs nbytes row k Hd Hok Hl Hkr Hbs Hlen)
    as (s' & row' & E & Hd' & Hok' & [_ Hl'] & _ & _ & Hf). by exists s'.
Qed.
End Facts.

(** ** Witnesses *)

#[local] Existing Instance demo_layout.

Lemma kboot_kb_ok m : kb_ok (kboot m).
Proof. constructor; try done. repeat constructor. Qed.

(** The boot state with a line in the first buffer, counted and entered. *)
Definition demo_line (line : list Z) : kstate :=
  let s := kboot ∅ in
  let s := set_buf s (<[0%nat := line ++ replicate (1024 - length line) 0]> (buf (kb s))) in
  let s := set_buf_index s (<[0%nat := zlen line]> (buf_index (kb s))) in
  let s := set_ind_entered s (<[0%nat := zlen line]> (ind_entered (kb s))) in
  set_fflag s 1.

Lemma demo_line_ok line :
  (length line <= 1024)%nat -> kb_ok (demo_line line) /\
  line_is (demo_line line) (line ++ replicate (1024 - length line) 0) (zlen line).
Proof.
  intros Hl. split; [|done]. constructor; try done.
  apply Forall_insert; [repeat constructor |]. unfold zlen. rewrite length_app, length_replicate. lia.
Qed.

Lemma tab_blanks_witness :
  exists s', check_buf (demo_line [108; 115]) 0 0 = Ok s' /\
    line_is s' (([108; 115] ++ [32; 32; 32; 32]) ++ replicate 1018 0) 6.
Proof.
  destruct (demo_line_ok [108; 115]) as [Hok Hl]; [simpl; lia |].
  destruct (tab_blanks (demo_line [108; 115]) [108; 115] (replicate 1022 0) 0 Hok Hl) as (s' & E & _ & Hl').
  exact (ex_intro _ s' (conj E Hl')).
Defined.

Lemma read_terminal_line_witness :
  exists s', read_terminal_wait (replicate 128 7) 128 (demo_line [108; 115; 10]) =
    Ok (Ret (3, [108; 115; 10] ++ 0 :: replicate 124 7), s').
Proof.
  destruct (demo_line_ok [108; 115; 10]) as [Hok Hl]; [simpl; lia |].
  assert (Hne : fflag (kb (demo_line [108; 115; 10])) <> 0) by (simpl; lia).
  assert (Hn : nonnul [108; 115; 10]) by (repeat constructor; lia).
  destruct (read_terminal_line (demo_line [108; 115; 10]) (replicate 128 7) 128 [108; 115; 10]
    (replicate 1020 0) 3 3 Hok Hne Hl Hn eq_refl ltac:(lia)) as (s' & E & _).
  exact (ex_intro _ s' E).
Defined.

Lemma write_terminal_refines_witness :
  exists s s', write_terminal s (aget [104; 105; 32]) 2 = Ok (2, s') /\
    displays VIDEO s' (erase (type_string blank [104; 105; 32])).
Proof.
  destruct demo_displays as (s0 & Hd0). apply (kb_displays _ _ _ (kb (kboot ∅))) in Hd0.
  pose (s := set_sch (set_kb s0 (kb (kboot ∅))) (set_active_term (sch s0) 0)).
  assert (Hd : displays VIDEO s blank).
  { destruct Hd0 as [[? ? ? ? ?] ? ? ? ?]. by constructor; [constructor|..]. }
  assert (Hok : kb_ok s) by (constructor; try done; repeat constructor).
  destruct (write_terminal_refines VIDEO s blank (aget [104; 105; 32]) [104; 105; 32] 2 0 Hd Hok eq_refl
    ltac:(lia)) as (s' & E & Hd' & _).
  - intros n c Hc. split; [by apply aget_nat |].
    destruct n as [|[|[|n]]]; simpl in Hc; try discriminate; injection Hc as <-; unfold byte_ok; lia.
  - done.
  - by exists s, s'.
Defined.
