(* ===== verification/Sched.v ===== *)
(** * The scheduler

    [student-distrib/sched.c] but for [switchTerm], which starts a shell and is in
    [Switch.v]: the process of each terminal, the saved contexts, and the round
    robin of [do_events]. The stack and frame pointers that the inline assembly
    saves are arguments; loading another terminal's pointers ends the function
    with [Resume]. The epilogue of [run_proc] then returns to the caller of the function
    that saved these pointers: [Handlers.return_from]. *)

From S2P Require Import Prelude Filesys Paging Mem State Pic Console.

Local Open Scope Z_scope.
Local Open Scope kernel_scope.

Definition KERNEL_DS : Z := 0x0018.

Section Code.
Context `{Layout} `{Linker}.

Definition get_active_term (s : kstate) : Z := active_term (sch s).
Definition get_bg_term (s : kstate) : Z := bg_term (sch s).

Definition is_active (s : kstate) (proc_id : Z) : res Z :=
  p ← aget (proc_active (sch s)) (active_term (sch s));
  Ok (if p =? proc_id then 1 else 0).

Definition new_process (s : kstate) (proc_id : Z) : res kstate :=
  pa ← aset (proc_active (sch s)) (active_term (sch s)) proc_id;
  let s := set_sch s (set_proc_active (sch s) pa) in
  Ok (set_sch s (set_bg_term (sch s) proc_id)).

Definition remove_process (s : kstate) (pProc_id pESP pEBP : Z) : res kstate :=
  pa ← aset (proc_active (sch s)) (active_term (sch s)) pProc_id;
  let s := set_sch s (set_proc_active (sch s) pa) in
  esps ← aset (proc_esp (sch s)) (active_term (sch s)) pESP;
  ebps ← aset (proc_ebp (sch s)) (active_term (sch s)) pEBP;
  Ok (set_sch s (set_proc_regs (sch s) esps ebps)).

(** [cursor_pos[t]] through [getXY]. *)
Definition save_cursor (s : kstate) (t : Z) : res kstate :=
  let '(x, y) := getXY s in
  c ← aset2 (cursor_pos (sch s)) t 0 x;
  c ← aset2 c t 1 y;
  Ok (set_sch s (set_cursor_pos (sch s) c)).

(** The assembly that stores ESP and EBP. *)
Definition save_regs (s : kstate) (t esp ebp : Z) : res kstate :=
  esps ← aset (proc_esp (sch s)) t esp;
  ebps ← aset (proc_ebp (sch s)) t ebp;
  Ok (set_sch s (set_proc_regs (sch s) esps ebps)).

Definition set_tss_stack (s : kstate) (esp0 esp ebp : Z) : kstate :=
  set_tss s (mkTss KERNEL_DS esp0 esp ebp (tss_ldt (tss s))).

Definition run_proc (eoi proc_id : Z) : K unit := fun s =>
  pid ← aget (proc_active (sch s)) proc_id;
  let s := set_pg s (set_cr3 (pg s) (get_PDE pid)) in
  esp ← aget (proc_esp (sch s)) proc_id;
  ebp ← aget (proc_ebp (sch s)) proc_id;
  let s := set_tss_stack s esp esp ebp in
  let s := sti s in
  let s := if 0 <? eoi then send_eoi s eoi else s in
  Ok (Stop (Resume esp ebp), s).

(** [do { bg_term++; ... } while(term_init[bg_term] != 1);] *)
Fixpoint next_term (fuel : nat) (term_init : list Z) (bg : Z) : res Z :=
  match fuel with
  | O => NoFuel
  | S fuel =>
      let bg := if bg + 1 =? 3 then 0 else bg + 1 in
      t ← aget term_init bg;
      if negb (t =? 1) then next_term fuel term_init bg else Ok bg
  end.

Definition count_terms (term_init : list Z) : res Z :=
  for_range 0 3 (fun i count => t ← aget term_init i; Ok (if t =? 0 then count else count + 1)) 0.

(** [change_pte] on the kernel's state. *)
Definition kchange_pte (s : kstate) (i v : Z) : res kstate :=
  pg' ← change_pte (pg s) i v; Ok (set_pg s pg').

Definition do_events_switch (fuel : nat) (esp ebp : Z) (s : kstate) : res kstate :=
  s ← save_regs s (bg_term (sch s)) esp ebp;
  s ← save_cursor s (bg_term (sch s));
  t ← next_term fuel (term_init (sch s)) (bg_term (sch s));
  let s := set_sch s (set_bg_term (sch s) t) in
  if active_term (sch s) =? bg_term (sch s) then
    x ← aget2 (cursor_pos (sch s)) (active_term (sch s)) 0;
    y ← aget2 (cursor_pos (sch s)) (active_term (sch s)) 1;
    kchange_pte (change_coord s x y) 0xb8 0xb8
  else
    x ← aget2 (cursor_pos (sch s)) (bg_term (sch s)) 0;
    y ← aget2 (cursor_pos (sch s)) (bg_term (sch s)) 1;
    kchange_pte (change_coord_silent s x y) 0xb8 (bg_term (sch s)).

Definition do_events (fuel : nat) (esp ebp : Z) : K unit := fun s =>
  if negb (fake_sti (sch s) =? 0) then Ok (Ret tt, s) else
  count ← count_terms (term_init (sch s));
  if count =? 1 then Ok (Ret tt, s) else
  s ← do_events_switch fuel esp ebp s;
  run_proc 8 (bg_term (sch s)) s.

Definition init_terminals (s : kstate) : res kstate :=
  let s := set_sch s (set_active_term (sch s) 0) in
  ti ← aset (term_init (sch s)) 0 1;
  ti ← aset ti 1 0;
  ti ← aset ti 2 0;
  let s := set_sch s (set_term_init (sch s) ti) in
  pa ← aset (proc_active (sch s)) 0 (-1);
  pa ← aset pa 1 (-1);
  pa ← aset pa 2 (-1);
  let s := set_sch s (set_proc_active (sch s) pa) in
  let s := set_sch s (set_fake_sti (sch s) 0) in
  let s := set_sch s (set_bg_term (sch s) 0) in
  s ← for_range 0 4096 (fun i s => kst s (zeros_addr + i) 0) s;
  for_range 1 5 (fun i s =>
    m ← memcpy (ktr s) (ph s) (0x1000 * i) zeros_addr 0x1000; Ok (set_ph s m)) s.
End Code.

(** ** The scheduler's invariant and contexts *)

Record sched_ok (c : sched_t) : Prop := {
  so_cursor : forall t, 0 <= t < 3 -> exists row, aget (cursor_pos c) t = Ok row /\ zlen row = 2;
  so_esp : zlen (proc_esp c) = 3;
  so_ebp : zlen (proc_ebp c) = 3;
  so_proc : zlen (proc_active c) = 3;
  so_init : exists a b d, term_init c = [a; b; d] /\ (a = 0 \/ a = 1) /\ (b = 0 \/ b = 1) /\ (d = 0 \/ d = 1);
  so_bg : 0 <= bg_term c < 3;
  so_active : 0 <= active_term c < 3
}.

(** What is saved for a terminal: ESP, EBP and the cursor. *)
Definition context (c : sched_t) (t : Z) : res (Z * Z * (Z * Z)) :=
  e ← aget (proc_esp c) t; b ← aget (proc_ebp c) t;
  x ← aget2 (cursor_pos c) t 0; y ← aget2 (cursor_pos c) t 1;
  Ok (e, b, (x, y)).

(** Terminal [t] is the next one after [bg] in the cycle of the initialised
    terminals. *)
Definition next_in (term_init : list Z) (bg t : Z) : Prop :=
  exists n, 1 <= n <= 3 /\ t = (bg + n) mod 3 /\ aget term_init t = Ok 1 /\
    forall k, 0 < k < n -> aget term_init ((bg + k) mod 3) = Ok 0.

Lemma next_term_spec a b d bg f :
  (a = 0 \/ a = 1) -> (b = 0 \/ b = 1) -> (d = 0 \/ d = 1) -> 0 <= bg < 3 ->
  a = 1 \/ b = 1 \/ d = 1 ->
  exists t, next_term (3 + f) [a; b; d] bg = Ok t /\ next_in [a; b; d] bg t.
Proof.
  intros Ha Hb Hd Hbg Hone.
  assert (Hk : forall n, n = 1 \/ n = 2 \/ n = 3 -> next_term (3 + f) [a; b; d] bg = Ok ((bg + n) mod 3) ->
    aget [a; b; d] ((bg + n) mod 3) = Ok 1 ->
    (n = 1 \/ aget [a; b; d] ((bg + 1) mod 3) = Ok 0) -> (n <= 2 \/ aget [a; b; d] ((bg + 2) mod 3) = Ok 0) ->
    exists t, next_term (3 + f) [a; b; d] bg = Ok t /\ next_in [a; b; d] bg t).
  { intros n Hn E Hone' H1 H2. exists ((bg + n) mod 3). split; [done |]. exists n. split_and!; [lia | lia | done | done |].
    intros k Hk. assert (k = 1 \/ k = 2) as [->| ->] by lia; [destruct H1 | destruct H2]; (done || lia). }
  assert (bg = 0 \/ bg = 1 \/ bg = 2) as Hb3 by lia. clear Hbg.
  destruct Ha as [->| ->], Hb as [->| ->], Hd as [->| ->]; try (exfalso; lia);
    destruct Hb3 as [->|[->| ->]];
    first [ apply (Hk 1); (done || auto; lia) | apply (Hk 2); (done || auto; lia) | apply (Hk 3); (done || auto; lia) ].
Qed.

(** A search that returns found the next terminal. *)
Lemma next_term_inv a b d bg t fuel :
  (a = 0 \/ a = 1) -> (b = 0 \/ b = 1) -> (d = 0 \/ d = 1) -> 0 <= bg < 3 ->
  next_term fuel [a; b; d] bg = Ok t -> next_in [a; b; d] bg t.
Proof.
  intros Ha Hb Hd Hbg E.
  assert (Hone : a = 1 \/ b = 1 \/ d = 1 \/ (a = 0 /\ b = 0 /\ d = 0)) by lia.
  assert (Hmono : forall n m u v, next_term n [a; b; d] u = Ok v -> next_term (m + n) [a; b; d] u = Ok v).
  { clear. induction n as [|n IH]; intros m u v E; [done |].
    rewrite Nat.add_succ_r. cbn [next_term] in *. destruct (aget _ _) as [x| |]; try done.
    rewrite res_bind_ok in *. destruct (negb _); [by apply IH | done]. }
  destruct Hone as [H|[H|[H|(-> & -> & ->)]]].
  4: { exfalso. clear Ha Hb Hd Hmono. revert bg Hbg E. induction fuel as [|fuel IH]; intros bg Hbg E; [done |].
       cbn [next_term] in E.
       assert (bg = 0 \/ bg = 1 \/ bg = 2) as [->|[->| ->]] by lia; simpl in E;
         (eapply IH; [|exact E]; lia). }
  all: destruct (next_term_spec a b d bg fuel Ha Hb Hd Hbg ltac:(lia)) as (t' & E' & Hn);
    apply (Hmono _ 3%nat) in E; rewrite E in E'; by injection E' as <-.
Qed.

Section Facts.
Context `{Layout}.

(** What a switch away from the running terminal does to the scheduler. *)
Record switched (esp ebp : Z) (xy : Z * Z) (c c' : sched_t) : Prop := {
  sw_next : next_in (term_init c) (bg_term c) (bg_term c');
  sw_saved : context c' (bg_term c) = Ok (esp, ebp, xy);
  sw_others : forall u, u <> bg_term c -> context c' u = context c u;
  sw_init : term_init c' = term_init c;
  sw_proc : proc_active c' = proc_active c;
  sw_active : active_term c' = active_term c;
  sw_fake : fake_sti c' = fake_sti c;
  sw_ok : sched_ok c'
}.

Lemma save_switch s s1 s2 esp ebp :
  sched_ok (sch s) -> save_regs s (bg_term (sch s)) esp ebp = Ok s1 ->
  save_cursor s1 (bg_term (sch s)) = Ok s2 ->
  s2 = set_sch s (sch s2) /\ context (sch s2) (bg_term (sch s)) = Ok (esp, ebp, getXY s) /\
  (forall u, u <> bg_term (sch s) -> context (sch s2) u = context (sch s) u) /\
  term_init (sch s2) = term_init (sch s) /\ proc_active (sch s2) = proc_active (sch s) /\
  active_term (sch s2) = active_term (sch s) /\ fake_sti (sch s2) = fake_sti (sch s) /\
  bg_term (sch s2) = bg_term (sch s) /\ sched_ok (sch s2).
Proof.
  unfold save_regs, save_cursor, getXY. intros Hok E1 E2.
  apply res_bind_ok_inv in E1 as (esps & He & E1). apply res_bind_ok_inv in E1 as (ebps & Hb & [= <-]).
  apply res_bind_ok_inv in E2 as (c1 & Hc1 & E2). apply res_bind_ok_inv in E2 as (c2 & Hc2 & [= <-]).
  simpl in Hc1, Hc2. simpl. set (t := bg_term (sch s)) in *.
  assert (Hcur : forall u j, aget2 c2 u j = if (u =? t) && (j =? 1) then Ok (screen_y (con s))
      else if (u =? t) && (j =? 0) then Ok (screen_x (con s)) else aget2 (cursor_pos (sch s)) u j).
  { intros u j. rewrite (aget2_aset2 _ _ _ _ _ u j Hc2), (aget2_aset2 _ _ _ _ _ u j Hc1). done. }
  split_and!; try done.
  - unfold context. simpl. rewrite (aget_aset _ _ _ _ t He), (aget_aset _ _ _ _ t Hb), Z.eqb_refl. rstep.
    rewrite !Hcur, Z.eqb_refl. done.
  - intros u Hu. unfold context. simpl. rewrite (aget_aset _ _ _ _ u He), (aget_aset _ _ _ _ u Hb).
    destruct (Z.eqb_spec u t); [done |]. rewrite !Hcur. destruct (Z.eqb_spec u t); [done |]. done.
  - destruct Hok as [Hc ? ? ? ? ? ?]. constructor; simpl; try done.
    + intros u Hu. unfold aset2 in Hc1, Hc2.
      apply res_bind_ok_inv in Hc1 as (r1 & Hr1 & Hc1). apply res_bind_ok_inv in Hc1 as (r1' & Hr1' & Hc1).
      apply res_bind_ok_inv in Hc2 as (r2 & Hr2 & Hc2). apply res_bind_ok_inv in Hc2 as (r2' & Hr2' & Hc2).
      rewrite (aget_aset _ _ _ _ u Hc2). destruct (Z.eqb_spec u t) as [->|].
      * exists r2'. split; [done |]. rewrite (zlen_aset _ _ _ _ Hr2').
        rewrite (aget_aset _ _ _ _ t Hc1), Z.eqb_refl in Hr2. injection Hr2 as <-.
        rewrite (zlen_aset _ _ _ _ Hr1'). destruct (Hc t Hu) as (row & E & Hl). congruence.
      * rewrite (aget_aset _ _ _ _ u Hc1). destruct (Z.eqb_spec u t); [done |]. by apply Hc.
    + by rewrite (zlen_aset _ _ _ _ He).
    + by rewrite (zlen_aset _ _ _ _ Hb).
Qed.

Lemma next_in_range ti bg t : next_in ti bg t -> 0 <= t < 3.
Proof. intros (n & _ & -> & _). apply Z.mod_pos_bound. lia. Qed.

Lemma switch_inv fuel s s' esp ebp :
  sched_ok (sch s) -> do_events_switch fuel esp ebp s = Ok s' ->
  switched esp ebp (getXY s) (sch s) (sch s') /\
  (aget2 (cursor_pos (sch s')) (bg_term (sch s')) 0 = Ok (screen_x (con s')) /\
   aget2 (cursor_pos (sch s')) (bg_term (sch s')) 1 = Ok (screen_y (con s'))) /\
  change_pte (pg s) 0xb8 (if active_term (sch s') =? bg_term (sch s') then 0xb8 else bg_term (sch s')) = Ok (pg s').
Proof.
  intros Hok E. unfold do_events_switch in E.
  apply res_bind_ok_inv in E as (s1 & E1 & E).
  assert (Hb1 : bg_term (sch s1) = bg_term (sch s)).
  { unfold save_regs in E1. apply res_bind_ok_inv in E1 as (? & _ & E1).
    by apply res_bind_ok_inv in E1 as (? & _ & [= <-]). }
  rewrite Hb1 in E. apply res_bind_ok_inv in E as (s2 & E2 & E).
  destruct (save_switch s s1 s2 esp ebp Hok E1 E2) as (Es2 & Hsaved & Hoth & Hti & Hpa & Hat & Hfk & Hbg & Hok2).
  apply res_bind_ok_inv in E as (t & Ht & E).
  destruct (so_init _ Hok2) as (a & b & d & Hi & Ha & Hb & Hd). rewrite Hi in Ht.
  pose proof (next_term_inv a b d _ t fuel Ha Hb Hd (so_bg _ Hok2) Ht) as Hn. rewrite <- Hi, Hti, Hbg in Hn.
  pose proof (next_in_range _ _ _ Hn) as Htr.
  assert (Hpg : pg s2 = pg s) by by rewrite Es2. clear Es2 E1 E2 Ht.
  assert (Hsw : switched esp ebp (getXY s) (sch s) (set_bg_term (sch s2) t)).
  { constructor; try done. destruct Hok2; constructor; done. }
  cbv zeta in E. change (sch (set_sch s2 ?c)) with c in E.
  change (active_term (set_bg_term (sch s2) t)) with (active_term (sch s2)) in *.
  change (bg_term (set_bg_term (sch s2) t)) with t in E.
  unfold kchange_pte in E.
  destruct (Z.eqb_spec (active_term (sch s2)) t) as [Eq|Ne];
    apply res_bind_ok_inv in E as (x & Hx & E); apply res_bind_ok_inv in E as (y & Hy & E);
    apply res_bind_ok_inv in E as (pg' & Hpte & [= <-]); simpl in Hx, Hy, Hpte; rewrite Hpg in Hpte; simpl.
  - rewrite (proj2 (Z.eqb_eq _ _) Eq). rewrite Eq in Hx, Hy. by split_and!.
  - rewrite (proj2 (Z.eqb_neq _ _) Ne). by split_and!.
Qed.

Lemma count_terms_spec a b d :
  (a = 0 \/ a = 1) -> (b = 0 \/ b = 1) -> (d = 0 \/ d = 1) -> count_terms [a; b; d] = Ok (a + b + d).
Proof. by intros [-> | ->] [-> | ->] [-> | ->]. Qed.

(** A call of [do_events] that does not return: what it did. *)
Lemma do_events_inv fuel esp ebp s w s' :
  sched_ok (sch s) -> do_events fuel esp ebp s = Ok (Stop w, s') ->
  switched esp ebp (getXY s) (sch s) (sch s') /\
  (exists e b, w = Resume e b /\ context (sch s') (bg_term (sch s')) = Ok (e, b, getXY s')) /\
  iflag s' = true /\
  exists pg1 pid, change_pte (pg s) 0xb8 (if active_term (sch s') =? bg_term (sch s') then 0xb8 else bg_term (sch s')) = Ok pg1 /\
    aget (proc_active (sch s)) (bg_term (sch s')) = Ok pid /\ pg s' = set_cr3 pg1 (pid + 1).
Proof.
  intros Hok E. unfold do_events in E. destruct (negb _); [done |].
  apply res_bind_ok_inv in E as (cnt & _ & E). destruct (cnt =? 1); [done |].
  apply res_bind_ok_inv in E as (s1 & E1 & E).
  destruct (switch_inv fuel s s1 esp ebp Hok E1) as (Hsw & [Hx Hy] & Hpte).
  unfold run_proc in E. apply res_bind_ok_inv in E as (pid & Hpid & E).
  apply res_bind_ok_inv in E as (e & He & E). apply res_bind_ok_inv in E as (b & Hb & E).
  simpl in He, Hb, E. injection E as <- <-.
  change (sch (send_eoi ?a ?b)) with (sch s1). change (con (send_eoi ?a ?b)) with (con s1).
  split_and!; [done | | done |].
  - exists e, b. split; [done |]. unfold context.
    change (sch (send_eoi_master ?a ?b)) with (sch s1). change (getXY (send_eoi_master ?a ?b)) with (getXY s1).
    by rewrite He, Hb, Hx, Hy.
  - exists (pg s1), pid. split_and!; [exact Hpte | by rewrite <- (sw_proc _ _ _ _ _ Hsw) | done].
Qed.

Lemma save_progress s esp ebp :
  sched_ok (sch s) -> exists s1 s2, save_regs s (bg_term (sch s)) esp ebp = Ok s1 /\
    bg_term (sch s1) = bg_term (sch s) /\ save_cursor s1 (bg_term (sch s)) = Ok s2.
Proof.
  intros [Hc He Hb Hp Hi Hbg Hat]. unfold save_regs, save_cursor, getXY.
  destruct (Hc _ Hbg) as (row & Hrow & Hl). rewrite !aset_in by lia. rstep.
  eexists. simpl. eexists. split; [reflexivity |]. split; [done |]. simpl.
  unfold aset2. rewrite Hrow. rstep. rewrite (aset_in row) by lia. rstep.
  rewrite aset_in by by apply aget_Ok_range in Hrow. rstep.
  rewrite aget_insert_eq by by apply aget_Ok_range in Hrow. rstep.
  rewrite aset_in by (rewrite zlen_insert; lia). rstep.
  rewrite aset_in by (rewrite zlen_insert; by apply aget_Ok_range in Hrow). rstep. reflexivity.
Qed.

Lemma cursor_progress c t : sched_ok c -> 0 <= t < 3 ->
  exists x y, aget2 (cursor_pos c) t 0 = Ok x /\ aget2 (cursor_pos c) t 1 = Ok y.
Proof.
  intros [Hc _ _ _ _ _ _] Ht. destruct (Hc t Ht) as (row & Hrow & Hl). unfold aget2. rewrite Hrow. rstep.
  destruct (aget_in_range row 0) as [x ->]; [lia |]. destruct (aget_in_range row 1) as [y ->]; [lia |]. eauto.
Qed.

Lemma switch_progress f s esp ebp :
  sched_ok (sch s) -> shaped (pg s) -> (exists t, aget (term_init (sch s)) t = Ok 1) ->
  exists s', do_events_switch (3 + f) esp ebp s = Ok s'.
Proof.
  intros Hok Hsh (t1 & Ht1). unfold do_events_switch.
  destruct (save_progress s esp ebp Hok) as (s1 & s2 & E1 & Eb & E2).
  destruct (save_switch s s1 s2 esp ebp Hok E1 E2) as (Es2 & _ & _ & Hti & _ & Hat & _ & Hbg & Hok2).
  rewrite E1. rstep. rewrite Eb, E2. rstep.
  destruct (so_init _ Hok2) as (a & b & d & Hi & Ha & Hb & Hd). rewrite Hi.
  assert (Hone : a = 1 \/ b = 1 \/ d = 1).
  { rewrite <- Hti, Hi in Ht1. apply aget_lookup in Ht1 as [_ Ht1].
    destruct (Z.to_nat t1) as [|[|[|n]]]; simpl in Ht1; try discriminate; injection Ht1; lia. }
  destruct (next_term_spec a b d _ f Ha Hb Hd (so_bg _ Hok2) Hone) as (t & -> & Hn). rstep.
  pose proof (next_in_range _ _ _ Hn) as Htr.
  destruct (cursor_progress _ _ Hok2 Htr) as (x & y & Hx & Hy).
  destruct (cursor_progress _ _ Hok2 (so_active _ Hok2)) as (x' & y' & Hx' & Hy').
  assert (Hpte : forall v, 0 <= v < 2 ^ 20 -> exists pg', change_pte (pg s2) 0xb8 v = Ok pg').
  { intros v Hv. rewrite Es2. simpl. rewrite change_pte_put by (done || lia). by eexists. }
  simpl. unfold kchange_pte. destruct (active_term (sch s2) =? t).
  - rewrite Hx', Hy'. rstep. simpl. destruct (Hpte 0xb8 ltac:(lia)) as (pg' & ->). by eexists.
  - rewrite Hx, Hy. rstep. simpl. destruct (Hpte t ltac:(lia)) as (pg' & ->). by eexists.
Qed.

Lemma do_events_spec f esp ebp s :
  sched_ok (sch s) -> shaped (pg s) -> (exists t, aget (term_init (sch s)) t = Ok 1) ->
  if negb (fake_sti (sch s) =? 0) || (sum_list_with Z.to_nat (term_init (sch s)) =? 1)%nat then
    do_events (3 + f) esp ebp s = Ok (Ret tt, s)
  else
    exists e b s', do_events (3 + f) esp ebp s = Ok (Stop (Resume e b), s') /\
      switched esp ebp (getXY s) (sch s) (sch s') /\ bg_term (sch s') <> bg_term (sch s) /\
      context (sch s) (bg_term (sch s')) = Ok (e, b, getXY s') /\ iflag s' = true.
Proof.
  intros Hok Hsh Hone. destruct (so_init _ Hok) as (a & b & d & Hi & Ha & Hb & Hd).
  assert (Hsum : (sum_list_with Z.to_nat (term_init (sch s)) =? 1)%nat = (a + b + d =? 1)).
  { rewrite Hi. by destruct Ha as [-> | ->], Hb as [-> | ->], Hd as [-> | ->]. }
  assert (Hgo : do_events (3 + f) esp ebp s = if negb (fake_sti (sch s) =? 0) || (a + b + d =? 1)
    then Ok (Ret tt, s) else s1 ← do_events_switch (3 + f) esp ebp s; run_proc 8 (bg_term (sch s1)) s1).
  { unfold do_events. rewrite Hi, count_terms_spec by done. by destruct (negb _). }
  rewrite Hsum. destruct (negb (fake_sti (sch s) =? 0) || (a + b + d =? 1)) eqn:Ecase; [done |].
  apply orb_false_elim in Ecase as [_ Hcnt%Z.eqb_neq].
  destruct (switch_progress f s esp ebp Hok Hsh Hone) as (s1 & E1).
  destruct (switch_inv _ s s1 esp ebp Hok E1) as (Hsw & _ & _).
  destruct (sw_ok _ _ _ _ _ Hsw) as [_ He Hbp Hp _ Hbg _].
  destruct (aget_in_range (proc_active (sch s1)) (bg_term (sch s1))) as [pid Hpid]; [lia |].
  destruct (aget_in_range (proc_esp (sch s1)) (bg_term (sch s1))) as [e He1]; [lia |].
  destruct (aget_in_range (proc_ebp (sch s1)) (bg_term (sch s1))) as [b1 Hb1]; [lia |].
  assert (Hrun : exists s', do_events (3 + f) esp ebp s = Ok (Stop (Resume e b1), s')).
  { rewrite Hgo, E1. rstep. unfold run_proc. rewrite Hpid. rstep. simpl. rewrite He1, Hb1. rstep. by eexists. }
  destruct Hrun as (s' & E). destruct (do_events_inv _ esp ebp s _ s' Hok E) as (Hsw' & (e' & b' & Ew & Hctx) & Hif & _).
  injection Ew as <- <-. exists e, b1, s'.
  assert (Hne : bg_term (sch s') <> bg_term (sch s)).
  { destruct (sw_next _ _ _ _ _ Hsw') as (n & Hn & -> & H1 & Hskip). rewrite Hi in *. intros Eq.
    pose proof (so_bg _ Hok) as Hr.
    assert (n = 3) as ->.
    { assert (n = 1 \/ n = 2 \/ n = 3) as [->|[->| ->]] by lia; [exfalso..|done];
        assert (bg_term (sch s) = 0 \/ bg_term (sch s) = 1 \/ bg_term (sch s) = 2) as [R|[R|R]] by lia;
        rewrite R in Eq; discriminate. }
    rewrite Eq in H1. pose proof (Hskip 1 ltac:(lia)) as K1. pose proof (Hskip 2 ltac:(lia)) as K2.
    assert (bg_term (sch s) = 0 \/ bg_term (sch s) = 1 \/ bg_term (sch s) = 2) as [R|[R|R]] by lia;
      rewrite R in *; injection H1 as ->; injection K1 as ->; injection K2 as ->; by apply Hcnt. }
  split_and!; [done.. | | done]. by rewrite <- (sw_others _ _ _ _ _ Hsw').
Qed.

(** C11. A timer tick with several initialised terminals: [do_events] always
    finds the next terminal in the cycle of the initialised ones (its search
    terminates), saves the stack pointers and the cursor of the running terminal
    and touches no other saved context, and resumes exactly the context saved for
    the next terminal, with interrupts on. With fewer than two, or inside
    [switchTerm], it returns without any change. *)
Theorem do_events_round_robin f esp ebp s :
  sched_ok (sch s) -> shaped (pg s) -> (exists t, aget (term_init (sch s)) t = Ok 1) ->
  if negb (fake_sti (sch s) =? 0) || (sum_list_with Z.to_nat (term_init (sch s)) =? 1)%nat then
    do_events (3 + f) esp ebp s = Ok (Ret tt, s)
  else
    exists e b s', do_events (3 + f) esp ebp s = Ok (Stop (Resume e b), s') /\
      switched esp ebp (getXY s) (sch s) (sch s') /\ bg_term (sch s') <> bg_term (sch s) /\
      context (sch s) (bg_term (sch s')) = Ok (e, b, getXY s') /\ iflag s' = true.
Proof. apply do_events_spec. Qed.

(** *** Several ticks *)

Lemma next_in_unique ti bg t t' : next_in ti bg t -> next_in ti bg t' -> t = t'.
Proof.
  intros (n & Hn & -> & H1 & Hs) (n' & Hn' & -> & H1' & Hs').
  destruct (Z.lt_trichotomy n n') as [Hlt|[->|Hlt]]; [|done|].
  - specialize (Hs' n ltac:(lia)). congruence.
  - specialize (Hs n' ltac:(lia)). congruence.
Qed.

Lemma next_in_two a b d bg t t' u :
  0 <= bg < 3 -> 0 <= u < 3 -> u <> bg -> aget [a; b; d] u = Ok 1 ->
  next_in [a; b; d] bg t -> next_in [a; b; d] t t' -> t = u \/ t' = u.
Proof.
  intros Hbg Hu Hne Hone (n & Hn & -> & H1 & Hskip) (n' & Hn' & -> & H1' & Hskip').
  assert (Hs1 : 1 < n -> aget [a; b; d] ((bg + 1) mod 3) = Ok 0) by (intros; apply Hskip; lia).
  assert (Hs2 : 2 < n -> aget [a; b; d] ((bg + 2) mod 3) = Ok 0) by (intros; apply Hskip; lia).
  assert (Hs1' : 1 < n' -> aget [a; b; d] (((bg + n) mod 3 + 1) mod 3) = Ok 0) by (intros; apply Hskip'; lia).
  clear Hskip Hskip' H1 H1'.
  assert (n = 1 \/ n = 2 \/ n = 3) as [->|[->| ->]] by lia;
  assert (n' = 1 \/ 1 < n') as [->|Hn2] by lia;
  assert (bg = 0 \/ bg = 1 \/ bg = 2) as [->|[->| ->]] by lia;
  assert (u = 0 \/ u = 1 \/ u = 2) as [->|[->| ->]] by lia; try done; try (by left); try (by right);
  exfalso; try (specialize (Hs1 ltac:(lia))); try (specialize (Hs2 ltac:(lia))); try (specialize (Hs1' ltac:(lia)));
  cbv in Hone, Hs1, Hs2, Hs1'; congruence.
Qed.

(** Two terminals are in use, and ticks switch. *)
Definition several (c : sched_t) : Prop :=
  fake_sti c = 0 /\ exists t u, t <> u /\ aget (term_init c) t = Ok 1 /\ aget (term_init c) u = Ok 1.

Lemma several_count c :
  sched_ok c -> several c -> negb (fake_sti c =? 0) || (sum_list_with Z.to_nat (term_init c) =? 1)%nat = false.
Proof.
  intros Hok (-> & t & u & Hne & Ht & Hu). destruct (so_init _ Hok) as (a & b & d & E & Ha & Hb & Hd).
  rewrite E in *. pose proof (aget_Ok_range _ _ _ Ht) as Rt. pose proof (aget_Ok_range _ _ _ Hu) as Ru.
  change (zlen [a; b; d]) with 3 in *.
  assert (t = 0 \/ t = 1 \/ t = 2) as [->|[->| ->]] by lia; assert (u = 0 \/ u = 1 \/ u = 2) as [->|[->| ->]] by lia;
    try done; injection Ht as ->; injection Hu as ->; first [by destruct Ha as [->| ->] | by destruct Hb as [->| ->] | by destruct Hd as [->| ->]].
Qed.

Lemma switched_several esp ebp xy c c' : switched esp ebp xy c c' -> several c -> several c'.
Proof. intros Hsw (Hf & Ht). split; [by rewrite (sw_fake _ _ _ _ _ Hsw) | by rewrite (sw_init _ _ _ _ _ Hsw)]. Qed.

(** Output of a background terminal stays off the screen: after a tick that
    resumes terminal [t], the kernel's video addresses reach video memory when
    [t] is the terminal on the screen and the 4 kB page number [t] of physical
    memory otherwise. *)
Theorem do_events_video fuel esp ebp s w s' pid i :
  sched_ok (sch s) -> paging_inv (pg s) -> do_events fuel esp ebp s = Ok (Stop w, s') ->
  aget (proc_active (sch s)) (bg_term (sch s')) = Ok pid ->
  (pid = -1 \/ (0 <= pid < 7 /\ aget (proc (pg s)) pid = Ok 1)) -> 0 <= i < 4096 ->
  ktr s' (0xB8000 + i) =
  Some (if active_term (sch s') =? bg_term (sch s') then 0xB8000 + i else 4096 * bg_term (sch s') + i).
Proof.
  intros Hok Hinv E Hpid Hlive Hi.
  destruct (do_events_inv fuel esp ebp s w s' Hok E) as (Hsw & _ & _ & pg1 & pid' & Hpte & Hpid' & Hpg).
  assert (pid' = pid) as -> by congruence. pose proof (so_bg _ (sw_ok _ _ _ _ _ Hsw)) as Hbg.
  set (t := bg_term (sch s')) in *. set (k := if active_term (sch s') =? t then 0xb8 else t) in *.
  assert (Hk : 0 <= k < 2 ^ 20) by (unfold k; case_match; lia).
  rewrite change_pte_put in Hpte by (lia || apply Hinv). injection Hpte as <-.
  pose proof (pte_put_inv _ 0xb8 (2 ^ 12 * k + CTRL_PTE) Hinv ltac:(lia)) as Hinv1.
  assert (Hinv2 : paging_inv (pg s')).
  { rewrite Hpg. apply set_cr3_inv, Hinv1. rewrite testbit_page by lia. done. }
  unfold ktr. rewrite (kernel_low_walk (pg s') (0xB8000 + i) CTRL_PTE k); [| done | | lia | | done | by left].
  - replace (0xB8000 + i) with (2 ^ 12 * 0xb8 + i) by lia.
    assert ((2 ^ 12 * 0xb8 + i) mod 2 ^ 12 = i) as -> by (symmetry; apply (Z.mod_unique_pos _ _ 0xb8); lia).
    unfold k. destruct (_ =? _); f_equal; lia.
  - rewrite Hpg. destruct Hlive as [-> | [Hp Hl]]; [by left |]. right. exists pid. done.
  - rewrite Hpg. replace (0xB8000 + i) with (2 ^ 12 * 0xb8 + i) by lia. rewrite div_page by lia.
    change (PTE (set_cr3 ?a ?b)) with (PTE a). rewrite (aget_pte_put _ _ _ _ (inv_shaped _ Hinv)) by lia. done.
Qed.
End Facts.

(** ** Start-up *)

Section Boot.
Context `{Layout} `{Linker}.

Lemma fill_snoc n p v m : fill (S n) p v m = <[p + Z.of_nat n := v]> (fill n p v m).
Proof. rewrite <- Nat.add_1_r, fill_app. done. Qed.

Lemma zero_loop s :
  Z.testbit (cr0 (pg s)) 31 = false -> zeros_addr + 4096 <= 2 ^ 32 -> bytes_at (ph s) zeros_addr 4096 ->
  for_range 0 4096 (fun i s => kst s (zeros_addr + i) 0) s =
  Ok (set_ph s (fill 4096 zeros_addr 0 (ph s))).
Proof.
  intros Hoff Hz Hb. pose proof zeros_range.
  destruct (for_range_inv (fun i t => t = set_ph s (fill (Z.to_nat i) zeros_addr 0 (ph s)))
    (fun i s => kst s (zeros_addr + i) 0) 0 4096 s) as (s' & E & Hs'); [lia | by destruct s | |].
  - intros i t Hi ->. unfold kst, st. rewrite u32_id by lia.
    rewrite ktr_off by done. change (ph (set_ph s ?m)) with m. rewrite lookup_fill.
    assert (exists b, (if (zeros_addr <=? zeros_addr + i) && (zeros_addr + i <? zeros_addr + Z.of_nat (Z.to_nat i))
      then Some 0 else ph s !! (zeros_addr + i)) = Some b) as (b & ->).
    { destruct (Hb i ltac:(lia)) as (b & Eb & _). rewrite Eb. destruct (_ && _); eauto. }
    eexists. split; [reflexivity |]. replace (Z.to_nat (i + 1)) with (S (Z.to_nat i)) by lia.
    rewrite fill_snoc, Z2Nat.id by lia. done.
  - rewrite E, Hs'. done.
Qed.

(** Start-up: from the loader's state [init_terminals] clears the four pages
    that keep the screens of the terminals and the array it copies from, changes
    no other memory, and leaves terminal 0 on the screen, running and the only
    initialised one, with no process in any terminal. *)
Theorem init_terminals_clears s :
  Z.testbit (cr0 (pg s)) 31 = false -> 0x5000 <= zeros_addr -> zeros_addr + 4096 <= 2 ^ 32 ->
  bytes_at (ph s) zeros_addr 4096 -> bytes_at (ph s) 0x1000 (4 * 4096) ->
  zlen (term_init (sch s)) = 3 -> zlen (proc_active (sch s)) = 3 ->
  exists m, init_terminals s = Ok (set_ph (set_sch s
      (mkSched (cursor_pos (sch s)) 0 [1; 0; 0] [-1; -1; -1] 0 0 (proc_esp (sch s)) (proc_ebp (sch s)))) m) /\
    forall q, m !! q = if ((0x1000 <=? q) && (q <? 0x5000)) || ((zeros_addr <=? q) && (q <? zeros_addr + 4096))
                       then Some 0 else ph s !! q.
Proof.
  intros Hoff Hz1 Hz2 Hbz Hbp Hti Hpa. unfold init_terminals.
  assert (Hthree : forall (l : list Z) x y z, zlen l = 3 ->
    (l1 ← aset l 0 x; l2 ← aset l1 1 y; aset l2 2 z) = Ok [x; y; z]).
  { intros l x y z Hl. destruct l as [|? [|? [|? [|]]]]; try done; unfold zlen in Hl; simpl in Hl; lia. }
  pose proof (Hthree (term_init (sch s)) 1 0 0 Hti) as E1. simpl.
  apply res_bind_ok_inv in E1 as (t1 & -> & E1). rstep. apply res_bind_ok_inv in E1 as (t2 & -> & E1). rstep.
  rewrite E1. rstep. pose proof (Hthree (proc_active (sch s)) (-1) (-1) (-1) Hpa) as E2. simpl.
  apply res_bind_ok_inv in E2 as (p1 & -> & E2). rstep. apply res_bind_ok_inv in E2 as (p2 & -> & E2). rstep.
  rewrite E2. rstep.
  pose (s1 := set_sch s (mkSched (cursor_pos (sch s)) 0 [1; 0; 0] [-1; -1; -1] 0 0
                                  (proc_esp (sch s)) (proc_ebp (sch s)))).
  fold s1. match goal with |- context [for_range 0 4096 _ ?t] => change t with s1 end.
  assert (Hph : ph s1 = ph s) by done. assert (Hpg : pg s1 = pg s) by done. clearbody s1.
  rewrite zero_loop by (rewrite ?Hpg, ?Hph; done). rstep.
  destruct (for_range_inv (fun i t => exists m, t = set_ph s1 m /\
    forall q, m !! q = if ((0x1000 <=? q) && (q <? 0x1000 * i)) || ((zeros_addr <=? q) && (q <? zeros_addr + 4096))
                       then Some 0 else ph s !! q)
    (fun i s => m ← memcpy (ktr s) (ph s) (0x1000 * i) zeros_addr 0x1000; Ok (set_ph s m)) 1 5
    (set_ph s1 (fill 4096 zeros_addr 0 (ph s1)))) as (s' & E & m & -> & Hm); [lia | | |].
  - eexists. split; [reflexivity |]. intros q. rewrite lookup_fill, Hph. by zcases.
  - intros i t Hi (m & -> & Hm). change (ktr (set_ph s1 m)) with (ktr s1). change (ph (set_ph s1 m)) with m.
    assert (Hdst : bytes_at m (0x1000 * i) 4096).
    { intros k Hk. rewrite Hm. destruct (Hbp (0x1000 * i - 0x1000 + k) ltac:(lia)) as (b & Eb & Hb).
      replace (4096 + (4096 * i - 4096 + k)) with (4096 * i + k) in Eb by lia. rewrite Eb.
      destruct (_ || _); [by exists 0 | by exists b]. }
    assert (Hsrc : bytes_at m zeros_addr 4096).
    { intros k Hk. exists 0. rewrite Hm. split; [|done]. by zcases; rewrite ?orb_true_r. }
    destruct (memcpy_spec (ktr s1) m (0x1000 * i) zeros_addr (0x1000 * i) zeros_addr 0x1000 ltac:(lia))
      as (m' & E & Hm').
    { apply maps_off; [by rewrite Hpg | lia.. | done]. }
    { apply maps_off; [by rewrite Hpg | lia.. | done]. }
    { lia. }
    rewrite E. rstep. eexists. split; [done |]. exists m'. split; [done |].
    intros q. rewrite Hm', !Hm. by zcases.
  - exists m. by rewrite E.
Qed.
End Boot.

(** ** Witnesses: terminals 0 and 2 initialised, terminal 0 running on the screen *)

#[local] Existing Instance demo_layout.
#[local] Instance demo_linker : Linker := {| zeros_addr := 0x500000; zeros_range := ltac:(lia) |}.

Definition demo_sched : sched_t :=
  mkSched (replicate 6 [0; 0]) 0 [1; 0; 1] [0; -1; 1] 0 0 [100; 200; 300] [110; 210; 310].

Lemma demo_sched_ok : sched_ok demo_sched.
Proof.
  constructor; try done; try (simpl; lia).
  - intros t Ht. exists [0; 0]. split; [|done].
    assert (t = 0 \/ t = 1 \/ t = 2) as [->|[->| ->]] by lia; done.
  - exists 1, 0, 1. split_and!; auto.
Qed.

Lemma kboot_shaped : shaped (pg (kboot ∅)).
Proof. split_and!; try done. repeat constructor. Qed.

(** The next terminal after 0 in the demonstration is 2. *)
Lemma demo_next s : next_in [1; 0; 1] 0 (bg_term (sch s)) -> bg_term (sch s) <> 0 -> bg_term (sch s) = 2.
Proof.
  intros (n & Hn & Et & H1 & _) Hne. rewrite Et in *.
  assert (n = 1 \/ n = 2 \/ n = 3) as [->|[->| ->]] by lia; [by cbv in H1 | done | done].
Qed.

Lemma do_events_round_robin_witness :
  exists s', do_events 3 7 8 (set_sch (kboot ∅) demo_sched) = Ok (Stop (Resume 300 310), s').
Proof.
  destruct (do_events_round_robin 0 7 8 (set_sch (kboot ∅) demo_sched) demo_sched_ok kboot_shaped)
    as (e & b & s' & E & Hsw & Hne & Hc & _).
  - by exists 0.
  - rewrite (demo_next s' (sw_next _ _ _ _ _ Hsw) Hne) in Hc.
    assert (e = 300 /\ b = 310) as [-> ->] by (cbv in Hc; split; congruence). by exists s'.
Defined.

Lemma do_events_video_witness :
  exists s', bg_term (sch s') = 2 /\ ktr s' (0xB8000 + 5) = Some (4096 * 2 + 5).
Proof.
  destruct demo_two_live as (pg0 & Hinv & L0 & L1 & _).
  set (s := set_pg (set_sch (kboot ∅) demo_sched) pg0).
  destruct (do_events_spec 0 7 8 s demo_sched_ok (inv_shaped _ Hinv)) as (e & b & s' & E & Hsw & Hne & _);
    [by exists 0 |].
  pose proof (demo_next s' (sw_next _ _ _ _ _ Hsw) Hne) as Hbg.
  assert (Hat : active_term (sch s') = 0) by apply Hsw.
  pose proof (do_events_video 3 7 8 s (Resume e b) s' 1 5 demo_sched_ok Hinv E) as Hv.
  rewrite Hbg, Hat in Hv. exists s'. split; [exact Hbg |].
  apply Hv; [reflexivity | by right | lia].
Defined.

Definition demo_pages : kstate := kboot (fill (Z.to_nat 16384) 0x1000 7 (fill 4096 0x500000 7 ∅)).

Lemma init_terminals_clears_witness :
  exists s', init_terminals demo_pages = Ok s' /\ ph s' !! 0x2345 = Some 0.
Proof.
  destruct (init_terminals_clears demo_pages) as (m & E & Hm).
  - reflexivity.
  - simpl. lia.
  - simpl. lia.
  - intros i Hi. exists 7. split; [|by unfold byte_ok].
    change (ph demo_pages) with (fill (Z.to_nat 16384) 0x1000 7 (fill 4096 0x500000 7 ∅)).
    change zeros_addr with 0x500000. rewrite !lookup_fill. by zcases.
  - intros i Hi. exists 7. split; [|by unfold byte_ok].
    change (ph demo_pages) with (fill (Z.to_nat 16384) 0x1000 7 (fill 4096 0x500000 7 ∅)).
    rewrite !lookup_fill. by zcases.
  - reflexivity.
  - reflexivity.
  - eexists. split; [exact E |]. change (ph (set_ph ?s m)) with m. rewrite Hm. reflexivity.
Defined.
