(* ===== verification/Syscalls.v ===== *)
(** * File descriptors

    [student-distrib/sys_call.c], lines 257 to 411 and 497 to 546: the process
    control blocks, the file descriptors and their operation tables, and the calls
    [open], [read], [write] and [close]. [esp] is the kernel stack pointer during
    the call: the code finds the current PCB by masking it. A PCB is accessed
    through the page tables of the moment. A buffer that a call fills is the list
    of its bytes, a buffer that it only reads is a reader. *)

From S2P Require Import Prelude Strings Filesys Paging Mem State Pic Console Rtc Terminal Sched.

Local Open Scope Z_scope.
Local Open Scope kernel_scope.

Definition ESP2PCB : Z := 0xfffe000.

Section Code.
Context `{Layout} `{Env}.

(** ** Process control blocks *)

Definition get_curr_pcb (esp : Z) : Z := Z.land esp ESP2PCB.

Definition pcb_load (s : kstate) (a : Z) : res pcb_t :=
  match ktr s a with
  | Some p => match pcbs s !! p with Some x => Ok x | None => Undef end
  | None => Undef
  end.

Definition pcb_store (s : kstate) (a : Z) (x : pcb_t) : res kstate :=
  match ktr s a with
  | Some p => match pcbs s !! p with Some _ => Ok (set_pcbs s (<[p := x]> (pcbs s))) | None => Undef end
  | None => Undef
  end.

Definition set_fd_list (p : pcb_t) x := mkPcb x (old_pcb p) (kstack p) (old_ebp p) (proc_id p).
Definition set_flags (f : fd_t) x := mkFd (fotp f) (inode f) (fp f) x.
Definition set_inode (f : fd_t) x := mkFd (fotp f) x (fp f) (flags f).
Definition set_fp (f : fd_t) x := mkFd (fotp f) (inode f) x (flags f).
Definition set_fotp (f : fd_t) x := mkFd x (inode f) (fp f) (flags f).

(** [get_curr_pcb()->fd[i]] and an update of it. *)
Definition fd_get (s : kstate) (esp i : Z) : res fd_t :=
  p ← pcb_load s (get_curr_pcb esp); aget (fd p) i.
Definition fd_upd (s : kstate) (esp i : Z) (f : fd_t -> fd_t) : res kstate :=
  p ← pcb_load s (get_curr_pcb esp);
  x ← aget (fd p) i;
  l ← aset (fd p) i (f x);
  pcb_store s (get_curr_pcb esp) (set_fd_list p l).

(** ** File operations *)

(** [file_open] of [filesys.c]. *)
Definition file_open (fuel : nat) (s : kstate) (esp fd : Z) (fname : reader) : res (Z * kstate) :=
  '(r, myDentry) ← read_dentry_by_name fuel (kld s) (fs s) fname uninit_dentry;
  if r <? 0 then Ok (-1, s)
  else s ← fd_upd s esp fd (fun f => set_inode f (inode_num myDentry)); Ok (0, s).

Definition fnc_fopen := file_open.

Definition fnc_fread (s : kstate) (esp fd : Z) (my_buf : list Z) (nbytes : Z)
  : res (Z * list Z * kstate) :=
  f ← fd_get s esp fd;
  '(bytes_read, my_buf) ← read_data (kld s) (fs s) (inode f) (fp f) my_buf nbytes;
  s ← fd_upd s esp fd (fun f => set_fp f (u32 (fp f + bytes_read)));
  Ok (bytes_read, my_buf, s).

Definition fnc_fwrite : Z := file_write.
Definition fnc_term_open : Z := open_terminal.
Definition fnc_term_read (my_buf : list Z) (nbytes : Z) : K (Z * list Z) :=
  read_terminal my_buf (s32 nbytes).
Definition fnc_term_write (s : kstate) (my_buf : reader) (nbytes : Z) : res (Z * kstate) :=
  write_terminal s my_buf (s32 nbytes).
Definition fnc_rtc_open : Z := rtc_open.
Definition fnc_rtc_read : K Z := rtc_read.
Definition fnc_rtc_write (s : kstate) (my_buf : reader) : res (Z * kstate) :=
  freq ← rd32 my_buf 0; Ok (0, rtc_write s (s32 freq)).
Definition fnc_dir_open : Z := 0.
Definition fnc_dir_read (s : kstate) (my_buf : list Z) : res (Z * list Z * kstate) :=
  '(r, fs', my_buf) ← dir_read (kld s) (fs s) my_buf; Ok (r, my_buf, set_fs s fs').
Definition fnc_dir_write : Z := 0.

(** The tables [otp_terminal], [otp_dir], [otp_rtc] and [otp_file], by entry. A
    table pointer that was never set is a jump to an unknown address. *)
Definition fotp_open (t : fotp_t) (fuel : nat) (s : kstate) (esp fd : Z) (name : reader) : res (Z * kstate) :=
  match t with
  | otp_terminal => Ok (fnc_term_open, s)
  | otp_dir => Ok (fnc_dir_open, s)
  | otp_rtc => Ok (fnc_rtc_open, s)
  | otp_file => fnc_fopen fuel s esp fd name
  | otp_none => Undef
  end.

Definition fotp_read (t : fotp_t) (esp fd : Z) (my_buf : list Z) (nbytes : Z) : K (Z * list Z) :=
  match t with
  | otp_terminal => fnc_term_read my_buf nbytes
  | otp_dir => fun s => '(r, b, s) ← fnc_dir_read s my_buf; Ok (Ret (r, b), s)
  | otp_rtc => let! r := fnc_rtc_read in kret (r, my_buf)
  | otp_file => fun s => '(r, b, s) ← fnc_fread s esp fd my_buf nbytes; Ok (Ret (r, b), s)
  | otp_none => fun _ => Undef
  end.

Definition fotp_write (t : fotp_t) (s : kstate) (my_buf : reader) (nbytes : Z) : res (Z * kstate) :=
  match t with
  | otp_terminal => fnc_term_write s my_buf nbytes
  | otp_dir => Ok (fnc_dir_write, s)
  | otp_rtc => fnc_rtc_write s my_buf
  | otp_file => Ok (fnc_fwrite, s)
  | otp_none => Undef
  end.

(** ** [open], [read], [write], [close] *)

(** [for(i=2; i<8; i++) if (!(fd[i].flags & 1)) ...] *)
Fixpoint find_fd (n : nat) (l : list fd_t) (i : Z) : res Z :=
  match n with
  | O => Ok (-1)
  | S n => f ← aget l i; if Z.land (flags f) 1 =? 0 then Ok i else find_fd n l (i + 1)
  end.

(** The switch on the type of the file. *)
Definition open_type (ty : Z) (f : fd_t) : fd_t :=
  if ty =? 0 then set_fotp (set_inode (set_flags f (Z.lor (flags f) 0)) 0) otp_rtc
  else if ty =? 1 then set_fotp (set_inode (set_flags f (Z.lor (flags f) 2)) 0) otp_dir
  else if ty =? 2 then set_fp (set_fotp (set_flags f (Z.lor (flags f) 4)) otp_file) 0
  else f.

(** The comparison of [filename] with the address of a string literal of the
    kernel is false for every pointer a program can pass. *)
Definition sys_open (fuel : nat) (s : kstate) (esp : Z) (filename : reader) : res (Z * kstate) :=
  pcb ← pcb_load s (get_curr_pcb esp);
  fd ← find_fd 6 (State.fd pcb) 2;
  if fd =? -1 then Ok (fd, s) else
  '(r, myDentry) ← read_dentry_by_name fuel (kld s) (fs s) filename uninit_dentry;
  if r =? -1 then Ok (-1, s) else
  s ← fd_upd s esp fd (fun f => set_flags f 1);
  s ← fd_upd s esp fd (open_type (file_type myDentry));
  f ← fd_get s esp fd;
  '(r, s) ← fotp_open (fotp f) fuel s esp fd filename;
  if r <? 0 then s ← fd_upd s esp fd (fun f => set_flags f 0); Ok (-1, s)
  else Ok (fd, sti s).

Definition sys_read (esp fd : Z) (my_buf : list Z) (nbytes : Z) : K (Z * list Z) := fun s =>
  if (fd <? 0) || (7 <? fd) || (fd =? 1) then Ok (Ret (-1, my_buf), s) else
  f ← fd_get s esp fd;
  if Z.land (flags f) 1 =? 0 then Ok (Ret (-1, my_buf), s)
  else fotp_read (fotp f) esp fd my_buf nbytes (sti s).

Definition sys_write (s : kstate) (esp fd : Z) (my_buf : reader) (nbytes : Z) : res (Z * kstate) :=
  if (fd <=? 0) || (7 <? fd) then Ok (-1, s) else
  f ← fd_get s esp fd;
  if Z.land (flags f) 1 =? 0 then Ok (-1, s) else fotp_write (fotp f) s my_buf nbytes.

Definition sys_close (s : kstate) (esp fd : Z) : res (Z * kstate) :=
  if (fd <? 2) || (7 <? fd) then Ok (-1, s) else
  f ← fd_get s esp fd;
  if Z.land (flags f) 1 =? 0 then Ok (-1, s)
  else s ← fd_upd s esp fd (fun f => set_flags f 0); Ok (0, s).
End Code.

(** ** The current process *)

(** The stack pointer [esp] finds the PCB [p], at physical address [a]. *)
Record current `{Layout} (s : kstate) (esp a : Z) (p : pcb_t) : Prop := {
  cur_addr : ktr s (get_curr_pcb esp) = Some a;
  cur_pcb : pcbs s !! a = Some p;
  cur_fds : zlen (fd p) = 8
}.

(** The state with descriptor [i] of the PCB at [a] replaced. *)
Definition put_fd (s : kstate) (a : Z) (p : pcb_t) (i : Z) (f : fd_t) : kstate :=
  set_pcbs s (<[a := set_fd_list p (<[Z.to_nat i := f]> (fd p))]> (pcbs s)).

Section Facts.
Context `{Layout} `{Env}.

Lemma pcb_load_current s esp a p : current s esp a p -> pcb_load s (get_curr_pcb esp) = Ok p.
Proof. intros [Ha Hp _]. unfold pcb_load. by rewrite Ha, Hp. Qed.

Lemma fd_get_current s esp a p i : current s esp a p -> fd_get s esp i = aget (fd p) i.
Proof. intros Hc. unfold fd_get. by rewrite (pcb_load_current _ _ _ _ Hc). Qed.

Lemma fd_upd_current s esp a p i f g :
  current s esp a p -> aget (fd p) i = Ok f ->
  fd_upd s esp i g = Ok (put_fd s a p i (g f)) /\
  current (put_fd s a p i (g f)) esp a (set_fd_list p (<[Z.to_nat i := g f]> (fd p))).
Proof.
  intros Hc Hf. pose proof (aget_Ok_range _ _ _ Hf) as Hi. split.
  - unfold fd_upd. rewrite (pcb_load_current _ _ _ _ Hc). rstep. rewrite Hf. rstep.
    rewrite aset_in by done. rstep. unfold pcb_store. destruct Hc as [Ha Hp _]. by rewrite Ha, Hp.
  - destruct Hc as [Ha Hp Hl]. constructor; [done | apply lookup_insert_eq |]. simpl. by rewrite zlen_insert.
Qed.

Lemma put_fd_twice s a p i f g :
  put_fd (put_fd s a p i f) a (set_fd_list p (<[Z.to_nat i := f]> (fd p))) i g = put_fd s a p i g.
Proof.
  unfold put_fd, set_fd_list. simpl. rewrite insert_insert_eq, list_insert_insert_eq. done.
Qed.

(** *** Looking for a free descriptor *)

Definition present (f : fd_t) : bool := negb (Z.land (flags f) 1 =? 0).

Lemma find_fd_spec l n i :
  i + Z.of_nat n <= zlen l -> 0 <= i ->
  exists r, find_fd n l i = Ok r /\
    ((r = -1 /\ forall j f, i <= j < i + Z.of_nat n -> aget l j = Ok f -> present f = true) \/
     (i <= r < i + Z.of_nat n /\ (exists f, aget l r = Ok f /\ present f = false) /\
      forall j f, i <= j < r -> aget l j = Ok f -> present f = true)).
Proof.
  revert i. induction n as [|n IH]; intros i Hl Hi; cbn [find_fd].
  { exists (-1). split; [done |]. left. split; [done | lia]. }
  destruct (aget_in_range l i) as [f Hf]; [lia |]. rewrite Hf. rstep.
  destruct (Z.eqb_spec (Z.land (flags f) 1) 0) as [E|E].
  - exists i. split; [done |]. right. split_and!; [lia | lia | | lia].
    exists f. unfold present. by rewrite E.
  - assert (Hp : present f = true) by (unfold present; by apply negb_true_iff, Z.eqb_neq).
    destruct (IH (i + 1) ltac:(lia) ltac:(lia)) as (r & -> & Hr). exists r. split; [done |].
    destruct Hr as [[-> Hall] | (Hr & Hfree & Hall)].
    + left. split; [done |]. intros j g Hj Hg. destruct (decide (j = i)) as [->|]; [congruence |].
      apply (Hall j); [lia | done].
    + right. split_and!; [lia | lia | done |]. intros j g Hj Hg.
      destruct (decide (j = i)) as [->|]; [congruence |]. apply (Hall j); [lia | done].
Qed.

(** *** [open] *)

(** The descriptor of a newly opened entry, made from the free one. *)
Definition opened (d : dentry_t) (f : fd_t) : fd_t :=
  if file_type d =? 0 then mkFd otp_rtc 0 (fp f) 1
  else if file_type d =? 1 then mkFd otp_dir 0 (fp f) 3
  else mkFd otp_file (inode_num d) 0 5.

(** [open]. With all of descriptors 2 to 7 in use, or for a name the directory
    does not have, the call gives -1 and changes nothing. Otherwise it returns the
    lowest free descriptor, now present, with the operations of the entry's type,
    and for a regular file with its inode and position 0; no other descriptor and
    nothing else of the kernel's state changes, but that interrupts are on. *)
Lemma sys_open_spec s esp a p ds fname name fuel :
  current s esp a p -> dir_is (kld s) (fs s) ds -> cstr fname name ->
  zlen name < 2 ^ 31 -> (length name < fuel)%nat ->
  (forall d, d ∈ ds -> (file_type d = 0 \/ file_type d = 1 \/ file_type d = 2) /\
     exists B, rd32 (kld s) (inode_addr (fs s) (inode_num d)) = Ok B /\ 0 <= B < 2 ^ 31) ->
  (sys_open fuel s esp fname = Ok (-1, s) /\
     ((forall j f, 2 <= j < 8 -> aget (fd p) j = Ok f -> present f = true) \/
      31 < zlen name \/ (forall d, d ∈ ds -> dname d <> name))) \/
  (exists i f j d, sys_open fuel s esp fname = Ok (i, sti (put_fd s a p i (opened d f))) /\
     2 <= i < 8 /\ aget (fd p) i = Ok f /\ present f = false /\
     (forall k g, 2 <= k < i -> aget (fd p) k = Ok g -> present g = true) /\
     zlen name <= 31 /\ list_find (fun d => dname d = name) ds = Some (j, d)).
Proof.
  intros Hcur Hdir Hname Hlen Hfuel Hents. unfold sys_open.
  rewrite (pcb_load_current _ _ _ _ Hcur). rstep. pose proof (cur_fds _ _ _ _ Hcur) as Hl.
  destruct (find_fd_spec (fd p) 6 2) as (i & -> & Hi); [lia | lia |]. rstep.
  destruct Hi as [[-> Hfull] | (Hi & (f & Hf & Hfree) & Hlow)].
  { left. split; [done |]. left. intros j g Hj. apply Hfull. lia. }
  destruct (Z.eqb_spec i (-1)); [lia |].
  pose proof (read_dentry_by_name_spec fuel (kld s) (fs s) ds fname name uninit_dentry Hdir Hname Hlen Hfuel eq_refl)
    as Hread.
  rewrite Hread. destruct (Z.ltb_spec 31 (zlen name)) as [Hlong|Hshort].
  { rstep. left. split; [done |]. right. by left. }
  destruct (list_find (fun d => dname d = name) ds) as [[j d]|] eqn:Efind.
  2:{ rstep. left. split; [done |]. right; right. intros d Hd.
      apply list_find_None in Efind. rewrite Forall_forall in Efind. by apply (Efind d Hd). }
  pose proof Efind as (Hj & Hdn & _)%list_find_Some.
  destruct (Hents d (list_elem_of_lookup_2 _ _ _ Hj)) as (Hty & B & HB & HBr).
  rewrite HB in *. rstep. rewrite s32_id in * by lia. destruct (Z.eqb_spec B (-1)); [lia |].
  right. exists i, f, j, d. split; [|split_and!; done || lia].
  destruct (fd_upd_current s esp a p i f (fun f => set_flags f 1) Hcur Hf) as (-> & Hcur1). rstep.
  set (f1 := set_flags f 1) in *.
  assert (Hf1 : aget (fd (set_fd_list p (<[Z.to_nat i:=f1]> (fd p)))) i = Ok f1) by (apply aget_insert_eq; lia).
  destruct (fd_upd_current _ esp a _ i f1 (open_type (file_type (found_dentry d uninit_dentry))) Hcur1 Hf1)
    as (-> & Hcur2). rstep. rewrite put_fd_twice in *.
  set (f2 := open_type _ f1) in *.
  assert (Hfds2 : aget (fd (set_fd_list p (<[Z.to_nat i:=f2]> (fd p)))) i = Ok f2) by (apply aget_insert_eq; lia).
  assert (Hcur2' : current (put_fd s a p i f2) esp a (set_fd_list p (<[Z.to_nat i:=f2]> (fd p)))).
  { unfold set_fd_list in *. simpl in Hcur2. by rewrite list_insert_insert_eq in Hcur2. }
  rewrite (fd_get_current _ _ _ _ _ Hcur2'), Hfds2. rstep. unfold opened.
  destruct Hty as [E|[E|E]]; rewrite E; subst f2; simpl file_type; rewrite E; simpl; try done.
  unfold fnc_fopen, file_open. change (kld (put_fd ?s _ _ _ _)) with (kld s).
  change (fs (put_fd ?s _ _ _ _)) with (fs s). rewrite Hread. rstep.
  rewrite s32_id by lia. destruct (Z.ltb_spec B 0); [lia |].
  destruct (fd_upd_current _ esp a _ i _ (fun f => set_inode f (inode_num d)) Hcur2' Hfds2) as (E3 & _).
  simpl file_type in E3. rewrite E in E3. simpl in E3. simpl inode_num. rewrite E3. rstep. simpl.
  unfold put_fd, set_fd_list. simpl. rewrite insert_insert_eq, list_insert_insert_eq. done.
Qed.

(** C24. [open]. With all of descriptors 2 to 7 in use, or for a name the directory
    does not have, the call gives -1 and changes nothing. Otherwise it returns the
    lowest free descriptor, now present, with the operations of the entry's type,
    and for a regular file with its inode and position 0; no other descriptor and
    nothing else of the kernel's state changes, but that interrupts are on. *)
Theorem sys_open_allocates s esp a p ds fname name fuel :
  current s esp a p -> dir_is (kld s) (fs s) ds -> cstr fname name ->
  zlen name < 2 ^ 31 -> (length name < fuel)%nat ->
  (forall d, d ∈ ds -> (file_type d = 0 \/ file_type d = 1 \/ file_type d = 2) /\
     exists B, rd32 (kld s) (inode_addr (fs s) (inode_num d)) = Ok B /\ 0 <= B < 2 ^ 31) ->
  (sys_open fuel s esp fname = Ok (-1, s) /\
     ((forall j f, 2 <= j < 8 -> aget (fd p) j = Ok f -> present f = true) \/
      31 < zlen name \/ (forall d, d ∈ ds -> dname d <> name))) \/
  (exists i f j d, sys_open fuel s esp fname = Ok (i, sti (put_fd s a p i (opened d f))) /\
     2 <= i < 8 /\ aget (fd p) i = Ok f /\ present f = false /\
     (forall k g, 2 <= k < i -> aget (fd p) k = Ok g -> present g = true) /\
     ds !! j = Some d /\ dname d = name).
Proof.
  intros Hc Hd Hn Hl Hf He. destruct (sys_open_spec s esp a p ds fname name fuel Hc Hd Hn Hl Hf He)
    as [?|(i & f & j & d & E & Hi & Hp & Hpr & Hlow & _ & (Hj & Hdn & _)%list_find_Some)]; [by left |].
  right. by exists i, f, j, d.
Qed.

(** *** Reading an open file *)

(** Descriptor [i] of the current process is open on a file with the bytes
    [content]. *)
Record file_open_at (s : kstate) (esp a i : Z) (content : list Z) (p : pcb_t) (f : fd_t) : Prop := {
  fo_current : current s esp a p;
  fo_range : 0 <= i < 8 /\ i <> 1;
  fo_fd : aget (fd p) i = Ok f;
  fo_present : present f = true;
  fo_fotp : fotp f = otp_file;
  fo_file : file_at (kld s) (fs s) (inode f) content;
  fo_pos : 0 <= fp f <= zlen content
}.

Lemma sys_read_open_file s esp a i content p f (my_buf : list Z) n :
  file_open_at s esp a i content p f ->
  let cs := take (Z.to_nat n) (drop (Z.to_nat (fp f)) content) in
  (length cs <= length my_buf)%nat ->
  let f' := set_fp f (fp f + zlen cs) in
  let s' := sti (put_fd s a p i f') in
  sys_read esp i my_buf n s = Ok (Ret (zlen cs, cs ++ drop (length cs) my_buf), s') /\
  file_open_at s' esp a i content (set_fd_list p (<[Z.to_nat i := f']> (fd p))) f'.
Proof.
  intros [Hcur Hi Hf Hp Hop Hfile Hpos] cs Hb f' s'.
  assert (Hcs : fp f + zlen cs <= zlen content).
  { subst cs. unfold zlen in *. rewrite length_take, length_drop. lia. }
  pose proof (proj1 (proj2 (proj2 Hfile))) as Hlen. pose proof (zlen_nonneg cs).
  unfold sys_read. destruct (Z.ltb_spec i 0); [lia |]. destruct (Z.ltb_spec 7 i); [lia |].
  destruct (Z.eqb_spec i 1); [lia |]. cbn [orb].
  rewrite (fd_get_current _ _ _ _ _ Hcur), Hf. rstep. unfold present in Hp.
  apply negb_true_iff in Hp. rewrite Hp, Hop. cbn [fotp_read]. unfold fnc_fread.
  assert (Hcur1 : current (sti s) esp a p) by (destruct Hcur; by constructor).
  rewrite (fd_get_current _ _ _ _ _ Hcur1), Hf. rstep. change (kld (sti s)) with (kld s).
  change (fs (sti s)) with (fs s).
  rewrite (read_data_array (kld s) (fs s) (inode f) content) by (done || lia). fold cs. rstep.
  destruct (fd_upd_current (sti s) esp a p i f (fun f => set_fp f (u32 (fp f + zlen cs))) Hcur1 Hf) as (-> & _).
  rstep. rewrite u32_id by lia. fold f'. split; [done |].
  destruct (fd_upd_current s esp a p i f (fun _ => f') Hcur Hf) as (_ & Hcur2).
  pose proof (cur_fds _ _ _ _ Hcur). constructor; try done.
  - destruct Hcur2. by constructor.
  - apply aget_insert_eq. lia.
  - unfold present. by apply negb_true_iff.
  - simpl. unfold f'. simpl. lia.
Qed.

(** What a program gets that reads descriptor [i] into the same buffer, [n] bytes
    at a time, until [read] returns 0: the bytes delivered, or [None] when a
    read fails or does not return. *)
Fixpoint read_all (fuel : nat) (esp i : Z) (my_buf : list Z) (n : Z) (s : kstate)
  : res (option (list Z) * kstate) :=
  match fuel with
  | O => NoFuel
  | S fuel =>
      '(r, s) ← sys_read esp i my_buf n s;
      match r with
      | Ret (cnt, my_buf) =>
          if cnt <? 0 then Ok (None, s) else if cnt =? 0 then Ok (Some [], s) else
          '(rest, s) ← read_all fuel esp i my_buf n s;
          Ok (option_map (app (take (Z.to_nat cnt) my_buf)) rest, s)
      | Stop _ => Ok (None, s)
      end
  end.

Lemma read_all_from fuel s esp a i content p f my_buf n :
  file_open_at s esp a i content p f -> 0 < n <= zlen my_buf ->
  zlen content - fp f < Z.of_nat fuel ->
  exists s' p' f', read_all fuel esp i my_buf n s = Ok (Some (drop (Z.to_nat (fp f)) content), s') /\
    file_open_at s' esp a i content p' f' /\ fp f' = zlen content.
Proof.
  revert s p f my_buf. induction fuel as [|fuel IH]; intros s p f my_buf Hopen Hn Hfuel.
  { pose proof (fo_pos _ _ _ _ _ _ _ Hopen). lia. }
  pose proof (fo_pos _ _ _ _ _ _ _ Hopen) as Hpos.
  set (rest := drop (Z.to_nat (fp f)) content). cbn [read_all].
  assert (Hlr : length rest = Z.to_nat (zlen content - fp f)).
  { unfold rest. rewrite length_drop. unfold zlen in *. lia. }
  destruct (sys_read_open_file s esp a i content p f my_buf n Hopen) as (E & Hopen').
  { fold rest. rewrite length_take. unfold zlen in Hn. lia. }
  fold rest in E, Hopen'. rewrite E. rstep. clear E.
  set (cs := take (Z.to_nat n) rest) in *. pose proof (zlen_nonneg cs).
  assert (Hlc : length cs = (Z.to_nat n `min` length rest)%nat) by (unfold cs; by rewrite length_take).
  destruct (Z.ltb_spec (zlen cs) 0); [lia |]. destruct (Z.eqb_spec (zlen cs) 0) as [E0|E0].
  - eexists _, _, _. split_and!; [| exact Hopen' |].
    + do 3 f_equal. symmetry. apply nil_length_inv. unfold zlen in *. lia.
    + simpl. unfold zlen in *. lia.
  - destruct (IH _ _ _ (cs ++ drop (length cs) my_buf) Hopen') as (s' & p' & f' & -> & Hf' & Hend).
    + split; [lia |]. unfold zlen in *. rewrite length_app, length_drop. lia.
    + simpl. unfold zlen in *. lia.
    + rstep. exists s', p', f'. split; [|done]. do 3 f_equal. simpl fp.
      replace (Z.to_nat (zlen cs)) with (length cs) by (unfold zlen; lia).
      rewrite take_app_length. change (fp (set_fp f ?x)) with x.
      rewrite Z2Nat.inj_add by lia. replace (Z.to_nat (zlen cs)) with (length cs) by (unfold zlen; lia).
      rewrite <- drop_drop. fold rest. unfold cs at 1. rewrite <- (take_drop (Z.to_nat n) rest) at 3.
      f_equal. rewrite Hlc. destruct (Nat.le_gt_cases (Z.to_nat n) (length rest)).
      * by rewrite Nat.min_l.
      * rewrite Nat.min_r by lia. by rewrite !drop_ge by lia.
Qed.

(** C27. Reading a file. Through a descriptor that is open on a file, successive
    [read]s of any positive size, until one returns 0, deliver the bytes of the
    file from the descriptor's position on, each exactly once and in order; the
    position is at the end of the file after that. The reads need no more rounds
    than the file has bytes left, and one. *)
Theorem read_all_file fuel s esp a i content p f my_buf n :
  file_open_at s esp a i content p f -> 0 < n <= zlen my_buf ->
  zlen content - fp f < Z.of_nat fuel ->
  exists s' p' f', read_all fuel esp i my_buf n s = Ok (Some (drop (Z.to_nat (fp f)) content), s') /\
    file_open_at s' esp a i content p' f' /\ fp f' = zlen content.
Proof. apply read_all_from. Qed.

(** *** Descriptors that are not open *)

Definition closed_at (p : pcb_t) (i : Z) : Prop :=
  exists f, aget (fd p) i = Ok f /\ present f = false.

Lemma descriptor_errors_spec s esp a p i (my_buf : list Z) (src : reader) n :
  current s esp a p ->
  (i < 0 \/ 7 < i \/ i = 1 \/ closed_at p i ->
     sys_read esp i my_buf n s = Ok (Ret (-1, my_buf), s)) /\
  (i <= 0 \/ 7 < i \/ closed_at p i -> sys_write s esp i src n = Ok (-1, s)) /\
  (i < 2 \/ 7 < i \/ closed_at p i -> sys_close s esp i = Ok (-1, s)) /\
  (forall f, 2 <= i < 8 -> aget (fd p) i = Ok f -> present f = true ->
     sys_close s esp i = Ok (0, put_fd s a p i (set_flags f 0))).
Proof.
  intros Hcur. pose proof (cur_fds _ _ _ _ Hcur) as Hl.
  assert (Hclosed : closed_at p i -> exists f, fd_get s esp i = Ok f /\ (Z.land (flags f) 1 =? 0) = true).
  { intros (f & Hf & Hp). exists f. rewrite (fd_get_current _ _ _ _ _ Hcur). split; [done |].
    unfold present in Hp. by apply negb_false_iff in Hp. }
  split_and!.
  - intros H1. unfold sys_read. destruct ((i <? 0) || (7 <? i) || (i =? 1)) eqn:E; [done |].
    destruct H1 as [?|[?|[?|Hc]]]; [lia.. |]. destruct (Hclosed Hc) as (f & -> & Ef). rstep. by rewrite Ef.
  - intros H1. unfold sys_write. destruct ((i <=? 0) || (7 <? i)) eqn:E; [done |].
    destruct H1 as [?|[?|Hc]]; [lia.. |]. destruct (Hclosed Hc) as (f & -> & Ef). rstep. by rewrite Ef.
  - intros H1. unfold sys_close. destruct ((i <? 2) || (7 <? i)) eqn:E; [done |].
    destruct H1 as [?|[?|Hc]]; [lia.. |]. destruct (Hclosed Hc) as (f & -> & Ef). rstep. by rewrite Ef.
  - intros f Hi Hf Hp. unfold sys_close. destruct ((i <? 2) || (7 <? i)) eqn:E; [lia |].
    rewrite (fd_get_current _ _ _ _ _ Hcur), Hf. rstep. unfold present in Hp. apply negb_true_iff in Hp.
    rewrite Hp. destruct (fd_upd_current s esp a p i f (fun f => set_flags f 0) Hcur Hf) as (-> & Hcur').
    by rstep.
Qed.

(** A descriptor that is closed or out of range: [read], [write] and [close]
    give -1 and change nothing, and so does a [read] of the descriptor of standard
    output, a [write] of the one of standard input and a [close] of either; and
    [close] makes a descriptor such a one. *)
Theorem descriptor_errors s esp a p i (my_buf : list Z) (src : reader) n :
  current s esp a p ->
  (i < 0 \/ 7 < i \/ i = 1 \/ closed_at p i ->
     sys_read esp i my_buf n s = Ok (Ret (-1, my_buf), s)) /\
  (i <= 0 \/ 7 < i \/ closed_at p i -> sys_write s esp i src n = Ok (-1, s)) /\
  (i < 2 \/ 7 < i \/ closed_at p i -> sys_close s esp i = Ok (-1, s)) /\
  (forall f, 2 <= i < 8 -> aget (fd p) i = Ok f -> present f = true ->
     exists s' p', sys_close s esp i = Ok (0, s') /\ current s' esp a p' /\ closed_at p' i /\
       forall j, j <> i -> aget (fd p') j = aget (fd p) j).
Proof.
  intros Hcur. destruct (descriptor_errors_spec s esp a p i my_buf src n Hcur) as (H1 & H2 & H3 & H4).
  pose proof (cur_fds _ _ _ _ Hcur) as Hl. split_and!; [done.. |]. intros f Hi Hf Hp.
  destruct (fd_upd_current s esp a p i f (fun f => set_flags f 0) Hcur Hf) as (_ & Hcur').
  eexists _, _. split; [by apply H4 |]. split; [exact Hcur' |]. split.
  - eexists. split; [apply aget_insert_eq; lia | done].
  - intros j Hj. apply aget_insert_ne; lia.
Qed.
End Facts.

(** ** A concrete process

    The image: a directory of itself, the clock, the file [hi] (five bytes) and the program
    [go] (an ELF header with its entry point at [0x8048018]). *)

Section Demo.

Definition demo_base : Z := 4194304.
Definition le32 (v : Z) : list Z := map (fun k => u8 (Z.shiftr v (8 * k))) [0; 1; 2; 3].
Definition demo_dentry (name : list Z) (ty ino : Z) : dentry_t :=
  mkDentry (name ++ replicate (32 - length name) 0) ty ino [].
Definition demo_ents : list dentry_t :=
  [demo_dentry [46] 1 0; demo_dentry [104; 105] 2 1; demo_dentry [103; 111] 2 2; demo_dentry [114; 116; 99] 0 0].
Definition demo_hi : list Z := [104; 101; 108; 108; 111].
Definition demo_go : list Z :=
  [0x7F; 0x45; 0x4c; 0x46] ++ replicate 20 1 ++ le32 0x8048018.

Definition entry_bytes (d : dentry_t) : list Z :=
  file_name d ++ le32 (file_type d) ++ le32 (inode_num d) ++ replicate 24 0.

Definition place (a : Z) (bs : list Z) : mem := list_to_map (imap (fun i b => (a + Z.of_nat i, b)) bs).

Definition demo_image : mem :=
  place demo_base (le32 4 ++ le32 3 ++ le32 2) ∪
  place (demo_base + 64) (concat (map entry_bytes demo_ents)) ∪
  place (demo_base + 4096) (le32 0 ++ le32 0) ∪
  place (demo_base + 8192) (le32 5 ++ le32 0) ∪
  place (demo_base + 12288) (le32 28 ++ le32 1) ∪
  place (demo_base + 16384) demo_hi ∪
  place (demo_base + 20480) demo_go.

Definition demo_fs : filesys := mkFs 4 3 2 demo_base (demo_base + 64) (demo_base + 4096)
  (demo_base + 16384) 0.

Lemma demo_fs_meta : set_filesys_meta (page_rd demo_image) demo_base = Ok demo_fs.
Proof. vm_compute. reflexivity. Qed.

Lemma demo_ents_dir : dir_is (page_rd demo_image) demo_fs demo_ents.
Proof. apply dir_isb_is. vm_compute. reflexivity. Qed.

Lemma demo_hi_file : file_at (page_rd demo_image) demo_fs 1 demo_hi.
Proof. apply file_atb_at. vm_compute. reflexivity. Qed.

Lemma demo_go_file : file_at (page_rd demo_image) demo_fs 2 demo_go.
Proof. apply file_atb_at. vm_compute. reflexivity. Qed.

#[local] Existing Instance demo_layout.
#[local] Instance demo_env : Env := {| port_in := fun _ _ => 0 |}.

(** Process 0 runs; its descriptors 0 and 1 are the terminal. *)
Definition demo_pcb : pcb_t :=
  mkPcb ([mkFd otp_terminal 0 0 7; mkFd otp_terminal 0 0 7] ++ replicate 6 (mkFd otp_none 0 0 0)) 0 0 0 0.

Definition demo_esp : Z := 0x7fffabc.

Definition demo_process (pg0 : paging) : kstate :=
  set_pcbs (set_fs (set_pg (kboot demo_image) pg0) demo_fs) {[ 0x3fe000 := demo_pcb ]}.

Lemma demo_current pg0 :
  paging_inv pg0 -> cr3 pg0 = 1 -> aget (proc pg0) 0 = Ok 1 ->
  current (demo_process pg0) demo_esp 0x3fe000 demo_pcb /\
  rd_le (page_rd demo_image) (kld (demo_process pg0)).
Proof.
  intros Hinv Hcr Hlive. split.
  - constructor; [|apply lookup_insert_eq | done].
    change (get_curr_pcb demo_esp) with 0x7ffe000. unfold ktr.
    rewrite (kernel_high_walk pg0 0) by (done || lia). done.
  - apply (page_rd_kld (demo_process pg0)); [done |]. right. exists 0. split; [lia | done].
Qed.

Lemma demo_process_exists : exists s, current s demo_esp 0x3fe000 demo_pcb /\
  rd_le (page_rd demo_image) (kld s) /\ fs s = demo_fs.
Proof.
  destruct demo_two_live as (pg0 & Hinv & L0 & _). exists (demo_process (set_cr3 pg0 1)).
  split_and!; [by apply demo_current; [apply set_cr3_inv | |].. | done].
Qed.

Lemma demo_hi_open : exists s p f, file_open_at s demo_esp 0x3fe000 2 demo_hi p f /\ fp f = 1.
Proof.
  destruct demo_process_exists as (s & Hc & Hrd & Hfs).
  set (f := mkFd otp_file 1 1 5). assert (Hf : aget (fd demo_pcb) 2 = Ok (mkFd otp_none 0 0 0)) by done.
  destruct (fd_upd_current s _ _ _ 2 _ (fun _ => f) Hc Hf) as (_ & Hc').
  eexists _, _, f. split; [|done]. constructor; [exact Hc' | lia | done | done | done | | done].
  change (kld (put_fd ?s _ _ _ _)) with (kld s). change (fs (put_fd ?s _ _ _ _)) with (fs s).
  rewrite Hfs. by apply (file_at_mono (page_rd demo_image)), demo_hi_file.
Qed.

Lemma sys_open_allocates_witness :
  exists s, sys_open 10 s demo_esp (aget [104; 105; 0]) =
    Ok (2, sti (put_fd s 0x3fe000 demo_pcb 2 (mkFd otp_file 1 0 5))).
Proof.
  destruct demo_process_exists as (s & Hc & Hrd & Hfs). exists s.
  destruct (sys_open_allocates s demo_esp 0x3fe000 demo_pcb demo_ents (aget [104; 105; 0]) [104; 105] 10)
    as [(_ & [Hfull|[Hlong|Hno]]) | (i & f & j & d & -> & Hi & Hf & Hp & Hlow & Hd & Hn)].
  - done.
  - rewrite Hfs. by apply (dir_is_mono (page_rd demo_image)), demo_ents_dir.
  - apply (cstr_array [104; 105] []). repeat constructor; lia.
  - done.
  - simpl. lia.
  - intros d Hd. assert (Hin : d = demo_dentry [46] 1 0 \/ d = demo_dentry [104; 105] 2 1 \/
      d = demo_dentry [103; 111] 2 2 \/ d = demo_dentry [114; 116; 99] 0 0)
      by (apply list_elem_of_In in Hd; simpl in Hd; destruct Hd as [?|[?|[?|[?|[]]]]]; auto).
    rewrite Hfs. destruct Hin as [ -> | [ -> | [ -> | -> ] ] ]; (split; [simpl; lia |]).
    + exists 0. split; [by apply (rd32_mono (page_rd demo_image)) | lia].
    + exists 5. split; [by apply (rd32_mono (page_rd demo_image)) | lia].
    + exists 28. split; [by apply (rd32_mono (page_rd demo_image)) | lia].
    + exists 0. split; [by apply (rd32_mono (page_rd demo_image)) | lia].
  - specialize (Hfull 2 _ ltac:(lia) eq_refl). done.
  - done.
  - exfalso. apply (Hno (demo_dentry [104; 105] 2 1)); [by apply (list_elem_of_lookup_2 _ 1) | done].
  - assert (i = 2) as ->.
    { destruct (decide (i = 2)); [done |]. specialize (Hlow 2 _ ltac:(lia) eq_refl). done. }
    injection Hf as <-. do 4 (destruct j as [|j]; [injection Hd as <-; try done|]). done.
Defined.

Lemma read_all_file_witness :
  exists s s', read_all 6 demo_esp 2 (replicate 2 0) 2 s = Ok (Some [101; 108; 108; 111], s').
Proof.
  destruct demo_hi_open as (s & p & f & Hf & Hp). exists s.
  destruct (read_all_file 6 s demo_esp 0x3fe000 2 demo_hi p f (replicate 2 0) 2 Hf)
    as (s' & p' & f' & -> & _).
  - done.
  - rewrite Hp. done.
  - exists s'. by rewrite Hp.
Defined.

Lemma descriptor_errors_witness :
  exists s, sys_read demo_esp 5 [] 0 s = Ok (Ret (-1, []), s) /\ sys_close s demo_esp 1 = Ok (-1, s).
Proof.
  destruct demo_process_exists as (s & Hc & _). exists s.
  destruct (descriptor_errors s demo_esp 0x3fe000 demo_pcb 5 [] (fun _ => Undef) 0 Hc) as (E1 & _).
  destruct (descriptor_errors s demo_esp 0x3fe000 demo_pcb 1 [] (fun _ => Undef) 0 Hc) as (_ & _ & E2 & _).
  split; [apply E1 | apply E2; lia]. right; right; right. by eexists.
Defined.
End Demo.
