(* ===== verification/Process.v ===== *)
(** * Processes

    [student-distrib/sys_call.c], lines 13 to 255 and 422 to 494, and
    [sys_call_jmptable.S]: [getargs], starting a program with [execute], ending it
    with [halt], [vidmap], and the dispatcher. [read_data] reads the file system
    image with the memory contents at its call, also while it stores the program:
    the image and the program's frame are different memory. *)

From S2P Require Import Prelude Strings Filesys Paging Mem State Pic Console Rtc Terminal Sched Syscalls.

Local Open Scope Z_scope.
Local Open Scope kernel_scope.

Definition _4KB : Z := 4096.
Definition _8KB : Z := 8192.
Definition _4MB : Z := 4194304.
Definition _128MB : Z := 134217728.
Definition _PROC_STORAGE : Z := 0x8048000.
Definition CHECK_MASK : Z := 0x400000.
Definition _10MSB : Z := 0xffe000.
Definition namesize : Z := 64.
Definition PROC_HEADER_EIP : Z := 24.
Definition PCB_FLAG_TERM_PRESENT : Z := 0x7.

(** Program memory as the destination of [read_data]. *)
Record kbuf := mkKbuf { kb_base : Z; kb_state : kstate }.

Section Code.
Context `{Layout}.

#[local] Instance kbuf_sink : Sink kbuf := fun b i c =>
  s ← kst (kb_state b) (kb_base b + i) c; Ok (mkKbuf (kb_base b) s).

(** ** [getargs] *)

(** The loop that copies the argument; [None] is [return -1] inside it. *)
Fixpoint getargs_loop (n : nat) (args : list Z) (buf1 : list Z) (i nbytes : Z) : res (option Z * list Z) :=
  match n with
  | O => NoFuel
  | S n =>
      c ← aget args i;
      if negb (c =? 32) && negb (c =? 0) && negb (c =? 10) && (i <? nbytes) then
        buf1 ← aset buf1 i c;
        if 30 <=? i then Ok (None, buf1) else getargs_loop n args buf1 (i + 1) nbytes
      else Ok (Some i, buf1)
  end.

(** The loop ends after 31 rounds at the latest. *)
Definition getargs (s : kstate) (buf1 : list Z) (nbytes : Z) : res (Z * list Z) :=
  c ← aget (args s) 0;
  if (c =? 10) || (c =? 0) then Ok (-1, buf1) else
  '(r, buf1) ← getargs_loop 32 (args s) buf1 0 nbytes;
  match r with
  | None => Ok (-1, buf1)
  | Some i =>
      buf1 ← strcpy (S (length (args s))) buf1 (aget (args s));
      buf1 ← aset buf1 i 0;
      Ok (0, buf1)
  end.

(** ** [execute] *)

(** [temp2]: the first 20 bytes of the command; the rest of the array is never
    written, so that reading it is an error of the program. *)
Definition copy_command (command : reader) : res (list Z) :=
  for_range 0 20 (fun i t => c ← command i; Ok (t ++ [u8 c])) [].

(** [for (i = 0; temp2[i] != ' ' && temp2[i] != NULL && temp2[i] != '\n'; i++);] *)
Fixpoint name_end (n : nat) (temp2 : list Z) (i : Z) : res Z :=
  match n with
  | O => NoFuel
  | S n =>
      c ← aget temp2 i;
      if negb (c =? 32) && negb (c =? 0) && negb (c =? 10) then name_end n temp2 (i + 1) else Ok i
  end.

(** [while(temp2[j] == ' ') j++;] *)
Fixpoint skip_blanks (n : nat) (temp2 : list Z) (j : Z) : res Z :=
  match n with
  | O => NoFuel
  | S n => c ← aget temp2 j; if c =? 32 then skip_blanks n temp2 (j + 1) else Ok j
  end.

(** The loop that fills [args]. *)
Fixpoint copy_args (n : nat) (temp2 args : list Z) (j k : Z) : res (list Z * Z) :=
  match n with
  | O => NoFuel
  | S n =>
      c ← aget temp2 j;
      if negb (c =? 10) && negb (c =? 0) then
        args ← aset args k c; copy_args n temp2 args (j + 1) (k + 1)
      else Ok (args, k)
  end.

(** Each of the three loops moves through the 20 bytes, so [21] rounds are
    enough. *)
Definition parse_command (s : kstate) (command : reader) : res (list Z * list Z) :=
  temp2 ← copy_command command;
  i ← name_end 21 temp2 0;
  file_name ← strncpy (replicate (Z.to_nat (namesize / 2)) 0) (aget temp2) i;
  j ← skip_blanks 21 temp2 i;
  '(args, k) ← copy_args 21 temp2 (args s) j 0;
  args ← aset args k 0;
  Ok (file_name, args).

(** What [execute] stores in the PCB of the new process. *)
Definition term_fd : fd_t := mkFd otp_terminal 0 0 PCB_FLAG_TERM_PRESENT.

Definition init_pcb (p : pcb_t) (old_ESP old_EBP pid : Z) : res pcb_t :=
  l ← aset (fd p) 0 term_fd;
  l ← aset l 1 term_fd;
  Ok (mkPcb l (Z.land old_ESP _10MSB) old_ESP old_EBP pid).

Definition elf_magic : list Z := [0x7F; 0x45; 0x4c; 0x46].

(** [execute] up to the choice of a process slot; [None] is [return -1]. *)
Definition execute_load (fuel : nat) (command : reader) (s : kstate)
  : res (option (dentry_t * Z * Z) * kstate) :=
  '(file_name, args') ← parse_command s command;
  let s := set_args s args' in
  '(file_size, dentry) ← read_dentry_by_name fuel (kld s) (fs s) (aget file_name) uninit_dentry;
  if file_size =? -1 then Ok (None, s) else
  '(bytes_read, file_buf) ← read_data (kld s) (fs s) (inode_num dentry) 0
      (replicate (Z.to_nat file_size) 0) file_size;
  if bytes_read =? -1 then Ok (None, s) else
  b0 ← aget file_buf 0; b1 ← aget file_buf 1; b2 ← aget file_buf 2; b3 ← aget file_buf 3;
  if negb ((b0 =? 0x7F) && (b1 =? 0x45) && (b2 =? 0x4c) && (b3 =? 0x46)) then Ok (None, s) else
  '(n, new_addr) ← read_data (kld s) (fs s) (inode_num dentry) PROC_HEADER_EIP (replicate 4 0) 4;
  if n <? 4 then Undef (* bytes of [new_addr] that were never written *) else
  addr ← rd32 (aget new_addr) 0;
  Ok (Some (dentry, file_size, addr), s).

(** From the process slot on. *)
Definition execute_enter (dentry : dentry_t) (file_size addr old_ESP old_EBP : Z) : K Z := fun s =>
  '(pid, pg') ← new_pde (pg s) addr;
  let s := set_pg s pg' in
  if pid =? -1 then Ok (Ret (-1), s) else
  s ← new_process s pid;
  let s := set_pg s (set_cr3 (pg s) (pid + 1)) in
  let s := set_tss s (mkTss KERNEL_DS (_128MB - _8KB * pid - 4) (tss_esp (tss s)) (tss_ebp (tss s)) (tss_ldt (tss s))) in
  '(_, b) ← read_data (kld s) (fs s) (inode_num dentry) 0 (mkKbuf _PROC_STORAGE s) file_size;
  let s := kb_state b in
  let new_pcb := _128MB - (pid + 1) * _8KB in
  p ← pcb_load s new_pcb;
  p ← init_pcb p old_ESP old_EBP pid;
  s ← pcb_store s new_pcb p;
  s ← kchange_pte s 0xb8 0xb8;
  s ← (if active_term (sch s) =? bg_term (sch s) then
         m ← memcpy (ktr s) (ph s) (_4KB + active_term (sch s) * _4KB) 0xb8000 _4KB; Ok (set_ph s m)
       else Ok s);
  let '(_, pg') := change_cr3 (pg s) pid in
  let s := set_pg s pg' in
  (* [pushf] comes before [sti], so [iret] restores the flag of before *)
  Ok (Stop (EnterUser addr (_128MB + _4MB - 4)), s).

Definition execute (fuel : nat) (command : reader) (old_ESP old_EBP : Z) : K Z := fun s =>
  '(r, s) ← execute_load fuel command s;
  match r with
  | None => Ok (Ret (-1), s)
  | Some (dentry, file_size, addr) => execute_enter dentry file_size addr old_ESP old_EBP s
  end.

(** ** [halt] *)

Definition halt (esp : Z) : K Z := fun s =>
  pcb ← pcb_load s (get_curr_pcb esp);
  if proc_id pcb =? 0 then Ok (Stop ExitShell, s) else
  pg' ← remove_page (pg s) (proc_id pcb);
  let s := set_pg s pg' in
  let s := set_tss_stack s (kstack pcb) (kstack pcb) (old_ebp pcb) in
  act ← is_active s (proc_id pcb);
  if negb (act =? 0) then
    parent_pcb ← pcb_load s (old_pcb pcb);
    s ← remove_process s (proc_id parent_pcb) (kstack pcb) (old_ebp pcb);
    let s := sti s in
    let s := set_pg s (set_cr3 (pg s) (proc_id parent_pcb + 1)) in
    Ok (Stop (UsrEnd (kstack pcb) (old_ebp pcb)), s)
  else Ok (Ret 0, s).

(** ** [vidmap] and the unimplemented calls *)

Definition sys_vidmap (s : kstate) (esp addr : Z) : res (Z * kstate) :=
  if addr =? CHECK_MASK then Ok (-1, s) else
  if addr =? 0 then Ok (-1, s) else
  p ← pcb_load s (get_curr_pcb esp);
  pg' ← vidmap_pages (pg s) (proc_id p);
  let s := set_pg s pg' in
  let vid_addr := Z.lor (Z.shiftl 12 22) (Z.shiftl 1 12) in
  m ← stn (ktr s) 4 (ph s) addr vid_addr;
  let s := set_ph s m in
  v ← ldn (ktr s) 4 (ph s) addr;
  if v =? vid_addr then Ok (0, s) else Ok (-1, s).

Definition sys_set_handler : Z := -1.
Definition sys_sigreturn : Z := -1.
Definition sys_error : Z := -1.
End Code.

(** ** The dispatcher

    [jump_table] and the checks of [sys_call]: the call number in EAX, as a
    signed word, picks an entry. *)

Inductive syscall : Type :=
| Halt | Execute | Sys_read | Sys_write | Sys_open | Sys_close | Getargs | Sys_vidmap
| Sys_set_handler | Sys_sigreturn | Sys_error.

Definition jump_table : list syscall :=
  [Halt; Execute; Sys_read; Sys_write; Sys_open; Sys_close; Getargs; Sys_vidmap;
   Sys_set_handler; Sys_sigreturn; Sys_error].

Definition sys_call_entry (eax : Z) : res syscall :=
  let eax := s32 (eax - 1) in
  let eax := if eax <? 0 then 10 else if 10 <? eax then 10 else eax in
  aget jump_table eax.

#[export] Existing Instance kbuf_sink.

(** ** Parsing the command *)

Section Parse.

(** A byte that ends the name of a command. *)
Definition name_stop (c : Z) : bool := (c =? 32) || (c =? 0) || (c =? 10).
Definition arg_stop (c : Z) : bool := (c =? 10) || (c =? 0).

Lemma copy_command_spec command cl :
  field command cl -> length cl = 20%nat -> copy_command command = Ok cl.
Proof.
  intros Hc Hl. unfold copy_command.
  destruct (for_range_inv (fun i t => t = take (Z.to_nat i) cl)
    (fun i t => c ← command i; Ok (t ++ [u8 c])) 0 20 []) as (t & -> & ->); [lia | done | |].
  - intros j t Hj ->. destruct (lookup_lt_is_Some_2 cl (Z.to_nat j)) as [c Hx]; [lia |].
    destruct (Hc _ _ Hx) as (E & Hb). rewrite Z2Nat.id in E by lia. rewrite E. rstep.
    eexists. split; [done |]. rewrite u8_id by done. replace (Z.to_nat (j + 1)) with (S (Z.to_nat j)) by lia.
    by rewrite (take_S_r _ _ _ Hx).
  - f_equal. rewrite take_ge; [done | lia].
Qed.

Lemma name_end_spec name : forall n pre t rest,
  Forall (fun c => name_stop c = false) name -> name_stop t = true -> (length name < n)%nat ->
  name_end n (pre ++ name ++ t :: rest) (zlen pre) = Ok (zlen pre + zlen name).
Proof.
  induction name as [|c name IH]; intros n pre t rest Hn Ht Hl; (destruct n as [|n]; [simpl in Hl; lia |]);
    cbn [name_end app].
  - rewrite aget_app_mid by done. rstep. unfold name_stop in Ht.
    replace (negb (t =? 32) && negb (t =? 0) && negb (t =? 10)) with false by (by destruct (t =? 32), (t =? 0), (t =? 10)).
    do 2 f_equal. change (zlen (@nil Z)) with 0. lia.
  - rewrite aget_app_mid by done. rstep. apply Forall_cons in Hn as [Hc Hn]. unfold name_stop in Hc.
    replace (negb (c =? 32) && negb (c =? 0) && negb (c =? 10)) with true by (by destruct (c =? 32), (c =? 0), (c =? 10)).
    rewrite <- snoc_shift. replace (zlen pre + 1) with (zlen (pre ++ [c])) by (by rewrite zlen_app, zlen_cons).
    rewrite IH by (done || (simpl in Hl; lia)). rewrite zlen_app, !zlen_cons. change (zlen (@nil Z)) with 0. f_equal; lia.
Qed.

Lemma skip_blanks_spec k : forall n pre t rest,
  t <> 32 -> (k < n)%nat ->
  skip_blanks n (pre ++ replicate k 32 ++ t :: rest) (zlen pre) = Ok (zlen pre + Z.of_nat k).
Proof.
  induction k as [|k IH]; intros n pre t rest Ht Hl; (destruct n as [|n]; [lia |]); cbn [skip_blanks replicate app].
  - rewrite aget_app_mid by done. rstep. destruct (Z.eqb_spec t 32); [done |]. f_equal. lia.
  - rewrite aget_app_mid by done. rstep. cbn [Z.eqb Pos.eqb].
    rewrite <- snoc_shift. replace (zlen pre + 1) with (zlen (pre ++ [32])) by (by rewrite zlen_app, zlen_cons).
    rewrite IH by (done || lia). rewrite zlen_app, !zlen_cons. change (zlen (@nil Z)) with 0. f_equal; lia.
Qed.

Lemma copy_args_spec arg : forall n pre t rest apre arest,
  Forall (fun c => arg_stop c = false) arg -> arg_stop t = true -> (length arg < n)%nat ->
  (length arg <= length arest)%nat ->
  copy_args n (pre ++ arg ++ t :: rest) (apre ++ arest) (zlen pre) (zlen apre) =
  Ok (apre ++ arg ++ drop (length arg) arest, zlen apre + zlen arg).
Proof.
  induction arg as [|c arg IH]; intros n pre t rest apre arest Ha Ht Hn Hr;
    (destruct n as [|n]; [simpl in Hn; lia |]); cbn [copy_args app].
  - rewrite aget_app_mid by done. rstep. unfold arg_stop in Ht.
    replace (negb (t =? 10) && negb (t =? 0)) with false by (by destruct (t =? 0), (t =? 10)).
    simpl. do 2 f_equal. change (zlen (@nil Z)) with 0. lia.
  - rewrite aget_app_mid by done. rstep. apply Forall_cons in Ha as [Hc Ha]. unfold arg_stop in Hc.
    replace (negb (c =? 10) && negb (c =? 0)) with true by (by destruct (c =? 0), (c =? 10)).
    destruct arest as [|x arest]; [simpl in Hr; lia |]. rewrite aset_app_mid by done. rstep.
    rewrite <- (snoc_shift pre), <- (snoc_shift apre).
    replace (zlen pre + 1) with (zlen (pre ++ [c])) by (by rewrite zlen_app, zlen_cons).
    replace (zlen apre + 1) with (zlen (apre ++ [c])) by (by rewrite zlen_app, zlen_cons).
    rewrite IH by (done || (simpl in *; lia)). rewrite snoc_shift, zlen_app, !zlen_cons. change (zlen (@nil Z)) with 0.
    simpl. f_equal; f_equal. lia.
Qed.

(** A command in the form a shell passes it: the name, blanks, the argument and
    the end of the line. Only the first 20 bytes count. *)
Record command_is (command : reader) (name : list Z) (k : nat) (arg : list Z) (t : Z) (rest : list Z) : Prop := {
  ci_field : field command (name ++ replicate k 32 ++ arg ++ t :: rest);
  ci_length : length (name ++ replicate k 32 ++ arg ++ t :: rest) = 20%nat;
  ci_name : Forall (fun c => name_stop c = false) name;
  ci_arg : Forall (fun c => arg_stop c = false) arg;
  ci_first : arg = [] \/ (exists c arg', arg = c :: arg' /\ c <> 32 /\ (0 < k)%nat);
  ci_end : arg_stop t = true
}.

Lemma parse_command_spec s command name k arg t rest :
  command_is command name k arg t rest -> zlen (args s) = 1024 ->
  parse_command s command =
  Ok (name ++ replicate (32 - length name) 0, arg ++ 0 :: drop (S (length arg)) (args s)).
Proof.
  intros [Hf Hl Hname Harg Hfirst Ht] Ha. unfold parse_command.
  rewrite (copy_command_spec _ _ Hf Hl). rstep.
  assert (Hnext : exists u r, replicate k 32 ++ arg ++ t :: rest = u :: r /\ name_stop u = true).
  { destruct k as [|k]; [|by exists 32, (replicate k 32 ++ arg ++ t :: rest)].
    destruct Hfirst as [->|(c & arg' & _ & _ & Hk)]; [|lia]. exists t, rest. split; [done |].
    revert Ht. unfold arg_stop, name_stop. by destruct (t =? 10), (t =? 0), (t =? 32). }
  destruct Hnext as (u & r & Eu & Hu).
  assert (Hnl : (length name < 20)%nat) by (rewrite Eu, length_app in Hl; simpl in Hl; lia).
  pose proof (name_end_spec name 21 [] u r Hname Hu ltac:(lia)) as E1. rewrite <- Eu in E1.
  simpl app in E1 at 1. change (zlen (@nil Z)) with 0 in E1. rewrite E1. rstep.
  rewrite (strncpy_spec _ name); [| |lia| |].
  - assert (Eup : upto_nul name = name).
    { clear -Hname. induction Hname as [|c name Hc _ IH]; [done |]. simpl. unfold name_stop in Hc.
      destruct (c =? 0); [by destruct (c =? 32) | by rewrite IH]. }
    rewrite Eup, Nat.sub_diag. simpl app at 2. rstep. rewrite Z.add_0_l.
    assert (Hu2 : exists v r2, arg ++ t :: rest = v :: r2 /\ v <> 32).
    { destruct Hfirst as [->|(c & arg' & -> & Hc & _)]; [|by exists c, (arg' ++ t :: rest)].
      exists t, rest. split; [done |]. intros ->. done. }
    destruct Hu2 as (v & r2 & Ev & Hv).
    assert (Hkl : (k < 21)%nat) by (rewrite !length_app, length_replicate in Hl; lia).
    pose proof (skip_blanks_spec k 21 name v r2 Hv Hkl) as E2. rewrite <- Ev in E2. rewrite E2. rstep.
    pose proof (copy_args_spec arg 21 (name ++ replicate k 32) t rest [] (args s) Harg Ht) as E3.
    rewrite <- app_assoc in E3. simpl app in E3. rewrite !zlen_app in E3.
    assert (zlen (replicate k 32) = Z.of_nat k) as Hk by (unfold zlen; by rewrite length_replicate).
    assert (Hal : (length arg < 21)%nat) by (rewrite !length_app in Hl; lia).
    rewrite Hk in E3. change (zlen (@nil Z)) with 0 in E3. rewrite E3; [|lia|unfold zlen in Ha; lia]. rstep.
    destruct (drop (length arg) (args s)) as [|x more] eqn:Ed.
    { apply (f_equal length) in Ed. rewrite length_drop in Ed. unfold zlen in Ha. simpl in Ed. lia. }
    rewrite aset_app_mid by lia. rstep. do 2 f_equal.
    + rewrite drop_replicate. done.
    + do 2 f_equal. change more with (drop 1 (x :: more)). rewrite <- Ed, drop_drop. f_equal. lia.
  - intros n c Hc. apply (lookup_app_l_Some _ (replicate k 32 ++ arg ++ t :: rest)) in Hc as Hc'.
    split; [by apply aget_nat | by apply (Hf n c)].
  - intros _. rewrite Eu. exists u. rewrite aget_app_mid; [done | lia].
  - rewrite length_replicate. change (Z.to_nat (namesize / 2)) with 32%nat. lia.
Qed.
End Parse.

(** ** Loading a program *)

Section Load.
Context `{Layout}.

(** The entry point that an ELF header holds. *)
Definition entry_point (content : list Z) : res Z := rd32 (aget (take 4 (drop 24 content))) 0.

(** What the parser of the command leaves behind, also when [execute] fails. *)
Definition with_args (s : kstate) (arg : list Z) : kstate :=
  set_args s (arg ++ 0 :: drop (S (length arg)) (args s)).

Section Spec.
Context (fuel : nat) (s : kstate) (command : reader).
Context (name : list Z) (k : nat) (arg : list Z) (t : Z) (rest : list Z) (ds : list dentry_t).
Hypothesis Hcmd : command_is command name k arg t rest.
Hypothesis Hargs : zlen (args s) = 1024.
Hypothesis Hdir : dir_is (kld s) (fs s) ds.
Hypothesis Hfuel : (20 <= fuel)%nat.

Lemma command_name : cstr (aget (name ++ replicate (32 - length name) 0)) name /\ (length name < 20)%nat.
Proof.
  destruct Hcmd as [Hf Hl Hname _ _ _]. rewrite !length_app in Hl. simpl in Hl. split; [|lia].
  destruct (32 - length name)%nat as [|n] eqn:E; [lia |]. apply cstr_array.
  apply Forall_lookup. intros i c Hc. split.
  - pose proof (Forall_lookup_1 _ _ _ _ Hname Hc) as Hs. unfold name_stop in Hs. by intros ->.
  - apply (Hf i). by apply lookup_app_l_Some.
Qed.

Lemma execute_load_lookup :
  execute_load fuel command s =
  match list_find (fun d => dname d = name) ds with
  | None => Ok (None, with_args s arg)
  | Some (_, d) =>
      B ← rd32 (kld s) (inode_addr (fs s) (inode_num d));
      (if s32 B =? -1 then Ok (None, with_args s arg) else
       '(bytes_read, file_buf) ← read_data (kld s) (fs s) (inode_num d) 0 (replicate (Z.to_nat (s32 B)) 0) (s32 B);
       if bytes_read =? -1 then Ok (None, with_args s arg) else
       b0 ← aget file_buf 0; b1 ← aget file_buf 1; b2 ← aget file_buf 2; b3 ← aget file_buf 3;
       if negb ((b0 =? 0x7F) && (b1 =? 0x45) && (b2 =? 0x4c) && (b3 =? 0x46)) then Ok (None, with_args s arg) else
       '(n, new_addr) ← read_data (kld s) (fs s) (inode_num d) PROC_HEADER_EIP (replicate 4 0) 4;
       if n <? 4 then Undef else
       addr ← rd32 (aget new_addr) 0;
       Ok (Some (found_dentry d uninit_dentry, s32 B, addr), with_args s arg))
  end.
Proof.
  unfold execute_load. rewrite (parse_command_spec s command name k arg t rest) by done. rstep.
  change (kld (set_args ?s _)) with (kld s). change (fs (set_args ?s _)) with (fs s).
  destruct command_name as (Hn & Hl). assert (Hz : zlen name <= 20) by (unfold zlen; lia).
  rewrite (read_dentry_by_name_spec fuel (kld s) (fs s) ds _ name) by (done || lia).
  destruct (Z.ltb_spec 31 (zlen name)); [lia |].
  destruct (list_find _ ds) as [[j d]|]; [|done]. rewrite res_bind_assoc.
  destruct (rd32 _ _) as [B| |]; [|done..]. rstep. done.
Qed.

(** A name that the directory does not have, and a file that is not an ELF
    executable, give -1. *)
Lemma execute_load_missing :
  (forall d, d ∈ ds -> dname d <> name) -> execute_load fuel command s = Ok (None, with_args s arg).
Proof.
  intros Hno. rewrite execute_load_lookup. destruct (list_find _ ds) as [[j d]|] eqn:E; [|done].
  apply list_find_Some in E as (Hj & Hd & _). by destruct (Hno d (list_elem_of_lookup_2 _ _ _ Hj)).
Qed.

Lemma execute_load_found j d content :
  list_find (fun d => dname d = name) ds = Some (j, d) ->
  file_at (kld s) (fs s) (inode_num d) content -> 4 <= zlen content ->
  (take 4 content <> elf_magic -> execute_load fuel command s = Ok (None, with_args s arg)) /\
  (forall addr, take 4 content = elf_magic -> 28 <= zlen content -> entry_point content = Ok addr ->
     execute_load fuel command s = Ok (Some (found_dentry d uninit_dentry, zlen content, addr), with_args s arg)).
Proof.
  intros Hj Hfile Hlen. rewrite execute_load_lookup, Hj. pose proof (proj1 (proj2 (proj2 Hfile))) as Hlt.
  rewrite (proj1 (proj2 (proj2 (proj2 Hfile)))). rstep. rewrite s32_id by lia.
  destruct (Z.eqb_spec (zlen content) (-1)); [lia |].
  assert (Hto : Z.to_nat (zlen content) = length content) by (unfold zlen; lia).
  pose proof (read_data_array (kld s) (fs s) (inode_num d) content 0 (replicate (length content) 0)
                (zlen content) Hfile ltac:(lia)) as E.
  cbv zeta in E. rewrite Hto, drop_0, take_ge in E by lia.
  rewrite Hto, E by (by rewrite length_replicate). clear E. rstep.
  destruct (Z.eqb_spec (zlen content) (-1)); [lia |].
  rewrite drop_ge, app_nil_r by (by rewrite length_replicate).
  assert (exists c0 c1 c2 c3 more, content = c0 :: c1 :: c2 :: c3 :: more) as (c0 & c1 & c2 & c3 & more & Ec).
  { destruct content as [|c0 [|c1 [|c2 [|c3 more]]]]; unfold zlen in Hlen; simpl in Hlen; try lia. by eexists _, _, _, _, _. }
  assert (Hget : aget content 0 = Ok c0 /\ aget content 1 = Ok c1 /\ aget content 2 = Ok c2 /\ aget content 3 = Ok c3)
    by by rewrite Ec.
  destruct Hget as (-> & -> & -> & ->). rstep.
  assert (Htake : take 4 content = [c0; c1; c2; c3]) by by rewrite Ec. rewrite Htake. unfold elf_magic.
  split.
  - intros Hne. destruct (Z.eqb_spec c0 0x7F), (Z.eqb_spec c1 0x45), (Z.eqb_spec c2 0x4c), (Z.eqb_spec c3 0x46);
      simpl; try done. congruence.
  - intros addr [= -> -> -> ->] Hl Haddr. simpl negb. cbv iota. unfold PROC_HEADER_EIP.
    rewrite (read_data_array (kld s) (fs s) (inode_num d) content) by
      (done || lia || (simpl; rewrite length_take; lia)).
    change (Z.to_nat 4) with 4%nat. change (Z.to_nat 24) with 24%nat.
    assert (E4 : length (take 4 (drop 24 content)) = 4%nat).
    { rewrite length_take, length_drop. unfold zlen in Hl. lia. }
    assert (zlen (take 4 (drop 24 content)) = 4) as -> by (unfold zlen; lia). rstep.
    change (4 <? 4) with false. cbv iota. rewrite E4, (drop_ge (replicate 4 0)), app_nil_r by (simpl; lia).
    unfold entry_point in Haddr. rewrite Haddr. done.
Qed.
End Spec.

(** *** Storing the program *)

Fixpoint put_bytes (pa : Z) (cs : list Z) (m : mem) : mem :=
  match cs with [] => m | c :: cs => put_bytes (pa + 1) cs (<[pa := c]> m) end.

Lemma lookup_put_bytes pa cs m q :
  put_bytes pa cs m !! q = if (pa <=? q) && (q <? pa + zlen cs) then cs !! Z.to_nat (q - pa) else m !! q.
Proof.
  revert pa m. induction cs as [|c cs IH]; intros pa m; cbn [put_bytes].
  { change (zlen (@nil Z)) with 0. by zcases. }
  rewrite IH, zlen_cons. pose proof (zlen_nonneg cs). destruct (decide (q = pa)) as [->|].
  - rewrite lookup_insert_eq, Z.sub_diag. zcases.
  - rewrite lookup_insert_ne by done.
    destruct (Z.leb_spec (pa + 1) q), (Z.leb_spec pa q), (Z.ltb_spec q (pa + 1 + zlen cs)),
      (Z.ltb_spec q (pa + (1 + zlen cs))); simpl; try lia; try done.
    replace (Z.to_nat (q - pa)) with (S (Z.to_nat (q - (pa + 1)))) by lia. done.
Qed.

Lemma kbuf_put b s i c :
  sink_put (mkKbuf b s) i c = (s ← kst s (b + i) c; Ok (mkKbuf b s)).
Proof. reflexivity. Qed.

Lemma load_program b pa cs : forall i s,
  Forall byte_ok cs ->
  (forall j, i <= j < i + zlen cs -> ktr s (u32 (b + j)) = Some (pa + j) /\ is_Some (ph s !! (pa + j))) ->
  sink_puts (mkKbuf b s) i cs = Ok (mkKbuf b (set_ph s (put_bytes (pa + i) cs (ph s)))).
Proof.
  induction cs as [|c cs IH]; intros i s Hok Hm; cbn [sink_puts put_bytes].
  { do 2 f_equal. by destruct s. }
  apply Forall_cons in Hok as [Hc Hok]. rewrite zlen_cons in Hm. pose proof (zlen_nonneg cs).
  destruct (Hm i ltac:(lia)) as (Ht & x & Hx).
  rewrite kbuf_put. unfold kst, st. rewrite Ht, Hx, u8_id by done. rstep.
  rewrite IH; [| done |].
  - simpl. by rewrite Z.add_assoc.
  - intros j Hj. destruct (Hm j ltac:(lia)) as (Ht' & Hs). split; [exact Ht' |]. simpl.
    by rewrite lookup_insert_ne by lia.
Qed.
End Load.

(** ** Entering a program *)

Section Enter.
Context `{Layout}.

(** The physical address of the PCB of process [q], in its kernel stack block. *)
Definition pcb_addr (q : Z) : Z := 2 ^ 22 - 8192 * (q + 1).

(** The physical address where the program of process [q] is loaded. *)
Definition load_addr (q : Z) : Z := frame (q + 1) + 0x48000.

Lemma block_31 x : 0 < x <= 2 ^ 22 -> (2 ^ 27 - x) / 2 ^ 22 = 31 /\ (2 ^ 27 - x) mod 2 ^ 22 = 2 ^ 22 - x.
Proof.
  intros Hx. split.
  - symmetry. apply (Z.div_unique _ _ _ (2 ^ 22 - x)); lia.
  - symmetry. apply (Z.mod_unique _ _ 31); lia.
Qed.

Lemma pcb_walk pg q r :
  paging_inv pg -> 0 <= q < 7 -> cr3 pg = q + 1 -> aget (proc pg) q = Ok 1 -> 0 <= r < 8 ->
  walk pg false (_128MB - (r + 1) * _8KB) = Some (pcb_addr r).
Proof.
  intros Hinv Hq Hcr Hlive Hr. unfold _128MB, _8KB, pcb_addr.
  destruct (block_31 ((r + 1) * 8192)) as (Hd & Hm); [lia |].
  change 134217728 with (2 ^ 27). rewrite (kernel_high_walk pg q) by (done || lia).
  rewrite Hd, Hm. simpl. f_equal. lia.
Qed.

Lemma load_walk pg q user j :
  paging_inv pg -> 0 <= q < 7 -> cr3 pg = q + 1 -> aget (proc pg) q = Ok 1 -> 0 <= j < 2 ^ 22 - 0x48000 ->
  walk pg user (_PROC_STORAGE + j) = Some (load_addr q + j).
Proof.
  intros Hinv Hq Hcr Hlive Hj. unfold _PROC_STORAGE, load_addr.
  assert (Hd : (0x8048000 + j) / 2 ^ 22 = 32) by (symmetry; apply (Z.div_unique _ _ _ (0x48000 + j)); lia).
  assert (Hm : (0x8048000 + j) mod 2 ^ 22 = 0x48000 + j) by (symmetry; apply (Z.mod_unique _ _ 32); lia).
  destruct user.
  - destruct (user_view_at pg q) as (vid & screen & Hv); try done. rewrite Hv by lia. cbv zeta. rewrite Hd, Hm.
    simpl. f_equal. lia.
  - rewrite (kernel_high_walk pg q) by (done || lia). rewrite Hd, Hm. simpl. f_equal. lia.
Qed.

(** [q] is the lowest free process slot. *)
Definition first_free (pg : paging) (q : Z) : Prop :=
  0 <= q < 7 /\ aget (proc pg) q = Ok 0 /\ forall j, 0 <= j < q -> aget (proc pg) j = Ok 1.

Lemma first_free_alloc pg q addr :
  paging_inv pg -> first_free pg q -> addr / 2 ^ 22 = 32 -> 0 <= addr < 2 ^ 32 ->
  exists pg', new_pde pg addr = Ok (q, pg') /\ paging_inv pg' /\ proc pg' = <[Z.to_nat q := 1]> (proc pg) /\
    PTE pg' = PTE pg.
Proof.
  intros Hinv (Hq & Hfree & Hbusy) Hd Ha.
  destruct (free_slot pg Hinv) as (i & Hi & Hir & Hif & Hib).
  assert (i = q) as ->.
  { destruct (Z.lt_trichotomy i q) as [Hlt|[?|Hlt]]; [|done|].
    - specialize (Hbusy i ltac:(lia)). congruence.
    - specialize (Hib q ltac:(lia)). congruence. }
  destruct (new_pde_alloc pg addr q) as (old & E & Hold & _); [apply Hinv | done | done | done |].
  rewrite Hd in *. exists (alloc_pages pg q 32 old). split; [done |].
  split; [apply alloc_inv; (done || lia || (apply Hold; lia)) | done].
Qed.

(** What [execute] needs once the program has been found. *)
Record can_run (s : kstate) (q addr : Z) (content : list Z) (p : pcb_t) : Prop := {
  cr_inv : paging_inv (pg s);
  cr_slot : first_free (pg s) q;
  cr_entry : addr / 2 ^ 22 = 32 /\ 0 <= addr < 2 ^ 32;
  cr_active : 0 <= active_term (sch s) < 3 /\ zlen (proc_active (sch s)) = 3;
  cr_pcb : pcbs s !! pcb_addr q = Some p;
  cr_fds : zlen (fd p) = 8;
  cr_bytes : Forall byte_ok content;
  cr_fits : zlen content <= 2 ^ 22 - 0x48000;
  cr_mem : bytes_at (ph s) (load_addr q) (length content);
  cr_screen : bytes_at (ph s) 0xB8000 4096;
  cr_page : bytes_at (ph s) (0x1000 * (active_term (sch s) + 1)) 4096;
  cr_map : aget (PTE (pg s)) (active_term (sch s) + 1) = Ok (2 ^ 12 * (active_term (sch s) + 1) + CTRL_PTE)
}.

(** The PCB of the new process. *)
Definition new_pcb (p : pcb_t) (esp ebp q : Z) : pcb_t :=
  mkPcb (<[1%nat := term_fd]> (<[0%nat := term_fd]> (fd p))) (Z.land esp _10MSB) esp ebp q.

(** The program runs as process [q]. *)
Record started (s s' : kstate) (q : Z) (content : list Z) (p : pcb_t) (esp ebp : Z) : Prop := {
  st_inv : paging_inv (pg s');
  st_cr3 : cr3 (pg s') = q + 1;
  st_proc : proc (pg s') = <[Z.to_nat q := 1]> (proc (pg s));
  st_image : forall user j c, content !! j = Some c -> exists pa,
    walk (pg s') user (_PROC_STORAGE + Z.of_nat j) = Some pa /\ ph s' !! pa = Some c;
  st_pcb : ktr s' (_128MB - (q + 1) * _8KB) = Some (pcb_addr q) /\
    pcbs s' = <[pcb_addr q := new_pcb p esp ebp q]> (pcbs s);
  st_tss : tss s' = mkTss KERNEL_DS (_128MB - _8KB * q - 4) (tss_esp (tss s)) (tss_ebp (tss s)) (tss_ldt (tss s));
  st_sched : sch s' =
    set_bg_term (set_proc_active (sch s) (<[Z.to_nat (active_term (sch s)) := q]> (proc_active (sch s)))) q;
  st_saved : active_term (sch s) = q -> forall i, 0 <= i < 4096 ->
    ph s' !! (0x1000 * (active_term (sch s) + 1) + i) = ph s !! (0xB8000 + i);
  st_frame : forall a, ~ (load_addr q <= a < load_addr q + zlen content) ->
    ~ (active_term (sch s) = q /\ 0x1000 * (q + 1) <= a < 0x1000 * (q + 2)) -> ph s' !! a = ph s !! a;
  st_iflag : iflag s' = iflag s;
  st_video : id_pte (pg s') 0xb8;
  st_count : interrupt_count s' = interrupt_count s;
  st_rest : log s' = log s /\ pic s' = pic s /\ con s' = con s /\ kb s' = kb s /\ fs s' = fs s /\ args s' = args s
}.

(** The copy of the screen to the page of the terminal. *)
Lemma save_screen s q t :
  paging_inv (pg s) -> 0 <= q < 7 -> cr3 (pg s) = q + 1 -> aget (proc (pg s)) q = Ok 1 -> 0 <= t < 3 ->
  aget (PTE (pg s)) (t + 1) = Ok (2 ^ 12 * (t + 1) + CTRL_PTE) ->
  aget (PTE (pg s)) 0xb8 = Ok (2 ^ 12 * 0xb8 + CTRL_PTE) ->
  bytes_at (ph s) 0xB8000 4096 -> bytes_at (ph s) (0x1000 * (t + 1)) 4096 ->
  exists m, memcpy (ktr s) (ph s) (_4KB + t * _4KB) 0xb8000 _4KB = Ok m /\
    forall a, m !! a = if (0x1000 * (t + 1) <=? a) && (a <? 0x1000 * (t + 1) + 4096)
                       then ph s !! (0xB8000 + (a - 0x1000 * (t + 1))) else ph s !! a.
Proof.
  intros Hinv Hq Hcr Hlive Ht Hpt Hpb Hb Hp.
  assert (Hdir : kernel_dir (pg s)) by (right; by exists q).
  destruct (copy_page s (t + 1) 0xb8 Hinv Hdir) as (m & E & Hm);
    [lia | lia | lia | exact Hpt | exact Hpb | exact Hp | exact Hb |].
  exists m. split; [|exact Hm]. rewrite <- E. unfold _4KB.
  replace (4096 * (t + 1)) with (4096 + t * 4096) by lia. reflexivity.
Qed.
End Enter.

Section Execute.
Context `{Layout}.

(** Making the PCB of the new process. *)
Lemma fill_pcb s q p esp ebp :
  paging_inv (pg s) -> 0 <= q < 7 -> cr3 (pg s) = q + 1 -> aget (proc (pg s)) q = Ok 1 ->
  pcbs s !! pcb_addr q = Some p -> zlen (fd p) = 8 ->
  pcb_load s (_128MB - (q + 1) * _8KB) = Ok p /\ init_pcb p esp ebp q = Ok (new_pcb p esp ebp q) /\
  forall x, pcb_store s (_128MB - (q + 1) * _8KB) x = Ok (set_pcbs s (<[pcb_addr q := x]> (pcbs s))).
Proof.
  intros Hinv Hq Hcr Hlive Hp Hl. unfold pcb_load, pcb_store, ktr.
  rewrite (pcb_walk (pg s) q q) by (done || lia). rewrite Hp. split_and!; [done | | done]. unfold init_pcb.
  rewrite (aset_in (fd p)) by lia. rstep. rewrite aset_in by (rewrite zlen_insert; lia). done.
Qed.

Lemma live_slot (l : list Z) q : zlen l = 8 -> 0 <= q < 7 -> aget (<[Z.to_nat q := 1]> l) q = Ok 1.
Proof. intros. apply aget_insert_eq. lia. Qed.

(** Reading the program into its page. *)
Lemma load_image s q fs0 ino content :
  paging_inv (pg s) -> 0 <= q < 7 -> cr3 (pg s) = q + 1 -> aget (proc (pg s)) q = Ok 1 ->
  file_at (page_rd (ph s)) fs0 ino content -> Forall byte_ok content ->
  zlen content <= 2 ^ 22 - 0x48000 -> bytes_at (ph s) (load_addr q) (length content) ->
  read_data (kld s) fs0 ino 0 (mkKbuf _PROC_STORAGE s) (zlen content) =
  Ok (zlen content, mkKbuf _PROC_STORAGE (set_ph s (put_bytes (load_addr q) content (ph s)))).
Proof.
  intros Hinv Hq Hcr Hlive Hfile Hok Hfit Hmem.
  assert (Hfile' : file_at (kld s) fs0 ino content).
  { apply (file_at_mono (page_rd (ph s))); [|done]. apply page_rd_kld; [done |]. right. by exists q. }
  rewrite (read_data_spec (kld s) fs0 ino content Hfile') by lia. cbv zeta.
  rewrite drop_0, take_ge by (unfold zlen; lia).
  rewrite (load_program _ (load_addr q) content 0 s Hok); [rstep; by rewrite Z.add_0_r |].
  intros j Hj. rewrite Z.add_0_l in Hj. rewrite u32_id by (unfold _PROC_STORAGE; lia).
  split; [by apply load_walk; (done || lia) |].
  destruct (Hmem j) as (b & Hb & _); [unfold zlen in Hj; lia | eauto].
Qed.

(** From there on: the PCB, the page of the screen, the directory. *)
Definition finish (q old_ESP old_EBP : Z) (s : kstate) : res kstate :=
  let new_pcb := _128MB - (q + 1) * _8KB in
  p ← pcb_load s new_pcb;
  p ← init_pcb p old_ESP old_EBP q;
  s ← pcb_store s new_pcb p;
  s ← kchange_pte s 0xb8 0xb8;
  s ← (if active_term (sch s) =? bg_term (sch s) then
         m ← memcpy (ktr s) (ph s) (_4KB + active_term (sch s) * _4KB) 0xb8000 _4KB; Ok (set_ph s m)
       else Ok s);
  let '(_, pg') := change_cr3 (pg s) q in
  Ok (set_pg s pg').

Lemma finish_spec s q p esp ebp :
  paging_inv (pg s) -> 0 <= q < 7 -> cr3 (pg s) = q + 1 -> aget (proc (pg s)) q = Ok 1 ->
  pcbs s !! pcb_addr q = Some p -> zlen (fd p) = 8 ->
  0 <= active_term (sch s) < 3 -> bg_term (sch s) = q ->
  aget (PTE (pg s)) (active_term (sch s) + 1) = Ok (2 ^ 12 * (active_term (sch s) + 1) + CTRL_PTE) ->
  bytes_at (ph s) 0xB8000 4096 -> bytes_at (ph s) (0x1000 * (active_term (sch s) + 1)) 4096 ->
  exists m, finish q esp ebp s =
    Ok (set_pg (set_ph (set_pcbs s (<[pcb_addr q := new_pcb p esp ebp q]> (pcbs s))) m)
          (set_cr3 (pte_put (pg s) 0xb8 (2 ^ 12 * 0xb8 + CTRL_PTE)) (q + 1))) /\
    forall a, m !! a = if (active_term (sch s) =? q) && (0x1000 * (q + 1) <=? a) && (a <? 0x1000 * (q + 2))
                       then ph s !! (0xB8000 + (a - 0x1000 * (q + 1))) else ph s !! a.
Proof.
  intros Hinv Hq Hcr Hlive Hp Hl Hact Hbg Hpt Hb Hpage. unfold finish.
  destruct (fill_pcb s q p esp ebp Hinv Hq Hcr Hlive Hp Hl) as (-> & E & Est). rstep. rewrite E. rstep.
  rewrite Est. rstep. unfold kchange_pte. simpl pg.
  rewrite change_pte_put by (lia || apply Hinv). rstep.
  set (pg1 := pte_put (pg s) 0xb8 (2 ^ 12 * 0xb8 + CTRL_PTE)).
  assert (Hinv1 : paging_inv pg1) by (apply pte_put_inv; [done | lia | by intros [=]]).
  assert (Hpte1 : forall i, aget (PTE pg1) i = if i =? 0xb8 then Ok (2 ^ 12 * 0xb8 + CTRL_PTE) else aget (PTE (pg s)) i)
    by (intros; apply aget_pte_put; [apply Hinv | lia]).
  set (s1 := set_pg (set_pcbs s _) pg1). change (sch s1) with (sch s). rewrite Hbg.
  destruct (change_cr3 pg1 q) as [r pg2] eqn:Ecr.
  assert (pg2 = set_cr3 pg1 (q + 1)) as ->.
  { unfold change_cr3 in Ecr. revert Ecr. destruct (Z.ltb_spec q 0), (Z.ltb_spec 7 q); [lia..|].
    simpl. by intros [= _ <-]. }
  destruct (Z.eqb_spec (active_term (sch s)) q) as [Eq|Ne]; cbn [andb].
  - destruct (save_screen s1 q (active_term (sch s))) as (m & Em & Hm); try done.
    + change (pg s1) with pg1. by rewrite Hpte1, (proj2 (Z.eqb_neq _ _)) by lia.
    + rewrite Em. rstep. simpl pg. rewrite Ecr. exists m. split; [done |].
      intros a. rewrite Hm. rewrite Eq. change (ph s1) with (ph s). f_equal. f_equal. by zcases.
  - rstep. simpl pg. rewrite Ecr. exists (ph s). split; [|done]. by destruct s.
Qed.

Lemma execute_enter_finish s q pg1 d size addr esp ebp :
  new_pde (pg s) addr = Ok (q, pg1) -> 0 <= q < 7 -> 0 <= active_term (sch s) < zlen (proc_active (sch s)) ->
  execute_enter d size addr esp ebp s =
  let s1 := set_tss (set_pg (set_sch s (set_bg_term (set_proc_active (sch s)
                 (<[Z.to_nat (active_term (sch s)) := q]> (proc_active (sch s)))) q)) (set_cr3 pg1 (q + 1)))
      (mkTss KERNEL_DS (_128MB - _8KB * q - 4) (tss_esp (tss s)) (tss_ebp (tss s)) (tss_ldt (tss s))) in
  '(_, b) ← read_data (kld s1) (fs s) (inode_num d) 0 (mkKbuf _PROC_STORAGE s1) size;
  s2 ← finish q esp ebp (kb_state b); Ok (Stop (EnterUser addr (_128MB + _4MB - 4)), s2).
Proof.
  intros E Hq Ha. unfold execute_enter. rewrite E. rstep. destruct (Z.eqb_spec q (-1)); [lia |].
  unfold new_process. simpl sch. rewrite aset_in by done. rstep. simpl. unfold finish.
  destruct (read_data _ _ _ _ _ _) as [[cnt b]| |]; [|done..]. rstep.
  rewrite !res_bind_assoc. destruct (pcb_load _ _) as [p| |]; [|done..]. rstep.
  rewrite !res_bind_assoc. destruct (init_pcb _ _ _ _) as [p1| |]; [|done..]. rstep.
  rewrite !res_bind_assoc. destruct (pcb_store _ _ _) as [s1| |]; [|done..]. rstep.
  rewrite !res_bind_assoc. destruct (kchange_pte _ _ _) as [s2| |]; [|done..]. rstep.
  rewrite !res_bind_assoc. destruct (if active_term _ =? _ then _ else _) as [s3| |]; [|done..]. rstep.
  by destruct (change_cr3 _ _).
Qed.

Lemma bytes_put_bytes m pa cs a n :
  bytes_at m a n -> a + Z.of_nat n <= pa -> bytes_at (put_bytes pa cs m) a n.
Proof.
  intros Hb Hn i Hi. destruct (Hb i Hi) as (b & Hb' & Hok). exists b. split; [|done].
  rewrite lookup_put_bytes. by zcases.
Qed.

Lemma load_addr_range q : 0 <= q < 7 -> 2 ^ 23 <= load_addr q.
Proof. unfold load_addr, frame. lia. Qed.

Lemma execute_enter_spec s d q addr content p esp ebp :
  can_run s q addr content p -> file_at (page_rd (ph s)) (fs s) (inode_num d) content ->
  exists s', execute_enter d (zlen content) addr esp ebp s = Ok (Stop (EnterUser addr (_128MB + _4MB - 4)), s') /\
    started s s' q content p esp ebp.
Proof.
  intros [Hinv Hslot [Haddr Har] [Hact Hpa] Hp Hl Hok Hfit Hmem Hscr Hpage Hpt] Hfile.
  destruct (first_free_alloc (pg s) q addr Hinv Hslot Haddr Har) as (pg1 & E & Hinv1 & Hproc1 & Hpte1).
  destruct Hslot as (Hq & _). rewrite (execute_enter_finish s q pg1) by (done || lia). cbv zeta.
  set (s1 := set_tss _ _). assert (Hlive : aget (proc (pg s1)) q = Ok 1).
  { change (proc (pg s1)) with (proc pg1). rewrite Hproc1. apply live_slot; [apply Hinv | lia]. }
  assert (Hinv1' : paging_inv (pg s1)) by by apply set_cr3_inv.
  rewrite (load_image s1 q) by done. rstep. cbn [kb_state].
  set (m1 := put_bytes _ _ _). set (s2 := set_ph s1 m1). pose proof (load_addr_range q Hq) as Hla.
  destruct (finish_spec s2 q p esp ebp) as (m & Ef & Hm); try done.
  { change (PTE (pg s2)) with (PTE pg1). by rewrite Hpte1. }
  { apply bytes_put_bytes; [done | lia]. }
  { apply bytes_put_bytes; [done | change (active_term (sch s2)) with (active_term (sch s)); lia]. }
  rewrite Ef. rstep. eexists. split; [done |].
  set (pg2 := pte_put _ _ _). change (active_term (sch s2)) with (active_term (sch s)) in Hm.
  change (ph s2) with m1 in Hm.
  assert (Hinv2 : paging_inv (set_cr3 pg2 (q + 1)))
    by (apply set_cr3_inv, pte_put_inv; [done | lia | by intros [=]]).
  constructor; try done.
  - intros user j c Hj. pose proof (lookup_lt_Some _ _ _ Hj) as Hjl. exists (load_addr q + Z.of_nat j).
    split; [apply (load_walk _ q); (done || (unfold zlen in *; lia)) |]. simpl ph. rewrite Hm.
    assert (((active_term (sch s) =? q) && (4096 * (q + 1) <=? load_addr q + Z.of_nat j) &&
      (load_addr q + Z.of_nat j <? 4096 * (q + 2))) = false) as -> by (destruct (active_term (sch s) =? q); lia).
    unfold m1. rewrite lookup_put_bytes. change (ph s1) with (ph s).
    replace ((load_addr q <=? load_addr q + Z.of_nat j) && _) with true by (unfold zlen; lia).
    replace (Z.to_nat _) with j by lia. done.
  - split; [|done]. apply (pcb_walk _ q); (done || lia).
  - intros Eq i Hi. simpl ph. rewrite Hm, Eq, Z.eqb_refl. cbn [andb].
    replace ((_ <=? _) && _) with true by lia. unfold m1. rewrite lookup_put_bytes.
    replace (0xB8000 + _) with (0xB8000 + i) by lia. change (ph s1) with (ph s).
    replace ((load_addr q <=? 0xB8000 + i) && _) with false by lia. done.
  - intros a Ha Hs. simpl ph. rewrite Hm. unfold m1. rewrite !lookup_put_bytes. change (ph s1) with (ph s).
    replace ((load_addr q <=? a) && (a <? load_addr q + zlen content)) with false by lia.
    destruct (Z.eqb_spec (active_term (sch s)) q); [|done]. cbn [andb].
    replace ((0x1000 * (q + 1) <=? a) && _) with false by lia. done.
  - unfold id_pte, pg2. simpl pg. change (PTE (set_cr3 ?x _)) with (PTE x). rewrite aget_pte_put by (lia || apply Hinv1'). done.
Qed.
End Execute.

(** ** [getargs] *)

Section Getargs.
Context `{Layout}.

(** The first word of the argument, and what [getargs] makes of it. *)
Fixpoint word (l : list Z) : list Z :=
  match l with [] => [] | c :: l => if c =? 32 then [] else c :: word l end.

Lemma word_split l : exists r, l = word l ++ r /\ (r = [] \/ exists r', r = 32 :: r').
Proof.
  induction l as [|c l (r & E & Hr)]; [exists []; auto |]. simpl.
  destruct (Z.eqb_spec c 32) as [->|]; [exists (32 :: l); eauto |]. exists r. simpl. by rewrite <- E.
Qed.

Lemma word_no_blank l : Forall (fun c => c <> 32) (word l).
Proof. induction l as [|c l IH]; simpl; [done |]. destruct (Z.eqb_spec c 32); by constructor. Qed.

Lemma getargs_loop_spec l : forall n pre t rest bpre brest nbytes,
  Forall (fun c => name_stop c = false) l -> zlen pre = zlen bpre -> zlen pre + zlen l <= 30 ->
  zlen pre + zlen l <= nbytes -> name_stop t = true \/ zlen pre + zlen l = nbytes ->
  (length l < n)%nat -> (length l <= length brest)%nat ->
  getargs_loop n (pre ++ l ++ t :: rest) (bpre ++ brest) (zlen pre) nbytes =
  Ok (Some (zlen pre + zlen l), bpre ++ l ++ drop (length l) brest).
Proof.
  induction l as [|c l IH]; intros n pre t rest bpre brest nbytes Hl Hb H30 Hn Ht Hfuel Hbuf;
    (destruct n as [|n]; [simpl in Hfuel; lia |]); cbn [getargs_loop app].
  - change (zlen (@nil Z)) with 0 in *. rewrite aget_app_mid by done. rstep.
    replace (negb (t =? 32) && negb (t =? 0) && negb (t =? 10) && (zlen pre <? nbytes)) with false.
    + by rewrite drop_0, Z.add_0_r.
    + destruct Ht as [Ht|Ht]; unfold name_stop in *; lia.
  - rewrite aget_app_mid by done. rstep. apply Forall_cons in Hl as [Hc Hl].
    rewrite zlen_cons in *. pose proof (zlen_nonneg l).
    replace (negb (c =? 32) && negb (c =? 0) && negb (c =? 10) && (zlen pre <? nbytes)) with true
      by (unfold name_stop in Hc; lia).
    destruct brest as [|x brest]; [simpl in Hbuf; lia |]. rewrite aset_app_mid by done. rstep.
    destruct (Z.leb_spec 30 (zlen pre)); [lia |].
    assert (Hp : zlen (pre ++ [c]) = zlen pre + 1) by by rewrite zlen_app, zlen_cons.
    rewrite <- (snoc_shift pre), <- (snoc_shift bpre), <- Hp.
    rewrite IH; [| done | by rewrite !zlen_app, Hb | lia | lia | rewrite Hp; destruct Ht; [by left | right; lia]
                 | simpl in Hfuel; lia | simpl in Hbuf; lia].
    rewrite Hp, snoc_shift. simpl. do 2 f_equal. f_equal. lia.
Qed.

Lemma getargs_spec s (buf1 : list Z) nbytes arg rest :
  args s = arg ++ 0 :: rest -> arg <> [] ->
  Forall (fun c => arg_stop c = false /\ byte_ok c) arg ->
  let w := take (Z.to_nat nbytes) (word arg) in
  (length w <= 30)%nat -> 0 <= nbytes -> (length arg < length buf1)%nat ->
  getargs s buf1 nbytes = Ok (0, w ++ 0 :: drop (S (length w)) (arg ++ 0 :: drop (S (length arg)) buf1)).
Proof.
  intros Ha Hne Harg w Hw Hn Hbuf. unfold getargs. destruct (word_split arg) as (r & Er & Hr).
  assert (Hwl : (length w <= length arg)%nat).
  { rewrite Er, length_app. unfold w. rewrite length_take. lia. }
  assert (Hstop : Forall (fun c => name_stop c = false) w).
  { apply Forall_take. apply Forall_lookup. intros i c Hc.
    pose proof (Forall_lookup_1 _ _ _ _ (word_no_blank arg) Hc) as Hc32. simpl in Hc32.
    apply (lookup_app_l_Some _ r) in Hc. rewrite <- Er in Hc.
    destruct (Forall_lookup_1 _ _ _ _ Harg Hc) as (Hs & _). unfold arg_stop in Hs. unfold name_stop. lia. }
  assert (exists c0 arg', arg = c0 :: arg') as (c0 & arg' & E0) by (destruct arg; [done | eauto]).
  assert (aget (args s) 0 = Ok c0) as -> by by rewrite Ha, E0. rstep.
  assert (Hc0 : arg_stop c0 = false) by (rewrite E0 in Harg; apply Forall_cons in Harg; tauto).
  unfold arg_stop in Hc0. rewrite Hc0.
  assert (Ha' : args s = word arg ++ r ++ 0 :: rest) by by rewrite Ha, app_assoc, <- Er.
  assert (Hsplit : exists t rest', args s = w ++ t :: rest' /\ (name_stop t = true \/ zlen w = nbytes)).
  { destruct (Nat.le_gt_cases (length (word arg)) (Z.to_nat nbytes)) as [Hle|Hgt].
    - assert (w = word arg) as -> by (unfold w; by rewrite take_ge). rewrite Ha'.
      destruct Hr as [->|(r' & ->)]; [by exists 0, rest; auto | by exists 32, (r' ++ 0 :: rest); auto].
    - destruct (drop (Z.to_nat nbytes) (word arg)) as [|t more] eqn:Ed.
      { apply (f_equal length) in Ed. rewrite length_drop in Ed. simpl in Ed. lia. }
      exists t, (more ++ r ++ 0 :: rest). split.
      + rewrite Ha'. rewrite <- (take_drop (Z.to_nat nbytes) (word arg)) at 1. rewrite Ed.
        by rewrite <- app_assoc.
      + right. unfold w, zlen. rewrite length_take. lia. }
  destruct Hsplit as (t & rest' & Es & Ht). rewrite Es at 1.
  pose proof (getargs_loop_spec w 32 [] t rest' [] buf1 nbytes Hstop eq_refl) as El.
  change (zlen (@nil Z)) with 0 in El. simpl app in El. rewrite El; clear El;
    [| unfold zlen; lia | unfold w, zlen; rewrite length_take; lia | done | lia | lia]. rstep. rewrite Z.add_0_l.
  rewrite (strcpy_fits _ arg); [rstep| | |].
  - assert (Hd : drop (S (length arg)) (w ++ drop (length w) buf1) = drop (S (length arg)) buf1).
    { rewrite drop_app_ge, drop_drop by lia. f_equal. lia. }
    rewrite Hd. set (tail := 0 :: drop (S (length arg)) buf1).
    assert (Hi : zlen w < zlen (arg ++ tail)) by (rewrite zlen_app; unfold tail; rewrite zlen_cons; pose proof (zlen_nonneg (drop (S (length arg)) buf1)); unfold zlen in *; lia).
    rewrite aset_in by (pose proof (zlen_nonneg w); lia). rstep. do 2 f_equal.
    assert (Hpre : take (length w) (arg ++ tail) = w).
    { rewrite take_app_le by lia. transitivity (take (length w) (word arg)).
      - rewrite Er at 1. rewrite take_app_le; [done | unfold w; rewrite length_take; lia].
      - unfold w. rewrite length_take. destruct (Nat.le_gt_cases (Z.to_nat nbytes) (length (word arg))).
        + by rewrite Nat.min_l.
        + rewrite Nat.min_r by lia. by rewrite !take_ge by lia. }
    replace (Z.to_nat (zlen w)) with (length w) by (unfold zlen; lia).
    rewrite insert_take_drop by (unfold zlen in Hi; lia). by rewrite Hpre.
  - rewrite Ha. apply cstr_array. apply Forall_impl with (1 := Harg). intros c (Hc & Hb).
    split; [unfold arg_stop in Hc; lia | done].
  - rewrite length_app, length_drop. lia.
  - rewrite Ha, length_app. simpl. lia.
Qed.
End Getargs.

(** ** What the calls promise *)

Section Promises.
Context `{Layout}.

Lemma can_run_with_args s q addr content p arg :
  can_run s q addr content p -> can_run (with_args s arg) q addr content p.
Proof. by intros [? ? ? ? ? ? ? ? ? ? ? ?]; constructor. Qed.

Lemma find_entry (ds : list dentry_t) name :
  (forall d, d ∈ ds -> dname d <> name) \/
  exists j d, list_find (fun d => dname d = name) ds = Some (j, d) /\ dname d = name.
Proof.
  destruct (list_find (fun d => dname d = name) ds) as [[j d]|] eqn:E.
  - right. exists j, d. split; [done |]. by apply list_find_Some in E as (_ & ? & _).
  - left. intros d Hd. apply list_find_None in E. rewrite Forall_forall in E. by apply (E d Hd).
Qed.

Lemma execute_starts_spec s command name k arg t rest ds fuel j d content addr q p esp ebp :
  command_is command name k arg t rest -> zlen (args s) = 1024 -> (20 <= fuel)%nat ->
  kernel_dir (pg s) -> dir_is (page_rd (ph s)) (fs s) ds ->
  list_find (fun d => dname d = name) ds = Some (j, d) ->
  file_at (page_rd (ph s)) (fs s) (inode_num d) content ->
  take 4 content = elf_magic -> 28 <= zlen content -> entry_point content = Ok addr ->
  can_run s q addr content p ->
  exists s', execute fuel command esp ebp s = Ok (Stop (EnterUser addr (_128MB + _4MB - 4)), s') /\
    started (with_args s arg) s' q content p esp ebp.
Proof.
  intros Hcmd Hargs Hfuel Hkd Hdir Hj Hfile Hmagic Hlen Haddr Hrun.
  pose proof (page_rd_kld s (cr_inv _ _ _ _ _ Hrun) Hkd) as Hle. unfold execute.
  destruct (execute_load_found fuel s command name k arg t rest ds Hcmd Hargs (dir_is_mono _ _ _ _ Hle Hdir)
              Hfuel j d content Hj (file_at_mono _ _ _ _ _ Hle Hfile) ltac:(lia)) as (_ & E).
  rewrite (E addr Hmagic Hlen Haddr). rstep.
  apply (execute_enter_spec (with_args s arg) (found_dentry d uninit_dentry)); [by apply can_run_with_args | done].
Qed.

(** C5. Starting a program. When the first word of the command names an ELF
    executable linked into 128 MB to 132 MB and [q] is the lowest free process
    slot, [execute] ends in user mode at the entry point of the file, with the
    stack at the end of the program page, and in the state it leaves: the bytes
    of the file are what the program finds from [0x8048000] on; CR3 is the
    directory of [q]; the PCB of [q] has the terminal on descriptors 0 and 1 and
    the caller's kernel stack to come back to; the kernel enters on the stack of
    [q]; the terminal's process is [q]; the screen is saved when the terminal's
    number is [q]; the argument of the command is in [args]; and no other byte of
    memory and nothing else of the kernel's state has changed: also not the
    interrupt flag, so that a program started by a system call runs with
    interrupts off. *)
Theorem execute_starts s command name k arg t rest ds fuel j d content addr q p esp ebp :
  command_is command name k arg t rest -> zlen (args s) = 1024 -> (20 <= fuel)%nat ->
  kernel_dir (pg s) -> dir_is (page_rd (ph s)) (fs s) ds ->
  list_find (fun d => dname d = name) ds = Some (j, d) ->
  file_at (page_rd (ph s)) (fs s) (inode_num d) content ->
  take 4 content = elf_magic -> 28 <= zlen content -> entry_point content = Ok addr ->
  can_run s q addr content p ->
  exists s', execute fuel command esp ebp s = Ok (Stop (EnterUser addr (_128MB + _4MB - 4)), s') /\
    started (with_args s arg) s' q content p esp ebp.
Proof. apply execute_starts_spec. Qed.

Lemma execute_fails_spec s command name k arg t rest ds fuel esp ebp :
  command_is command name k arg t rest -> zlen (args s) = 1024 -> (20 <= fuel)%nat ->
  dir_is (kld s) (fs s) ds ->
  (forall d, d ∈ ds -> dname d <> name) \/
  (exists j d content, list_find (fun d => dname d = name) ds = Some (j, d) /\
     file_at (kld s) (fs s) (inode_num d) content /\ 4 <= zlen content /\
     (take 4 content <> elf_magic \/
      28 <= zlen content /\ (exists addr, entry_point content = Ok addr) /\ paging_inv (pg s) /\
      forall i, 0 <= i < 7 -> aget (proc (pg s)) i = Ok 1)) ->
  execute fuel command esp ebp s = Ok (Ret (-1), with_args s arg).
Proof.
  intros Hcmd Hargs Hfuel Hdir. unfold execute. intros [Hno|(j & d & content & Hj & Hfile & Hlen & Hwhy)].
  { by rewrite (execute_load_missing fuel s command name k arg t rest ds). }
  destruct (execute_load_found fuel s command name k arg t rest ds Hcmd Hargs Hdir Hfuel j d content Hj Hfile Hlen)
    as (Hbad & Hgood).
  destruct (decide (take 4 content = elf_magic)) as [Hm|Hm]; [|by rewrite Hbad].
  destruct Hwhy as [?|(H28 & (addr & Haddr) & Hinv & Hfull)]; [done |].
  rewrite (Hgood addr Hm H28 Haddr). rstep. unfold execute_enter, new_pde.
  destruct (free_slot (pg s) Hinv) as (i & Hi & Hir & Hif & _).
  assert (i = 7) as -> by (destruct (decide (i = 7)); [done |]; rewrite Hfull in Hif by lia; done).
  change (pg (with_args s arg)) with (pg s). change (Z.to_nat MAX_NUM_PROC) with 8%nat. rewrite Hi. rstep.
  change (7 =? 7) with true. cbv iota. rstep. simpl. by destruct s.
Qed.

(** C37. Commands that cannot be run. For a name that the directory does not
    have, a file that is not an ELF executable, and when all seven process slots
    are in use, [execute] returns -1; the argument has replaced the one of the
    running program all the same, and nothing else has changed. *)
Theorem execute_fails s command name k arg t rest ds fuel esp ebp :
  command_is command name k arg t rest -> zlen (args s) = 1024 -> (20 <= fuel)%nat ->
  dir_is (kld s) (fs s) ds ->
  (forall d, d ∈ ds -> dname d <> name) \/
  (exists j d content, list_find (fun d => dname d = name) ds = Some (j, d) /\
     file_at (kld s) (fs s) (inode_num d) content /\ 4 <= zlen content /\
     (take 4 content <> elf_magic \/
      28 <= zlen content /\ (exists addr, entry_point content = Ok addr) /\ paging_inv (pg s) /\
      forall i, 0 <= i < 7 -> aget (proc (pg s)) i = Ok 1)) ->
  execute fuel command esp ebp s = Ok (Ret (-1), with_args s arg).
Proof. apply execute_fails_spec. Qed.

(** *** The PCB of a stack pointer *)

(** [esp] is in the kernel stack block of process [q]. *)
Definition in_stack (esp q : Z) : Prop := 0 <= q < 7 /\ 2 ^ 27 - 8192 * (q + 1) <= esp < 2 ^ 27 - 8192 * q.

Lemma get_curr_pcb_stack esp q : in_stack esp q -> get_curr_pcb esp = _128MB - (q + 1) * _8KB.
Proof.
  intros (Hq & He). unfold get_curr_pcb, ESP2PCB, _128MB, _8KB.
  change 0xfffe000 with (Z.shiftl (Z.ones 15) 13). rewrite land_field by lia.
  assert (esp / 2 ^ 13 = 2 ^ 14 - (q + 1)) as -> by
    (symmetry; apply (Z.div_unique _ _ _ (esp - (2 ^ 27 - 8192 * (q + 1)))); lia).
  rewrite Z.mod_small by lia. lia.
Qed.

(** The narrower mask of [execute] gives another address of the same PCB. *)
Lemma old_pcb_stack esp q : in_stack esp q -> Z.land esp _10MSB = 2 ^ 24 - 8192 * (q + 1).
Proof.
  intros (Hq & He). unfold _10MSB. change 0xffe000 with (Z.shiftl (Z.ones 11) 13). rewrite land_field by lia.
  assert (esp / 2 ^ 13 = 2 ^ 14 - (q + 1)) as -> by
    (symmetry; apply (Z.div_unique _ _ _ (esp - (2 ^ 27 - 8192 * (q + 1)))); lia).
  assert ((2 ^ 14 - (q + 1)) mod 2 ^ 11 = 2 ^ 11 - (q + 1)) as ->
    by (symmetry; apply (Z.mod_unique _ _ 7); lia). lia.
Qed.

Lemma old_pcb_walk pg q r :
  paging_inv pg -> 0 <= q < 7 -> cr3 pg = q + 1 -> aget (proc pg) q = Ok 1 -> 0 <= r < 7 ->
  walk pg false (2 ^ 24 - 8192 * (r + 1)) = Some (pcb_addr r).
Proof.
  intros Hinv Hq Hcr Hlive Hr.
  assert (Hd : (2 ^ 24 - 8192 * (r + 1)) / 2 ^ 22 = 3) by
    (symmetry; apply (Z.div_unique _ _ _ (2 ^ 22 - 8192 * (r + 1))); lia).
  assert (Hm : (2 ^ 24 - 8192 * (r + 1)) mod 2 ^ 22 = 2 ^ 22 - 8192 * (r + 1)) by
    (symmetry; apply (Z.mod_unique _ _ 3); lia).
  rewrite (kernel_high_walk pg q) by (done || lia). by rewrite Hd, Hm.
Qed.

Lemma current_in_stack s q r esp p :
  paging_inv (pg s) -> 0 <= q < 7 -> cr3 (pg s) = q + 1 -> aget (proc (pg s)) q = Ok 1 ->
  in_stack esp r -> pcbs s !! pcb_addr r = Some p -> zlen (fd p) = 8 -> current s esp (pcb_addr r) p.
Proof.
  intros Hinv Hq Hcr Hlive Hst Hp Hl. constructor; [|done..]. rewrite (get_curr_pcb_stack esp r) by done.
  unfold ktr. apply (pcb_walk _ q); (done || (destruct Hst; lia)).
Qed.

Lemma started_facts s s' q content p esp ebp :
  started s s' q content p esp ebp -> 0 <= q < 7 ->
  paging_inv (pg s') /\ cr3 (pg s') = q + 1 /\ aget (proc (pg s')) q = Ok 1.
Proof.
  intros Hst Hq. split_and!; [apply Hst | apply Hst |]. rewrite (st_proc _ _ _ _ _ _ _ Hst).
  apply live_slot; [|done]. pose proof (inv_shaped _ (st_inv _ _ _ _ _ _ _ Hst)) as (_ & _ & _ & Hl).
  rewrite (st_proc _ _ _ _ _ _ _ Hst), zlen_insert in Hl. done.
Qed.

(** The descriptors a program starts with. During the calls of the new
    process the code finds its PCB: descriptors 0 and 1 are the terminal, present,
    and every other descriptor is what it was in the PCB before, so that a file
    left open by the process that used the slot last is open in the new one. *)
Theorem started_descriptors s s' q content p esp ebp esp' :
  started s s' q content p esp ebp -> zlen (fd p) = 8 -> in_stack esp' q ->
  exists p', current s' esp' (pcb_addr q) p' /\ proc_id p' = q /\
    aget (fd p') 0 = Ok term_fd /\ aget (fd p') 1 = Ok term_fd /\
    forall i, 2 <= i < 8 -> aget (fd p') i = aget (fd p) i.
Proof.
  intros Hst Hl Hin. destruct (started_facts _ _ _ _ _ _ _ Hst ltac:(apply Hin)) as (Hinv & Hcr & Hlive).
  exists (new_pcb p esp ebp q). split.
  { apply (current_in_stack s' q q); try done; [apply Hin | |].
    - rewrite (proj2 (st_pcb _ _ _ _ _ _ _ Hst)). apply lookup_insert_eq.
    - simpl. by rewrite !zlen_insert. }
  split; [done |]. simpl. split_and!.
  - rewrite (aget_insert_ne _ 1) by lia. apply (aget_insert_eq _ 0). lia.
  - apply (aget_insert_eq _ 1). rewrite zlen_insert. lia.
  - intros i Hi. by rewrite (aget_insert_ne _ 1), (aget_insert_ne _ 0) by lia.
Qed.

(** *** [halt] *)

(** The state when process [q], a child of [pp], makes a call. *)
Record running (s : kstate) (q pp esp ebp : Z) : Prop := {
  rn_inv : paging_inv (pg s);
  rn_slot : 0 < q < 7;
  rn_cr3 : cr3 (pg s) = q + 1;
  rn_live : aget (proc (pg s)) q = Ok 1;
  rn_pcb : exists f, pcbs s !! pcb_addr q = Some (mkPcb f (Z.land esp _10MSB) esp ebp q);
  rn_stack : in_stack esp pp;
  rn_parent : exists p, pcbs s !! pcb_addr pp = Some p /\ proc_id p = pp;
  rn_active : 0 <= active_term (sch s) < 3;
  rn_arrays : zlen (proc_active (sch s)) = 3 /\ zlen (proc_esp (sch s)) = 3 /\ zlen (proc_ebp (sch s)) = 3
}.

Lemma pcb_load_walk s a r p : walk (pg s) false a = Some r -> pcbs s !! r = Some p -> pcb_load s a = Ok p.
Proof. unfold pcb_load, ktr. by intros -> ->. Qed.

Lemma remove_process_spec s pp e b :
  0 <= active_term (sch s) < 3 -> zlen (proc_active (sch s)) = 3 -> zlen (proc_esp (sch s)) = 3 ->
  zlen (proc_ebp (sch s)) = 3 ->
  let n := Z.to_nat (active_term (sch s)) in
  remove_process s pp e b = Ok (set_sch s (set_proc_regs (set_proc_active (sch s) (<[n := pp]> (proc_active (sch s))))
    (<[n := e]> (proc_esp (sch s))) (<[n := b]> (proc_ebp (sch s))))).
Proof.
  intros Ha La Le Lb n. unfold remove_process. rewrite (aset_in (proc_active (sch s))) by lia. rstep. simpl.
  rewrite (aset_in (proc_esp (sch s))) by lia. rstep. rewrite (aset_in (proc_ebp (sch s))) by lia. done.
Qed.

Lemma halt_spec s q pp esp ebp esp2 :
  running s q pp esp ebp -> in_stack esp2 q ->
  aget (proc_active (sch s)) (active_term (sch s)) = Ok q ->
  exists s', halt esp2 s = Ok (Stop (UsrEnd esp ebp), s') /\
    paging_inv (pg s') /\ cr3 (pg s') = pp + 1 /\ proc (pg s') = <[Z.to_nat q := 0]> (proc (pg s)) /\
    PDE (pg s') = PDE (pg s) /\ PTE (pg s') = PTE (pg s) /\
    aget (proc_active (sch s')) (active_term (sch s)) = Ok pp /\
    aget (proc_esp (sch s')) (active_term (sch s)) = Ok esp /\
    aget (proc_ebp (sch s')) (active_term (sch s)) = Ok ebp /\
    bg_term (sch s') = bg_term (sch s) /\ tss_esp0 (tss s') = esp /\ iflag s' = true /\
    ph s' = ph s /\ pcbs s' = pcbs s /\
    let n := Z.to_nat (active_term (sch s)) in
    sch s' = set_proc_regs (set_proc_active (sch s) (<[n := pp]> (proc_active (sch s))))
      (<[n := esp]> (proc_esp (sch s))) (<[n := ebp]> (proc_ebp (sch s))).
Proof.
  intros [Hinv Hq Hcr Hlive (f & Hp) Hst (pq & Hpp & Hid) Hact (La & Le & Lb)] Hst2 Hrun.
  unfold halt. rewrite (get_curr_pcb_stack esp2 q), (pcb_load_walk s _ _ _ (pcb_walk _ q q Hinv ltac:(lia) Hcr Hlive ltac:(lia)) Hp) by done.
  rstep. simpl proc_id.
  destruct (Z.eqb_spec q 0); [lia |].
  destruct (remove_page_inv (pg s) q Hinv ltac:(lia)) as (pg' & E & Hinv' & Hproc & Hpde).
  rewrite E. rstep. unfold remove_page in E. apply res_bind_ok_inv in E as (pr & _ & [= <-]).
  unfold is_active. simpl sch. rewrite Hrun. rstep. rewrite Z.eqb_refl. change (negb (1 =? 0)) with true. cbv iota.
  simpl old_pcb. rewrite (old_pcb_stack esp pp) by done.
  rewrite (pcb_load_walk _ _ (pcb_addr pp) pq); [rstep | | done].
  2:{ change (walk (pg s) false (2 ^ 24 - 8192 * (pp + 1)) = Some (pcb_addr pp)).
      apply (old_pcb_walk (pg s) q pp); (done || lia || apply Hst). }
  rewrite remove_process_spec by done. rstep. eexists. split; [reflexivity |].
  simpl. rewrite Hid. split_and!; try done; [by apply set_cr3_inv | | |]; apply aget_insert_eq; lia.
Qed.

(** Ending a program. [halt] in a process that is not the first shell and that
    runs on the terminal on screen frees the process slot, makes the parent the
    process of the terminal, with the parent's directory and kernel stack, and
    continues at [usr_end] with the stack and frame pointers that [execute] saved;
    memory, the PCBs and the paging tables are left alone. The [status] is
    ignored, and the scheduler's [bg_term] is not set back. *)
Theorem halt_resumes s q pp esp ebp esp2 :
  running s q pp esp ebp -> in_stack esp2 q ->
  aget (proc_active (sch s)) (active_term (sch s)) = Ok q ->
  exists s', halt esp2 s = Ok (Stop (UsrEnd esp ebp), s') /\
    paging_inv (pg s') /\ cr3 (pg s') = pp + 1 /\ proc (pg s') = <[Z.to_nat q := 0]> (proc (pg s)) /\
    PDE (pg s') = PDE (pg s) /\ PTE (pg s') = PTE (pg s) /\
    aget (proc_active (sch s')) (active_term (sch s)) = Ok pp /\
    aget (proc_esp (sch s')) (active_term (sch s)) = Ok esp /\
    aget (proc_ebp (sch s')) (active_term (sch s)) = Ok ebp /\
    bg_term (sch s') = bg_term (sch s) /\ tss_esp0 (tss s') = esp /\ iflag s' = true /\
    ph s' = ph s /\ pcbs s' = pcbs s.
Proof.
  intros Hr Hst Ha. destruct (halt_spec s q pp esp ebp esp2 Hr Hst Ha)
    as (s' & E & H1 & H2 & H3 & H4 & H5 & H6 & H7 & H8 & H9 & H10 & H11 & H12 & H13 & _).
  exists s'. by split_and!.
Qed.

Lemma started_running s s' q pp content p pq esp ebp :
  started s s' q content p esp ebp -> 0 < q < 7 -> in_stack esp pp -> pp <> q ->
  pcbs s !! pcb_addr pp = Some pq -> proc_id pq = pp -> sched_ok (sch s) ->
  running s' q pp esp ebp /\ aget (proc_active (sch s')) (active_term (sch s')) = Ok q /\
  pcbs s' !! pcb_addr pp = Some pq.
Proof.
  intros Hst Hq Hin Hne Hpp Hid [_ Le Lb La _ _ Hact].
  destruct (started_facts _ _ _ _ _ _ _ Hst ltac:(lia)) as (Hinv & Hcr & Hlive).
  pose proof (st_sched _ _ _ _ _ _ _ Hst) as Hsch. pose proof (proj2 (st_pcb _ _ _ _ _ _ _ Hst)) as Hpcb.
  assert (Hother : pcbs s' !! pcb_addr pp = Some pq).
  { rewrite Hpcb, lookup_insert_ne; [done |]. unfold pcb_addr. lia. }
  split; [|split; [|done]].
  - constructor; try done; [| by exists pq | by rewrite Hsch | by rewrite Hsch; simpl; rewrite zlen_insert].
    rewrite Hpcb, lookup_insert_eq. by eexists.
  - rewrite Hsch. simpl. apply aget_insert_eq. lia.
Qed.

(** The scheduler after a fourth program. A program started in slot 3 or above
    leaves [bg_term] outside the arrays of three terminals: when a second terminal
    is in use, the next [do_events] stores past their end. *)
Theorem execute_breaks_scheduler s s' q content p esp ebp fuel e b :
  started s s' q content p esp ebp -> sched_ok (sch s) -> fake_sti (sch s) = 0 -> 3 <= q ->
  (exists n, count_terms (term_init (sch s)) = Ok n /\ n <> 1) ->
  do_events fuel e b s' = Undef.
Proof.
  intros Hst Hok Hsti Hq (n & Hn & Hn1). unfold do_events. rewrite (st_sched _ _ _ _ _ _ _ Hst). simpl.
  rewrite Hsti. simpl. rewrite Hn. rstep. destruct (Z.eqb_spec n 1); [done |].
  unfold do_events_switch, save_regs. rewrite (st_sched _ _ _ _ _ _ _ Hst). simpl.
  pose proof (so_esp _ Hok) as Hl. rewrite (aset_out (proc_esp (sch s)) q) by lia.
  reflexivity.
Qed.

(** The first shell, and a process whose terminal has moved on to another one.
    Halting the first shell shuts the machine down. When the process is not the
    one of the terminal on screen, the call returns 0 and the program keeps
    running, with its process slot given away. *)
Theorem halt_others s q esp2 p :
  paging_inv (pg s) -> 0 <= q < 7 -> cr3 (pg s) = q + 1 -> aget (proc (pg s)) q = Ok 1 ->
  pcbs s !! pcb_addr q = Some p -> proc_id p = q -> in_stack esp2 q ->
  (q = 0 -> halt esp2 s = Ok (Stop ExitShell, s)) /\
  (forall r, q <> 0 -> aget (proc_active (sch s)) (active_term (sch s)) = Ok r -> r <> q ->
     exists s', halt esp2 s = Ok (Ret 0, s') /\ cr3 (pg s') = q + 1 /\ aget (proc (pg s')) q = Ok 0).
Proof.
  intros Hinv Hq Hcr Hlive Hp Hid Hst2. unfold halt.
  rewrite (get_curr_pcb_stack esp2 q), (pcb_load_walk s _ _ _ (pcb_walk _ q q Hinv ltac:(lia) Hcr Hlive ltac:(lia)) Hp) by done.
  rstep. rewrite Hid. split.
  - by intros ->.
  - intros r Hq0 Hr Hne. destruct (Z.eqb_spec q 0); [lia |].
    destruct (remove_page_inv (pg s) q Hinv ltac:(lia)) as (pg' & E & Hinv' & Hproc & _). rewrite E. rstep.
    unfold remove_page in E. apply res_bind_ok_inv in E as (pr & _ & [= <-]).
    unfold is_active. simpl sch. rewrite Hr. rstep. destruct (Z.eqb_spec r q); [done |]. simpl negb. cbv iota.
    eexists. split; [done |]. split; [done |]. simpl in *. rewrite Hproc. apply aget_insert_eq.
    by apply aget_Ok_range in Hlive.
Qed.

(** *** [getargs] *)

(** The argument of a command. A program started with a command gets from
    [getargs] the first word of the command's argument, as a string that is cut
    after [nbytes] bytes; a command without argument gives -1 and leaves the
    buffer alone. The call stores the whole argument and two NUL bytes in the
    buffer, whatever [nbytes] is. *)
Theorem execute_getargs s s' q content p esp ebp arg (buf1 : list Z) nbytes :
  started (with_args s arg) s' q content p esp ebp -> zlen (args s) = 1024 -> (length arg < 20)%nat ->
  Forall (fun c => arg_stop c = false /\ byte_ok c) arg ->
  0 <= nbytes -> (length arg < length buf1)%nat ->
  (arg = [] -> getargs s' buf1 nbytes = Ok (-1, buf1)) /\
  (arg <> [] -> exists buf2, getargs s' buf1 nbytes = Ok (0, buf2) /\
     cstr (aget buf2) (take (Z.to_nat nbytes) (word arg)) /\ length buf2 = length buf1 /\
     drop (S (length (take (Z.to_nat nbytes) (word arg)))) buf2 =
     drop (S (length (take (Z.to_nat nbytes) (word arg)))) (arg ++ 0 :: drop (S (length arg)) buf1)).
Proof.
  intros Hst Hl Harg Hok Hn Hbuf. pose proof (st_rest _ _ _ _ _ _ _ Hst) as (_ & _ & _ & _ & _ & Ha).
  simpl in Ha. split.
  - intros ->. unfold getargs. by rewrite Ha.
  - intros Hne. destruct (word_split arg) as (r & Er & _). set (w := take _ (word arg)).
    assert (Hwl : (length w <= length arg)%nat).
    { rewrite Er, length_app. unfold w. rewrite length_take. lia. }
    rewrite (getargs_spec s' buf1 nbytes arg _ Ha Hne Hok) by (done || (fold w; lia)). fold w.
    eexists. split; [done |]. split; [|split].
    + apply cstr_array. apply Forall_lookup. intros i c Hc. unfold w in Hc.
      apply lookup_take_Some in Hc as [Hc _]. apply (lookup_app_l_Some _ r) in Hc. rewrite <- Er in Hc.
      destruct (Forall_lookup_1 _ _ _ _ Hok Hc) as (Hs & Hb). unfold arg_stop in Hs. split; [lia | done].
    + rewrite length_app. simpl. rewrite length_drop, length_app. simpl. rewrite length_drop. lia.
    + rewrite drop_app_ge by lia. replace (S (length w) - length w)%nat with 1%nat by lia. done.
Qed.

(** *** [vidmap] *)

Definition user_video : Z := 0x3001000.

Lemma vidmap_walks pg0 q :
  paging_inv pg0 -> 0 <= q < 7 -> cr3 pg0 = q + 1 -> aget (proc pg0) q = Ok 1 ->
  exists pg', vidmap_pages pg0 q = Ok pg' /\ paging_inv pg' /\ cr3 pg' = q + 1 /\ proc pg' = proc pg0 /\
    (forall i, 0 <= i < 4096 -> walk pg' true (user_video + i) = Some (0xB8000 + i)) /\
    (forall i, 0 <= i < 4096 -> walk pg' false (0x1000 + i) = Some (0xB8000 + i)).
Proof.
  intros Hinv Hq Hcr Hlive. destruct (vidmap_pages_inv pg0 q Hinv Hq) as (pg' & E & Hinv').
  exists pg'. do 2 (split; [done |]). pose proof (inv_shaped _ Hinv) as Hs.
  rewrite vidmap_pages_put in E by done. injection E as <-. do 2 (split; [done |]).
  set (pg' := pde_put _ _ _ _) in *.
  assert (Hpte : aget (PTE pg') 1 = Ok (0xB8000 + CTRL_PTE_USR)).
  { unfold pg'. change (PTE (pde_put ?p _ _ _)) with (PTE p). by rewrite aget_pte_put by (done || lia). }
  assert (Hdir : kernel_dir pg') by (right; by exists q). split; intros i Hi.
  - assert (Hc : (user_video + i) / 2 ^ 22 = 12) by (symmetry; apply (Z.div_unique _ _ _ (0x1000 + i)); unfold user_video; lia).
    assert (H1 : (user_video + i) / 2 ^ 12 = 0x3001) by (symmetry; apply (Z.div_unique _ _ _ i); unfold user_video; lia).
    assert (Hm : (user_video + i) mod 2 ^ 12 = i) by (symmetry; apply (Z.mod_unique _ _ 0x3001); unfold user_video; lia).
    rewrite (walk_small pg' true _ CTRL_VIDEO_USR (0xB8000 + CTRL_PTE_USR) (inv_on _ Hinv')); try done.
    + rewrite Hm. change (Z.land (0xB8000 + CTRL_PTE_USR) 0xFFFFF000) with (2 ^ 12 * 0xB8). simpl orb. cbv iota.
      rewrite lor_low by lia. done.
    + unfold user_video. lia.
    + rewrite Hc. change (cr3 pg') with (cr3 pg0). rewrite Hcr. unfold pg'.
      rewrite pde_get_put by (lia || by apply shaped_pte_put). by rewrite !Z.eqb_refl.
    + by rewrite H1.
  - assert (H1 : (0x1000 + i) / 2 ^ 12 = 1) by (symmetry; apply (Z.div_unique _ _ _ i); lia).
    assert (Hm : (0x1000 + i) mod 2 ^ 12 = i) by (symmetry; apply (Z.mod_unique _ _ 1); lia).
    rewrite (kernel_low_walk pg' _ CTRL_PTE_USR 0xB8) by first [done | lia | by rewrite H1 | by right].
    by rewrite Hm.
Qed.

(** [vidmap]. For an address in the program page of the caller, the call
    returns 0, the word at that address is [0x3001000], and user code reaches
    video memory from there on. The page table entry it uses is the one of the
    page at [0x1000]: from then on the kernel, too, finds video memory there, and
    not the saved screen of terminal 0. The addresses 0 and [0x400000] give -1. *)
Theorem sys_vidmap_maps s q esp p addr :
  paging_inv (pg s) -> 0 <= q < 7 -> cr3 (pg s) = q + 1 -> aget (proc (pg s)) q = Ok 1 ->
  in_stack esp q -> pcbs s !! pcb_addr q = Some p -> proc_id p = q ->
  2 ^ 27 <= addr <= 2 ^ 27 + 2 ^ 22 - 4 -> bytes_at (ph s) (frame (q + 1) + (addr - 2 ^ 27)) 4 ->
  (exists s', sys_vidmap s esp addr = Ok (0, s') /\ paging_inv (pg s') /\
     ldn (walk (pg s') true) 4 (ph s') addr = Ok user_video /\
     (forall i, 0 <= i < 4096 -> walk (pg s') true (user_video + i) = Some (0xB8000 + i)) /\
     (forall i, 0 <= i < 4096 -> walk (pg s') false (0x1000 + i) = Some (0xB8000 + i))) /\
  sys_vidmap s esp 0 = Ok (-1, s) /\ sys_vidmap s esp 0x400000 = Ok (-1, s).
Proof.
  intros Hinv Hq Hcr Hlive Hst Hp Hid Ha Hmem. split; [|done]. unfold sys_vidmap, CHECK_MASK.
  destruct (Z.eqb_spec addr 0x400000); [lia |]. destruct (Z.eqb_spec addr 0); [lia |].
  rewrite (get_curr_pcb_stack esp q), (pcb_load_walk s _ _ _ (pcb_walk _ q q Hinv ltac:(lia) Hcr Hlive ltac:(lia)) Hp) by done.
  rstep. rewrite Hid. destruct (vidmap_walks (pg s) q Hinv Hq Hcr Hlive) as (pg' & -> & Hinv' & Hcr' & Hproc & Hu & Hk).
  rstep. change (Z.lor _ _) with user_video. set (pa := frame (q + 1) + (addr - 2 ^ 27)) in *.
  assert (Hwalk : forall user i, 0 <= i < 4 -> walk pg' user (u32 (addr + i)) = Some (pa + i)).
  { intros user i Hi. rewrite u32_id by lia.
    replace (addr + i) with (2 ^ 27 + (addr - 2 ^ 27 + i)) by lia.
    assert (Hd : (2 ^ 27 + (addr - 2 ^ 27 + i)) / 2 ^ 22 = 32) by
      (symmetry; apply (Z.div_unique _ _ _ (addr - 2 ^ 27 + i)); lia).
    assert (Hm : (2 ^ 27 + (addr - 2 ^ 27 + i)) mod 2 ^ 22 = addr - 2 ^ 27 + i) by
      (symmetry; apply (Z.mod_unique _ _ 32); lia).
    destruct user.
    - destruct (user_view_at pg' q) as (vid & screen & Hv); try done; [by rewrite Hproc |].
      rewrite Hv by lia. cbv zeta. rewrite Hd, Hm. simpl. f_equal. unfold pa. lia.
    - rewrite (kernel_high_walk pg' q) by (done || lia || by rewrite Hproc). rewrite Hd, Hm. simpl. f_equal. unfold pa. lia. }
  rewrite (stn_write_le _ 4 _ addr pa).
  2:{ intros i Hi. split; [by apply Hwalk | by apply Hmem]. }
  rstep. set (m := write_le 4 pa user_video _).
  assert (Hld : forall user, ldn (walk pg' user) 4 m addr = Ok user_video).
  { intros user. rewrite (ldn_bytes _ 4 m addr pa user_video); [done |]. intros i Hi. split; [by apply Hwalk |].
    unfold m. rewrite lookup_write_le. replace (pa + i - pa) with i by lia. by zcases. }
  unfold ktr. simpl pg. simpl ph. rewrite Hld. rstep. rewrite Z.eqb_refl.
  eexists. split; [done |]. exact (conj Hinv' (conj (Hld true) (conj Hu Hk))).
Qed.

(** *** The dispatcher *)

Lemma sys_call_entry_other eax :
  - 2 ^ 31 < eax < 2 ^ 31 -> eax < 1 \/ 10 < eax -> sys_call_entry eax = Ok Sys_error.
Proof.
  intros He H1. unfold sys_call_entry. rewrite s32_id by lia. destruct (Z.ltb_spec (eax - 1) 0); [done |].
  destruct (Z.ltb_spec 10 (eax - 1)); [done |]. assert (eax = 11) as -> by lia. done.
Qed.

(** System call numbers. Numbers 1 to 10 reach the ten calls in order; every
    other value of EAX reaches [sys_error], which returns -1. *)
Theorem sys_call_dispatch eax :
  - 2 ^ 31 < eax < 2 ^ 31 ->
  (1 <= eax <= 10 -> exists f, sys_call_entry eax = Ok f /\
     [Halt; Execute; Sys_read; Sys_write; Sys_open; Sys_close; Getargs; Sys_vidmap; Sys_set_handler; Sys_sigreturn]
       !! Z.to_nat (eax - 1) = Some f) /\
  (eax < 1 \/ 10 < eax -> sys_call_entry eax = Ok Sys_error /\ sys_error = -1).
Proof.
  intros He. split; intros H1; [|by rewrite sys_call_entry_other].
  unfold sys_call_entry. rewrite s32_id by lia.
  assert (Hcases : eax = 1 \/ eax = 2 \/ eax = 3 \/ eax = 4 \/ eax = 5 \/ eax = 6 \/ eax = 7 \/ eax = 8 \/
    eax = 9 \/ eax = 10) by lia.
  repeat (destruct Hcases as [->|Hcases]; [by eexists |]). subst. by eexists.
Qed.
End Promises.

(** ** A concrete run

    Processes 0 to [q - 1] are live, process 0 runs on terminal 0 and terminals 0
    and 1 are in use; slot [q] is free. *)

Section Demo.
#[local] Existing Instance demo_layout.

Definition demo_mem (q : Z) : mem :=
  fill 4096 0xB8000 32 (fill 4096 0x1000 0 (fill 28 (load_addr q) 0 demo_image)).

Definition demo_terms : sched_t :=
  mkSched (replicate 6 [0; 0]) 0 [1; 1; 0] [0; 1; 2] 0 0 [0; 0; 0] [0; 0; 0].

Definition demo_kernel (q : Z) (pg0 : paging) : kstate :=
  set_pcbs (set_fs (set_pg (set_sch (kboot (demo_mem q)) demo_terms) pg0) demo_fs)
    (<[pcb_addr 0 := demo_pcb]> {[ pcb_addr q := zero_pcb ]}).

Record demo_paging (q : nat) (pg0 : paging) : Prop := {
  dp_inv : paging_inv pg0;
  dp_cr3 : cr3 pg0 = 1;
  dp_proc : proc pg0 = replicate q 1 ++ replicate (8 - q) 0;
  dp_pte : forall i, 1 <= i < 1024 -> id_pte pg0 i
}.

Lemma demo_first_free q pg0 :
  (q < 7)%nat -> proc pg0 = replicate q 1 ++ replicate (8 - q) 0 -> first_free pg0 (Z.of_nat q).
Proof.
  intros Hq Hp. split; [lia |]. rewrite Hp. replace (8 - q)%nat with (S (7 - q)) by lia. split.
  - apply aget_app_mid. unfold zlen. by rewrite length_replicate.
  - intros j Hj. rewrite aget_app_l by (unfold zlen; rewrite length_replicate; lia).
    apply aget_lookup. split; [lia |]. apply lookup_replicate_2. lia.
Qed.

Lemma demo_paging_exists q : (q < 8)%nat -> exists pg0, demo_paging q pg0.
Proof.
  induction q as [|q IH]; intros Hq.
  - destruct (init_paging_inv (boot_paging 0 0)) as (pg1 & _ & Hinv & Hproc & _ & Hpte).
    { split_and!; try done. simpl. repeat constructor. }
    { done. }
    exists (set_cr3 pg1 1). constructor; [by apply set_cr3_inv | done | done |].
    exact Hpte.
  - destruct IH as (pg1 & [Hinv Hcr Hproc Hpte]); [lia |].
    destruct (first_free_alloc pg1 (Z.of_nat q) 0x8048018 Hinv) as (pg2 & _ & Hinv2 & Hproc2 & Hpte2);
      [by apply demo_first_free; [lia |] | done | done |].
    exists (set_cr3 pg2 1). constructor; [by apply set_cr3_inv | done | | ].
    + change (proc (set_cr3 pg2 1)) with (proc pg2). rewrite Hproc2, Hproc, Nat2Z.id.
      replace (8 - q)%nat with (S (8 - S q)) by lia. cbn [replicate].
      rewrite insert_app_r_alt, length_replicate, Nat.sub_diag by (by rewrite length_replicate).
      cbn [insert list_insert]. rewrite <- snoc_shift. f_equal. change [1] with (replicate 1 1).
      rewrite <- replicate_add. by rewrite Nat.add_1_r.
    + intros i Hi. unfold id_pte. change (PTE (set_cr3 pg2 1)) with (PTE pg2). rewrite Hpte2. by apply Hpte.
Qed.

Lemma demo_mem_at q a :
  demo_mem q !! a = if (0xB8000 <=? a) && (a <? 0xB9000) then Some 32
    else if (0x1000 <=? a) && (a <? 0x2000) then Some 0
    else if (load_addr q <=? a) && (a <? load_addr q + 28) then Some 0 else demo_image !! a.
Proof. unfold demo_mem. by rewrite !lookup_fill. Qed.

Lemma demo_kernel_image q : 0 <= q < 7 -> rd_le (page_rd demo_image) (page_rd (demo_mem q)).
Proof.
  intros Hq a c. unfold page_rd. destruct ((4194304 <=? a) && (a <? 8388608)) eqn:E; [|intros [=]].
  rewrite demo_mem_at. pose proof (load_addr_range q Hq).
  replace ((0xB8000 <=? a) && (a <? 0xB9000)) with false by lia.
  replace ((0x1000 <=? a) && (a <? 0x2000)) with false by lia.
  replace ((load_addr q <=? a) && (a <? load_addr q + 28)) with false by lia. exact id.
Qed.

Opaque demo_mem.

Lemma demo_terms_ok : sched_ok demo_terms.
Proof.
  constructor; try (simpl; done || lia).
  - intros t Ht. exists [0; 0]. split; [|done].
    by assert (t = 0 \/ t = 1 \/ t = 2) as [->|[->| ->]] by lia.
  - exists 1, 1, 0. split_and!; auto.
Qed.

Lemma demo_can_run q pg0 :
  (0 < q < 7)%nat -> demo_paging q pg0 ->
  can_run (demo_kernel (Z.of_nat q) pg0) (Z.of_nat q) 0x8048018 demo_go zero_pcb.
Proof.
  intros Hq [Hinv Hcr Hproc Hpte]. set (z := Z.of_nat q).
  assert (Hph : forall a, ph (demo_kernel z pg0) !! a = demo_mem z !! a) by done.
  assert (Hz : 0 <= z < 7) by lia. pose proof (load_addr_range z Hz). constructor.
  - exact Hinv.
  - apply demo_first_free; [lia | done].
  - split; [done | lia].
  - change (active_term (sch (demo_kernel z pg0))) with 0. split; [lia | done].
  - change (pcbs (demo_kernel z pg0)) with (<[pcb_addr 0 := demo_pcb]> ({[ pcb_addr z := zero_pcb ]} : gmap Z pcb_t)).
    rewrite lookup_insert_ne by (unfold pcb_addr; lia). apply lookup_insert_eq.
  - done.
  - vm_compute. repeat constructor; discriminate.
  - by apply Z.leb_le.
  - intros i Hi. change (Z.of_nat (length demo_go)) with 28 in Hi.
    exists 0. rewrite Hph, demo_mem_at. unfold byte_ok. split; [by zcases | lia].
  - intros i Hi. change (Z.of_nat 4096) with 4096 in Hi.
    exists 32. rewrite Hph, demo_mem_at. unfold byte_ok. split; [by zcases | lia].
  - intros i Hi. change (Z.of_nat 4096) with 4096 in Hi. change (active_term (sch (demo_kernel z pg0))) with 0.
    exists 0. rewrite Hph, demo_mem_at. unfold byte_ok. split; [by zcases | lia].
  - by apply (Hpte 1).
Qed.

(** The command [go now] and the end of the line. *)
Definition demo_arg : list Z := [110; 111; 119].
Definition demo_command : list Z := [103; 111] ++ replicate 1 32 ++ demo_arg ++ 10 :: replicate 13 0.

Lemma demo_command_is : command_is (aget demo_command) [103; 111] 1 demo_arg 10 (replicate 13 0).
Proof.
  constructor; try done.
  - intros n c Hc. split; [by apply aget_nat |].
    assert (Hall : Forall byte_ok demo_command) by (repeat constructor; discriminate).
    by apply (Forall_lookup_1 _ _ _ _ Hall Hc).
  - repeat constructor.
  - repeat constructor.
  - right. exists 110, [111; 119]. split; [done |]. split; [done | lia].
Qed.

Lemma demo_started q :
  (0 < q < 7)%nat -> exists pg0 s', demo_paging q pg0 /\
    started (with_args (demo_kernel (Z.of_nat q) pg0) demo_arg) s' (Z.of_nat q) demo_go zero_pcb demo_esp 7.
Proof.
  intros Hq. destruct (demo_paging_exists q) as (pg0 & Hpg); [lia |].
  destruct (execute_enter_spec (with_args (demo_kernel (Z.of_nat q) pg0) demo_arg) (demo_dentry [103; 111] 2 2)
    (Z.of_nat q) 0x8048018 demo_go zero_pcb demo_esp 7) as (s' & _ & Hst).
  - by apply can_run_with_args, demo_can_run.
  - apply (file_at_mono (page_rd demo_image)); [by apply demo_kernel_image; lia | apply demo_go_file].
  - by exists pg0, s'.
Qed.

Lemma demo_in_stack : in_stack demo_esp 0 /\ in_stack 0x7ffdabc 1.
Proof. unfold in_stack, demo_esp. lia. Qed.

Lemma execute_starts_witness :
  exists s s', execute 20 (aget demo_command) demo_esp 7 s = Ok (Stop (EnterUser 0x8048018 (_128MB + _4MB - 4)), s') /\
    cr3 (pg s') = 2.
Proof.
  destruct (demo_paging_exists 1) as (pg0 & Hpg); [lia |]. pose proof Hpg as [Hinv Hcr Hproc Hpte].
  destruct (execute_starts (demo_kernel 1 pg0) (aget demo_command) [103; 111] 1 demo_arg 10 (replicate 13 0)
    demo_ents 20 2 (demo_dentry [103; 111] 2 2) demo_go 0x8048018 1 zero_pcb demo_esp 7 demo_command_is)
    as (s' & E & Hst).
  - done.
  - lia.
  - right. exists 0. change (pg (demo_kernel 1 pg0)) with pg0. rewrite Hproc. split; [lia | done].
  - apply (dir_is_mono (page_rd demo_image)); [by apply demo_kernel_image; lia | apply demo_ents_dir].
  - vm_compute. reflexivity.
  - apply (file_at_mono (page_rd demo_image)); [by apply demo_kernel_image; lia | apply demo_go_file].
  - done.
  - done.
  - vm_compute. reflexivity.
  - apply (demo_can_run 1); [lia | done].
  - exists (demo_kernel 1 pg0), s'. split; [exact E | apply Hst].
Defined.

Lemma demo_kernel_reads q pg0 :
  (0 < q < 7)%nat -> demo_paging q pg0 -> rd_le (page_rd demo_image) (kld (demo_kernel (Z.of_nat q) pg0)).
Proof.
  intros Hq [Hinv Hcr Hproc Hpte] a c Ha. apply (demo_kernel_image (Z.of_nat q)) in Ha; [|lia].
  revert Ha. apply (page_rd_kld (demo_kernel (Z.of_nat q) pg0)); [done |].
  right. exists 0. change (pg (demo_kernel (Z.of_nat q) pg0)) with pg0. rewrite Hproc. split; [lia |].
  split; [done |]. destruct q; [lia | done].
Qed.

(** [hi] is not an executable. *)
Lemma execute_fails_witness :
  exists s, execute 20 (aget ([104; 105] ++ replicate 0 32 ++ [] ++ 10 :: replicate 17 0)) demo_esp 7 s =
    Ok (Ret (-1), with_args s []).
Proof.
  destruct (demo_paging_exists 1) as (pg0 & Hpg); [lia |]. exists (demo_kernel 1 pg0).
  pose proof (demo_kernel_reads 1 pg0 ltac:(lia) Hpg) as Hle.
  apply (execute_fails _ _ [104; 105] 0 [] 10 (replicate 17 0) demo_ents).
  - constructor; try done; [| repeat constructor | by left].
    intros n c Hc. split; [by apply aget_nat |]. revert n c Hc. apply Forall_lookup. repeat constructor; discriminate.
  - done.
  - lia.
  - apply (dir_is_mono _ _ _ _ Hle demo_ents_dir).
  - right. exists 1%nat, (demo_dentry [104; 105] 2 1), demo_hi. split; [vm_compute; reflexivity |].
    split; [apply (file_at_mono _ _ _ _ _ Hle demo_hi_file) |]. split; [done |]. left. by vm_compute.
Defined.

Lemma started_descriptors_witness :
  exists s' p', current s' 0x7ffdabc (pcb_addr 1) p' /\ aget (fd p') 0 = Ok term_fd.
Proof.
  destruct (demo_started 1) as (pg0 & s' & _ & Hst); [lia |].
  destruct (started_descriptors _ s' 1 demo_go zero_pcb demo_esp 7 0x7ffdabc Hst eq_refl (proj2 demo_in_stack))
    as (p' & Hc & _ & H0 & _).
  exists s', p'. exact (conj Hc H0).
Defined.

Lemma demo_parent q pg0 :
  (0 < q < 7)%nat -> pcbs (with_args (demo_kernel (Z.of_nat q) pg0) demo_arg) !! pcb_addr 0 = Some demo_pcb.
Proof. intros Hq. apply lookup_insert_eq. Qed.

Lemma halt_resumes_witness :
  exists s s', halt 0x7ffdabc s = Ok (Stop (UsrEnd demo_esp 7), s') /\ cr3 (pg s') = 1.
Proof.
  destruct (demo_started 1) as (pg0 & s' & _ & Hst); [lia |].
  destruct (started_running _ s' 1 0 demo_go zero_pcb demo_pcb demo_esp 7 Hst) as (Hrun & Hact & _);
    [lia | apply demo_in_stack | lia | by apply (demo_parent 1); lia | done | apply demo_terms_ok |].
  destruct (halt_resumes s' 1 0 demo_esp 7 0x7ffdabc Hrun (proj2 demo_in_stack) Hact) as (s'' & E & _ & Hc & _).
  exists s', s''. exact (conj E Hc).
Defined.

Lemma execute_breaks_scheduler_witness : exists s, do_events 9 0 0 s = Undef.
Proof.
  destruct (demo_started 3) as (pg0 & s' & _ & Hst); [lia |]. exists s'.
  apply (execute_breaks_scheduler _ s' 3 demo_go zero_pcb demo_esp 7 9 0 0 Hst demo_terms_ok eq_refl); [lia |].
  exists 2. split; [vm_compute; reflexivity | lia].
Defined.

Lemma halt_others_witness :
  exists s, halt demo_esp s = Ok (Stop ExitShell, s).
Proof.
  destruct (demo_paging_exists 1) as (pg0 & [Hinv Hcr Hproc _]); [lia |]. exists (demo_kernel 1 pg0).
  destruct (halt_others (demo_kernel 1 pg0) 0 demo_esp demo_pcb Hinv ltac:(lia) Hcr) as (E & _).
  - change (proc (pg (demo_kernel 1 pg0))) with (proc pg0). by rewrite Hproc.
  - apply lookup_insert_eq.
  - done.
  - apply demo_in_stack.
  - by apply E.
Defined.

Lemma execute_getargs_witness :
  exists s buf, getargs s (replicate 8 1) 2 = Ok (0, buf) /\ cstr (aget buf) [110; 111].
Proof.
  destruct (demo_started 1) as (pg0 & s' & _ & Hst); [lia |].
  destruct (execute_getargs _ s' 1 demo_go zero_pcb demo_esp 7 demo_arg (replicate 8 1) 2 Hst) as (_ & E).
  - done.
  - simpl. lia.
  - repeat constructor; discriminate.
  - lia.
  - simpl. lia.
  - destruct (E ltac:(done)) as (buf & Eb & Hc & _). exists s', buf. exact (conj Eb Hc).
Defined.

Lemma sys_vidmap_maps_witness :
  exists s s', sys_vidmap s 0x7ffdabc 0x8048004 = Ok (0, s').
Proof.
  destruct (demo_started 1) as (pg0 & s' & _ & Hst); [lia |].
  destruct (started_facts _ _ _ _ _ _ _ Hst) as (Hinv & Hcr & Hlive); [lia |].
  destruct (sys_vidmap_maps s' 1 0x7ffdabc (new_pcb zero_pcb demo_esp 7 1) 0x8048004 Hinv ltac:(lia) Hcr Hlive)
    as ((s'' & E & _) & _).
  - apply demo_in_stack.
  - rewrite (proj2 (st_pcb _ _ _ _ _ _ _ Hst)). apply lookup_insert_eq.
  - done.
  - lia.
  - intros i Hi. destruct (lookup_lt_is_Some_2 demo_go (Z.to_nat (4 + i))) as (c & Hc); [simpl; lia |].
    exists c. destruct (st_image _ _ _ _ _ _ _ Hst false _ _ Hc) as (pa & Hpa & Hm).
    rewrite (load_walk (pg s') 1) in Hpa by (done || lia). injection Hpa as <-.
    split.
    + rewrite <- Hm. f_equal. unfold load_addr. lia.
    + assert (Hall : Forall byte_ok demo_go) by (vm_compute; repeat constructor; discriminate).
      by apply (Forall_lookup_1 _ _ _ _ Hall Hc).
  - exists s', s''. exact E.
Defined.

Lemma sys_call_dispatch_witness : sys_call_entry 2 = Ok Execute /\ sys_call_entry 0 = Ok Sys_error.
Proof.
  split.
  - destruct (proj1 (sys_call_dispatch 2 ltac:(lia)) ltac:(lia)) as (f & E & Hf). injection Hf as <-. exact E.
  - apply (proj2 (sys_call_dispatch 0 ltac:(lia)) ltac:(lia)).
Defined.
End Demo.
