(* ===== verification/Switch.v ===== *)
(** * Switching terminals

    [switchTerm] of [student-distrib/sched.c]: it saves the screen and the context
    of the running terminal and either shows and resumes a terminal that is in use
    or starts a shell on a new one. The stack and frame pointers that the assembly
    reads in [switchTerm] and in [execute] are arguments; [more] is what memory
    holds after the literal with the name of the shell, of which [execute] reads
    20 bytes. *)

From S2P Require Import Prelude Strings Filesys Paging Mem State Pic Console Rtc Terminal Sched Syscalls Process.

Local Open Scope Z_scope.
Local Open Scope kernel_scope.

(** A string literal or array, and the memory after it. *)
Definition literal (bs : list Z) (more : reader) : reader := fun i =>
  if i <? zlen bs then aget bs i else more i.

Definition shell : list Z := [115; 104; 101; 108; 108; 0].

Section Code.
Context `{Layout}.

Definition save_screen_page (s : kstate) : res kstate :=
  m ← memcpy (ktr s) (ph s) (_4KB + active_term (sch s) * _4KB) 0xb8000 _4KB; Ok (set_ph s m).

Definition restore_screen_page (s : kstate) : res kstate :=
  m ← memcpy (ktr s) (ph s) 0xb8000 (_4KB + active_term (sch s) * _4KB) _4KB; Ok (set_ph s m).

(** [switchTerm] up to the change of [active_term]. *)
Definition switch_away (esp ebp : Z) (s : kstate) : res kstate :=
  let s := set_sch s (set_fake_sti (sch s) 1) in
  (* save current video memory and cursor pos *)
  s ← (if active_term (sch s) =? bg_term (sch s) then save_screen_page s else Ok s);
  s ← save_cursor s (bg_term (sch s));
  (* save state of the current process *)
  s ← save_regs s (bg_term (sch s)) esp ebp;
  kchange_pte s 0xb8 0xb8.

(** The new terminal has been initialized. *)
Definition switch_show (num : Z) : K unit := fun s =>
  s ← restore_screen_page s;
  x ← aget2 (cursor_pos (sch s)) (active_term (sch s)) 0;
  y ← aget2 (cursor_pos (sch s)) (active_term (sch s)) 1;
  let s := change_coord s x y in
  let s := set_sch s (set_bg_term (sch s) num) in
  let s := set_sch s (set_fake_sti (sch s) 0) in
  run_proc 1 (active_term (sch s)) s.

(** It has not. *)
Definition switch_start (fuel : nat) (more : reader) (esp2 ebp2 num : Z) : K unit := fun s =>
  let s := set_sch s (set_bg_term (sch s) num) in
  ti ← aset (term_init (sch s)) (active_term (sch s)) 1;
  let s := set_sch s (set_term_init (sch s) ti) in
  s ← clear s;
  let s := send_eoi (sti s) 1 in
  let s := set_sch s (set_fake_sti (sch s) 0) in
  (let! _ := execute fuel (literal shell more) esp2 ebp2 in kret tt) s.

Definition switchTerm (fuel : nat) (more : reader) (esp ebp esp2 ebp2 num : Z) : K unit := fun s =>
  s ← switch_away esp ebp s;
  let s := set_sch s (set_active_term (sch s) num) in
  t ← aget (term_init (sch s)) num;
  if negb (t =? 0) then switch_show num s else switch_start fuel more esp2 ebp2 num s.
End Code.

(** ** Saving and restoring the screens *)

(** The pages the screens of the terminals are saved in, and video memory. *)
Record pages_ok (s : kstate) `{Layout} : Prop := {
  po_inv : paging_inv (pg s);
  po_dir : kernel_dir (pg s);
  po_pte : forall t, 0 <= t < 3 -> id_pte (pg s) (t + 1);
  po_bytes : forall t, 0 <= t < 3 -> bytes_at (ph s) (4096 * (t + 1)) 4096;
  po_video : bytes_at (ph s) (4096 * 0xb8) 4096
}.

(** The byte at offset [i] of the saved screen of terminal [t], and of the
    screen. *)
Definition saved (s : kstate) (t i : Z) : option Z := ph s !! (4096 * (t + 1) + i).
Definition on_screen (s : kstate) (i : Z) : option Z := ph s !! (4096 * 0xb8 + i).

Section Facts.
Context `{Layout}.

Lemma pages_ok_frame s s' : pg s' = pg s -> ph s' = ph s -> pages_ok s -> pages_ok s'.
Proof. intros Ep Em [A B C D E]. constructor; rewrite ?Ep, ?Em; assumption. Qed.

Lemma save_cursor_regs s t e b :
  sched_ok (sch s) -> t = bg_term (sch s) ->
  exists s1 s2, save_cursor s t = Ok s1 /\ save_regs s1 t e b = Ok s2 /\
    s2 = set_sch s (sch s2) /\ context (sch s2) t = Ok (e, b, getXY s) /\
    (forall u, u <> t -> context (sch s2) u = context (sch s) u) /\
    term_init (sch s2) = term_init (sch s) /\ proc_active (sch s2) = proc_active (sch s) /\
    active_term (sch s2) = active_term (sch s) /\ fake_sti (sch s2) = fake_sti (sch s) /\
    bg_term (sch s2) = bg_term (sch s) /\ sched_ok (sch s2).
Proof.
  intros Hok ->. destruct (save_progress s e b Hok) as (r1 & r2 & E1 & _ & E2).
  destruct (save_switch s r1 r2 e b Hok E1 E2) as (Hs2 & Hrest).
  unfold save_regs, save_cursor, getXY in *.
  apply res_bind_ok_inv in E1 as (esps & Ee & E1). apply res_bind_ok_inv in E1 as (ebps & Eb & [= <-]).
  apply res_bind_ok_inv in E2 as (c1 & Ec1 & E2). apply res_bind_ok_inv in E2 as (c2 & Ec2 & [= <-]).
  simpl in Ec1, Ec2. exists (set_sch s (set_cursor_pos (sch s) c2)). eexists.
  rewrite Ec1. rstep. rewrite Ec2. rstep. split; [done |].
  change (proc_esp (sch (set_sch s ?c))) with (proc_esp c). simpl proc_esp. simpl proc_ebp.
  rewrite Ee. rstep. rewrite Eb. rstep. split; [done |]. split; [done | exact Hrest].
Qed.

(** [switchTerm] up to the change of [active_term]. *)
Record away (s s' : kstate) (esp ebp : Z) : Prop := {
  aw_ctx : context (sch s') (bg_term (sch s)) = Ok (esp, ebp, getXY s);
  aw_others : forall u, u <> bg_term (sch s) -> context (sch s') u = context (sch s) u;
  aw_init : term_init (sch s') = term_init (sch s);
  aw_proc : proc_active (sch s') = proc_active (sch s);
  aw_active : active_term (sch s') = active_term (sch s);
  aw_bg : bg_term (sch s') = bg_term (sch s);
  aw_sched : sched_ok (sch s');
  aw_pg : pg s' = pte_put (pg s) 0xb8 (2 ^ 12 * 0xb8 + CTRL_PTE);
  aw_ph : forall a, ph s' !! a =
    if (active_term (sch s) =? bg_term (sch s)) && (4096 * (active_term (sch s) + 1) <=? a) &&
       (a <? 4096 * (active_term (sch s) + 1) + 4096)
    then ph s !! (4096 * 0xb8 + (a - 4096 * (active_term (sch s) + 1))) else ph s !! a;
  aw_con : con s' = con s;
  aw_rest : kb s' = kb s /\ fs s' = fs s /\ pcbs s' = pcbs s /\ args s' = args s /\ log s' = log s /\ iflag s' = iflag s
}.

Lemma switch_away_spec s esp ebp :
  pages_ok s -> sched_ok (sch s) ->
  (active_term (sch s) = bg_term (sch s) -> id_pte (pg s) 0xb8) ->
  exists s', switch_away esp ebp s = Ok s' /\ away s s' esp ebp.
Proof.
  intros [Hinv Hdir Hpte Hb Hv] Hok Hid. unfold switch_away.
  set (s0 := set_sch s (set_fake_sti (sch s) 1)).
  assert (Hok0 : sched_ok (sch s0)) by (destruct Hok; by constructor).
  assert (exists m, (if active_term (sch s0) =? bg_term (sch s0) then save_screen_page s0 else Ok s0) = Ok (set_ph s0 m) /\
    forall a, m !! a =
      if (active_term (sch s) =? bg_term (sch s)) && (4096 * (active_term (sch s) + 1) <=? a) &&
         (a <? 4096 * (active_term (sch s) + 1) + 4096)
      then ph s !! (4096 * 0xb8 + (a - 4096 * (active_term (sch s) + 1))) else ph s !! a) as (m & Em & Hm).
  { change (active_term (sch s0)) with (active_term (sch s)). change (bg_term (sch s0)) with (bg_term (sch s)).
    pose proof (so_active _ Hok) as Ha. destruct (Z.eqb_spec (active_term (sch s)) (bg_term (sch s))) as [E|E].
    - destruct (copy_page s0 (active_term (sch s) + 1) 0xb8 Hinv Hdir) as (m & Em & Hm);
        [lia | lia | lia | by apply Hpte | by apply Hid | by apply Hb | exact Hv |].
      exists m. split; [|exact Hm]. unfold save_screen_page, _4KB. change (active_term (sch s0)) with (active_term (sch s)).
      replace (4096 + active_term (sch s) * 4096) with (4096 * (active_term (sch s) + 1)) by lia.
      change 0xb8000 with (4096 * 0xb8). by rewrite Em.
    - exists (ph s0). split; [by destruct s | done]. }
  rewrite Em. rstep. set (s1 := set_ph s0 m).
  destruct (save_cursor_regs s1 (bg_term (sch s1)) esp ebp) as (r1 & r2 & -> & E2 & Hr2 & Hc & Ho & Hti & Hpa & Hat & Hfk & Hbg & Hok2);
    [done | done |]. rstep.
  assert (Hr1 : bg_term (sch r1) = bg_term (sch s1)).
  { unfold save_regs in E2. apply res_bind_ok_inv in E2 as (? & _ & E2). apply res_bind_ok_inv in E2 as (? & _ & [= <-]). done. }
  rewrite Hr1. change (bg_term (sch s)) with (bg_term (sch s1)). rewrite E2. rstep. unfold kchange_pte.
  assert (Hpg : pg r2 = pg s) by by rewrite Hr2. rewrite Hpg, change_pte_put by (lia || apply Hinv). rstep.
  eexists. split; [done |]. rewrite Hr2. by constructor.
Qed.

Lemma away_pages s s' esp ebp :
  pages_ok s -> away s s' esp ebp -> 0 <= active_term (sch s) < 3 ->
  pages_ok s' /\ id_pte (pg s') 0xb8 /\ (forall i, 0 <= i < 4096 -> on_screen s' i = on_screen s i) /\
  forall t i, 0 <= t < 3 -> 0 <= i < 4096 -> saved s' t i =
    if (active_term (sch s) =? bg_term (sch s)) && (t =? active_term (sch s)) then on_screen s i else saved s t i.
Proof.
  intros [Hinv Hdir Hpte Hb Hv] Haw Ha. pose proof (aw_pg _ _ _ _ Haw) as Hpg. pose proof (aw_ph _ _ _ _ Haw) as Hph.
  set (act := active_term (sch s)) in *.
  assert (Hscr : forall i, 0 <= i < 4096 -> on_screen s' i = on_screen s i).
  { intros i Hi. unfold on_screen. rewrite Hph. destruct (act =? bg_term (sch s)); [|done]. cbn [andb].
    by replace ((4096 * (act + 1) <=? 4096 * 0xb8 + i) && _) with false by lia. }
  assert (Hsav : forall t i, 0 <= t < 3 -> 0 <= i < 4096 -> saved s' t i =
    if (act =? bg_term (sch s)) && (t =? act) then on_screen s i else saved s t i).
  { intros t i Ht Hi. unfold saved, on_screen. rewrite Hph. destruct (act =? bg_term (sch s)); [|done]. cbn [andb].
    destruct (Z.eqb_spec t act) as [->|Hne].
    - replace ((4096 * (act + 1) <=? 4096 * (act + 1) + i) && _) with true by lia. f_equal. lia.
    - by replace ((4096 * (act + 1) <=? 4096 * (t + 1) + i) && _) with false by lia. }
  split_and!; try done.
  - constructor.
    + rewrite Hpg. apply pte_put_inv; [done | lia | by intros [=]].
    + unfold kernel_dir. rewrite Hpg. exact Hdir.
    + intros t Ht. unfold id_pte. rewrite Hpg, aget_pte_put by (lia || apply Hinv).
      destruct (Z.eqb_spec (t + 1) 0xb8); [lia |]. by apply Hpte.
    + intros t Ht i Hi. change (Z.of_nat 4096) with 4096 in Hi. fold (saved s' t i). rewrite Hsav by done.
      destruct (_ && _); [apply Hv | by apply Hb]; change (Z.of_nat 4096) with 4096; lia.
    + intros i Hi. change (Z.of_nat 4096) with 4096 in Hi. fold (on_screen s' i). rewrite Hscr by done.
      apply Hv. change (Z.of_nat 4096) with 4096. lia.
  - unfold id_pte. rewrite Hpg, aget_pte_put by (lia || apply Hinv). done.
Qed.

(** What the switch to a terminal in use leaves. *)
Record shown (s s' : kstate) (num esp ebp e b : Z) : Prop := {
  sh_active : active_term (sch s') = num /\ bg_term (sch s') = num /\ fake_sti (sch s') = 0;
  sh_context : context (sch s') num = Ok (e, b, getXY s');
  sh_left : context (sch s') (bg_term (sch s)) = Ok (esp, ebp, getXY s);
  sh_others : forall u, u <> bg_term (sch s) -> context (sch s') u = context (sch s) u;
  sh_tables : term_init (sch s') = term_init (sch s) /\ proc_active (sch s') = proc_active (sch s) /\ sched_ok (sch s');
  sh_screen : forall i, 0 <= i < 4096 -> on_screen s' i =
    if (active_term (sch s) =? bg_term (sch s)) && (num =? active_term (sch s)) then on_screen s i else saved s num i;
  sh_saved : forall t i, 0 <= t < 3 -> 0 <= i < 4096 -> saved s' t i =
    if (active_term (sch s) =? bg_term (sch s)) && (t =? active_term (sch s)) then on_screen s i else saved s t i;
  sh_pte : id_pte (pg s') 0xb8;
  sh_proc : proc (pg s') = proc (pg s);
  sh_pages : kernel_dir (pg s') -> pages_ok s';
  sh_cr3 : exists pid, aget (proc_active (sch s)) num = Ok pid /\ cr3 (pg s') = pid + 1;
  sh_iflag : iflag s' = true
}.

Lemma restore_spec s :
  pages_ok s -> id_pte (pg s) 0xb8 -> 0 <= active_term (sch s) < 3 ->
  exists m, restore_screen_page s = Ok (set_ph s m) /\
    forall a, m !! a = if (4096 * 0xb8 <=? a) && (a <? 4096 * 0xb8 + 4096)
                       then ph s !! (4096 * (active_term (sch s) + 1) + (a - 4096 * 0xb8)) else ph s !! a.
Proof.
  intros [Hinv Hdir Hpte Hb Hv] Hid Ha.
  destruct (copy_page s 0xb8 (active_term (sch s) + 1) Hinv Hdir) as (m & Em & Hm);
    [lia | lia | lia | exact Hid | by apply Hpte | exact Hv | by apply Hb |].
  exists m. split; [|exact Hm]. unfold restore_screen_page, _4KB.
  replace (4096 + active_term (sch s) * 4096) with (4096 * (active_term (sch s) + 1)) by lia.
  change 0xb8000 with (4096 * 0xb8). by rewrite Em.
Qed.

Lemma context_parts c t e b x y :
  context c t = Ok (e, b, (x, y)) ->
  aget (proc_esp c) t = Ok e /\ aget (proc_ebp c) t = Ok b /\ aget2 (cursor_pos c) t 0 = Ok x /\ aget2 (cursor_pos c) t 1 = Ok y.
Proof.
  unfold context. intros (e' & He & E)%res_bind_ok_inv. apply res_bind_ok_inv in E as (b' & Hb & E).
  apply res_bind_ok_inv in E as (x' & Hx & E). apply res_bind_ok_inv in E as (y' & Hy & E).
  injection E as -> -> -> ->. done.
Qed.

Lemma context_ok c t : sched_ok c -> 0 <= t < 3 -> exists e b x y, context c t = Ok (e, b, (x, y)).
Proof.
  intros Hok Ht. destruct (cursor_progress c t Hok Ht) as (x & y & Hx & Hy). unfold context.
  destruct (aget_in_range (proc_esp c) t) as [e ->]; [rewrite (so_esp _ Hok); lia |].
  destruct (aget_in_range (proc_ebp c) t) as [b ->]; [rewrite (so_ebp _ Hok); lia |].
  rewrite Hx, Hy. by exists e, b, x, y.
Qed.

(** What [run_proc] leaves when it resumes the context [e], [b] of process [pid]. *)
Definition ran (s : kstate) (eoi pid e b : Z) : kstate :=
  let s := sti (set_tss_stack (set_pg s (set_cr3 (pg s) (get_PDE pid))) e e b) in
  if 0 <? eoi then send_eoi s eoi else s.

Lemma run_proc_spec eoi t s pid e b :
  aget (proc_active (sch s)) t = Ok pid -> aget (proc_esp (sch s)) t = Ok e -> aget (proc_ebp (sch s)) t = Ok b ->
  run_proc eoi t s = Ok (Stop (Resume e b), ran s eoi pid e b).
Proof.
  intros Hp He Hb. unfold run_proc. rewrite Hp. rstep. change (sch (set_pg s ?p)) with (sch s).
  by rewrite He, Hb.
Qed.

Lemma switchTerm_shows_spec fuel more s num esp ebp esp2 ebp2 :
  pages_ok s -> sched_ok (sch s) -> (active_term (sch s) = bg_term (sch s) -> id_pte (pg s) 0xb8) ->
  aget (term_init (sch s)) num = Ok 1 ->
  exists e b s', switchTerm fuel more esp ebp esp2 ebp2 num s = Ok (Stop (Resume e b), s') /\
    shown s s' num esp ebp e b.
Proof.
  intros Hpo Hok Hid Hti. unfold switchTerm.
  destruct (switch_away_spec s esp ebp Hpo Hok Hid) as (s1 & -> & Haw). rstep.
  destruct (away_pages s s1 esp ebp Hpo Haw (so_active _ Hok)) as (Hpo1 & Hid1 & Hscr1 & Hsav1).
  assert (Hnum : 0 <= num < 3).
  { apply aget_Ok_range in Hti. destruct (so_init _ Hok) as (a & b & d & E & _). rewrite E in Hti. done. }
  set (s2 := set_sch s1 _). change (term_init (sch s2)) with (term_init (sch s1)).
  rewrite (aw_init _ _ _ _ Haw), Hti. rstep. change (negb (1 =? 0)) with true. cbv iota.
  unfold switch_show. assert (Hpo2 : pages_ok s2) by (destruct Hpo1; by constructor).
  destruct (restore_spec s2 Hpo2 Hid1 Hnum) as (m & -> & Hm). rstep.
  change (active_term (sch s2)) with num in Hm.
  destruct (context_ok (sch s1) num (aw_sched _ _ _ _ Haw) Hnum) as (e & b & x & y & Hctx).
  destruct (context_parts _ _ _ _ _ _ Hctx) as (He & Hb & Hx & Hy).
  change (sch (set_ph s2 m)) with (sch s2). change (active_term (sch s2)) with num.
  change (cursor_pos (sch s2)) with (cursor_pos (sch s1)). rewrite Hx, Hy. rstep.
  set (s3 := set_sch (set_sch (change_coord (set_ph s2 m) x y) _) _).
  destruct (aget_in_range (proc_active (sch s1)) num) as [pid Hpid].
  { rewrite (so_proc _ (aw_sched _ _ _ _ Haw)). lia. }
  change (active_term (sch s3)) with num. rewrite (run_proc_spec 1 num s3 pid e b) by done.
  exists e, b. eexists. split; [done |]. constructor.
  - done.
  - exact Hctx.
  - exact (aw_ctx _ _ _ _ Haw).
  - exact (aw_others _ _ _ _ Haw).
  - split; [exact (aw_init _ _ _ _ Haw) |]. split; [exact (aw_proc _ _ _ _ Haw) |].
    destruct (aw_sched _ _ _ _ Haw). by constructor.
  - intros i Hi. unfold on_screen at 1. change (m !! (4096 * 0xb8 + i) =
      if (active_term (sch s) =? bg_term (sch s)) && (num =? active_term (sch s)) then on_screen s i else saved s num i).
    rewrite Hm. replace ((4096 * 0xb8 <=? 4096 * 0xb8 + i) && _) with true by lia.
    replace (4096 * 0xb8 + i - 4096 * 0xb8) with i by lia. by apply Hsav1.
  - intros t i Ht Hi. unfold saved at 1. change (m !! (4096 * (t + 1) + i) =
      if (active_term (sch s) =? bg_term (sch s)) && (t =? active_term (sch s)) then on_screen s i else saved s t i).
    rewrite Hm. replace ((4096 * 0xb8 <=? 4096 * (t + 1) + i) && _) with false by lia. by apply Hsav1.
  - exact Hid1.
  - change (proc (pg s1) = proc (pg s)). by rewrite (aw_pg _ _ _ _ Haw).
  - intros Hdir. destruct Hpo1 as [Hinv1 _ Hpte1 Hb1 Hv1]. constructor.
    + by apply set_cr3_inv.
    + exact Hdir.
    + exact Hpte1.
    + intros t Ht i Hi. change (Z.of_nat 4096) with 4096 in Hi.
      change (exists b, m !! (4096 * (t + 1) + i) = Some b /\ byte_ok b). rewrite Hm.
      replace ((4096 * 0xb8 <=? 4096 * (t + 1) + i) && _) with false by lia.
      apply (Hb1 t Ht). change (Z.of_nat 4096) with 4096. lia.
    + intros i Hi. change (Z.of_nat 4096) with 4096 in Hi.
      change (exists b, m !! (4096 * 0xb8 + i) = Some b /\ byte_ok b). rewrite Hm.
      replace ((4096 * 0xb8 <=? 4096 * 0xb8 + i) && _) with true by lia.
      replace (4096 * 0xb8 + i - 4096 * 0xb8) with i by lia.
      apply (Hb1 num Hnum). change (Z.of_nat 4096) with 4096. lia.
  - exists pid. split; [by rewrite <- (aw_proc _ _ _ _ Haw) | done].
  - done.
Qed.

(** Switching to a terminal in use. [switchTerm] ends by resuming exactly the
    context saved for the terminal, and leaves: the terminal on screen and running,
    with its directory and interrupts on; its saved screen in video memory; the
    context of the terminal that ran before saved and no other one touched; and
    the old screen in the page of the old terminal, provided that terminal was the
    one running (otherwise the screen is not saved anywhere). *)
Theorem switchTerm_shows fuel more s num esp ebp esp2 ebp2 :
  pages_ok s -> sched_ok (sch s) -> (active_term (sch s) = bg_term (sch s) -> id_pte (pg s) 0xb8) ->
  aget (term_init (sch s)) num = Ok 1 ->
  exists e b s', switchTerm fuel more esp ebp esp2 ebp2 num s = Ok (Stop (Resume e b), s') /\
    shown s s' num esp ebp e b.
Proof. apply switchTerm_shows_spec. Qed.

(** C21. There and back. When the running terminal [u] is on screen, the user
    switches to terminal [v] and later, with [v] running and on screen and the
    saved screen and context of [u] untouched, back to [u], then [u] continues with
    the stack and frame pointers it had, its cursor, and its screen. *)
Theorem switchTerm_roundtrip fuel more s u v esp ebp e1 b1 w1 s1 s2 esp2 ebp2 x1 y1 x2 y2 :
  pages_ok s -> sched_ok (sch s) -> id_pte (pg s) 0xb8 ->
  active_term (sch s) = u -> bg_term (sch s) = u -> aget (term_init (sch s)) v = Ok 1 -> v <> u ->
  switchTerm fuel more esp ebp e1 b1 v s = Ok (w1, s1) ->
  pages_ok s2 -> sched_ok (sch s2) -> id_pte (pg s2) 0xb8 ->
  active_term (sch s2) = v -> bg_term (sch s2) = v -> aget (term_init (sch s2)) u = Ok 1 ->
  context (sch s2) u = context (sch s1) u -> (forall i, 0 <= i < 4096 -> saved s2 u i = saved s1 u i) ->
  getXY s = (x1, y1) ->
  exists s3, switchTerm fuel more esp2 ebp2 x2 y2 u s2 = Ok (Stop (Resume esp ebp), s3) /\
    getXY s3 = (x1, y1) /\ forall i, 0 <= i < 4096 -> on_screen s3 i = on_screen s i.
Proof.
  intros Hpo Hok Hid Ha Hb Hv Hne E1 Hpo2 Hok2 Hid2 Ha2 Hb2 Hu2 Hctx Hsav Hxy.
  destruct (switchTerm_shows_spec fuel more s v esp ebp e1 b1 Hpo Hok (fun _ => Hid) Hv) as (e & b & s1' & E & Hs1).
  rewrite E1 in E. injection E as -> ->.
  destruct (switchTerm_shows_spec fuel more s2 u esp2 ebp2 x2 y2 Hpo2 Hok2 (fun _ => Hid2) Hu2) as (e3 & b3 & s3 & E3 & Hs3).
  pose proof (sh_left _ _ _ _ _ _ _ Hs1) as Hl. rewrite Hb in Hl.
  pose proof (sh_others _ _ _ _ _ _ _ Hs3 u ltac:(congruence)) as Ho.
  pose proof (sh_context _ _ _ _ _ _ _ Hs3) as Hc. rewrite Ho, Hctx, Hl in Hc.
  assert (e3 = esp /\ b3 = ebp /\ getXY s3 = getXY s) as (-> & -> & Exy) by (split_and!; congruence).
  exists s3. split; [exact E3 |]. split; [by rewrite Exy |]. intros i Hi.
  rewrite (sh_screen _ _ _ _ _ _ _ Hs3) by done. rewrite Ha2, Hb2.
  rewrite (proj2 (Z.eqb_neq u v)) by congruence. rewrite andb_false_r, Hsav by done.
  assert (Hur : 0 <= u < 3) by (rewrite <- Ha; apply Hok).
  rewrite (sh_saved _ _ _ _ _ _ _ Hs1) by done. by rewrite Ha, Hb, !Z.eqb_refl.
Qed.

Lemma switchTerm_out_of_range_spec fuel more s num esp ebp esp2 ebp2 :
  pages_ok s -> sched_ok (sch s) -> (active_term (sch s) = bg_term (sch s) -> id_pte (pg s) 0xb8) ->
  3 <= num < 6 -> switchTerm fuel more esp ebp esp2 ebp2 num s = Undef.
Proof.
  intros Hpo Hok Hid Hnum. unfold switchTerm.
  destruct (switch_away_spec s esp ebp Hpo Hok Hid) as (s1 & -> & Haw). rstep.
  change (term_init (sch (set_sch s1 ?c))) with (term_init c). simpl term_init. rewrite (aw_init _ _ _ _ Haw).
  destruct (so_init _ Hok) as (a & b & d & -> & _).
  by rewrite aget_out by (unfold zlen; simpl; lia).
Qed.
(** Terminals that do not exist. Alt with F4 to F6 asks for terminals 3 to 5,
    which [term_init] does not have: after the context has been saved, the code
    reads past the end of the array. *)
Theorem switchTerm_out_of_range fuel more s num esp ebp esp2 ebp2 :
  pages_ok s -> sched_ok (sch s) -> (active_term (sch s) = bg_term (sch s) -> id_pte (pg s) 0xb8) ->
  3 <= num < 6 -> switchTerm fuel more esp ebp esp2 ebp2 num s = Undef.
Proof. apply switchTerm_out_of_range_spec. Qed.
End Facts.

(** ** A concrete switch *)

Section Demo.
#[local] Existing Instance demo_layout.

Definition demo_screens : mem := fill 4096 0xB8000 65 (fill (Z.to_nat 12288) 0x1000 32 ∅).

Definition demo_two_terms : sched_t :=
  mkSched ([[3; 4]; [5; 6]; [0; 0]] ++ replicate 3 [0; 0]) 0 [1; 1; 0] [0; 1; 2] 0 0 [70; 71; 72] [80; 81; 82].

Definition demo_terminals (pg0 : paging) : kstate :=
  set_pg (set_sch (kboot demo_screens) demo_two_terms) pg0.

Lemma demo_screens_at a : demo_screens !! a =
  if (0xB8000 <=? a) && (a <? 0xB9000) then Some 65
  else if (0x1000 <=? a) && (a <? 0x4000) then Some 32 else None.
Proof. unfold demo_screens. rewrite !lookup_fill, lookup_empty. rewrite Z2Nat.id by lia. done. Qed.

Lemma demo_two_terms_ok : sched_ok demo_two_terms.
Proof.
  constructor; try (simpl; done || lia).
  - intros t Ht. assert (t = 0 \/ t = 1 \/ t = 2) as [->|[->| ->]] by lia; by eexists.
  - exists 1, 1, 0. split_and!; auto.
Qed.

Lemma demo_pages_ok pg0 : demo_paging 2 pg0 -> pages_ok (demo_terminals pg0) /\ id_pte pg0 0xb8.
Proof.
  intros [Hinv Hcr Hproc Hpte]. split; [|apply Hpte; lia]. constructor.
  - exact Hinv.
  - right. exists 0. change (pg (demo_terminals pg0)) with pg0. rewrite Hproc. split; [lia | done].
  - intros t Ht. apply Hpte. lia.
  - intros t Ht i Hi. change (Z.of_nat 4096) with 4096 in Hi. change (ph (demo_terminals pg0)) with demo_screens.
    exists 32. rewrite demo_screens_at. unfold byte_ok. split; [by zcases | lia].
  - intros i Hi. change (Z.of_nat 4096) with 4096 in Hi. change (ph (demo_terminals pg0)) with demo_screens.
    exists 65. rewrite demo_screens_at. unfold byte_ok. split; [by zcases | lia].
Qed.

Lemma switchTerm_shows_witness :
  exists s s', switchTerm 0 (fun _ => Undef) 7 8 0 0 1 s = Ok (Stop (Resume 71 81), s') /\ on_screen s' 0 = Some 32.
Proof.
  destruct (demo_paging_exists 2) as (pg0 & Hpg); [lia |]. destruct (demo_pages_ok pg0 Hpg) as (Hpo & Hid).
  exists (demo_terminals pg0).
  destruct (switchTerm_shows 0 (fun _ => Undef) (demo_terminals pg0) 1 7 8 0 0 Hpo demo_two_terms_ok (fun _ => Hid) eq_refl)
    as (e & b & s' & E & Hs). exists s'.
  pose proof (sh_context _ _ _ _ _ _ _ Hs) as Hc. rewrite (sh_others _ _ _ _ _ _ _ Hs) in Hc by done.
  injection Hc as <- <- _. split; [exact E |]. rewrite (sh_screen _ _ _ _ _ _ _ Hs) by lia.
  change (saved (demo_terminals pg0) 1 0 = Some 32). unfold saved. change (ph (demo_terminals pg0)) with demo_screens.
  rewrite demo_screens_at. by zcases.
Defined.

Lemma switchTerm_out_of_range_witness :
  exists s, switchTerm 0 (fun _ => Undef) 7 8 0 0 3 s = Undef.
Proof.
  destruct (demo_paging_exists 2) as (pg0 & Hpg); [lia |]. destruct (demo_pages_ok pg0 Hpg) as (Hpo & Hid).
  exists (demo_terminals pg0).
  apply (switchTerm_out_of_range 0 (fun _ => Undef) (demo_terminals pg0) 3 7 8 0 0 Hpo demo_two_terms_ok (fun _ => Hid)). lia.
Defined.

(** Terminal 0, terminal 1, and back at once. *)
Lemma switchTerm_roundtrip_witness :
  exists s s1 s3 w, switchTerm 0 (fun _ => Undef) 7 8 0 0 1 s = Ok (w, s1) /\
    switchTerm 0 (fun _ => Undef) 9 9 0 0 0 s1 = Ok (Stop (Resume 7 8), s3) /\ on_screen s3 0 = Some 65.
Proof.
  destruct (demo_paging_exists 2) as (pg0 & Hpg); [lia |]. destruct (demo_pages_ok pg0 Hpg) as (Hpo & Hid).
  destruct (switchTerm_shows_spec 0 (fun _ => Undef) (demo_terminals pg0) 1 7 8 0 0 Hpo demo_two_terms_ok (fun _ => Hid) eq_refl)
    as (e & b & s1 & E & Hs).
  destruct (sh_active _ _ _ _ _ _ _ Hs) as (Ha & Hb & _). destruct (sh_tables _ _ _ _ _ _ _ Hs) as (Hti & _ & Hok1).
  destruct (switchTerm_roundtrip 0 (fun _ => Undef) (demo_terminals pg0) 0 1 7 8 0 0 _ s1 s1 9 9 0 0 0 0
    Hpo demo_two_terms_ok Hid eq_refl eq_refl eq_refl ltac:(lia) E) as (s3 & E3 & _ & Hscr).
  - apply (sh_pages _ _ _ _ _ _ _ Hs). destruct (sh_cr3 _ _ _ _ _ _ _ Hs) as (pid & Hpid & Hcr).
    injection Hpid as <-. right. exists 1. split; [lia |]. split; [exact Hcr |].
    rewrite (sh_proc _ _ _ _ _ _ _ Hs). change (pg (demo_terminals pg0)) with pg0. by rewrite (dp_proc _ _ Hpg).
  - exact Hok1.
  - exact (sh_pte _ _ _ _ _ _ _ Hs).
  - exact Ha.
  - exact Hb.
  - by rewrite Hti.
  - done.
  - done.
  - done.
  - exists (demo_terminals pg0), s1, s3. eexists. split; [exact E |]. split; [exact E3 |].
    rewrite Hscr by lia. unfold on_screen. change (ph (demo_terminals pg0)) with demo_screens.
    rewrite demo_screens_at. by zcases.
Defined.
End Demo.
