(* ===== verification/Keyboard.v ===== *)
(** * The keyboard

    The interrupt handler of [student-distrib/keyboard.c]: scancodes, the modifier
    keys, and the line of the terminal on screen. [x0] is what the local variable
    [x] holds when the code stores it without having set it; the arguments of
    [switchTerm] are passed on. The [leave; iret] at the end returns. *)

From S2P Require Import Prelude Strings Filesys Paging Mem State Pic Console Rtc Terminal Sched Syscalls Process Switch.

Local Open Scope Z_scope.
Local Open Scope kernel_scope.

Definition BREAKCC : Z := 0x80.
Definition KEY_INB : Z := 0x60.
Definition KEY_CAPS : Z := 0x3A.
Definition SHIFT : Z := 0x2A.
Definition SHIFT2 : Z := 0x36.
Definition SHIFT_OFF : Z := 0xAA.
Definition SHIFT_OFF2 : Z := 0xB6.
Definition CTRL_ON : Z := 0x1D.
Definition CTRL_ON2 : Z := 0xE0.
Definition CTRL_OFF : Z := 0x9D.
Definition BACKSPACE : Z := 0x0E.
Definition ALT : Z := 0x38.
Definition ALT_OFF : Z := 0xB8.
Definition F1 : Z := 0x3B.
Definition TAB : Z := 0x0F.

(** The characters of the keys; 90 of the 128 entries are given, the others are
    zero. *)
Definition kbd : list Z :=
  [0; 27; 49; 50; 51; 52; 53; 54; 55; 56;        (* 1 to 8 *)
   57; 48; 45; 61; 8;                            (* 9 0 - = backspace *)
   9;                                            (* tab *)
   113; 119; 101; 114;                           (* q w e r *)
   116; 121; 117; 105; 111; 112; 91; 93; 10;     (* t y u i o p [ ] enter *)
   0;                                            (* control *)
   97; 115; 100; 102; 103; 104; 106; 107; 108; 59;  (* a s d f g h j k l ; *)
   39; 96; 0;                                    (* ' ` left shift *)
   92; 122; 120; 99; 118; 98; 110;               (* \ z x c v b n *)
   109; 44; 46; 47; 0;                           (* m , . / right shift *)
   42;                                           (* * *)
   0; 32; 0;                                     (* alt, space bar, caps lock *)
   0; 0; 0; 0; 0; 0; 0; 0; 0; 0;                 (* F1 to F10 *)
   0; 0; 0; 0; 0;                                (* num lock to page up *)
   45; 0; 0; 0; 43;                              (* - arrows + *)
   0; 0; 0; 0; 0; 0; 0; 0; 0; 0; 0] ++ replicate 38 0.

Definition kbd_sym : list Z :=
  [60; 95; 62; 63; 41; 33; 64;      (* < _ > ? ) ! @ *)
   35; 36; 37; 94; 38; 42; 40;      (* # $ % ^ & * ( *)
   126; 43; 123; 125; 58; 124; 34]. (* ~ + { } : | double quote *)

Definition is_letter (c : Z) : bool := (97 <=? c) && (c <=? 122).

Section Code.
Context `{Layout} `{Env}.

(** The switch for the special keys with shift; [None] is its default. *)
Definition sym_case (c : Z) : option Z :=
  if c =? 96 then Some 14
  else if c =? 61 then Some 15
  else if c =? 91 then Some 16
  else if c =? 93 then Some 17
  else if c =? 59 then Some 18
  else if c =? 92 then Some 19
  else if c =? 39 then Some 20
  else None.

(** The branch for shift: the character typed, if any. *)
Definition shift_char (c : Z) : res (option Z) :=
  if is_letter c then Ok (Some (c - 32))
  else
    let temp := u32 (c - 44) in
    if temp <? 14 then x ← aget kbd_sym temp; Ok (Some x)
    else match sym_case c with Some i => x ← aget kbd_sym i; Ok (Some x) | None => Ok None end.

(** The end of the branch for key presses: the character goes to the line. *)
Definition store_key (s : kstate) (x : Z) : res kstate :=
  k ← index_get s;
  s ← (if negb (k =? 127) then buf_push s x else Ok s);
  check_buf s 1 x.

Definition press (fuel : nat) (more : reader) (esp ebp esp2 ebp2 x0 scancode : Z) : K unit := fun s =>
  c ← aget kbd scancode;
  (* caps lock *)
  let caps := (capson (kb s) =? 1) && is_letter c in
  let x := if caps then u8 (c - 32) else x0 in
  s ← (if caps then putc s x else Ok s);
  if alt_on (kb s) =? 1 then
    let newTerm := scancode - F1 in
    if (newTerm <? 6) && (0 <=? newTerm) then
      (do! switchTerm fuel more esp ebp esp2 ebp2 newTerm ;; kdo (fun s => store_key s x)) s
    else Ok (Ret tt, s)
  else if shift_on (kb s) =? 1 then
    o ← shift_char c;
    match o with
    | Some x => s ← putc s x; s ← store_key s x; Ok (Ret tt, s)
    | None => s ← store_key s x; Ok (Ret tt, s)
    end
  else s ← putc s c; s ← store_key s c; Ok (Ret tt, s).

(** From the tests of [scancode] to [done_kbd_handle]. *)
Definition keyboard_key (fuel : nat) (more : reader) (esp ebp esp2 ebp2 x0 scancode : Z) : K unit := fun s =>
  let k := kb s in
  if scancode =? KEY_CAPS then
    Ok (Ret tt, set_mods s (if capson k =? 1 then 0 else 1) (ctrl_on k) (shift_on k) (alt_on k))
  else if (scancode =? SHIFT) || (scancode =? SHIFT2) then
    Ok (Ret tt, set_mods s (capson k) (ctrl_on k) 1 (alt_on k))
  else if (scancode =? SHIFT_OFF) || (scancode =? SHIFT_OFF2) then
    Ok (Ret tt, set_mods s (capson k) (ctrl_on k) 0 (alt_on k))
  else if (scancode =? CTRL_ON) || (scancode =? CTRL_ON2) then
    Ok (Ret tt, set_mods s (capson k) 1 (shift_on k) (alt_on k))
  else if scancode =? CTRL_OFF then
    Ok (Ret tt, set_mods s (capson k) 0 (shift_on k) (alt_on k))
  else if scancode =? ALT then
    Ok (Ret tt, set_mods s (capson k) (ctrl_on k) (shift_on k) 1)
  else if scancode =? ALT_OFF then
    Ok (Ret tt, set_mods s (capson k) (ctrl_on k) (shift_on k) 0)
  else if scancode =? BACKSPACE then s ← backspacing s 1; Ok (Ret tt, s)
  else if scancode =? TAB then
    '(_, s) ← puts 5 s (aget [32; 32; 32; 32; 0]);
    s ← check_buf s 0 32; Ok (Ret tt, s)
  else
    l ← ((if ctrl_on k =? 1 then c ← aget kbd scancode; Ok (c =? 108) else Ok false) : res bool);
    if (l : bool) then s ← clear s; Ok (Ret tt, change_coord s 0 0)
    else if scancode <=? BREAKCC then press fuel more esp ebp esp2 ebp2 x0 scancode s
    else Ok (Ret tt, s).

(** [done_kbd_handle]. *)
Definition keyboard_done (s : kstate) : kstate := send_eoi (sti s) 1.

(** The handler once the scancode is read, and the whole handler. *)
Definition keyboard_scancode (fuel : nat) (more : reader) (esp ebp esp2 ebp2 x0 scancode : Z) : K unit := fun s =>
  let s := cli s in
  (do! keyboard_key fuel more esp ebp esp2 ebp2 x0 scancode ;; kdo (fun s => Ok (keyboard_done s))) s.

Definition keyboard_handler (fuel : nat) (more : reader) (esp ebp esp2 ebp2 x0 : Z) : K unit := fun s =>
  let '(scancode, s) := inb s KEY_INB in
  keyboard_scancode fuel more esp ebp esp2 ebp2 x0 scancode s.
End Code.

(** ** Typing on a terminal *)

(** The scancodes the handler treats itself. *)
Definition special (code : Z) : bool :=
  existsb (Z.eqb code) [KEY_CAPS; SHIFT; SHIFT2; SHIFT_OFF; SHIFT_OFF2; CTRL_ON; CTRL_ON2; CTRL_OFF; ALT; ALT_OFF; BACKSPACE; TAB].

(** The key with scancode [code] is the character [c]. *)
Definition key_is (code c : Z) : Prop := aget kbd code = Ok c /\ special code = false.

(** What a US keyboard types with shift. *)
Definition us_plain : list Z :=
  [96; 49; 50; 51; 52; 53; 54; 55; 56; 57; 48; 45; 61] ++                   (* ` 1 to 9 0 - = *)
  [91; 93; 92; 59; 39; 44; 46; 47] ++ map (fun i => 97 + i) (seqZ 0 26).    (* [ ] \ ; ' , . / a to z *)
Definition us_shifted : list Z :=
  [126; 33; 64; 35; 36; 37; 94; 38; 42; 40; 41; 95; 43] ++                  (* ~ ! @ # $ % ^ & * ( ) _ + *)
  [123; 125; 124; 58; 34; 60; 62; 63] ++ map (fun i => 65 + i) (seqZ 0 26). (* { } | : quote < > ? A to Z *)
Definition us_shift (c : Z) : option Z :=
  '(_, (_, x)) ← list_find (fun p => p.1 = c) (zip us_plain us_shifted); Some x.

(** The modifiers: caps lock and shift as given, no control, no alt. *)
Definition mods_are (caps shift : bool) (k : keyboard_t) : Prop :=
  (capson k =? 1) = caps /\ (shift_on k =? 1) = shift /\ (alt_on k =? 1) = false /\ (ctrl_on k =? 1) = false.

(** What a key writes on the screen, and what it appends to the line. *)
Definition echo (caps shift : bool) (c : Z) : list Z :=
  (if caps && is_letter c then [c - 32] else []) ++
  (if shift then match us_shift c with Some x => [x] | None => [] end else [c]).
Definition stored (caps shift : bool) (x0 c : Z) : Z :=
  if shift then match us_shift c with
    | Some x => x
    | None => if caps && is_letter c then c - 32 else x0
    end
  else c.

(** A character appended to a line: the limit is 127. *)
Definition append (line : list Z) (c : Z) : list Z := if zlen line =? 127 then line else line ++ [c].
Definition consume (line rest : list Z) : list Z := if zlen line =? 127 then rest else drop 1 rest.

(** The user has typed [line] on the terminal on screen, the kernel draws on the
    screen [sc] at physical address [p]; the rest of the line buffer is [rest]. *)
Record typing `{Layout} (caps shift : bool) (p : Z) (s : kstate) (sc : screen) (line rest : list Z) : Prop := {
  ty_displays : displays p s sc;
  ty_kb : kb_ok s;
  ty_line : line_is s (line ++ rest) (zlen line);
  ty_len : zlen line <= 127;
  ty_mods : mods_are caps shift (kb s)
}.

(** What typing leaves alone: everything but the console, the line buffers, the page
    at [p], the port log and the interrupt flag. *)
Definition io_frame (p : Z) (s s' : kstate) : Prop :=
  s' = mkK (log s') (iflag s') (pic s) (pg s) (ph s') (con s') (kb s') (sch s) (interrupt_count s) (fs s) (tss s)
         (args s) (pcbs s) /\
  (forall k, k <> bg_term (sch s) -> aget (scr_buf (con s')) k = aget (scr_buf (con s)) k) /\
  (forall q, ~ (p <= q < p + 4000) -> ph s' !! q = ph s !! q).

(** Several interrupts. *)
Fixpoint presses `{Layout} `{Env} (fuel : nat) (more : reader) (esp ebp esp2 ebp2 x0 : Z) (codes : list Z) : K unit :=
  match codes with
  | [] => kret tt
  | code :: codes =>
      do! keyboard_scancode fuel more esp ebp esp2 ebp2 x0 code ;; presses fuel more esp ebp esp2 ebp2 x0 codes
  end.

Section Facts.
Context `{Layout} `{Env}.

Lemma kbd_bytes : Forall byte_ok kbd.
Proof. vm_compute. repeat constructor; discriminate. Qed.

Lemma kbd_byte code c : aget kbd code = Ok c -> byte_ok c /\ 0 <= code < 128.
Proof.
  intros Hc. pose proof (aget_Ok_range _ _ _ Hc) as Hr. change (zlen kbd) with 128 in Hr.
  apply aget_lookup in Hc as [_ Hc]. split; [by apply (Forall_lookup_1 _ _ _ _ kbd_bytes Hc) | done].
Qed.

(** A property of bytes, by cases. *)
Lemma byte_cases (P : Z -> bool) : forallb P (seqZ 0 256) = true -> forall c, byte_ok c -> P c = true.
Proof.
  intros HP c Hc. rewrite forallb_forall in HP. apply HP, list_elem_of_In, elem_of_seqZ.
  unfold byte_ok in Hc. lia.
Qed.

(** The branch for shift types what is on the keys. *)
Lemma shift_char_us c : byte_ok c -> shift_char c = Ok (us_shift c).
Proof.
  intros Hc. pose (P c := match shift_char c, us_shift c with
    | Ok (Some x), Some y => x =? y | Ok None, None => true | _, _ => false end).
  assert (HP : P c = true) by (apply byte_cases; [by vm_compute | done]).
  unfold P in HP. destruct (shift_char c) as [[x|]| |], (us_shift c) as [y|]; try done.
  by apply Z.eqb_eq in HP as ->.
Qed.

Lemma echo_bytes caps shift c : byte_ok c -> Forall byte_ok (echo caps shift c).
Proof.
  intros Hc. apply Forall_app. split.
  - destruct caps; [|by apply Forall_nil]. simpl. unfold is_letter, byte_ok. destruct (Z.leb_spec 97 c), (Z.leb_spec c 122); repeat (apply Forall_cons; split); try apply Forall_nil; unfold byte_ok; lia.
  - destruct shift; [|by apply Forall_singleton].
    pose (P c := match us_shift c with Some x => (0 <=? x) && (x <? 256) | None => true end).
    assert (HP : P c = true) by (apply byte_cases; [by vm_compute | done]).
    unfold P in HP. destruct (us_shift c) as [x|]; repeat (apply Forall_cons; split); try apply Forall_nil; unfold byte_ok; lia.
Qed.

(** The parts of the state that drawing does not touch. *)
Lemma frame_line p s s' row k : con_frame p s s' -> line_is s row k -> line_is s' row k.
Proof. intros Hf [Hr Hk]. destruct (con_frame_kb _ _ _ Hf) as [Ek Es]. split; by rewrite Ek, Es. Qed.

Lemma frame_kb_ok p s s' : con_frame p s s' -> kb_ok s -> kb_ok s'.
Proof. intros Hf []. destruct (con_frame_kb _ _ _ Hf) as [Ek Es]. constructor; by rewrite ?Ek, ?Es. Qed.

Lemma frame_typing caps shift p s s' sc sc' line rest :
  con_frame p s s' -> displays p s' sc' -> typing caps shift p s sc line rest -> typing caps shift p s' sc' line rest.
Proof.
  intros Hf Hd [_ Hok Hl Hn Hm]. constructor; [done | by eapply frame_kb_ok | by eapply frame_line | done |].
  by rewrite (proj1 (con_frame_kb _ _ _ Hf)).
Qed.

Lemma io_frame_refl p s : io_frame p s s.
Proof. split_and!; [by destruct s | done..]. Qed.

Lemma io_frame_trans p s1 s2 s3 : io_frame p s1 s2 -> io_frame p s2 s3 -> io_frame p s1 s3.
Proof.
  intros (E1 & B1 & M1) (E2 & B2 & M2). split_and!.
  - rewrite E2, E1. done.
  - intros k Hk. rewrite B2, B1; [done | done |]. by rewrite E1.
  - intros q Hq. by rewrite M2, M1.
Qed.

Lemma con_io_frame p s s' : con_frame p s s' -> io_frame p s s'.
Proof. intros (E & B & M). split_and!; [rewrite E; reflexivity | done..]. Qed.

Lemma kb_io_frame p s k : io_frame p s (set_kb s k).
Proof. by split_and!. Qed.

Lemma flag_io_frame p s l b : io_frame p s (set_iflag (set_log s l) b).
Proof. by split_and!. Qed.

(** The port log and the interrupt flag do not matter. *)
Lemma io_displays p s sc l b : displays p s sc -> displays p (set_iflag (set_log s l) b) sc.
Proof. intros [[] ? ? ? ?]. by constructor; [constructor|..]. Qed.

Lemma io_typing caps shift p s sc line rest l b :
  typing caps shift p s sc line rest -> typing caps shift p (set_iflag (set_log s l) b) sc line rest.
Proof. intros [Hd [] [] ? ?]. constructor; [by apply io_displays | by constructor | by constructor | done..]. Qed.

(** Typing several characters. *)
Lemma putc_typing caps shift p s sc line rest c :
  typing caps shift p s sc line rest -> byte_ok c ->
  exists s', putc s c = Ok s' /\ typing caps shift p s' (type_char sc c) line rest /\ con_frame p s s'.
Proof.
  intros Ht Hc. destruct (putc_step p s sc c (ty_displays _ _ _ _ _ _ _ Ht) Hc) as (s' & E & Hd & Hf).
  exists s'. split_and!; [done | by eapply frame_typing | done].
Qed.

(** Storing a character, below and at the limit. *)
Lemma store_key_typing caps shift p s sc line rest c :
  typing caps shift p s sc line rest -> c <> 10 ->
  exists s', store_key s c = Ok s' /\ typing caps shift p s' sc (append line c) (consume line rest) /\
    fflag (kb s') = fflag (kb s) /\ sch s' = sch s /\ io_frame p s s'.
Proof.
  intros Ht Hc. destruct Ht as [Hd Hok Hl Hn Hm] eqn:E. clear E.
  unfold store_key, index_get at 1, append, consume. rewrite (line_index _ _ _ Hl). rstep.
  assert (Hchk : forall t, check_buf t 1 c = Ok t).
  { intros t. unfold check_buf. change (1 =? 0) with false. cbv iota. by rewrite (proj2 (Z.eqb_neq c 10) Hc). }
  destruct (Z.eqb_spec (zlen line) 127); cbn [negb]; cbv iota; rstep.
  { rewrite Hchk. exists s. split_and!; [done.. | apply io_frame_refl]. }
  destruct rest as [|x rest]; [pose proof (line_len _ _ _ Hok Hl) as Hlen; rewrite app_nil_r in Hlen; lia |].
  destruct (buf_push_line s line x rest c Hok Hl) as (s2 & -> & Es2 & Hok2 & Hl2). rstep. rewrite Hchk.
  exists s2. rewrite Es2 in *. split_and!; [done | | done | done | by split_and!]. constructor; [|done..| |done].
  - by apply (kb_displays p (put_row s _)), kb_displays.
  - rewrite zlen_app, zlen_cons. change (zlen (@nil Z)) with 0. lia.
Qed.

(** A key that the handler has no case for, without control and alt. *)
Lemma key_typing caps shift p s sc line rest fuel more esp ebp esp2 ebp2 x0 code c :
  typing caps shift p s sc line rest -> key_is code c -> stored caps shift x0 c <> 10 ->
  exists s', keyboard_key fuel more esp ebp esp2 ebp2 x0 code s = Ok (Ret tt, s') /\
    typing caps shift p s' (type_string sc (echo caps shift c)) (append line (stored caps shift x0 c)) (consume line rest) /\
    fflag (kb s') = fflag (kb s) /\ sch s' = sch s /\ io_frame p s s'.
Proof.
  intros Ht (Hc & Hsp) Hne. destruct (kbd_byte code c Hc) as (Hb & Hr).
  unfold special in Hsp. cbn [existsb] in Hsp. rewrite !orb_false_iff in Hsp.
  destruct Hsp as (E1 & E2 & E3 & E4 & E5 & E6 & E7 & E8 & E9 & E10 & E11 & E12 & _).
  unfold keyboard_key. rewrite E1, E2, E3, E4, E5, E6, E7, E8, E9, E10, E11, E12. cbn [orb].
  destruct (ty_mods _ _ _ _ _ _ _ Ht) as (Hcaps & _ & _ & ->). rstep.
  unfold BREAKCC. destruct (Z.leb_spec code 0x80); [|lia].
  unfold press. rewrite Hc. rstep. rewrite Hcaps. clear E1 E2 E3 E4 E5 E6 E7 E8 E9 E10 E11 E12.
  (* caps lock *)
  set (pre := if caps && is_letter c then [c - 32] else []).
  assert (Hpre : exists s1, (if caps && is_letter c then putc s (if caps && is_letter c then u8 (c - 32) else x0) else Ok s) = Ok s1 /\
    typing caps shift p s1 (type_string sc pre) line rest /\ con_frame p s s1).
  { unfold pre. destruct (caps && is_letter c) eqn:El.
    - apply andb_prop in El as [_ El]. unfold is_letter in El. rewrite u8_id by lia.
      apply (putc_typing caps shift p s sc line rest (c - 32) Ht). unfold byte_ok. lia.
    - exists s. split_and!; [done | done | apply con_frame_refl]. }
  destruct Hpre as (s1 & -> & Ht1 & Hf1). rstep.
  destruct (ty_mods _ _ _ _ _ _ _ Ht1) as (_ & Hshift & -> & _). rewrite Hshift.
  destruct (con_frame_kb _ _ _ Hf1) as (Ek & Es).
  assert (Hend : forall x s2 sc2, typing caps shift p s2 sc2 line rest -> con_frame p s1 s2 -> x = stored caps shift x0 c ->
    exists s', (s3 ← store_key s2 x; Ok (Ret tt, s3)) = Ok (Ret tt, s') /\
      typing caps shift p s' sc2 (append line (stored caps shift x0 c)) (consume line rest) /\
      fflag (kb s') = fflag (kb s) /\ sch s' = sch s /\ io_frame p s s').
  { intros x s2 sc2 Ht2 Hf2 ->. destruct (con_frame_kb _ _ _ Hf2) as (Ek2 & Es2).
    destruct (store_key_typing _ _ _ _ _ _ _ _ Ht2 Hne) as (s' & -> & Ht' & Hff & Hs & Hio). rstep.
    exists s'. split_and!; [done | done | congruence | congruence |].
    by eapply io_frame_trans; [apply con_io_frame, Hf1 |]; eapply io_frame_trans; [apply con_io_frame, Hf2 |]. }
  unfold echo, stored in *. fold pre. destruct shift; cbv iota.
  - rewrite shift_char_us by done. rstep. destruct (us_shift c) as [x|] eqn:Eu.
    + pose proof (echo_bytes caps true c Hb) as Hbs. unfold echo in Hbs. rewrite Eu in Hbs.
      apply Forall_app in Hbs as [_ Hbs]. apply Forall_inv in Hbs.
      destruct (putc_typing _ _ _ _ _ _ _ _ Ht1 Hbs) as (s2 & -> & Ht2 & Hf2). rstep.
      rewrite type_string_app. by apply (Hend x s2 _ Ht2 Hf2).
    + rewrite app_nil_r. apply (Hend _ s1 _ Ht1 (con_frame_refl _ _)). destruct (caps && is_letter c) eqn:El; [|done].
      apply andb_prop in El as [_ El]. unfold is_letter in El. by rewrite u8_id by lia.
  - destruct (putc_typing _ _ _ _ _ _ _ _ Ht1 Hb) as (s2 & -> & Ht2 & Hf2). rstep.
    rewrite type_string_app. by apply (Hend c s2 _ Ht2 Hf2).
Qed.

(** The Enter key: the line is complete. *)
Lemma enter_typing caps p s sc line rest fuel more esp ebp esp2 ebp2 x0 :
  typing caps false p s sc line rest ->
  exists s', keyboard_key fuel more esp ebp esp2 ebp2 x0 0x1C s = Ok (Ret tt, s') /\
    typing caps false p s' (type_char sc 10) (append line 10) (consume line rest) /\ fflag (kb s') = 1 /\
    entered_get s' = Ok (zlen (append line 10)) /\ sch s' = sch s /\ io_frame p s s'.
Proof.
  intros Ht. destruct (ty_mods _ _ _ _ _ _ _ Ht) as (Hcaps & Hshift & Halt & Hctrl).
  assert (keyboard_key fuel more esp ebp esp2 ebp2 x0 0x1C s = (s1 ← putc s 10; s2 ← store_key s1 10; Ok (Ret tt, s2))) as ->.
  { unfold keyboard_key. rewrite Hctrl. cbn [orb Z.eqb Pos.eqb KEY_CAPS SHIFT SHIFT2 SHIFT_OFF SHIFT_OFF2 CTRL_ON CTRL_ON2 CTRL_OFF ALT ALT_OFF BACKSPACE TAB].
    rstep. change (0x1C <=? BREAKCC) with true. cbv iota. unfold press. change (aget kbd 0x1C) with (@Ok Z 10). rstep.
    change (is_letter 10) with false. rewrite !andb_false_r. rstep. by rewrite Halt, Hshift. }
  destruct (putc_typing caps false p s sc line rest 10 Ht) as (s1 & -> & Ht1 & Hf1); [by unfold byte_ok |]. rstep.
  destruct (con_frame_kb _ _ _ Hf1) as (_ & Es).
  unfold store_key, index_get at 1, append, consume. destruct Ht1 as [Hd Hok Hl Hn Hm].
  rewrite (line_index _ _ _ Hl). rstep.
  assert (Hend : forall t line' rest', kb_ok t -> line_is t (line' ++ rest') (zlen line') -> zlen line' <= 127 ->
    displays p t (type_char sc 10) -> mods_are caps false (kb t) -> sch t = sch s1 -> io_frame p s1 t ->
    exists s', (s2 ← check_buf t 1 10; Ok (Ret tt, s2)) = Ok (Ret tt, s') /\
      typing caps false p s' (type_char sc 10) line' rest' /\ fflag (kb s') = 1 /\
      entered_get s' = Ok (zlen line') /\ sch s' = sch s /\ io_frame p s s').
  { intros t line' rest' Hokt Hlt Hnt Hdt Hmt Hst Hio. unfold check_buf. change (1 =? 0) with false. change (10 =? 10) with true. cbv iota.
    unfold index_get. rewrite (line_index _ _ _ Hlt). rstep. rewrite entered_set_ok by done. rstep.
    rewrite entered_put by done. rstep.
    destruct (Z.eqb_spec (zlen line') (BUF_SIZE - 1)); [unfold BUF_SIZE in *; lia |]. cbn [andb]. rstep.
    eexists. split; [done |]. split_and!.
    - constructor; [by apply (kb_displays p (put_entered t _)), kb_displays | by apply kb_ok_fflag, kb_ok_put_entered | by destruct Hlt | done | done].
    - done.
    - change (entered_get (put_entered t (zlen line')) = Ok (zlen line')). by apply entered_put.
    - by rewrite <- Es.
    - eapply io_frame_trans; [apply con_io_frame, Hf1 |]. eapply io_frame_trans; [exact Hio | by split_and!]. }
  destruct (Z.eqb_spec (zlen line) 127); cbn [negb]; cbv iota; rstep; [apply Hend; done || apply io_frame_refl |].
  destruct rest as [|x rest]; [pose proof (line_len _ _ _ Hok Hl) as Hlen; rewrite app_nil_r in Hlen; lia |].
  destruct (buf_push_line s1 line x rest 10 Hok Hl) as (s2 & -> & Es2 & Hok2 & Hl2). rstep. cbn [drop].
  apply Hend; [done | done | | rewrite Es2 .. ].
  - rewrite zlen_app, zlen_cons. change (zlen (@nil Z)) with 0. lia.
  - by apply (kb_displays p (put_row s1 _)), kb_displays.
  - exact Hm.
  - done.
  - by split_and!.
Qed.

(** The whole handler: around the key, the interrupt flag and the controller. *)
Lemma scancode_key caps shift p sc line rest fuel more esp ebp esp2 ebp2 x0 code s sc' line' rest' (Q : kstate -> Prop) :
  typing caps shift p s sc line rest ->
  (forall t, kb t = kb s -> sch t = sch s -> io_frame p s t -> typing caps shift p t sc line rest ->
    exists t', keyboard_key fuel more esp ebp esp2 ebp2 x0 code t = Ok (Ret tt, t') /\
      typing caps shift p t' sc' line' rest' /\ Q t') ->
  exists s1 l, keyboard_scancode fuel more esp ebp esp2 ebp2 x0 code s = Ok (Ret tt, set_iflag (set_log s1 l) true) /\
    typing caps shift p (set_iflag (set_log s1 l) true) sc' line' rest' /\ Q s1.
Proof.
  intros Ht Hkey. destruct (Hkey (cli s)) as (t' & E & Ht' & HQ); [done | done | by split_and! | |].
  { unfold cli. replace s with (set_log s (log s)) by by destruct s. by apply io_typing. }
  exists t', (log (send_eoi t' 1)). unfold keyboard_scancode, kbind. rewrite E. rstep. split_and!; [done | | done].
  by apply io_typing.
Qed.

Lemma append_take line cs c : append (take 127 (line ++ cs)) c = take 127 ((line ++ cs) ++ [c]).
Proof.
  unfold append, zlen. rewrite length_take. generalize (line ++ cs). intros l.
  destruct (Z.eqb_spec (Z.of_nat (127 `min` length l)) 127) as [E|E].
  - by rewrite take_app_le by lia.
  - rewrite (take_ge l), take_ge by (rewrite ?length_app; simpl; lia). done.
Qed.

Lemma consume_drop l c row :
  consume (take 127 l) (drop (length (take 127 l)) row) = drop (length (take 127 (l ++ [c]))) row.
Proof.
  unfold consume, zlen. rewrite !length_take, length_app. simpl length. rewrite drop_drop.
  destruct (Z.eqb_spec (Z.of_nat (127 `min` length l)) 127); f_equal; lia.
Qed.

Lemma append_take1 l c : append (take 127 l) c = take 127 (l ++ [c]).
Proof. pose proof (append_take l [] c) as E. by rewrite !app_nil_r in E. Qed.

(** Keys that type characters, without shift. *)
Lemma presses_typing caps p row fuel more esp ebp esp2 ebp2 x0 codes cs :
  Forall2 key_is codes cs -> Forall (fun c => c <> 10) cs ->
  forall s sc line,
  typing caps false p s sc (take 127 line) (drop (length (take 127 line)) row) ->
  exists s', presses fuel more esp ebp esp2 ebp2 x0 codes s = Ok (Ret tt, s') /\
    typing caps false p s' (type_string sc (concat (map (echo caps false) cs)))
      (take 127 (line ++ cs)) (drop (length (take 127 (line ++ cs))) row).
Proof.
  induction 1 as [|code c codes cs Hk _ IH]; intros Hne s sc line Ht.
  { exists s. rewrite app_nil_r. done. }
  apply Forall_cons in Hne as [Hc Hne]. cbn [presses]. unfold kbind at 1.
  destruct (scancode_key caps false p sc _ _ fuel more esp ebp esp2 ebp2 x0 code s
    (type_string sc (echo caps false c)) (take 127 (line ++ [c])) (drop (length (take 127 (line ++ [c]))) row) (fun _ => True) Ht)
    as (s1 & l & -> & Ht1 & _).
  { intros t _ _ _ Htt.
    destruct (key_typing _ _ _ _ _ _ _ fuel more esp ebp esp2 ebp2 x0 code c Htt Hk Hc) as (t' & E & Ht' & _).
    exists t'. split_and!; [done | | done]. unfold stored in Ht'. by rewrite append_take1, (consume_drop line c) in Ht'. }
  destruct (IH Hne _ _ _ Ht1) as (s' & E & Ht'). exists s'.
  rewrite <- app_assoc in Ht'. split; [rstep; exact E |].
  change (concat (map (echo caps false) (c :: cs))) with (echo caps false c ++ concat (map (echo caps false) cs)).
  rewrite type_string_app. exact Ht'.
Qed.

Lemma presses_app fuel more esp ebp esp2 ebp2 x0 codes1 codes2 s s1 :
  presses fuel more esp ebp esp2 ebp2 x0 codes1 s = Ok (Ret tt, s1) ->
  presses fuel more esp ebp esp2 ebp2 x0 (codes1 ++ codes2) s = presses fuel more esp ebp esp2 ebp2 x0 codes2 s1.
Proof.
  revert s. induction codes1 as [|c codes1 IH]; intros s E; [by injection E as <- |].
  cbn [presses app] in *. unfold kbind at 1 in E. unfold kbind at 1.
  destruct (keyboard_scancode _ _ _ _ _ _ _ _ _) as [[[[]|] t]| |]; try discriminate. by apply IH.
Qed.

(** C10. A line is read as it was typed. [read_terminal] waits; the user presses
    keys that type [cs] and then Enter; each key is echoed on the screen (twice
    with caps lock on), and the read then returns the number of characters and
    the characters with the newline, and leaves the terminal ready for the next
    line. Lines are cut at 127 characters, the newline included. What the line
    buffer held after the line is delivered with it, up to a NUL. *)
Theorem typed_line_read caps p s sc row stale tail cs codes buf1 nbytes fuel more esp ebp esp2 ebp2 x0 :
  displays p s sc -> kb_ok s -> mods_are caps false (kb s) -> fflag (kb s) = 0 ->
  aget (buf (kb s)) (active_term (sch s)) = Ok row ->
  Forall2 key_is codes cs -> Forall (fun c => c <> 0 /\ c <> 10) cs ->
  drop (length (take 127 (cs ++ [10]))) row = stale ++ 0 :: tail -> nonnul stale ->
  zlen (take 127 (cs ++ [10])) + zlen stale < zlen buf1 -> 0 <= nbytes <= 1024 ->
  let line := take 127 (cs ++ [10]) in
  let sc' := type_string sc (concat (map (echo caps false) cs) ++ [10]) in
  exists s1 s2 s3,
    read_terminal buf1 nbytes s = Ok (Stop Blocked, s1) /\
    presses fuel more esp ebp esp2 ebp2 x0 (codes ++ [0x1C]) s1 = Ok (Ret tt, s2) /\ displays p s2 sc' /\
    read_terminal_wait buf1 nbytes s2 =
      Ok (Ret (zlen line, (line ++ stale) ++ 0 :: drop (S (length (line ++ stale))) buf1), s3) /\
    typing caps false p s3 sc' [] (replicate (Z.to_nat nbytes) 32 ++ drop (Z.to_nat nbytes) (line ++ drop (length line) row)) /\
    fflag (kb s3) = 0.
Proof.
  intros Hd Hok Hm Hff Hrow Hkeys Hcs Hstale Hnn Hfit Hnb line sc'.
  destruct (kb_ok_line s Hok) as (row' & k & Hl & Hlen). assert (row' = row) as ->.
  { pose proof (line_row _ _ _ Hl). congruence. }
  (* the call *)
  pose (s1 := put_entered (put_index s 0) (u32 nbytes)).
  assert (E1 : read_terminal buf1 nbytes s = Ok (Stop Blocked, s1)).
  { unfold read_terminal, read_terminal_start, kbind, kdo. rewrite index_set_ok by done. rstep.
    rewrite entered_set_ok by by apply kb_ok_put_index. rstep. unfold read_terminal_wait.
    change (fflag (kb (put_entered (put_index s 0) (u32 nbytes)))) with (fflag (kb s)). by rewrite Hff. }
  assert (Ht1 : typing caps false p s1 sc (take 127 []) (drop (length (take 127 (@nil Z))) row)).
  { constructor; [by apply (kb_displays p (put_index s 0)), kb_displays | by apply kb_ok_put_entered, kb_ok_put_index | | done | done].
    apply (line_put_index s row k 0 Hok) in Hl. by destruct Hl. }
  (* the keys *)
  destruct (presses_typing caps p row fuel more esp ebp esp2 ebp2 x0 codes cs Hkeys) with (s := s1) (sc := sc) (line := @nil Z)
    as (s2 & E2 & Ht2); [by eapply Forall_impl; [exact Hcs | intros ? []] | done |].
  rewrite app_nil_l in Ht2.
  destruct (scancode_key caps false p _ _ _ fuel more esp ebp esp2 ebp2 x0 0x1C s2
    (type_char (type_string sc (concat (map (echo caps false) cs))) 10)
    (append (take 127 cs) 10) (consume (take 127 cs) (drop (length (take 127 cs)) row))
    (fun t => fflag (kb t) = 1 /\ entered_get t = Ok (zlen (append (take 127 cs) 10))) Ht2) as (s3 & l3 & E3 & Ht3 & Hf3 & He3).
  { intros t _ _ _ Htt. destruct (enter_typing _ _ _ _ _ _ fuel more esp ebp esp2 ebp2 x0 Htt) as (t' & E & Ht' & Hf & He & _).
    exists t'. split_and!; [exact E | exact Ht' | done | exact He]. }
  rewrite append_take1, (consume_drop cs 10) in *. fold line in Ht3, He3, Hstale. rewrite Hstale in Ht3.
  set (s4 := set_iflag (set_log s3 l3) true) in *.
  exists s1, s4.
  (* the read *)
  destruct Ht3 as [Hd3 Hok3 Hl3 Hn3 Hm3]. rewrite app_assoc in Hl3.
  pose proof (read_terminal_line_spec s4 buf1 nbytes (line ++ stale) tail _ (zlen line) Hok3 ltac:(change (kb s4) with (kb s3); lia) Hl3) as Hr.
  rewrite zlen_app in Hr. destruct (Z.ltb_spec (zlen line + zlen stale) (zlen buf1)); [|unfold line in *; lia].
  destruct Hr as (s5 & E5 & Hok5 & Hf5 & Hl5 & b & ix & Es5); [| exact He3 | done |].
  { apply Forall_app. split; [|done]. apply Forall_take, Forall_app. split; [|by apply Forall_singleton].
    clear -Hkeys Hcs. induction Hkeys as [|code c codes' cs' [Hk _] _ IH]; [constructor |].
    apply Forall_cons in Hcs as [[Hc _] Hcs]. apply Forall_cons. split; [|by apply IH]. by destruct (kbd_byte _ _ Hk). }
  assert (Hsc : type_char (type_string sc (concat (map (echo caps false) cs))) 10 = sc') by (unfold sc'; by rewrite type_string_app).
  exists s5. rewrite s32_id in E5 by (pose proof (zlen_nonneg line); lia). split_and!; [done | | | done | | done].
  - rewrite (presses_app _ _ _ _ _ _ _ _ _ _ _ E2). cbn [presses]. unfold kbind at 1. rewrite E3. done.
  - by rewrite <- Hsc.
  - constructor.
    + rewrite Es5, <- Hsc. by apply (kb_displays p (set_buf _ _)), (kb_displays p (set_fflag _ _)), kb_displays.
    + done.
    + rewrite <- app_assoc, <- Hstale in Hl5. exact Hl5.
    + done.
    + rewrite Es5. exact Hm3.
Qed.

(** C32. What a key types. Without control and alt, every key that is a character
    is echoed and appended to the line, up to the limit of 127: with shift, the
    upper character of a US keyboard; with caps lock, letters are echoed in upper
    case first, and then once more as they are, which is what the line gets. With
    shift, a key that has no upper character (space, Enter) is not echoed, and the
    line gets a local variable that was never set ([x0]). The handler ends with
    interrupts on. *)
Theorem key_types caps shift p s sc line rest fuel more esp ebp esp2 ebp2 x0 code c :
  typing caps shift p s sc line rest -> key_is code c -> stored caps shift x0 c <> 10 ->
  exists s', keyboard_scancode fuel more esp ebp esp2 ebp2 x0 code s = Ok (Ret tt, s') /\
    typing caps shift p s' (type_string sc (echo caps shift c)) (append line (stored caps shift x0 c)) (consume line rest) /\
    fflag (kb s') = fflag (kb s) /\ sch s' = sch s /\ iflag s' = true.
Proof.
  intros Ht Hk Hne.
  destruct (scancode_key caps shift p sc line rest fuel more esp ebp esp2 ebp2 x0 code s
    (type_string sc (echo caps shift c)) (append line (stored caps shift x0 c)) (consume line rest)
    (fun t => fflag (kb t) = fflag (kb s) /\ sch t = sch s) Ht) as (s1 & l & E & Ht1 & Hff & Hs).
  { intros t Ek Es _ Htt.
    destruct (key_typing _ _ _ _ _ _ _ fuel more esp ebp esp2 ebp2 x0 code c Htt Hk Hne) as (t' & E & Ht' & Hff & Hs & _).
    exists t'. split_and!; [done | done | congruence | congruence]. }
  by eexists.
Qed.

(** C33. The arrow keys and their like send the byte 0xE0 before their code. The
    handler takes 0xE0 for a press of control; with control on, the code of any
    key that is released, which is 0x80 or more, is looked up past the end of the
    table of 128 characters, whatever the state. *)
Theorem extended_key_undefined fuel more esp ebp esp2 ebp2 x0 code s :
  128 <= code < 256 -> special code = false ->
  presses fuel more esp ebp esp2 ebp2 x0 [0xE0; code] s = Undef.
Proof.
  intros Hr Hsp. cbn [presses]. unfold kbind at 1.
  assert (exists s1, keyboard_scancode fuel more esp ebp esp2 ebp2 x0 0xE0 s = Ok (Ret tt, s1) /\ ctrl_on (kb s1) = 1)
    as (s1 & -> & Hc) by by eexists.
  rstep. unfold kbind at 1, keyboard_scancode, kbind at 1, keyboard_key.
  unfold special in Hsp. cbn [existsb] in Hsp. rewrite !orb_false_iff in Hsp.
  destruct Hsp as (-> & -> & -> & -> & -> & -> & -> & -> & -> & -> & -> & -> & _). cbn [orb].
  change (ctrl_on (kb (cli s1))) with (ctrl_on (kb s1)). rewrite Hc. change (1 =? 1) with true. cbv iota.
  rewrite aget_out; [done |]. change (zlen kbd) with 128. lia.
Qed.

(** A key while alt is held. *)
Lemma alt_key fuel more esp ebp esp2 ebp2 x0 code s :
  0 <= code < 128 -> special code = false -> alt_on (kb s) = 1 -> ctrl_on (kb s) <> 1 -> capson (kb s) <> 1 ->
  keyboard_key fuel more esp ebp esp2 ebp2 x0 code s =
  if (code - F1 <? 6) && (0 <=? code - F1) then
    (do! switchTerm fuel more esp ebp esp2 ebp2 (code - F1) ;; kdo (fun s => store_key s x0)) s
  else Ok (Ret tt, s).
Proof.
  intros Hr Hsp Ha Hc%Z.eqb_neq Hk%Z.eqb_neq. unfold keyboard_key.
  unfold special in Hsp. cbn [existsb] in Hsp. rewrite !orb_false_iff in Hsp.
  destruct Hsp as (-> & -> & -> & -> & -> & -> & -> & -> & -> & -> & -> & -> & _). cbn [orb].
  rewrite Hc. rstep. unfold BREAKCC. destruct (Z.leb_spec code 0x80); [|lia].
  unfold press. destruct (aget_in_range kbd code) as [c ->]; [by change (zlen kbd) with 128 |]. rstep.
  rewrite Hk. cbn [andb]. rstep. by rewrite Ha.
Qed.

(** C34. Alt with a function key. F1 to F3 show the terminal of that number, when
    it is in use, as [switchTerm] does: the handler does not come back but resumes
    the context of that terminal. F4 to F6 ask for terminals that do not exist and
    read outside the arrays of the scheduler. Any other key does nothing while alt
    is held. *)
Theorem alt_keys fuel more esp ebp esp2 ebp2 x0 code s :
  pages_ok s -> sched_ok (sch s) -> (active_term (sch s) = bg_term (sch s) -> id_pte (pg s) 0xb8) ->
  0 <= code < 128 -> special code = false -> alt_on (kb s) = 1 -> ctrl_on (kb s) <> 1 -> capson (kb s) <> 1 ->
  let num := code - F1 in
  let r := keyboard_scancode fuel more esp ebp esp2 ebp2 x0 code s in
  (0 <= num < 3 -> aget (term_init (sch s)) num = Ok 1 ->
     exists e b s', r = Ok (Stop (Resume e b), s') /\ shown (cli s) s' num esp ebp e b) /\
  (3 <= num < 6 -> r = Undef) /\
  (num < 0 \/ 6 <= num -> r = Ok (Ret tt, keyboard_done (cli s))).
Proof.
  intros Hpo Hok Hid Hr Hsp Ha Hc Hk num r.
  assert (Er : r = (do! (if (num <? 6) && (0 <=? num) then
      do! switchTerm fuel more esp ebp esp2 ebp2 num ;; kdo (fun s => store_key s x0) else kret tt) ;;
      kdo (fun s => Ok (keyboard_done s))) (cli s)).
  { unfold r, keyboard_scancode, kbind at 1. rewrite alt_key by done. fold num. by destruct (_ && _). }
  rewrite Er. clear Er.
  assert (Hpo' : pages_ok (cli s)) by exact (pages_ok_frame s (cli s) eq_refl eq_refl Hpo).
  split_and!.
  - intros Hn Ht. replace ((num <? 6) && (0 <=? num)) with true by lia. unfold kbind.
    destruct (switchTerm_shows_spec fuel more (cli s) num esp ebp esp2 ebp2 Hpo' Hok Hid Ht) as (e & b & s' & -> & Hs).
    by exists e, b, s'.
  - intros Hn. replace ((num <? 6) && (0 <=? num)) with true by lia. unfold kbind.
    by rewrite (switchTerm_out_of_range_spec fuel more (cli s) num esp ebp esp2 ebp2 Hpo' Hok Hid Hn).
  - intros Hn. by replace ((num <? 6) && (0 <=? num)) with false by lia.
Qed.
End Facts.

(** ** A user at the keyboard *)

#[local] Existing Instance demo_layout.
#[local] Instance demo_env : Env := {| port_in _ _ := 0 |}.

Lemma demo_keyboard caps shift : exists s, typing caps shift VIDEO s blank [] (replicate 1024 0) /\ fflag (kb s) = 0.
Proof.
  destruct demo_displays as (s0 & Hd0). apply (kb_displays _ _ _ (kb (kboot ∅))) in Hd0.
  exists (set_mods (set_sch (set_kb s0 (kb (kboot ∅))) (set_active_term (sch s0) 0)) (Z.b2z caps) 0 (Z.b2z shift) 0).
  split; [|done]. constructor.
  - destruct Hd0 as [[] ? ? ? ?]. by constructor; [constructor|..].
  - constructor; try done. repeat constructor.
  - by constructor.
  - done.
  - by destruct caps, shift.
Qed.

(** Shift and the key 1. *)
Lemma key_types_witness :
  exists s s', keyboard_scancode 0 (fun _ => Undef) 0 0 0 0 0 2 s = Ok (Ret tt, s') /\
    typing false true VIDEO s' (type_string blank [33]) [33] (replicate 1023 0).
Proof.
  destruct (demo_keyboard false true) as (s & Ht & _). exists s.
  destruct (key_types false true VIDEO s blank [] (replicate 1024 0) 0 (fun _ => Undef) 0 0 0 0 0 2 49 Ht) as (s' & E & Ht' & _).
  - by split.
  - done.
  - exists s'. split; [exact E |]. exact Ht'.
Defined.

(** [ls] and Enter, with caps lock on. *)
Lemma typed_line_read_witness :
  exists s1 s2 s3, presses 0 (fun _ => Undef) 0 0 0 0 0 [0x26; 0x1F; 0x1C] s1 = Ok (Ret tt, s2) /\
    displays VIDEO s2 (type_string blank [76; 108; 83; 115; 10]) /\
    read_terminal_wait (replicate 128 7) 127 s2 = Ok (Ret (3, [108; 115; 10; 0] ++ replicate 124 7), s3).
Proof.
  destruct (demo_keyboard true false) as (s & [Hd Hok Hl _ Hm] & Hff).
  destruct (typed_line_read true VIDEO s blank (replicate 1024 0) [] (replicate 1020 0) [108; 115] [0x26; 0x1F]
    (replicate 128 7) 127 0 (fun _ => Undef) 0 0 0 0 0 Hd Hok Hm Hff (line_row _ _ _ Hl)) as (s1 & s2 & s3 & _ & E & Hd2 & E3 & _).
  - by repeat constructor.
  - by repeat constructor.
  - done.
  - constructor.
  - done.
  - lia.
  - exists s1, s2, s3. split_and!; [exact E | exact Hd2 | exact E3].
Defined.

(** The up arrow, pressed and released: 0xE0 0x48 and then 0xE0 0xC8. *)
Lemma extended_key_undefined_witness :
  presses 0 (fun _ => Undef) 0 0 0 0 0 [0xE0; 0xC8] (kboot ∅) = Undef.
Proof. apply extended_key_undefined; [lia | reflexivity]. Defined.

Lemma mods_demo s a b c d : exists s', sch s' = sch s /\
  kb s' = mkKeyboard a b c d (fflag (kb s)) (buf (kb s)) (buf_index (kb s)) (ind_entered (kb s)) /\
  pg s' = pg s /\ (pages_ok s -> pages_ok s').
Proof. exists (set_mods s a b c d). split_and!; [done.. |]. by apply pages_ok_frame. Qed.

(** F2 and F4 with two terminals in use. *)
Lemma alt_keys_witness :
  exists s s', keyboard_scancode 0 (fun _ => Undef) 7 8 0 0 0 0x3C s = Ok (Stop (Resume 71 81), s') /\
    keyboard_scancode 0 (fun _ => Undef) 7 8 0 0 0 0x3E s = Undef.
Proof.
  destruct (demo_paging_exists 2) as (pg0 & Hpg); [lia |]. destruct (demo_pages_ok pg0 Hpg) as (Hpo & Hid).
  destruct (mods_demo (demo_terminals pg0) 0 0 0 1) as (s & Es & Ek & Ep & Hpo'). specialize (Hpo' Hpo).
  assert (Ht : term_init (sch s) = [1; 1; 0]) by by rewrite Es.
  assert (Hok : sched_ok (sch s)) by (rewrite Es; exact demo_two_terms_ok).
  assert (Hid' : id_pte (pg s) 0xb8) by (rewrite Ep; exact Hid).
  assert (Hctx : context (sch s) 1 = Ok (71, 81, (5, 6))) by by rewrite Es.
  assert (Hbg : bg_term (sch s) = 0) by by rewrite Es.
  assert (Hm : alt_on (kb s) = 1 /\ ctrl_on (kb s) <> 1 /\ capson (kb s) <> 1) by (rewrite Ek; done).
  destruct Hm as (Ha & Hc & Hk).
  destruct (alt_keys 0 (fun _ => Undef) 7 8 0 0 0 0x3C s Hpo' Hok (fun _ => Hid') ltac:(lia) eq_refl Ha Hc Hk) as (Hshow & _ & _).
  destruct (alt_keys 0 (fun _ => Undef) 7 8 0 0 0 0x3E s Hpo' Hok (fun _ => Hid') ltac:(lia) eq_refl Ha Hc Hk) as (_ & Hout & _).
  destruct Hshow as (e & b & s' & E & Hs); [unfold F1; lia | by rewrite Ht |].
  exists s, s'. change (0x3C - F1) with 1 in Hs. pose proof (sh_context _ _ _ _ _ _ _ Hs) as Hx.
  rewrite (sh_others _ _ _ _ _ _ _ Hs 1) in Hx by (change (bg_term (sch (cli s))) with (bg_term (sch s)); rewrite Hbg; discriminate).
  change (context (sch (cli s)) 1) with (context (sch s) 1) in Hx. rewrite Hctx in Hx. injection Hx as <- <- _.
  split; [exact E |]. apply Hout. unfold F1. lia.
Defined.
