(* ===== verification/Handlers.v ===== *)
(** * The interrupt handlers

    [student-distrib/handlers.c] and the handler of the periodic interrupt of
    [student-distrib/rtc.c]. An exception prints its name and stops the machine
    ([Spin]); the [leave; iret] of the others returns. [fuel] bounds the string
    loops of [printf].

    [periodic_interrupt_handler] ends with [Resume] where [run_proc] loads the stack
    of another terminal. What runs then is the rest of the call that left this
    stack: [return_from]; [tick] is the handler together with it. *)

From stdpp Require Import strings.
From S2P Require Import Prelude Strings Filesys Paging Mem State Pic Console Rtc Terminal Sched Syscalls Process Switch Keyboard.

Local Open Scope Z_scope.
Local Open Scope kernel_scope.

Definition C_MASK : Z := 0x0C.

(** The characters of a string literal, and the literal as the code reads it. *)
Definition text (m : string) : list Z := (fun c => Z.of_N (Ascii.N_of_ascii c)) <$> String.list_ascii_of_string m.
Definition line (m : string) : reader := aget (text m ++ [10; 0]).

Section Code.
Context `{Layout} `{Linker} `{Env} (fuel : nat).

(** [printf(m "\n"); while(1);]. *)
Definition exception (m : string) : K unit := fun s =>
  '(_, s) ← printf fuel s (line m) []; Ok (Stop Spin, s).

Definition unused_exception : K unit := exception "unused_exception".
Definition divide_error : K unit := exception "divide_error".
Definition debug : K unit := exception "debug".
Definition nmi : K unit := exception "nmi".
Definition int3 : K unit := exception "int3".
Definition overflow : K unit := exception "overflow".
Definition bounds : K unit := exception "bounds".
Definition invalid_op : K unit := exception "invalid_operation".
Definition device_not_available : K unit := exception "device_not_available".
Definition double_fault : K unit := exception "double_fault".
Definition coprocesseur_segment_overrun : K unit := exception "coprocesseur_segment_overrun".
Definition invalid_tss : K unit := exception "invalid_tss".
Definition segment_no_present : K unit := exception "segment_no_presnt".
Definition stack_segment : K unit := exception "stack_segment".
Definition general_protection : K unit := exception "general_protection".
Definition page_fault : K unit := exception "pretty boi".
Definition none : K unit := exception "none".
Definition coprocessor_error : K unit := exception "coprocessor_error()".
Definition alignement_check : K unit := exception "alignment_check".
Definition machine_check : K unit := exception "machine_check".

Definition rtc_handler : K unit := fun s =>
  let s := cli s in
  '(_, s) ← printf fuel s (line "rtc_handler") [];
  let s := sti s in
  Ok (Ret tt, send_eoi s 0).

(** [esp] and [ebp] are what [do_events] saves. *)
Definition periodic_interrupt_handler (esp ebp : Z) : K unit := fun s =>
  let s := cli s in
  let s := set_interrupt_count s 1 in
  let s := outb s C_MASK RTC_PORT in
  let '(_, s) := inb s CMOS_PORT in
  (do! do_events fuel esp ebp ;; kdo (fun s => Ok (send_eoi (sti s) 8))) s.

(** The functions that leave their stack and frame pointers in [proc_esp] and
    [proc_ebp]: [do_events], [switchTerm] with the local [x] of the keyboard handler
    that called it, and, through [remove_process], a program's call of [execute]. *)
Inductive saver : Type :=
| In_do_events
| In_switchTerm (x : Z)
| In_execute.

(** [run_proc] loads the pointers and runs its epilogue, [leave; ret], which thus
    returns to the caller of the function that left them. *)
Definition return_from (fr : saver) : K unit :=
  match fr with
  | In_do_events => kdo (fun s => Ok (send_eoi (sti s) 8))
  | In_switchTerm x => kdo (fun s => s ← store_key s x; Ok (keyboard_done s))
  | In_execute => kdo (fun s => Ok (sti s))
  end.

(** The clock's handler, up to the [iret] on whatever stack. [stack] says which call
    a stack belongs to. *)
Definition tick (stack : Z -> Z -> saver) (esp ebp : Z) : K unit := fun s =>
  '(r, s) ← periodic_interrupt_handler esp ebp s;
  match r with
  | Stop (Resume e b) => return_from (stack e b) s
  | _ => Ok (r, s)
  end.
End Code.

(** The handlers of the exceptions, with what they print. *)
Definition exceptions `{Layout} `{Env} (fuel : nat) : list (string * K unit) :=
  [("unused_exception"%string, unused_exception fuel); ("divide_error"%string, divide_error fuel);
   ("debug"%string, debug fuel); ("nmi"%string, nmi fuel); ("int3"%string, int3 fuel);
   ("overflow"%string, overflow fuel); ("bounds"%string, bounds fuel);
   ("invalid_operation"%string, invalid_op fuel); ("device_not_available"%string, device_not_available fuel);
   ("double_fault"%string, double_fault fuel);
   ("coprocesseur_segment_overrun"%string, coprocesseur_segment_overrun fuel);
   ("invalid_tss"%string, invalid_tss fuel); ("segment_no_presnt"%string, segment_no_present fuel);
   ("stack_segment"%string, stack_segment fuel); ("general_protection"%string, general_protection fuel);
   ("pretty boi"%string, page_fault fuel); ("none"%string, none fuel);
   ("coprocessor_error()"%string, coprocessor_error fuel); ("alignment_check"%string, alignement_check fuel);
   ("machine_check"%string, machine_check fuel)].

Section Facts.
Context `{Layout} `{Env}.

(** Text without conversions prints as it is. *)
Definition plain_text (t : list Z) : Prop := Forall (fun c => c <> 0 /\ c <> 37 /\ byte_ok c) t.

Lemma renders_plain t va : plain_text t -> renders t va t.
Proof. induction 1 as [|c t (_ & Hc & _) _ IH]; by constructor. Qed.

Lemma plain_nonnul t : plain_text t -> nonnul t.
Proof. intros Ht. eapply Forall_impl; [exact Ht |]. by intros c (? & _ & ?). Qed.

Lemma printf_plain p s sc t fuel :
  displays p s sc -> plain_text t -> (length t + 65 <= fuel)%nat ->
  exists s', printf fuel s (aget (t ++ [0])) [] = Ok (zlen t, s') /\
    displays p s' (type_string sc t) /\ con_frame p s s'.
Proof.
  intros Hd Ht Hf. apply (printf_spec p s sc (aget (t ++ [0])) t [] t fuel); [done | | | lia..].
  - by apply cstr_array, plain_nonnul.
  - by apply renders_plain.
Qed.

Definition plain_char (c : Z) : bool := negb (c =? 0) && negb (c =? 37) && (0 <=? c) && (c <? 256).

Lemma plain_textb t : forallb plain_char t = true -> plain_text t.
Proof.
  rewrite forallb_forall. intros Hall. apply Forall_forall. intros c Hc%list_elem_of_In%Hall.
  unfold plain_char in Hc. unfold byte_ok. lia.
Qed.

Lemma exception_spec p s sc m fuel :
  displays p s sc -> plain_text (text m) -> (length (text m) + 66 <= fuel)%nat ->
  exists s', exception fuel m s = Ok (Stop Spin, s') /\
    displays p s' (type_string sc (text m ++ [10])) /\ con_frame p s s'.
Proof.
  intros Hd Ht Hf. destruct (printf_plain p s sc (text m ++ [10]) fuel Hd) as (s' & E & Hd' & Hfr).
  - apply Forall_app. split; [done |]. by apply Forall_singleton.
  - rewrite length_app. simpl. lia.
  - exists s'. split_and!; [|done..]. unfold exception, line.
    change (text m ++ [10; 0]) with (text m ++ ([10] ++ [0])). rewrite app_assoc, E. done.
Qed.

(** Exceptions. Every exception handler prints its name and a newline on the
    console and then stops for good, with everything but the console as the
    exception left it; the interrupts the gate turned off stay off. *)
Theorem exceptions_halt p s sc fuel m h :
  displays p s sc -> (100 <= fuel)%nat -> (m, h) ∈ exceptions fuel ->
  exists s', h s = Ok (Stop Spin, s') /\
    displays p s' (type_string sc (text m ++ [10])) /\ con_frame p s s' /\ iflag s' = iflag s.
Proof.
  intros Hd Hf Hin.
  assert (Hx : h = exception fuel m /\ plain_text (text m) /\ (length (text m) <= 34)%nat).
  { unfold exceptions in Hin. rewrite !elem_of_cons in Hin.
    repeat (destruct Hin as [[= -> ->]|Hin]; [split_and!; [done | by apply plain_textb | vm_compute; lia] |]).
    by apply elem_of_nil in Hin. }
  destruct Hx as (-> & Ht & Hl).
  destruct (exception_spec p s sc m fuel Hd Ht ltac:(lia)) as (s' & E & Hd' & Hfr).
  exists s'. split_and!; [done.. |]. by rewrite (proj1 Hfr).
Qed.
End Facts.

(** ** The periodic interrupt *)

Section Tick.
Context `{Layout} `{Linker} `{Env}.

Lemma eois_quiet base es l :
  (base = MASTER_8259_PORT \/ base = SLAVE_8259_PORT) -> Forall quiet es ->
  eois (chip_after base (es ++ l)) = eois (chip_after base l).
Proof. intros. by rewrite chip_quiet. Qed.

(** A switch leaves the flag of the clock alone, and only the cursor is written to
    the ports. *)
Lemma switch_quiet fuel esp ebp s s' :
  do_events_switch fuel esp ebp s = Ok s' ->
  interrupt_count s' = interrupt_count s /\ quietly s s'.
Proof.
  unfold do_events_switch, save_regs, save_cursor, getXY, kchange_pte. intros E.
  apply res_bind_ok_inv in E as (s1 & E1 & E).
  apply res_bind_ok_inv in E1 as (? & _ & E1). apply res_bind_ok_inv in E1 as (? & _ & [= <-]).
  apply res_bind_ok_inv in E as (s2 & E2 & E).
  apply res_bind_ok_inv in E2 as (? & _ & E2). apply res_bind_ok_inv in E2 as (? & _ & [= <-]).
  apply res_bind_ok_inv in E as (t & _ & E). cbv zeta in E.
  destruct (_ =? _); apply res_bind_ok_inv in E as (? & _ & E); apply res_bind_ok_inv in E as (? & _ & E);
    apply res_bind_ok_inv in E as (pg' & _ & [= <-]); (split; [done |]).
  - match goal with |- context [change_coord ?t ?x ?y] => exact (coord_quietly t x y) end.
  - by exists [].
Qed.

Lemma do_events_stop fuel esp ebp s w s' :
  do_events fuel esp ebp s = Ok (Stop w, s') ->
  exists s1, do_events_switch fuel esp ebp s = Ok s1 /\ interrupt_count s' = interrupt_count s1 /\
    log s' = log (send_eoi s1 8).
Proof.
  unfold do_events. destruct (negb _); [done |]. intros E.
  apply res_bind_ok_inv in E as (cnt & _ & E). destruct (cnt =? 1); [done |].
  apply res_bind_ok_inv in E as (s1 & E1 & E). exists s1. split; [done |].
  unfold run_proc in E. apply res_bind_ok_inv in E as (pid & _ & E).
  apply res_bind_ok_inv in E as (e & _ & E). apply res_bind_ok_inv in E as (b & _ & E). by injection E as <- <-.
Qed.

(** The ends of interrupt that the two controllers have got. *)
Definition ended (s : kstate) : list Z * list Z :=
  (eois (chip_after MASTER_8259_PORT (log s)), eois (chip_after SLAVE_8259_PORT (log s))).

Lemma ended_quietly s s' : quietly s s' -> ended s' = ended s.
Proof. intros (es & E & Hes). unfold ended. by rewrite E, !eois_quiet by auto. Qed.

Lemma ended_clock s : ended (send_eoi s 8) = (2 :: (ended s).1, 0 :: (ended s).2).
Proof. unfold ended. by destruct (send_eoi_levels s 8 ltac:(lia)) as (-> & -> & _). Qed.

(** The handler up to [do_events]. *)
Lemma periodic_start fuel esp ebp s :
  exists s1, periodic_interrupt_handler fuel esp ebp s =
      (do! do_events fuel esp ebp ;; kdo (fun s => Ok (send_eoi (sti s) 8))) s1 /\
    s1 = mkK (log s1) false (pic s) (pg s) (ph s) (con s) (kb s) (sch s) 1 (fs s) (tss s) (args s) (pcbs s) /\
    quietly s s1.
Proof.
  exists (snd (inb (outb (set_interrupt_count (cli s) 1) C_MASK RTC_PORT) CMOS_PORT)). split_and!; [done | done |].
  eexists [_; _]. split; [reflexivity |].
  repeat (apply Forall_cons; split); try apply Forall_nil; simpl; unfold pic_port, RTC_PORT; lia.
Qed.

(** C22. A tick of the clock. With one terminal in use, or inside [switchTerm], the
    handler returns to the interrupted program, with the flag set that [rtc_read]
    waits for, interrupts on, the scheduler as before and the interrupt ended once:
    level 0 on the slave and level 2 on the master. Otherwise it switches to the
    next terminal and [run_proc] ends the interrupt; when that terminal was left by
    a tick, too, its stack returns into the handler of that tick, which ends the
    interrupt a second time and returns to the program it had interrupted. *)
Theorem periodic_tick f stack esp ebp s :
  sched_ok (sch s) -> shaped (pg s) -> (exists t, aget (term_init (sch s)) t = Ok 1) ->
  if negb (fake_sti (sch s) =? 0) || (sum_list_with Z.to_nat (term_init (sch s)) =? 1)%nat then
    exists s', tick (3 + f) stack esp ebp s = Ok (Ret tt, s') /\
      interrupt_count s' = 1 /\ iflag s' = true /\ sch s' = sch s /\
      ended s' = (2 :: (ended s).1, 0 :: (ended s).2)
  else
    exists e b s1, periodic_interrupt_handler (3 + f) esp ebp s = Ok (Stop (Resume e b), s1) /\
      switched esp ebp (getXY s) (sch s) (sch s1) /\ context (sch s) (bg_term (sch s1)) = Ok (e, b, getXY s1) /\
      ended s1 = (2 :: (ended s).1, 0 :: (ended s).2) /\
      (stack e b = In_do_events -> exists s', tick (3 + f) stack esp ebp s = Ok (Ret tt, s') /\
         interrupt_count s' = 1 /\ iflag s' = true /\ sch s' = sch s1 /\
         ended s' = (2 :: 2 :: (ended s).1, 0 :: 0 :: (ended s).2)).
Proof.
  intros Hok Hsh Hone. unfold tick. destruct (periodic_start (3 + f) esp ebp s) as (s0 & -> & E0 & Hq0).
  assert (Hf : sch s0 = sch s /\ pg s0 = pg s /\ getXY s0 = getXY s /\ interrupt_count s0 = 1) by by rewrite E0.
  destruct Hf as (Hs0 & Hp0 & Hxy & Hc0). pose proof (do_events_spec f esp ebp s0) as Hdo.
  rewrite Hs0, Hp0, Hxy in Hdo. specialize (Hdo Hok Hsh Hone). unfold kbind.
  destruct (negb (fake_sti (sch s) =? 0) || _).
  - rewrite Hdo. rstep. eexists. split; [reflexivity |]. split_and!; [exact Hc0 | done | exact Hs0 |].
    by rewrite ended_clock, (ended_quietly s (sti s0)).
  - destruct Hdo as (e & b & s1 & E & Hsw & _ & Hctx & _). rewrite E. rstep. exists e, b, s1.
    destruct (do_events_stop _ _ _ _ _ _ E) as (s2 & E2 & Eic & El).
    destruct (switch_quiet _ _ _ _ _ E2) as (Ec & Hq2).
    assert (Hend : ended s1 = (2 :: (ended s).1, 0 :: (ended s).2)).
    { unfold ended at 1. rewrite El. fold (ended (send_eoi s2 8)).
      rewrite ended_clock, (ended_quietly s s2); [done |]. by eapply quietly_trans. }
    split_and!; [done | done | done | exact Hend |]. intros ->. eexists. split; [reflexivity |].
    split_and!; [by rewrite <- Hc0, <- Ec, <- Eic | done | done |]. rewrite ended_clock.
    change (ended (sti s1)) with (ended s1). by rewrite Hend.
Qed.
End Tick.

(** ** Witnesses *)

#[local] Existing Instance demo_layout.
#[local] Instance demo_ports : Env := {| port_in _ _ := 0 |}.

Lemma exceptions_halt_witness :
  exists s s', page_fault 100 s = Ok (Stop Spin, s') /\
    displays VIDEO s' (type_string blank (text "pretty boi" ++ [10])).
Proof.
  destruct demo_displays as (s & Hd). exists s.
  destruct (exceptions_halt VIDEO s blank 100 "pretty boi" (page_fault 100) Hd) as (s' & E & Hd' & _).
  - lia.
  - unfold exceptions. rewrite !elem_of_cons. by do 15 right; left.
  - by exists s'.
Defined.

(** Terminals 0 and 2 in use: the tick leaves terminal 0 and ends in the tick that
    left terminal 2. *)
Lemma periodic_tick_witness :
  exists s', tick 3 (fun _ _ => In_do_events) 7 8 (set_sch (kboot ∅) demo_sched) = Ok (Ret tt, s') /\
    ended s' = ([2; 2], [0; 0]).
Proof.
  destruct (periodic_tick 0 (fun _ _ => In_do_events) 7 8 (set_sch (kboot ∅) demo_sched) demo_sched_ok kboot_shaped (ex_intro _ 0 eq_refl))
    as (e & b & s1 & _ & _ & _ & _ & Htick). destruct (Htick eq_refl) as (s' & E & _ & _ & _ & Hend).
  exists s'. split; [exact E | exact Hend].
Defined.
