(* ===== verification/Boot.v ===== *)
(** * Start-up

    [student-distrib/kernel.c], with the descriptors of [x86_desc.h] and
    [x86_desc.S] and the structures of [multiboot.h]: the banner that prints the
    boot information, the descriptor tables, the devices, and the system call that
    runs the shell. What the linker chooses (the addresses of the handlers, of the
    task state segment and of the local descriptor table) is a parameter
    ([Symbols]). [more] is what follows the string [blahp] on the stack. *)

From stdpp Require Import strings.
From S2P Require Import Prelude Strings Filesys Paging Mem State Pic Console Rtc Terminal Sched Syscalls Process Switch Keyboard Handlers.

Local Open Scope Z_scope.
Local Open Scope kernel_scope.

Definition KERNEL_CS : Z := 0x0010.
Definition KERNEL_TSS : Z := 0x0030.
Definition KERNEL_LDT : Z := 0x0038.
Definition TSS_SIZE : Z := 104.
Definition MULTIBOOT_BOOTLOADER_MAGIC : Z := 0x2BADB002.

(** ** Data *)

(** The functions whose addresses [init_idt] stores. *)
Inductive handler : Type :=
| Divide_error | Debug | Nmi | Int3 | Overflow | Bounds | Invalid_op | Device_not_available
| Double_fault | Coprocesseur_segment_overrun | Invalid_tss | Segment_no_present | Stack_segment
| General_protection | Page_fault | None_handler | Coprocessor_error | Alignement_check | Machine_check
| Rtc_handler | Keyboard_handler | Periodic_interrupt_handler | Sys_call | Unused_exception.

Class Symbols := {
  handler_addr : handler -> Z;
  handler_range : forall h, 0 <= handler_addr h < 2 ^ 32;
  tss_addr : Z;
  tss_range : 0 <= tss_addr < 2 ^ 32;
  ldt_addr : Z;
  ldt_range : 0 <= ldt_addr < 2 ^ 32
}.

(** [tss_bottom - tss - 1] and [ldt_bottom - ldt - 1]. *)
Definition tss_size : Z := 103.
Definition ldt_size : Z := 31.

(** The bit fields of [idt_desc_t]. *)
Record idt_desc_t := mkIdt {
  offset_15_00 : Z;
  seg_selector : Z;
  reserved4 : Z;
  reserved3 : Z;
  reserved2 : Z;
  reserved1 : Z;
  size : Z;
  reserved0 : Z;
  dpl : Z;
  present : Z;
  offset_31_16 : Z
}.

(** The bit fields of [seg_desc_t]. *)
Record seg_desc_t := mkSeg {
  seg_lim_15_00 : Z;
  base_15_00 : Z;
  base_23_16 : Z;
  sd_type : Z;
  sd_sys : Z;
  sd_dpl : Z;
  sd_present : Z;
  seg_lim_19_16 : Z;
  sd_avail : Z;
  sd_reserved : Z;
  sd_opsize : Z;
  sd_granularity : Z;
  base_31_24 : Z
}.

(** The kernel's state with the descriptor tables and the registers that point at
    them: IDTR is loaded or not, LDTR and TR are selectors. *)
Record boot_t := mkBoot {
  bk : kstate;
  idt : list idt_desc_t;
  ldt_desc_ptr : seg_desc_t;
  tss_desc_ptr : seg_desc_t;
  idtr : bool;
  ldtr : Z;
  tr : Z;
  keyboard_flag : Z
}.

Definition set_bk (b : boot_t) x := mkBoot x (idt b) (ldt_desc_ptr b) (tss_desc_ptr b) (idtr b) (ldtr b) (tr b) (keyboard_flag b).
Definition set_idt (b : boot_t) x y := mkBoot (bk b) x (ldt_desc_ptr b) (tss_desc_ptr b) y (ldtr b) (tr b) (keyboard_flag b).
Definition set_ldt (b : boot_t) x y := mkBoot (bk b) (idt b) x (tss_desc_ptr b) (idtr b) y (tr b) (keyboard_flag b).
Definition set_tss_desc (b : boot_t) x y := mkBoot (bk b) (idt b) (ldt_desc_ptr b) x (idtr b) (ldtr b) y (keyboard_flag b).
Definition set_keyboard_flag (b : boot_t) x := mkBoot (bk b) (idt b) (ldt_desc_ptr b) (tss_desc_ptr b) (idtr b) (ldtr b) (tr b) x.

(** ** The descriptor tables *)

Section Tables.
Context `{Symbols}.

(** The switch of [init_idt]. *)
Definition idt_handler (i : Z) : handler :=
  match i with
  | 0 => Divide_error
  | 1 => Debug
  | 2 => Nmi
  | 3 => Int3
  | 4 => Overflow
  | 5 => Bounds
  | 6 => Invalid_op
  | 7 => Device_not_available
  | 8 => Double_fault
  | 9 => Coprocesseur_segment_overrun
  | 10 => Invalid_tss
  | 11 => Segment_no_present
  | 12 => Stack_segment
  | 13 => General_protection
  | 14 => Page_fault
  | 15 => None_handler
  | 16 => Coprocessor_error
  | 17 => Alignement_check
  | 18 => Machine_check
  | 32 => Rtc_handler
  | 33 => Keyboard_handler
  | 40 => Periodic_interrupt_handler
  | 128 => Sys_call
  | _ => Unused_exception
  end.

(** [SET_IDT_ENTRY]. *)
Definition set_idt_entry (d : idt_desc_t) (h : Z) : idt_desc_t :=
  mkIdt (Z.land h 0xFFFF) (seg_selector d) (reserved4 d) (reserved3 d) (reserved2 d) (reserved1 d) (size d)
    (reserved0 d) (dpl d) (present d) (Z.shiftr (Z.land h 0xFFFF0000) 16).

(** One turn of the loop of [init_idt]. *)
Definition init_idt_entry (i : Z) (d : idt_desc_t) : idt_desc_t :=
  let d := mkIdt (offset_15_00 d) KERNEL_CS (reserved4 d) 0 1 1 1 0 0 1 (offset_31_16 d) in
  let d := set_idt_entry d (handler_addr (idt_handler i)) in
  if i =? 128 then
    mkIdt (offset_15_00 d) (seg_selector d) (reserved4 d) (reserved3 d) (reserved2 d) (reserved1 d) (size d)
      (reserved0 d) 3 (present d) (offset_31_16 d)
  else d.

Definition init_idt (b : boot_t) : res boot_t :=
  t ← for_range 0 256 (fun i t => d ← aget t i; aset t i (init_idt_entry i d)) (idt b);
  Ok (set_idt b t true).

(** [SET_LDT_PARAMS] and [SET_TSS_PARAMS]. *)
Definition set_seg_params (d : seg_desc_t) (addr lim : Z) : seg_desc_t :=
  mkSeg (Z.land lim 0x0000FFFF) (Z.land addr 0x0000FFFF) (Z.shiftr (Z.land addr 0x00FF0000) 16)
    (sd_type d) (sd_sys d) (sd_dpl d) (sd_present d) (Z.shiftr (Z.land lim 0x000F0000) 16)
    (sd_avail d) (sd_reserved d) (sd_opsize d) (sd_granularity d) (Z.shiftr (Z.land addr 0xFF000000) 24).

(** The local variables [the_ldt_desc] and [the_tss_desc], whose other fields the
    macros set. *)
Definition the_ldt_desc : seg_desc_t := mkSeg 0 0 0 0x2 0 0x0 1 0 0 0 1 0 0.
Definition the_tss_desc : seg_desc_t :=
  mkSeg (Z.land TSS_SIZE 0x0000FFFF) 0 0 0x9 0 0x0 1 (Z.land TSS_SIZE 0x000F0000) 0 0 0 0 0.

Definition init_segments (b : boot_t) : boot_t :=
  let b := set_ldt b (set_seg_params the_ldt_desc ldt_addr ldt_size) KERNEL_LDT in
  let b := set_tss_desc b (set_seg_params the_tss_desc tss_addr tss_size) (tr b) in
  let t := tss (bk b) in
  let b := set_bk b (set_tss (bk b) (mkTss KERNEL_DS 0x800000 (tss_esp t) (tss_ebp t) KERNEL_LDT)) in
  set_tss_desc b (tss_desc_ptr b) KERNEL_TSS.
End Tables.

(** ** The banner *)

(** [CHECK_FLAG(flags, bit)]. *)
Definition CHECK_FLAG (flags bit : Z) : bool := negb (Z.land flags (Z.shiftl 1 bit) =? 0).

Section Banner.
Context `{Layout} `{Env} (fuel : nat).

(** [printf] of a line, and of a string without the newline. *)
Definition say (s : kstate) (m : string) (va : list parg) : res kstate :=
  '(_, s) ← printf fuel s (line m) va; Ok s.
Definition say_part (s : kstate) (m : string) (va : list parg) : res kstate :=
  '(_, s) ← printf fuel s (aget (text m ++ [0])) va; Ok s.

(** A 32-bit field of a structure in memory. *)
Definition field32 (s : kstate) (a : Z) : res Z := rd32 (kld s) (u32 a).

(** The loop over the modules. *)
Fixpoint boot_modules (n : nat) (mbi mod_count modp : Z) (s : kstate) : res kstate :=
  match n with
  | O => NoFuel
  | S n =>
      count ← field32 s (mbi + 20);
      if u32 mod_count <? count then
        start ← field32 s modp;
        s ← say s "Module %d loaded at address: 0x%#x" [PInt mod_count; PInt start];
        end_ ← field32 s (modp + 4);
        s ← say s "Module %d ends at address: 0x%#x" [PInt mod_count; PInt end_];
        s ← say s "First few bytes of module:" [];
        s ← for_range 0 16 (fun i s =>
              start ← field32 s modp;
              c ← kld s (u32 (start + i));
              say_part s "0x%x " [PInt (s8 c)]) s;
        s ← say s "" [];
        boot_modules n mbi (mod_count + 1) (modp + 16) s
      else Ok s
  end.

(** The loop over the memory map. *)
Fixpoint boot_mmap (n : nat) (mbi mmap : Z) (s : kstate) : res kstate :=
  match n with
  | O => NoFuel
  | S n =>
      addr ← field32 s (mbi + 48);
      len ← field32 s (mbi + 44);
      if u32 mmap <? u32 (addr + len) then
        size ← field32 s mmap;
        bhigh ← field32 s (mmap + 8);
        blow ← field32 s (mmap + 4);
        typ ← field32 s (mmap + 20);
        lhigh ← field32 s (mmap + 16);
        llow ← field32 s (mmap + 12);
        '(_, s) ← printf fuel s
          (aget (text " size = 0x%x,     base_addr = 0x%#x%#x" ++ [10] ++ text "     type = 0x%x,  length    = 0x%#x%#x" ++ [10; 0]))
          [PInt size; PInt bhigh; PInt blow; PInt typ; PInt lhigh; PInt llow];
        size ← field32 s mmap;
        boot_mmap n mbi (u32 (mmap + size + 4)) s
      else Ok s
  end.

(** [entry] up to the descriptor tables; [false] is one of its two early
    returns. *)
Definition boot_banner (magic addr : Z) (s : kstate) : res (bool * kstate) :=
  s ← clear s;
  if negb (magic =? MULTIBOOT_BOOTLOADER_MAGIC) then
    s ← say s "Invalid magic number: 0x%#x" [PInt magic]; Ok (false, s)
  else
    flags ← field32 s addr;
    s ← say s "flags = 0x%#x" [PInt flags];
    flags ← field32 s addr;
    s ← (if CHECK_FLAG flags 0 then
           lower ← field32 s (addr + 4);
           upper ← field32 s (addr + 8);
           say s "mem_lower = %uKB, mem_upper = %uKB" [PInt lower; PInt upper]
         else Ok s);
    flags ← field32 s addr;
    s ← (if CHECK_FLAG flags 1 then dev ← field32 s (addr + 12); say s "boot_device = 0x%#x" [PInt dev] else Ok s);
    flags ← field32 s addr;
    s ← (if CHECK_FLAG flags 2 then
           cmdline ← field32 s (addr + 16);
           say s "cmdline = %s" [PStr (roff (kld s) cmdline)]
         else Ok s);
    flags ← field32 s addr;
    s ← (if CHECK_FLAG flags 3 then
           modp ← field32 s (addr + 24);
           start ← field32 s modp;
           fs' ← set_filesys_meta (kld s) start;
           boot_modules fuel addr 0 modp (set_fs s fs')
         else Ok s);
    flags ← field32 s addr;
    if CHECK_FLAG flags 4 && CHECK_FLAG flags 5 then
      s ← say s "Both bits 4 and 5 are set." []; Ok (false, s)
    else
      s ← (if CHECK_FLAG flags 5 then
             num ← field32 s (addr + 28);
             size ← field32 s (addr + 32);
             eaddr ← field32 s (addr + 36);
             shndx ← field32 s (addr + 40);
             say s "elf_sec: num = %u, size = 0x%#x, addr = 0x%#x, shndx = 0x%#x" [PInt num; PInt size; PInt eaddr; PInt shndx]
           else Ok s);
      flags ← field32 s addr;
      s ← (if CHECK_FLAG flags 6 then
             maddr ← field32 s (addr + 48);
             mlen ← field32 s (addr + 44);
             s ← say s "mmap_addr = 0x%#x, mmap_length = 0x%x" [PInt maddr; PInt mlen];
             mmap ← field32 s (addr + 48);
             boot_mmap fuel addr mmap s
           else Ok s);
      Ok (true, s).
End Banner.

(** ** The rest of [entry] *)

Section Entry.
Context `{Layout} `{Linker} `{Env} `{Symbols} (fuel : nat) (more : reader).

(** Devices and memory, up to [init_paging]. *)
Definition boot_devices (b : boot_t) : res boot_t :=
  s ← init_buffers (bk b);
  s ← init_terminals s;
  let s := set_mods s 0 (ctrl_on (kb s)) (shift_on (kb s)) (alt_on (kb s)) in
  let b := set_keyboard_flag (set_bk b s) 0 in
  b ← init_idt b;
  let s := i8259_init (bk b) in
  let s := rtc_init s in
  pg' ← init_paging (pg s);
  Ok (set_bk b (set_pg s pg')).

(** Interrupts on, and a blank screen. *)
Definition boot_interrupts (s : kstate) : res kstate :=
  s ← say fuel s "Enabling Interrupts" [];
  let s := sti s in
  let s := enable_irq s 1 in
  let s := enable_irq s 2 in
  let s := enable_irq s 8 in
  s ← clear s;
  Ok (set_fflag s 0).

Definition blahp : list Z := text "shell " ++ [0].

(** The label [exit_shell] and what follows. *)
Definition exit_shell : K unit := fun s =>
  '(_, s) ← puts fuel s (line "Exited from shell. Nicely spinning"); Ok (Stop Spin, s).

(** The system call 2: the wrapper turns interrupts off around the call. *)
Definition boot_shell (esp ebp : Z) : K unit := fun s =>
  c ← sys_call_entry 2;
  match c with
  | Execute =>
      (let! _ := execute fuel (literal blahp more) esp ebp in do! kdo (fun s => Ok (sti s)) ;; exit_shell) (cli s)
  | _ => Undef
  end.

Definition entry (magic addr esp ebp : Z) (b : boot_t) : res (ctl unit * boot_t) :=
  '(ok, s) ← boot_banner fuel magic addr (bk b);
  let b := set_bk b s in
  if negb ok then Ok (Ret tt, b) else
  let b := init_segments b in
  b ← boot_devices b;
  s ← boot_interrupts (bk b);
  '(r, s) ← boot_shell esp ebp s;
  Ok (r, set_bk b s).

(** [shutdown] jumps to [exit_shell]. *)
Definition shutdown : K unit := exit_shell.
End Entry.

(** ** The gates *)

(** The eight bytes of a descriptor, in the order of its bit fields. *)
Definition idt_bits (d : idt_desc_t) : Z :=
  offset_15_00 d + 2 ^ 16 * seg_selector d + 2 ^ 32 * reserved4 d + 2 ^ 40 * reserved3 d + 2 ^ 41 * reserved2 d +
  2 ^ 42 * reserved1 d + 2 ^ 43 * size d + 2 ^ 44 * reserved0 d + 2 ^ 45 * dpl d + 2 ^ 47 * present d +
  2 ^ 48 * offset_31_16 d.

Definition seg_bits (d : seg_desc_t) : Z :=
  seg_lim_15_00 d + 2 ^ 16 * base_15_00 d + 2 ^ 32 * base_23_16 d + 2 ^ 40 * sd_type d + 2 ^ 44 * sd_sys d +
  2 ^ 45 * sd_dpl d + 2 ^ 47 * sd_present d + 2 ^ 48 * seg_lim_19_16 d + 2 ^ 52 * sd_avail d + 2 ^ 53 * sd_reserved d +
  2 ^ 54 * sd_opsize d + 2 ^ 55 * sd_granularity d + 2 ^ 56 * base_31_24 d.

(** What the processor reads from a gate: bits 40 to 44 are its type, 0xE for a
    32-bit interrupt gate. *)
Record gate := mkGate { g_offset : Z; g_selector : Z; g_type : Z; g_dpl : Z; g_present : Z }.

Definition gate_of (q : Z) : gate :=
  mkGate (q mod 2 ^ 16 + 2 ^ 16 * (q / 2 ^ 48 mod 2 ^ 16)) (q / 2 ^ 16 mod 2 ^ 16) (q / 2 ^ 40 mod 2 ^ 5)
    (q / 2 ^ 45 mod 2 ^ 2) (q / 2 ^ 47 mod 2).

(** And from a segment descriptor. *)
Record segment := mkSegment { s_base : Z; s_limit : Z; s_type : Z; s_dpl : Z; s_present : Z; s_granularity : Z }.

Definition segment_of (q : Z) : segment :=
  mkSegment (q / 2 ^ 16 mod 2 ^ 24 + 2 ^ 24 * (q / 2 ^ 56 mod 2 ^ 8)) (q mod 2 ^ 16 + 2 ^ 16 * (q / 2 ^ 48 mod 2 ^ 4))
    (q / 2 ^ 40 mod 2 ^ 5) (q / 2 ^ 45 mod 2 ^ 2) (q / 2 ^ 47 mod 2) (q / 2 ^ 55 mod 2).

Section TableFacts.
Context `{Symbols}.

(** A field of an address: [n] bits from bit [k]. *)
Lemma field_bits a m n k :
  0 <= k -> 0 <= n -> Z.shiftr m k = Z.ones n -> 0 <= a -> Z.shiftr (Z.land a m) k = a / 2 ^ k mod 2 ^ n.
Proof. intros Hk Hn Hm Ha. rewrite Z.shiftr_land, Hm, Z.land_ones, Z.shiftr_div_pow2 by done. done. Qed.

Lemma low_bits a : Z.land a 0xFFFF = a mod 2 ^ 16.
Proof. change 0xFFFF with (Z.ones 16). by rewrite Z.land_ones by lia. Qed.

(** A number written in digits of different sizes. *)
Lemma digit_low a b m : 0 < m -> 0 <= a < m -> (a + m * b) mod m = a.
Proof. intros. rewrite (Z.mul_comm m), Z.mod_add by lia. by apply Z.mod_small. Qed.
Lemma digit_high a b m : 0 < m -> 0 <= a < m -> (a + m * b) / m = b.
Proof. intros. rewrite (Z.mul_comm m), Z.div_add by lia. rewrite Z.div_small by done. lia. Qed.

(** A gate whose fields but the offset are constants. *)
Lemma gate_fields lo hi p d :
  0 <= lo < 2 ^ 16 -> 0 <= hi < 2 ^ 16 -> (d = 0 \/ d = 3) -> p = 0 ->
  gate_of (idt_bits (mkIdt lo KERNEL_CS p 0 1 1 1 0 d 1 hi)) = mkGate (lo + 2 ^ 16 * hi) KERNEL_CS 0xE d 1.
Proof.
  intros Hlo Hhi Hd ->. unfold gate_of, idt_bits, KERNEL_CS. simpl offset_15_00. simpl offset_31_16. simpl seg_selector.
  simpl reserved4. simpl reserved3. simpl reserved2. simpl reserved1. simpl size. simpl reserved0. simpl dpl. simpl present.
  set (q := lo + _ + _ + _ + _ + _ + _ + _ + _ + _ + _).
  assert (E : q = lo + 2 ^ 16 * (16 + 2 ^ 24 * (0xE + 2 ^ 5 * (d + 2 ^ 2 * (1 + 2 * hi))))) by (unfold q; lia).
  clearbody q. subst q. f_equal.
  - rewrite digit_low by lia. do 2 f_equal.
    replace (lo + 2 ^ 16 * _) with ((lo + 2 ^ 16 * 16 + 2 ^ 40 * 0xE + 2 ^ 45 * d + 2 ^ 47 * 1) + 2 ^ 48 * hi) by lia.
    rewrite digit_high by lia. by rewrite Z.mod_small by lia.
  - rewrite digit_high by lia.
    replace (16 + 2 ^ 24 * _) with (16 + 2 ^ 16 * (2 ^ 8 * (0xE + 2 ^ 5 * (d + 2 ^ 2 * (1 + 2 * hi))))) by lia.
    by rewrite digit_low by lia.
  - replace (lo + 2 ^ 16 * _) with ((lo + 2 ^ 16 * 16) + 2 ^ 40 * (0xE + 2 ^ 5 * (d + 2 ^ 2 * (1 + 2 * hi)))) by lia.
    rewrite digit_high, digit_low by lia. lia.
  - replace (lo + 2 ^ 16 * _) with ((lo + 2 ^ 16 * 16 + 2 ^ 40 * 0xE) + 2 ^ 45 * (d + 2 ^ 2 * (1 + 2 * hi))) by lia.
    rewrite digit_high, digit_low by lia. lia.
  - replace (lo + 2 ^ 16 * _) with ((lo + 2 ^ 16 * 16 + 2 ^ 40 * 0xE + 2 ^ 45 * d) + 2 ^ 47 * (1 + 2 * hi)) by lia.
    rewrite digit_high, digit_low by lia. lia.
Qed.

Lemma entry_gate i d :
  reserved4 d = 0 ->
  gate_of (idt_bits (init_idt_entry i d)) =
  mkGate (handler_addr (idt_handler i)) KERNEL_CS 0xE (if i =? 128 then 3 else 0) 1.
Proof.
  intros Hd. pose proof (handler_range (idt_handler i)) as Hr.
  assert (E : init_idt_entry i d = mkIdt (handler_addr (idt_handler i) mod 2 ^ 16) KERNEL_CS (reserved4 d) 0 1 1 1 0
    (if i =? 128 then 3 else 0) 1 (handler_addr (idt_handler i) / 2 ^ 16)).
  { unfold init_idt_entry, set_idt_entry. cbn [offset_15_00 offset_31_16 seg_selector reserved4 reserved3 reserved2 reserved1 size reserved0 dpl present].
    rewrite low_bits, (field_bits _ _ 16) by (done || lia).
    rewrite (Z.mod_small (_ / _)) by (split; [apply Z.div_pos | apply Z.div_lt_upper_bound]; lia). by destruct (i =? 128). } 
  rewrite E, gate_fields; [| apply Z.mod_pos_bound; lia | split; [apply Z.div_pos | apply Z.div_lt_upper_bound]; lia
    | destruct (i =? 128); lia | done].
  f_equal. rewrite Z.add_comm. symmetry. apply Z.div_mod. lia.
Qed.

Lemma idt_gates_spec b :
  length (idt b) = 256%nat -> Forall (fun d => reserved4 d = 0) (idt b) ->
  (forall t, init_idt b = Ok (set_idt b t true) ->
    forall i, 0 <= i < 256 -> exists d, aget t i = Ok d /\
      gate_of (idt_bits d) = mkGate (handler_addr (idt_handler i)) KERNEL_CS 0xE (if i =? 0x80 then 3 else 0) 1) /\
  exists t, init_idt b = Ok (set_idt b t true) /\ length t = 256%nat.
Proof.
  intros Hlen Hres. unfold init_idt.
  destruct (for_range_inv (fun i t => length t = 256%nat /\ (forall j, i <= j < 256 -> aget t j = aget (idt b) j) /\
      forall j, 0 <= j < i -> exists d, aget (idt b) j = Ok d /\ aget t j = Ok (init_idt_entry j d))
    (fun i t => d ← aget t i; aset t i (init_idt_entry i d)) 0 256 (idt b)) as (t & -> & Ht & _ & Hdone); [lia | | |].
  - split_and!; [done | done | lia].
  - intros i t Hi (Ht & Hrest & Hdone).
    destruct (aget_in_range (idt b) i) as [d Hd]; [unfold zlen; lia |].
    rewrite Hrest, Hd by lia. rstep. rewrite aset_in by (unfold zlen; lia). eexists. split; [done |]. split_and!.
    + by rewrite length_insert.
    + intros j Hj. rewrite aget_insert_ne by lia. apply Hrest. lia.
    + intros j Hj. destruct (decide (j = i)) as [->|].
      * exists d. split; [done |]. apply aget_insert_eq. unfold zlen. lia.
      * rewrite aget_insert_ne by lia. apply Hdone. lia.
  - rstep. split; [|by exists t]. intros t' [= <-] i Hi. destruct (Hdone i Hi) as (d & Hd & Hti).
    eexists. split; [done |]. apply entry_gate. apply aget_lookup in Hd as [_ Hd].
    exact (Forall_lookup_1 _ _ _ _ Hres Hd).
Qed.

(** The exceptions of the processor by their vectors, and what the kernel calls
    them. *)
Definition exception_names : list (Z * string) :=
  [(0, "divide_error"); (1, "debug"); (2, "nmi"); (3, "int3"); (4, "overflow"); (5, "bounds");
   (6, "invalid_operation"); (7, "device_not_available"); (8, "double_fault");
   (9, "coprocesseur_segment_overrun"); (10, "invalid_tss"); (11, "segment_no_presnt"); (12, "stack_segment");
   (13, "general_protection"); (14, "pretty boi"); (15, "none"); (16, "coprocessor_error()");
   (17, "alignment_check"); (18, "machine_check")]%string.

(** The code of the handlers that print a name. *)
Definition exception_code `{Layout} `{Env} (fuel : nat) (h : handler) : option (K unit) :=
  match h with
  | Divide_error => Some (divide_error fuel) | Debug => Some (debug fuel) | Nmi => Some (nmi fuel)
  | Int3 => Some (int3 fuel) | Overflow => Some (overflow fuel) | Bounds => Some (bounds fuel)
  | Invalid_op => Some (invalid_op fuel) | Device_not_available => Some (device_not_available fuel)
  | Double_fault => Some (double_fault fuel)
  | Coprocesseur_segment_overrun => Some (coprocesseur_segment_overrun fuel)
  | Invalid_tss => Some (invalid_tss fuel) | Segment_no_present => Some (segment_no_present fuel)
  | Stack_segment => Some (stack_segment fuel) | General_protection => Some (general_protection fuel)
  | Page_fault => Some (page_fault fuel) | None_handler => Some (none fuel)
  | Coprocessor_error => Some (coprocessor_error fuel) | Alignement_check => Some (alignement_check fuel)
  | Machine_check => Some (machine_check fuel) | Unused_exception => Some (unused_exception fuel)
  | Rtc_handler | Keyboard_handler | Periodic_interrupt_handler | Sys_call => None
  end.

(** Vector [v] of the table is a present 32-bit interrupt gate into the kernel's
    code segment, to the handler [h], that code of privilege [d] may call. *)
Definition gate_to (t : list idt_desc_t) (v : Z) (h : handler) (d : Z) : Prop :=
  exists e, aget t v = Ok e /\ gate_of (idt_bits e) = mkGate (handler_addr h) KERNEL_CS 0xE d 1.

#[local] Instance handler_eq_dec : EqDecision handler.
Proof. solve_decision. Defined.

Lemma idt_handler_unused v :
  0 <= v < 256 -> v ∉ exception_names.*1 -> v ∉ [32; 33; 40; 128] -> idt_handler v = Unused_exception.
Proof.
  intros Hv H1 H2. pose (P v := bool_decide (v ∈ exception_names.*1) || bool_decide (v ∈ [32; 33; 40; 128]) ||
    bool_decide (idt_handler v = Unused_exception)).
  assert (HP : P v = true) by (apply byte_cases; [by vm_compute | done]).
  unfold P in HP. rewrite !bool_decide_eq_false_2 in HP by done. by apply bool_decide_eq_true in HP.
Qed.

Lemma exception_gates `{Layout} `{Env} fuel v m :
  (v, m) ∈ exception_names -> 0 <= v < 32 /\ exception_code fuel (idt_handler v) = Some (exception fuel m).
Proof.
  unfold exception_names. rewrite !elem_of_cons. intros Hin.
  repeat (destruct Hin as [[= -> ->]|Hin]; [split; [lia | reflexivity] |]). by apply elem_of_nil in Hin.
Qed.

(** C31. The interrupt descriptor table. After [init_idt] each exception of the
    processor arrives at the handler that prints its name; the lines of the
    interrupt controllers arrive at theirs: line 0 of the master, whose
    vectors start at [ICW2_MASTER], at [rtc_handler], line 1 at the keyboard's, and line
    0 of the slave at the clock's; vector 0x80 is the system call, the only one
    that programs may use; and every other vector arrives at [unused_exception]. All
    256 are present 32-bit interrupt gates into the kernel's code segment. *)
Theorem idt_gates `{Layout} `{Env} b fuel :
  length (idt b) = 256%nat -> Forall (fun d => reserved4 d = 0) (idt b) ->
  exists t, init_idt b = Ok (set_idt b t true) /\ length t = 256%nat /\
    (forall v m, (v, m) ∈ exception_names ->
       exists h, gate_to t v h 0 /\ exception_code fuel h = Some (exception fuel m)) /\
    gate_to t (ICW2_MASTER + 0) Rtc_handler 0 /\ gate_to t (ICW2_MASTER + 1) Keyboard_handler 0 /\
    gate_to t (ICW2_SLAVE + 0) Periodic_interrupt_handler 0 /\ gate_to t 0x80 Sys_call 3 /\
    forall v, 0 <= v < 256 -> v ∉ exception_names.*1 -> v ∉ [32; 33; 40; 128] -> gate_to t v Unused_exception 0.
Proof.
  intros Hlen Hres. destruct (idt_gates_spec b Hlen Hres) as (Hg & t & E & Ht). specialize (Hg t E).
  exists t. split; [done |]. split; [done |].
  assert (Hgate : forall v h, 0 <= v < 256 -> idt_handler v = h -> gate_to t v h (if v =? 0x80 then 3 else 0)).
  { intros v h Hv <-. by apply Hg. }
  split_and!; [|by apply Hgate..|].
  - intros v m (Hv & Hm)%(exception_gates fuel). exists (idt_handler v). split; [|done].
    specialize (Hgate v _ ltac:(lia) eq_refl). by rewrite (proj2 (Z.eqb_neq v 0x80)) in Hgate by lia.
  - intros v Hv Hx Hy. specialize (Hgate v _ Hv (idt_handler_unused v Hv Hx Hy)).
    assert (v <> 0x80) by (intros ->; apply Hy; rewrite !elem_of_cons; auto). by rewrite (proj2 (Z.eqb_neq v 0x80)) in Hgate.
Qed.

(** A segment descriptor whose fields but the base and the limit are small. *)
Lemma seg_fields lim b0 b1 b2 t o :
  0 <= lim < 2 ^ 16 -> 0 <= b0 < 2 ^ 16 -> 0 <= b1 < 2 ^ 8 -> 0 <= b2 < 2 ^ 8 -> 0 <= t < 2 ^ 4 -> (o = 0 \/ o = 1) ->
  segment_of (seg_bits (mkSeg lim b0 b1 t 0 0 1 0 0 0 o 0 b2)) = mkSegment (b0 + 2 ^ 16 * b1 + 2 ^ 24 * b2) lim t 0 1 0.
Proof.
  intros Hl H0 H1 H2 Ht Ho. unfold segment_of, seg_bits.
  cbn [seg_lim_15_00 base_15_00 base_23_16 sd_type sd_sys sd_dpl sd_present seg_lim_19_16 sd_avail sd_reserved sd_opsize sd_granularity base_31_24].
  set (q := lim + _ + _ + _ + _ + _ + _ + _ + _ + _ + _ + _ + _).
  assert (E1 : q = lim + 2 ^ 16 * ((b0 + 2 ^ 16 * b1) + 2 ^ 24 * (t + 2 ^ 7 + 2 ^ 14 * o + 2 ^ 16 * b2))) by (unfold q; ring).
  assert (E2 : q = (lim + 2 ^ 16 * b0 + 2 ^ 32 * b1) + 2 ^ 40 * (t + 2 ^ 5 * (2 ^ 2 + 2 ^ 9 * o + 2 ^ 11 * b2))) by (unfold q; ring).
  assert (E3 : q = (lim + 2 ^ 16 * b0 + 2 ^ 32 * b1 + 2 ^ 40 * t) + 2 ^ 45 * (0 + 2 ^ 2 * (1 + 2 ^ 7 * o + 2 ^ 9 * b2))) by (unfold q; ring).
  assert (E4 : q = (lim + 2 ^ 16 * b0 + 2 ^ 32 * b1 + 2 ^ 40 * t) + 2 ^ 47 * (1 + 2 * (2 ^ 6 * o + 2 ^ 8 * b2))) by (unfold q; ring).
  assert (E5 : q = (lim + 2 ^ 16 * b0 + 2 ^ 32 * b1 + 2 ^ 40 * t + 2 ^ 47) + 2 ^ 48 * (0 + 2 ^ 4 * (2 ^ 2 * o + 2 ^ 4 * b2))) by (unfold q; ring).
  assert (E6 : q = (lim + 2 ^ 16 * b0 + 2 ^ 32 * b1 + 2 ^ 40 * t + 2 ^ 47 + 2 ^ 54 * o) + 2 ^ 55 * (0 + 2 * b2)) by (unfold q; ring).
  assert (E7 : q = (lim + 2 ^ 16 * b0 + 2 ^ 32 * b1 + 2 ^ 40 * t + 2 ^ 47 + 2 ^ 54 * o) + 2 ^ 56 * (b2 + 2 ^ 8 * 0)) by (unfold q; ring).
  clearbody q. f_equal.
  - rewrite E1 at 1. rewrite digit_high, digit_low by lia. rewrite E7, digit_high, digit_low by lia. done.
  - rewrite E1 at 1. rewrite digit_low by lia. rewrite E5, digit_high, digit_low by lia. lia.
  - rewrite E2, digit_high, digit_low by lia. done.
  - rewrite E3, digit_high, digit_low by lia. done.
  - rewrite E4, digit_high, digit_low by lia. done.
  - rewrite E6, digit_high, digit_low by lia. done.
Qed.

Lemma base_digits a : 0 <= a < 2 ^ 32 -> a mod 2 ^ 16 + 2 ^ 16 * (a / 2 ^ 16 mod 2 ^ 8) + 2 ^ 24 * (a / 2 ^ 24 mod 2 ^ 8) = a.
Proof.
  intros Ha. change (2 ^ 24) with (2 ^ 16 * 2 ^ 8). rewrite <- Z.div_div by lia.
  rewrite (Z.mod_small (a / 2 ^ 16 / 2 ^ 8)).
  2: { split; [apply Z.div_pos; [apply Z.div_pos|]; lia |]. do 2 (apply Z.div_lt_upper_bound; [lia |]). lia. }
  pose proof (Z.div_mod a (2 ^ 16)). pose proof (Z.div_mod (a / 2 ^ 16) (2 ^ 8)). lia.
Qed.

(** The segments that [entry] installs: the task register selects a present
    32-bit task state segment at [tss] with its limit, the local descriptor table
    register a present table at [ldt]; interrupts from user code switch to the
    kernel's data segment and the stack below 8 MB. *)
Theorem segment_descriptors b :
  let b' := init_segments b in
  segment_of (seg_bits (tss_desc_ptr b')) = mkSegment tss_addr tss_size 0x9 0 1 0 /\ tr b' = KERNEL_TSS /\
  segment_of (seg_bits (ldt_desc_ptr b')) = mkSegment ldt_addr ldt_size 0x2 0 1 0 /\ ldtr b' = KERNEL_LDT /\
  tss_ss0 (tss (bk b')) = KERNEL_DS /\ tss_esp0 (tss (bk b')) = 2 ^ 23 /\ tss_ldt (tss (bk b')) = KERNEL_LDT.
Proof.
  assert (Hseg : forall d a lim, 0 <= a < 2 ^ 32 -> lim = 103 \/ lim = 31 ->
    set_seg_params d a lim = mkSeg lim (a mod 2 ^ 16) (a / 2 ^ 16 mod 2 ^ 8) (sd_type d) (sd_sys d) (sd_dpl d) (sd_present d) 0
      (sd_avail d) (sd_reserved d) (sd_opsize d) (sd_granularity d) (a / 2 ^ 24 mod 2 ^ 8)).
  { intros d a lim Ha Hl. unfold set_seg_params. rewrite !low_bits, (field_bits _ _ 8 16), (field_bits _ _ 8 24) by (done || lia).
    by destruct Hl as [-> | ->]. }
  pose proof tss_range. pose proof ldt_range.
  intros b'. unfold b', init_segments. simpl. rewrite !Hseg by (done || auto). simpl.
  rewrite !seg_fields by (first [apply Z.mod_pos_bound; lia | unfold tss_size, ldt_size; lia]). rewrite !base_digits by done. done.
Qed.
End TableFacts.

(** ** The banner prints *)

(** The least integer is not among the signed words. *)
Ltac signs := simpl; repeat constructor; rewrite s32_id by lia; lia.

Section BannerFacts.
Context `{Layout} `{Env}.

(** A format and its words can be printed, and how long the text is at most:
    forty characters for a numeral. *)
Fixpoint cost (fmt : list Z) (va : list parg) : option nat :=
  match fmt with
  | [] => Some 0%nat
  | c :: fmt =>
      if c =? 37 then
        match fmt, va with
        | d :: fmt', PInt _ :: va =>
            if (d =? 120) || (d =? 117) || (d =? 100) then Nat.add 40 <$> cost fmt' va
            else if d =? 35 then
              match fmt' with e :: fmt'' => if e =? 120 then Nat.add 40 <$> cost fmt'' va else None | [] => None end
            else None
        | _, _ => None
        end
      else S <$> cost fmt va
  end.

(** The words that are printed as signed numbers. *)
Fixpoint signed (fmt : list Z) (va : list parg) : list Z :=
  match fmt with
  | [] => []
  | c :: fmt =>
      if c =? 37 then
        match fmt, va with
        | d :: fmt', PInt v :: va =>
            if d =? 100 then v :: signed fmt' va
            else if d =? 35 then match fmt' with _ :: fmt'' => signed fmt'' va | [] => [] end
            else signed fmt' va
        | _, _ => []
        end
      else signed fmt va
  end.

Lemma numeral_exists r v : r = 10 \/ r = 16 -> 0 <= v < 2 ^ 32 -> exists txt, numeral r v txt /\ (length txt <= 33)%nat.
Proof.
  intros Hr Hv. destruct (itoa_conv v 64 r Hr) as (txt & rest & _ & Hn & _); [auto | done |].
  exists txt. split; [done |]. assert (zlen txt <= 33); [|unfold zlen in *; lia].
  apply (numeral_length r v); [lia | done | lia |]. assert (2 ^ 32 <= r ^ 33); [|lia].
  transitivity (10 ^ 33); [by apply Z.leb_le | apply Z.pow_le_mono_l; lia].
Qed.

Lemma cost_renders n : forall fmt va, (length fmt <= n)%nat -> forall m, cost fmt va = Some m ->
  Forall (fun v => s32 v <> - 2 ^ 31) (signed fmt va) ->
  exists out, renders fmt va out /\ (length out <= m)%nat.
Proof.
  induction n as [|n IH]; intros [|c fmt] va Hl m; cbn [cost signed length] in *.
  1, 3: intros [= <-] _; exists []; split; [constructor | done].
  { lia. }
  destruct (Z.eqb_spec c 37) as [->|Hc].
  2: { intros (k & Ek & ->)%fmap_Some Hs. destruct (IH fmt va ltac:(lia) k Ek Hs) as (out & Hr & Hk).
       exists (c :: out). split; [by constructor | simpl; lia]. }
  destruct fmt as [|d fmt]; [done |]. destruct va as [|[v|] va]; try done.
  assert (Hnum : forall r x, r = 10 \/ r = 16 -> x = u32 v \/ x = Z.abs (s32 v) -> exists txt, numeral r x txt /\ (length txt <= 33)%nat).
  { intros r x Hr Hx. apply numeral_exists; [done |]. pose proof (u32_range v). pose proof (s32_range v). lia. }
  destruct ((d =? 120) || (d =? 117) || (d =? 100)) eqn:Ed.
  - intros (k & Ek & ->)%fmap_Some Hs.
    assert (Hs' : (d = 100 -> s32 v <> - 2 ^ 31) /\ Forall (fun v => s32 v <> - 2 ^ 31) (signed fmt va)).
    { destruct (Z.eqb_spec d 100); [by apply Forall_cons in Hs as [? ?] |]. by destruct (Z.eqb_spec d 35) as [->|]. }
    destruct Hs' as (Hmin & Hs'). destruct (IH fmt va ltac:(simpl in Hl; lia) k Ek Hs') as (out & Hr & Hk).
    apply orb_prop in Ed as [[Ed|Ed]%orb_prop|Ed]; apply Z.eqb_eq in Ed as ->.
    + destruct (Hnum 16 (u32 v)) as (txt & Ht & Hn); [auto..|]. exists (txt ++ out).
      split; [by constructor | rewrite length_app; lia].
    + destruct (Hnum 10 (u32 v)) as (txt & Ht & Hn); [auto..|]. exists (txt ++ out).
      split; [by constructor | rewrite length_app; lia].
    + destruct (Hnum 10 (Z.abs (s32 v))) as (txt & Ht & Hn); [auto..|].
      eexists. split; [by constructor; [apply Hmin|..] | rewrite !length_app; destruct (s32 v <? 0); simpl; lia].
  - destruct (Z.eqb_spec d 35) as [->|]; [|done]. destruct fmt as [|e fmt]; [done |].
    destruct (Z.eqb_spec e 120) as [->|]; [|done].
    intros (k & Ek & ->)%fmap_Some Hs. destruct (IH fmt va ltac:(simpl in Hl; lia) k Ek Hs) as (out & Hr & Hk).
    destruct (Hnum 16 (u32 v)) as (txt & Ht & Hn); [auto..|].
    eexists. split; [by constructor | rewrite !length_app, length_replicate; lia].
Qed.

Definition plain_fmt (m : string) : bool := forallb (fun c => negb (c =? 0) && (0 <=? c) && (c <? 256)) (text m).

Lemma plain_nonnulb l : forallb (fun c => negb (c =? 0) && (0 <=? c) && (c <? 256)) l = true -> nonnul l.
Proof.
  rewrite forallb_forall. intros Hl. apply Forall_forall. intros c Hc%list_elem_of_In%Hl. unfold byte_ok. lia.
Qed.

Lemma plain_fmt_cstr m tl : plain_fmt m = true -> nonnul tl -> cstr (aget ((text m ++ tl) ++ [0])) (text m ++ tl).
Proof.
  intros Hm Ht. apply cstr_array. apply Forall_app. split; [by apply plain_nonnulb | done].
Qed.

(** The console may have changed, nothing else has. *)
Definition drawn (s s' : kstate) : Prop := (exists sc, displays VIDEO s' sc) /\ con_frame VIDEO s s'.

Lemma drawn_trans s1 s2 s3 : drawn s1 s2 -> drawn s2 s3 -> drawn s1 s3.
Proof. intros [_ F1] [Hd F2]. split; [done | by eapply con_frame_trans]. Qed.

Lemma drawn_refl s sc : displays VIDEO s sc -> drawn s s.
Proof. intros Hd. split; [by exists sc | apply con_frame_refl]. Qed.

Lemma printf_drawn fuel m tl va k s s0 :
  drawn s0 s -> plain_fmt m = true -> nonnul tl -> cost (text m ++ tl) va = Some k ->
  Forall (fun v => s32 v <> - 2 ^ 31) (signed (text m ++ tl) va) -> (length (text m ++ tl) < fuel)%nat -> (k + 65 <= fuel)%nat ->
  exists s', printf fuel s (aget ((text m ++ tl) ++ [0])) va = Ok (zlen (text m ++ tl), s') /\ drawn s0 s'.
Proof.
  intros [(sc & Hd) Hf] Hm Ht Hc Hs Hl Hk.
  destruct (cost_renders _ _ va (Nat.le_refl _) k Hc Hs) as (out & Hr & Ho).
  destruct (printf_spec VIDEO s sc _ (text m ++ tl) va out fuel Hd (plain_fmt_cstr m tl Hm Ht) Hr Hl ltac:(lia)) as (s' & E & Hd' & Hf').
  exists s'. split; [done |]. split; [by eexists | by eapply con_frame_trans].
Qed.

Lemma say_drawn fuel m va k s s0 :
  drawn s0 s -> plain_fmt m = true -> cost (text m ++ [10]) va = Some k ->
  Forall (fun v => s32 v <> - 2 ^ 31) (signed (text m ++ [10]) va) -> (length (text m ++ [10%Z]) < fuel)%nat -> (k + 65 <= fuel)%nat ->
  exists s', say fuel s m va = Ok s' /\ drawn s0 s'.
Proof.
  intros Hd Hm Hc Hs Hl Hk. destruct (printf_drawn fuel m [10] va k s s0) as (s' & E & Hd'); try done.
  { by apply Forall_singleton. }
  exists s'. split; [|done]. unfold say, line. change (text m ++ [10; 0]) with (text m ++ ([10] ++ [0])). by rewrite app_assoc, E.
Qed.

Lemma say_part_drawn fuel m va k s s0 :
  drawn s0 s -> plain_fmt m = true -> cost (text m ++ []) va = Some k ->
  Forall (fun v => s32 v <> - 2 ^ 31) (signed (text m ++ []) va) -> (length (text m ++ []) < fuel)%nat -> (k + 65 <= fuel)%nat ->
  exists s', say_part fuel s m va = Ok s' /\ drawn s0 s'.
Proof.
  intros Hd Hm Hc Hs Hl Hk. destruct (printf_drawn fuel m [] va k s s0) as (s' & E & Hd'); try done.
  { constructor. }
  exists s'. split; [|done]. unfold say_part. rewrite app_nil_r in E. by rewrite E.
Qed.

(** *** The structures of the boot loader *)

(** Physical memory but for the text page. *)
Definition outside (m : mem) : reader := fun a =>
  if (VIDEO <=? a) && (a <? VIDEO + 4000) then Undef
  else match m !! u32 a with Some b => if a =? u32 a then Ok b else Undef | None => Undef end.

Lemma outside_kld s0 s : Z.testbit (cr0 (pg s0)) 31 = false -> drawn s0 s -> rd_le (outside (ph s0)) (kld s).
Proof.
  intros Hoff [_ (E & _ & Hm)] a c. unfold outside, kld, ld.
  destruct (Z.leb_spec VIDEO a), (Z.ltb_spec a (VIDEO + 4000)); cbn [andb]; try done.
  all: destruct (Z.eqb_spec a (u32 a)) as [Ea|]; [|by destruct (_ !! _)].
  all: rewrite ktr_off by (rewrite E; exact Hoff); rewrite <- Ea, Hm by lia; done.
Qed.

(** A word at an address. *)
Definition word_at (rd : reader) (a v : Z) : Prop := rd32 rd (u32 a) = Ok v.

Lemma field_word rd s a v : rd_le rd (kld s) -> word_at rd a v -> field32 s a = Ok v.
Proof. intros Hle Hw. unfold field32. by eapply rd32_mono. Qed.

Lemma set_filesys_meta_mono rd rd' p f : rd_le rd rd' -> set_filesys_meta rd p = Ok f -> set_filesys_meta rd' p = Ok f.
Proof.
  intros Hle. unfold set_filesys_meta. intros (n & En & E)%res_bind_ok_inv.
  apply res_bind_ok_inv in E as (ni & Eni & E). apply res_bind_ok_inv in E as (nd & End & [= <-]).
  by rewrite (rd32_mono _ _ _ _ Hle En), (rd32_mono _ _ _ _ Hle Eni), (rd32_mono _ _ _ _ Hle End).
Qed.

Lemma cstr_mono rd rd' k str : rd_le rd rd' -> cstr (roff rd k) str -> cstr (roff rd' k) str.
Proof.
  intros Hle [Hc Hz]. split; [|by apply Hle]. intros n c Hn. destruct (Hc n c Hn) as (E & ?). split; [by apply Hle | done].
Qed.

(** A module, and the rest of the memory map from address [a] on, [n] entries. *)
Definition module_ok (rd : reader) (a : Z) : Prop :=
  exists start end_, word_at rd a start /\ word_at rd (a + 4) end_ /\
    forall i, 0 <= i < 16 -> exists c, rd (u32 (start + i)) = Ok c.

Inductive mmap_ok (rd : reader) (last : Z) : nat -> Z -> Prop :=
| mm_end a : last <= u32 a -> mmap_ok rd last 0 a
| mm_next n a size : u32 a < last -> word_at rd a size ->
    (forall k, k ∈ [4; 8; 12; 16; 20] -> exists v, word_at rd (a + k) v) ->
    mmap_ok rd last n (u32 (a + size + 4)) -> mmap_ok rd last (S n) a.

(** The information at [addr], for a given fuel; [f] are the file system's
    variables afterwards, [f0] before. *)
Record info_ok (rd : reader) (fuel : nat) (addr flags : Z) (f0 f : filesys) : Prop := {
  io_flags : word_at rd addr flags;
  io_words : forall k, k ∈ [4; 8; 12; 28; 32; 36; 40] -> exists v, word_at rd (addr + k) v;
  io_cmdline : CHECK_FLAG flags 2 = true -> exists c str, word_at rd (addr + 16) c /\ cstr (roff rd c) str /\
    (length str + 100 <= fuel)%nat;
  io_modules : if CHECK_FLAG flags 3 then
      exists n modp start, word_at rd (addr + 20) (Z.of_nat n) /\ (n < fuel)%nat /\ Z.of_nat n < 2 ^ 31 /\
        word_at rd (addr + 24) modp /\ word_at rd modp start /\ set_filesys_meta rd start = Ok f /\
        forall i, 0 <= i < Z.of_nat n -> module_ok rd (modp + 16 * i)
    else f = f0;
  io_mmap : CHECK_FLAG flags 6 = true -> exists maddr mlen n, word_at rd (addr + 48) maddr /\ word_at rd (addr + 44) mlen /\
    (n < fuel)%nat /\ mmap_ok rd (u32 (maddr + mlen)) n maddr
}.

Section Banner.
Context (fuel : nat) (s0 : kstate).
Hypothesis Hoff : Z.testbit (cr0 (pg s0)) 31 = false.
Hypothesis Hfuel : (1000 <= fuel)%nat.
Let rd := outside (ph s0).

Lemma field_drawn s a v : drawn s0 s -> word_at rd a v -> field32 s a = Ok v.
Proof. intros Hd. apply field_word. by apply outside_kld. Qed.

(** Printing a line with words. *)
Ltac say_step :=
  match goal with
  | Hd : drawn s0 ?s |- context [say fuel ?s ?m ?va] =>
      let s' := fresh "t" in let E := fresh "E" in let Hd' := fresh "Hd" in
      destruct (say_drawn fuel m va _ s s0 Hd eq_refl eq_refl) as (s' & E & Hd'); [signs | simpl; lia.. |];
      rewrite E; clear E Hd; try rstep
  end.

Lemma boot_modules_drawn n modp mbi :
  word_at rd (mbi + 20) (Z.of_nat n) -> Z.of_nat n < 2 ^ 31 ->
  (forall i, 0 <= i < Z.of_nat n -> module_ok rd (modp + 16 * i)) ->
  forall k i s, (i + k = n)%nat -> forall fl, (k < fl)%nat -> drawn s0 s ->
  exists s', boot_modules fuel fl mbi (Z.of_nat i) (modp + 16 * Z.of_nat i) s = Ok s' /\ drawn s0 s'.
Proof.
  intros Hc Hn Hmods. induction k as [|k IH]; intros i s Hik fl Hfl Hd; (destruct fl as [|fl]; [lia |]); cbn [boot_modules].
  - rewrite (field_drawn _ _ _ Hd Hc). rstep. rewrite u32_id by lia.
    destruct (Z.ltb_spec (Z.of_nat i) (Z.of_nat n)); [lia |]. by exists s.
  - rewrite (field_drawn _ _ _ Hd Hc). rstep. rewrite u32_id by lia.
    destruct (Z.ltb_spec (Z.of_nat i) (Z.of_nat n)); [|lia].
    destruct (Hmods (Z.of_nat i) ltac:(lia)) as (start & end_ & Hs & He & Hb).
    rewrite (field_drawn _ _ _ Hd Hs). rstep. say_step.
    rewrite (field_drawn _ _ _ Hd0 He). rstep. say_step. say_step.
    destruct (for_range_inv (fun _ t => drawn s0 t) (fun i0 s =>
       start ← field32 s (modp + 16 * Z.of_nat i); c ← kld s (u32 (start + i0));
       say_part fuel s "0x%x " [PInt (s8 c)]) 0 16 t1) as (t2 & -> & Hd2); [lia | done | |].
    { intros j u Hj Hu. rewrite (field_drawn _ _ _ Hu Hs). rstep. destruct (Hb j Hj) as (c & Hc').
      rewrite (outside_kld s0 u Hoff Hu _ _ Hc'). rstep.
      apply (say_part_drawn fuel "0x%x " [PInt (s8 c)] _ u s0 Hu eq_refl eq_refl); [signs | simpl; lia..]. }
    rstep. say_step.
    replace (Z.of_nat i + 1) with (Z.of_nat (S i)) by lia.
    replace (modp + 16 * Z.of_nat i + 16) with (modp + 16 * Z.of_nat (S i)) by lia.
    apply IH; [lia | lia | done].
Qed.

Lemma boot_mmap_drawn mbi maddr mlen :
  word_at rd (mbi + 48) maddr -> word_at rd (mbi + 44) mlen ->
  forall n mmap, mmap_ok rd (u32 (maddr + mlen)) n mmap -> forall s fl, (n < fl)%nat -> drawn s0 s ->
  exists s', boot_mmap fuel fl mbi mmap s = Ok s' /\ drawn s0 s'.
Proof.
  intros Ha Hl n mmap Hm. induction Hm as [a Ha'|n a sz Ha' Hsz Hf _ IH]; intros s fl Hfl Hd;
    (destruct fl as [|fl]; [lia |]); cbn [boot_mmap]; rewrite (field_drawn _ _ _ Hd Ha); rstep;
    rewrite (field_drawn _ _ _ Hd Hl); rstep.
  - destruct (Z.ltb_spec (u32 a) (u32 (maddr + mlen))); [lia |]. by exists s.
  - destruct (Z.ltb_spec (u32 a) (u32 (maddr + mlen))); [|lia].
    rewrite (field_drawn _ _ _ Hd Hsz). rstep.
    destruct (Hf 8) as (v8 & H8); [by repeat constructor |]. rewrite (field_drawn _ _ _ Hd H8). rstep.
    destruct (Hf 4) as (v4 & H4); [by repeat constructor |]. rewrite (field_drawn _ _ _ Hd H4). rstep.
    destruct (Hf 20) as (v20 & H20); [by repeat constructor |]. rewrite (field_drawn _ _ _ Hd H20). rstep.
    destruct (Hf 16) as (v16 & H16); [by repeat constructor |]. rewrite (field_drawn _ _ _ Hd H16). rstep.
    destruct (Hf 12) as (v12 & H12); [by repeat constructor |]. rewrite (field_drawn _ _ _ Hd H12). rstep.
    assert (Hp : exists t, printf fuel s (aget ((text " size = 0x%x,     base_addr = 0x%#x%#x" ++
        [10] ++ text "     type = 0x%x,  length    = 0x%#x%#x" ++ [10]) ++ [0]))
        [PInt sz; PInt v8; PInt v4; PInt v20; PInt v16; PInt v12] =
        Ok (zlen (text " size = 0x%x,     base_addr = 0x%#x%#x" ++ [10] ++ text "     type = 0x%x,  length    = 0x%#x%#x" ++ [10]), t) /\
      drawn s0 t).
    { eapply (printf_drawn fuel _ _ _ _ s s0 Hd); [reflexivity | | reflexivity | signs | simpl; lia | simpl; lia].
      by apply plain_nonnulb. }
    destruct Hp as (t & E & Hd').
    rewrite <- !app_assoc in E. change ([10] ++ [0]) with [10; 0] in E. rewrite E. rstep.
    rewrite (field_drawn _ _ _ Hd' Hsz). rstep. apply IH; [lia | done].
Qed.
End Banner.

Lemma drawn_fs s s' f : drawn s s' -> drawn (set_fs s f) (set_fs s' f).
Proof.
  intros [(sc & [[] ? ? ? ?]) (E & Hb & Hm)]. split.
  - exists sc. by constructor; [constructor|..].
  - split_and!; [|done..]. clear -E. unfold set_log, set_con, set_ph, set_fs in *. destruct s, s'. simpl in *.
    injection E. intros. by subst.
Qed.

Lemma set_fs_same s : set_fs s (fs s) = s.
Proof. by destruct s. Qed.

Lemma cmdline_drawn fuel s0 s r str :
  drawn s0 s -> cstr r str -> (length str + 100 <= fuel)%nat ->
  exists s', say fuel s "cmdline = %s" [PStr r] = Ok s' /\ drawn s0 s'.
Proof.
  intros [(sc & Hd) Hf] Hr Hl.
  destruct (printf_spec VIDEO s sc (line "cmdline = %s") (text "cmdline = %s" ++ [10]) [PStr r]
    (text "cmdline = " ++ str ++ [10]) fuel Hd) as (s' & E & Hd' & Hf').
  - apply (plain_fmt_cstr "cmdline = %s" [10]); [done | by apply Forall_singleton].
  - simpl. do 10 (apply r_lit; [lia |]). apply r_s; [done |]. by repeat constructor.
  - simpl. lia.
  - rewrite !length_app. simpl. lia.
  - exists s'. unfold say. rewrite E. split; [done |]. split; [by eexists | by eapply con_frame_trans].
Qed.

Lemma boot_banner_spec fuel s addr flags f :
  Z.testbit (cr0 (pg s)) 31 = false -> (1000 <= fuel)%nat -> (exists cs, shows VIDEO 0 s cs) ->
  info_ok (outside (ph s)) fuel addr flags (fs s) f ->
  exists s', boot_banner fuel MULTIBOOT_BOOTLOADER_MAGIC addr s = Ok (negb (CHECK_FLAG flags 4 && CHECK_FLAG flags 5), s') /\
    drawn (set_fs s f) s'.
Proof.
  intros Hoff Hfu Hsh [Hfl Hw Hcmd Hmods Hmmap].
  destruct (clear_spec VIDEO s Hsh) as (s1 & E1 & Hd1 & Hf1 & _).
  assert (Hd : drawn s s1) by (split; [by eexists | done]).
  unfold boot_banner. rewrite E1, Z.eqb_refl. clear E1 Hd1 Hf1. cbn [negb]. rstep.
  rewrite (field_drawn s Hoff _ _ _ Hd Hfl). rstep.
  destruct (say_drawn fuel "flags = 0x%#x" [PInt flags] _ s1 s Hd eq_refl eq_refl) as (s2 & -> & Hd2); [signs | simpl; lia.. |]. rstep.
  rewrite (field_drawn s Hoff _ _ _ Hd2 Hfl). rstep.
  assert (E3 : exists s3, (if CHECK_FLAG flags 0 then
           lower ← field32 s2 (addr + 4); upper ← field32 s2 (addr + 8);
           say fuel s2 "mem_lower = %uKB, mem_upper = %uKB" [PInt lower; PInt upper] else Ok s2) = Ok s3 /\ drawn s s3).
  { destruct (CHECK_FLAG flags 0); [|by exists s2].
    destruct (Hw 4) as (v4 & H4); [by repeat constructor |]. rewrite (field_drawn s Hoff _ _ _ Hd2 H4). rstep.
    destruct (Hw 8) as (v8 & H8); [by repeat constructor |]. rewrite (field_drawn s Hoff _ _ _ Hd2 H8). rstep.
    eapply (say_drawn fuel _ _ _ s2 s Hd2); [reflexivity | reflexivity | signs | simpl; lia..]. }
  destruct E3 as (s3 & -> & Hd3). rstep. rewrite (field_drawn s Hoff _ _ _ Hd3 Hfl). rstep.
  assert (E4 : exists s4, (if CHECK_FLAG flags 1 then dev ← field32 s3 (addr + 12); say fuel s3 "boot_device = 0x%#x" [PInt dev] else Ok s3) = Ok s4 /\ drawn s s4).
  { destruct (CHECK_FLAG flags 1); [|by exists s3].
    destruct (Hw 12) as (v & Hv); [by repeat constructor |]. rewrite (field_drawn s Hoff _ _ _ Hd3 Hv). rstep.
    eapply (say_drawn fuel _ _ _ s3 s Hd3); [reflexivity | reflexivity | signs | simpl; lia..]. }
  destruct E4 as (s4 & -> & Hd4). rstep. rewrite (field_drawn s Hoff _ _ _ Hd4 Hfl). rstep.
  assert (E5 : exists s5, (if CHECK_FLAG flags 2 then cmdline ← field32 s4 (addr + 16);
      say fuel s4 "cmdline = %s" [PStr (roff (kld s4) cmdline)] else Ok s4) = Ok s5 /\ drawn s s5).
  { destruct (CHECK_FLAG flags 2); [|by exists s4]. destruct (Hcmd eq_refl) as (c & str & Hc & Hstr & Hl).
    rewrite (field_drawn s Hoff _ _ _ Hd4 Hc). rstep. apply (cmdline_drawn fuel s s4 _ str Hd4); [|done].
    eapply cstr_mono; [by apply outside_kld | done]. }
  destruct E5 as (s5 & -> & Hd5). rstep. rewrite (field_drawn s Hoff _ _ _ Hd5 Hfl). rstep.
  assert (E6 : exists s6, (if CHECK_FLAG flags 3 then modp ← field32 s5 (addr + 24); start ← field32 s5 modp;
      fs' ← set_filesys_meta (kld s5) start; boot_modules fuel fuel addr 0 modp (set_fs s5 fs') else Ok s5) = Ok s6 /\ drawn (set_fs s f) s6).
  { destruct (CHECK_FLAG flags 3).
    - destruct Hmods as (n & modp & start & Hn & Hnf & Hn32 & Hmp & Hst & Hfs & Hm).
      rewrite (field_drawn s Hoff _ _ _ Hd5 Hmp). rstep. rewrite (field_drawn s Hoff _ _ _ Hd5 Hst). rstep.
      rewrite (set_filesys_meta_mono _ _ _ _ (outside_kld s s5 Hoff Hd5) Hfs). rstep.
      pose proof (boot_modules_drawn fuel (set_fs s f) Hoff Hfu n modp addr Hn Hn32 Hm n 0%nat (set_fs s5 f) eq_refl fuel Hnf) as E.
      rewrite Z.mul_0_r, Z.add_0_r in E. apply E. by apply drawn_fs.
    - exists s5. split; [done |]. by rewrite Hmods, set_fs_same. }
  destruct E6 as (s6 & -> & Hd6). rstep. clear Hd Hd2 Hd3 Hd4 Hd5 s1 s2 s3 s4 s5 Hmods Hcmd.
  set (s0 := set_fs s f) in *. change (outside (ph s)) with (outside (ph s0)) in *. change (cr0 (pg s)) with (cr0 (pg s0)) in Hoff.
  rewrite (field_drawn s0 Hoff _ _ _ Hd6 Hfl). rstep.
  destruct (CHECK_FLAG flags 4 && CHECK_FLAG flags 5).
  { destruct (say_drawn fuel "Both bits 4 and 5 are set." [] _ s6 s0 Hd6 eq_refl eq_refl) as (s7 & -> & Hd7); [signs | simpl; lia.. |]. by exists s7. }
  assert (E7 : exists s7, (if CHECK_FLAG flags 5 then num ← field32 s6 (addr + 28); size ← field32 s6 (addr + 32);
      eaddr ← field32 s6 (addr + 36); shndx ← field32 s6 (addr + 40);
      say fuel s6 "elf_sec: num = %u, size = 0x%#x, addr = 0x%#x, shndx = 0x%#x" [PInt num; PInt size; PInt eaddr; PInt shndx]
      else Ok s6) = Ok s7 /\ drawn s0 s7).
  { destruct (CHECK_FLAG flags 5); [|by exists s6].
    destruct (Hw 28) as (v1 & H1); [by repeat constructor |]. rewrite (field_drawn s0 Hoff _ _ _ Hd6 H1). rstep.
    destruct (Hw 32) as (v2 & H2); [by repeat constructor |]. rewrite (field_drawn s0 Hoff _ _ _ Hd6 H2). rstep.
    destruct (Hw 36) as (v3 & H3); [by repeat constructor |]. rewrite (field_drawn s0 Hoff _ _ _ Hd6 H3). rstep.
    destruct (Hw 40) as (v4 & H4); [by repeat constructor |]. rewrite (field_drawn s0 Hoff _ _ _ Hd6 H4). rstep.
    eapply (say_drawn fuel _ _ _ s6 s0 Hd6); [reflexivity | reflexivity | signs | simpl; lia..]. }
  destruct E7 as (s7 & -> & Hd7). rstep. rewrite (field_drawn s0 Hoff _ _ _ Hd7 Hfl). rstep.
  destruct (CHECK_FLAG flags 6); [|by exists s7].
  destruct (Hmmap eq_refl) as (maddr & mlen & n & Ha & Hl & Hn & Hm).
  rewrite (field_drawn s0 Hoff _ _ _ Hd7 Ha). rstep. rewrite (field_drawn s0 Hoff _ _ _ Hd7 Hl). rstep.
  destruct (say_drawn fuel "mmap_addr = 0x%#x, mmap_length = 0x%x" [PInt maddr; PInt mlen] _ s7 s0 Hd7 eq_refl eq_refl)
    as (s8 & -> & Hd8); [signs | simpl; lia.. |]. rstep. rewrite (field_drawn s0 Hoff _ _ _ Hd8 Ha). rstep.
  destruct (boot_mmap_drawn fuel s0 Hoff Hfu addr maddr mlen Ha Hl n maddr Hm s8 fuel Hn Hd8) as (s9 & -> & Hd9). by exists s9.
Qed.
End BannerFacts.

(** ** Devices and memory *)

(** What [entry] relies on: paging off, the variables of .bss, and memory where
    the screen, the saved screens and the array [zeros] are. *)
Record loaded `{Linker} (s : kstate) : Prop := {
  lo_off : Z.testbit (cr0 (pg s)) 31 = false;
  lo_shaped : shaped (pg s);
  lo_proc : proc (pg s) = replicate 8 0;
  lo_video : bytes_at (ph s) VIDEO 4096;
  lo_pages : bytes_at (ph s) 0x1000 (4 * 4096);
  lo_zeros : bytes_at (ph s) zeros_addr 4096;
  lo_linked : 2 ^ 22 <= zeros_addr /\ zeros_addr + 4096 <= 2 ^ 23;
  lo_bg : bg_term (sch s) = 0;
  lo_terms : zlen (term_init (sch s)) = 3 /\ zlen (proc_active (sch s)) = 3;
  lo_regs : zlen (proc_esp (sch s)) = 3 /\ zlen (proc_ebp (sch s)) = 3;
  lo_cursor : forall t, 0 <= t < 3 -> exists row, aget (cursor_pos (sch s)) t = Ok row /\ zlen row = 2;
  lo_buf : zlen (buf (kb s)) = 6 /\ Forall (fun row => zlen row = 1024) (buf (kb s));
  lo_index : zlen (buf_index (kb s)) = 6 /\ zlen (ind_entered (kb s)) = 6
}.

(** What the start of the devices leaves. *)
Record devices_up `{Layout} `{Linker} (s s' : kstate) (sc : screen) : Prop := {
  du_inv : paging_inv (pg s');
  du_cr3 : cr3 (pg s') = 0;
  du_proc : proc (pg s') = replicate 8 0;
  du_pte : forall i, 1 <= i < 1024 -> id_pte (pg s') i;
  du_displays : displays VIDEO s' sc;
  du_pic : pic_ok s' /\ master_mask (pic s') = 0xFF /\ slave_mask (pic s') = 0xFF;
  du_sch : sch s' = mkSched (cursor_pos (sch s)) 0 [1; 0; 0] [-1; -1; -1] 0 0 (proc_esp (sch s)) (proc_ebp (sch s));
  du_sched : sched_ok (sch s');
  du_kb : kb_ok s';
  du_index : buf_index (kb s') = replicate 6 0 /\ capson (kb s') = 0;
  du_keys : buf (kb s') = buf (kb s) /\ ctrl_on (kb s') = ctrl_on (kb s) /\ shift_on (kb s') = shift_on (kb s) /\
    alt_on (kb s') = alt_on (kb s);
  du_count : interrupt_count s' = interrupt_count s;
  du_ph : forall q, ph s' !! q =
    if ((0x1000 <=? q) && (q <? 0x5000)) || ((zeros_addr <=? q) && (q <? zeros_addr + 4096)) then Some 0 else ph s !! q;
  du_rest : con s' = con s /\ fs s' = fs s /\ args s' = args s /\ pcbs s' = pcbs s /\ tss s' = tss s /\ iflag s' = iflag s
}.

Section DeviceFacts.
Context `{Layout} `{Linker} `{Env} `{Symbols}.

Lemma init_buffers_spec s :
  zlen (buf_index (kb s)) = 6 -> zlen (ind_entered (kb s)) = 6 ->
  init_buffers s = Ok (set_ind_entered (set_buf_index s (replicate 6 0)) (replicate 6 0)).
Proof.
  assert (Hsix : forall l : list Z, zlen l = 6 -> exists a b c d e f, l = [a; b; c; d; e; f]).
  { intros [|a [|b [|c [|d [|e [|f [|]]]]]]] Hl; unfold zlen in Hl; simpl in Hl; try lia. by eexists _, _, _, _, _, _. }
  intros (? & ? & ? & ? & ? & ? & E1)%Hsix (? & ? & ? & ? & ? & ? & E2)%Hsix.
  destruct s as [? ? ? ? ? ? [] ? ? ? ? ? ?]. simpl in E1, E2. subst. reflexivity.
Qed.

(** Only the port log changes, and not for the controllers. *)
Definition logged (s s' : kstate) : Prop := s' = set_log s (log s') /\ quietly s s'.

Lemma logged_trans s1 s2 s3 : logged s1 s2 -> logged s2 s3 -> logged s1 s3.
Proof. intros [E1 Q1] [E2 Q2]. split; [by rewrite E2, E1 | by eapply quietly_trans]. Qed.

Lemma logged_out s s' d p : logged s s' -> ~ pic_port p -> logged s (outb s' d p).
Proof.
  intros Hl Hp. eapply logged_trans; [exact Hl |]. split; [done |]. exists [Out p (u8 d)]. split; [done |].
  by apply Forall_singleton.
Qed.

Lemma logged_in s s' p v s1 : logged s s' -> inb s' p = (v, s1) -> logged s s1.
Proof.
  intros Hl [= _ <-]. eapply logged_trans; [exact Hl |]. split; [done |]. exists [In p (u8 (port_in (log s') p))].
  split; [done |]. by apply Forall_singleton.
Qed.

Lemma rtc_init_logged s : logged s (rtc_init s).
Proof.
  assert (H0' : logged s s) by (split; [by destruct s | apply quietly_refl]).
  unfold rtc_init, rtc_program.
  repeat match goal with
  | |- context [inb ?t ?p] => let E := fresh "E" in destruct (inb t p) as [? ?] eqn:E;
      apply (logged_in s) in E; [|repeat (apply logged_out; [|unfold pic_port, RTC_PORT, CMOS_PORT; lia]); assumption]
  end.
  repeat (apply logged_out; [|unfold pic_port, RTC_PORT, CMOS_PORT; lia]); assumption.
Qed.

Lemma off_displays s p sc : Z.testbit (cr0 (pg s)) 31 = false -> displays p s sc -> p = VIDEO.
Proof.
  intros Hoff [[Hm _ _ _ _] _ _ _ _]. destruct (Hm 0 ltac:(lia)) as (E & _). rewrite ktr_off in E by done.
  rewrite u32_id in E by (unfold VIDEO; lia). injection E. lia.
Qed.

(** The screen stays where it is when paging comes on. *)
Lemma displays_paged s s' sc :
  displays VIDEO s sc -> paging_inv (pg s') -> kernel_dir (pg s') -> id_pte (pg s') 0xb8 ->
  con s' = con s -> bg_term (sch s') = bg_term (sch s) ->
  (forall i, 0 <= i < 4000 -> ph s' !! (VIDEO + i) = ph s !! (VIDEO + i)) -> displays VIDEO s' sc.
Proof.
  intros [[Hm Hb Hl Hby Hc] Hx Hy Hxr Hyr] Hinv Hdir Hid Hcon Hbg Hph.
  constructor; rewrite ?Hcon; try done. constructor; rewrite ?Hcon, ?Hbg; try done.
  - intros i Hi. destruct (Hm i Hi) as (_ & b & Eb & Hbyte). split.
    + rewrite u32_id by (unfold VIDEO; lia). unfold ktr. change (VIDEO + i) with (4096 * 0xb8 + i).
      apply low_page_walk; first [assumption | lia].
    + exists b. by rewrite Hph.
  - intros i c Hi Hic. unfold cell. pose proof (Hc i c Hi Hic) as [E1 E2]. rewrite <- !Z.add_assoc in *.
    rewrite !Hph by lia. by split.
Qed.

Lemma boot_devices_spec b sc :
  loaded (bk b) -> displays VIDEO (bk b) sc ->
  length (idt b) = 256%nat ->
  exists b' t, boot_devices b = Ok b' /\ init_idt b = Ok (set_idt b t true) /\ idt b' = t /\ idtr b' = true /\
    tss_desc_ptr b' = tss_desc_ptr b /\ ldt_desc_ptr b' = ldt_desc_ptr b /\ tr b' = tr b /\ ldtr b' = ldtr b /\
    devices_up (bk b) (bk b') sc.
Proof.
  intros [Hoff Hsh Hpr Hvid Hpg Hz (Hz1 & Hz2) Hbg (Ht1 & Ht2) (Hr1 & Hr2) Hcur (Hb1 & Hb2) (Hi1 & Hi2)] Hd Hlen.
  set (s := bk b) in *. unfold boot_devices. fold s.
  rewrite init_buffers_spec by done. rstep.
  set (s1 := set_ind_entered _ _).
  destruct (init_terminals_clears s1) as (m & -> & Hm); try done; [lia | lia |]. rstep.
  set (s2 := set_ph _ m). set (s3 := set_mods s2 _ _ _ _).
  assert (Hidt : exists t, init_idt b = Ok (set_idt b t true)).
  { unfold init_idt. destruct (for_range_inv (fun _ t => length t = 256%nat)
      (fun i t => d ← aget t i; aset t i (init_idt_entry i d)) 0 256 (idt b)) as (t & -> & _); [lia | done | |].
    - intros i t Hi Ht. destruct (aget_in_range t i) as [d ->]; [unfold zlen; lia |]. rstep.
      rewrite aset_in by (unfold zlen; lia). eexists. split; [done |]. by rewrite length_insert.
    - rstep. by eexists. }
  destruct Hidt as (t & Et).
  assert (init_idt (set_keyboard_flag (set_bk b s3) 0) = Ok (set_idt (set_keyboard_flag (set_bk b s3) 0) t true)) as ->.
  { unfold init_idt in Et |- *. change (idt (set_keyboard_flag (set_bk b s3) 0)) with (idt b).
    destruct (for_range _ _ _ _) as [t'| |]; try discriminate. rewrite res_bind_ok in Et. injection Et as ->. done. }
  rstep. change (bk (set_idt (set_keyboard_flag (set_bk b s3) 0) t true)) with s3.
  destruct (rtc_init_logged (i8259_init s3)) as (Ertc & Hq). set (s4 := rtc_init (i8259_init s3)) in *. clearbody s4.
  destruct (init_paging_inv (pg s4)) as (pg' & Epg & Hinv & Hproc & Hcr3 & Hpte); [by rewrite Ertc | by rewrite Ertc |].
  rewrite Epg. rstep. eexists _, t. split; [reflexivity |]. split_and!; try done.
  assert (Hk : kb s4 = kb s3 /\ sch s4 = sch s3 /\ ph s4 = m /\ con s4 = con s) by by rewrite Ertc.
  destruct Hk as (Ek & Es & Em & Ec).
  constructor; try done.
  - apply (displays_paged s); try done; [by left | by apply Hpte | by rewrite Hbg; simpl; rewrite Es |].
    intros i Hi. simpl. rewrite Em, Hm. unfold VIDEO. replace ((4096 <=? _) && _) with false by lia.
    replace ((zeros_addr <=? _) && _) with false by lia. done.
  - split; [|by rewrite Ertc]. apply (pic_ok_quiet (i8259_init s3)); [exact Hq | by rewrite Ertc | apply i8259_init_ok].
  - simpl. rewrite Es. constructor; try done; try (simpl; lia). exists 1, 0, 0. split_and!; auto.
  - constructor; simpl; rewrite ?Ek, ?Es; done.
  - simpl. by rewrite Ek.
  - simpl. by rewrite Ek.
  - simpl. by rewrite Ertc.
  - intros q. simpl. rewrite Em. apply Hm.
  - simpl. rewrite Ertc. done.
Qed.

(** What [boot_interrupts] leaves: a blank screen, the three lines the kernel uses
    enabled, interrupts on. *)
Record ready (s s' : kstate) : Prop := {
  rd_displays : displays VIDEO s' blank;
  rd_pic : pic_ok s' /\ pic s' = mkPic 0xF9 0xFE;
  rd_fflag : kb s' = kb (set_fflag s 0) /\ iflag s' = true;
  rd_count : interrupt_count s' = interrupt_count s;
  rd_ph : forall q, ~ (VIDEO <= q < VIDEO + 4000) -> ph s' !! q = ph s !! q;
  rd_rest : pg s' = pg s /\ sch s' = sch s /\ fs s' = fs s /\ args s' = args s /\ pcbs s' = pcbs s /\ tss s' = tss s
}.

Lemma boot_interrupts_spec fuel s sc :
  displays VIDEO s sc -> pic_ok s -> pic s = mkPic 0xFF 0xFF -> (1000 <= fuel)%nat ->
  exists s', boot_interrupts fuel s = Ok s' /\ ready s s'.
Proof.
  intros Hd Hok Hpic Hfu. unfold boot_interrupts.
  destruct (say_drawn fuel "Enabling Interrupts" [] _ s s (drawn_refl s sc Hd) eq_refl eq_refl) as (s1 & E1 & (sc1 & Hd1) & Hf1); [signs | simpl; lia.. |].
  rewrite E1. rstep.
  assert (Hq1 : quietly s s1).
  { unfold say in E1. apply res_bind_ok_inv in E1 as ([k t] & E & [= <-]). by eapply printf_quietly. }
  pose proof (proj1 Hf1) as Es1. assert (Hp1 : pic s1 = mkPic 0xFF 0xFF) by by rewrite Es1.
  pose proof (pic_ok_quiet s s1 Hq1 ltac:(by rewrite Es1) Hok) as Hok1.
  set (s2 := enable_irq (enable_irq (enable_irq (sti s1) 1) 2) 8).
  assert (Hok2 : pic_ok s2).
  { do 3 apply pic_ok_enable. by destruct Hok1. }
  assert (Hp2 : s2 = set_iflag (set_log (set_pic s1 (mkPic 0xF9 0xFE)) (log s2)) true).
  { unfold s2, enable_irq, sti, set_master_mask, set_slave_mask. simpl. rewrite Hp1. reflexivity. }
  clearbody s2.
  assert (Hsh2 : exists cs, shows VIDEO 0 s2 cs).
  { exists (cells sc1). destruct Hd1 as [[] _ _ _ _]. rewrite Hp2. constructor; try done. lia. }
  destruct (clear_spec VIDEO s2 Hsh2) as (s3 & E3 & Hd3 & Hf3 & _). rewrite E3. rstep. eexists. split; [done |].
  pose proof (proj1 Hf3) as Es3.
  assert (Hrest : pic s3 = mkPic 0xF9 0xFE /\ kb s3 = kb s /\ iflag s3 = true /\ pg s3 = pg s /\ sch s3 = sch s /\ fs s3 = fs s /\
    args s3 = args s /\ pcbs s3 = pcbs s /\ tss s3 = tss s /\ interrupt_count s3 = interrupt_count s) by by rewrite Es3, Hp2, Es1.
  destruct Hrest as (R1 & R2 & R3 & R4 & R5 & R6 & R7 & R8 & R9 & R10).
  constructor.
  - by apply kb_displays.
  - split; [|exact R1]. assert (Hok3 : pic_ok s3) by (apply (pic_ok_quiet s2); [by apply clear_quietly | by rewrite Es3 | done]).
    by destruct Hok3.
  - split; [|exact R3]. unfold set_fflag. simpl. by rewrite R2.
  - exact R10.
  - intros q Hq. change (ph (set_fflag s3 0)) with (ph s3). rewrite (proj2 (proj2 Hf3)) by done.
    rewrite Hp2. change (ph (set_iflag ?a ?b)) with (ph a). change (ph (set_log ?a ?b)) with (ph a).
    change (ph (set_pic ?a ?b)) with (ph a). by apply (proj2 (proj2 Hf1)).
  - by split_and!.
Qed.
End DeviceFacts.

(** ** From the boot loader to the shell *)

(** The file system image as the loader left it in the kernel's page; the array
    [zeros], which is in the same page, is not part of it. *)
Definition image_rd `{Linker} (m : mem) : reader := fun a =>
  if (zeros_addr <=? a) && (a <? zeros_addr + 4096) then Undef else page_rd m a.

(** The image [f] describes has an executable shell, and there is memory to run it
    in as the first process. *)
Record shell_file `{Linker} (s : kstate) (f : filesys) (content : list Z) (a : Z) (p : pcb_t) : Prop := {
  sf_dir : exists ds j d, dir_is (image_rd (ph s)) f ds /\
    list_find (fun d => dname d = text "shell") ds = Some (j, d) /\ file_at (image_rd (ph s)) f (inode_num d) content;
  sf_elf : take 4 content = elf_magic /\ 28 <= zlen content /\ entry_point content = Ok a;
  sf_entry : a / 2 ^ 22 = 32 /\ 0 <= a < 2 ^ 32;
  sf_fits : Forall byte_ok content /\ zlen content <= 2 ^ 22 - 0x48000;
  sf_mem : bytes_at (ph s) (load_addr 0) (length content);
  sf_pcb : pcbs s !! pcb_addr 0 = Some p /\ zlen (fd p) = 8;
  sf_args : zlen (args s) = 1024
}.

(** The machine when the shell's first instruction is fetched. *)
Record booted `{Layout} `{Linker} `{Symbols} (b : boot_t) (f : filesys) (content : list Z) (esp ebp : Z) (p : pcb_t) : Prop := {
  bt_gates : idtr b = true /\ forall i, 0 <= i < 256 -> exists d, aget (idt b) i = Ok d /\
    gate_of (idt_bits d) = mkGate (handler_addr (idt_handler i)) KERNEL_CS 0xE (if i =? 0x80 then 3 else 0) 1;
  bt_tr : tr b = KERNEL_TSS /\ tss_ss0 (tss (bk b)) = KERNEL_DS /\ tss_esp0 (tss (bk b)) = _128MB - 4;
  bt_paging : paging_inv (pg (bk b)) /\ cr3 (pg (bk b)) = 1 /\ proc (pg (bk b)) = 1 :: replicate 7 0;
  bt_image : forall user j c, content !! j = Some c -> exists pa,
    walk (pg (bk b)) user (_PROC_STORAGE + Z.of_nat j) = Some pa /\ ph (bk b) !! pa = Some c;
  bt_pcb : pcbs (bk b) !! pcb_addr 0 = Some (new_pcb p esp ebp 0);
  bt_sched : let c := sch (bk b) in active_term c = 0 /\ bg_term c = 0 /\ term_init c = [1; 0; 0] /\
    proc_active c = [0; -1; -1] /\ fake_sti c = 0;
  bt_kb : let k := kb (bk b) in buf_index k = replicate 6 0 /\ capson k = 0 /\ fflag k = 0;
  bt_pic : pic_ok (bk b) /\ forall k, 0 <= k < 16 -> masked (bk b) k = negb ((k =? 1) || (k =? 2) || (k =? 8));
  bt_screen : getXY (bk b) = (0, 0) /\ forall i, 0 <= i < 2000 -> cell (ph (bk b)) VIDEO i 32;
  bt_fs : fs (bk b) = f
}.

Section BootFacts.
Context `{Layout} `{Linker} `{Env} `{Symbols}.

Lemma drawn_loaded s s' : drawn s s' -> loaded s -> loaded s'.
Proof.
  intros [(sc & Hd) (E & _ & Hm)] [Hoff Hsh Hpr Hvid Hpg Hz (Hz1 & Hz2) Hbg Ht Hr Hcur Hb Hi].
  assert (Hk : pg s' = pg s /\ sch s' = sch s /\ kb s' = kb s) by by rewrite E.
  destruct Hk as (Ep & Es & Ek). clear E.
  constructor; rewrite ?Ep, ?Es, ?Ek; try assumption; try (by split).
  - intros i Hi'. destruct (decide (i < 4000)) as [Hlt|Hge].
    + destruct Hd as [[Hmap _ _ _ _] _ _ _ _]. destruct (Hmap i ltac:(lia)) as (_ & x & Hx). by exists x.
    + rewrite Hm by lia. by apply Hvid.
  - intros i Hi'. rewrite Hm by (unfold VIDEO; lia). by apply Hpg.
  - intros i Hi'. rewrite Hm by (unfold VIDEO; lia). by apply Hz.
Qed.

Lemma loaded_fs s f : loaded s -> loaded (set_fs s f).
Proof. intros []. constructor; assumption. Qed.

Lemma loaded_tss s t : loaded s -> loaded (set_tss s t).
Proof. intros []. constructor; assumption. Qed.

Lemma image_le m m' :
  2 ^ 22 <= zeros_addr -> (forall q, 2 ^ 22 <= q < 2 ^ 23 -> ~ (zeros_addr <= q < zeros_addr + 4096) -> m' !! q = m !! q) ->
  rd_le (image_rd m) (page_rd m').
Proof.
  intros Hz Hm a c. unfold image_rd, page_rd.
  destruct (Z.leb_spec zeros_addr a), (Z.ltb_spec a (zeros_addr + 4096)); cbn [andb]; try done.
  all: destruct (Z.leb_spec 4194304 a), (Z.ltb_spec a 8388608); cbn [andb]; try done.
  all: by rewrite Hm by lia.
Qed.

(** The command at the bottom of the stack. *)
Lemma blahp_command more rest :
  length rest = 13%nat -> field (fun i => more (7 + i)) rest ->
  command_is (literal blahp more) (text "shell") 1 [] 0 rest.
Proof.
  intros Hl Hr. constructor.
  - intros n c Hc. unfold literal, blahp.
    change (text "shell" ++ replicate 1 32 ++ [] ++ 0 :: rest) with ((text "shell " ++ [0]) ++ rest) in Hc.
    destruct (decide (n < 7)%nat) as [Hn|Hn].
    + rewrite lookup_app_l in Hc by done. replace (Z.of_nat n <? _) with true by (symmetry; apply Z.ltb_lt; change (zlen (text "shell " ++ [0])) with 7; lia).
      split; [by apply aget_nat |].
      assert (Hall : Forall byte_ok (text "shell " ++ [0])) by (vm_compute; repeat constructor; discriminate).
      exact (Forall_lookup_1 _ _ _ _ Hall Hc).
    + rewrite lookup_app_r in Hc by (simpl; lia). replace (Z.of_nat n <? _) with false by (symmetry; apply Z.ltb_ge; change (zlen (text "shell " ++ [0])) with 7; lia).
      destruct (Hr _ _ Hc) as (E & Hb). split; [|done]. rewrite <- E. f_equal. simpl length. lia.
  - rewrite !length_app, length_replicate. simpl. lia.
  - by repeat constructor.
  - constructor.
  - by left.
  - done.
Qed.

Lemma drawn_shell_file s s' f content a p :
  2 ^ 22 <= zeros_addr -> drawn s s' -> shell_file s f content a p -> shell_file s' f content a p.
Proof.
  intros Hz [_ (E & _ & Hm)] [Hdir He Ha Hf Hmem Hp Hargs].
  assert (Hk : pcbs s' = pcbs s /\ args s' = args s) by by rewrite E. destruct Hk as (Ep & Eg). clear E.
  assert (Hle : rd_le (image_rd (ph s)) (image_rd (ph s'))).
  { intros x c. unfold image_rd. destruct (_ && _); [done |]. unfold page_rd.
    destruct (Z.leb_spec 4194304 x); [|done]. rewrite Hm by (unfold VIDEO; lia). done. }
  constructor; rewrite ?Ep, ?Eg; try done.
  - destruct Hdir as (ds & j & d & Hd & Hj & Hfile). exists ds, j, d. split_and!; [by eapply dir_is_mono | done | by eapply file_at_mono].
  - intros i Hi. rewrite Hm by (unfold VIDEO, load_addr, frame; lia). by apply Hmem.
Qed.

Lemma set_fs_shell_file s f f' content a p : shell_file s f content a p -> shell_file (set_fs s f') f content a p.
Proof. intros []. by constructor. Qed.

Lemma set_tss_shell_file s t f content a p : shell_file s f content a p -> shell_file (set_tss s t) f content a p.
Proof. intros []. by constructor. Qed.

(** From the devices on: the system call starts the shell. *)
Lemma boot_shell_spec fuel more rest s s3 s4 sc f content a p esp ebp :
  loaded s -> shell_file s f content a p -> devices_up s s3 sc -> ready s3 s4 -> fs s = f ->
  length rest = 13%nat -> field (fun i => more (7 + i)) rest -> (1000 <= fuel)%nat ->
  exists s', boot_shell fuel more esp ebp s4 = Ok (Stop (EnterUser a (_128MB + _4MB - 4)), s') /\
    started (with_args (cli s4) []) s' 0 content p esp ebp.
Proof.
  intros Hlo [Hdir (Hm & Hl & Hent) (Ha & Har) (Hb & Hfit) Hmem (Hp & Hpl) Hargs] Hdu Hrd Hfs Hrl Hr Hfu.
  destruct (lo_linked _ Hlo) as (Hz1 & Hz2).
  pose proof (blahp_command more rest Hrl Hr) as Hcmd.
  destruct (rd_rest _ _ Hrd) as (Rpg & Rsch & Rfs & Rargs & Rpcbs & Rtss).
  destruct (du_rest _ _ _ Hdu) as (Dcon & Dfs & Dargs & Dpcbs & Dtss & _).
  assert (Hph : forall q, ~ (0x1000 <= q < 0x5000) -> ~ (zeros_addr <= q < zeros_addr + 4096) -> ~ (VIDEO <= q < VIDEO + 4000) ->
    ph s4 !! q = ph s !! q).
  { intros q H1' H2' H3'. rewrite (rd_ph _ _ Hrd) by done. rewrite (du_ph _ _ _ Hdu).
    replace ((0x1000 <=? q) && (q <? 0x5000)) with false by lia. by replace ((zeros_addr <=? q) && _) with false by lia. }
  assert (Hle : rd_le (image_rd (ph s)) (page_rd (ph s4))).
  { apply image_le; [done |]. intros q Hq Hn. apply Hph; [lia | done | unfold VIDEO; lia]. }
  destruct Hdir as (ds & j & d & Hds & Hj & Hfile).
  destruct (execute_starts_spec (cli s4) (literal blahp more) (text "shell") 1 [] 0 rest ds fuel j d content a 0 p esp ebp) as (s' & E & Hst).
  - exact Hcmd.
  - change (args (cli s4)) with (args s4). by rewrite Rargs, Dargs.
  - lia.
  - left. change (pg (cli s4)) with (pg s4). rewrite Rpg. apply (du_cr3 _ _ _ Hdu).
  - change (fs (cli s4)) with (fs s4). rewrite Rfs, Dfs, Hfs. by eapply dir_is_mono.
  - exact Hj.
  - change (fs (cli s4)) with (fs s4). rewrite Rfs, Dfs, Hfs. by eapply file_at_mono.
  - exact Hm.
  - exact Hl.
  - exact Hent.
  - constructor; change (pg (cli s4)) with (pg s4); change (sch (cli s4)) with (sch s4); change (ph (cli s4)) with (ph s4);
      change (pcbs (cli s4)) with (pcbs s4); rewrite ?Rpg, ?Rsch, ?(du_sch _ _ _ Hdu).
    + apply (du_inv _ _ _ Hdu).
    + split; [lia |]. rewrite (du_proc _ _ _ Hdu). split; [done | lia].
    + done.
    + by simpl.
    + by rewrite Rpcbs, Dpcbs.
    + done.
    + done.
    + done.
    + intros i Hi. rewrite Hph by (unfold load_addr, frame, VIDEO; lia). by apply Hmem.
    + intros i Hi. destruct (decide (i < 4000)) as [Hlt|Hge].
      * destruct (rd_displays _ _ Hrd) as [[Hmap _ _ _ _] _ _ _ _]. destruct (Hmap i ltac:(lia)) as (_ & x & Hx). by exists x.
      * rewrite Hph by (unfold VIDEO; lia). by apply (lo_video _ Hlo).
    + intros i Hi. simpl active_term. exists 0. split; [|done]. rewrite (rd_ph _ _ Hrd) by (unfold VIDEO; lia).
      rewrite (du_ph _ _ _ Hdu). by replace ((0x1000 <=? _) && _) with true by lia.
    + apply (du_pte _ _ _ Hdu). simpl. lia.
  - exists s'. split; [|exact Hst]. unfold boot_shell. change (sys_call_entry 2) with (@Ok syscall Execute). rstep.
    unfold kbind at 1. by rewrite E.
Qed.

(** The state after [entry]. *)
Lemma booted_intro b b2 t s3 s4 s' sc f content p esp ebp :
  length (idt b2) = 256%nat -> Forall (fun d => reserved4 d = 0) (idt b2) -> init_idt b2 = Ok (set_idt b2 t true) ->
  idt b = t -> idtr b = true -> tr b = KERNEL_TSS -> bk b = s' ->
  loaded (bk b2) -> tss_ss0 (tss (bk b2)) = KERNEL_DS ->
  devices_up (bk b2) s3 sc -> ready s3 s4 -> fs (bk b2) = f ->
  started (with_args (cli s4) []) s' 0 content p esp ebp ->
  booted b f content esp ebp p.
Proof.
  intros Hlen Hres Et <- Hidtr Htr Eb Hlo Hss Hdu Hrd Hfs Hst.
  destruct (rd_rest _ _ Hrd) as (Rpg & Rsch & Rfs & Rargs & Rpcbs & Rtss).
  destruct (du_rest _ _ _ Hdu) as (Dcon & Dfs & Dargs & Dpcbs & Dtss & _).
  destruct (st_rest _ _ _ _ _ _ _ Hst) as (Tlog & Tpic & Tcon & Tkb & Tfs & _).
  destruct (rd_pic _ _ Hrd) as (Hok & Hpic). destruct (rd_fflag _ _ Hrd) as (Hkb & _).
  constructor; rewrite ?Eb.
  - split; [done |]. apply (proj1 (idt_gates_spec b2 Hlen Hres)). exact Et.
  - rewrite (st_tss _ _ _ _ _ _ _ Hst). done.
  - split_and!; [apply (st_inv _ _ _ _ _ _ _ Hst) | by rewrite (st_cr3 _ _ _ _ _ _ _ Hst) |].
    rewrite (st_proc _ _ _ _ _ _ _ Hst). change (proc (pg (with_args (cli s4) []))) with (proc (pg s4)).
    rewrite Rpg, (du_proc _ _ _ Hdu). done.
  - apply (st_image _ _ _ _ _ _ _ Hst).
  - rewrite (proj2 (st_pcb _ _ _ _ _ _ _ Hst)). by rewrite lookup_insert_eq.
  - cbv zeta. rewrite (st_sched _ _ _ _ _ _ _ Hst). change (sch (with_args (cli s4) [])) with (sch s4).
    rewrite Rsch, (du_sch _ _ _ Hdu). done.
  - cbv zeta. rewrite Tkb. change (kb (with_args (cli s4) [])) with (kb s4). rewrite Hkb.
    destruct (du_index _ _ _ Hdu) as (E1 & E2). done.
  - split.
    + apply (pic_ok_quiet (with_args (cli s4) [])); [by apply quietly_log | done | by destruct Hok].
    + intros k Hk. unfold masked. rewrite Tpic. change (pic (with_args (cli s4) [])) with (pic s4). rewrite Hpic.
      destruct (decide (k = 0 \/ k = 1 \/ k = 2 \/ k = 3 \/ k = 4 \/ k = 5 \/ k = 6 \/ k = 7 \/ k = 8 \/ k = 9 \/ k = 10 \/ k = 11 \/ k = 12 \/ k = 13 \/ k = 14 \/ k = 15)); [|lia].
      by destruct_or!; subst k.
  - destruct (rd_displays _ _ Hrd) as [Hs Hx Hy _ _]. split.
    + unfold getXY. rewrite Tcon. change (con (with_args (cli s4) [])) with (con s4). by rewrite Hx, Hy.
    + intros i Hi. assert (Hc : cell (ph s4) VIDEO i 32).
      { apply (sh_cells _ _ _ _ Hs); [done |]. apply aget_lookup. split; [lia |]. apply lookup_replicate. split; [done | lia]. }
      destruct Hc as [E1 E2]. split; (rewrite (st_frame _ _ _ _ _ _ _ Hst); [done | unfold VIDEO, load_addr, frame; lia |]);
        unfold VIDEO; lia.
  - rewrite Tfs. change (fs (with_args (cli s4) [])) with (fs s4). by rewrite Rfs, Dfs.
Qed.

(** The states that [entry] goes through: after the banner and the segments, with
    the devices started, with interrupts on, and when the shell is entered. *)
Record boot_steps (b b2 b' : boot_t) (s3 s4 s' : kstate) (sc : screen) (f : filesys) (content : list Z) (p : pcb_t) (esp ebp : Z) : Prop := {
  bo_idt : length (idt b2) = 256%nat /\ Forall (fun d => reserved4 d = 0) (idt b2) /\ init_idt b2 = Ok (set_idt b2 (idt b') true);
  bo_tables : idtr b' = true /\ tr b' = KERNEL_TSS;
  bo_banner : exists t, drawn (set_fs (bk b) f) (set_tss (bk b2) t);
  bo_loaded : loaded (bk b2) /\ tss_ss0 (tss (bk b2)) = KERNEL_DS;
  bo_devices : devices_up (bk b2) s3 sc;
  bo_ready : ready s3 s4;
  bo_fs : fs (bk b2) = f;
  bo_shell : bk b' = s' /\ started (with_args (cli s4) []) s' 0 content p esp ebp
}.

Lemma entry_steps b fuel more rest addr flags f content a p esp ebp :
  loaded (bk b) -> (exists cs, shows VIDEO 0 (bk b) cs) ->
  length (idt b) = 256%nat -> Forall (fun d => reserved4 d = 0) (idt b) ->
  info_ok (outside (ph (bk b))) fuel addr flags (fs (bk b)) f ->
  CHECK_FLAG flags 4 && CHECK_FLAG flags 5 = false ->
  shell_file (bk b) f content a p ->
  length rest = 13%nat -> field (fun i => more (7 + i)) rest -> (1000 <= fuel)%nat ->
  exists b' b2 s3 s4 s' sc, entry fuel more MULTIBOOT_BOOTLOADER_MAGIC addr esp ebp b =
      Ok (Stop (EnterUser a (_128MB + _4MB - 4)), b') /\
    boot_steps b b2 b' s3 s4 s' sc f content p esp ebp.
Proof.
  intros Hlo Hsh Hlen Hres Hinfo Hbits Hsf Hrl Hr Hfu. destruct (lo_linked _ Hlo) as (Hz1 & Hz2).
  destruct (boot_banner_spec fuel (bk b) addr flags f (lo_off _ Hlo) Hfu Hsh Hinfo) as (s1 & E1 & Hd1).
  unfold entry. rewrite E1, Hbits. rstep. cbn [negb]. cbv iota.
  pose proof (drawn_loaded _ _ Hd1 (loaded_fs _ f Hlo)) as Hlo1.
  pose proof (drawn_shell_file _ _ f content a p Hz1 Hd1 (set_fs_shell_file _ f f content a p Hsf)) as Hsf1.
  pose proof Hd1 as Hbanner.
  destruct Hd1 as [(sc & Hd1) Hf1]. assert (Hfs1 : fs s1 = f) by by rewrite (proj1 Hf1).
  set (b2 := init_segments (set_bk b s1)).
  assert (Hb2 : bk b2 = set_tss s1 (mkTss KERNEL_DS 0x800000 (tss_esp (tss s1)) (tss_ebp (tss s1)) KERNEL_LDT)) by done.
  assert (Hlo2 : loaded (bk b2)) by (rewrite Hb2; by apply loaded_tss).
  assert (Hsf2 : shell_file (bk b2) f content a p) by (rewrite Hb2; by apply set_tss_shell_file).
  assert (Hd2 : displays VIDEO (bk b2) sc).
  { rewrite Hb2. destruct Hd1 as [[] ? ? ? ?]. by constructor; [constructor|..]. }
  destruct (boot_devices_spec b2 sc Hlo2 Hd2 Hlen) as (b3 & t & E3 & Et & Hi & Hir & _ & _ & Htr & _ & Hdu).
  rewrite E3. rstep. destruct (du_pic _ _ _ Hdu) as (Hok & Hm1 & Hm2).
  destruct (boot_interrupts_spec fuel (bk b3) sc (du_displays _ _ _ Hdu) Hok) as (s4 & E4 & Hrd).
  { destruct (pic (bk b3)) as [m1 m2]. simpl in Hm1, Hm2. by subst. }
  { done. }
  rewrite E4. rstep.
  destruct (boot_shell_spec fuel more rest (bk b2) (bk b3) s4 sc f content a p esp ebp Hlo2 Hsf2 Hdu Hrd) as (s' & E5 & Hst); try done.
  rewrite E5. rstep. exists (set_bk b3 s'), b2, (bk b3), s4, s', sc. split; [done |].
  constructor; try done.
  - split_and!; [done | done |]. change (idt (set_bk b3 s')) with (idt b3). by rewrite Hi.
  - exists (tss s1). rewrite Hb2. replace (set_tss (set_tss s1 _) (tss s1)) with s1; [exact Hbanner | by destruct s1].
Qed.

(** C2. The kernel boots. From the state the boot loader leaves, with its magic
    number and any boot information that is well formed, and with an executable
    shell in the file system image that the first module holds, [entry] installs
    the interrupt table and the segments, starts the devices with exactly the lines
    1, 2 and 8 of the controllers enabled, turns paging on, clears the screen, and
    enters the shell's entry point as process 0 of terminal 0, with its image where
    it is linked. *)
Theorem entry_boots_shell b fuel more rest addr flags f content a p esp ebp :
  loaded (bk b) -> (exists cs, shows VIDEO 0 (bk b) cs) ->
  length (idt b) = 256%nat -> Forall (fun d => reserved4 d = 0) (idt b) ->
  info_ok (outside (ph (bk b))) fuel addr flags (fs (bk b)) f ->
  CHECK_FLAG flags 4 && CHECK_FLAG flags 5 = false ->
  shell_file (bk b) f content a p ->
  length rest = 13%nat -> field (fun i => more (7 + i)) rest -> (1000 <= fuel)%nat ->
  exists b', entry fuel more MULTIBOOT_BOOTLOADER_MAGIC addr esp ebp b =
      Ok (Stop (EnterUser a (_128MB + _4MB - 4)), b') /\
    booted b' f content esp ebp p.
Proof.
  intros Hlo Hsh Hlen Hres Hinfo Hbits Hsf Hrl Hr Hfu.
  destruct (entry_steps b fuel more rest addr flags f content a p esp ebp) as (b' & b2 & s3 & s4 & s' & sc & E & Hbo); try done.
  exists b'. split; [exact E |].
  destruct Hbo as [(Hl2 & Hr2 & Et) (Hidtr & Htr) _ (Hlo2 & Hss) Hdu Hrd Hfs (Eb & Hst)].
  by apply (booted_intro b' b2 (idt b') s3 s4 s' sc f content p).
Qed.
End BootFacts.

(** ** A machine that boots *)

Lemma mmap_ok_mono rd rd' last n a : rd_le rd rd' -> mmap_ok rd last n a -> mmap_ok rd' last n a.
Proof.
  intros Hle. induction 1 as [a Ha|n a sz Ha Hsz Hf _ IH]; [by constructor |].
  apply (mm_next _ _ _ _ sz); [done | by eapply rd32_mono | | done].
  intros k Hk. destruct (Hf k Hk) as (v & Hv). exists v. by eapply rd32_mono.
Qed.

Lemma info_ok_mono rd rd' fuel addr flags f0 f : rd_le rd rd' -> info_ok rd fuel addr flags f0 f -> info_ok rd' fuel addr flags f0 f.
Proof.
  intros Hle [Hfl Hw Hcmd Hmods Hmmap]. constructor.
  - by eapply rd32_mono.
  - intros k Hk. destruct (Hw k Hk) as (v & Hv). exists v. by eapply rd32_mono.
  - intros Hb. destruct (Hcmd Hb) as (c & str & Hc & Hs & Hl). exists c, str.
    split_and!; [by eapply rd32_mono | by eapply cstr_mono | done].
  - destruct (CHECK_FLAG flags 3); [|done]. destruct Hmods as (n & modp & start & H1 & H2 & H3 & H4 & H5 & H6 & H7).
    exists n, modp, start. split_and!; try done; try (by eapply rd32_mono); [by eapply set_filesys_meta_mono |].
    intros i Hi. destruct (H7 i Hi) as (st & en & Hs & He & Hb). exists st, en.
    split_and!; try (by eapply rd32_mono). intros j Hj. destruct (Hb j Hj) as (c & Hc). exists c. by apply Hle.
  - intros Hb. destruct (Hmmap Hb) as (maddr & mlen & n & H1 & H2 & H3 & H4). exists maddr, mlen, n.
    split_and!; [by eapply rd32_mono.. | done | by eapply mmap_ok_mono].
Qed.

#[local] Existing Instance demo_layout.
#[local] Instance demo_ports : Env := {| port_in _ _ := 0 |}.
#[local] Instance demo_linker : Linker := {| zeros_addr := 0x500000; zeros_range := ltac:(lia) |}.
#[local] Instance demo_symbols : Symbols := {|
  handler_addr _ := 0x401234; handler_range _ := ltac:(lia);
  tss_addr := 0x402000; tss_range := ltac:(lia); ldt_addr := 0x403000; ldt_range := ltac:(lia) |}.

(** A file system with one file, the shell; the boot information, with memory
    sizes, the command line [k] and the image as its module. *)
Definition demo_disk : mem :=
  place demo_base (le32 2 ++ le32 2 ++ le32 1 ++ le32 0) ∪
  place (demo_base + 64) (concat (map entry_bytes [demo_dentry [46] 1 0; demo_dentry (text "shell") 2 1])) ∪
  place (demo_base + 4096) (le32 0 ++ le32 0) ∪
  place (demo_base + 8192) (le32 28 ++ le32 0) ∪
  place (demo_base + 12288) demo_go.

Definition demo_info : mem :=
  place 0x500 (le32 0xD ++ le32 640 ++ le32 65536 ++ le32 0 ++ le32 0x540 ++ le32 1 ++ le32 0x550 ++
    le32 0 ++ le32 0 ++ le32 0 ++ le32 0 ++ le32 0 ++ le32 0) ∪
  place 0x540 [107; 0] ∪
  place 0x550 (le32 demo_base ++ le32 (demo_base + 16384) ++ le32 0 ++ le32 0).

Definition demo_disk_fs : filesys := mkFs 2 2 1 demo_base (demo_base + 64) (demo_base + 4096) (demo_base + 12288) 0.

Definition demo_ram : mem :=
  fill 4096 VIDEO 32 (fill (Z.to_nat 16384) 0x1000 7 (fill 4096 zeros_addr 7 (fill 28 (load_addr 0) 0 (demo_disk ∪ demo_info)))).

Lemma demo_ram_at a :
  demo_ram !! a = if (VIDEO <=? a) && (a <? VIDEO + 4096) then Some 32
    else if (0x1000 <=? a) && (a <? 0x5000) then Some 7
    else if (0x500000 <=? a) && (a <? 0x501000) then Some 7
    else if (load_addr 0 <=? a) && (a <? load_addr 0 + 28) then Some 0 else (demo_disk ∪ demo_info) !! a.
Proof. unfold demo_ram. by rewrite !lookup_fill. Qed.

(** Memory below 0x1000 and from 0x400000 to 0x500000 is as the loader filled it. *)
Definition untouched (a : Z) : bool := ((0 <=? a) && (a <? 0x1000)) || ((0x400000 <=? a) && (a <? 0x500000)).
Definition small_rd : reader := fun a =>
  if untouched a then match (demo_disk ∪ demo_info) !! a with Some b => Ok b | None => Undef end else Undef.

Lemma untouched_ram a : untouched a = true -> demo_ram !! a = (demo_disk ∪ demo_info) !! a.
Proof.
  unfold untouched. intros Ha. rewrite demo_ram_at. unfold VIDEO, load_addr, frame.
  replace ((0xB8000 <=? a) && _) with false by lia. replace ((0x1000 <=? a) && _) with false by lia.
  replace ((0x500000 <=? a) && _) with false by lia. by replace ((2 ^ 22 * (0 + 1 + 1) + 294912 <=? a) && _) with false by lia.
Qed.

Opaque demo_ram.

Lemma small_le_outside : rd_le small_rd (outside demo_ram).
Proof.
  intros a c. unfold small_rd. destruct (untouched a) eqn:Hu; [|done]. rewrite <- untouched_ram by done.
  unfold outside. unfold untouched in Hu. rewrite u32_id by lia. rewrite Z.eqb_refl.
  unfold VIDEO. replace ((0xB8000 <=? a) && (a <? 0xB8000 + 4000)) with false by lia. exact id.
Qed.

Lemma small_le_image : rd_le (fun a => if 0x400000 <=? a then small_rd a else Undef) (image_rd demo_ram).
Proof.
  intros a c. destruct (Z.leb_spec 0x400000 a); [|done]. unfold small_rd. destruct (untouched a) eqn:Hu; [|done].
  rewrite <- untouched_ram by done. unfold untouched in Hu. unfold image_rd, page_rd.
  change zeros_addr with 0x500000. replace ((0x500000 <=? a) && (a <? 0x500000 + 4096)) with false by lia.
  replace ((4194304 <=? a) && (a <? 8388608)) with true by lia. exact id.
Qed.

Definition demo_loader : boot_t :=
  mkBoot (set_pcbs (kboot demo_ram) {[ pcb_addr 0 := zero_pcb ]}) (replicate 256 (mkIdt 0 0 0 0 0 0 0 0 0 0 0))
    (mkSeg 0 0 0 0 0 0 0 0 0 0 0 0 0) (mkSeg 0 0 0 0 0 0 0 0 0 0 0 0 0) false 0 0 0.

Lemma demo_loaded : loaded (bk demo_loader).
Proof.
  assert (Hph : forall a, ph (bk demo_loader) !! a = demo_ram !! a) by done.
  constructor; try done.
  - split_and!; try done. simpl. repeat constructor.
  - intros i Hi. change (Z.of_nat 4096) with 4096 in Hi. exists 32. rewrite Hph, demo_ram_at.
    replace ((VIDEO <=? VIDEO + i) && _) with true by lia. by unfold byte_ok.
  - intros i Hi. change (Z.of_nat (4 * 4096)) with 16384 in Hi. exists 7. rewrite Hph, demo_ram_at. unfold VIDEO.
    replace ((0xB8000 <=? 0x1000 + i) && _) with false by lia. replace ((0x1000 <=? 0x1000 + i) && _) with true by lia. by unfold byte_ok.
  - intros i Hi. change (Z.of_nat 4096) with 4096 in Hi. exists 7. rewrite Hph, demo_ram_at. unfold VIDEO.
    change zeros_addr with 0x500000. replace ((0xB8000 <=? 0x500000 + i) && _) with false by lia.
    replace ((0x1000 <=? 0x500000 + i) && _) with false by lia. replace ((0x500000 <=? 0x500000 + i) && _) with true by lia.
    by unfold byte_ok.
  - intros t Ht. exists [0; 0]. split; [|done]. by assert (t = 0 \/ t = 1 \/ t = 2) as [->|[->| ->]] by lia.
  - split; [done |]. simpl. repeat constructor.
Qed.

Lemma demo_boot_info fuel : (1000 <= fuel)%nat -> info_ok (outside demo_ram) fuel 0x500 0xD (mkFs 0 0 0 0 0 0 0 0) demo_disk_fs.
Proof.
  intros Hfu. apply (info_ok_mono _ _ _ _ _ _ _ small_le_outside). constructor.
  - by vm_compute.
  - intros k Hk.
    assert (Hall : forallb (fun k => match rd32 small_rd (u32 (0x500 + k)) with Ok _ => true | _ => false end)
      [4; 8; 12; 28; 32; 36; 40] = true) by by vm_compute.
    rewrite forallb_forall in Hall. specialize (Hall k ltac:(by apply list_elem_of_In)).
    destruct (rd32 small_rd _) as [v| |] eqn:Ev; try done. by exists v.
  - intros _. exists 0x540, [107]. split_and!; [by vm_compute | | simpl; lia]. split; [|by vm_compute].
    intros [|n] c Hc; [|done]. injection Hc as <-. split_and!; [by vm_compute | lia | by unfold byte_ok].
  - change (CHECK_FLAG 0xD 3) with true. cbv iota. exists 1%nat, 0x550, demo_base.
    split_and!; [by vm_compute | lia | lia | by vm_compute | by vm_compute | by vm_compute |].
    intros i Hi. assert (i = 0) as -> by lia. exists demo_base, (demo_base + 16384).
    split_and!; [by vm_compute | by vm_compute |]. intros j Hj.
    assert (Hall : forallb (fun j => match small_rd (u32 (demo_base + j)) with Ok _ => true | _ => false end) (seqZ 0 16) = true) by by vm_compute.
    rewrite forallb_forall in Hall. specialize (Hall j ltac:(apply list_elem_of_In, elem_of_seqZ; lia)).
    destruct (small_rd _) as [c| |]; try done. by exists c.
  - done.
Qed.

Lemma demo_shell_file : shell_file (bk demo_loader) demo_disk_fs demo_go 0x8048018 zero_pcb.
Proof.
  assert (Hph : forall a, ph (bk demo_loader) !! a = demo_ram !! a) by done.
  constructor; try done.
  - change (ph (bk demo_loader)) with demo_ram.
    exists [demo_dentry [46] 1 0; demo_dentry (text "shell") 2 1], 1%nat, (demo_dentry (text "shell") 2 1). split_and!.
    + eapply dir_is_mono; [apply small_le_image |]. apply dir_isb_is. vm_compute. reflexivity.
    + by vm_compute.
    + eapply file_at_mono; [apply small_le_image |]. apply file_atb_at. vm_compute. reflexivity.
  - split; [vm_compute; repeat constructor; discriminate | by apply Z.leb_le].
  - intros i Hi. change (Z.of_nat (length demo_go)) with 28 in Hi. exists 0. rewrite Hph, demo_ram_at.
    change (load_addr 0) with 8683520. unfold VIDEO. split; [|by unfold byte_ok].
    replace ((0xB8000 <=? 8683520 + i) && _) with false by lia. replace ((0x1000 <=? 8683520 + i) && _) with false by lia.
    replace ((0x500000 <=? 8683520 + i) && _) with false by lia. by replace ((8683520 <=? 8683520 + i) && _) with true by lia.
Qed.

Lemma demo_text_page : exists cs, shows VIDEO 0 (bk demo_loader) cs.
Proof.
  exists (replicate 2000 0). constructor.
  - apply (maps_off (bk demo_loader)); [reflexivity | unfold VIDEO; lia | unfold VIDEO; lia |].
    intros i Hi. apply (lo_video _ demo_loaded). lia.
  - reflexivity.
  - reflexivity.
  - apply Forall_replicate. unfold byte_ok. lia.
  - intros i c Hi. lia.
Qed.

Lemma entry_boots_shell_witness :
  exists b', entry 1000 (fun _ => Ok 0) MULTIBOOT_BOOTLOADER_MAGIC 0x500 0x7ff000 0 demo_loader =
      Ok (Stop (EnterUser 0x8048018 (_128MB + _4MB - 4)), b') /\ booted b' demo_disk_fs demo_go 0x7ff000 0 zero_pcb.
Proof.
  destruct (entry_boots_shell demo_loader 1000 (fun _ => Ok 0) (replicate 13 0) 0x500 0xD demo_disk_fs demo_go 0x8048018 zero_pcb 0x7ff000 0)
    as (b' & E & Hb).
  - exact demo_loaded.
  - exact demo_text_page.
  - reflexivity.
  - apply Forall_replicate. reflexivity.
  - apply demo_boot_info. lia.
  - reflexivity.
  - exact demo_shell_file.
  - reflexivity.
  - intros n c Hc. apply lookup_replicate in Hc as [-> _]. split; [reflexivity | unfold byte_ok; lia].
  - lia.
  - exists b'. split; [exact E | exact Hb].
Defined.

Lemma idt_gates_witness :
  exists t, init_idt demo_loader = Ok (set_idt demo_loader t true) /\
    (exists h, gate_to t 14 h 0 /\ exception_code 100 h = Some (exception 100 "pretty boi")) /\ gate_to t 0x80 Sys_call 3.
Proof.
  destruct (idt_gates demo_loader 100) as (t & E & _ & Hex & _ & _ & _ & Hsys & _).
  - reflexivity.
  - apply Forall_replicate. reflexivity.
  - exists t. split; [exact E |]. split; [|exact Hsys]. apply (Hex 14 "pretty boi"%string).
    unfold exception_names. rewrite !elem_of_cons. by do 14 right; left.
Defined.
