(* ===== verification/User.v ===== *)
(** * The system call interface

    What a user program ([src/syscalls]) sees of the kernel: the calls of
    [ece391syscall.h], as operations of a class, and their contract in terms of
    an abstract view of the machine (the files, the descriptors, the screen of the
    terminal, the lines still to be typed). The programs are proved against this
    contract; [Userland.v] shows that the kernel keeps it. *)

From stdpp Require Import strings.
From S2P Require Import Prelude Strings Console Handlers.

Local Open Scope Z_scope.

(** ** Programs

    A program runs on a machine with states [St]. *)

Definition U (St A : Type) : Type := St -> res (A * St).

Definition uret {St A} (x : A) : U St A := fun s => Ok (x, s).
Definition ubind {St A B} (m : U St A) (f : A -> U St B) : U St B := fun s => '(x, s) ← m s; f x s.
(** Computation that does not enter the kernel. *)
Definition ulift {St A} (r : res A) : U St A := fun s => x ← r; Ok (x, s).

Declare Scope user_scope.
Delimit Scope user_scope with U.
Notation "'let*' x ':=' m 'in' k" := (ubind m (fun x => k))
  (at level 100, x strict pattern, m at level 90, k at level 200, right associativity) : user_scope.
Notation "'do*' m ';;' k" := (ubind m (fun _ : unit => k))
  (at level 100, m at level 90, k at level 200, right associativity) : user_scope.

(** The system calls. A buffer that a call fills is the list of its bytes, one
    that it reads is a reader; a pointer that the kernel stores to is a number. *)
Class Os (St : Type) := {
  ece391_execute : reader -> U St Z;
  ece391_read : Z -> list Z -> Z -> U St (Z * list Z);
  ece391_write : Z -> reader -> Z -> U St Z;
  ece391_open : reader -> U St Z;
  ece391_close : Z -> U St Z;
  ece391_getargs : list Z -> Z -> U St (Z * list Z);
  ece391_vidmap : Z -> U St Z;
  (* [int $0x80] with a number that is none of the above *)
  call_sys : Z -> U St Z
}.

(** ** Total correctness *)

(** The program returns, with a result and a state that satisfy [Q]. *)
Definition runs {St A} (m : U St A) (s : St) (Q : A -> St -> Prop) : Prop :=
  exists x s', m s = Ok (x, s') /\ Q x s'.

Section Runs.
Context {St : Type}.

Lemma runs_ret {A} (x : A) (s : St) Q : Q x s -> runs (uret x) s Q.
Proof. intros HQ. by exists x, s. Qed.

Lemma runs_bind {A B} (m : U St A) (f : A -> U St B) s Q :
  runs m s (fun x s' => runs (f x) s' Q) -> runs (ubind m f) s Q.
Proof. intros (x & s' & E & y & s2 & E2 & HQ). exists y, s2. unfold ubind. by rewrite E. Qed.

Lemma runs_lift {A} (r : res A) x (s : St) (Q : A -> St -> Prop) : r = Ok x -> Q x s -> runs (ulift r) s Q.
Proof. intros -> HQ. by exists x, s. Qed.

Lemma runs_mono {A} (m : U St A) s (P Q : A -> St -> Prop) :
  runs m s P -> (forall x s', P x s' -> Q x s') -> runs m s Q.
Proof. intros (x & s' & E & HP) Hi. exists x, s'. auto. Qed.

(** A step known to run, followed by the rest. *)
Lemma runs_step {A B} (m : U St A) (f : A -> U St B) s (P : A -> St -> Prop) Q :
  runs m s P -> (forall x s', P x s' -> runs (f x) s' Q) -> runs (ubind m f) s Q.
Proof. intros Hm Hf. apply runs_bind. by eapply runs_mono. Qed.

Lemma runs_lift_bind {A B} (r : res A) x (f : A -> U St B) s Q :
  r = Ok x -> runs (f x) s Q -> runs (ubind (ulift r) f) s Q.
Proof. intros E Hf. apply runs_bind. by eapply runs_lift. Qed.
End Runs.

(** ** The view of a program *)

(** What a directory entry stands for. *)
Inductive node : Type := NRtc | NDir | NFile (content : list Z).

(** What a descriptor is open on; a file has a position. *)
Inductive handle : Type := HTerm | HRtc | HDir | HFile (content : list Z) (pos : nat).

(** What happens outside while a program waits: someone types a line and presses
    Enter, or the clock ticks. *)
Inductive input : Type := Typed (l : list Z) | Tick.

Record view := mkView {
  ents : list (list Z * node);     (* the directory: names and what they stand for *)
  dirpos : nat;                    (* the directory is read with one position for all *)
  fds : list (option handle);      (* the eight descriptors of the program *)
  scr : screen;                    (* the screen of its terminal *)
  row : list Z;                    (* the line buffer of its terminal past its first byte, which output blanks *)
  arg : list Z;                    (* the argument of its command *)
  inputs : list input              (* what will happen *)
}.

Definition set_dirpos (v : view) x := mkView (ents v) x (fds v) (scr v) (row v) (arg v) (inputs v).
Definition set_fds (v : view) x := mkView (ents v) (dirpos v) x (scr v) (row v) (arg v) (inputs v).
Definition set_scr (v : view) x := mkView (ents v) (dirpos v) (fds v) x (row v) (arg v) (inputs v).
Definition set_row (v : view) x := mkView (ents v) (dirpos v) (fds v) (scr v) x (arg v) (inputs v).
Definition set_arg (v : view) x := mkView (ents v) (dirpos v) (fds v) (scr v) (row v) x (inputs v).
Definition set_inputs (v : view) x := mkView (ents v) (dirpos v) (fds v) (scr v) (row v) (arg v) x.

Definition handle_of (n : node) : handle :=
  match n with NRtc => HRtc | NDir => HDir | NFile c => HFile c 0 end.

Definition file_named (v : view) (name : list Z) : option node :=
  if 31 <? zlen name then None else
  (fun e => e.2.2) <$> list_find (fun e => e.1 = name) (ents v).

Definition free_fd (v : view) : option nat :=
  (fun e => (2 + e.1)%nat) <$> list_find (fun h => h = None) (drop 2 (fds v)).

Definition view_open (v : view) (name : list Z) : Z * view :=
  match free_fd v, file_named v name with
  | Some i, Some n => (Z.of_nat i, set_fds v (<[i := Some (handle_of n)]> (fds v)))
  | _, _ => (-1, v)
  end.

Definition view_close (v : view) (fd : Z) : Z * view :=
  if (fd <? 2) || (7 <? fd) then (-1, v) else
  match fds v !! Z.to_nat fd with
  | Some (Some _) => (0, set_fds v (<[Z.to_nat fd := None]> (fds v)))
  | _ => (-1, v)
  end.

(** A name as the directory is read: 32 bytes. *)
Definition pad32 (name : list Z) : list Z := name ++ replicate (32 - length name) 0.

(** A typed line: the line buffer takes 127 characters of it, over what it held,
    and the program gets everything up to the first NUL, whatever it asked for. *)
Definition typed (l : list Z) : list Z := take 127 (l ++ [10]).
Definition row_typed (v : view) (l : list Z) : list Z := typed l ++ drop (length (typed l) - 1) (row v).

(** A read. [None]: the contract says nothing (the buffer is too small, the line
    buffer has no NUL, or what the program waits for does not happen). *)
Definition view_read (v : view) (fd : Z) (my_buf : list Z) (n : Z) : option (Z * list Z * view) :=
  if (fd <? 0) || (7 <? fd) || (fd =? 1) then Some (-1, my_buf, v) else
  match fds v !! Z.to_nat fd with
  | Some None => Some (-1, my_buf, v)
  | Some (Some (HFile c pos)) =>
      let cs := take (Z.to_nat n) (drop pos c) in
      if (length my_buf <? length cs)%nat then None
      else Some (zlen cs, cs ++ drop (length cs) my_buf,
                 set_fds v (<[Z.to_nat fd := Some (HFile c (pos + length cs))]> (fds v)))
  | Some (Some HDir) =>
      if (length my_buf <? 32)%nat then None else
      match ents v !! dirpos v with
      | Some (name, _) => Some (32, pad32 name ++ drop 32 my_buf, set_dirpos v (S (dirpos v)))
      | None => Some (0, my_buf, set_dirpos v 0)
      end
  | Some (Some HRtc) =>
      match inputs v with Tick :: q => Some (0, my_buf, set_inputs v q) | _ => None end
  | Some (Some HTerm) =>
      match inputs v with
      | Typed l :: q =>
          let txt := upto_nul (row_typed v l) in
          if (n <? 0) || (1024 <? n) || (1024 <=? zlen txt) || (zlen my_buf <=? zlen txt) then None
          else Some (zlen (typed l), txt ++ 0 :: drop (S (length txt)) my_buf,
                     mkView (ents v) (dirpos v) (fds v) (type_string (scr v) (l ++ [10]))
                       (drop 1 (replicate (Z.to_nat n) 32 ++ drop (Z.to_nat n) (row_typed v l))) (arg v) q)
      | _ => None
      end
  | None => None
  end.

(** What a write of [n] bytes leaves on the screen: the kernel prints one byte
    more than it is asked to and then erases it, or does not. [src] is the
    [n + 1] bytes. *)
Definition put (sc : screen) (src : list Z) : screen :=
  if zlen src =? 1024 then type_string sc src else erase (type_string sc src).

(** A write; [src] is what the program's pointer is known to point to. *)
Definition view_write (v : view) (fd : Z) (src : list Z) (n : Z) : option (Z * view) :=
  if (fd <=? 0) || (7 <? fd) then Some (-1, v) else
  match fds v !! Z.to_nat fd with
  | Some None | Some (Some (HFile _ _)) => Some (-1, v)
  | Some (Some HDir) => Some (0, v)
  | Some (Some HRtc) => if (length src <? 4)%nat then None else Some (0, v)
  | Some (Some HTerm) => if zlen src =? n + 1 then Some (n, set_scr v (put (scr v) src)) else None
  | None => None
  end.

(** ** Well-formed views *)

Definition content_ok (c : list Z) : Prop := Forall byte_ok c /\ zlen c < 2 ^ 31.

Record view_ok (v : view) : Prop := {
  vo_fds : length (fds v) = 8%nat;
  vo_names : Forall (fun e => (length e.1 <= 32)%nat /\ nonnul e.1) (ents v);
  vo_files : forall name c, (name, NFile c) ∈ ents v -> content_ok c;
  vo_handles : forall i c pos, fds v !! i = Some (Some (HFile c pos)) -> content_ok c;
  vo_row : length (row v) = 1023%nat /\ Forall byte_ok (row v);
  vo_arg : nonnul (arg v)
}.

Lemma file_named_entry v name n : file_named v name = Some n -> (name, n) ∈ ents v /\ zlen name <= 31.
Proof.
  unfold file_named. destruct (Z.ltb_spec 31 (zlen name)); [done |].
  intros ([i [m n']] & (E & Hm & _)%list_find_Some & ->)%fmap_Some. simpl in *. subst m.
  split; [by eapply list_elem_of_lookup_2 | lia].
Qed.

Lemma free_fd_range v i :
  view_ok v -> free_fd v = Some i -> (2 <= i < 8)%nat /\ fds v !! i = Some None.
Proof.
  intros Hok. unfold free_fd. intros ([k h] & (E & -> & _)%list_find_Some & ->)%fmap_Some.
  rewrite lookup_drop in E. cbn [fst]. split; [|done]. apply lookup_lt_Some in E. rewrite (vo_fds v Hok) in E. lia.
Qed.

(** ** The contract *)

Class OsSpec (St : Type) `{Os St} := {
  sees : St -> view -> Prop;
  sees_ok s v : sees s v -> view_ok v;
  open_spec s v fname name :
    sees s v -> cstr fname name -> zlen name < 1024 ->
    runs (ece391_open fname) s (fun r s' => r = (view_open v name).1 /\ sees s' (view_open v name).2);
  close_spec s v fd :
    sees s v -> runs (ece391_close fd) s (fun r s' => r = (view_close v fd).1 /\ sees s' (view_close v fd).2);
  read_spec s v fd my_buf n r my_buf' v' :
    sees s v -> view_read v fd my_buf n = Some (r, my_buf', v') -> n < 2 ^ 31 ->
    runs (ece391_read fd my_buf n) s (fun x s' => x = (r, my_buf') /\ sees s' v');
  write_spec s v fd r src n x v' :
    sees s v -> field r src -> view_write v fd src n = Some (x, v') -> 0 <= n < 2 ^ 31 ->
    runs (ece391_write fd r n) s (fun y s' => y = x /\ sees s' v');
  (* the argument's first word; without an argument the call fails *)
  getargs_spec s v my_buf n :
    sees s v -> 32 <= n -> 32 <= zlen my_buf ->
    runs (ece391_getargs my_buf n) s (fun x s' => sees s' v /\
      if decide (arg v = []) then x = (-1, my_buf)
      else x.1 = 0 /\ cstr (aget x.2) (arg v) /\ length x.2 = length my_buf /\
        (Forall byte_ok my_buf -> Forall byte_ok x.2));
  (* the addresses that [err_vidmap] tries *)
  vidmap_spec s v addr :
    sees s v -> addr = 0 \/ addr = 0x400000 ->
    runs (ece391_vidmap addr) s (fun x s' => x = -1 /\ sees s' v);
  call_sys_spec s v num :
    sees s v -> - 2 ^ 31 < num < 2 ^ 31 -> num < 1 \/ 10 < num ->
    runs (call_sys num) s (fun x s' => x = -1 /\ sees s' v)
}.

Lemma typed_length l : (1 <= length (typed l) <= 127)%nat.
Proof. unfold typed. rewrite length_take, length_app. change (length [10%Z]) with 1%nat. lia. Qed.
