(* ===== verification/Reference.v ===== *)
(** * The reference machine

    The contract of the system calls ([User.v]) as a machine of its own: its state
    is a view, and a call does what the contract says. It keeps the contract
    ([view_spec]), so that what holds of a program on every machine that does can be
    tried on views. Programs other than the one that runs, video memory for
    programs, and calls with other numbers it does not have. *)

From stdpp Require Import strings.
From S2P Require Import Prelude Strings Console Handlers User.

Local Open Scope Z_scope.
Local Open Scope user_scope.

(** The first [n] bytes of a reader, and its bytes up to the NUL. *)
Fixpoint read_bytes (n : nat) (r : reader) (i : Z) : res (list Z) :=
  match n with O => Ok [] | S n => c ← r i; l ← read_bytes n r (i + 1); Ok (c :: l) end.

Fixpoint read_string (n : nat) (r : reader) (i : Z) : res (list Z) :=
  match n with
  | O => NoFuel
  | S n => c ← r i; if c =? 0 then Ok [] else l ← read_string n r (i + 1); Ok (c :: l)
  end.

(** How many bytes a write takes from its pointer. *)
Definition write_length (v : view) (fd n : Z) : nat :=
  if (fd <=? 0) || (7 <? fd) then 0%nat else
  match fds v !! Z.to_nat fd with Some (Some HTerm) => Z.to_nat (n + 1) | Some (Some HRtc) => 4 | _ => 0 end.

#[export] Instance view_os : Os view := {|
  ece391_execute r := uret (-1);
  ece391_read fd my_buf n := fun v => match view_read v fd my_buf n with Some (r, b, v') => Ok ((r, b), v') | None => Undef end;
  ece391_write fd r n := fun v =>
    src ← read_bytes (write_length v fd n) r 0;
    match view_write v fd src n with Some x => Ok x | None => Undef end;
  ece391_open r := fun v => name ← read_string 1024 r 0; Ok (view_open v name);
  ece391_close fd := fun v => Ok (view_close v fd);
  ece391_getargs my_buf n := fun v =>
    if decide (arg v = []) then Ok ((-1, my_buf), v)
    else Ok ((0, arg v ++ 0 :: drop (S (length (arg v))) my_buf), v);
  ece391_vidmap addr := uret (-1);
  call_sys num := uret (-1)
|}.

(** What can be typed. *)
Definition input_ok (i : input) : Prop := match i with Typed l => Forall byte_ok l | Tick => True end.

Record view_sees (s v : view) : Prop := {
  vs_same : s = v;
  vs_ok : view_ok v;
  vs_inputs : Forall input_ok (inputs v);
  vs_arg : (length (arg v) < 20)%nat
}.

Lemma read_bytes_field r src : field r src -> forall k, (k <= length src)%nat -> read_bytes k r 0 = Ok (take k src).
Proof.
  intros Hf. assert (Hgo : forall k i, (i + k <= length src)%nat -> read_bytes k r (Z.of_nat i) = Ok (take k (drop i src))).
  { induction k as [|k IH]; intros i Hi; cbn [read_bytes]; [done |].
    destruct (lookup_lt_is_Some_2 src i) as [c Hc]; [lia |]. rewrite (proj1 (Hf i c Hc)). rstep.
    replace (Z.of_nat i + 1) with (Z.of_nat (S i)) by lia. rewrite IH by lia. rstep. by rewrite (drop_S src c i Hc). }
  intros k Hk. apply (Hgo k 0%nat). lia.
Qed.

Lemma read_string_cstr r name n : cstr r name -> (length name < n)%nat -> read_string n r 0 = Ok name.
Proof.
  intros [Hc Hz]. assert (Hgo : forall n i, (i <= length name)%nat -> (length name - i < n)%nat ->
    read_string n r (Z.of_nat i) = Ok (drop i name)).
  { clear n. induction n as [|n IH]; intros i Hi Hn; [lia |]. cbn [read_string]. destruct (decide (i = length name)) as [->|Hne].
    - fold (zlen name). rewrite Hz. rstep. by rewrite drop_ge.
    - destruct (lookup_lt_is_Some_2 name i) as [c Hci]; [lia |]. destruct (Hc i c Hci) as (E & Hc0 & _). rewrite E. rstep.
      destruct (Z.eqb_spec c 0); [done |]. replace (Z.of_nat i + 1) with (Z.of_nat (S i)) by lia. rewrite IH by lia. rstep.
      by rewrite (drop_S name c i Hci). }
  intros Hn. apply (Hgo n 0%nat); lia.
Qed.

(** ** Views stay well formed *)

Lemma view_ok_fds v i h :
  view_ok v -> (forall c pos, h = Some (HFile c pos) -> content_ok c) -> view_ok (set_fds v (<[i := h]> (fds v))).
Proof.
  intros [Hl Hn Hf Hh Hr Ha] Hc. constructor; cbn; try done.
  - by rewrite length_insert.
  - intros j c pos Hj. destruct (decide (j = i)) as [->|]; [|rewrite list_lookup_insert_ne in Hj by done; by apply (Hh j c pos)].
    destruct (decide (i < length (fds v))%nat) as [Hlt|Hge].
    + rewrite list_lookup_insert_eq in Hj by done. injection Hj as ->. by apply (Hc c pos).
    + rewrite list_insert_ge in Hj by lia. by apply (Hh i c pos).
Qed.

Lemma view_open_ok v name : view_ok v -> view_ok (view_open v name).2.
Proof.
  intros Hok. unfold view_open. destruct (free_fd v) as [i|]; [|done]. destruct (file_named v name) as [n|] eqn:En; [|done].
  apply view_ok_fds; [done |]. intros c pos E. destruct n as [| |c']; try done. injection E as <- _.
  apply (vo_files v Hok name). by apply (file_named_entry v name).
Qed.

Lemma view_close_ok v fd : view_ok v -> view_ok (view_close v fd).2.
Proof.
  intros Hok. unfold view_close. destruct (_ || _); [done |]. destruct (fds v !! Z.to_nat fd) as [[h|]|]; try done. by apply view_ok_fds.
Qed.

Lemma view_read_ok v fd my_buf n r my_buf' v' :
  view_ok v -> Forall input_ok (inputs v) -> view_read v fd my_buf n = Some (r, my_buf', v') ->
  view_ok v' /\ Forall input_ok (inputs v') /\ arg v' = arg v.
Proof.
  intros Hok Hin. unfold view_read. destruct (_ || _); [by intros [= _ _ <-] |].
  destruct (fds v !! Z.to_nat fd) as [[[| | |c pos]|]|] eqn:Eh; [| | | |by intros [= _ _ <-] | done].
  - destruct (inputs v) as [|[l|] q] eqn:Ei; try done. apply Forall_cons in Hin as [Hl Hq]. destruct (_ || _) eqn:Eg; [done |].
    intros [= _ _ <-]. split_and!; [|done | done]. destruct Hok as [Hf Hn Hfi Hh (Hr & Hb) Ha].
    pose proof (typed_length l) as Ht. assert (Hrl : length (row_typed v l) = 1024%nat).
    { unfold row_typed. rewrite length_app, length_drop. lia. }
    constructor; cbn; try done. split.
    + rewrite length_drop, length_app, length_replicate, length_drop, Hrl. clear -Eg. lia.
    + apply Forall_drop, Forall_app. split; [apply Forall_replicate; by unfold byte_ok |]. apply Forall_drop. unfold row_typed.
      apply Forall_app. split; [|by apply Forall_drop]. apply Forall_take, Forall_app. split; [done |]. by repeat constructor.
  - destruct (inputs v) as [|[l|] q] eqn:Ei; try done. apply Forall_cons in Hin as [_ Hq]. intros [= _ _ <-]. by destruct Hok.
  - destruct (_ <? _)%nat; [done |]. destruct (ents v !! dirpos v) as [[name nd]|]; intros [= _ _ <-]; by destruct Hok.
  - destruct (_ <? _)%nat; [done |]. intros [= _ _ <-]. split_and!; [|done | done]. apply view_ok_fds; [done |].
    intros c' pos' [= <- _]. by apply (vo_handles v Hok (Z.to_nat fd) c pos).
Qed.

Lemma view_write_ok v fd src n x v' :
  view_ok v -> view_write v fd src n = Some (x, v') -> view_ok v' /\ inputs v' = inputs v /\ arg v' = arg v.
Proof.
  intros Hok. unfold view_write. destruct (_ || _); [by intros [= _ <-] |].
  destruct (fds v !! Z.to_nat fd) as [[[| | |c pos]|]|]; try done; try (by intros [= _ <-]).
  - destruct (_ =? _); [|done]. intros [= _ <-]. by destruct Hok.
  - destruct (_ <? _)%nat; [done |]. by intros [= _ <-].
Qed.

(** ** The machine keeps the contract *)

#[export] Program Instance view_spec : OsSpec view := {| sees := view_sees |}.
Next Obligation. by intros s v []. Qed.
Next Obligation.
  intros s v fname name [-> Hok Hin Ha] Hc Hl. exists (view_open v name).1, (view_open v name).2. cbn [ece391_open view_os].
  rewrite (read_string_cstr _ name) by (done || unfold zlen in Hl; lia). rstep. split; [by destruct (view_open v name) |]. split; [done |].
  constructor; [done | by apply view_open_ok | |]; unfold view_open; by destruct (free_fd v), (file_named v name).
Qed.
Next Obligation.
  intros s v fd [-> Hok Hin Ha]. exists (view_close v fd).1, (view_close v fd).2. cbn [ece391_close view_os].
  split; [by destruct (view_close v fd) |]. split; [done |].
  constructor; [done | by apply view_close_ok | |]; unfold view_close; destruct (_ || _); try done;
    by destruct (fds v !! Z.to_nat fd) as [[h|]|].
Qed.
Next Obligation.
  intros s v fd my_buf n r my_buf' v' [-> Hok Hin Ha] Hr _. eexists _, _. cbn [ece391_open ece391_close ece391_read ece391_write view_os]. rewrite Hr. split; [reflexivity |]. split; [done |].
  destruct (view_read_ok v fd my_buf n r my_buf' v' Hok Hin Hr) as (? & ? & E). constructor; try done. by rewrite E.
Qed.
Next Obligation.
  intros s v fd r src n x v' [-> Hok Hin Ha] Hf Hw Hn.
  assert (Hgo : exists src', read_bytes (write_length v fd n) r 0 = Ok src' /\ view_write v fd src' n = Some (x, v')).
  { unfold view_write, write_length in *. destruct ((fd <=? 0) || (7 <? fd)) eqn:Eg.
    - by exists [].
    - destruct (fds v !! Z.to_nat fd) as [[[| | |c pos]|]|] eqn:Eh; try done; try (by exists []).
      + destruct (Z.eqb_spec (zlen src) (n + 1)) as [El|]; [|done]. exists src. split; [|by rewrite El, Z.eqb_refl].
        rewrite (read_bytes_field r src Hf) by (unfold zlen in El; lia). rewrite take_ge by (unfold zlen in El; lia). done.
      + destruct (Nat.ltb_spec (length src) 4); [done |]. exists (take 4 src).
        rewrite (read_bytes_field r src Hf) by lia. split; [done |]. rewrite length_take. by destruct (Nat.ltb_spec (4 `min` length src) 4); [lia |]. }
  destruct Hgo as (src' & Es & Hw'). eexists _, _. cbn [ece391_open ece391_close ece391_read ece391_write view_os]. rewrite Es. rstep. rewrite Hw'. split; [reflexivity |]. split; [done |].
  destruct (view_write_ok v fd src' n x v' Hok Hw') as (? & E1 & E2). constructor; try done; [by rewrite E1 | by rewrite E2].
Qed.
Next Obligation.
  intros s v my_buf n [-> Hok Hin Ha] Hn Hb. unfold runs. cbn [ece391_getargs view_os]. destruct (decide (arg v = [])) as [E|E].
  - by eexists _, _.
  - eexists _, _. split; [reflexivity |]. split; [done |]. cbn [fst snd].
    assert (Hl : (S (length (arg v)) <= length my_buf)%nat) by (unfold zlen in Hb; lia).
    split; [done |]. split; [apply cstr_array, (vo_arg v Hok) |]. split.
    + rewrite length_app. cbn [length]. rewrite length_drop. lia.
    + intros Hbb. apply Forall_app. split; [|constructor; [by unfold byte_ok | by apply Forall_drop]].
      eapply Forall_impl; [apply (vo_arg v Hok) |]. by intros c [].
Qed.
Next Obligation. intros s v addr Hs _. by eexists _, _. Qed.
Next Obligation. intros s v num Hs _ _. by eexists _, _. Qed.
