(* ===== verification/Userlib.v ===== *)
(** * The support library of the user programs

    [src/syscalls/ece391support.c] (of which [src/fish/ece391support.c] is the
    first half). Characters are unsigned here ([uint8_t]). A destination that
    overlaps the source is one array: the source of [ece391_strcpy] is a function
    of what the destination holds at the moment. *)

From stdpp Require Import strings.
From S2P Require Import Prelude Strings Console Handlers User.

Local Open Scope Z_scope.
Local Open Scope user_scope.

(** A string literal. *)
Definition lit (m : string) : reader := aget (text m ++ [0]).

(** ** The code *)

(** [for (len = 0; '\0' != *s; s++, len++);] *)
Fixpoint ece391_strlen_loop (fuel : nat) (s : reader) (len : Z) : res Z :=
  match fuel with
  | O => NoFuel
  | S fuel => c ← s len; if negb (0 =? c) then ece391_strlen_loop fuel s (u32 (len + 1)) else Ok len
  end.

Definition ece391_strlen (fuel : nat) (s : reader) : res Z := ece391_strlen_loop fuel s 0.

(** [while ('\0' != ( *dst++ = *src++));] with [i] bytes done. *)
Fixpoint ece391_strcpy_loop (fuel : nat) (src : list Z -> reader) (dst : list Z) (i : Z) : res (list Z) :=
  match fuel with
  | O => NoFuel
  | S fuel =>
      c ← src dst i;
      dst ← aset dst i c;
      if negb (0 =? c) then ece391_strcpy_loop fuel src dst (i + 1) else Ok dst
  end.

Definition ece391_strcpy (fuel : nat) (dst : list Z) (src : list Z -> reader) : res (list Z) :=
  ece391_strcpy_loop fuel src dst 0.

Fixpoint ece391_strcmp_loop (fuel : nat) (s1 s2 : reader) (i : Z) : res Z :=
  match fuel with
  | O => NoFuel
  | S fuel =>
      c1 ← s1 i;
      c2 ← s2 i;
      if c1 =? c2 then if c1 =? 0 then Ok 0 else ece391_strcmp_loop fuel s1 s2 (i + 1)
      else Ok (c1 - c2)
  end.

Definition ece391_strcmp (fuel : nat) (s1 s2 : reader) : res Z := ece391_strcmp_loop fuel s1 s2 0.

(** The loop of [ece391_strncmp], [n] counting down. *)
Fixpoint ece391_strncmp_loop (n : nat) (s1 s2 : reader) (i : Z) : res Z :=
  c1 ← s1 i;
  c2 ← s2 i;
  if c1 =? c2 then
    if c1 =? 0 then Ok 0 else
    match n with S (S _ as n) => ece391_strncmp_loop n s1 s2 (i + 1) | _ => Ok 0 end
  else Ok (c1 - c2).

Definition ece391_strncmp (s1 s2 : reader) (n : Z) : res Z :=
  if 0 =? n then Ok 0 else ece391_strncmp_loop (Z.to_nat n) s1 s2 0.

Fixpoint ece391_strrev_loop (fuel : nat) (s : list Z) (beg end_ : Z) : res (list Z) :=
  match fuel with
  | O => NoFuel
  | S fuel =>
      if beg <? end_ then
        tmp ← aget s end_;
        x ← aget s beg;
        s ← aset s end_ x;
        s ← aset s beg tmp;
        ece391_strrev_loop fuel s (beg + 1) (end_ - 1)
      else Ok s
  end.

Definition ece391_strrev (s : list Z) : res (list Z) :=
  n ← ece391_strlen (S (length s)) (aget s);
  let end_ := s32 (n - 1) in
  if end_ <=? 0 then Ok s else ece391_strrev_loop (S (length s)) s 0 end_.

(** The digits, least significant first; every round writes one more byte. *)
Fixpoint ece391_itoa_loop (fuel : nat) (newval : Z) (buf : list Z) (newbuf radix : Z) : res (list Z * Z) :=
  match fuel with
  | O => NoFuel
  | S fuel =>
      if 0 <? newval then
        if u32 radix =? 0 then Undef else
        d ← aget lookup_digits (s32 (newval mod u32 radix));
        buf ← aset buf newbuf d;
        ece391_itoa_loop fuel (newval / u32 radix) buf (newbuf + 1) radix
      else Ok (buf, newbuf)
  end.

Definition ece391_itoa (value : Z) (buf : list Z) (radix : Z) : res (list Z) :=
  if value =? 0 then buf ← aset buf 0 48; aset buf 1 0
  else
    '(buf, newbuf) ← ece391_itoa_loop (S (length buf)) value buf 0 radix;
    buf ← aset buf newbuf 0;
    ece391_strrev buf.

Definition ece391_fdputs `{Os St} (fuel : nat) (fd : Z) (s : reader) : U St unit :=
  let* n := ulift (ece391_strlen fuel s) in
  let* _ := ece391_write fd s (s32 n) in
  uret tt.

(** ** What the routines do *)

Lemma ece391_strlen_eq fuel s : ece391_strlen fuel s = strlen fuel s.
Proof.
  unfold ece391_strlen, strlen. generalize 0 as len. induction fuel as [|fuel IH]; intros len; [done |].
  cbn [ece391_strlen_loop strlen_loop]. destruct (s len) as [c| |]; rstep; [|done..]. rewrite (Z.eqb_sym 0 c). destruct (c =? 0); simpl; [done | apply IH].
Qed.

Lemma ece391_strlen_spec r s fuel :
  cstr r s -> zlen s < 2 ^ 32 -> (length s < fuel)%nat -> ece391_strlen fuel r = Ok (zlen s).
Proof. intros. rewrite ece391_strlen_eq. by apply strlen_spec. Qed.

(** Whether a text is a C string, by evaluation. *)
Definition nonnulb (l : list Z) : bool := forallb (fun c => (0 <? c) && (c <? 256)) l.

Lemma nonnulb_ok l : nonnulb l = true -> nonnul l.
Proof.
  intros E. apply Forall_forall. intros c Hc. apply list_elem_of_In in Hc.
  apply (proj1 (forallb_forall _ l) E) in Hc. unfold byte_ok. lia.
Qed.

Lemma cstr_lit m : nonnul (text m) -> cstr (lit m) (text m).
Proof. intros. unfold lit. by apply (cstr_array _ []). Qed.

(** The bytes of a C string with its NUL. *)
Lemma cstr_field r s : cstr r s -> field r (s ++ [0]).
Proof.
  intros [Hs H0] n c Hc. destruct (decide (n < length s)%nat) as [Hn|Hn].
  - rewrite lookup_app_l in Hc by lia. destruct (Hs n c Hc) as (? & _ & ?). done.
  - pose proof (lookup_lt_Some _ _ _ Hc) as Hl. rewrite length_app in Hl. simpl in Hl.
    assert (n = length s) as -> by lia. rewrite lookup_app_r, Nat.sub_diag in Hc by lia.
    injection Hc as <-. split; [exact H0 | unfold byte_ok; lia].
Qed.

Lemma ece391_strcmp_loop_spec fuel r1 r2 a b i :
  cstr (roff r1 i) a -> cstr (roff r2 i) b -> (length a < fuel)%nat ->
  exists c, ece391_strcmp_loop fuel r1 r2 i = Ok c /\ (c = 0 <-> a = b).
Proof.
  revert a b i. induction fuel as [|fuel IH]; intros a b i Ha Hb Hf; [lia |]. simpl.
  destruct a as [|x a], b as [|y b].
  - rewrite (roff_nil_cstr _ _ Ha). rstep. rewrite (roff_nil_cstr _ _ Hb). rstep. by exists 0.
  - rewrite (roff_nil_cstr _ _ Ha). rstep. destruct (roff_succ_cstr _ _ _ _ Hb) as (-> & Hy & _). rstep.
    destruct (Z.eqb_spec 0 y); [lia |]. eexists. split; [done |]. split; [lia | done].
  - destruct (roff_succ_cstr _ _ _ _ Ha) as (-> & Hx & _). rstep. rewrite (roff_nil_cstr _ _ Hb). rstep.
    destruct (Z.eqb_spec x 0); [lia |]. eexists. split; [done |]. split; [lia | done].
  - destruct (roff_succ_cstr _ _ _ _ Ha) as (-> & Hx & Hxb & Ha'). rstep.
    destruct (roff_succ_cstr _ _ _ _ Hb) as (-> & Hy & Hyb & Hb'). rstep.
    destruct (Z.eqb_spec x y) as [->|].
    + destruct (Z.eqb_spec y 0); [lia |]. simpl in Hf.
      destruct (IH a b (i + 1) Ha' Hb' ltac:(lia)) as (c & -> & Hc). exists c. split; [done |].
      rewrite Hc. split; [by intros -> | by intros [= ->]].
    + eexists. split; [done |]. split; [lia | by intros [= ->]].
Qed.

(** [ece391_strcmp] is zero exactly on equal strings. *)
Lemma ece391_strcmp_spec fuel r1 r2 a b :
  cstr r1 a -> cstr r2 b -> (length a < fuel)%nat ->
  exists c, ece391_strcmp fuel r1 r2 = Ok c /\ (c = 0 <-> a = b).
Proof. intros Ha Hb. by apply ece391_strcmp_loop_spec; apply cstr_roff0. Qed.

Lemma ece391_strncmp_loop_spec n r1 r2 a s i :
  cstr (roff r1 i) a -> cstr (roff r2 i) s -> length s = S n ->
  exists c, ece391_strncmp_loop (S n) r1 r2 i = Ok c /\ (c = 0 <-> s `prefix_of` a).
Proof.
  revert a s i. induction n as [|n IH]; intros a s i Ha Hs Hn;
    (destruct s as [|y s]; [done |]); destruct (roff_succ_cstr _ _ _ _ Hs) as (E2 & Hy & Hyb & Hs');
    cbn [ece391_strncmp_loop]; (destruct a as [|x a];
      [rewrite (roff_nil_cstr _ _ Ha); rstep; rewrite E2; rstep; destruct (Z.eqb_spec 0 y); [lia |];
       eexists; split; [done |]; split; [lia | by intros ?%prefix_nil_inv] |]);
    destruct (roff_succ_cstr _ _ _ _ Ha) as (-> & Hx & Hxb & Ha'); rstep; rewrite E2; rstep;
    (destruct (Z.eqb_spec x y) as [->|Hne];
      [| eexists; split; [done |]; split; [lia | by intros ?%prefix_cons_inv_1]]);
    (destruct (Z.eqb_spec y 0); [lia |]).
  - destruct s; [|done]. exists 0. split; [done |]. split; [|done]. intros _. apply prefix_cons, prefix_nil.
  - destruct (IH a s (i + 1) Ha' Hs' ltac:(simpl in Hn; lia)) as (c & E & Hc). exists c.
    split; [exact E |]. rewrite Hc. split; [by apply prefix_cons | by apply prefix_cons_inv_2].
Qed.

(** [ece391_strncmp] with the length of the second string: is it a prefix? *)
Lemma ece391_strncmp_prefix r1 r2 a s :
  cstr r1 a -> cstr r2 s -> s <> [] ->
  exists c, ece391_strncmp r1 r2 (zlen s) = Ok c /\ (c = 0 <-> s `prefix_of` a).
Proof.
  intros Ha Hs Hne. unfold ece391_strncmp. destruct s as [|y s]; [done |].
  destruct (Z.eqb_spec 0 (zlen (y :: s))) as [E|_]; [rewrite zlen_cons in E; pose proof (zlen_nonneg s); lia |].
  unfold zlen. rewrite Nat2Z.id. cbn [length]. by apply ece391_strncmp_loop_spec; [apply cstr_roff0.. |].
Qed.

(** [ece391_strcpy] within one array, from index [ls] down to its start. *)
Lemma ece391_strcpy_down_loop ls s : forall arr i fuel,
  nonnul s -> (forall j c, (s ++ [0]) !! j = Some c -> arr !! (ls + i + j)%nat = Some c) ->
  (length s < fuel)%nat ->
  ece391_strcpy_loop fuel (fun d => roff (aget d) (Z.of_nat ls)) arr (Z.of_nat i) =
  Ok (take i arr ++ s ++ 0 :: drop (i + S (length s)) arr).
Proof.
  induction s as [|x s IH]; intros arr i fuel Hs Harr Hf; (destruct fuel as [|fuel]; [simpl in Hf; lia |]);
    cbn [ece391_strcpy_loop];
    change (roff (aget arr) (Z.of_nat ls) (Z.of_nat i)) with (aget arr (Z.of_nat ls + Z.of_nat i)).
  - pose proof (Harr 0%nat 0 eq_refl) as H0. rewrite Nat.add_0_r in H0.
    rewrite <- Nat2Z.inj_add, (aget_nat _ _ _ H0). rstep. apply lookup_lt_Some in H0.
    rewrite aset_in by (unfold zlen; lia). rstep. rewrite Nat2Z.id, insert_take_drop by lia.
    simpl. by rewrite Nat.add_1_r.
  - pose proof (Harr 0%nat x eq_refl) as H0. rewrite Nat.add_0_r in H0.
    rewrite <- Nat2Z.inj_add, (aget_nat _ _ _ H0). rstep. apply lookup_lt_Some in H0.
    rewrite aset_in by (unfold zlen; lia). rstep. rewrite Nat2Z.id.
    apply Forall_cons in Hs as [[Hx _] Hs]. destruct (Z.eqb_spec 0 x); [lia |]. cbn [negb].
    replace (Z.of_nat i + 1) with (Z.of_nat (S i)) by lia. rewrite IH; [| done | | simpl in Hf; lia].
    + rewrite drop_insert_lt by lia. rewrite (take_S_r _ i x) by (apply list_lookup_insert_eq; lia).
      rewrite take_insert_ge by lia. rewrite <- app_assoc. simpl. by rewrite <- Nat.add_succ_r.
    + intros j c Hj. rewrite list_lookup_insert_ne by lia.
      replace (ls + S i + j)%nat with (ls + i + S j)%nat by lia. by apply Harr.
Qed.

Lemma ece391_strcpy_down fuel data ls s rest :
  nonnul s -> drop ls data = s ++ 0 :: rest -> (length s < fuel)%nat ->
  ece391_strcpy fuel data (fun d => roff (aget d) (Z.of_nat ls)) = Ok (s ++ 0 :: drop (S (length s)) data).
Proof.
  intros Hs Hd Hf. unfold ece391_strcpy. change 0 with (Z.of_nat 0) at 1.
  rewrite (ece391_strcpy_down_loop ls s data 0 fuel Hs); [done | | done].
  intros j c Hj. rewrite Nat.add_0_r, <- lookup_drop, Hd.
  change (0 :: rest) with ([0] ++ rest). rewrite app_assoc. by apply lookup_app_l_Some.
Qed.

Lemma ece391_strrev_eq s : ece391_strrev s = strrev s.
Proof.
  unfold ece391_strrev, strrev. rewrite ece391_strlen_eq. destruct (strlen _ _) as [n| |]; rstep; [|done..].
  destruct (Z.leb_spec (s32 (n - 1)) 0); [|reflexivity].
  cbn [strrev_loop]. by destruct (Z.ltb_spec 0 (s32 (n - 1))); [lia |].
Qed.

(** The library's [itoa] is the kernel's. *)
Lemma ece391_itoa_eq v buf r : ece391_itoa v buf r = itoa v buf r.
Proof.
  unfold ece391_itoa, itoa. destruct (v =? 0); [done |].
  change ece391_itoa_loop with itoa_loop. destruct (itoa_loop _ _ _ _ _) as [[b i]| |]; rstep; [|done..].
  destruct (aset b i 0); rstep; [apply ece391_strrev_eq | done..].
Qed.

(** ** Writing a string *)

Section Fdputs.
Context `{Os St} `{!OsSpec St}.

(** To standard output, when that is the terminal: the screen gets the string,
    and the NUL after it as the byte too many. *)
Lemma fdputs_runs fuel s v r str Q :
  sees s v -> fds v !! 1%nat = Some (Some HTerm) -> cstr r str -> zlen str < 2 ^ 31 -> (length str < fuel)%nat ->
  (forall s', sees s' (set_scr v (put (scr v) (str ++ [0]))) -> Q tt s') ->
  runs (ece391_fdputs fuel 1 r) s Q.
Proof.
  intros Hv Hfd Hstr Hlen Hfuel HQ. unfold ece391_fdputs. pose proof (zlen_nonneg str).
  eapply runs_lift_bind; [by apply ece391_strlen_spec; [done | lia | done] |].
  eapply runs_step.
  - apply (write_spec s v 1 r (str ++ [0]) (s32 (zlen str)) (zlen str) (set_scr v (put (scr v) (str ++ [0]))) Hv (cstr_field r str Hstr)).
    + unfold view_write. change (Z.to_nat 1) with 1%nat. rewrite Hfd. simpl. rewrite s32_id by lia.
      rewrite zlen_app. change (zlen [0]) with 1. by rewrite Z.eqb_refl.
    + rewrite s32_id; lia.
  - intros x s' [_ Hs']. apply runs_ret. by apply HQ.
Qed.
End Fdputs.
