(* ===== verification/Programs.v ===== *)
(** * User programs

    The programs of [src/syscalls] that read files and directories, greet, count
    and run commands: [ece391cat.c], [ece391ls.c], [ece391grep.c],
    [ece391hello.c], [ece391counter.c], [ece391shell.c], [ece391pingpong.c] and
    [ece391testprint.c]. An array on the stack holds, when [main] starts, whatever
    its argument says; [above] is what the stack holds past the array, since the
    kernel reads one byte more than a program writes. [fuel] bounds the loops. *)

From stdpp Require Import strings.
From S2P Require Import Prelude Strings Console Handlers User Userlib.

Local Open Scope Z_scope.
Local Open Scope user_scope.

(** An array and what follows it. *)
Definition stack (buf : list Z) (above : reader) : reader := fun i =>
  if i <? zlen buf then aget buf i else above (i - zlen buf).

Definition nl : list Z := [10].
(** A literal that ends in [\n]. *)
Definition litn (m : string) : reader := aget (text m ++ nl ++ [0]).

Definition BUFSIZE : Z := 1024.
Definition SBUFSIZE : Z := 33.

Section Code.
Context `{Os St} (fuel : nat) (above : reader).

Definition ufuel {A} : U St A := fun _ => NoFuel.
Definition uputs (r : reader) : U St unit := ece391_fdputs fuel 1 r.

(** ** cat *)

Fixpoint cat_loop (n : nat) (fd : Z) (buf : list Z) : U St Z :=
  match n with
  | O => ufuel
  | S n =>
      let* (cnt, buf) := ece391_read fd buf 1024 in
      if cnt =? 0 then uret 0 else
      if -1 =? cnt then do* uputs (litn "file read failed") ;; uret 3 else
      let* r := ece391_write 1 (stack buf above) cnt in
      if -1 =? r then uret 3 else cat_loop n fd buf
  end.

Definition cat_main (buf : list Z) : U St Z :=
  let* (r, buf) := ece391_getargs buf 1024 in
  if negb (0 =? r) then do* uputs (litn "could not read arguments") ;; uret 3 else
  let* fd := ece391_open (aget buf) in
  if -1 =? fd then do* uputs (litn "file not found") ;; uret 2 else
  cat_loop fuel fd buf.

(** ** ls *)

Fixpoint ls_loop (n : nat) (fd : Z) (buf : list Z) : U St Z :=
  match n with
  | O => ufuel
  | S n =>
      let* (cnt, buf) := ece391_read fd buf (SBUFSIZE - 1) in
      if cnt =? 0 then uret 0 else
      if -1 =? cnt then do* uputs (litn "directory entry read failed") ;; uret 3 else
      let* buf := ulift (aset buf cnt 10) in
      let* r := ece391_write 1 (stack buf above) (cnt + 1) in
      if -1 =? r then uret 3 else ls_loop n fd buf
  end.

Definition ls_main (buf : list Z) : U St Z :=
  let* fd := ece391_open (lit ".") in
  if -1 =? fd then do* uputs (litn "directory open failed") ;; uret 2 else
  ls_loop fuel fd buf.

(** ** grep *)

(** [while (line_end < last && '\n' != data[line_end]) line_end++;] *)
Fixpoint find_line_end (n : nat) (data : list Z) (last line_end : Z) : res Z :=
  match n with
  | O => NoFuel
  | S n =>
      if line_end <? last then
        c ← aget data line_end;
        if negb (10 =? c) then find_line_end n data last (line_end + 1) else Ok line_end
      else Ok line_end
  end.

(** The loop over [check]: does the line have a match? [s] is a [char*]. *)
Fixpoint search_line (n : nat) (data : list Z) (s : reader) (s_len check line_end : Z) : res bool :=
  match n with
  | O => NoFuel
  | S n =>
      if check <? line_end then
        c0 ← s 0;
        d ← aget data check;
        if s8 c0 =? d then
          r ← ece391_strncmp (roff (aget data) check) s s_len;
          if 0 =? r then Ok true else search_line n data s s_len (check + 1) line_end
        else search_line n data s s_len (check + 1) line_end
      else Ok false
  end.

(** The search of one line, with what is printed when it matches. *)
Definition grep_line (s fname : reader) (s_len : Z) (data : list Z) (line_start line_end : Z) : U St unit :=
  let* found := ulift (search_line fuel data s s_len line_start line_end) in
  if (found : bool) then
    do* uputs fname ;;
    do* uputs (lit ":") ;;
    do* uputs (roff (aget data) line_start) ;;
    uputs (aget (nl ++ [0]))
  else uret tt.

(** The inner [while (1)]; the result is the new [data] and [last]. *)
Fixpoint grep_lines (n : nat) (s fname : reader) (s_len cnt : Z) (data : list Z) (last line_start : Z)
  : U St (list Z * Z) :=
  match n with
  | O => ufuel
  | S n =>
      let* line_end := ulift (find_line_end fuel data last line_start) in
      let* c := ulift (aget data line_end) in
      let* data0 := ulift (aset data line_end 0) in
      if negb (10 =? c) && negb (0 =? cnt) && negb (line_start =? 0) then
        let* data := ulift (ece391_strcpy fuel data0 (fun d => roff (aget d) line_start)) in
        uret (data, last - line_start)
      else
        let data := data0 in
        do* grep_line s fname s_len data line_start line_end ;;
        let line_start := line_end + 1 in
        if last <=? line_start then uret (data, 0)
        else grep_lines n s fname s_len cnt data last line_start
  end.

(** The outer [while (1)]; the result says whether a read failed. *)
Fixpoint grep_read (n : nat) (s fname : reader) (s_len fd : Z) (data : list Z) (last : Z) : U St bool :=
  match n with
  | O => ufuel
  | S n =>
      let* (cnt, tl) := ece391_read fd (drop (Z.to_nat last) data) (BUFSIZE - last) in
      let data := take (Z.to_nat last) data ++ tl in
      if -1 =? cnt then do* uputs (litn "file read failed") ;; uret true else
      let last := last + cnt in
      let* (data, last) := grep_lines fuel s fname s_len cnt data last 0 in
      if 0 =? cnt then uret false else grep_read n s fname s_len fd data last
  end.

(** [data] is what the local array of [BUFSIZE + 1] bytes holds. *)
Definition do_one_file (s fname : reader) (data : list Z) : U St Z :=
  let* s_len := ulift (ece391_strlen fuel s) in
  let* fd := ece391_open fname in
  if -1 =? fd then do* uputs (litn "file open failed") ;; uret (-1) else
  let* failed := grep_read fuel s fname (s32 s_len) fd data 0 in
  if (failed : bool) then uret (-1) else
  let* r := ece391_close fd in
  if -1 =? r then do* uputs (litn "file close failed") ;; uret (-1) else
  uret 0.

(** [junk k] is what the stack holds where the [k]-th call has its array. *)
Fixpoint grep_loop (n : nat) (junk : nat -> list Z) (search : list Z) (fd : Z) (buf : list Z) : U St Z :=
  match n with
  | O => ufuel
  | S n =>
      let* (cnt, buf) := ece391_read fd buf (SBUFSIZE - 1) in
      if cnt =? 0 then uret 0 else
      if -1 =? cnt then do* uputs (litn "directory entry read failed") ;; uret 3 else
      let* c := ulift (aget buf 0) in
      if 46 =? c then grep_loop n junk search fd buf else
      let* buf := ulift (aset buf cnt 0) in
      let* r := do_one_file (aget search) (aget buf) (junk n) in
      if negb (0 =? r) then uret 3 else grep_loop n junk search fd buf
  end.

Definition grep_main (junk : nat -> list Z) (buf search : list Z) : U St Z :=
  let* (r, search) := ece391_getargs search BUFSIZE in
  if negb (0 =? r) then do* uputs (litn "could not read argument") ;; uret 3 else
  let* fd := ece391_open (lit ".") in
  if -1 =? fd then do* uputs (litn "directory open failed") ;; uret 2 else
  grep_loop fuel junk search fd buf.

(** ** hello, testprint, counter *)

Definition hello_main (buf : list Z) : U St Z :=
  do* uputs (lit "Hi, what's your name? ") ;;
  let* (cnt, buf) := ece391_read 0 buf (BUFSIZE - 1) in
  if -1 =? cnt then do* uputs (litn "Can't read name from keyboard.") ;; uret 3 else
  let* buf := ulift (aset buf cnt 0) in
  do* uputs (lit "Hello, ") ;;
  do* uputs (aget buf) ;;
  uret 0.

Definition testprint_main : U St Z :=
  do* uputs (litn "Hello, if this ran, the program was correct. Yay!") ;; uret 0.

(** [for (i = 0; i < max; i++)], [n] rounds of it left. *)
Fixpoint counter_loop (n : nat) (i : Z) (buf : list Z) : U St Z :=
  match n with
  | O => uret 0
  | S n =>
      let* buf := ulift (ece391_itoa (i + 1) buf 10) in
      do* uputs (aget buf) ;;
      do* uputs (aget (nl ++ [0])) ;;
      counter_loop n (i + 1) buf
  end.

(** [cnt] is a [uint32_t]; the comparison with -1 converts -1 to it. *)
Definition counter_main (buf : list Z) : U St Z :=
  do* uputs (litn "Enter the Test Number: (0): 100, (1): 10000, (2): 100000") ;;
  let* (cnt, buf) := ece391_read 0 buf (BUFSIZE - 1) in
  let cnt := u32 cnt in
  if u32 (-1) =? cnt then do* uputs (litn "Can't read the number from keyboard.") ;; uret 3 else
  let* buf := ulift (aset buf cnt 0) in
  let* n := ulift (ece391_strlen fuel (aget buf)) in
  let* c := ulift (aget buf 0) in
  if (1 <? n) || ((n =? 1) && ((c <? 48) || (50 <? c))) then do* uputs (litn "Wrong Choice!") ;; uret 0 else
  let max := if c =? 48 then 100 else if c =? 49 then 10000 else if c =? 50 then 100000 else 0 in
  counter_loop (Z.to_nat max) 0 buf.

(** ** shell *)

(** From the prompt to the NUL put over the newline; [None] when the read fails. *)
Definition shell_line (buf : list Z) : U St (option (list Z)) :=
  do* uputs (lit "391OS> ") ;;
  let* (cnt, buf) := ece391_read 0 buf (BUFSIZE - 1) in
  if -1 =? cnt then do* uputs (litn "read from keyboard failed") ;; uret None else
  let* cnt := (if 0 <? cnt then
                 let* c := ulift (aget buf (cnt - 1)) in uret (if 10 =? c then cnt - 1 else cnt)
               else uret cnt) in
  let* buf := ulift (aset buf cnt 0) in
  uret (Some buf).

(** What the shell says about the value of [execute]. *)
Definition shell_report (rval : Z) : U St unit :=
  if -1 =? rval then uputs (litn "no such command")
  else if 256 =? rval then uputs (litn "program terminated by exception")
  else if negb (0 =? rval) then uputs (litn "program terminated abnormally")
  else uret tt.

Fixpoint shell_loop (n : nat) (buf : list Z) : U St Z :=
  match n with
  | O => ufuel
  | S n =>
      let* line := shell_line buf in
      match line with
      | None => uret 3
      | Some buf =>
          let* r := ulift (ece391_strcmp fuel (aget buf) (lit "exit")) in
          if 0 =? r then uret 0 else
          let* c := ulift (aget buf 0) in
          if 0 =? c then shell_loop n buf else
          let* rval := ece391_execute (aget buf) in
          do* shell_report rval ;;
          shell_loop n buf
      end
  end.

Definition shell_main (buf : list Z) : U St Z :=
  do* uputs (litn "Starting 391 Shell") ;; shell_loop fuel buf.

(** ** pingpong *)

Definition SCREENWIDTH : Z := 79.
Definition ENDING : Z := 2.
Definition BUFMAX : Z := SCREENWIDTH + ENDING.
Definition START : Z := 1.
Definition STARTLOOP : Z := START + 1.
Definition LOOPMAX : Z := BUFMAX - ENDING - 1.
Definition STARTCHAR : Z := 65.
Definition ENDCHAR : Z := 90.

(** The body of both loops over [j]. *)
Definition pingpong_frame (rtc_fd curchar j : Z) (buf : list Z) : U St (list Z) :=
  let* buf := ulift (for_range STARTLOOP LOOPMAX (fun i b => aset b i 32) buf) in
  let* buf := ulift (aset buf j curchar) in
  do* uputs (aget buf) ;;
  let* _ := ece391_read rtc_fd (replicate 4 0) 4 in
  uret buf.

Fixpoint pingpong_frames (js : list Z) (rtc_fd curchar : Z) (buf : list Z) : U St (list Z) :=
  match js with
  | [] => uret buf
  | j :: js => let* buf := pingpong_frame rtc_fd curchar j buf in pingpong_frames js rtc_fd curchar buf
  end.

(** [j] runs from [STARTLOOP] up to [LOOPMAX], then back down. *)
Definition out_and_back : list Z :=
  seqZ STARTLOOP (LOOPMAX - STARTLOOP) ++ reverse (seqZ STARTLOOP (LOOPMAX - STARTLOOP)).

(** [n] rounds of the [while(1)], which never ends. *)
Fixpoint pingpong_loop (n : nat) (rtc_fd curchar : Z) (buf : list Z) : U St (Z * list Z) :=
  match n with
  | O => uret (curchar, buf)
  | S n =>
      let* buf := pingpong_frames out_and_back rtc_fd curchar buf in
      pingpong_loop n rtc_fd (if curchar =? ENDCHAR then STARTCHAR else u8 (curchar + 1)) buf
  end.

(** [main] up to its [while(1)]. *)
Definition pingpong_init (buf : list Z) : U St (Z * list Z) :=
  let* buf := ulift (for_range 0 BUFMAX (fun i b => aset b i 32) buf) in
  let* buf := ulift (aset buf (BUFMAX - 1) 0) in
  let* buf := ulift (aset buf (BUFMAX - 2) 10) in
  let* buf := ulift (aset buf (BUFMAX - 3) 124) in
  let* buf := ulift (aset buf START 124) in
  let* rtc_fd := ece391_open (lit "rtc") in
  let* _ := ece391_write rtc_fd (aget [32; 0; 0; 0]) 4 in
  uret (rtc_fd, buf).

(** [main], with [n] rounds of its endless loop. *)
Definition pingpong_main (n : nat) (buf : list Z) : U St (Z * list Z) :=
  let* (rtc_fd, buf) := pingpong_init buf in pingpong_loop n rtc_fd STARTCHAR buf.
End Code.

(** ** What the programs print *)

(** A sequence of writes, each with the byte that follows its bytes. *)
Inductive written : screen -> list (list Z) -> screen -> Prop :=
| w_nil sc : written sc [] sc
| w_cons sc bs x bss sc' : byte_ok x -> written (put sc (bs ++ [x])) bss sc' -> written sc (bs :: bss) sc'.

(** A list cut into pieces of [k]. *)
Fixpoint chunks (n k : nat) (l : list Z) : list (list Z) :=
  match n, l with
  | S n, _ :: _ => take k l :: chunks n k (drop k l)
  | _, _ => []
  end.
Definition pieces (k : nat) (l : list Z) : list (list Z) := chunks (length l) k l.

Lemma chunks_enough n m k l : (0 < k)%nat -> (length l <= n)%nat -> (length l <= m)%nat -> chunks n k l = chunks m k l.
Proof.
  intros Hk. revert m l. induction n as [|n IH]; intros m l Hn Hm; destruct l as [|x l]; simpl in *; try lia;
    [by destruct m.. |].
  destruct m as [|m]; [lia |]. simpl. f_equal. apply IH; rewrite length_drop; simpl; lia.
Qed.

Lemma pieces_cons k l : (0 < k)%nat -> l <> [] -> pieces k l = take k l :: pieces k (drop k l).
Proof.
  intros Hk Hl. unfold pieces. destruct l as [|x l]; [done |]. simpl length at 1. cbn [chunks]. f_equal.
  apply chunks_enough; [done | rewrite length_drop; simpl; lia | done].
Qed.

Lemma pieces_concat k l : (0 < k)%nat -> concat (pieces k l) = l.
Proof.
  intros Hk. induction l as [l IH] using (well_founded_induction (well_founded_ltof _ length)).
  destruct (decide (l = [])) as [->|Hl]; [done |]. rewrite pieces_cons by done. simpl.
  rewrite IH, take_drop; [done |]. unfold ltof. rewrite length_drop. destruct l; [done | simpl; lia].
Qed.

Lemma field_take r bs n : field r bs -> field r (take n bs).
Proof. intros Hr k c Hc. apply lookup_take_Some in Hc as [Hc _]. by apply Hr. Qed.

Lemma field_stack buf above x :
  Forall byte_ok buf -> above 0 = Ok x -> byte_ok x -> field (stack buf above) (buf ++ [x]).
Proof.
  intros Hb Ha Hx n c Hc. pose proof (lookup_lt_Some _ _ _ Hc) as Hl. rewrite length_app in Hl. simpl in Hl.
  unfold stack, zlen. destruct (Z.ltb_spec (Z.of_nat n) (Z.of_nat (length buf))).
  - rewrite lookup_app_l in Hc by lia. split; [by apply aget_nat | by apply (Forall_lookup_1 _ _ _ _ Hb Hc)].
  - rewrite lookup_app_r in Hc by lia. assert (n = length buf) as -> by lia. rewrite Nat.sub_diag in Hc.
    injection Hc as <-. by rewrite Z.sub_diag.
Qed.

(** The bytes of a write from an array, and the one after them. *)
Lemma take_next (buf : list Z) x n :
  Forall byte_ok buf -> byte_ok x -> (n <= length buf)%nat ->
  exists y, take (S n) (buf ++ [x]) = take n buf ++ [y] /\ byte_ok y.
Proof.
  intros Hb Hx Hn. destruct (lookup_lt_is_Some_2 (buf ++ [x]) n) as [y Hy]; [rewrite length_app; simpl; lia |].
  exists y. rewrite (take_S_r _ _ _ Hy), take_app_le by done. split; [done |].
  assert (Hbx : Forall byte_ok (buf ++ [x])) by (apply Forall_app; split; [done | by apply Forall_singleton]).
  by apply (Forall_lookup_1 _ _ _ _ Hbx Hy).
Qed.

Section Facts.
Context `{Os St} `{!OsSpec St} (fuel : nat) (above : reader) (x0 : Z).
Hypothesis Habove : above 0 = Ok x0.
Hypothesis Hx0 : byte_ok x0.

Lemma write_buf s v buf bs rest n Q :
  sees s v -> fds v !! 1%nat = Some (Some HTerm) -> Forall byte_ok buf -> buf = bs ++ rest -> zlen bs = n ->
  zlen buf < 2 ^ 31 ->
  (forall y s', byte_ok y -> sees s' (set_scr v (put (scr v) (bs ++ [y]))) -> Q n s') ->
  runs (ece391_write 1 (stack buf above) n) s Q.
Proof.
  intros Hv Hfd Hb Hbuf Hn Hlen HQ. pose proof (zlen_nonneg bs).
  destruct (take_next buf x0 (length bs) Hb Hx0) as (y & Ey & Hy); [rewrite Hbuf, length_app; lia |].
  rewrite Hbuf, take_app_length in Ey. rewrite Hbuf, zlen_app in Hlen. pose proof (zlen_nonneg rest).
  eapply runs_mono.
  - apply (write_spec s v 1 _ (bs ++ [y]) n n (set_scr v (put (scr v) (bs ++ [y]))) Hv).
    + rewrite <- Ey, <- Hbuf. apply field_take. by apply field_stack.
    + unfold view_write. change (Z.to_nat 1) with 1%nat. rewrite Hfd. simpl.
      rewrite zlen_app, Hn. change (zlen [y]) with 1. by rewrite Z.eqb_refl.
    + lia.
  - intros z s' [-> Hs']. by eapply HQ.
Qed.

(** The next [n] bytes of an open file. *)
Lemma read_file s v i content pos buf n :
  sees s v -> (2 <= i < 8)%nat -> fds v !! i = Some (Some (HFile content pos)) -> n < 2 ^ 31 ->
  let cs := take (Z.to_nat n) (drop pos content) in
  (length cs <= length buf)%nat ->
  runs (ece391_read (Z.of_nat i) buf n) s (fun x s' => x = (zlen cs, cs ++ drop (length cs) buf) /\
    sees s' (set_fds v (<[i := Some (HFile content (pos + length cs))]> (fds v)))).
Proof.
  intros Hv Hi Hfd Hn cs Hcs. apply (read_spec s v); [done | | done]. unfold view_read.
  replace ((Z.of_nat i <? 0) || (7 <? Z.of_nat i) || (Z.of_nat i =? 1)) with false by lia.
  rewrite Nat2Z.id, Hfd. fold cs. by destruct (Nat.ltb_spec (length buf) (length cs)); [lia |].
Qed.

(** Opening a file that exists, with a descriptor free. *)
Lemma open_found s v fname name i nd :
  sees s v -> cstr fname name -> file_named v name = Some nd -> free_fd v = Some i ->
  runs (ece391_open fname) s (fun r s' => r = Z.of_nat i /\
    sees s' (set_fds v (<[i := Some (handle_of nd)]> (fds v)))).
Proof.
  intros Hv Hname Hfile Hfree. pose proof (file_named_entry v name _ Hfile) as [_ Hlen].
  pose proof (open_spec s v fname name Hv Hname ltac:(lia)) as Ho. unfold view_open in Ho.
  by rewrite Hfree, Hfile in Ho.
Qed.

(** *** cat *)

Lemma cat_loop_runs n : forall s v i content pos buf,
  sees s v -> fds v !! 1%nat = Some (Some HTerm) -> (2 <= i < 8)%nat ->
  fds v !! i = Some (Some (HFile content pos)) -> (pos <= length content)%nat ->
  length buf = 1024%nat -> Forall byte_ok buf -> (length content - pos < n)%nat ->
  runs (cat_loop fuel above n (Z.of_nat i) buf) s (fun r s' => r = 0 /\ exists sc',
    sees s' (set_scr (set_fds v (<[i := Some (HFile content (length content))]> (fds v))) sc') /\
    written (scr v) (pieces 1024 (drop pos content)) sc').
Proof.
  induction n as [|n IH]; intros s v i content pos buf Hv H1 Hi Hfd Hpos Hlen Hb Hn; [lia |].
  cbn [cat_loop]. pose proof (vo_handles v (sees_ok s v Hv) _ _ _ Hfd) as [Hcb Hcl].
  pose proof (lookup_lt_Some _ _ _ Hfd) as Hil.
  pose proof (read_file s v i content pos buf 1024 Hv Hi Hfd ltac:(lia)) as Hread. cbv zeta in Hread.
  change (Z.to_nat 1024) with 1024%nat in Hread. set (cs := take 1024 (drop pos content)) in *.
  assert (Hcs : length cs = (1024 `min` (length content - pos))%nat) by (unfold cs; rewrite length_take, length_drop; lia).
  specialize (Hread ltac:(lia)). eapply runs_step; [exact Hread |]. clear Hread.
  set (v1 := set_fds v _). intros [cnt b] s1 [[= -> ->] Hs1].
  assert (H1' : fds v1 !! 1%nat = Some (Some HTerm)) by (simpl; by rewrite list_lookup_insert_ne by lia).
  destruct (Z.eqb_spec (zlen cs) 0) as [E0|E0]; unfold zlen in E0.
  { apply runs_ret. split; [done |]. exists (scr v). rewrite drop_ge by lia. split; [|constructor].
    subst v1. by replace (pos + length cs)%nat with (length content) in Hs1 by lia. }
  destruct (Z.eqb_spec (-1) (zlen cs)) as [|_]; [unfold zlen in *; lia |].
  assert (Hb1 : Forall byte_ok (cs ++ drop (length cs) buf)).
  { apply Forall_app. split; [by apply Forall_take, Forall_drop | by apply Forall_drop]. }
  eapply runs_step; [apply (write_buf s1 v1 _ cs (drop (length cs) buf) (zlen cs)
    (fun r s' => r = zlen cs /\ exists y, byte_ok y /\ sees s' (set_scr v1 (put (scr v1) (cs ++ [y])))));
    [done.. | unfold zlen; rewrite length_app, length_drop; lia | eauto] |].
  intros r s2 [-> (y & Hy & Hs2)]. destruct (Z.eqb_spec (-1) (zlen cs)) as [|_]; [unfold zlen in *; lia |].
  eapply runs_mono; [apply (IH s2 (set_scr v1 (put (scr v1) (cs ++ [y]))) i content (pos + length cs)%nat) |].
  - done.
  - done.
  - done.
  - simpl. by apply list_lookup_insert_eq.
  - lia.
  - rewrite length_app, length_drop. lia.
  - done.
  - lia.
  - intros r s3 [-> (sc' & Hs3 & Hw)]. split; [done |]. exists sc'. split.
    + subst v1. unfold set_scr, set_fds in *. simpl in *. by rewrite list_insert_insert_eq in Hs3.
    + rewrite (pieces_cons 1024); [| lia | intros E; apply (f_equal length) in E; rewrite length_drop in E; simpl in E; lia].
      apply (w_cons _ _ y); [done |]. rewrite drop_drop. fold cs.
      destruct (decide (1024 <= length content - pos)%nat).
      * by replace (length cs) with 1024%nat in Hw by lia.
      * rewrite drop_ge in Hw |- * by lia. done.
Qed.

Lemma cat_main_spec s v content i buf :
  sees s v -> fds v !! 1%nat = Some (Some HTerm) -> arg v <> [] ->
  file_named v (arg v) = Some (NFile content) -> free_fd v = Some i ->
  length buf = 1024%nat -> Forall byte_ok buf -> (length content < fuel)%nat ->
  runs (cat_main fuel above buf) s (fun r s' => r = 0 /\ exists sc',
    sees s' (set_scr (set_fds v (<[i := Some (HFile content (length content))]> (fds v))) sc') /\
    written (scr v) (pieces 1024 content) sc').
Proof.
  intros Hv H1 Hne Hfile Hfree Hlen Hbytes Hf. unfold cat_main.
  pose proof (free_fd_range v i (sees_ok s v Hv) Hfree) as [Hi Hfd].
  eapply runs_step; [apply (getargs_spec s v buf 1024 Hv); unfold zlen; lia |].
  intros [r b] s1 [Hs1 Hr]. rewrite decide_False in Hr by done. destruct Hr as (Hr & Hb & Hbl & Hbb).
  cbn [fst snd] in *. rewrite Hr. change (negb (0 =? 0)) with false. cbv iota.
  eapply runs_step; [by apply (open_found s1 v _ (arg v) i (NFile content) Hs1) |].
  intros fd s2 [-> Hs2]. destruct (Z.eqb_spec (-1) (Z.of_nat i)); [lia |].
  eapply runs_mono; [apply (cat_loop_runs fuel s2 (set_fds v (<[i := Some (HFile content 0)]> (fds v))) i content 0 b) |].
  - exact Hs2.
  - simpl. by rewrite list_lookup_insert_ne by lia.
  - done.
  - simpl. apply list_lookup_insert_eq. by apply lookup_lt_Some in Hfd.
  - lia.
  - lia.
  - auto.
  - lia.
  - intros r' s3 [-> (sc' & Hs3 & Hw)]. split; [done |]. exists sc'. split; [|done].
    unfold set_fds in Hs3. simpl in Hs3. by rewrite list_insert_insert_eq in Hs3.
Qed.

(** Without an argument, and for a file that cannot be opened. *)
Lemma cat_main_fails s v buf :
  sees s v -> fds v !! 1%nat = Some (Some HTerm) -> length buf = 1024%nat -> (200 <= fuel)%nat -> (length (arg v) < 1024)%nat ->
  arg v = [] \/ file_named v (arg v) = None \/ free_fd v = None ->
  runs (cat_main fuel above buf) s (fun r s' =>
    if decide (arg v = []) then r = 3 /\ sees s' (set_scr v (put (scr v) (text "could not read arguments" ++ nl ++ [0])))
    else r = 2 /\ sees s' (set_scr v (put (scr v) (text "file not found" ++ nl ++ [0])))).
Proof.
  intros Hv H1 Hlen Hf Hal Hwhy. unfold cat_main.
  eapply runs_step; [apply (getargs_spec s v buf 1024 Hv); unfold zlen; lia |].
  intros [r b] s1 [Hs1 Hr]. destruct (decide (arg v = [])) as [E|Hne].
  { injection Hr as -> ->. change (negb (0 =? -1)) with true. cbv iota. apply runs_bind.
    eapply fdputs_runs; [done | done | by apply (cstr_array (text "could not read arguments" ++ nl) []), nonnulb_ok | done | simpl; lia |].
    intros s2 Hs2. by apply runs_ret. }
  destruct Hr as (Hr & Hb & Hbl & Hbb). cbn [fst snd] in *. rewrite Hr. change (negb (0 =? 0)) with false. cbv iota.
  pose proof (open_spec s1 v _ (arg v) Hs1 Hb ltac:(unfold zlen; lia)) as Ho.
  assert (Eo : view_open v (arg v) = (-1, v)).
  { unfold view_open. destruct Hwhy as [?|[-> | ->]]; [done | by destruct (free_fd v) | done]. }
  rewrite Eo in Ho. eapply runs_step; [exact Ho |]. intros fd s2 [-> Hs2]. change (-1 =? -1) with true. cbv iota.
  apply runs_bind.
  eapply fdputs_runs; [done | done | by apply (cstr_array (text "file not found" ++ nl) []), nonnulb_ok | done | simpl; lia |].
  intros s3 Hs3. by apply runs_ret.
Qed.

(** *** ls *)

(** A directory entry. *)
Lemma read_dir s v i buf n :
  sees s v -> (2 <= i < 8)%nat -> fds v !! i = Some (Some HDir) -> (32 <= length buf)%nat -> n < 2 ^ 31 ->
  runs (ece391_read (Z.of_nat i) buf n) s (fun x s' =>
    match ents v !! dirpos v with
    | Some (name, _) => x = (32, pad32 name ++ drop 32 buf) /\ sees s' (set_dirpos v (S (dirpos v)))
    | None => x = (0, buf) /\ sees s' (set_dirpos v 0)
    end).
Proof.
  intros Hv Hi Hfd Hb Hn.
  assert (E : view_read v (Z.of_nat i) buf n = match ents v !! dirpos v with
    | Some (name, _) => Some (32, pad32 name ++ drop 32 buf, set_dirpos v (S (dirpos v)))
    | None => Some (0, buf, set_dirpos v 0) end).
  { unfold view_read. replace ((Z.of_nat i <? 0) || (7 <? Z.of_nat i) || (Z.of_nat i =? 1)) with false by lia.
    rewrite Nat2Z.id, Hfd. by destruct (Nat.ltb_spec (length buf) 32); [lia |]. }
  destruct (ents v !! dirpos v) as [[name nd]|]; by apply (read_spec s v _ _ _ _ _ _ Hv E).
Qed.

Lemma pad32_ok s v k name nd :
  sees s v -> ents v !! k = Some (name, nd) -> length (pad32 name) = 32%nat /\ Forall byte_ok (pad32 name).
Proof.
  intros Hv Hk. pose proof (vo_names v (sees_ok s v Hv)) as Hn.
  destruct (Forall_lookup_1 _ _ _ _ Hn Hk) as [Hl Hnul]. simpl in *. unfold pad32. split.
  - rewrite length_app, length_replicate. lia.
  - apply Forall_app. split; [by eapply Forall_impl; [exact Hnul | intros c []] |].
    apply Forall_replicate. unfold byte_ok. lia.
Qed.

Lemma ls_loop_runs n : forall s v i buf,
  sees s v -> fds v !! 1%nat = Some (Some HTerm) -> (2 <= i < 8)%nat -> fds v !! i = Some (Some HDir) ->
  length buf = 33%nat -> Forall byte_ok buf -> (length (ents v) - dirpos v < n)%nat ->
  runs (ls_loop fuel above n (Z.of_nat i) buf) s (fun r s' => r = 0 /\ exists sc',
    sees s' (set_scr (set_dirpos v 0) sc') /\
    written (scr v) (map (fun e => pad32 e.1 ++ nl) (drop (dirpos v) (ents v))) sc').
Proof.
  induction n as [|n IH]; intros s v i buf Hv H1 Hi Hfd Hlen Hb Hn; [lia |]. cbn [ls_loop].
  eapply runs_step; [apply (read_dir s v i buf (SBUFSIZE - 1)); unfold SBUFSIZE; try done; try lia |].
  intros [cnt b] s1 Hr. destruct (ents v !! dirpos v) as [[name nd]|] eqn:Ee.
  2:{ destruct Hr as [[= -> ->] Hs1]. apply runs_ret. split; [done |]. exists (scr v). split; [done |].
      apply lookup_ge_None in Ee. rewrite drop_ge by done. constructor. }
  destruct Hr as [[= -> ->] Hs1]. destruct (pad32_ok s v _ _ _ Hv Ee) as [Hl32 Hb32]. cbn [Z.eqb].
  destruct buf as [|y0 buf] using rev_ind; [done |]. clear IHbuf. rewrite length_app in Hlen. simpl in Hlen.
  rewrite drop_app_le, drop_ge by lia. simpl.
  eapply runs_lift_bind.
  { rewrite aset_in; [done |]. unfold zlen. rewrite length_app, Hl32. simpl. lia. }
  rewrite insert_app_r_alt by lia. rewrite Hl32. simpl.
  set (bs := pad32 name ++ nl). assert (Hbs : length bs = 33%nat) by (unfold bs; rewrite length_app, Hl32; done).
  assert (Hbb : Forall byte_ok bs).
  { apply Forall_app. split; [done |]. apply Forall_singleton. unfold byte_ok. lia. }
  eapply runs_step; [apply (write_buf s1 (set_dirpos v (S (dirpos v))) bs bs [] 33
    (fun r s' => r = 33 /\ exists y, byte_ok y /\ sees s' (set_scr (set_dirpos v (S (dirpos v))) (put (scr v) (bs ++ [y])))));
    [done.. | by rewrite app_nil_r | by unfold zlen; rewrite Hbs | unfold zlen; lia | eauto] |].
  intros r s2 [-> (y & Hy & Hs2)]. cbn [Z.eqb]. pose proof (lookup_lt_Some _ _ _ Ee).
  eapply runs_mono; [by apply (IH s2 _ i bs Hs2); simpl; try lia |].
  intros r s3 [-> (sc' & Hs3 & Hw)]. split; [done |]. exists sc'. split; [done |].
  rewrite (drop_S _ _ _ Ee). by apply (w_cons _ _ y).
Qed.
Lemma ls_main_spec s v i buf :
  sees s v -> fds v !! 1%nat = Some (Some HTerm) -> file_named v (text ".") = Some NDir -> free_fd v = Some i ->
  length buf = 33%nat -> Forall byte_ok buf -> (length (ents v) < fuel)%nat ->
  runs (ls_main fuel above buf) s (fun r s' => r = 0 /\ exists sc',
    sees s' (set_scr (set_dirpos (set_fds v (<[i := Some HDir]> (fds v))) 0) sc') /\
    written (scr v) (map (fun e => pad32 e.1 ++ nl) (drop (dirpos v) (ents v))) sc').
Proof.
  intros Hv H1 Hdot Hfree Hlen Hb Hf. unfold ls_main.
  pose proof (free_fd_range v i (sees_ok s v Hv) Hfree) as [Hi Hfd]. apply lookup_lt_Some in Hfd.
  eapply runs_step; [apply (open_found s v _ (text ".") i NDir Hv); [by apply cstr_lit, nonnulb_ok | done..] |].
  intros fd s2 [-> Hs2]. destruct (Z.eqb_spec (-1) (Z.of_nat i)); [lia |].
  apply (ls_loop_runs fuel s2 (set_fds v (<[i := Some HDir]> (fds v))) i buf Hs2); simpl; try done; try lia.
  - by rewrite list_lookup_insert_ne by lia.
  - by apply list_lookup_insert_eq.
Qed.

(** *** Reading a line *)

(** A string printed, and a line read. *)
Definition show (v : view) (t : list Z) : view := set_scr v (put (scr v) (t ++ [0])).
Definition line_read (v : view) (l : list Z) (n : nat) (q : list input) : view :=
  mkView (ents v) (dirpos v) (fds v) (type_string (scr v) (l ++ [10]))
    (drop 1 (replicate n 32 ++ drop n (row_typed v l))) (arg v) q.

(** The program's standard input and output are the terminal, and the last byte of
    the line buffer is a NUL. *)
Record on_terminal (v : view) : Prop := {
  ot_in : fds v !! 0%nat = Some (Some HTerm);
  ot_out : fds v !! 1%nat = Some (Some HTerm);
  ot_row : row v !! 1022%nat = Some 0
}.

Lemma typed_ok l : nonnul l -> nonnul (typed l) /\ (length (typed l) <= 127)%nat /\ typed l <> [].
Proof.
  intros Hl. unfold typed. split_and!.
  - apply Forall_take, Forall_app. split; [done |]. apply Forall_singleton. unfold byte_ok. lia.
  - rewrite length_take. lia.
  - intros E. apply (f_equal length) in E. rewrite length_take, length_app in E. cbn [length] in E. lia.
Qed.

Lemma upto_nul_app a b : nonnul a -> upto_nul (a ++ b) = a ++ upto_nul b.
Proof.
  induction 1 as [|c a [Hc _] _ IH]; simpl; [done |]. destruct (Z.eqb_spec c 0); [done |]. by rewrite IH.
Qed.

Lemma Forall_upto_nul (P : Z -> Prop) l : Forall P l -> Forall P (upto_nul l).
Proof. induction 1 as [|c l Hc _ IH]; simpl; [done |]. destruct (c =? 0); by constructor. Qed.

Lemma upto_nul_before l n : l !! n = Some 0 -> (length (upto_nul l) <= n)%nat.
Proof.
  revert n. induction l as [|c l IH]; intros n Hn; [done |]. simpl. destruct (Z.eqb_spec c 0); [simpl; lia |].
  destruct n as [|n]; [by injection Hn |]. simpl in *. apply IH in Hn. lia.
Qed.

Lemma puts_runs s v r t Q :
  sees s v -> on_terminal v -> cstr r t -> (length t < fuel)%nat -> zlen t < 2 ^ 31 ->
  (forall s', sees s' (show v t) -> Q tt s') -> runs (uputs fuel r) s Q.
Proof. intros Hv [] Hr Hf Hl HQ. by eapply fdputs_runs. Qed.

Lemma on_terminal_show v t : on_terminal v -> on_terminal (show v t).
Proof. by intros []. Qed.

Lemma row_typed_last v l : row v !! 1022%nat = Some 0 -> row_typed v l !! 1023%nat = Some 0.
Proof.
  intros Hr. pose proof (typed_length l). unfold row_typed. rewrite lookup_app_r, lookup_drop by lia.
  by replace (_ + _)%nat with 1022%nat by lia.
Qed.

Lemma on_terminal_read v l n q :
  (n <= 1023)%nat -> on_terminal v -> on_terminal (line_read v l n q).
Proof.
  intros Hn [Hi Ho Hr]. constructor; [done.. |]. cbn [row line_read].
  rewrite lookup_drop, lookup_app_r, length_replicate, lookup_drop by (rewrite length_replicate; lia).
  replace (n + (1 + 1022 - n))%nat with 1023%nat by lia. by apply row_typed_last.
Qed.

Lemma read_line s v l q buf n :
  sees s v -> on_terminal v -> inputs v = Typed l :: q -> nonnul l -> length buf = 1024%nat -> (n <= 1023)%nat ->
  runs (ece391_read 0 buf (Z.of_nat n)) s (fun x s' => sees s' (line_read v l n q) /\
    exists y rest, x = (zlen (typed l), typed l ++ y :: rest) /\
      length (typed l ++ y :: rest) = 1024%nat /\ (Forall byte_ok buf -> Forall byte_ok (y :: rest))).
Proof.
  intros Hv [Hi Ho Hr] Hin Hl Hlen Hn. destruct (typed_ok l Hl) as (Ht & Htl & _).
  pose proof (vo_row v (sees_ok s v Hv)) as [Hrow Hrb].
  set (rest := upto_nul (drop (length (typed l) - 1) (row v))).
  assert (Htxt : upto_nul (row_typed v l) = typed l ++ rest) by by apply upto_nul_app.
  assert (Hrest : (length (typed l) + length rest <= 1023)%nat).
  { pose proof (typed_length l).
    assert (E : drop (length (typed l) - 1) (row v) !! (1023 - length (typed l))%nat = Some 0).
    { rewrite lookup_drop. by replace (_ + _)%nat with 1022%nat by lia. }
    apply upto_nul_before in E. fold rest in E. lia. }
  eapply runs_mono.
  - eapply (read_spec s v 0 buf (Z.of_nat n) (zlen (typed l))); [done | | lia].
    unfold view_read. change (Z.to_nat 0) with 0%nat. rewrite Hi, Hin, Htxt.
    assert (Hfit : (zlen buf <=? zlen (typed l ++ rest)) = false).
    { apply Z.leb_gt. unfold zlen. rewrite length_app, Hlen. lia. }
    assert (Hnul : (1024 <=? zlen (typed l ++ rest)) = false).
    { apply Z.leb_gt. unfold zlen. rewrite length_app. lia. }
    rewrite Hfit, Hnul. destruct (Z.ltb_spec (Z.of_nat n) 0); [lia |]. destruct (Z.ltb_spec 1024 (Z.of_nat n)); [lia |].
    reflexivity.
  - intros x s' [-> Hs']. rewrite Nat2Z.id in Hs'. split; [done |].
    assert (Hrestb : Forall byte_ok rest) by by apply Forall_upto_nul, Forall_drop.
    destruct rest as [|y rest'] eqn:Er.
    + exists 0. eexists. split; [by rewrite app_nil_r |]. split; [rewrite length_app; simpl; rewrite length_drop; lia |].
      intros Hb. apply Forall_cons. split; [by unfold byte_ok | by apply Forall_drop].
    + exists y. eexists. split; [by rewrite <- app_assoc |]. split.
      * rewrite length_app. simpl. rewrite length_app. simpl. rewrite length_drop, length_app. simpl. simpl in Hrest. lia.
      * intros Hb. rewrite app_comm_cons. apply Forall_app. split; [done |].
        apply Forall_cons. split; [by unfold byte_ok | by apply Forall_drop].
Qed.

(** Cutting the line in the buffer. *)
Lemma cut_line a y rest n : n = zlen a -> aset (a ++ y :: rest) n 0 = Ok (a ++ 0 :: rest).
Proof. intros ->. by apply aset_app_mid. Qed.

(** *** hello *)

Lemma hello_main_spec s v l q buf :
  sees s v -> on_terminal v -> inputs v = Typed l :: q -> nonnul l -> length buf = 1024%nat -> (200 <= fuel)%nat ->
  runs (hello_main fuel buf) s (fun r s' => r = 0 /\
    sees s' (show (show (line_read (show v (text "Hi, what's your name? ")) l 1023 q) (text "Hello, ")) (typed l))).
Proof.
  intros Hv Ht Hin Hl Hlen Hf. unfold hello_main. destruct (typed_ok l Hl) as (Htl & Htlen & _).
  apply runs_bind. eapply puts_runs; [done.. | by apply cstr_lit, nonnulb_ok | simpl; lia | done |]. intros s1 Hs1.
  eapply runs_step; [apply (read_line s1 _ l q buf 1023 Hs1); [by apply on_terminal_show | done..] |].
  intros [cnt b] s2 (Hs2 & y & rest & [= -> ->] & Hb & Hby).
  destruct (Z.eqb_spec (-1) (zlen (typed l))); [unfold zlen in *; lia |].
  eapply runs_lift_bind; [by apply cut_line |].
  assert (Ht2 : on_terminal (line_read (show v (text "Hi, what's your name? ")) l 1023 q)).
  { apply on_terminal_read; [lia | by apply on_terminal_show]. }
  apply runs_bind. eapply puts_runs; [done.. | by apply cstr_lit, nonnulb_ok | simpl; lia | done |]. intros s3 Hs3.
  apply runs_bind. eapply puts_runs; [done | by apply on_terminal_show | by apply cstr_array | lia | unfold zlen; lia |].
  intros s4 Hs4. by apply runs_ret.
Qed.
(** *** counter *)

(** A typed line is its text and the newline, unless it is too long for that. *)
Lemma typed_short l : (length l <= 126)%nat -> typed l = l ++ [10].
Proof. intros Hl. unfold typed. rewrite take_ge; [done |]. rewrite length_app. simpl. lia. Qed.

Lemma typed_long l : (126 < length l)%nat -> typed l = take 127 l.
Proof. intros Hl. unfold typed. by rewrite take_app_le by lia. Qed.

Lemma litn_cstr m : nonnulb (text m ++ nl) = true -> cstr (litn m) (text m ++ nl).
Proof. intros E. unfold litn. rewrite app_assoc. by apply (cstr_array _ []), nonnulb_ok. Qed.

Lemma counter_main_spec s v l q buf :
  sees s v -> on_terminal v -> inputs v = Typed l :: q -> nonnul l -> length buf = 1024%nat -> (200 <= fuel)%nat ->
  runs (counter_main fuel buf) s (fun r s' => r = 0 /\
    sees s' (show (line_read (show v (text "Enter the Test Number: (0): 100, (1): 10000, (2): 100000" ++ nl)) l 1023 q)
      (text "Wrong Choice!" ++ nl))).
Proof.
  intros Hv Ht Hin Hl Hlen Hf. unfold counter_main. destruct (typed_ok l Hl) as (Htl & Htlen & Htne).
  apply runs_bind. eapply puts_runs; [done.. | by apply litn_cstr | simpl; lia | done |]. intros s1 Hs1.
  set (v1 := show v _) in *. assert (Ht1 : on_terminal v1) by by apply on_terminal_show.
  eapply runs_step; [by apply (read_line s1 v1 l q buf 1023 Hs1) |].
  intros [cnt b] s2 (Hs2 & y & rest & [= -> ->] & Hb & Hby). rewrite (u32_id (zlen (typed l))) by (unfold zlen; lia).
  destruct (Z.eqb_spec (u32 (-1)) (zlen (typed l))) as [E|_]; [change (u32 (-1)) with 4294967295 in E; unfold zlen in E; lia |].
  eapply runs_lift_bind; [by apply cut_line |].
  eapply runs_lift_bind; [apply ece391_strlen_spec; [by apply cstr_array | unfold zlen; lia | lia] |].
  destruct (typed l) as [|c tl] eqn:Et; [done |].
  eapply runs_lift_bind; [by apply (aget_nat _ 0 c) |].
  assert (Hwrong : (1 <? zlen (c :: tl)) || ((zlen (c :: tl) =? 1) && ((c <? 48) || (50 <? c))) = true).
  { destruct tl as [|d tl]; [|rewrite !zlen_cons; pose proof (zlen_nonneg tl); lia]. destruct l as [|x l].
    - by injection Et as <-.
    - apply (f_equal length) in Et. unfold typed in Et. rewrite length_take, length_app in Et. cbn [length] in Et. lia. }
  rewrite Hwrong. apply runs_bind.
  eapply puts_runs; [done | | by apply litn_cstr | simpl; lia | done |].
  - by apply on_terminal_read; [lia |].
  - intros s3 Hs3. by apply runs_ret.
Qed.

Lemma testprint_main_spec s v :
  sees s v -> on_terminal v -> (200 <= fuel)%nat ->
  runs (testprint_main fuel) s (fun r s' => r = 0 /\
    sees s' (show v (text "Hello, if this ran, the program was correct. Yay!" ++ nl))).
Proof.
  intros Hv Ht Hf. apply runs_bind. eapply puts_runs; [done.. | by apply litn_cstr | simpl; lia | done |].
  intros s1 Hs1. by apply runs_ret.
Qed.

(** *** pingpong *)

(** A frame: the letter [ch] between two walls. *)
Definition bar (ch j : Z) : list Z := [32; 124] ++ <[Z.to_nat (j - 2) := ch]> (replicate 76 32) ++ [124; 10].
Definition next_char (ch : Z) : Z := if ch =? ENDCHAR then STARTCHAR else ch + 1.
Definition bounce (ch : Z) (v : view) : view := fold_left (fun v j => show v (bar ch j)) out_and_back v.
Fixpoint bounces (n : nat) (ch : Z) (v : view) : view :=
  match n with O => v | S n => bounces n (next_char ch) (bounce ch v) end.

Lemma blank_mid mid tl :
  length mid = 76%nat ->
  for_range STARTLOOP LOOPMAX (fun i b => aset b i 32) ([32; 124] ++ mid ++ tl) = Ok ([32; 124] ++ replicate 76 32 ++ tl).
Proof.
  intros Hm.
  destruct (for_range_inv (fun i b => b = [32; 124] ++ (replicate (Z.to_nat (i - 2)) 32 ++ drop (Z.to_nat (i - 2)) mid) ++ tl)
    (fun i b => aset b i 32) STARTLOOP LOOPMAX ([32; 124] ++ mid ++ tl)) as (b & E & ->).
  - done.
  - done.
  - intros i b Hi ->. change STARTLOOP with 2 in Hi. change LOOPMAX with 78 in Hi.
    destruct (lookup_lt_is_Some_2 mid (Z.to_nat (i - 2))) as [x Hx]; [lia |].
    rewrite (drop_S _ _ _ Hx). eexists. split.
    + rewrite <- app_assoc, (app_assoc [32; 124]). apply aset_app_mid. unfold zlen. rewrite length_app, length_replicate. cbn [length]. lia.
    + replace (Z.to_nat (i + 1 - 2)) with (S (Z.to_nat (i - 2))) by lia. rewrite replicate_S_end. by rewrite <- !app_assoc.
  - rewrite E. change LOOPMAX with 78. change (Z.to_nat (78 - 2)) with 76%nat. rewrite drop_ge, app_nil_r by lia. done.
Qed.

Lemma out_and_back_range : Forall (fun j => 2 <= j < 78) out_and_back.
Proof. apply Forall_forall. intros j Hj. unfold out_and_back in Hj. rewrite elem_of_app, elem_of_reverse in Hj. destruct Hj as [Hj|Hj]; apply elem_of_seqZ in Hj; change STARTLOOP with 2 in Hj; change LOOPMAX with 78 in Hj; lia. Qed.

Lemma bar_ok ch j : 65 <= ch <= 90 -> 2 <= j < 78 -> nonnul (bar ch j) /\ length (bar ch j) = 80%nat.
Proof.
  intros Hch Hj. split; [|unfold bar; rewrite !length_app, length_insert, length_replicate; done].
  unfold bar. apply Forall_app. split; [by apply nonnulb_ok |]. apply Forall_app. split; [|by apply nonnulb_ok].
  apply Forall_insert; [|unfold byte_ok; lia]. apply Forall_lookup. intros k c [-> _]%lookup_replicate. unfold byte_ok. lia.
Qed.

Lemma fold_show_inputs ch js v k :
  fold_left (fun v j => show v (bar ch j)) js (set_inputs v k) = set_inputs (fold_left (fun v j => show v (bar ch j)) js v) k.
Proof.
  revert v. induction js as [|j js IH]; intros v; [done |]. apply (IH (show v (bar ch j))).
Qed.

Lemma pingpong_frame_runs s v i ch j mid q :
  sees s v -> on_terminal v -> (2 <= i < 8)%nat -> fds v !! i = Some (Some HRtc) -> inputs v = Tick :: q ->
  65 <= ch <= 90 -> 2 <= j < 78 -> length mid = 76%nat -> (200 <= fuel)%nat ->
  runs (pingpong_frame fuel (Z.of_nat i) ch j ([32; 124] ++ mid ++ [124; 10; 0])) s (fun buf s' =>
    (exists mid', length mid' = 76%nat /\ buf = [32; 124] ++ mid' ++ [124; 10; 0]) /\
    sees s' (set_inputs (show v (bar ch j)) q)).
Proof.
  intros Hv Ht Hi Hfd Hin Hch Hj Hm Hf. destruct (bar_ok ch j Hch Hj) as (Hbn & Hbl). unfold pingpong_frame.
  eapply runs_lift_bind; [by apply blank_mid |].
  assert (Eb : aset ([32; 124] ++ replicate 76 32 ++ [124; 10; 0]) j ch = Ok (bar ch j ++ [0])).
  { rewrite aset_in by (change (zlen _) with 81; lia). unfold bar. rewrite insert_app_r_alt by (cbn [length]; lia).
    rewrite insert_app_l by (rewrite length_replicate; cbn [length]; lia). cbn [length].
    replace (Z.to_nat j - 2)%nat with (Z.to_nat (j - 2)) by lia. by rewrite <- !app_assoc. }
  eapply runs_lift_bind; [exact Eb |]. apply runs_bind.
  eapply puts_runs; [done | done | by apply (cstr_array _ []) | lia | unfold zlen; lia |]. intros s1 Hs1.
  eapply runs_step.
  { apply (read_spec s1 _ (Z.of_nat i) (replicate 4 0) 4 0 (replicate 4 0) (set_inputs (show v (bar ch j)) q) Hs1); [|lia].
    unfold view_read. replace ((Z.of_nat i <? 0) || (7 <? Z.of_nat i) || (Z.of_nat i =? 1)) with false by lia.
    rewrite Nat2Z.id. cbn [fds show set_scr inputs]. by rewrite Hfd, Hin. }
  intros x s2 [_ Hs2]. apply runs_ret. split; [|done].
  exists (<[Z.to_nat (j - 2) := ch]> (replicate 76 32)). split; [by rewrite length_insert, length_replicate |].
  unfold bar. by rewrite <- !app_assoc.
Qed.

Lemma pingpong_frames_runs js : forall s v i ch mid q,
  sees s v -> on_terminal v -> (2 <= i < 8)%nat -> fds v !! i = Some (Some HRtc) ->
  inputs v = replicate (length js) Tick ++ q -> 65 <= ch <= 90 -> Forall (fun j => 2 <= j < 78) js ->
  length mid = 76%nat -> (200 <= fuel)%nat ->
  runs (pingpong_frames fuel js (Z.of_nat i) ch ([32; 124] ++ mid ++ [124; 10; 0])) s (fun buf s' =>
    (exists mid', length mid' = 76%nat /\ buf = [32; 124] ++ mid' ++ [124; 10; 0]) /\
    sees s' (set_inputs (fold_left (fun v j => show v (bar ch j)) js v) q)).
Proof.
  induction js as [|j js IH]; intros s v i ch mid q Hv Ht Hi Hfd Hin Hch Hjs Hm Hf.
  - apply runs_ret. split; [by exists mid |]. simpl in Hin. rewrite <- Hin. by destruct v.
  - apply Forall_cons in Hjs as [Hj Hjs]. cbn [pingpong_frames].
    eapply runs_step; [by eapply (pingpong_frame_runs s v i ch j mid (replicate (length js) Tick ++ q)) |].
    intros buf s1 [(mid' & Hm' & ->) Hs1].
    set (v1 := set_inputs (show v (bar ch j)) (replicate (length js) Tick ++ q)) in *.
    eapply runs_mono; [by apply (IH s1 v1 i ch mid' q); [|destruct Ht; constructor|..] |].
    intros buf s' [Hb Hs']. split; [done |]. cbn [fold_left].
    unfold v1 in Hs'. by rewrite fold_show_inputs in Hs'.
Qed.

Lemma fold_show_fds ch js v : fds (fold_left (fun v j => show v (bar ch j)) js v) = fds v /\
  (on_terminal v -> on_terminal (fold_left (fun v j => show v (bar ch j)) js v)).
Proof.
  revert v. induction js as [|j js IH]; intros v; [done |]. destruct (IH (show v (bar ch j))) as [E Ht]. split; [exact E |].
  intros Hv. apply Ht. by apply on_terminal_show.
Qed.

Lemma bounce_inputs ch v k : bounce ch (set_inputs v k) = set_inputs (bounce ch v) k.
Proof. exact (fold_show_inputs ch out_and_back v k). Qed.

Lemma bounces_S n ch v : bounces (S n) ch v = bounces n (next_char ch) (bounce ch v).
Proof. reflexivity. Qed.

Lemma bounces_inputs n ch v k q : set_inputs (bounces n ch (set_inputs v k)) q = set_inputs (bounces n ch v) q.
Proof.
  revert ch v. induction n as [|n IH]; intros ch v; [done |].
  rewrite !bounces_S, bounce_inputs. apply IH.
Qed.

Lemma on_terminal_inputs v k : on_terminal v -> on_terminal (set_inputs v k).
Proof. by intros []. Qed.

Lemma fds_inputs v k : fds (set_inputs v k) = fds v.
Proof. done. Qed.

Lemma bounce_fds ch v : fds (bounce ch v) = fds v.
Proof. exact (proj1 (fold_show_fds ch out_and_back v)). Qed.

Lemma bounce_terminal ch v : on_terminal v -> on_terminal (bounce ch v).
Proof. exact (proj2 (fold_show_fds ch out_and_back v)). Qed.

Lemma pingpong_round_runs s v i ch mid q :
  sees s v -> on_terminal v -> (2 <= i < 8)%nat -> fds v !! i = Some (Some HRtc) ->
  inputs v = replicate (length out_and_back) Tick ++ q -> 65 <= ch <= 90 -> length mid = 76%nat -> (200 <= fuel)%nat ->
  runs (pingpong_frames fuel out_and_back (Z.of_nat i) ch ([32; 124] ++ mid ++ [124; 10; 0])) s (fun buf s' =>
    (exists mid', length mid' = 76%nat /\ buf = [32; 124] ++ mid' ++ [124; 10; 0]) /\
    sees s' (set_inputs (bounce ch v) q)).
Proof.
  intros Hv Ht Hi Hfd Hin Hch Hm Hf.
  exact (pingpong_frames_runs out_and_back s v i ch mid q Hv Ht Hi Hfd Hin Hch out_and_back_range Hm Hf).
Qed.

Lemma next_char_step ch : 65 <= ch <= 90 ->
  (if ch =? ENDCHAR then STARTCHAR else u8 (ch + 1)) = next_char ch /\ 65 <= next_char ch <= 90.
Proof.
  intros Hch. unfold next_char, ENDCHAR, STARTCHAR. destruct (Z.eqb_spec ch 90); [lia |]. rewrite u8_id by lia. lia.
Qed.

Lemma pingpong_loop_runs n : forall s v i ch mid q,
  sees s v -> on_terminal v -> (2 <= i < 8)%nat -> fds v !! i = Some (Some HRtc) ->
  inputs v = replicate (n * length out_and_back) Tick ++ q -> 65 <= ch <= 90 -> length mid = 76%nat -> (200 <= fuel)%nat ->
  runs (pingpong_loop fuel n (Z.of_nat i) ch ([32; 124] ++ mid ++ [124; 10; 0])) s (fun x s' =>
    x.1 = Nat.iter n next_char ch /\ sees s' (set_inputs (bounces n ch v) q)).
Proof.
  induction n as [|n IH]; intros s v i ch mid q Hv Ht Hi Hfd Hin Hch Hm Hf.
  - apply runs_ret. split; [done |]. simpl in *. rewrite <- Hin. by destruct v.
  - rewrite Nat.mul_succ_l, Nat.add_comm, replicate_add, <- app_assoc in Hin.
    set (q1 := replicate (n * length out_and_back) Tick ++ q) in *.
    destruct (next_char_step ch Hch) as (Enext & Hch'). cbn [pingpong_loop].
    eapply runs_step; [exact (pingpong_round_runs s v i ch mid q1 Hv Ht Hi Hfd Hin Hch Hm Hf) |].
    intros buf s1 [(mid' & Hm' & ->) Hs1]. rewrite Enext.
    assert (Ht1 : on_terminal (set_inputs (bounce ch v) q1)) by exact (on_terminal_inputs _ _ (bounce_terminal ch v Ht)).
    assert (Hfd1 : fds (set_inputs (bounce ch v) q1) !! i = Some (Some HRtc)).
    { rewrite fds_inputs, bounce_fds. exact Hfd. }
    eapply runs_mono; [exact (IH s1 _ i (next_char ch) mid' q Hs1 Ht1 Hi Hfd1 eq_refl Hch' Hm' Hf) |].
    intros x s' [Hx Hs']. rewrite bounces_inputs in Hs'. split; [|rewrite bounces_S; exact Hs'].
    rewrite Hx. by rewrite Nat.iter_succ_r.
Qed.

Lemma pingpong_init_runs s v i buf :
  sees s v -> file_named v (text "rtc") = Some NRtc -> free_fd v = Some i -> length buf = 81%nat ->
  runs (pingpong_init buf) s (fun x s' => x.1 = Z.of_nat i /\
    (exists mid, length mid = 76%nat /\ x.2 = [32; 124] ++ mid ++ [124; 10; 0]) /\
    sees s' (set_fds v (<[i := Some HRtc]> (fds v)))).
Proof.
  intros Hv Hrtc Hfree Hl. unfold pingpong_init. change BUFMAX with 81. change START with 1.
  pose proof (free_fd_range v i (sees_ok s v Hv) Hfree) as [Hi Hfd]. apply lookup_lt_Some in Hfd.
  destruct (for_range_inv (fun k b => b = replicate (Z.to_nat k) 32 ++ drop (Z.to_nat k) buf) (fun i b => aset b i 32) 0 81 buf)
    as (b & E & Eb); [lia | done | |].
  { intros k b Hk ->. destruct (lookup_lt_is_Some_2 buf (Z.to_nat k)) as [x Hx]; [lia |]. rewrite (drop_S _ _ _ Hx).
    eexists. split; [apply aset_app_mid; unfold zlen; rewrite length_replicate; lia |].
    replace (Z.to_nat (k + 1)) with (S (Z.to_nat k)) by lia. rewrite replicate_S_end. by rewrite <- app_assoc. }
  change (Z.to_nat 81) with 81%nat in Eb. rewrite drop_ge, app_nil_r in Eb by lia. subst b.
  eapply runs_lift_bind; [exact E |]. clear E.
  eapply runs_lift_bind; [reflexivity |]. eapply runs_lift_bind; [reflexivity |].
  eapply runs_lift_bind; [reflexivity |]. eapply runs_lift_bind; [reflexivity |].
  eapply runs_step; [apply (open_found s v _ (text "rtc") i NRtc Hv); [by apply cstr_lit, nonnulb_ok | done..] |].
  intros fd s1 [-> Hs1]. set (v1 := set_fds v (<[i := Some (handle_of NRtc)]> (fds v))) in *.
  eapply runs_step.
  { apply (write_spec s1 v1 (Z.of_nat i) (aget [32; 0; 0; 0]) [32; 0; 0; 0] 4 0 v1 Hs1); [| |lia].
    - intros k c Hc. split; [by apply aget_nat |]. revert k c Hc. apply Forall_lookup. repeat constructor; discriminate.
    - unfold view_write. replace ((Z.of_nat i <=? 0) || (7 <? Z.of_nat i)) with false by lia.
      rewrite Nat2Z.id. unfold v1. cbn [fds set_fds]. by rewrite list_lookup_insert_eq. }
  intros x s2 [_ Hs2]. apply runs_ret. split; [done |]. split; [|exact Hs2].
  exists (replicate 76 32). split; [done | reflexivity].
Qed.

Lemma pingpong_main_spec n s v i buf q :
  sees s v -> on_terminal v -> file_named v (text "rtc") = Some NRtc -> free_fd v = Some i ->
  inputs v = replicate (n * length out_and_back) Tick ++ q -> length buf = 81%nat -> (200 <= fuel)%nat ->
  runs (pingpong_main fuel n buf) s (fun _ s' =>
    sees s' (set_inputs (bounces n STARTCHAR (set_fds v (<[i := Some HRtc]> (fds v)))) q)).
Proof.
  intros Hv [Ht0 Ht1 Htr] Hrtc Hfree Hin Hl Hf. pose proof (free_fd_range v i (sees_ok s v Hv) Hfree) as [Hi Hfd].
  apply lookup_lt_Some in Hfd. eapply runs_step; [by apply (pingpong_init_runs s v i buf) |].
  intros [fd b] s1 (Efd & (mid & Hm & Eb) & Hs1). cbn [fst snd] in Efd, Eb. subst fd b.
  eapply runs_mono; [apply (pingpong_loop_runs n s1 _ i STARTCHAR mid q Hs1) |].
  - constructor; [|..|done]; cbn [fds set_fds]; by rewrite list_lookup_insert_ne by lia.
  - done.
  - by apply list_lookup_insert_eq.
  - exact Hin.
  - by unfold STARTCHAR.
  - done.
  - done.
  - intros x s' [_ Hs']. exact Hs'.
Qed.

(** *** shell *)

(** What a command does to the machine is a parameter: [does cmd v x v'] says
    that running [cmd] returns [x] and changes what there is to see to [v']. *)
Section Shell.
Context (does : list Z -> view -> Z -> view -> Prop).
Hypothesis execute_runs : forall s v cmd rest x v',
  sees s v -> nonnul cmd -> Forall byte_ok rest -> (20 <= length (cmd ++ 0%Z :: rest))%nat -> does cmd v x v' ->
  runs (ece391_execute (aget (cmd ++ 0 :: rest))) s (fun y s' => y = x /\ sees s' v').

Definition report (x : Z) (v : view) : view :=
  if -1 =? x then show v (text "no such command" ++ nl)
  else if 256 =? x then show v (text "program terminated by exception" ++ nl)
  else if negb (0 =? x) then show v (text "program terminated abnormally" ++ nl)
  else v.

(** The machine after the prompt and a line. *)
Definition prompted (v : view) (l : list Z) (q : list input) : view :=
  line_read (show v (text "391OS> ")) l 1023 q.

(** A dialogue of [n] lines with the shell: lines are commands but for empty ones,
    and the line [exit] ends it. *)
Inductive dialogue : nat -> view -> view -> Prop :=
| dia_exit v l q :
    on_terminal v -> inputs v = Typed l :: q -> take 127 l = text "exit" -> dialogue 1 v (prompted v l q)
| dia_empty n v q v' :
    on_terminal v -> inputs v = Typed [] :: q -> dialogue n (prompted v [] q) v' -> dialogue (S n) v v'
| dia_command n v l q x v1 v' :
    on_terminal v -> inputs v = Typed l :: q -> Forall (fun c => c <> 10) l -> nonnul l ->
    l <> [] -> take 127 l <> text "exit" -> does (take 127 l) (prompted v l q) x v1 -> on_terminal v1 ->
    dialogue n (report x v1) v' -> dialogue (S n) v v'.

(** The line in the buffer without its newline. *)
Lemma chop_line l y rest :
  nonnul l -> Forall (fun c => c <> 10) l -> exists cnt rest',
    (0 <? zlen (typed l)) = true /\
    (exists c, aget (typed l ++ y :: rest) (zlen (typed l) - 1) = Ok c /\
       cnt = if 10 =? c then zlen (typed l) - 1 else zlen (typed l)) /\
    aset (typed l ++ y :: rest) cnt 0 = Ok (take 127 l ++ 0 :: rest') /\
    length (take 127 l ++ 0 :: rest') = length (typed l ++ y :: rest) /\
    (rest' = y :: rest \/ rest' = rest).
Proof.
  intros Hl Hn. destruct (decide (length l <= 126)%nat) as [Hs|Hs].
  - exists (zlen l), (y :: rest). rewrite typed_short, take_ge by lia. rewrite zlen_app. change (zlen [10]) with 1.
    pose proof (zlen_nonneg l). split_and!.
    + lia.
    + exists 10. rewrite <- app_assoc. split; [by apply aget_app_mid; lia |]. simpl. lia.
    + rewrite <- app_assoc. by apply aset_app_mid.
    + rewrite <- app_assoc, !length_app. done.
    + by left.
  - rewrite typed_long by lia. assert (Hlt : length (take 127 l) = 127%nat) by (rewrite length_take; lia).
    exists 127, rest. assert (Hz : zlen (take 127 l) = 127) by (unfold zlen; by rewrite Hlt). rewrite Hz. split_and!.
    + done.
    + destruct (lookup_lt_is_Some_2 (take 127 l) 126) as [c Hc]; [lia |]. exists c. split.
      * apply (aget_nat _ 126). by apply lookup_app_l_Some.
      * apply lookup_take_Some in Hc as [Hc _]. pose proof (Forall_lookup_1 _ _ _ _ Hn Hc) as H0.
        cbv beta in H0. destruct (Z.eqb_spec 10 c); [congruence | done].
    + by apply aset_app_mid.
    + by rewrite !length_app.
    + by right.
Qed.

Lemma report_runs s v x Q :
  sees s v -> on_terminal v -> (200 <= fuel)%nat ->
  (forall s', sees s' (report x v) -> Q tt s') -> runs (shell_report fuel x) s Q.
Proof.
  intros Hv Ht Hf HQ. unfold report, shell_report in *.
  destruct (-1 =? x); [eapply puts_runs; [done.. | by apply litn_cstr | simpl; lia | done | done] |].
  destruct (256 =? x); [eapply puts_runs; [done.. | by apply litn_cstr | simpl; lia | done | done] |].
  destruct (negb (0 =? x)); [eapply puts_runs; [done.. | by apply litn_cstr | simpl; lia | done | done] |].
  apply runs_ret. by apply HQ.
Qed.

Lemma shell_line_runs s v l q buf :
  sees s v -> on_terminal v -> inputs v = Typed l :: q -> nonnul l -> Forall (fun c => c <> 10) l ->
  length buf = 1024%nat -> (200 <= fuel)%nat ->
  runs (shell_line fuel buf) s (fun r s' => sees s' (prompted v l q) /\
    exists rest, r = Some (take 127 l ++ 0 :: rest) /\ length (take 127 l ++ 0 :: rest) = 1024%nat /\
      (Forall byte_ok buf -> Forall byte_ok rest)).
Proof.
  intros Hv Ht Hin Hl Hn Hlen Hf. unfold shell_line.
  apply runs_bind. eapply puts_runs; [done.. | by apply cstr_lit, nonnulb_ok | simpl; lia | done |]. intros s1 Hs1.
  eapply runs_step; [apply (read_line s1 _ l q buf 1023 Hs1); [by apply on_terminal_show | done..] |].
  intros [cnt b] s2 (Hs2 & y & rest & [= -> ->] & Hb & Hby).
  destruct (Z.eqb_spec (-1) (zlen (typed l))); [unfold zlen in *; lia |].
  destruct (chop_line l y rest Hl Hn) as (c' & rest' & -> & (c & Hc & Ecnt) & Hset & Hlen' & Hrest).
  apply runs_bind, runs_bind. eapply runs_lift; [exact Hc |]. apply runs_ret. rewrite <- Ecnt.
  eapply runs_lift_bind; [exact Hset |]. apply runs_ret. split; [done |]. exists rest'.
  split_and!; [done | by rewrite Hlen' |]. intros Hbb. destruct Hrest as [-> | ->]; [by apply Hby |].
  eapply Forall_inv_tail. by apply Hby.
Qed.

Lemma take_nonnul n l : nonnul l -> nonnul (take n l).
Proof. apply Forall_take. Qed.

Lemma shell_loop_runs n v v' :
  dialogue n v v' -> forall k s buf, sees s v -> length buf = 1024%nat -> Forall byte_ok buf -> (n <= k)%nat -> (200 <= fuel)%nat ->
  runs (shell_loop fuel k buf) s (fun r s' => r = 0 /\ sees s' v').
Proof.
  assert (Hcmp : forall l rest, nonnul l -> length (take 127 l ++ 0 :: rest) = 1024%nat -> (200 <= fuel)%nat ->
    exists c, ece391_strcmp fuel (aget (take 127 l ++ 0 :: rest)) (lit "exit") = Ok c /\
      (c = 0 <-> take 127 l = text "exit")).
  { intros l rest Hl Hlen Hf. apply ece391_strcmp_spec; [by apply cstr_array, take_nonnul | by apply cstr_lit, nonnulb_ok |].
    rewrite length_take. lia. }
  induction 1 as [v l q Ht Hin Hexit | n v q v' Ht Hin _ IH | n v l q x v1 v' Ht Hin Hn Hl Hne Hnx Hdo Ht1 _ IH];
    intros k s buf Hv Hlen Hbb Hk Hf; (destruct k as [|k]; [lia |]); cbn [shell_loop].
  - assert (El : l = text "exit").
    { rewrite <- (take_drop 127 l), Hexit. rewrite drop_ge; [done |].
      apply (f_equal length) in Hexit. rewrite length_take in Hexit. change (length (text "exit")) with 4%nat in Hexit. lia. }
    subst l. eapply runs_step; [apply (shell_line_runs s v (text "exit") q buf); try done; [by apply nonnulb_ok | by repeat constructor] |].
    intros r s2 (Hs2 & rest & -> & Hb & Hr). destruct (Hcmp _ _ (nonnulb_ok (text "exit") eq_refl) Hb Hf) as (c & E & Hc).
    eapply runs_lift_bind; [exact E |]. rewrite (proj2 Hc eq_refl). by apply runs_ret.
  - eapply runs_step; [apply (shell_line_runs s v [] q buf); done || constructor |].
    intros r s2 (Hs2 & rest & -> & Hb & Hr). destruct (Hcmp [] rest (Forall_nil_2 _) Hb Hf) as (c & E & Hc).
    eapply runs_lift_bind; [exact E |]. destruct (Z.eqb_spec 0 c) as [<-|]; [discriminate (proj1 Hc eq_refl) |].
    eapply runs_lift_bind; [by apply (aget_nat _ 0 0) |]. apply IH; [done | done | | lia | done].
    apply Forall_cons. split; [by unfold byte_ok | by apply Hr].
  - eapply runs_step; [by apply (shell_line_runs s v l q buf) |].
    intros r s2 (Hs2 & rest & -> & Hb & Hr). destruct (Hcmp l rest Hl Hb Hf) as (c & E & Hc).
    eapply runs_lift_bind; [exact E |]. destruct (Z.eqb_spec 0 c) as [<-|]; [destruct (Hnx (proj1 Hc eq_refl)) |].
    destruct l as [|d l]; [done |]. eapply runs_lift_bind; [by apply (aget_nat _ 0 d) |].
    apply Forall_cons in Hl as Hd. destruct Hd as [[Hd _] _]. destruct (Z.eqb_spec 0 d); [lia |].
    eapply runs_step; [eapply (execute_runs s2 _ (take 127 (d :: l)) rest x v1 Hs2); [by apply take_nonnul | by apply Hr | lia | done] |].
    intros y s3 [-> Hs3]. apply runs_bind. eapply (report_runs s3 v1 x); [done.. |].
    intros s4 Hs4. apply IH; [done | done | | lia | done].
    apply Forall_app. split; [by eapply Forall_impl; [by apply take_nonnul | intros c0 []] |].
    apply Forall_cons. split; [by unfold byte_ok | by apply Hr].
Qed.

Lemma shell_main_spec n s v v' buf :
  sees s v -> on_terminal v -> dialogue n (show v (text "Starting 391 Shell" ++ nl)) v' ->
  length buf = 1024%nat -> Forall byte_ok buf -> (n <= fuel)%nat -> (200 <= fuel)%nat ->
  runs (shell_main fuel buf) s (fun r s' => r = 0 /\ sees s' v').
Proof.
  intros Hv Ht Hd Hlen Hbb Hn Hf. apply runs_bind.
  eapply puts_runs; [done.. | by apply litn_cstr | simpl; lia | done |]. intros s1 Hs1.
  by eapply shell_loop_runs.
Qed.
End Shell.
End Facts.
