(* ===== verification/Grep.v ===== *)
(** * The correctness of grep

    [do_one_file] of [src/syscalls/ece391grep.c] (the code is in [Programs.v])
    reads a file through a buffer of 1024 bytes, and carries the incomplete line
    at its end over to the next round. Against the specification: the lines of the
    whole file that have the pattern as a substring. *)

From stdpp Require Import strings.
From S2P Require Import Prelude Strings Console Handlers User Userlib Programs.

Local Open Scope Z_scope.
Local Open Scope user_scope.

(** ** Specification *)

(** What lies between the newlines. *)
Fixpoint lines (l : list Z) : list (list Z) :=
  match l with
  | [] => [[]]
  | c :: l =>
      if c =? 10 then [] :: lines l
      else match lines l with x :: xs => (c :: x) :: xs | [] => [[c]] end
  end.

Fixpoint contains (pat l : list Z) : bool :=
  match l with
  | [] => false
  | c :: l => bool_decide (pat `prefix_of` c :: l) || contains pat l
  end.

(** A matching line, printed after the name of its file. *)
Definition show_match (name : list Z) (v : view) (l : list Z) : view :=
  show (show (show (show v name) (text ":")) l) nl.

Definition grep_out (name pat : list Z) (v : view) (ls : list (list Z)) : view :=
  fold_left (show_match name) (filter (fun l => contains pat l = true) ls) v.

(** ** Lists of lines *)

Lemma contains_spec pat l : pat <> [] -> contains pat l = true <-> exists a b, l = a ++ pat ++ b.
Proof.
  intros Hne. induction l as [|c l IH]; simpl.
  - split; [done |]. intros (a & b & E). destruct a, pat; done.
  - rewrite orb_true_iff, bool_decide_eq_true, IH. split.
    + intros [[b E]|(a & b & ->)]; [by exists [], b | by exists (c :: a), b].
    + intros ([|x a] & b & E); [left; by exists b |]. injection E as -> E. right. eauto.
Qed.

Lemma lines_plain p : Forall (fun c => c <> 10) p -> lines p = [p].
Proof.
  induction 1 as [|c p Hc _ IH]; simpl; [done |]. destruct (Z.eqb_spec c 10); [done |]. by rewrite IH.
Qed.

Lemma lines_nl p b : Forall (fun c => c <> 10) p -> lines (p ++ 10 :: b) = p :: lines b.
Proof.
  induction 1 as [|c p Hc _ IH]; simpl; [done |]. destruct (Z.eqb_spec c 10); [done |]. by rewrite IH.
Qed.

(** A text without newlines, or cut at the first one. *)
Lemma first_line u :
  Forall (fun c => c <> 10) u \/ exists l u', u = l ++ 10 :: u' /\ Forall (fun c => c <> 10) l.
Proof.
  induction u as [|c u [IH|(l & u' & -> & Hl)]]; [by left; constructor | |].
  - destruct (decide (c = 10)) as [->|Hc]; [right; by exists [], u | left; by constructor].
  - right. destruct (decide (c = 10)) as [->|Hc]; [by exists [], (l ++ 10 :: u') | exists (c :: l), u'].
    split; [done | by constructor].
Qed.

(** The lines of a text that goes on: its last line goes on. *)
Lemma lines_split u : exists init p c0, lines u = init ++ [p] /\ u = c0 ++ p /\ Forall (fun c => c <> 10) p /\
  (forall b, lines (u ++ b) = init ++ lines (p ++ b)).
Proof.
  induction u as [u IH] using (well_founded_induction (well_founded_ltof _ length)).
  destruct (first_line u) as [Hu|(l & u' & -> & Hl)].
  - exists [], u, []. split_and!; [by apply lines_plain | done..].
  - destruct (IH u') as (init & p & c0 & E & -> & Hp & Happ); [unfold ltof; rewrite length_app; simpl; lia |].
    exists (l :: init), p, (l ++ 10 :: c0). split_and!; [by rewrite lines_nl, E | by rewrite <- app_assoc | done |].
    intros b. rewrite <- app_assoc. simpl. by rewrite lines_nl, Happ.
Qed.

Lemma lines_cons_plain p b : Forall (fun c => c <> 10) p ->
  exists x xs, lines b = x :: xs /\ lines (p ++ b) = (p ++ x) :: xs.
Proof.
  intros Hp. induction Hp as [|c p Hc _ (x & xs & E1 & E2)]; simpl.
  - destruct b as [|c b]; simpl; [by eexists _, _ |]. destruct (c =? 10); [by eexists _, _ |].
    destruct (lines b); by eexists _, _.
  - exists x, xs. split; [done |]. destruct (Z.eqb_spec c 10); [done |]. by rewrite E2.
Qed.

Lemma grep_out_app name pat v a b : grep_out name pat v (a ++ b) = grep_out name pat (grep_out name pat v a) b.
Proof. unfold grep_out. by rewrite filter_app, fold_left_app. Qed.

Lemma grep_out_nil name pat v : grep_out name pat v [[]] = v.
Proof. done. Qed.

(** Printing changes the screen only. *)
Lemma grep_out_scr name pat v ls : grep_out name pat v ls = set_scr v (scr (grep_out name pat v ls)).
Proof.
  unfold grep_out. generalize (filter (fun l => contains pat l = true) ls) as ms. intros ms.
  revert v. induction ms as [|m ms IH]; intros v; simpl; [by destruct v |]. by rewrite IH.
Qed.

Lemma grep_out_fds name pat v ls : fds (grep_out name pat v ls) = fds v.
Proof. by rewrite grep_out_scr. Qed.

(** Changing the descriptors, or the directory's position, commutes with printing. *)
Lemma show_match_set_fds name v m f : show_match name (set_fds v f) m = set_fds (show_match name v m) f.
Proof.
  assert (E : forall w t, show (set_fds w f) t = set_fds (show w t) f) by done.
  unfold show_match. by rewrite !E.
Qed.

Lemma show_match_set_dirpos name v m k : show_match name (set_dirpos v k) m = set_dirpos (show_match name v m) k.
Proof.
  assert (E : forall w t, show (set_dirpos w k) t = set_dirpos (show w t) k) by done.
  unfold show_match. by rewrite !E.
Qed.

Lemma grep_out_set_fds name pat v ls f :
  grep_out name pat (set_fds v f) ls = set_fds (grep_out name pat v ls) f.
Proof.
  unfold grep_out. generalize (filter (fun l => contains pat l = true) ls) as ms. intros ms.
  revert v. induction ms as [|m ms IH]; intros v; simpl; [done |]. by rewrite show_match_set_fds, IH.
Qed.

Lemma set_fds_id v : set_fds v (fds v) = v.
Proof. by destruct v. Qed.

(** ** The loops over the buffer *)

Lemma find_line_end_spec n a u b :
  forall k, (length u < n)%nat -> k = zlen a ->
  exists l, find_line_end n (a ++ u ++ b) (zlen a + zlen u) k = Ok (zlen a + zlen l) /\
    Forall (fun c => c <> 10) l /\ (l = u \/ exists u', u = l ++ 10 :: u').
Proof.
  revert n a. induction u as [|c u IH]; intros n a k Hn ->; (destruct n as [|n]; [simpl in Hn; lia |]);
    cbn [find_line_end].
  - exists []. destruct (Z.ltb_spec (zlen a) (zlen a + zlen (@nil Z))) as [Hx|_];
      [change (zlen (@nil Z)) with 0 in Hx; lia |].
    split_and!; [change (zlen (@nil Z)) with 0; by rewrite Z.add_0_r | constructor | by left].
  - rewrite zlen_cons. pose proof (zlen_nonneg u).
    destruct (Z.ltb_spec (zlen a) (zlen a + (1 + zlen u))); [|lia].
    cbn [app]. rewrite aget_app_mid by done. rstep. destruct (Z.eqb_spec 10 c) as [<-|Hc]; cbn [negb].
    + exists []. change (zlen (@nil Z)) with 0. rewrite Z.add_0_r. split_and!; [done | constructor |]. right. by exists u.
    + destruct (IH n (a ++ [c]) (zlen a + 1) ltac:(simpl in Hn; lia)) as (l & E & Hl & Hu); [by rewrite zlen_app |].
      rewrite snoc_shift, zlen_app in E. change (zlen [c]) with 1 in E.
      exists (c :: l). rewrite zlen_cons, !Z.add_assoc. rewrite E. split_and!; [done | by constructor; [lia |] |].
      destruct Hu as [->|(u' & ->)]; [by left | right; by exists u'].
Qed.

Lemma find_line_end_first n a l u b :
  Forall (fun c => c <> 10) l -> (length l + length u + 1 < n)%nat ->
  find_line_end n (a ++ (l ++ 10 :: u) ++ b) (zlen a + zlen (l ++ 10 :: u)) (zlen a) = Ok (zlen a + zlen l).
Proof.
  intros Hl Hn. destruct (find_line_end_spec n a (l ++ 10 :: u) b (zlen a)) as (l' & E & Hl' & Hu);
    [rewrite length_app; simpl; lia | done |].
  rewrite E. do 3 f_equal. destruct Hu as [->|(u' & E')].
  - apply Forall_app in Hl' as [_ Hx]. by apply Forall_cons in Hx as [? _].
  - clear E. revert l' Hl' E'. induction Hl as [|c l Hc _ IH]; intros [|c' l'] Hl' E'; simpl in E'; try congruence.
    + injection E' as <- _. by apply Forall_cons in Hl' as [? _].
    + injection E' as -> E'. f_equal. apply IH; [simpl in Hn; lia | by apply Forall_cons in Hl' as [_ ?] | done].
Qed.

Section Search.
Context (pat : list Z) (s : reader).
Hypothesis Hpat : cstr s pat.
Hypothesis Hne : pat <> [].
(** The first character is compared as a [char]. *)
Hypothesis Hascii : forall c, pat !! 0%nat = Some c -> c < 128.

Lemma search_line_spec n a l b :
  nonnul l -> (length l < n)%nat ->
  search_line n (a ++ l ++ 0 :: b) s (zlen pat) (zlen a) (zlen a + zlen l) = Ok (contains pat l).
Proof.
  intros Hl. revert n a. induction Hl as [|d l [Hd Hdb] Hl IH]; intros n a Hn;
    (destruct n as [|n]; [simpl in Hn; lia |]); cbn [search_line contains].
  - change (zlen (@nil Z)) with 0. by destruct (Z.ltb_spec (zlen a) (zlen a + 0)); [lia |].
  - rewrite zlen_cons. pose proof (zlen_nonneg l). destruct (Z.ltb_spec (zlen a) (zlen a + (1 + zlen l))); [|lia].
    destruct pat as [|c0 pat'] eqn:Epat; [done |]. rewrite <- Epat in *.
    assert (Hc0 : pat !! 0%nat = Some c0) by by rewrite Epat.
    destruct (proj1 Hpat 0%nat c0 Hc0) as (Es0 & Hc0n & Hc0b).
    change (Z.of_nat 0) with 0 in Es0. rewrite Es0. rstep.
    cbn [app]. rewrite aget_app_mid by done. rstep. specialize (Hascii c0 Hc0). unfold byte_ok in *.
    assert (Es8 : s8 c0 = c0) by (unfold s8; rewrite u8_id by lia; by destruct (Z.ltb_spec c0 (2 ^ 7)); [|lia]).
    rewrite Es8.
    assert (Hnext : search_line n (a ++ d :: l ++ 0 :: b) s (zlen pat) (zlen a + 1) (zlen a + (1 + zlen l)) =
      Ok (contains pat l)).
    { pose proof (IH n (a ++ [d]) ltac:(simpl in Hn; lia)) as E. rewrite snoc_shift, zlen_app in E.
      change (zlen [d]) with 1 in E. by rewrite Z.add_assoc. }
    destruct (Z.eqb_spec c0 d) as [->|Hcd].
    + assert (Hcs : cstr (roff (aget (a ++ d :: l ++ 0 :: b)) (zlen a)) (d :: l)) by (apply (cstr_conv a (d :: l) b); by constructor).
      destruct (ece391_strncmp_prefix _ _ _ _ Hcs Hpat Hne) as (r & -> & Hr). rstep.
      destruct (Z.eqb_spec 0 r) as [<-|Hr0].
      * rewrite bool_decide_true by by apply Hr. done.
      * rewrite bool_decide_false by (intros Hp; apply Hr0; symmetry; by apply Hr). exact Hnext.
    + rewrite bool_decide_false; [exact Hnext |]. rewrite Epat. by intros ?%prefix_cons_inv_1.
Qed.
End Search.

(** ** One file *)

Section File.
Context `{Os St} `{!OsSpec St} (fuel : nat).
Context (pat name : list Z) (s fname : reader).
Hypothesis Hpat : cstr s pat.
Hypothesis Hname : cstr fname name.
Hypothesis Hne : pat <> [].
Hypothesis Hascii : forall c, pat !! 0%nat = Some c -> c < 128.
Hypothesis Hnlen : zlen name <= 32.
Hypothesis Hfuel : (2000 <= fuel)%nat.

(** Printing a line that matches. *)
Lemma show_match_runs m v r l Q :
  sees m v -> fds v !! 1%nat = Some (Some HTerm) -> cstr r l -> (length l <= 1024)%nat ->
  (forall m', sees m' (show_match name v l) -> Q tt m') ->
  runs (do* uputs fuel fname ;; do* uputs fuel (lit ":") ;; do* uputs fuel r ;; uputs fuel (aget (nl ++ [0])))%U m Q.
Proof.
  intros Hv H1 Hr Hl HQ. unfold zlen in Hnlen.
  apply runs_bind. eapply fdputs_runs; [done.. | unfold zlen; lia | lia |]. intros m1 Hm1.
  apply runs_bind. eapply fdputs_runs; [done.. | by apply cstr_lit, nonnulb_ok | done | simpl; lia |]. intros m2 Hm2.
  apply runs_bind. eapply fdputs_runs; [done.. | unfold zlen; lia | lia |]. intros m3 Hm3.
  eapply fdputs_runs; [done.. | by apply (cstr_array nl []), nonnulb_ok | done | simpl; lia |]. done.
Qed.

(** How the inner loop leaves the buffer: it has printed all the lines, or all but
    an incomplete one, which it has moved to the front. *)
Definition lines_done (v : view) (u : list Z) (cnt last : Z) (r : list Z * Z) (m : St) : Prop :=
  length r.1 = 1025%nat /\ r.1 !! 1024%nat <> Some 10 /\
  exists init p, lines u = init ++ [p] /\
  ((r.2 = 0 /\ sees m (grep_out name pat v (init ++ [p])) /\ (p = [] \/ cnt = 0 \/ last < 1024)) \/
   (r.2 = zlen p /\ take (length p) r.1 = p /\ cnt <> 0 /\ sees m (grep_out name pat v init))).

(** The line between [a] and the NUL put at its end is searched, and printed. *)
Lemma grep_line_runs m v a l b Q :
  sees m v -> fds v !! 1%nat = Some (Some HTerm) -> nonnul l -> (length l <= 1024)%nat ->
  (forall m', sees m' (grep_out name pat v [l]) -> Q tt m') ->
  runs (grep_line fuel s fname (zlen pat) (a ++ l ++ 0 :: b) (zlen a) (zlen a + zlen l)) m Q.
Proof.
  intros Hv H1 Hl Hlen HQ. unfold grep_line, grep_out in *.
  eapply runs_lift_bind; [apply search_line_spec; [done.. | lia] |]. destruct (contains pat l) eqn:Ec.
  - rewrite filter_cons_True in HQ by done. by eapply show_match_runs; [done.. | by apply (cstr_conv a l b) | done |].
  - rewrite filter_cons_False in HQ by by rewrite Ec. apply runs_ret. by apply HQ.
Qed.

Lemma nth_1024_set (data : list Z) i x :
  data !! 1024%nat <> Some 10 -> x <> 10 -> <[i := x]> data !! 1024%nat <> Some 10.
Proof.
  intros Hd Hx. destruct (decide (i = 1024%nat)) as [->|]; [|by rewrite list_lookup_insert_ne].
  destruct (decide (1024 < length data)%nat); [rewrite list_lookup_insert_eq by done; congruence |].
  by rewrite list_insert_ge by lia.
Qed.

Lemma lines_done_cons v l u cnt last r m :
  Forall (fun c => c <> 10) l -> lines_done (grep_out name pat v [l]) u cnt last r m ->
  lines_done v (l ++ 10 :: u) cnt last r m.
Proof.
  intros Hl (Hlen & H1024 & init & p & E & Hcase). split_and!; [done.. |]. exists (l :: init), p.
  split; [by rewrite lines_nl, E |]. rewrite <- !grep_out_app in Hcase. exact Hcase.
Qed.

(** The last line in the buffer: an incomplete one is moved to the front, unless
    it is at the front, the file is at its end, or a newline happens to follow. *)
Lemma last_line_runs n m v a u c b cnt :
  sees m v -> fds v !! 1%nat = Some (Some HTerm) -> nonnul u -> Forall (fun c => c <> 10) u ->
  length (a ++ u ++ c :: b) = 1025%nat -> (a ++ u ++ c :: b) !! 1024%nat <> Some 10 -> (length u <= 1023)%nat ->
  runs (grep_lines fuel (S n) s fname (zlen pat) cnt (a ++ u ++ c :: b) (zlen a + zlen u) (zlen a)) m
    (lines_done v u cnt (zlen a + zlen u)).
Proof.
  intros Hv H1 Hu Hnl Hlen H1024 Hshort. pose proof Hlen as Hl2. rewrite !length_app in Hl2. simpl in Hl2.
  assert (Hat : zlen a + zlen u = zlen (a ++ u)) by by rewrite zlen_app.
  assert (Hset : <[Z.to_nat (zlen (a ++ u)) := 0]> (a ++ u ++ c :: b) = a ++ u ++ 0 :: b).
  { unfold zlen. by rewrite Nat2Z.id, app_assoc, insert_app_r_alt, Nat.sub_diag, <- app_assoc by done. }
  assert (H1024' : (a ++ u ++ 0 :: b) !! 1024%nat <> Some 10) by (rewrite <- Hset; by apply nth_1024_set).
  cbn [grep_lines]. destruct (find_line_end_spec fuel a u (c :: b) (zlen a)) as (l & El & Hl & Hul); [lia | done |].
  assert (l = u) as ->.
  { destruct Hul as [|(u' & ->)]; [done |]. apply Forall_app in Hnl as [_ Hx]. by apply Forall_cons in Hx as [? _]. }
  eapply runs_lift_bind; [exact El |].
  eapply runs_lift_bind; [rewrite app_assoc, Hat; by apply aget_app_mid |].
  eapply runs_lift_bind; [rewrite app_assoc, Hat; by apply aset_app_mid |]. rewrite <- (app_assoc a u).
  destruct (negb (10 =? c) && negb (0 =? cnt) && negb (zlen a =? 0)) eqn:Ec.
  - eapply runs_lift_bind.
    { apply (ece391_strcpy_down fuel _ (length a) u b Hu); [by rewrite drop_app_length | lia]. }
    apply runs_ret. split_and!; simpl.
    + rewrite length_app. simpl. rewrite length_drop, !length_app. simpl. lia.
    + rewrite lookup_app_r by lia. destruct (1024 - length u)%nat as [|k] eqn:Ek; [lia |]. simpl.
      rewrite lookup_drop. by replace (S (length u) + k)%nat with 1024%nat by lia.
    + exists [], u. split; [by apply lines_plain |]. right. split_and!; [lia | by apply take_app_length | lia | done].
  - apply runs_bind. apply grep_line_runs with (v := v); [done.. | lia |]. intros m1 Hm1.
    destruct (Z.leb_spec (zlen a + zlen u) (zlen a + zlen u + 1)); [|lia]. apply runs_ret. split_and!; simpl.
    + rewrite !length_app. simpl. lia.
    + done.
    + exists [], u. split; [by apply lines_plain |]. left. split_and!; [done | done |]. right.
      unfold zlen in *. destruct (Z.eqb_spec 0 cnt); [by left | right].
      destruct (Z.eqb_spec 10 c) as [<-|]; [|lia].
      destruct (decide (length (a ++ u) = 1024%nat)) as [E|]; [|rewrite length_app in *; lia].
      exfalso. apply H1024. rewrite app_assoc, lookup_app_r, E, Nat.sub_diag by lia. done.
Qed.

Lemma grep_lines_runs n : forall m v a u b cnt,
  sees m v -> fds v !! 1%nat = Some (Some HTerm) -> nonnul u ->
  length (a ++ u ++ b) = 1025%nat -> (a ++ u ++ b) !! 1024%nat <> Some 10 -> (length (a ++ u) <= 1024)%nat ->
  Forall (fun l => (length l <= 1023)%nat) (lines u) -> (length u < n)%nat ->
  runs (grep_lines fuel n s fname (zlen pat) cnt (a ++ u ++ b) (zlen a + zlen u) (zlen a)) m
    (lines_done v u cnt (zlen a + zlen u)).
Proof.
  induction n as [|n IH]; intros m v a u b cnt Hv H1 Hu Hlen H1024 Hau Hshort Hn; [lia |].
  pose proof Hlen as Hlen'. rewrite !length_app in Hlen'. rewrite length_app in Hau.
  destruct (first_line u) as [Hnl|(l & u' & -> & Hl)].
  { destruct b as [|c b]; [simpl in Hlen'; lia |]. rewrite lines_plain in Hshort by done.
    apply Forall_cons in Hshort as [Hshort _]. apply last_line_runs; done || lia. }
  rewrite lines_nl in Hshort by done. apply Forall_cons in Hshort as [Hll Hshort].
  apply Forall_app in Hu as [Hul Hu']. apply Forall_cons in Hu' as [_ Hu'].
  rewrite length_app in Hlen', Hau, Hn. simpl in Hlen', Hau, Hn.
  assert (Ez : zlen (l ++ 10 :: u') = zlen l + 1 + zlen u') by (rewrite zlen_app, zlen_cons; lia).
  pose proof (find_line_end_first fuel a l u' b Hl ltac:(lia)) as El. rewrite <- app_assoc in *. simpl app in *.
  assert (Hat : zlen a + zlen l = zlen (a ++ l)) by by rewrite zlen_app.
  cbn [grep_lines]. eapply runs_lift_bind; [exact El |].
  eapply runs_lift_bind; [rewrite app_assoc, Hat; by apply aget_app_mid |].
  eapply runs_lift_bind; [rewrite app_assoc, Hat; by apply aset_app_mid |]. rewrite <- (app_assoc a l).
  cbn [Z.eqb Pos.eqb negb andb].
  apply runs_bind. apply grep_line_runs with (v := v); [done.. | lia |]. intros m1 Hm1.
  assert (Hdone : forall r m2, lines_done (grep_out name pat v [l]) u' cnt (zlen a + zlen (l ++ 10 :: u')) r m2 ->
    lines_done v (l ++ 10 :: u') cnt (zlen a + zlen (l ++ 10 :: u')) r m2) by (intros; by apply lines_done_cons).
  assert (H1024' : (a ++ l ++ 0 :: u' ++ b) !! 1024%nat <> Some 10).
  { rewrite app_assoc in H1024 |- *. pose proof (nth_1024_set _ (length (a ++ l)) 0 H1024 ltac:(done)) as Hx.
    by rewrite insert_app_r_alt, Nat.sub_diag in Hx by done. }
  assert (Hlen0 : length (a ++ l ++ 0 :: u' ++ b) = 1025%nat) by (rewrite !length_app; simpl; rewrite length_app; lia).
  destruct (Z.leb_spec (zlen a + zlen (l ++ 10 :: u')) (zlen a + zlen l + 1)) as [Hend|Hmore].
  - apply runs_ret, Hdone. assert (u' = []) as -> by (destruct u'; [done | rewrite zlen_cons in Ez; pose proof (zlen_nonneg u'); lia]).
    split_and!; [done.. |]. exists [], []. split; [done |]. left. split_and!; [done | exact Hm1 | by left].
  - assert (Ea : a ++ l ++ 0 :: u' ++ b = (a ++ l ++ [0]) ++ u' ++ b) by by rewrite <- !app_assoc.
    rewrite Ea in *. assert (Ezl : zlen (a ++ l ++ [0]) = zlen a + zlen l + 1) by (rewrite !zlen_app; change (zlen [0]) with 1; lia).
    eapply runs_mono; [|intros r m2; apply Hdone]. rewrite Ez, <- Ezl, Z.add_assoc.
    replace (zlen a + (zlen l + 1) + zlen u') with (zlen (a ++ l ++ [0]) + zlen u') by lia.
    apply IH; try done.
    + rewrite grep_out_fds. done.
    + rewrite !length_app. simpl. lia.
    + lia.
Qed.
(** What the buffer holds of the next part of the file: lines that are all short
    stay short when the text is cut. *)
Lemma lines_short_cut u rest :
  Forall (fun l => (length l <= 1023)%nat) (lines (u ++ rest)) -> Forall (fun l => (length l <= 1023)%nat) (lines u).
Proof.
  destruct (lines_split u) as (init & p & c0 & -> & _ & Hp & ->).
  destruct (lines_cons_plain p rest Hp) as (x & xs & _ & ->). intros [Hi Hx]%Forall_app. apply Forall_app. split; [done |].
  apply Forall_cons in Hx as [Hx _]. rewrite length_app in Hx. apply Forall_cons. split; [lia | constructor].
Qed.

Lemma grep_out_blank v init : grep_out name pat v (init ++ [[]]) = grep_out name pat v init.
Proof. by rewrite grep_out_app. Qed.

(** The inner loop's result, as part of the whole text. *)
Lemma lines_done_more v u rest cnt last res m :
  nonnul u -> Forall (fun l => (length l <= 1023)%nat) (lines (u ++ rest)) -> lines_done v u cnt last res m ->
  exists init p, lines (u ++ rest) = init ++ lines (p ++ rest) /\ Forall (fun c => c <> 10) p /\ nonnul p /\
    (length p <= 1023)%nat /\ Forall (fun l => (length l <= 1023)%nat) (lines (p ++ rest)) /\
    ((res.2 = 0 /\ sees m (grep_out name pat v (init ++ [p])) /\ (p = [] \/ cnt = 0 \/ last < 1024)) \/
     (res.2 = zlen p /\ take (length p) res.1 = p /\ cnt <> 0 /\ sees m (grep_out name pat v init))).
Proof.
  intros Hu Hshort (_ & _ & init & p & E & Hcase).
  destruct (lines_split u) as (init' & p' & c0 & E' & Eu & Hp & Happ). rewrite E' in E.
  apply app_inj_tail in E as [-> ->]. rewrite Happ in Hshort |- *. apply Forall_app in Hshort as [_ Hshort].
  exists init, p. destruct (lines_cons_plain p rest Hp) as (x & xs & _ & Ex). pose proof Hshort as Hpl. rewrite Ex in Hpl.
  apply Forall_cons in Hpl as [Hpl _]. rewrite length_app in Hpl.
  split_and!; [done | done | | lia | done | done]. rewrite Eu in Hu. by apply Forall_app in Hu as [_ ?].
Qed.

(** The part of a file that a read takes, and what is left. *)
Lemma read_part (content : list Z) pos k : (pos <= length content)%nat ->
  let cs := take k (drop pos content) in
  drop pos content = cs ++ drop (pos + length cs) content /\ (length cs <= k)%nat /\
  (pos + length cs <= length content)%nat /\
  ((length cs < k)%nat -> drop (pos + length cs) content = []) /\ ((0 < k)%nat -> cs = [] -> pos = length content).
Proof.
  intros Hpos cs. assert (Hcs : length cs = (k `min` (length content - pos))%nat)
    by (unfold cs; rewrite length_take, length_drop; lia).
  split_and!; [|lia | lia | intros; apply drop_ge; lia | intros ? E; rewrite E in Hcs; simpl in Hcs; lia].
  unfold cs at 1. rewrite <- (take_drop k (drop pos content)) at 1. f_equal. rewrite drop_drop.
  destruct (decide (k <= length content - pos)%nat); [by rewrite Hcs, Nat.min_l by lia |].
  by rewrite !drop_ge by lia.
Qed.

(** A round of the outer loop up to its end. *)
Lemma grep_round_runs m v i content pos r rest cs (Q : list Z * Z -> St -> Prop) :
  sees m v -> fds v !! 1%nat = Some (Some HTerm) -> (2 <= i < 8)%nat -> nonnul r -> nonnul cs ->
  length (r ++ rest) = 1025%nat -> (r ++ rest) !! 1024%nat <> Some 10 -> (length r + length cs <= 1024)%nat ->
  Forall (fun l => (length l <= 1023)%nat) (lines (r ++ cs ++ drop pos content)) ->
  (forall res m', length res.1 = 1025%nat -> res.1 !! 1024%nat <> Some 10 ->
     lines_done v (r ++ cs) (zlen cs) (zlen r + zlen cs) res m' -> Q res m') ->
  runs (grep_lines fuel fuel s fname (zlen pat) (zlen cs) (r ++ cs ++ drop (length cs) rest) (zlen r + zlen cs) 0) m Q.
Proof.
  intros Hv H1 Hi Hr Hcs Hlen H1024 Hle Hshort HQ. rewrite length_app in Hlen.
  assert (H1024' : ((r ++ cs) ++ drop (length cs) rest) !! 1024%nat <> Some 10).
  { rewrite lookup_app_r in H1024 by lia. rewrite lookup_app_r, lookup_drop by (rewrite length_app; lia).
    by replace (length cs + (1024 - length (r ++ cs)))%nat with (1024 - length r)%nat by (rewrite length_app; lia). }
  pose proof (grep_lines_runs fuel m v [] (r ++ cs) (drop (length cs) rest) (zlen cs) Hv H1) as Hgl.
  change (zlen (@nil Z)) with 0 in Hgl. simpl app in Hgl. rewrite zlen_app, Z.add_0_l in Hgl.
  rewrite app_assoc in Hshort. rewrite app_assoc. eapply runs_mono; [apply Hgl |].
  - by apply Forall_app.
  - rewrite !length_app, length_drop. lia.
  - done.
  - rewrite length_app. lia.
  - by apply lines_short_cut in Hshort.
  - rewrite length_app. lia.
  - intros res m' Hdone. apply HQ; [apply Hdone.. | done].
Qed.

Lemma grep_read_runs n : forall m v i content pos r rest,
  sees m v -> fds v !! 1%nat = Some (Some HTerm) -> (2 <= i < 8)%nat ->
  fds v !! i = Some (Some (HFile content pos)) -> (pos <= length content)%nat -> nonnul content -> nonnul r ->
  length (r ++ rest) = 1025%nat -> (r ++ rest) !! 1024%nat <> Some 10 -> (length r <= 1023)%nat ->
  Forall (fun l => (length l <= 1023)%nat) (lines (r ++ drop pos content)) -> (length content - pos < n)%nat ->
  runs (grep_read fuel n s fname (zlen pat) (Z.of_nat i) (r ++ rest) (zlen r)) m (fun failed m' => failed = false /\
    sees m' (grep_out name pat (set_fds v (<[i := Some (HFile content (length content))]> (fds v)))
      (lines (r ++ drop pos content)))).
Proof.
  induction n as [|n IH]; intros m v i content pos r rest Hv H1 Hi Hfd Hpos Hc Hr Hlen H1024 Hrl Hshort Hn; [lia |].
  cbn [grep_read]. pose proof (lookup_lt_Some _ _ _ Hfd) as Hil.
  assert (Er : Z.to_nat (zlen r) = length r) by (unfold zlen; lia). rewrite Er, drop_app_length, take_app_length.
  pose proof (read_file m v i content pos rest (BUFSIZE - zlen r) Hv Hi Hfd) as Hread. cbv zeta in Hread.
  replace (Z.to_nat (BUFSIZE - zlen r)) with (1024 - length r)%nat in Hread by (unfold BUFSIZE, zlen; lia).
  destruct (read_part content pos (1024 - length r) Hpos) as (Ecs & Hck & Hcp & Hend & Heof).
  set (cs := take (1024 - length r) (drop pos content)) in *.
  eapply runs_step; [apply Hread; [unfold BUFSIZE, zlen; lia | rewrite length_app in Hlen; lia] |]. clear Hread.
  intros [cnt b] m1 [[= -> ->] Hm1]. set (v1 := set_fds v _) in *.
  destruct (Z.eqb_spec (-1) (zlen cs)) as [|_]; [unfold zlen in *; lia |].
  assert (H1' : fds v1 !! 1%nat = Some (Some HTerm)) by (simpl; by rewrite list_lookup_insert_ne by lia).
  assert (Hncs : nonnul cs) by (by apply Forall_take, Forall_drop).
  rewrite Ecs in Hshort. set (left_ := drop (pos + length cs) content) in *.
  eapply runs_step.
  { apply (grep_round_runs m1 v1 i content (pos + length cs) r rest cs (fun res m' => length res.1 = 1025%nat /\
      res.1 !! 1024%nat <> Some 10 /\ lines_done v1 (r ++ cs) (zlen cs) (zlen r + zlen cs) res m')); done || lia. }
  intros [data' last'] m2 (Hlen' & H1024' & Hdone). rewrite app_assoc in Hshort.
  apply (lines_done_more _ _ left_) in Hdone as (init & p & Elines & Hp & Hnp & Hpl & Hsp & Hcase); [|by apply Forall_app | done].
  rewrite Ecs, app_assoc, Elines, grep_out_app.
  set (v' := set_fds v (<[i := Some (HFile content (length content))]> (fds v))).
  assert (Hv' : forall ls, set_fds (grep_out name pat v1 ls) (<[i := Some (HFile content (length content))]>
    (fds (grep_out name pat v1 ls))) = grep_out name pat v' ls).
  { intros ls. rewrite grep_out_fds, <- grep_out_set_fds. f_equal. subst v1 v'. unfold set_fds. simpl.
    by rewrite list_insert_insert_eq. }
  assert (Hnext : forall ls r' m3, r' ++ drop (length r') data' = data' -> nonnul r' -> (length r' <= 1023)%nat ->
    cs <> [] -> sees m3 (grep_out name pat v1 ls) -> Forall (fun l => (length l <= 1023)%nat) (lines (r' ++ left_)) ->
    runs (grep_read fuel n s fname (zlen pat) (Z.of_nat i) data' (zlen r')) m3 (fun failed m' => failed = false /\
      sees m' (grep_out name pat (grep_out name pat v' ls) (lines (r' ++ left_))))).
  { intros ls r' m3 Ed Hr' Hrl' Hne' Hm3 Hs'. rewrite <- Hv'.
    remember (drop (length r') data') as rest' eqn:Er'. clear Er'. subst data'.
    apply (IH m3 (grep_out name pat v1 ls) i content (pos + length cs)%nat r' rest'); rewrite ?grep_out_fds; try done.
    - simpl. by apply list_lookup_insert_eq.
    - destruct cs; [done | simpl in *; lia]. }
  destruct (Z.eqb_spec 0 (zlen cs)) as [Ez|Ez].
  { assert (Ecs0 : cs = []) by (destruct cs; [done | rewrite zlen_cons in Ez; pose proof (zlen_nonneg cs); lia]).
    destruct Hcase as [(_ & Hm2 & _)|(_ & _ & Hx & _)]; [|lia]. apply runs_ret. split; [done |].
    assert (Hpe : pos = length content) by (apply Heof; [lia | done]).
    assert (Eleft : left_ = []) by (apply drop_ge; lia).
    rewrite Eleft, app_nil_r, (lines_plain p Hp), <- grep_out_app.
    subst v1 v'. rewrite Ecs0, Nat.add_0_r, Hpe in Hm2. exact Hm2. }
  assert (Hne' : cs <> []) by (by intros E; rewrite E in Ez).
  destruct Hcase as [(El & Hm2 & Hp0)|(El & Hpre & _ & Hm2)]; simpl in El; subst last'.
  - destruct (decide (p = [])) as [->|Hpn].
    { rewrite grep_out_blank in Hm2. by apply (Hnext init []). }
    assert (Eleft : left_ = []) by (apply Hend; destruct Hp0 as [?|[?|?]]; [done | lia | unfold zlen in *; lia]).
    rewrite Eleft, app_nil_r, (lines_plain p Hp), <- grep_out_app.
    rewrite <- (grep_out_blank v' (init ++ [p])), grep_out_app. rewrite Eleft in Hnext.
    apply (Hnext (init ++ [p]) []); try done; [constructor | simpl; lia | by repeat constructor; simpl; lia].
  - apply (Hnext init p); try done. simpl in Hpre. rewrite <- Hpre at 1. by rewrite take_drop.
Qed.
Lemma do_one_file_runs m v i content data :
  sees m v -> fds v !! 1%nat = Some (Some HTerm) -> file_named v name = Some (NFile content) -> free_fd v = Some i ->
  nonnul content -> Forall (fun l => (length l <= 1023)%nat) (lines content) -> (length content < fuel)%nat ->
  zlen pat < 2 ^ 31 -> (length pat < fuel)%nat -> length data = 1025%nat -> data !! 1024%nat <> Some 10 ->
  runs (do_one_file fuel s fname data) m (fun r m' => r = 0 /\ sees m' (grep_out name pat v (lines content))).
Proof.
  intros Hv H1 Hfile Hfree Hc Hshort Hcf Hp31 Hpf Hlen H1024. unfold do_one_file.
  pose proof (free_fd_range v i (sees_ok m v Hv) Hfree) as [Hi Hfd]. pose proof (lookup_lt_Some _ _ _ Hfd) as Hil.
  pose proof (zlen_nonneg pat).
  eapply runs_lift_bind; [apply ece391_strlen_spec; [done | lia | done] |]. rewrite s32_id by lia.
  eapply runs_step; [by apply (open_found m v _ name i (NFile content)) |].
  intros fd m1 [-> Hm1]. destruct (Z.eqb_spec (-1) (Z.of_nat i)); [lia |]. simpl handle_of in Hm1.
  eapply runs_step.
  { apply (grep_read_runs fuel m1 _ i content 0 [] data Hm1); try done; try lia.
    - simpl. by rewrite list_lookup_insert_ne by lia.
    - simpl. by apply list_lookup_insert_eq.
    - constructor.
    - simpl. lia. }
  intros failed m2 [-> Hm2]. rewrite drop_0 in Hm2. simpl app in Hm2. set (v2 := grep_out _ _ _ _) in *.
  eapply runs_step; [apply (close_spec m2 v2 (Z.of_nat i) Hm2) |]. intros r m3 [-> Hm3].
  assert (Ef : fds v2 = <[i := Some (HFile content (length content))]> (fds v)).
  { unfold v2. rewrite grep_out_fds. unfold set_fds. simpl. by rewrite list_insert_insert_eq. }
  assert (Ec : view_close v2 (Z.of_nat i) = (0, grep_out name pat v (lines content))).
  { unfold view_close. replace ((Z.of_nat i <? 2) || (7 <? Z.of_nat i)) with false by lia.
    rewrite Nat2Z.id, Ef, list_lookup_insert_eq by done. f_equal. unfold v2. rewrite !grep_out_set_fds.
    change (set_fds (set_fds (set_fds ?w _) _) ?f) with (set_fds w f).
    rewrite list_insert_insert_eq, list_insert_id by done.
    rewrite <- (grep_out_fds name pat v (lines content)). apply set_fds_id. }
  rewrite Ec in *. simpl in *. by apply runs_ret.
Qed.
End File.

(** ** The whole program *)

(** [grep] looks at the entries of the directory in order, but for the names that
    start with a dot. *)
Definition hidden (name : list Z) : bool := match name with c :: _ => c =? 46 | [] => false end.

Definition grep_entry (pat : list Z) (v : view) (e : list Z * node) : view :=
  if hidden e.1 then v else
  match e.2 with NFile c => grep_out e.1 pat v (lines c) | NRtc => set_inputs v (tail (inputs v)) | NDir => v end.

(** An entry that [grep] can search, with a name of at most 31 characters that no
    earlier entry has: a file with lines of at most 1023 bytes, none of them NUL; or
    the clock, for a tick of which it waits. *)
Definition searchable (n : nat) (v : view) (e : list Z * node) : Prop :=
  hidden e.1 = true \/ (file_named v e.1 = Some (e.2) /\
    (e.2 = NRtc \/ exists c, e.2 = NFile c /\ nonnul c /\
      Forall (fun l => (length l <= 1023)%nat) (lines c) /\ (length c < n)%nat)).

(** The ticks it waits for. *)
Definition visible_rtc (e : list Z * node) : nat := match e.2 with NRtc => if hidden e.1 then 0 else 1 | _ => 0 end.
Definition ticks (es : list (list Z * node)) : nat := sum_list_with visible_rtc es.

(** What the stack may hold where [do_one_file] has its array. *)
Definition junk_ok (junk : nat -> list Z) : Prop :=
  forall k, length (junk k) = 1025%nat /\ junk k !! 1024%nat <> Some 10.

Section Main.
Context `{Os St} `{!OsSpec St} (fuel : nat) (junk : nat -> list Z).
Hypothesis Hfuel : (2000 <= fuel)%nat.
Hypothesis Hjunk : junk_ok junk.

Lemma grep_out_dirpos name pat v ls k : grep_out name pat (set_dirpos v k) ls = set_dirpos (grep_out name pat v ls) k.
Proof.
  unfold grep_out. generalize (filter (fun l => contains pat l = true) ls) as ms. intros ms.
  revert v. induction ms as [|m ms IH]; intros v; simpl; [done |]. by rewrite show_match_set_dirpos, IH.
Qed.

Lemma fold_grep_dirpos pat es v k l :
  set_dirpos (fold_left (grep_entry pat) es (set_dirpos v k)) l = set_dirpos (fold_left (grep_entry pat) es v) l.
Proof.
  revert v. induction es as [|e es IH]; intros v; simpl; [done |].
  replace (grep_entry pat (set_dirpos v k) e) with (set_dirpos (grep_entry pat v e) k); [apply IH |].
  unfold grep_entry. destruct (hidden e.1); [done |]. destruct (e.2); [done.. |]. symmetry. apply grep_out_dirpos.
Qed.

Lemma pad32_cstr name : nonnul name -> cstr (aget (pad32 name ++ [0])) name.
Proof.
  intros Hn. unfold pad32. rewrite <- app_assoc. replace (replicate (32 - length name) 0 ++ [0]) with (0 :: replicate (32 - length name) 0).
  - by apply cstr_array.
  - by rewrite <- replicate_S_end.
Qed.

Lemma head_pad32 name y : exists c, aget (pad32 name ++ [y]) 0 = Ok c /\ (c =? 46) = hidden name.
Proof.
  unfold pad32. destruct name as [|c name]; [by exists 0 |]. exists c. split; [by apply (aget_nat _ 0 c) | done].
Qed.

(** The clock has no lines. *)
Lemma do_one_rtc_runs pat name search fname s v i q data :
  cstr search pat -> zlen pat < 2 ^ 31 -> (length pat < fuel)%nat -> cstr fname name ->
  sees s v -> file_named v name = Some NRtc -> free_fd v = Some i -> inputs v = Tick :: q -> length data = 1025%nat ->
  runs (do_one_file fuel search fname data) s (fun r s' => r = 0 /\ sees s' (set_inputs v q)).
Proof.
  intros Hpat Hp31 Hpf Hname Hv Hfile Hfree Hin Hlen. unfold do_one_file.
  pose proof (free_fd_range v i (sees_ok s v Hv) Hfree) as [Hi Hfd]. pose proof (lookup_lt_Some _ _ _ Hfd) as Hil.
  pose proof (zlen_nonneg pat).
  eapply runs_lift_bind; [apply ece391_strlen_spec; [done | lia | done] |].
  eapply runs_step; [by apply (open_found s v _ name i NRtc) |].
  intros fd s1 [-> Hs1]. destruct (Z.eqb_spec (-1) (Z.of_nat i)); [lia |].
  set (v1 := set_fds v (<[i := Some (handle_of NRtc)]> (fds v))) in *.
  assert (Hf1 : fds v1 !! i = Some (Some HRtc)) by (simpl; by apply list_lookup_insert_eq).
  assert (Hread : runs (grep_read fuel fuel search fname (s32 (zlen pat)) (Z.of_nat i) data 0) s1
    (fun failed s' => failed = false /\ sees s' (set_inputs v1 q))).
  { destruct fuel as [|k]; [lia |]. cbn [grep_read]. eapply runs_step.
    { apply (read_spec s1 v1 (Z.of_nat i) _ _ 0 data (set_inputs v1 q) Hs1); [|unfold BUFSIZE; lia].
      unfold view_read. replace ((Z.of_nat i <? 0) || (7 <? Z.of_nat i) || (Z.of_nat i =? 1)) with false by lia.
      rewrite Nat2Z.id, Hf1. cbn [inputs v1 set_fds]. by rewrite Hin. }
    intros x s2 [-> Hs2]. change (-1 =? 0) with false. cbv iota. cbn [Z.to_nat take app].
    destruct data as [|d0 data]; [done |]. cbn [grep_lines find_line_end]. change (0 + 0 <? 0 + 0) with false.
    cbn [Z.add Z.ltb Z.compare]. apply runs_bind.
    eapply runs_lift_bind; [reflexivity |]. eapply runs_lift_bind; [by apply (aget_nat _ 0 d0) |].
    eapply runs_lift_bind; [change (take (Z.to_nat 0) (d0 :: data) ++ d0 :: data) with (d0 :: data); apply aset_in; rewrite zlen_cons; pose proof (zlen_nonneg data); lia |].
    change (negb (0 =? 0)) with false. rewrite andb_false_r. cbv iota. apply runs_bind. unfold grep_line.
    eapply runs_lift_bind; [reflexivity |]. apply runs_ret. change (0 <=? 0 + 1) with true. cbv iota. apply runs_ret.
    change (0 =? 0) with true. cbv iota. by apply runs_ret. }
  eapply runs_step; [exact Hread |]. intros failed s2 [-> Hs2].
  eapply runs_step; [apply (close_spec s2 _ (Z.of_nat i) Hs2) |]. intros r s3 [-> Hs3].
  assert (Ec : view_close (set_inputs v1 q) (Z.of_nat i) = (0, set_inputs v q)).
  { unfold view_close. replace ((Z.of_nat i <? 2) || (7 <? Z.of_nat i)) with false by lia.
    rewrite Nat2Z.id. change (fds (set_inputs v1 q)) with (fds v1). rewrite Hf1. f_equal. unfold v1, set_fds, set_inputs. simpl.
    by rewrite list_insert_insert_eq, list_insert_id. }
  rewrite Ec in *. cbn [fst snd] in *. change (-1 =? 0) with false. cbv iota. by apply runs_ret.
Qed.

Lemma grep_loop_runs pat search n : forall s v i j buf q,
  cstr (aget search) pat -> pat <> [] -> (forall c, pat !! 0%nat = Some c -> c < 128) ->
  (length pat < fuel)%nat -> zlen pat < 2 ^ 31 ->
  sees s v -> fds v !! 1%nat = Some (Some HTerm) -> (2 <= i < 8)%nat -> fds v !! i = Some (Some HDir) -> free_fd v = Some j ->
  length buf = 33%nat -> Forall (searchable fuel v) (drop (dirpos v) (ents v)) ->
  inputs v = replicate (ticks (drop (dirpos v) (ents v))) Tick ++ q -> (length (ents v) - dirpos v < n)%nat ->
  runs (grep_loop fuel n junk search (Z.of_nat i) buf) s (fun r s' => r = 0 /\
    sees s' (set_dirpos (fold_left (grep_entry pat) (drop (dirpos v) (ents v)) v) 0)).
Proof.
  induction n as [|n IH]; intros s v i j buf q Hpat Hne Hascii Hpf Hp31 Hv H1 Hi Hfd Hfree Hlen Hents Hin Hn; [lia |].
  cbn [grep_loop]. pose proof (vo_names v (sees_ok s v Hv)) as Hnames.
  eapply runs_step; [apply (read_dir s v i buf (SBUFSIZE - 1)); unfold SBUFSIZE; try done; try lia |].
  intros [cnt b] s1 Hr. destruct (ents v !! dirpos v) as [[name nd]|] eqn:Ee.
  2:{ destruct Hr as [[= -> ->] Hs1]. apply runs_ret. split; [done |].
      apply lookup_ge_None in Ee. by rewrite drop_ge by done. }
  destruct Hr as [[= -> ->] Hs1]. destruct (pad32_ok s v _ _ _ Hv Ee) as [Hl32 Hb32].
  change (32 =? 0) with false. change (-1 =? 32) with false. cbv iota.
  destruct (Forall_lookup_1 _ _ _ _ Hnames Ee) as [Hnl Hnn]. simpl in Hnl, Hnn.
  destruct buf as [|y0 buf] using rev_ind; [done |]. clear IHbuf. rewrite length_app in Hlen. simpl in Hlen.
  rewrite drop_app_le, drop_ge by lia. simpl app. destruct (head_pad32 name y0) as (c & Hc & Hhid).
  eapply runs_lift_bind; [exact Hc |]. rewrite (Z.eqb_sym 46 c), Hhid.
  pose proof (lookup_lt_Some _ _ _ Ee). rewrite (drop_S _ _ _ Ee) in *. apply Forall_cons in Hents as [He Hents].
  change (ticks ((name, nd) :: ?es)) with (visible_rtc (name, nd) + ticks es)%nat in Hin. unfold visible_rtc in Hin. cbn [fst snd] in Hin.
  set (v1 := set_dirpos v (S (dirpos v))) in *. simpl fold_left.
  destruct (hidden name) eqn:Eh.
  - eapply runs_mono; [apply (IH s1 v1 i j (pad32 name ++ [y0]) q); try done |].
    + rewrite length_app, Hl32. done.
    + by destruct nd.
    + simpl. lia.
    + intros r s' [-> Hs']. split; [done |]. unfold v1 in Hs'. rewrite fold_grep_dirpos in Hs'.
      assert (Hge : grep_entry pat v (name, nd) = v) by (unfold grep_entry; cbn [fst snd]; by rewrite Eh). by rewrite Hge.
  - destruct He as [He|(Hfile & Hnd)]; cbn [fst snd] in *; [congruence |].
    pose proof (file_named_entry v name _ Hfile) as [_ Hn31].
    eapply runs_lift_bind.
    { rewrite aset_in; [done |]. unfold zlen. rewrite length_app, Hl32. simpl. lia. }
    rewrite insert_app_r_alt by lia. rewrite Hl32. simpl insert.
    assert (Hge : grep_entry pat v (name, nd) = match nd with NFile c => grep_out name pat v (lines c)
      | NRtc => set_inputs v (tail (inputs v)) | NDir => v end) by (unfold grep_entry; cbn [fst snd]; by rewrite Eh).
    destruct Hnd as [-> | (txt & -> & Htn & Hts & Htf)]; cbn iota in Hge; rewrite Hge.
    + cbn [Nat.add replicate app] in Hin.
      eapply runs_step.
      { eapply (do_one_rtc_runs pat name); try done; [by apply pad32_cstr | apply Hjunk]. }
      intros r s2 [-> Hs2]. change (negb (0 =? 0)) with false. cbv iota.
      eapply runs_mono; [eapply (IH s2 _ i j (pad32 name ++ [0]) q); try done |].
      * by rewrite length_app, Hl32.
      * simpl. lia.
      * intros r s' [-> Hs']. split; [done |]. rewrite Hin. cbn [tail].
        change (set_inputs v1 (replicate (ticks (drop (S (dirpos v)) (ents v))) Tick ++ q)) with
          (set_dirpos (set_inputs v (replicate (ticks (drop (S (dirpos v)) (ents v))) Tick ++ q)) (S (dirpos v))) in Hs'.
        by rewrite fold_grep_dirpos in Hs'.
    + eapply runs_step.
      { eapply (do_one_file_runs fuel pat name); try done; [by apply pad32_cstr | lia | apply Hjunk | apply Hjunk]. }
      intros r s2 [-> Hs2]. change (negb (0 =? 0)) with false. cbv iota.
      assert (Hv2 : fds (grep_out name pat v1 (lines txt)) = fds v) by by rewrite grep_out_fds.
      eapply runs_mono; [apply (IH s2 (grep_out name pat v1 (lines txt)) i j (pad32 name ++ [0]) q); rewrite ?Hv2; try done |].
      * unfold free_fd. by rewrite Hv2.
      * by rewrite length_app, Hl32.
      * by rewrite grep_out_scr.
      * rewrite grep_out_scr. cbn [inputs dirpos ents set_scr]. exact Hin.
      * rewrite grep_out_scr. simpl. lia.
      * intros r s' [-> Hs']. split; [done |].
        rewrite (grep_out_scr name pat v1) in Hs'. simpl dirpos in Hs'. simpl ents in Hs'.
        rewrite <- (grep_out_scr name pat v1) in Hs'. unfold v1 in Hs'. by rewrite grep_out_dirpos, fold_grep_dirpos in Hs'.
Qed.

(** The view after [grep] of [pat]: the directory [i] stays open. *)
Definition grepped (pat : list Z) (i : nat) (v : view) : view :=
  let v := set_fds v (<[i := Some HDir]> (fds v)) in
  set_dirpos (fold_left (grep_entry pat) (drop (dirpos v) (ents v)) v) 0.

Lemma grep_main_spec s v i j buf search q :
  sees s v -> fds v !! 1%nat = Some (Some HTerm) -> arg v <> [] ->
  (forall c, arg v !! 0%nat = Some c -> c < 128) -> (length (arg v) < fuel)%nat ->
  file_named v (text ".") = Some NDir -> free_fd v = Some i -> free_fd (set_fds v (<[i := Some HDir]> (fds v))) = Some j ->
  length buf = 33%nat -> length search = 1024%nat -> Forall (searchable fuel v) (drop (dirpos v) (ents v)) ->
  inputs v = replicate (ticks (drop (dirpos v) (ents v))) Tick ++ q -> (length (ents v) < fuel)%nat ->
  runs (grep_main fuel junk buf search) s (fun r s' => r = 0 /\ sees s' (grepped (arg v) i v)).
Proof.
  intros Hv H1 Hne Hascii Hpf Hdot Hfree Hfree2 Hlen Hsl Hents Hin Hf. unfold grep_main.
  pose proof (free_fd_range v i (sees_ok s v Hv) Hfree) as [Hi Hfd]. apply lookup_lt_Some in Hfd.
  eapply runs_step; [apply (getargs_spec s v search BUFSIZE Hv); unfold zlen, BUFSIZE; lia |].
  intros [r b] s1 [Hs1 Hr]. rewrite decide_False in Hr by done. destruct Hr as (Hr & Hb & Hbl & _).
  cbn [fst snd] in *. rewrite Hr. change (negb (0 =? 0)) with false. cbv iota.
  eapply runs_step; [apply (open_found s1 v _ (text ".") i NDir Hs1); [by apply cstr_lit, nonnulb_ok | done..] |].
  intros fd s2 [-> Hs2]. destruct (Z.eqb_spec (-1) (Z.of_nat i)); [lia |].
  assert (Hp31 : zlen (arg v) < 2 ^ 31).
  { pose proof (proj1 Hb) as Hbb. unfold zlen. destruct (decide (length (arg v) <= 1024)%nat); [lia |].
    destruct (lookup_lt_is_Some_2 (arg v) 1024) as [c Hc]; [lia |]. destruct (Hbb _ _ Hc) as [Hg _].
    apply aget_Ok_range in Hg. unfold zlen in Hg. lia. }
  apply (grep_loop_runs (arg v) b fuel s2 (set_fds v (<[i := Some HDir]> (fds v))) i j buf q); try done; cbn [fds set_fds ents dirpos].
  - by rewrite list_lookup_insert_ne by lia.
  - by apply list_lookup_insert_eq.
  - lia.
Qed.
End Main.
