(* ===== verification/Blink.v ===== *)
(** * Blinking characters

    [src/fish/blink.S], with the allocator of [src/fish/fish.c] that it calls: a
    linked list of characters of the text screen that blink, kept in a pool of 80 x
    25 elements. A pointer to an element is its index. The code is assembly; its
    registers are the variables bound here. A copy of a structure's 16 bytes
    ([ece391_memcpy]) is the structure, and clearing them gives [zero_blink]; the
    two routines themselves are at the end of the first part.

    The specification is a list of characters without pointers: [blinks] says that a
    state holds such a list. *)

From S2P Require Import Prelude Strings.

Local Open Scope Z_scope.

(** ** The pool and the list *)

Definition pointer : Type := option nat.

Record mp1_blink_struct := mkBlink {
  location : Z;
  on_char : Z;
  off_char : Z;
  on_length : Z;
  off_length : Z;
  countdown : Z;
  status : Z;
  next : pointer
}.

Definition zero_blink : mp1_blink_struct := mkBlink 0 0 0 0 0 0 0 None.

Definition set_timing (b : mp1_blink_struct) (on off count st : Z) :=
  mkBlink (location b) (on_char b) (off_char b) on off count st (next b).
Definition set_phase (b : mp1_blink_struct) (count st : Z) := set_timing b (on_length b) (off_length b) count st.
Definition set_next (b : mp1_blink_struct) p :=
  mkBlink (location b) (on_char b) (off_char b) (on_length b) (off_length b) (countdown b) (status b) p.

(** [static struct mp1_blink_struct blink_array[80*25]], [mp1_list_head], and the
    bytes at [vmem_base_addr]. *)
Record fish_t := mkFish { blink_array : list mp1_blink_struct; mp1_list_head : pointer; vmem : list Z }.

Definition set_array (s : fish_t) x := mkFish x (mp1_list_head s) (vmem s).
Definition set_head (s : fish_t) x := mkFish (blink_array s) x (vmem s).
Definition set_vmem (s : fish_t) x := mkFish (blink_array s) (mp1_list_head s) x.

Definition element (s : fish_t) (i : nat) : res mp1_blink_struct := aget (blink_array s) (Z.of_nat i).
Definition set_element (s : fish_t) (i : nat) (b : mp1_blink_struct) : res fish_t :=
  l ← aset (blink_array s) (Z.of_nat i) b; Ok (set_array s l).

(** *** fish.c: the pool *)

(** The first element whose location is 0. *)
Fixpoint malloc_loop (n : nat) (s : fish_t) (i : nat) : res pointer :=
  match n with
  | O => Ok None
  | S n => b ← element s i; if location b =? 0 then Ok (Some i) else malloc_loop n s (S i)
  end.

Definition mp1_malloc (s : fish_t) (size : Z) : res pointer := malloc_loop (80 * 25) s 0.

Definition mp1_free (s : fish_t) (i : nat) : res fish_t := set_element s i zero_blink.

(** The byte loops. *)
Definition ece391_memset (memory : list Z) (c n : Z) : res (list Z) :=
  for_range 0 n (fun i mem => aset mem i c) memory.

Definition ece391_memcpy (dest : list Z) (src : reader) (n : Z) : res (Z * list Z) :=
  d ← for_range 0 n (fun i d => c ← src i; aset d i c) dest; Ok (0, d).

(** *** blink.S *)

Definition mp1_poke (s : fish_t) (cl eax : Z) : res fish_t :=
  v ← aset (vmem s) eax cl; Ok (set_vmem s v).

(** The 16-bit comparison with [jg] is signed. *)
Definition s16 (x : Z) : Z := if x <? 2 ^ 15 then x else x - 2 ^ 16.

(** From [decw COUNTDOWN] to [next_loop], for the element at [i]. *)
Definition tasklet_step (s : fish_t) (i : nat) : res fish_t :=
  b ← element s i;
  let b := set_phase b (u16 (countdown b - 1)) (status b) in
  s ← set_element s i b;
  if 0 <? s16 (countdown b) then Ok s else
  let eax := Z.shiftl (location b) 1 in
  '(cl, dx) ← (if Z.land (status b) 1 =? 0 then Ok (on_char b, on_length b) else Ok (off_char b, off_length b));
  s ← mp1_poke s cl eax;
  set_element s i (set_phase b dx (Z.lxor (status b) 1)).

Fixpoint tasklet_loop (n : nat) (ebx : pointer) (s : fish_t) : res fish_t :=
  match n with
  | O => NoFuel
  | S n =>
      match ebx with
      | None => Ok s
      | Some i => s ← tasklet_step s i; b ← element s i; tasklet_loop n (next b) s
      end
  end.

Definition mp1_rtc_tasklet (fuel : nat) (s : fish_t) : res fish_t := tasklet_loop fuel (mp1_list_head s) s.

(** The argument [user] is the caller's structure. *)
Definition mp1_ioctl_add (s : fish_t) (user : mp1_blink_struct) : res (Z * fish_t) :=
  if 80 * 25 <=? location user then Ok (-1, s) else
  let b := set_phase user (on_length user) 1 in
  p ← mp1_malloc s 16;
  match p with
  | None => Ok (-1, s)
  | Some edx =>
      s ← set_element s edx b;
      s ← set_element s edx (set_next b (mp1_list_head s));
      let s := set_head s (Some edx) in
      s ← mp1_poke s (on_char b) (Z.shiftl (location b) 1);
      Ok (0, s)
  end.

Fixpoint find_loop (n : nat) (s : fish_t) (ax : Z) (ebx : pointer) : res pointer :=
  match n with
  | O => NoFuel
  | S n =>
      match ebx with
      | None => Ok None
      | Some i => b ← element s i; if location b =? ax then Ok (Some i) else find_loop n s ax (next b)
      end
  end.

Definition mp1_find_helper (fuel : nat) (s : fish_t) (loc : Z) : res pointer :=
  find_loop fuel s (u16 loc) (mp1_list_head s).

(** The address of a pointer: of [mp1_list_head], or of the [NEXT] field of an
    element. *)
Inductive slot : Type := Head | Next (i : nat).

Definition load_slot (s : fish_t) (x : slot) : res pointer :=
  match x with Head => Ok (mp1_list_head s) | Next i => b ← element s i; Ok (next b) end.

Definition store_slot (s : fish_t) (x : slot) (p : pointer) : res fish_t :=
  match x with Head => Ok (set_head s p) | Next i => b ← element s i; set_element s i (set_next b p) end.

Fixpoint remove_find_prev (n : nat) (s : fish_t) (eax : nat) (edx : slot) : res slot :=
  match n with
  | O => NoFuel
  | S n =>
      p ← load_slot s edx;
      match p with
      | Some i => if decide (i = eax) then Ok edx else remove_find_prev n s eax (Next i)
      | None => Undef
      end
  end.

Definition mp1_ioctl_remove (fuel : nat) (s : fish_t) (arg : Z) : res (Z * fish_t) :=
  p ← mp1_find_helper fuel s arg;
  match p with
  | None => Ok (-1, s)
  | Some eax =>
      edx ← remove_find_prev fuel s eax Head;
      b ← element s eax;
      s ← store_slot s edx (next b);
      s ← mp1_free s eax;
      Ok (0, s)
  end.

(** [testb $1, STATUS] clears the overflow flag and sets the sign flag from bit 7
    of the result; [cmovl] moves when the two differ. *)
Definition mp1_ioctl_sync (fuel : nat) (s : fish_t) (arg : Z) : res (Z * fish_t) :=
  p ← mp1_find_helper fuel s (Z.shiftr arg 16);
  match p with
  | None => Ok (-1, s)
  | Some esi =>
      p ← mp1_find_helper fuel s (Z.land arg 0xFFFF);
      match p with
      | None => Ok (-1, s)
      | Some edi =>
          a ← element s esi;
          b ← element s edi;
          let b := set_timing b (on_length a) (off_length a) (countdown a) (status a) in
          s ← set_element s edi b;
          let ecx := if Z.testbit (Z.land (status b) 1) 7 then on_char b else off_char b in
          s ← mp1_poke s ecx (Z.shiftl (location b) 1);
          Ok (0, s)
      end
  end.

(** The result is copied over the caller's structure. *)
Definition mp1_ioctl_find (fuel : nat) (s : fish_t) (user : mp1_blink_struct) : res (Z * mp1_blink_struct) :=
  p ← mp1_find_helper fuel s (location user);
  match p with
  | None => Ok (-1, user)
  | Some i => b ← element s i; Ok (0, b)
  end.

(** The argument is a pointer to a structure, or a number; the table has four
    entries. *)
Inductive ioctl_arg : Type := Ptr (b : mp1_blink_struct) | Num (z : Z).

Definition RTC_ADD : Z := 0.
Definition RTC_REMOVE : Z := 1.
Definition RTC_FIND : Z := 2.
Definition RTC_SYNC : Z := 3.

Definition mp1_ioctl (fuel : nat) (s : fish_t) (arg : ioctl_arg) (cmd : Z) : res (Z * ioctl_arg * fish_t) :=
  match arg with
  | Ptr b =>
      if cmd =? RTC_ADD then '(r, s) ← mp1_ioctl_add s b; Ok (r, arg, s)
      else if cmd =? RTC_FIND then '(r, b) ← mp1_ioctl_find fuel s b; Ok (r, Ptr b, s)
      else Undef
  | Num z =>
      if cmd =? RTC_REMOVE then '(r, s) ← mp1_ioctl_remove fuel s z; Ok (r, arg, s)
      else if cmd =? RTC_SYNC then '(r, s) ← mp1_ioctl_sync fuel s z; Ok (r, arg, s)
      else Undef
  end.

(** ** Specification

    A character without its pointer; characters in the order of the list. *)

Definition bare (b : mp1_blink_struct) : mp1_blink_struct := set_next b None.

(** A character that is added starts on, for its whole length. *)
Definition start (b : mp1_blink_struct) : mp1_blink_struct := bare (set_phase b (on_length b) 1).

Definition is_on (b : mp1_blink_struct) : bool := negb (Z.land (status b) 1 =? 0).

(** Does the tick change the character? *)
Definition due (b : mp1_blink_struct) : bool := negb (0 <? s16 (u16 (countdown b - 1))).

Definition tick (b : mp1_blink_struct) : mp1_blink_struct :=
  if due b then set_phase b (if is_on b then off_length b else on_length b) (Z.lxor (status b) 1)
  else set_phase b (u16 (countdown b - 1)) (status b).

(** A character's place in the video memory, and what a tick writes there. *)
Definition place_of (b : mp1_blink_struct) : nat := Z.to_nat (2 * location b).

Definition draw (v : list Z) (b : mp1_blink_struct) : list Z :=
  if due b then <[place_of b := if is_on b then off_char b else on_char b]> v else v.

Definition at_location (loc : Z) (es : list mp1_blink_struct) : option (nat * mp1_blink_struct) :=
  list_find (fun e => location e = loc) es.

(** What the calls do, on the list of the characters and the video memory. *)
Definition abs_add (es : list mp1_blink_struct) (v : list Z) (b : mp1_blink_struct) : Z * list mp1_blink_struct * list Z :=
  if (80 * 25 <=? location b) || (length es =? 80 * 25)%nat then (-1, es, v)
  else (0, start b :: es, <[place_of b := on_char b]> v).

Definition abs_remove (es : list mp1_blink_struct) (loc : Z) : Z * list mp1_blink_struct :=
  match at_location (u16 loc) es with Some (k, _) => (0, delete k es) | None => (-1, es) end.

Definition abs_sync (es : list mp1_blink_struct) (v : list Z) (arg : Z) : Z * list mp1_blink_struct * list Z :=
  match at_location (u16 (Z.shiftr arg 16)) es, at_location (u16 (Z.land arg 0xFFFF)) es with
  | Some (_, a), Some (k, b) =>
      (0, <[k := set_timing b (on_length a) (off_length a) (countdown a) (status a)]> es, <[place_of b := off_char b]> v)
  | _, _ => (-1, es, v)
  end.

(** The list in the pool: from [p] on, the elements [l] hold the characters [es]. *)
Inductive chain (arr : list mp1_blink_struct) : pointer -> list nat -> list mp1_blink_struct -> Prop :=
| chain_nil : chain arr None [] []
| chain_cons i b l es : arr !! i = Some b -> chain arr (next b) l es -> chain arr (Some i) (i :: l) (bare b :: es).

Record holds (s : fish_t) (l : list nat) (es : list mp1_blink_struct) : Prop := {
  h_pool : length (blink_array s) = (80 * 25)%nat;
  h_vmem : length (vmem s) = 4096%nat;
  h_chain : chain (blink_array s) (mp1_list_head s) l es;
  h_nodup : NoDup l;
  h_free : forall i b, blink_array s !! i = Some b -> i ∉ l -> location b = 0;
  h_used : Forall (fun e => 0 < location e < 80 * 25) es
}.

Definition blinks (s : fish_t) (es : list mp1_blink_struct) : Prop := exists l, holds s l es.

(** ** The pool *)

Section Facts.
Implicit Types (s : fish_t) (arr es : list mp1_blink_struct) (b : mp1_blink_struct) (l : list nat).

Lemma element_at s i b : blink_array s !! i = Some b -> element s i = Ok b.
Proof. apply aget_nat. Qed.

Lemma set_element_at s i b b' :
  blink_array s !! i = Some b -> set_element s i b' = Ok (set_array s (<[i := b']> (blink_array s))).
Proof.
  intros Hi%lookup_lt_Some. unfold set_element. rewrite aset_in by (unfold zlen; lia). rstep. by rewrite Nat2Z.id.
Qed.

Lemma poke_at s b c :
  length (vmem s) = 4096%nat -> 0 <= location b < 80 * 25 ->
  mp1_poke s c (Z.shiftl (location b) 1) = Ok (set_vmem s (<[place_of b := c]> (vmem s))).
Proof.
  intros Hv Hl. unfold mp1_poke, place_of. rewrite Z.shiftl_mul_pow2, Z.mul_comm by lia. change (2 ^ 1) with 2.
  rewrite aset_in by (unfold zlen; lia). by rstep.
Qed.

Lemma chain_in arr p l es i : chain arr p l es -> i ∈ l -> exists b, arr !! i = Some b /\ bare b ∈ es.
Proof.
  induction 1 as [|j b l es Hj _ IH]; [by intros ?%elem_of_nil |]. intros [->|Hi]%elem_of_cons.
  - exists b. split; [done | by left].
  - destruct (IH Hi) as (b' & ? & ?). exists b'. split; [done | by right].
Qed.

Lemma chain_out arr p l es j x : chain arr p l es -> j ∉ l -> chain (<[j := x]> arr) p l es.
Proof.
  induction 1 as [|i b l es Hi _ IH]; [constructor |]. intros [Hne Hj]%not_elem_of_cons.
  constructor; [by rewrite list_lookup_insert_ne | by apply IH].
Qed.

Lemma chain_length arr p l es : chain arr p l es -> length l = length es.
Proof. induction 1; simpl; congruence. Qed.

(** Characters of the list have a place; a place is never that of a free element. *)
Lemma holds_loc s l es i b : holds s l es -> blink_array s !! i = Some b -> i ∈ l <-> location b <> 0.
Proof.
  intros Hh Hi. split.
  - intros Hl. destruct (chain_in _ _ _ _ _ (h_chain _ _ _ Hh) Hl) as (b' & Hb & He). simplify_eq.
    pose proof (proj1 (Forall_forall _ _) (h_used _ _ _ Hh) _ He) as Hr. simpl in Hr. lia.
  - intros Hne. destruct (decide (i ∈ l)); [done |]. by destruct Hne, (h_free _ _ _ Hh i b).
Qed.

Lemma malloc_loop_spec s n i :
  (i + n = length (blink_array s))%nat ->
  (exists j b, malloc_loop n s i = Ok (Some j) /\ (i <= j)%nat /\ blink_array s !! j = Some b /\ location b = 0 /\
     forall k c, (i <= k < j)%nat -> blink_array s !! k = Some c -> location c <> 0) \/
  (malloc_loop n s i = Ok None /\ forall k b, (i <= k)%nat -> blink_array s !! k = Some b -> location b <> 0).
Proof.
  revert i. induction n as [|n IH]; intros i Hn; cbn [malloc_loop].
  { right. split; [done |]. intros k b Hk Hb%lookup_lt_Some. lia. }
  destruct (lookup_lt_is_Some_2 (blink_array s) i) as [b Hb]; [lia |]. rewrite (element_at _ _ _ Hb). rstep.
  destruct (Z.eqb_spec (location b) 0) as [E|E].
  { left. exists i, b. split_and!; try done. intros. lia. }
  destruct (IH (S i) ltac:(lia)) as [(j & c & -> & Hj & Hc & Hz & Hb')|[-> Hall]].
  - left. exists j, c. split_and!; try done; [lia |]. intros k d Hk Hd.
    destruct (decide (k = i)) as [->|]; [by simplify_eq | apply (Hb' k d); [lia | done]].
  - right. split; [done |]. intros k d Hk Hd.
    destruct (decide (k = i)) as [->|]; [by simplify_eq | apply (Hall k d); [lia | done]].
Qed.

Lemma nodup_bound (k : list nat) N : NoDup k -> (forall i, i ∈ k -> (i < N)%nat) -> (length k <= N)%nat.
Proof.
  intros Hk Hlt. rewrite <- (length_seq N 0). apply submseteq_length, NoDup_submseteq; [done |].
  intros i Hi. apply elem_of_seq. specialize (Hlt i Hi). lia.
Qed.

Lemma covers_bound (l : list nat) N : (forall i, (i < N)%nat -> i ∈ l) -> (N <= length l)%nat.
Proof.
  intros Hl. rewrite <- (length_seq N 0). apply submseteq_length, NoDup_submseteq; [apply NoDup_seq |].
  intros i Hi%elem_of_seq. apply Hl. lia.
Qed.

(** There is room exactly while the list is not full. *)
Lemma malloc_spec s l es :
  holds s l es ->
  if (length es =? 80 * 25)%nat then mp1_malloc s 16 = Ok None
  else exists i b, mp1_malloc s 16 = Ok (Some i) /\ blink_array s !! i = Some b /\ i ∉ l.
Proof.
  intros Hh. pose proof (chain_length _ _ _ _ (h_chain _ _ _ Hh)) as Hl.
  assert (Hin : forall k, k ∈ l -> (k < 80 * 25)%nat).
  { intros k Hk. destruct (chain_in _ _ _ _ _ (h_chain _ _ _ Hh) Hk) as (b & Hb & _). apply lookup_lt_Some in Hb.
    by rewrite (h_pool _ _ _ Hh) in Hb. }
  unfold mp1_malloc. destruct (malloc_loop_spec s (80 * 25) 0 ltac:(by rewrite (h_pool _ _ _ Hh)))
    as [(j & b & -> & _ & Hb & Hz & _)|[-> Hall]].
  - assert (Hj : j ∉ l) by (intros Hj; by apply (holds_loc _ _ _ _ _ Hh Hb) in Hj).
    destruct (Nat.eqb_spec (length es) (80 * 25)) as [Hf|]; [|by exists j, b].
    exfalso. assert (Hlen : (length (j :: l) <= 80 * 25)%nat).
    { apply nodup_bound; [by constructor; [|apply (h_nodup _ _ _ Hh)] |]. intros i [->|Hi]%elem_of_cons; [|by apply Hin].
      apply lookup_lt_Some in Hb. by rewrite (h_pool _ _ _ Hh) in Hb. }
    cbn [length] in Hlen. rewrite Hl, Hf in Hlen. lia.
  - destruct (Nat.eqb_spec (length es) (80 * 25)) as [|Hf]; [done |]. exfalso.
    pose proof (nodup_bound l (80 * 25) (h_nodup _ _ _ Hh) Hin) as Hle.
    assert (Hlen : (80 * 25 <= length l)%nat).
    { apply covers_bound. intros i Hi. destruct (lookup_lt_is_Some_2 (blink_array s) i) as [b Hb]; [by rewrite (h_pool _ _ _ Hh) |].
      apply (holds_loc _ _ _ _ _ Hh Hb). apply (Hall i b); [lia | done]. }
    lia.
Qed.

Lemma blinks_length s es : blinks s es -> (length es <= 80 * 25)%nat.
Proof.
  intros (l & Hh). rewrite <- (chain_length _ _ _ _ (h_chain _ _ _ Hh)). apply nodup_bound; [apply (h_nodup _ _ _ Hh) |].
  intros k Hk. destruct (chain_in _ _ _ _ _ (h_chain _ _ _ Hh) Hk) as (b & Hb & _). apply lookup_lt_Some in Hb.
  by rewrite (h_pool _ _ _ Hh) in Hb.
Qed.

(** The byte loops copy, and clear. *)
Lemma memcpy_spec_bytes dest bytes rest (src : reader) :
  dest = bytes ++ rest -> forall new, length new = length bytes -> (forall n c, new !! n = Some c -> src (Z.of_nat n) = Ok c) ->
  ece391_memcpy dest src (zlen bytes) = Ok (0, new ++ rest).
Proof.
  intros -> new Hl Hs. unfold ece391_memcpy.
  destruct (for_range_inv (fun k d => d = take (Z.to_nat k) new ++ drop (Z.to_nat k) bytes ++ rest)
    (fun i d => c ← src i; aset d i c) 0 (zlen bytes) (bytes ++ rest)) as (d & -> & ->).
  - apply zlen_nonneg.
  - done.
  - intros k d Hk ->. unfold zlen in Hk. destruct (lookup_lt_is_Some_2 new (Z.to_nat k)) as [c Hc]; [lia |].
    pose proof (Hs _ _ Hc) as E. rewrite Z2Nat.id in E by lia. rewrite E. rstep.
    destruct (lookup_lt_is_Some_2 bytes (Z.to_nat k)) as [c' Hc']; [lia |]. rewrite (drop_S bytes c' _ Hc').
    assert (Htl : length (take (Z.to_nat k) new) = Z.to_nat k) by (rewrite length_take; lia).
    cbn [app]. rewrite aset_app_mid by (unfold zlen; lia). eexists. split; [done |].
    replace (Z.to_nat (k + 1)) with (S (Z.to_nat k)) by lia. by rewrite (take_S_r _ _ _ Hc), <- app_assoc.
  - rstep. unfold zlen. rewrite Nat2Z.id, take_ge, drop_ge by lia. done.
Qed.

(** Nothing blinks at first. *)
Lemma empty_pool v : length v = 4096%nat -> blinks (mkFish (replicate (80 * 25) zero_blink) None v) [].
Proof.
  intros Hv. exists []. constructor; cbn [blink_array mp1_list_head vmem]; try done; try constructor.
  intros i b Hb _. apply lookup_replicate in Hb as [-> _]. done.
Qed.

(** ** The calls *)

(** Into the element [i] that the allocator finds. *)
Lemma add_into s b i b0 :
  length (vmem s) = 4096%nat -> 0 <= location b < 80 * 25 -> mp1_malloc s 16 = Ok (Some i) -> blink_array s !! i = Some b0 ->
  mp1_ioctl_add s b = Ok (0, mkFish (<[i := set_next (set_phase b (on_length b) 1) (mp1_list_head s)]> (blink_array s)) (Some i)
    (<[place_of b := on_char b]> (vmem s))).
Proof.
  intros Hv Hl Em Hi. unfold mp1_ioctl_add. destruct (Z.leb_spec (80 * 25) (location b)); [lia |]. rewrite Em. rstep.
  rewrite (set_element_at _ _ _ _ Hi). rstep. rewrite (set_element_at _ i (set_phase b (on_length b) 1)).
  2: { apply list_lookup_insert_eq. by eapply lookup_lt_Some. }
  rstep. rewrite (poke_at _ b) by done. rstep.
  cbn [blink_array set_array set_head set_vmem mp1_list_head vmem]. by rewrite list_insert_insert_eq.
Qed.

Lemma add_spec s es b :
  blinks s es -> location b <> 0 -> 0 <= location b ->
  exists r es' v' s', abs_add es (vmem s) b = (r, es', v') /\ mp1_ioctl_add s b = Ok (r, s') /\ blinks s' es' /\ vmem s' = v'.
Proof.
  intros (l & Hh) Hne Hpos. unfold abs_add.
  assert (Hno : forall r, mp1_ioctl_add s b = Ok (-1, s) -> r = (-1, es, vmem s) ->
    exists r' es' v' s', r = (r', es', v') /\ mp1_ioctl_add s b = Ok (r', s') /\ blinks s' es' /\ vmem s' = v').
  { intros r E ->. eexists _, _, _, s. split; [done |]. split; [done |]. split; [by exists l | done]. }
  destruct (Z.leb_spec (80 * 25) (location b)) as [Hge|Hlt]; cbn [orb].
  { apply Hno; [|done]. unfold mp1_ioctl_add. by destruct (Z.leb_spec (80 * 25) (location b)); [|lia]. }
  pose proof (malloc_spec s l es Hh) as Hm. destruct (length es =? 80 * 25)%nat.
  { apply Hno; [|done]. unfold mp1_ioctl_add. destruct (Z.leb_spec (80 * 25) (location b)); [done |]. by rewrite Hm. }
  destruct Hm as (i & b0 & Em & Hi & Hil). destruct Hh as [Hp Hv Hc Hn Hf Hu].
  rewrite (add_into s b i b0 Hv ltac:(lia) Em Hi).
  eexists _, _, _, _. split; [reflexivity |]. split; [reflexivity |]. split; [|done]. exists (i :: l).
  constructor; cbn [blink_array mp1_list_head vmem].
  - by rewrite length_insert.
  - by rewrite length_insert.
  - change (start b) with (bare (set_next (set_phase b (on_length b) 1) (mp1_list_head s))). constructor.
    + apply list_lookup_insert_eq. by eapply lookup_lt_Some.
    + by apply chain_out.
  - by constructor.
  - intros j c Hj [Hji Hjl]%not_elem_of_cons. rewrite list_lookup_insert_ne in Hj by done. by apply (Hf j).
  - constructor; [simpl; lia | done].
Qed.

(** Characters by their location. *)
Lemma find_loop_spec s ax p l es n :
  chain (blink_array s) p l es -> (length l < n)%nat ->
  match at_location ax es with
  | Some (k, e) => exists i b, find_loop n s ax p = Ok (Some i) /\ l !! k = Some i /\ blink_array s !! i = Some b /\ bare b = e
  | None => find_loop n s ax p = Ok None
  end.
Proof.
  intros Hc. revert n. unfold at_location. induction Hc as [|i b l es Hb Hc IH]; intros n Hn; (destruct n as [|n]; [simpl in Hn; lia |]).
  { done. }
  cbn [find_loop list_find]. rewrite (element_at _ _ _ Hb). rstep. change (location (bare b)) with (location b).
  destruct (Z.eqb_spec (location b) ax) as [E|E].
  - rewrite decide_True by done. by exists i, b.
  - rewrite decide_False by done. specialize (IH n ltac:(simpl in Hn; lia)).
    destruct (list_find _ es) as [[k e]|]; [|done]. destruct IH as (i' & b' & E1 & E2 & E3 & E4). by exists i', b'.
Qed.

Lemma find_helper_spec s l es loc fuel :
  holds s l es -> (length es < fuel)%nat ->
  match at_location (u16 loc) es with
  | Some (k, e) => exists i b, mp1_find_helper fuel s loc = Ok (Some i) /\ l !! k = Some i /\ blink_array s !! i = Some b /\ bare b = e
  | None => mp1_find_helper fuel s loc = Ok None
  end.
Proof. intros Hh Hn. apply (find_loop_spec s (u16 loc)); [apply (h_chain _ _ _ Hh) |]. by rewrite (chain_length _ _ _ _ (h_chain _ _ _ Hh)). Qed.

(** Taking an element out of the list: the pointer to it is found, from the slot
    [x] on, and made to point behind it. *)
Lemma unlink_spec s p l es : chain (blink_array s) p l es -> NoDup l ->
  forall x k i b n, load_slot s x = Ok p ->
  (match x with Head => True | Next j => (j ∉ l) /\ (exists c, blink_array s !! j = Some c) end) ->
  l !! k = Some i -> blink_array s !! i = Some b -> (length l < n)%nat ->
  exists y s' p', remove_find_prev n s i x = Ok y /\ store_slot s y (next b) = Ok s' /\ load_slot s' x = Ok p' /\
    chain (blink_array s') p' (delete k l) (delete k es) /\ vmem s' = vmem s /\
    (forall j, bare <$> (blink_array s' !! j) = bare <$> (blink_array s !! j)) /\
    (forall j, j ∉ l -> x <> Next j -> blink_array s' !! j = blink_array s !! j) /\
    (x = Head \/ mp1_list_head s' = mp1_list_head s).
Proof.
  induction 1 as [|i0 b0 l es Hb0 Hc IH]; intros Hnd x k i b n Hx Hslot Hk Hb Hn; [done |].
  apply NoDup_cons in Hnd as [Hi0 Hnd]. destruct n as [|n]; [simpl in Hn; lia |]. cbn [remove_find_prev]. rewrite Hx. rstep.
  destruct k as [|k]; cbn [lookup list_lookup] in Hk.
  - injection Hk as <-. rewrite decide_True by done. assert (b0 = b) as -> by congruence. exists x. destruct x as [|j]; cbn [load_slot store_slot].
    + eexists _, _. split; [done |]. split; [done |]. split; [done |]. cbn [delete list_delete]. split; [done |]. split_and!; auto.
    + destruct Hslot as ([Hj0 Hjl]%not_elem_of_cons & c & Hj). rewrite (element_at _ _ _ Hj). rstep. rewrite (set_element_at _ _ _ _ Hj).
      eexists _, _. split; [done |]. split; [done |]. cbn [blink_array set_array].
      assert (E : <[j:=set_next c (next b)]> (blink_array s) !! j = Some (set_next c (next b))) by (apply list_lookup_insert_eq; by eapply lookup_lt_Some).
      rewrite (element_at (set_array s _) j (set_next c (next b)) E). rstep.
      split; [done |]. cbn [delete list_delete]. split; [by apply chain_out |]. split; [done |]. split; [|split].
      * intros m. destruct (decide (m = j)) as [->|]; [by rewrite E, Hj | by rewrite list_lookup_insert_ne].
      * intros m _ Hm. rewrite list_lookup_insert_ne; [done | congruence].
      * by right.
  - assert (Hne : i0 <> i) by (intros ->; apply Hi0; by eapply list_elem_of_lookup_2). rewrite decide_False by done.
    destruct (IH Hnd (Next i0) k i b n) as (y & s' & p' & Ey & Es & El & Hc' & Hv & Hbare & Hsame & Hhead); try done.
    { cbn [load_slot]. by rewrite (element_at _ _ _ Hb0). }
    { split; [done | by exists b0]. }
    { simpl in Hn. lia. }
    destruct Hhead as [|Hhead]; [done |]. exists y, s', (Some i0). split; [done |]. split; [done |].
    pose proof (Hbare i0) as Hb0'. rewrite Hb0 in Hb0'. destruct (blink_array s' !! i0) as [b0'|] eqn:Eb0; [|done].
    cbn [fmap option_fmap option_map] in Hb0'. injection Hb0' as Hb0'.
    cbn [load_slot] in El. rewrite (element_at _ _ _ Eb0) in El. rewrite res_bind_ok in El. injection El as El.
    split; [|split; [|split; [done |]; split; [done |]; split; [|by right]]].
    + destruct x as [|j]; cbn [load_slot] in Hx |- *; [by rewrite Hhead |]. destruct Hslot as ([Hj0 Hjl]%not_elem_of_cons & c & Hj).
      unfold element in *. assert (Ej : blink_array s' !! j = blink_array s !! j) by (apply Hsame; [done | congruence]).
      rewrite (aget_nat _ _ _ Hj) in Hx. rewrite Hj in Ej. by rewrite (aget_nat _ _ _ Ej).
    + cbn [delete list_delete]. replace (bare b0) with (bare b0') by (unfold bare, set_next; congruence). constructor; [done |]. by rewrite El.
    + intros j [Hj0 Hjl]%not_elem_of_cons Hxj. apply Hsame; [done | congruence].
Qed.

Lemma remove_spec s es arg fuel :
  blinks s es -> (length es < fuel)%nat ->
  exists s', mp1_ioctl_remove fuel s arg = Ok ((abs_remove es arg).1, s') /\ blinks s' (abs_remove es arg).2 /\ vmem s' = vmem s.
Proof.
  intros (l & Hh) Hn. unfold abs_remove, mp1_ioctl_remove. pose proof (find_helper_spec s l es arg fuel Hh Hn) as Hfind.
  destruct (at_location (u16 arg) es) as [[k e]|]; [|rewrite Hfind; rstep; exists s; split; [done |]; split; [by exists l | done]].
  destruct Hfind as (i & b & -> & Hk & Hb & _). rstep. pose proof (chain_length _ _ _ _ (h_chain _ _ _ Hh)) as Hl.
  destruct (unlink_spec s _ l es (h_chain _ _ _ Hh) (h_nodup _ _ _ Hh) Head k i b fuel eq_refl I Hk Hb ltac:(lia))
    as (y & s1 & p' & -> & Es & El & Hc & Hv & Hbare & Hsame & _). rstep.
  rewrite (element_at _ _ _ Hb). rstep. rewrite Es. rstep. injection El as <-.
  pose proof (Hbare i) as Hbi. rewrite Hb in Hbi. destruct (blink_array s1 !! i) as [b1|] eqn:Hb1; [|done].
  unfold mp1_free. rewrite (set_element_at _ _ _ _ Hb1). rstep. eexists. split; [done |]. split; [|done].
  destruct Hh as [Hp Hvm _ Hnd Hf Hu]. cbn [snd].
  assert (Hlen : length (blink_array s1) = length (blink_array s)).
  { apply Nat.le_antisymm; [destruct (decide (length (blink_array s1) <= length (blink_array s))%nat) as [|Hlt]; [done |]
      | destruct (decide (length (blink_array s) <= length (blink_array s1))%nat) as [|Hlt]; [done |]].
    - specialize (Hbare (length (blink_array s))). rewrite (proj2 (lookup_ge_None (blink_array s) _)) in Hbare by lia.
      destruct (lookup_lt_is_Some_2 (blink_array s1) (length (blink_array s))) as [c Hc']; [lia |]. by rewrite Hc' in Hbare.
    - specialize (Hbare (length (blink_array s1))). rewrite (proj2 (lookup_ge_None (blink_array s1) _)) in Hbare by lia.
      destruct (lookup_lt_is_Some_2 (blink_array s) (length (blink_array s1))) as [c Hc']; [lia |]. by rewrite Hc' in Hbare. }
  assert (Hdel : forall j, j ∈ delete k l <-> j ∈ l /\ j <> i).
  { intros j. rewrite <- (take_drop_middle l k i Hk) in Hnd. rewrite delete_take_drop, elem_of_app.
    apply NoDup_app in Hnd as (_ & Hd1 & Hd2). apply NoDup_cons in Hd2 as (Hd2 & _).
    assert (Hj : j ∈ l <-> j ∈ take k l \/ j = i \/ j ∈ drop (S k) l).
    { rewrite <- (take_drop_middle l k i Hk) at 1. by rewrite elem_of_app, elem_of_cons. }
    rewrite Hj. split.
    - intros [Hj1|Hj1]; (split; [auto |]); intros ->; [apply (Hd1 i Hj1); by left | done].
    - intros [[?|[?|?]] ?]; [by left | done | by right]. }
  exists (delete k l). constructor; cbn [blink_array set_array mp1_list_head vmem].
  - by rewrite length_insert, Hlen.
  - by rewrite Hv.
  - apply chain_out; [exact Hc |]. intros Hi. by apply Hdel in Hi as [_ ?].
  - rewrite delete_take_drop. rewrite <- (take_drop_middle l k i Hk) in Hnd. apply NoDup_app in Hnd as (H1 & H2 & H3).
    apply NoDup_cons in H3 as (_ & H3). apply NoDup_app. split_and!; [done | | done]. intros x Hx Hx'. apply (H2 x Hx). by right.
  - intros j c Hj Hjn. destruct (decide (j = i)) as [->|Hne].
    + rewrite list_lookup_insert_eq in Hj by (by eapply lookup_lt_Some). by injection Hj as <-.
    + rewrite list_lookup_insert_ne in Hj by done. apply (Hf j); [|intros Hjl; apply Hjn; by apply Hdel].
      rewrite <- (Hsame j); [done | intros Hjl; apply Hjn; by apply Hdel | done].
  - rewrite delete_take_drop. apply Forall_app. split; [by apply Forall_take | by apply Forall_drop].
Qed.

(** An element changes in place. *)
Lemma chain_update arr p l es k i b x :
  chain arr p l es -> NoDup l -> l !! k = Some i -> arr !! i = Some b -> next x = next b ->
  chain (<[i := x]> arr) p l (<[k := bare x]> es).
Proof.
  intros Hc. revert k. induction Hc as [|i0 b0 l es Hb0 Hc IH]; intros k Hnd Hk Hb Hx; [done |].
  apply NoDup_cons in Hnd as [Hi0 Hnd]. destruct k as [|k]; cbn [lookup list_lookup] in Hk.
  - injection Hk as ->. assert (b0 = b) as -> by congruence. cbn [insert list_insert]. constructor.
    + apply list_lookup_insert_eq. by eapply lookup_lt_Some.
    + rewrite Hx. by apply chain_out.
  - assert (i0 <> i) by (intros ->; apply Hi0; by eapply list_elem_of_lookup_2). cbn [insert list_insert]. constructor.
    + by rewrite list_lookup_insert_ne.
    + by apply IH.
Qed.

Lemma holds_update s l es k i b x v :
  holds s l es -> l !! k = Some i -> blink_array s !! i = Some b -> next x = next b -> location x = location b ->
  length v = 4096%nat -> holds (set_vmem (set_array s (<[i := x]> (blink_array s))) v) l (<[k := bare x]> es).
Proof.
  intros Hh Hk Hb Hnx Hlx Hv. pose proof (list_elem_of_lookup_2 _ _ _ Hk) as Hin.
  pose proof (proj1 (holds_loc _ _ _ _ _ Hh Hb) Hin) as Hloc. destruct (chain_in _ _ _ _ _ (h_chain _ _ _ Hh) Hin) as (b' & Hb' & He).
  assert (b' = b) as -> by congruence. destruct Hh as [Hp Hvm Hc Hnd Hf Hu].
  pose proof (proj1 (Forall_forall _ _) Hu _ He) as Hr. simpl in Hr.
  constructor; cbn [blink_array set_array set_vmem mp1_list_head vmem]; try done.
  - by rewrite length_insert.
  - by eapply chain_update.
  - intros j c Hj Hjl. destruct (decide (j = i)) as [->|]; [done |]. rewrite list_lookup_insert_ne in Hj by done. by apply (Hf j).
  - apply Forall_insert; [done |]. simpl. lia.
Qed.

Lemma sync_spec s es arg fuel :
  blinks s es -> (length es < fuel)%nat ->
  exists r es' v' s', abs_sync es (vmem s) arg = (r, es', v') /\ mp1_ioctl_sync fuel s arg = Ok (r, s') /\ blinks s' es' /\ vmem s' = v'.
Proof.
  intros (l & Hh) Hn. unfold abs_sync, mp1_ioctl_sync.
  assert (Hno : exists s', Ok (-1, s) = Ok (-1, s') /\ blinks s' es /\ vmem s' = vmem s) by (exists s; split; [done |]; split; [by exists l | done]).
  destruct Hno as (s0 & E0 & Hno).
  pose proof (find_helper_spec s l es (Z.shiftr arg 16) fuel Hh Hn) as Hfa.
  destruct (at_location (u16 (Z.shiftr arg 16)) es) as [[ka ea]|];
    [|rewrite Hfa; rstep; eexists _, _, _, s0; split; [done |]; split; [exact E0 | exact Hno]].
  destruct Hfa as (ia & a & -> & Hka & Ha & <-). rstep.
  pose proof (find_helper_spec s l es (Z.land arg 0xFFFF) fuel Hh Hn) as Hfb.
  destruct (at_location (u16 (Z.land arg 0xFFFF)) es) as [[kb eb]|];
    [|rewrite Hfb; rstep; eexists _, _, _, s0; split; [done |]; split; [exact E0 | exact Hno]].
  destruct Hfb as (ib & b & -> & Hkb & Hb & <-). rstep. rewrite (element_at _ _ _ Ha). rstep. rewrite (element_at _ _ _ Hb). rstep.
  set (b' := set_timing b _ _ _ _). rewrite (set_element_at _ _ _ _ Hb). rstep.
  assert (Hsf : Z.testbit (Z.land (status b') 1) 7 = false) by (rewrite Z.land_spec; apply andb_false_r).
  rewrite Hsf. pose proof (holds_update s l es kb ib b b' (<[place_of b := off_char b]> (vmem s)) Hh Hkb Hb eq_refl eq_refl) as Hup.
  rewrite length_insert in Hup. specialize (Hup (h_vmem _ _ _ Hh)).
  pose proof (list_elem_of_lookup_2 _ _ _ Hkb) as Hin. destruct (chain_in _ _ _ _ _ (h_chain _ _ _ Hh) Hin) as (b0 & Hb0 & He).
  assert (b0 = b) as -> by congruence. pose proof (proj1 (Forall_forall _ _) (h_used _ _ _ Hh) _ He) as Hr. simpl in Hr.
  change (location b') with (location b). rewrite (poke_at _ b) by (try apply (h_vmem _ _ _ Hh); lia). rstep.
  eexists _, _, _, _. split; [reflexivity |]. split; [reflexivity |]. split; [exists l; exact Hup | done].
Qed.

Lemma find_spec s es b fuel :
  blinks s es -> (length es < fuel)%nat ->
  match at_location (u16 (location b)) es with
  | Some (_, e) => exists b', mp1_ioctl_find fuel s b = Ok (0, b') /\ bare b' = e
  | None => mp1_ioctl_find fuel s b = Ok (-1, b)
  end.
Proof.
  intros (l & Hh) Hn. unfold mp1_ioctl_find. pose proof (find_helper_spec s l es (location b) fuel Hh Hn) as Hf.
  destruct (at_location (u16 (location b)) es) as [[k e]|]; [|by rewrite Hf].
  destruct Hf as (i & b' & -> & _ & Hb & He). rstep. rewrite (element_at _ _ _ Hb). by exists b'.
Qed.

(** ** The tick *)

Lemma set_timing_same b : set_phase b (countdown b) (status b) = b.
Proof. by destruct b. Qed.

Lemma tasklet_step_spec s i b :
  blink_array s !! i = Some b -> 0 <= location b < 80 * 25 -> length (vmem s) = 4096%nat ->
  tasklet_step s i = Ok (set_vmem (set_array s (<[i := tick b]> (blink_array s))) (draw (vmem s) b)).
Proof.
  intros Hb Hl Hv. unfold tasklet_step, tick, draw, due. rewrite (element_at _ _ _ Hb). rstep.
  rewrite (set_element_at _ _ _ _ Hb). rstep. set (b1 := set_phase b (u16 (countdown b - 1)) (status b)).
  change (countdown b1) with (u16 (countdown b - 1)). destruct (0 <? s16 (u16 (countdown b - 1))); cbn [negb]; [by destruct s |].
  assert (Hb1 : blink_array (set_array s (<[i:=b1]> (blink_array s))) !! i = Some b1).
  { apply list_lookup_insert_eq. by eapply lookup_lt_Some. }
  change (status b1) with (status b). change (location b1) with (location b). unfold is_on.
  destruct (Z.land (status b) 1 =? 0); rstep; cbn [negb];
    (rewrite (poke_at _ b) by done; rstep; rewrite (set_element_at _ _ b1) by exact Hb1;
     cbn [blink_array set_array set_vmem vmem mp1_list_head]; by rewrite list_insert_insert_eq).
Qed.

Lemma tasklet_loop_spec p l es : forall s n,
  chain (blink_array s) p l es -> NoDup l -> Forall (fun e => 0 < location e < 80 * 25) es ->
  length (vmem s) = 4096%nat -> (length l < n)%nat ->
  exists s', tasklet_loop n p s = Ok s' /\ chain (blink_array s') p l (map tick es) /\ vmem s' = fold_left draw es (vmem s) /\
    mp1_list_head s' = mp1_list_head s /\ length (blink_array s') = length (blink_array s) /\
    forall j, j ∉ l -> blink_array s' !! j = blink_array s !! j.
Proof.
  revert p es. induction l as [|i l IH]; intros p es s n Hc Hnd Hu Hv Hn; (destruct n as [|n]; [simpl in Hn; lia |]); cbn [tasklet_loop].
  { inversion Hc; subst. exists s. split_and!; first [done | constructor]. }
  inversion Hc as [|i' b l' es' Hb Hc' Ei El Ees]; subst. apply NoDup_cons in Hnd as [Hi Hnd]. apply Forall_cons in Hu as [Hloc Hu].
  simpl in Hloc. rewrite (tasklet_step_spec s i b Hb) by (done || lia). rstep.
  set (s1 := set_vmem _ _).
  assert (Hb1 : blink_array s1 !! i = Some (tick b)) by (apply list_lookup_insert_eq; by eapply lookup_lt_Some).
  assert (Hnx : next (tick b) = next b) by (unfold tick; by destruct (due b)).
  rewrite (element_at _ _ _ Hb1). rstep. rewrite Hnx.
  destruct (IH (next b) es' s1 n) as (s' & E & Hc1 & Hv1 & Hh & Hl & Hout); [by apply chain_out | done | done | | simpl in Hn; lia |].
  { cbn. unfold draw. destruct (due b); [by rewrite length_insert | done]. }
  exists s'. split; [done |]. split; [|split; [exact Hv1 |]; split; [exact Hh |]; split].
  - cbn [map]. replace (tick (bare b)) with (bare (tick b)).
    + constructor; [by rewrite Hout | by rewrite Hnx].
    + unfold tick. change (due (bare b)) with (due b). by destruct (due b).
  - rewrite Hl. cbn. by rewrite length_insert.
  - intros j [Hji Hjl]%not_elem_of_cons. rewrite Hout by done. cbn. by rewrite list_lookup_insert_ne.
Qed.

Lemma tick_location b : location (tick b) = location b.
Proof. unfold tick. by destruct (due b). Qed.

Lemma tasklet_spec s es fuel :
  blinks s es -> (length es < fuel)%nat ->
  exists s', mp1_rtc_tasklet fuel s = Ok s' /\ blinks s' (map tick es) /\ vmem s' = fold_left draw es (vmem s).
Proof.
  intros (l & [Hp Hv Hc Hnd Hf Hu]) Hn.
  destruct (tasklet_loop_spec (mp1_list_head s) l es s fuel Hc Hnd Hu Hv) as (s' & E & Hc' & Hv' & Hh & Hl & Hout).
  { by rewrite (chain_length _ _ _ _ Hc). }
  exists s'. split; [done |]. split; [|done]. exists l. constructor; try done.
  - by rewrite Hl.
  - rewrite Hv'. clear -Hv. revert Hv. generalize (vmem s) as v. induction es as [|e es IH]; intros v Hv; simpl; [done |].
    apply IH. unfold draw. destruct (due e); [by rewrite length_insert | done].
  - by rewrite Hh.
  - intros j b Hj Hjl. apply (Hf j); [by rewrite <- Hout | done].
  - clear -Hu. induction Hu as [|e es He _ IH]; constructor; [by rewrite tick_location | done].
Qed.

(** *** What one sees

    A character's phase: the ticks since it was last changed. *)

Definition lengths_ok (b : mp1_blink_struct) : Prop := 0 < on_length b < 2 ^ 15 /\ 0 < off_length b < 2 ^ 15.

(** A character that was added [n] ticks ago. *)
Definition on_at (b : mp1_blink_struct) (n : Z) : bool := n mod (on_length b + off_length b) <? on_length b.

Definition aged (b : mp1_blink_struct) (n : Z) : mp1_blink_struct :=
  let k := n mod (on_length b + off_length b) in
  if k <? on_length b then set_phase b (on_length b - k) 1 else set_phase b (on_length b + off_length b - k) 0.

Lemma aged_start b : lengths_ok b -> start b = bare (aged b 0).
Proof.
  intros (? & ?). unfold aged, start. cbv zeta. rewrite Z.mod_0_l by lia. destruct (Z.ltb_spec 0 (on_length b)); [|lia].
  by rewrite Z.sub_0_r.
Qed.

(** The tick of a character changes what is seen exactly where its phase says. *)
Lemma aged_tick b n :
  lengths_ok b -> 0 <= n ->
  tick (aged b n) = aged b (n + 1) /\
  (due (aged b n) = negb (eqb (on_at b (n + 1)) (on_at b n))) /\ is_on (aged b n) = on_at b n.
Proof.
  intros (Hon & Hoff) Hn. set (P := on_length b + off_length b). set (k := n mod P).
  assert (Hk : 0 <= k < P) by (apply Z.mod_pos_bound; lia).
  assert (Hk1 : (n + 1) mod P = if k + 1 =? P then 0 else k + 1).
  { rewrite <- Z.add_mod_idemp_l by lia. fold k. destruct (Z.eqb_spec (k + 1) P) as [E|E]; [rewrite E; apply Z.mod_same; lia |].
    apply Z.mod_small. lia. }
  assert (Hs : forall x, 0 <= x < 2 ^ 15 -> (0 <? s16 (u16 x)) = (0 <? x)).
  { intros x Hx. rewrite u16_id by lia. unfold s16. by destruct (Z.ltb_spec x (2 ^ 15)); [|lia]. }
  assert (Hp : forall x y z w : Z, set_phase (set_phase b x y) z w = set_phase b z w) by done.
  unfold tick, due, is_on, aged, on_at. cbv zeta. fold P. fold k. rewrite Hk1.
  destruct (Z.ltb_spec k (on_length b)) as [Hlt|Hge]; cbn [countdown status set_phase set_timing on_length off_length];
    rewrite Hs by lia; (split; [|split; [|done]]).
  - destruct (Z.ltb_spec 0 (on_length b - k - 1)); cbn [negb]; rewrite Hp.
    + destruct (Z.eqb_spec (k + 1) P); [lia |]. destruct (Z.ltb_spec (k + 1) (on_length b)); [|lia].
      rewrite u16_id by lia. f_equal. lia.
    + change (Z.land 1 1 =? 0) with false. change (Z.lxor 1 1) with 0. cbn [negb].
      destruct (Z.eqb_spec (k + 1) P); [lia |]. destruct (Z.ltb_spec (k + 1) (on_length b)); [lia |]. f_equal. lia.
  - destruct (Z.eqb_spec (k + 1) P); [lia |].
    destruct (Z.ltb_spec 0 (on_length b - k - 1)), (Z.ltb_spec (k + 1) (on_length b)); done || lia.
  - destruct (Z.ltb_spec 0 (P - k - 1)); cbn [negb]; rewrite Hp.
    + destruct (Z.eqb_spec (k + 1) P); [lia |]. destruct (Z.ltb_spec (k + 1) (on_length b)); [lia |].
      rewrite u16_id by lia. f_equal. lia.
    + change (Z.land 0 1 =? 0) with true. change (Z.lxor 0 1) with 1. cbn [negb].
      destruct (Z.eqb_spec (k + 1) P); [|lia]. destruct (Z.ltb_spec 0 (on_length b)); [|lia]. f_equal. lia.
  - destruct (Z.ltb_spec 0 (P - k - 1)), (Z.eqb_spec (k + 1) P); lia.
Qed.

(** The characters of a list that all have their own places. *)
Lemma draw_length v e : length (draw v e) = length v.
Proof. unfold draw. destruct (due e); [by rewrite length_insert | done]. Qed.

Lemma draws_elsewhere es v i : Forall (fun e => place_of e <> i) es -> fold_left draw es v !! i = v !! i.
Proof.
  intros He. revert v. induction He as [|e es Hne _ IH]; intros v; simpl; [done |]. rewrite IH. unfold draw.
  destruct (due e); [by rewrite list_lookup_insert_ne | done].
Qed.

Lemma draws_at es v e :
  NoDup (map place_of es) -> e ∈ es -> (place_of e < length v)%nat ->
  fold_left draw es v !! place_of e =
    if due e then Some (if is_on e then off_char e else on_char e) else v !! place_of e.
Proof.
  revert v. induction es as [|e0 es IH]; intros v Hnd He Hl; [by apply elem_of_nil in He |]. cbn [fold_left].
  cbn [map] in Hnd. apply NoDup_cons in Hnd as [Hout Hnd].
  assert (Hothers : forall x, x ∈ es -> place_of x <> place_of e0).
  { intros x Hx E. apply Hout. rewrite <- E. by apply list_elem_of_fmap_2. }
  apply elem_of_cons in He as [->|He].
  - rewrite draws_elsewhere by (apply Forall_forall; exact Hothers). unfold draw. destruct (due e0); [|done].
    by apply list_lookup_insert_eq.
  - rewrite IH by (done || by rewrite draw_length). destruct (due e); [done |]. unfold draw. destruct (due e0); [|done].
    apply list_lookup_insert_ne. intros E. by apply (Hothers e He).
Qed.

(** [n] ticks. *)
Fixpoint run_ticks (n : nat) (fuel : nat) s : res fish_t :=
  match n with O => Ok s | S n => s ← run_ticks n fuel s; mp1_rtc_tasklet fuel s end.

Lemma blinking_spec s es fuel n :
  blinks s (map start es) -> Forall lengths_ok es -> NoDup (map location es) ->
  (forall b, b ∈ es -> vmem s !! place_of b = Some (on_char b)) -> (length es < fuel)%nat ->
  exists s', run_ticks n fuel s = Ok s' /\ blinks s' (map (fun b => bare (aged b (Z.of_nat n))) es) /\
    forall b, b ∈ es -> vmem s' !! place_of b = Some (if on_at b (Z.of_nat n) then on_char b else off_char b).
Proof.
  intros Hb Hok Hnd Hv Hf. rewrite Forall_forall in Hok. induction n as [|n (s1 & E1 & Hb1 & Hv1)]; cbn [run_ticks].
  - exists s. split; [done |]. split.
    + erewrite map_ext_in; [exact Hb |]. intros b Hin. cbv beta. symmetry. apply aged_start, Hok. by apply list_elem_of_In.
    + intros b Hin. rewrite Hv by done. destruct (Hok b Hin) as (? & ?). unfold on_at. rewrite Z.mod_0_l by lia.
      by destruct (Z.ltb_spec 0 (on_length b)); [|lia].
  - rewrite E1. rstep. destruct (tasklet_spec s1 _ fuel Hb1) as (s' & E & Hb' & Hv'); [by rewrite length_map |].
    exists s'. split; [done |]. replace (Z.of_nat (S n)) with (Z.of_nat n + 1) by lia.
    assert (Htick : forall b, b ∈ es -> tick (bare (aged b (Z.of_nat n))) = bare (aged b (Z.of_nat n + 1))).
    { intros b Hin. destruct (aged_tick b (Z.of_nat n) (Hok b Hin) ltac:(lia)) as (<- & _).
      unfold tick. change (due (bare ?x)) with (due x). by destruct (due _). }
    split.
    + rewrite map_map in Hb'. erewrite map_ext_in; [exact Hb' |]. intros b Hin. symmetry. apply Htick. by apply list_elem_of_In.
    + intros b Hin. set (e := bare (aged b (Z.of_nat n))).
      assert (He : e ∈ map (fun b => bare (aged b (Z.of_nat n))) es) by by apply (list_elem_of_fmap_2 (fun b => bare (aged b (Z.of_nat n)))).
      assert (Hpl : forall x, place_of (bare (aged x (Z.of_nat n))) = place_of x).
      { intros x. unfold place_of, aged. cbv zeta. by destruct (_ <? _). }
      assert (Hlocs : forall x, x ∈ es -> 0 < location x).
      { intros x Hx. destruct Hb as (l & Hh). assert (Hu : start x ∈ map start es) by by apply list_elem_of_fmap_2.
        pose proof (proj1 (Forall_forall _ _) (h_used _ _ _ Hh) _ Hu) as Hr. simpl in Hr. lia. }
      rewrite Hv'. replace (place_of b) with (place_of e) by apply Hpl. rewrite draws_at; [| | exact He |].
      * destruct (aged_tick b (Z.of_nat n) (Hok b Hin) ltac:(lia)) as (_ & Hdue & Hison).
        change (due e) with (due (aged b (Z.of_nat n))). change (is_on e) with (is_on (aged b (Z.of_nat n))).
        assert (Ech : on_char e = on_char b /\ off_char e = off_char b) by (unfold e, aged; cbv zeta; by destruct (_ <? _)).
        destruct Ech as [-> ->]. unfold e. rewrite Hpl, Hv1 by done. rewrite Hdue, Hison.
        by destruct (on_at b (Z.of_nat n)), (on_at b (Z.of_nat n + 1)).
      * rewrite map_map. erewrite map_ext; [|exact Hpl]. clear -Hnd Hlocs. induction es as [|x es IH]; [constructor |].
        cbn [map] in *. apply NoDup_cons in Hnd as [Hx Hnd]. constructor.
        -- intros (y & Ey & Hy)%list_elem_of_fmap. apply Hx. apply list_elem_of_fmap. exists y. split; [|done].
           pose proof (Hlocs x ltac:(by left)). pose proof (Hlocs y ltac:(by right)). unfold place_of in Ey. lia.
        -- apply IH; [done |]. intros y Hy. apply Hlocs. by right.
      * unfold e. rewrite Hpl. exact (lookup_lt_Some _ _ _ (Hv1 b Hin)).
Qed.

(** ** Location 0 *)

Lemma cycle_runs_out i : forall n s b,
  blink_array s !! i = Some b -> next b = Some i -> 0 <= location b < 80 * 25 -> length (vmem s) = 4096%nat ->
  tasklet_loop n (Some i) s = NoFuel.
Proof.
  induction n as [|n IH]; intros s b Hb Hnx Hl Hv; [done |]. cbn [tasklet_loop]. rewrite (tasklet_step_spec s i b Hb Hl Hv). rstep.
  set (s1 := set_vmem _ _). assert (Hb1 : blink_array s1 !! i = Some (tick b)) by (apply list_lookup_insert_eq; by eapply lookup_lt_Some).
  assert (Hn : next (tick b) = next b) by (unfold tick; by destruct (due b)).
  rewrite (element_at _ _ _ Hb1). rstep. rewrite Hn, Hnx. apply (IH s1 (tick b)); try done.
  - by rewrite Hn.
  - by rewrite tick_location.
  - cbn. by rewrite draw_length.
Qed.

(** ** Theorems *)

(** C18. The linked list in the pool implements the list of characters: adding, removing
    and finding by location, copying the timing of one character to another, and
    the tick all return, do on the pool what the specification does on the list, and
    change the video memory where it says. *)
Theorem blink_refines s es fuel :
  blinks s es -> (length es < fuel)%nat ->
  (forall b, 0 < location b -> exists s', mp1_ioctl fuel s (Ptr b) RTC_ADD = Ok ((abs_add es (vmem s) b).1.1, Ptr b, s') /\
     blinks s' (abs_add es (vmem s) b).1.2 /\ vmem s' = (abs_add es (vmem s) b).2) /\
  (forall loc, exists s', mp1_ioctl fuel s (Num loc) RTC_REMOVE = Ok ((abs_remove es loc).1, Num loc, s') /\
     blinks s' (abs_remove es loc).2 /\ vmem s' = vmem s) /\
  (forall b, match at_location (u16 (location b)) es with
     | Some (_, e) => exists b', mp1_ioctl fuel s (Ptr b) RTC_FIND = Ok (0, Ptr b', s) /\ bare b' = e
     | None => mp1_ioctl fuel s (Ptr b) RTC_FIND = Ok (-1, Ptr b, s) end) /\
  (forall arg, exists s', mp1_ioctl fuel s (Num arg) RTC_SYNC = Ok ((abs_sync es (vmem s) arg).1.1, Num arg, s') /\
     blinks s' (abs_sync es (vmem s) arg).1.2 /\ vmem s' = (abs_sync es (vmem s) arg).2) /\
  (exists s', mp1_rtc_tasklet fuel s = Ok s' /\ blinks s' (map tick es) /\ vmem s' = fold_left draw es (vmem s)).
Proof.
  intros Hb Hn. split_and!.
  - intros b Hl. destruct (add_spec s es b Hb) as (r & es' & v' & s' & -> & E & ? & ?); [lia.. |].
    exists s'. unfold mp1_ioctl. cbn [Z.eqb RTC_ADD]. by rewrite E.
  - intros loc. destruct (remove_spec s es loc fuel Hb Hn) as (s' & E & ? & ?).
    exists s'. unfold mp1_ioctl. cbn [Z.eqb RTC_REMOVE]. by rewrite E.
  - intros b. pose proof (find_spec s es b fuel Hb Hn) as Hf. unfold mp1_ioctl. cbn [Z.eqb RTC_FIND RTC_ADD].
    destruct (at_location _ _) as [[k e]|]; [|by rewrite Hf]. destruct Hf as (b' & E & He). exists b'. by rewrite E.
  - intros arg. destruct (sync_spec s es arg fuel Hb Hn) as (r & es' & v' & s' & -> & E & ? & ?).
    exists s'. unfold mp1_ioctl. cbn [Z.eqb RTC_REMOVE RTC_SYNC]. by rewrite E.
  - by apply tasklet_spec.
Qed.

(** C20. Characters blink as they were asked to: [n] ticks after characters with their
    own places were added and shown, each place shows the first character for
    the first [on_length] ticks of every period of [on_length + off_length], and the
    second for the rest; lengths are up to 32767, since the countdown is compared as
    a signed number. *)
Theorem characters_blink s es fuel n b :
  blinks s (map start es) -> Forall lengths_ok es -> NoDup (map location es) ->
  (forall b, b ∈ es -> vmem s !! place_of b = Some (on_char b)) -> (length es < fuel)%nat -> b ∈ es ->
  exists s', run_ticks n fuel s = Ok s' /\
    vmem s' !! place_of b =
      Some (if Z.of_nat n mod (on_length b + off_length b) <? on_length b then on_char b else off_char b).
Proof.
  intros Hb Hok Hnd Hv Hf Hin. destruct (blinking_spec s es fuel n Hb Hok Hnd Hv Hf) as (s' & E & _ & Hs).
  exists s'. split; [exact E | by apply Hs].
Qed.

(** C40. A character in the corner of the screen breaks the list: an element with
    location 0 counts as free, so the next character that is added gets the same
    element, which then points to itself, and the tick never returns. *)
Theorem corner_breaks_list s es b b' :
  blinks s es -> length es <> (80 * 25)%nat -> location b = 0 -> 0 <= location b' < 80 * 25 ->
  exists s1 s2, mp1_ioctl_add s b = Ok (0, s1) /\ mp1_ioctl_add s1 b' = Ok (0, s2) /\
    forall fuel, mp1_rtc_tasklet fuel s2 = NoFuel.
Proof.
  intros (l & Hh) Hlen H0' Hb'. destruct (malloc_loop_spec s (80 * 25) 0) as [(i & b0 & E & _ & Hi & Hz & Hlow)|(E & _)].
  { by rewrite (h_pool _ _ _ Hh). }
  2: { pose proof (malloc_spec s l es Hh) as Hm. apply Nat.eqb_neq in Hlen. rewrite Hlen in Hm.
       destruct Hm as (i & b0 & E' & _). unfold mp1_malloc in E'. congruence. }
  pose proof (add_into s b i b0 (h_vmem _ _ _ Hh) ltac:(lia) E Hi) as E1.
  set (s1 := mkFish _ _ _) in E1.
  assert (Hi1 : blink_array s1 !! i = Some (set_next (set_phase b (on_length b) 1) (mp1_list_head s))).
  { apply list_lookup_insert_eq. by eapply lookup_lt_Some. }
  assert (Hv1 : length (vmem s1) = 4096%nat) by (cbn; rewrite length_insert; exact (h_vmem _ _ _ Hh)).
  destruct (malloc_loop_spec s1 (80 * 25) 0) as [(j & c & Ej & _ & Hj & Hcz & Hlow')|(Ej & Hall)].
  { cbn [blink_array s1]. by rewrite length_insert, (h_pool _ _ _ Hh). }
  2: { by destruct (Hall i _ (Nat.le_0_l _) Hi1). }
  assert (j = i) as ->.
  { destruct (Nat.lt_trichotomy j i) as [Hlt|[->|Hgt]]; [|done |].
    - cbn [blink_array s1] in Hj. rewrite list_lookup_insert_ne in Hj by lia. by destruct (Hlow j c ltac:(lia) Hj).
    - by destruct (Hlow' i _ ltac:(lia) Hi1). }
  eexists s1, _. split; [exact E1 |]. split; [exact (add_into s1 b' i c Hv1 Hb' Ej Hj) |]. intros fuel.
  apply (cycle_runs_out i fuel _ (set_next (set_phase b' (on_length b') 1) (Some i))); try done; cbn [blink_array vmem].
  - apply list_lookup_insert_eq. by eapply lookup_lt_Some.
  - by rewrite length_insert.
Qed.
End Facts.

(** ** Examples *)

Section Demo.
Definition demo_fish : fish_t := mkFish (replicate (80 * 25) zero_blink) None (replicate 4096 32).
Definition demo_char : mp1_blink_struct := mkBlink 540 73 77 7 6 0 0 None.
Definition demo_corner : mp1_blink_struct := mkBlink 0 73 77 7 6 0 0 None.

Lemma demo_empty : blinks demo_fish [].
Proof. apply empty_pool. by rewrite length_replicate. Qed.

Lemma blink_refines_witness :
  blinks demo_fish [] /\ exists s', mp1_ioctl 1 demo_fish (Ptr demo_char) RTC_ADD = Ok (0, Ptr demo_char, s') /\
    blinks s' [start demo_char].
Proof.
  split; [exact demo_empty |].
  destruct (blink_refines demo_fish [] 1 demo_empty (Nat.lt_0_succ 0)) as (Hadd & _).
  destruct (Hadd demo_char eq_refl) as (s' & E & Hb & _). exists s'. split; [exact E | exact Hb].
Defined.

Lemma demo_added : exists s, blinks s (map start [demo_char]) /\ vmem s !! place_of demo_char = Some 73.
Proof.
  assert (Hgo : forall t v, blinks t [] -> vmem t = v -> length v = 4096%nat ->
    exists s, blinks s (map start [demo_char]) /\ vmem s !! place_of demo_char = Some 73).
  { intros t v Ht <- Hl. destruct (add_spec t [] demo_char Ht) as (r & es & v & s & E1 & _ & Hb & Hv); [done | done |].
    injection E1 as _ <- <-. exists s. split; [exact Hb |]. rewrite Hv. apply list_lookup_insert_eq. rewrite Hl.
    apply Nat.ltb_lt. by vm_compute. }
  apply (Hgo demo_fish _ demo_empty eq_refl). apply length_replicate.
Qed.

(** After 7 ticks the second character shows. *)
Lemma characters_blink_witness : exists s s',
  blinks s (map start [demo_char]) /\ run_ticks 7 2 s = Ok s' /\ vmem s' !! place_of demo_char = Some 77.
Proof.
  destruct demo_added as (s & Hb & Hv). exists s.
  destruct (characters_blink s [demo_char] 2 7 demo_char Hb) as (s' & E & Hs').
  - by repeat constructor.
  - apply NoDup_singleton.
  - intros b ->%list_elem_of_singleton. exact Hv.
  - simpl. lia.
  - by left.
  - exists s'. split; [exact Hb |]. split; [exact E | exact Hs'].
Defined.

Lemma corner_breaks_list_witness : exists s1 s2,
  mp1_ioctl_add demo_fish demo_corner = Ok (0, s1) /\ mp1_ioctl_add s1 demo_char = Ok (0, s2) /\
  forall fuel, mp1_rtc_tasklet fuel s2 = NoFuel.
Proof.
  apply (corner_breaks_list demo_fish [] demo_corner demo_char demo_empty); [done | done | simpl; lia].
Defined.
End Demo.
