(* ===== verification/Fish.v ===== *)
(** * The fish

    [src/fish/fish.c]: two text files are the two frames of a picture whose
    characters blink between them, driven by the clock. The blinking is [Blink.v];
    here is the rest of the program, over the system calls of [User.v]. *)

From stdpp Require Import strings.
From S2P Require Import Prelude Strings Console Handlers User Reference Userlib Programs Grep Blink.

Local Open Scope Z_scope.
Local Open Scope user_scope.

Definition WAIT : nat := 200.

Section Code.
Context `{Os St} (fuel : nat).

(** What the local [blink_struct]s hold in the fields that are not set. *)
Context (junk : mp1_blink_struct).

Definition the_blink (loc on off on_len off_len : Z) : mp1_blink_struct :=
  mkBlink loc on off on_len off_len (countdown junk) (status junk) (next junk).

Definition ioctl (s : fish_t) (arg : ioctl_arg) (cmd : Z) : U St fish_t :=
  let* (_, _, s) := ulift (mp1_ioctl fuel s arg cmd) in uret s.

(** *** add_frames

    A character of a frame: [c] and the end-of-file flag. *)
Definition frame_char (fd c eof : Z) : U St (Z * Z) :=
  if negb (c =? 10) then
    let* (num_bytes, buf) := ece391_read fd [c] 1 in
    let* c := ulift (aget buf 0) in
    if num_bytes =? 0 then uret (10, 1) else uret (c, eof)
  else uret (c, eof).

Definition frame_cell (row col c0 c1 : Z) : mp1_blink_struct :=
  the_blink (u16 (row * 80 + col + 40)) (if c0 =? 10 then 32 else c0) (if c1 =? 10 then 32 else c1) 15 15.

(** A place where one of the frames has something. *)
Definition inked (c0 c1 : Z) : bool := (negb (c0 =? 32) && negb (c0 =? 10)) || (negb (c1 =? 32) && negb (c1 =? 10)).

(** The [while(1)], for one row. *)
Fixpoint frame_row (n : nat) (fd0 fd1 row col : Z) (s : fish_t) (c0 eof0 c1 eof1 : Z) : U St (fish_t * Z * Z) :=
  match n with
  | O => ufuel
  | S n =>
      let* (c0, eof0) := frame_char fd0 c0 eof0 in
      let* (c1, eof1) := frame_char fd1 c1 eof1 in
      if (c0 =? 10) && (c1 =? 10) then uret (s, eof0, eof1) else
      let* s := (if inked c0 c1 then ioctl s (Ptr (frame_cell row col c0 c1)) RTC_ADD else uret s) in
      frame_row n fd0 fd1 row (col + 1) s c0 eof0 c1 eof1
  end.

(** After a row: a file that has ended is closed, and its character stays a newline. *)
Definition frame_end (fd eof : Z) : U St Z :=
  if negb (eof =? 0) then let* _ := ece391_close fd in uret 10 else uret 48.

Fixpoint frame_loop (n : nat) (fd0 fd1 row : Z) (s : fish_t) (c0 eof0 c1 eof1 : Z) : U St fish_t :=
  match n with
  | O => ufuel
  | S n =>
      if (eof0 =? 0) || (eof1 =? 0) then
        let* (s, eof0, eof1) := frame_row fuel fd0 fd1 row 0 s c0 eof0 c1 eof1 in
        let* c0 := frame_end fd0 eof0 in
        let* c1 := frame_end fd1 eof1 in
        frame_loop n fd0 fd1 (row + 1) s c0 eof0 c1 eof1
      else uret s
  end.

(** [None]: a file cannot be opened, and the program halts. *)
Definition add_frames (f0 f1 : reader) (s : fish_t) : U St (option fish_t) :=
  let* fd0 := ece391_open f0 in
  if fd0 <? 0 then uret None else
  let* fd1 := ece391_open f1 in
  if fd1 <? 0 then uret None else
  let* s := frame_loop fuel fd0 fd1 0 s 48 0 48 0 in
  uret (Some s).

(** *** main

    [n] rounds of waiting for the clock. [garbage] are the bytes of the local. *)
Fixpoint wait_ticks (n : nat) (rtc_fd : Z) (garbage : list Z) (s : fish_t) : U St (list Z * fish_t) :=
  match n with
  | O => uret (garbage, s)
  | S n =>
      let* (_, garbage) := ece391_read rtc_fd garbage 4 in
      let* s := ulift (mp1_rtc_tasklet fuel s) in
      wait_ticks n rtc_fd garbage s
  end.

(** From [ece391_open("rtc")] on. *)
Definition fish_body (garbage : list Z) (s : fish_t) : U St (Z * fish_t) :=
  let* rtc_fd := ece391_open (lit "rtc") in
  let* r := add_frames (lit "frame0.txt") (lit "frame1.txt") s in
  match r with
  | None => uret (-1, s)
  | Some s =>
      let* _ := ece391_write rtc_fd (aget [32; 0; 0; 0]) 4 in
      let* (garbage, s) := wait_ticks WAIT rtc_fd garbage s in
      let* s := ioctl s (Ptr (the_blink (6 * 80 + 60) 73 77 7 6)) RTC_ADD in
      let* (garbage, s) := wait_ticks WAIT rtc_fd garbage s in
      let* s := ioctl s (Num (Z.lor (Z.shiftl 40 16) (6 * 80 + 60))) RTC_SYNC in
      let* (garbage, s) := wait_ticks WAIT rtc_fd garbage s in
      let* s := ioctl s (Num (Z.of_nat WAIT)) RTC_REMOVE in
      let* (garbage, s) := wait_ticks (80 * 25) rtc_fd garbage s in
      let* _ := ece391_close rtc_fd in
      uret (0, s)
  end.

(** [addr] is the address of [vmem_base_addr], [v] the page that the kernel maps
    there. *)
Definition mp1_set_video_mode (addr : Z) : U St bool :=
  let* r := ece391_vidmap addr in uret (negb (r =? -1)).

Definition fish_main (addr : Z) (garbage v : list Z) : U St Z :=
  let* ok := mp1_set_video_mode addr in
  if (ok : bool) then
    let* (r, _) := fish_body garbage (mkFish (replicate (80 * 25) zero_blink) None v) in uret r
  else uret (-1).
End Code.

(** ** Specification *)

(** The cells of a row, from a column on, and of all the rows. *)
Fixpoint row_cells (junk : mp1_blink_struct) (n : nat) (row col : Z) (a b : list Z) : list mp1_blink_struct :=
  match n with
  | O => []
  | S n =>
      let x := hd 10 a in let y := hd 10 b in
      (if inked x y then [frame_cell junk row col x y] else []) ++ row_cells junk n row (col + 1) (tl a) (tl b)
  end.

Definition row_of (junk : mp1_blink_struct) (row : Z) (a b : list Z) : list mp1_blink_struct :=
  row_cells junk (length a `max` length b) row 0 a b.

Fixpoint frame_cells (junk : mp1_blink_struct) (n : nat) (row : Z) (la lb : list (list Z)) : list mp1_blink_struct :=
  match n with
  | O => []
  | S n => row_of junk row (hd [] la) (hd [] lb) ++ frame_cells junk n (row + 1) (tl la) (tl lb)
  end.

(** The picture that two frames make: at each place where one of them has a
    character that is not blank, a character that blinks between the two. *)
Definition picture (junk : mp1_blink_struct) (f0 f1 : list Z) : list mp1_blink_struct :=
  frame_cells junk (length (lines f0) `max` length (lines f1)) 0 (lines f0) (lines f1).

(** The characters and the video memory. *)
Definition board : Type := list mp1_blink_struct * list Z.

Definition holds_board (s : fish_t) (x : board) : Prop := blinks s x.1 /\ vmem s = x.2.

Definition add_to (x : board) (b : mp1_blink_struct) : board := let '(_, es, v) := abs_add x.1 x.2 b in (es, v).
Definition tick_board (x : board) : board := (map tick x.1, fold_left draw x.1 x.2).
Definition sync_board (arg : Z) (x : board) : board := let '(_, es, v) := abs_sync x.1 x.2 arg in (es, v).
Definition remove_board (loc : Z) (x : board) : board := ((abs_remove x.1 loc).2, x.2).

Section Facts.
Context `{Os St} `{!OsSpec St} (fuel : nat) (junk : mp1_blink_struct).

Lemma lines_cons x t a ls : lines t = (x :: a) :: ls -> exists t', t = x :: t' /\ x <> 10 /\ lines t' = a :: ls.
Proof.
  destruct t as [|c t]; [done |]. cbn [lines]. destruct (Z.eqb_spec c 10); [done |].
  destruct (lines t) as [|y ys] eqn:E; intros [= <- <- <-]; [|by exists t]. by destruct t as [|d t]; [|revert E; simpl; destruct (d =? 10), (lines t)].
Qed.

Lemma lines_empty t ls : lines t = [] :: ls -> (t = [] /\ ls = []) \/ exists t', t = 10 :: t' /\ lines t' = ls.
Proof.
  destruct t as [|c t]; [by intros [= <-]; left |]. cbn [lines]. destruct (Z.eqb_spec c 10) as [->|].
  - intros [= <-]. right. by exists t.
  - by destruct (lines t).
Qed.

Lemma lines_some t : lines t <> [].
Proof. destruct t as [|c t]; cbn [lines]; [done |]. destruct (c =? 10); [done |]. by destruct (lines t). Qed.

(** *** Reading the frames

    A file in the middle of a row: [a] is what is left of the line, [ls] the lines
    after it. *)
Definition open_at (h : option handle) (content t : list Z) : Prop :=
  exists pos, h = Some (HFile content pos) /\ drop pos content = t /\ (pos <= length content)%nat.

Inductive stream (content : list Z) : option handle -> list Z -> list (list Z) -> Z -> Z -> Prop :=
| st_reading h t a ls c : open_at h content t -> lines t = a :: ls -> c <> 10 -> stream content h a ls c 0
| st_line h t ls : open_at h content t -> lines t = ls -> stream content h [] ls 10 0
| st_end h : h = None \/ open_at h content [] -> stream content h [] [] 10 1.

Lemma frame_char_runs s v i h content a ls c eof :
  sees s v -> (2 <= i < 8)%nat -> fds v !! i = Some h -> stream content h a ls c eof ->
  runs (frame_char (Z.of_nat i) c eof) s (fun r s' => exists h', sees s' (set_fds v (<[i := h']> (fds v))) /\
    r.1 = hd 10 a /\ stream content h' (tl a) ls r.1 r.2 /\ (r.1 = 10 -> a = [])).
Proof.
  intros Hs Hi Hh Hst. unfold frame_char. assert (Hid : forall w : view, set_fds w (fds w) = w) by by intros [].
  assert (Hdone : c = 10 -> a = [] -> runs (uret (c, eof)) s (fun r s' => exists h', sees s' (set_fds v (<[i:=h']> (fds v))) /\
    r.1 = hd 10 a /\ stream content h' (tl a) ls r.1 r.2 /\ (r.1 = 10 -> a = []))).
  { intros -> ->. apply runs_ret. exists h. rewrite list_insert_id by done. by rewrite Hid. }
  destruct Hst as [h t a ls c (pos & -> & Hd & Hp) Hl Hne | h t ls Ho Hl | h Ho]; [|by apply Hdone..].
  destruct (Z.eqb_spec c 10) as [|_]; [done |]. cbn [negb].
  assert (Hr : view_read v (Z.of_nat i) [c] 1 = Some (zlen (take 1 t), take 1 t ++ drop (length (take 1 t)) [c],
    set_fds v (<[i := Some (HFile content (pos + length (take 1 t)))]> (fds v)))).
  { unfold view_read. replace ((Z.of_nat i <? 0) || (7 <? Z.of_nat i) || (Z.of_nat i =? 1)) with false by lia.
    rewrite Nat2Z.id, Hh, Hd. change (Z.to_nat 1) with 1%nat. by destruct t. }
  eapply runs_step; [apply (read_spec s v _ _ _ _ _ _ Hs Hr); lia |]. intros [n buf] s' [[= -> ->] Hs'].
  destruct a as [|x a].
  - destruct (lines_empty _ _ Hl) as [[-> ->]|(t' & -> & Hl')]; cbn [take length app drop Datatypes.length] in *.
    + eapply runs_lift_bind; [reflexivity |]. apply runs_ret. eexists. split; [exact Hs' |]. split; [done |]. split; [|done].
      constructor. right. exists pos. rewrite Nat.add_0_r. by split_and!.
    + eapply runs_lift_bind; [reflexivity |]. change (zlen [10]) with 1. apply runs_ret. eexists. split; [exact Hs' |]. split; [done |]. split; [|done].
      eapply st_line; [|exact Hl']. exists (pos + 1)%nat. split_and!; [done | by rewrite <- drop_drop, Hd |].
      assert (length (drop pos content) = length (10 :: t')) by by rewrite Hd. rewrite length_drop in *. simpl in *. lia.
  - destruct (lines_cons _ _ _ _ Hl) as (t' & -> & Hx & Hl'). cbn [take length app drop Datatypes.length] in *.
    eapply runs_lift_bind; [reflexivity |]. change (zlen [x]) with 1. apply runs_ret. eexists. split; [exact Hs' |]. split; [done |]. split.
    + eapply st_reading; [|exact Hl' | done]. exists (pos + 1)%nat. split_and!; [done | by rewrite <- drop_drop, Hd |].
      assert (length (drop pos content) = length (x :: t')) by by rewrite Hd. rewrite length_drop in *. simpl in *. lia.
    + done.
Qed.

Lemma ioctl_add_runs (s : St) fs x b (Q : fish_t -> St -> Prop) :
  holds_board fs x -> 0 < location b -> (forall fs', holds_board fs' (add_to x b) -> Q fs' s) ->
  runs (ioctl fuel fs (Ptr b) RTC_ADD) s Q.
Proof.
  intros (Hb & Hv) Hl HQ. destruct (add_spec fs x.1 b Hb) as (r & es' & v' & fs' & E1 & E2 & Hb' & Hv'); [lia.. |].
  unfold ioctl. eapply runs_lift_bind; [unfold mp1_ioctl; cbn [Z.eqb RTC_ADD]; rewrite E2; reflexivity |].
  apply runs_ret, HQ. unfold add_to. rewrite <- Hv, E1. by split.
Qed.

(** Two files on the descriptors [i] and [j]. *)
Section Frames.
Context (v : view) (i j : nat) (f0 f1 : list Z).
Hypothesis Hi : (2 <= i < 8)%nat.
Hypothesis Hj : (2 <= j < 8)%nat.
Hypothesis Hij : i <> j.

Definition with_files (h0 h1 : option handle) : view := set_fds v (<[i := h0]> (<[j := h1]> (fds v))).

Lemma with_files_0 s h0 h1 : sees s (with_files h0 h1) -> fds (with_files h0 h1) !! i = Some h0 /\
  forall h, set_fds (with_files h0 h1) (<[i := h]> (fds (with_files h0 h1))) = with_files h h1.
Proof.
  intros Hs. pose proof (vo_fds _ (sees_ok s _ Hs)) as Hl. cbn in Hl. rewrite !length_insert in Hl. unfold with_files. cbn. split.
  - apply list_lookup_insert_eq. rewrite length_insert. lia.
  - intros h. unfold set_fds. cbn. by rewrite list_insert_insert_eq.
Qed.

Lemma with_files_1 s h0 h1 : sees s (with_files h0 h1) -> fds (with_files h0 h1) !! j = Some h1 /\
  forall h, set_fds (with_files h0 h1) (<[j := h]> (fds (with_files h0 h1))) = with_files h0 h.
Proof.
  intros Hs. pose proof (vo_fds _ (sees_ok s _ Hs)) as Hl. cbn in Hl. rewrite !length_insert in Hl. unfold with_files. cbn. split.
  - rewrite list_lookup_insert_ne by done. apply list_lookup_insert_eq. lia.
  - intros h. unfold set_fds. cbn. by rewrite list_insert_insert_ne, list_insert_insert_eq by done.
Qed.

Lemma frame_row_runs row la lb : forall n s a b col h0 h1 c0 e0 c1 e1 fs x,
  sees s (with_files h0 h1) -> stream f0 h0 a la c0 e0 -> stream f1 h1 b lb c1 e1 ->
  (length a `max` length b < n)%nat -> holds_board fs x ->
  Forall (fun e => 0 < location e) (row_cells junk (length a `max` length b) row col a b) ->
  runs (frame_row fuel junk n (Z.of_nat i) (Z.of_nat j) row col fs c0 e0 c1 e1) s (fun r s' => exists h0' h1',
    sees s' (with_files h0' h1') /\ stream f0 h0' [] la 10 r.1.2 /\ stream f1 h1' [] lb 10 r.2 /\
    holds_board r.1.1 (fold_left add_to (row_cells junk (length a `max` length b) row col a b) x)).
Proof.
  induction n as [|n IH]; intros s a b col h0 h1 c0 e0 c1 e1 fs x Hs H0' H1' Hn Hx Hpos; [lia |]. cbn [frame_row].
  destruct (with_files_0 s h0 h1 Hs) as [Hh0 Hset0].
  eapply runs_step; [by apply (frame_char_runs s (with_files h0 h1) i h0 f0 a la c0 e0) |].
  intros [d0 g0] s1 (h0' & Hs1 & Ed0 & Hst0 & Hnil0). rewrite Hset0 in Hs1. cbn [fst snd] in *.
  destruct (with_files_1 s1 h0' h1 Hs1) as [Hh1 Hset1].
  eapply runs_step; [by apply (frame_char_runs s1 (with_files h0' h1) j h1 f1 b lb c1 e1) |].
  intros [d1 g1] s2 (h1' & Hs2 & Ed1 & Hst1 & Hnil1). rewrite Hset1 in Hs2. cbn [fst snd] in *.
  destruct ((d0 =? 10) && (d1 =? 10)) eqn:E10.
  - apply andb_prop in E10 as [->%Z.eqb_eq ->%Z.eqb_eq]. rewrite (Hnil0 eq_refl) in *. rewrite (Hnil1 eq_refl) in *.
    apply runs_ret. by exists h0', h1'.
  - assert (Em : (length a `max` length b = S (length (tl a) `max` length (tl b)))%nat).
    { destruct a as [|x0 a], b as [|y0 b]; simpl in *; lia. }
    rewrite Em in Hpos |- *. cbn [row_cells] in Hpos |- *. rewrite <- Ed0, <- Ed1 in Hpos |- *.
    assert (Hgo : forall fs' x', holds_board fs' x' ->
      runs (frame_row fuel junk n (Z.of_nat i) (Z.of_nat j) row (col + 1) fs' d0 g0 d1 g1) s2 (fun r s' => exists h0' h1',
        sees s' (with_files h0' h1') /\ stream f0 h0' [] la 10 r.1.2 /\ stream f1 h1' [] lb 10 r.2 /\
        holds_board r.1.1 (fold_left add_to (row_cells junk (length (tl a) `max` length (tl b)) row (col + 1) (tl a) (tl b)) x'))).
    { intros fs' x' Hx'. apply (IH s2 (tl a) (tl b) (col + 1) h0' h1'); try done; [lia |]. by apply Forall_app in Hpos as [_ ?]. }
    destruct (inked d0 d1); cbn [app fold_left] in Hpos |- *.
    + apply runs_bind. apply (ioctl_add_runs s2 fs x); [done | by apply Forall_cons in Hpos as [? _] |]. intros fs' Hx'. by apply Hgo.
    + apply runs_bind, runs_ret. by apply Hgo.
Qed.

(** *** The rows *)

(** A file at the start of a row: [ls] are its lines from this row on. *)
Inductive row_start (content : list Z) : option handle -> list (list Z) -> Z -> Z -> Prop :=
| rs_more h t ls : open_at h content t -> lines t = ls -> row_start content h ls 48 0
| rs_done : row_start content None [] 10 1.

Lemma row_start_stream content h ls c eof :
  row_start content h ls c eof -> stream content h (hd [] ls) (tl ls) c eof.
Proof.
  intros [h' t ls' Ho Hl|]; [|constructor; by left]. destruct ls' as [|a ls']; [by apply lines_some in Hl |].
  by apply (st_reading _ _ t).
Qed.

Lemma frame_end_runs s w k h content ls eof :
  sees s w -> (2 <= k < 8)%nat -> fds w !! k = Some h -> stream content h [] ls 10 eof ->
  runs (frame_end (Z.of_nat k) eof) s (fun c s' => exists h', sees s' (set_fds w (<[k := h']> (fds w))) /\ row_start content h' ls c eof).
Proof.
  intros Hs Hk Hh Hst. unfold frame_end. assert (Hid : set_fds w (<[k := h]> (fds w)) = w) by (rewrite list_insert_id by done; by destruct w).
  inversion Hst as [? ? ? ? ? ? ? Hne | h' t ls' Ho Hl | h' Ho]; subst; [done | |]; cbn [negb Z.eqb].
  - apply runs_ret. exists h. rewrite Hid. split; [done |]. by apply (rs_more _ _ t).
  - eapply runs_step; [by apply (close_spec s w) |]. intros r s' [_ Hs']. apply runs_ret. exists None. split; [|constructor].
    unfold view_close in Hs'. replace ((Z.of_nat k <? 2) || (7 <? Z.of_nat k)) with false in Hs' by lia. rewrite Nat2Z.id, Hh in Hs'.
    destruct Ho as [->|(pos & -> & _)]; [|done]. by rewrite Hid.
Qed.

Lemma frame_loop_runs : forall n s row la lb h0 h1 c0 e0 c1 e1 fs x,
  sees s (with_files h0 h1) -> row_start f0 h0 la c0 e0 -> row_start f1 h1 lb c1 e1 ->
  (length la `max` length lb < n)%nat -> Forall (fun l => (length l < fuel)%nat) la -> Forall (fun l => (length l < fuel)%nat) lb ->
  holds_board fs x -> Forall (fun e => 0 < location e) (frame_cells junk (length la `max` length lb) row la lb) ->
  runs (frame_loop fuel junk n (Z.of_nat i) (Z.of_nat j) row fs c0 e0 c1 e1) s (fun fs' s' =>
    sees s' (with_files None None) /\ holds_board fs' (fold_left add_to (frame_cells junk (length la `max` length lb) row la lb) x)).
Proof.
  induction n as [|n IH]; intros s row la lb h0 h1 c0 e0 c1 e1 fs x Hs H0' H1' Hn Ha Hb Hx Hpos; [lia |]. cbn [frame_loop].
  destruct ((e0 =? 0) || (e1 =? 0)) eqn:Eeof.
  - assert (Em : (length la `max` length lb = S (length (tl la) `max` length (tl lb)))%nat).
    { destruct la as [|a la], lb as [|b lb]; simpl; try lia. exfalso.
      inversion H0' as [? ? ? ? Hl0|]; subst; [by apply lines_some in Hl0 |].
      inversion H1' as [? ? ? ? Hl1|]; subst; [by apply lines_some in Hl1 | done]. }
    rewrite Em in Hpos |- *. cbn [frame_cells] in Hpos |- *. apply Forall_app in Hpos as [Hpos1 Hpos2]. rewrite fold_left_app.
    assert (Hlen : forall ls, Forall (fun l : list Z => (length l < fuel)%nat) ls -> (0 < fuel)%nat -> (length (hd [] ls) < fuel)%nat).
    { intros ls Hls Hf. destruct ls as [|l ls]; [done |]. by apply Forall_cons in Hls as [? _]. }
    assert (Hfu : (0 < fuel)%nat).
    { destruct la as [|a la], lb as [|b lb]; try (simpl in Em; lia).
      all: first [apply Forall_cons in Ha as [Hl _] | apply Forall_cons in Hb as [Hl _]]; lia. }
    eapply runs_step.
    { apply (frame_row_runs row (tl la) (tl lb) fuel s (hd [] la) (hd [] lb) 0 h0 h1 c0 e0 c1 e1 fs x Hs);
        [by apply row_start_stream | by apply row_start_stream | | exact Hx | exact Hpos1].
      pose proof (Hlen la Ha Hfu). pose proof (Hlen lb Hb Hfu). lia. }
    intros [[fs1 g0] g1] s1 (h0' & h1' & Hs1 & Hst0 & Hst1 & Hx1). cbn [fst snd] in *.
    destruct (with_files_0 s1 h0' h1' Hs1) as [Hh0 Hset0].
    eapply runs_step; [by eapply (frame_end_runs s1 _ i) |]. intros d0 s2 (h0'' & Hs2 & Hr0). rewrite Hset0 in Hs2.
    destruct (with_files_1 s2 h0'' h1' Hs2) as [Hh1 Hset1].
    eapply runs_step; [by eapply (frame_end_runs s2 _ j) |]. intros d1 s3 (h1'' & Hs3 & Hr1). rewrite Hset1 in Hs3.
    apply (IH s3 (row + 1) (tl la) (tl lb) h0'' h1''); try done; [lia | |].
    + destruct la; [done | by apply Forall_cons in Ha as [_ ?]].
    + destruct lb; [done | by apply Forall_cons in Hb as [_ ?]].
  - apply orb_false_elim in Eeof as [E0 E1].
    inversion H0'; subst; [done |]. inversion H1'; subst; [done |]. by apply runs_ret.
Qed.

Lemma lines_length t : (length (lines t) <= S (length t))%nat /\ Forall (fun l => (length l <= length t)%nat) (lines t).
Proof.
  induction t as [|c t (IH1 & IH2)]; cbn [lines]; [split; [simpl; lia | by repeat constructor] |].
  assert (IH2' : Forall (fun l : list Z => (length l <= length (c :: t))%nat) (lines t)).
  { eapply Forall_impl; [exact IH2 |]. simpl. lia. }
  destruct (c =? 10); [split; [simpl; lia | constructor; [simpl; lia | done]] |].
  destruct (lines t) as [|y ys] eqn:E; [by apply lines_some in E |].
  apply Forall_cons in IH2 as [? _]. apply Forall_cons in IH2' as [_ ?]. split; [simpl in *; lia |]. constructor; [simpl in *; lia | done].
Qed.

(** From the opened files to the picture. *)
Lemma frames_run s fs x :
  sees s (with_files (Some (HFile f0 0)) (Some (HFile f1 0))) -> (length f0 + 2 <= fuel)%nat -> (length f1 + 2 <= fuel)%nat ->
  holds_board fs x -> Forall (fun e => 0 < location e) (picture junk f0 f1) ->
  runs (frame_loop fuel junk fuel (Z.of_nat i) (Z.of_nat j) 0 fs 48 0 48 0) s (fun fs' s' =>
    sees s' (with_files None None) /\ holds_board fs' (fold_left add_to (picture junk f0 f1) x)).
Proof.
  intros Hs Hf0 Hf1 Hx Hpos. destruct (lines_length f0) as [L0 A0], (lines_length f1) as [L1 A1].
  assert (Hs0 : forall f, row_start f (Some (HFile f 0)) (lines f) 48 0).
  { intros f. apply (rs_more _ _ f); [|done]. exists 0%nat. split_and!; [done | by rewrite drop_0 | lia]. }
  apply (frame_loop_runs fuel s 0 (lines f0) (lines f1) (Some (HFile f0 0)) (Some (HFile f1 0)) 48 0 48 0); try done; [lia | |].
  - eapply Forall_impl; [exact A0 |]. cbv beta. lia.
  - eapply Forall_impl; [exact A1 |]. cbv beta. lia.
Qed.
End Frames.

(** *** The clock *)

Lemma wait_ticks_runs k n : forall s w q garbage fs x,
  sees s w -> (2 <= k < 8)%nat -> fds w !! k = Some (Some HRtc) -> inputs w = replicate n Tick ++ q ->
  holds_board fs x -> (80 * 25 < fuel)%nat ->
  runs (wait_ticks fuel n (Z.of_nat k) garbage fs) s (fun r s' =>
    r.1 = garbage /\ sees s' (set_inputs w q) /\ holds_board r.2 (Nat.iter n tick_board x)).
Proof.
  induction n as [|n IH]; intros s w q garbage fs x Hs Hk Hh Hin Hx Hf; cbn [wait_ticks].
  - apply runs_ret. split; [done |]. cbn in Hin. rewrite <- Hin. split; [by destruct w | done].
  - assert (Hr : view_read w (Z.of_nat k) garbage 4 = Some (0, garbage, set_inputs w (replicate n Tick ++ q))).
    { unfold view_read. replace ((Z.of_nat k <? 0) || (7 <? Z.of_nat k) || (Z.of_nat k =? 1)) with false by lia.
      by rewrite Nat2Z.id, Hh, Hin. }
    eapply runs_step; [apply (read_spec s w _ _ _ _ _ _ Hs Hr); lia |]. intros [m g] s1 [[= -> ->] Hs1].
    destruct Hx as (Hb & Hv). pose proof (blinks_length _ _ Hb) as Hlen.
    destruct (tasklet_spec fs x.1 fuel Hb ltac:(lia)) as (fs' & E & Hb' & Hv').
    eapply runs_lift_bind; [exact E |].
    eapply runs_mono; [apply (IH s1 (set_inputs w (replicate n Tick ++ q)) q garbage fs' (tick_board x)); try done |].
    + split; [done |]. cbn. by rewrite Hv', Hv.
    + intros r s' (E1 & Hs' & Hx'). split; [done |]. split; [done |]. by rewrite Nat.iter_succ_r.
Qed.

(** *** Opening the frames *)

Lemma add_frames_runs s v r0 r1 n0 n1 f0 f1 i j fs x :
  sees s v -> cstr r0 n0 -> zlen n0 < 1024 -> cstr r1 n1 -> zlen n1 < 1024 ->
  file_named v n0 = Some (NFile f0) -> file_named v n1 = Some (NFile f1) ->
  free_fd v = Some i -> free_fd (set_fds v (<[i := Some (HFile f0 0)]> (fds v))) = Some j ->
  (length f0 + 2 <= fuel)%nat -> (length f1 + 2 <= fuel)%nat ->
  holds_board fs x -> Forall (fun e => 0 < location e) (picture junk f0 f1) ->
  runs (add_frames fuel junk r0 r1 fs) s (fun r s' => exists fs', r = Some fs' /\ sees s' v /\
    holds_board fs' (fold_left add_to (picture junk f0 f1) x)).
Proof.
  intros Hs Hr0 Hz0 Hr1 Hz1 Hn0 Hn1 Hi Hj Hf0 Hf1 Hx Hpos. unfold add_frames.
  destruct (free_fd_range v i (sees_ok s v Hs) Hi) as [Hi8 Hfi].
  eapply runs_step; [by apply (open_spec s v r0 n0) |]. intros fd0 s1 [-> Hs1]. unfold view_open in Hs1 |- *.
  rewrite Hi, Hn0 in Hs1 |- *. cbn [fst snd handle_of] in Hs1 |- *. destruct (Z.ltb_spec (Z.of_nat i) 0); [lia |].
  set (v1 := set_fds v (<[i := Some (HFile f0 0)]> (fds v))) in *.
  destruct (free_fd_range v1 j (sees_ok s1 v1 Hs1) Hj) as [Hj8 Hfj].
  assert (Hij : i <> j).
  { intros ->. unfold v1 in Hfj. cbn in Hfj. by rewrite list_lookup_insert_eq in Hfj by (by eapply lookup_lt_Some). }
  assert (Hfj' : fds v !! j = Some None) by (unfold v1 in Hfj; cbn in Hfj; by rewrite list_lookup_insert_ne in Hfj).
  eapply runs_step; [by apply (open_spec s1 v1 r1 n1) |]. intros fd1 s2 [-> Hs2]. unfold view_open in Hs2 |- *.
  change (file_named v1 n1) with (file_named v n1) in Hs2 |- *. rewrite Hj, Hn1 in Hs2 |- *. cbn [fst snd handle_of] in Hs2 |- *.
  destruct (Z.ltb_spec (Z.of_nat j) 0); [lia |].
  assert (E2 : set_fds v1 (<[j := Some (HFile f1 0)]> (fds v1)) = with_files v i j (Some (HFile f0 0)) (Some (HFile f1 0))).
  { unfold v1, with_files, set_fds. cbn. by rewrite list_insert_insert_ne. }
  rewrite E2 in Hs2.
  eapply runs_step; [by apply (frames_run v i j f0 f1 Hi8 Hj8 Hij s2 fs x) |]. intros fs' s3 [Hs3 Hx'].
  apply runs_ret. exists fs'. split; [done |]. split; [|done]. unfold with_files in Hs3.
  rewrite (list_insert_id (fds v) j None Hfj'), (list_insert_id (fds v) i None Hfi) in Hs3. by destruct v.
Qed.

(** *** The film *)

Lemma ioctl_sync_runs (s : St) fs x arg (Q : fish_t -> St -> Prop) :
  holds_board fs x -> (80 * 25 < fuel)%nat -> (forall fs', holds_board fs' (sync_board arg x) -> Q fs' s) ->
  runs (ioctl fuel fs (Num arg) RTC_SYNC) s Q.
Proof.
  intros (Hb & Hv) Hf HQ. pose proof (blinks_length _ _ Hb).
  destruct (sync_spec fs x.1 arg fuel Hb) as (r & es' & v' & fs' & E1 & E2 & Hb' & Hv'); [lia |].
  unfold ioctl. eapply runs_lift_bind; [unfold mp1_ioctl; cbn [Z.eqb RTC_REMOVE RTC_SYNC]; rewrite E2; reflexivity |].
  apply runs_ret, HQ. unfold sync_board. rewrite <- Hv, E1. by split.
Qed.

Lemma ioctl_remove_runs (s : St) fs x loc (Q : fish_t -> St -> Prop) :
  holds_board fs x -> (80 * 25 < fuel)%nat -> (forall fs', holds_board fs' (remove_board loc x) -> Q fs' s) ->
  runs (ioctl fuel fs (Num loc) RTC_REMOVE) s Q.
Proof.
  intros (Hb & Hv) Hf HQ. pose proof (blinks_length _ _ Hb).
  destruct (remove_spec fs x.1 loc fuel Hb) as (fs' & E & Hb' & Hv'); [lia |].
  unfold ioctl. eapply runs_lift_bind; [unfold mp1_ioctl; cbn [Z.eqb RTC_REMOVE]; rewrite E; reflexivity |].
  apply runs_ret, HQ. split; [done |]. by rewrite Hv', Hv.
Qed.

(** What the characters and the video memory are when [main] ends. *)
Definition fish_film (f0 f1 v : list Z) : board :=
  let x := fold_left add_to (picture junk f0 f1) ([], v) in
  let x := add_to (Nat.iter WAIT tick_board x) (the_blink junk (6 * 80 + 60) 73 77 7 6) in
  let x := sync_board (Z.lor (Z.shiftl 40 16) (6 * 80 + 60)) (Nat.iter WAIT tick_board x) in
  let x := remove_board (Z.of_nat WAIT) (Nat.iter WAIT tick_board x) in
  Nat.iter (80 * 25) tick_board x.

(** A step of [fish_body] that waits. *)
Lemma wait_step {A} k n (m : list Z * fish_t -> U St A) s w q garbage fs x Q :
  sees s w -> (2 <= k < 8)%nat -> fds w !! k = Some (Some HRtc) -> inputs w = replicate n Tick ++ q ->
  holds_board fs x -> (80 * 25 < fuel)%nat ->
  (forall fs' s', sees s' (set_inputs w q) -> holds_board fs' (Nat.iter n tick_board x) -> runs (m (garbage, fs')) s' Q) ->
  runs (ubind (wait_ticks fuel n (Z.of_nat k) garbage fs) m) s Q.
Proof.
  intros Hs Hk Hh Hin Hx Hf Hm. eapply runs_step; [by apply (wait_ticks_runs k n s w q garbage fs x) |].
  intros [g fs'] s' (Eg & Hs' & Hx'). cbn [fst snd] in *. subst g. by apply Hm.
Qed.

Lemma fish_body_runs s v k i j f0 f1 q garbage vm :
  sees s v -> file_named v (text "rtc") = Some NRtc ->
  file_named v (text "frame0.txt") = Some (NFile f0) -> file_named v (text "frame1.txt") = Some (NFile f1) ->
  let v1 := set_fds v (<[k := Some HRtc]> (fds v)) in
  free_fd v = Some k -> free_fd v1 = Some i -> free_fd (set_fds v1 (<[i := Some (HFile f0 0)]> (fds v1))) = Some j ->
  inputs v = replicate (WAIT + (WAIT + (WAIT + 80 * 25))) Tick ++ q -> length vm = 4096%nat ->
  (80 * 25 < fuel)%nat -> (length f0 + 2 <= fuel)%nat -> (length f1 + 2 <= fuel)%nat ->
  Forall (fun e => 0 < location e) (picture junk f0 f1) ->
  runs (fish_body fuel junk garbage (mkFish (replicate (80 * 25) zero_blink) None vm)) s (fun r s' =>
    r.1 = 0 /\ sees s' (set_inputs v q) /\ holds_board r.2 (fish_film f0 f1 vm)).
Proof.
  intros Hs Hrtc Hn0 Hn1 v1 Hk Hi Hj Hin Hvm Hfu Hf0 Hf1 Hpos. unfold fish_body.
  destruct (free_fd_range v k (sees_ok s v Hs) Hk) as [Hk8 Hfk]. pose proof (lookup_lt_Some _ _ _ Hfk) as Hkl.
  eapply runs_step; [apply (open_spec s v (lit "rtc") (text "rtc") Hs); [by apply cstr_lit, nonnulb_ok | done] |].
  intros fd s1 [-> Hs1]. unfold view_open in Hs1 |- *. rewrite Hk, Hrtc in Hs1 |- *. cbn [fst snd handle_of] in Hs1 |- *. fold v1 in Hs1.
  eapply runs_step.
  { apply (add_frames_runs s1 v1 _ _ (text "frame0.txt") (text "frame1.txt") f0 f1 i j _ ([], vm) Hs1); try done;
      first [by apply cstr_lit, nonnulb_ok | by split; [apply empty_pool |]]. }
  intros r s2 (fs2 & -> & Hs2 & Hx2). set (x2 := fold_left add_to _ _) in Hx2.
  assert (Hv1k : fds v1 !! k = Some (Some HRtc)) by by apply list_lookup_insert_eq.
  eapply runs_step.
  { apply (write_spec s2 v1 (Z.of_nat k) (aget [32; 0; 0; 0]) [32; 0; 0; 0] 4 0 v1 Hs2); [| | lia].
    - intros n c Hc. split; [by apply aget_nat |]. revert n c Hc. apply Forall_lookup. repeat constructor; discriminate.
    - unfold view_write. replace ((Z.of_nat k <=? 0) || (7 <? Z.of_nat k)) with false by lia. by rewrite Nat2Z.id, Hv1k. }
  intros r s3 [_ Hs3]. rewrite !replicate_add, <- !app_assoc in Hin.
  eapply (wait_step k WAIT _ s3 v1); [done | done | done | exact Hin | exact Hx2 | done |]. intros fs4 s4 Hs4 Hx4.
  apply runs_bind. eapply ioctl_add_runs; [exact Hx4 | simpl; lia |]. intros fs5 Hx5.
  eapply (wait_step k WAIT _ s4 _); [exact Hs4 | done | done | reflexivity | exact Hx5 | done |]. intros fs6 s6 Hs6 Hx6.
  apply runs_bind. eapply ioctl_sync_runs; [exact Hx6 | done |]. intros fs7 Hx7.
  eapply (wait_step k WAIT _ s6 _); [exact Hs6 | done | done | reflexivity | exact Hx7 | done |]. intros fs8 s8 Hs8 Hx8.
  apply runs_bind. eapply ioctl_remove_runs; [exact Hx8 | done |]. intros fs9 Hx9.
  eapply (wait_step k (80 * 25) _ s8 _); [exact Hs8 | done | done | reflexivity | exact Hx9 | done |]. intros fs10 s10 Hs10 Hx10.
  eapply runs_step; [by apply (close_spec s10 _ (Z.of_nat k) Hs10) |]. intros r' s11 [_ Hs11]. apply runs_ret.
  split; [done |]. split; [|exact Hx10]. unfold view_close in Hs11.
  replace ((Z.of_nat k <? 2) || (7 <? Z.of_nat k)) with false in Hs11 by lia. rewrite Nat2Z.id in Hs11.
  change (fds (set_inputs _ _)) with (fds v1) in Hs11. rewrite Hv1k in Hs11. cbn [snd] in Hs11.
  unfold v1, set_fds, set_inputs in Hs11. cbn in Hs11. rewrite list_insert_insert_eq, list_insert_id in Hs11 by done. exact Hs11.
Qed.

(** *** What the picture has

    The character of a frame at a row and column, a newline outside its lines. *)
Definition char_at (f : list Z) (r c : nat) : Z := default 10 (lines f !! r ≫= (fun l => l !! c)).

Lemma row_cells_elem e row : forall n col a b, (length a `max` length b <= n)%nat ->
  e ∈ row_cells junk n row col a b <-> exists k : nat,
    inked (default 10 (a !! k)) (default 10 (b !! k)) = true /\
    e = frame_cell junk row (col + Z.of_nat k) (default 10 (a !! k)) (default 10 (b !! k)).
Proof.
  assert (Hhd : forall l : list Z, hd 10 l = default 10 (l !! 0%nat)) by by intros [].
  assert (Htl : forall (l : list Z) k, tl l !! k = l !! S k) by by intros [].
  induction n as [|n IH]; intros col a b Hn.
  - destruct a, b; simpl in Hn; try lia. split; [by intros ?%elem_of_nil | by intros (k & Hk & _)].
  - cbn [row_cells]. rewrite elem_of_app, IH by (destruct a, b; simpl in *; lia). setoid_rewrite Htl. rewrite !Hhd. split.
    + intros [He|(k & Hk & ->)].
      * destruct (inked _ _) eqn:Ei; [|by apply elem_of_nil in He]. apply list_elem_of_singleton in He as ->.
        exists 0%nat. by rewrite Z.add_0_r.
      * exists (S k). split; [done |]. f_equal. lia.
    + intros ([|k] & Hk & ->).
      * left. rewrite Hk, Z.add_0_r. by left.
      * right. exists k. split; [done |]. f_equal. lia.
Qed.

Lemma frame_cells_elem e : forall n row la lb, (length la `max` length lb <= n)%nat ->
  e ∈ frame_cells junk n row la lb <-> exists r c : nat,
    let x := default 10 (la !! r ≫= (fun l => l !! c)) in let y := default 10 (lb !! r ≫= (fun l => l !! c)) in
    inked x y = true /\ e = frame_cell junk (row + Z.of_nat r) (Z.of_nat c) x y.
Proof.
  assert (Htl : forall (l : list (list Z)) k, tl l !! k = l !! S k) by by intros [].
  assert (Hhd : forall (l : list (list Z)) (c : nat), hd [] l !! c = (l !! 0%nat ≫= (fun l => l !! c))) by by intros [].
  induction n as [|n IH]; intros row la lb Hn.
  - destruct la, lb; simpl in Hn; try lia. split; [by intros ?%elem_of_nil | by intros (r & c & Hk & _)].
  - cbn [frame_cells]. rewrite elem_of_app, IH by (destruct la, lb; simpl in *; lia). unfold row_of.
    rewrite row_cells_elem by done. setoid_rewrite Htl. setoid_rewrite Hhd. split.
    + intros [(c & Hc & ->)|(r & c & Hc & ->)].
      * exists 0%nat, c. split; [done |]. by rewrite Z.add_0_r.
      * exists (S r), c. split; [done |]. f_equal. lia.
    + intros ([|r] & c & Hc & ->).
      * left. exists c. split; [done |]. by rewrite Z.add_0_r.
      * right. exists r, c. split; [done |]. f_equal. lia.
Qed.

Lemma picture_elem f0 f1 e : e ∈ picture junk f0 f1 <-> exists r c : nat,
  inked (char_at f0 r c) (char_at f1 r c) = true /\
  e = frame_cell junk (Z.of_nat r) (Z.of_nat c) (char_at f0 r c) (char_at f1 r c).
Proof. unfold picture, char_at. by rewrite frame_cells_elem. Qed.
End Facts.

(** ** Theorems *)

Section Theorems.
Context `{Os St} `{!OsSpec St} (fuel : nat) (junk : mp1_blink_struct).

(** C19. [main], once the video memory is mapped: it reads the two frames, in pieces of
    one character, into a picture that has a blinking character exactly where one of
    the frames is not blank, however the lines of the two differ in number and
    length; it waits for 2600 ticks of the clock, with the calls of the blinking
    list in between, and returns 0 with its descriptors closed. At the end the list
    and the video memory are what the specification of the calls makes of the
    picture. *)
Theorem fish_plays s v k i j f0 f1 q garbage vm :
  sees s v -> file_named v (text "rtc") = Some NRtc ->
  file_named v (text "frame0.txt") = Some (NFile f0) -> file_named v (text "frame1.txt") = Some (NFile f1) ->
  let v1 := set_fds v (<[k := Some HRtc]> (fds v)) in
  free_fd v = Some k -> free_fd v1 = Some i -> free_fd (set_fds v1 (<[i := Some (HFile f0 0)]> (fds v1))) = Some j ->
  inputs v = replicate (WAIT + (WAIT + (WAIT + 80 * 25))) Tick ++ q -> length vm = 4096%nat ->
  (80 * 25 < fuel)%nat -> (length f0 + 2 <= fuel)%nat -> (length f1 + 2 <= fuel)%nat ->
  Forall (fun e => 0 < location e) (picture junk f0 f1) ->
  (forall e, e ∈ picture junk f0 f1 <-> exists r c : nat, inked (char_at f0 r c) (char_at f1 r c) = true /\
     e = frame_cell junk (Z.of_nat r) (Z.of_nat c) (char_at f0 r c) (char_at f1 r c)) /\
  runs (fish_body fuel junk garbage (mkFish (replicate (80 * 25) zero_blink) None vm)) s (fun r s' =>
    r.1 = 0 /\ sees s' (set_inputs v q) /\ holds_board r.2 (fish_film junk f0 f1 vm)).
Proof.
  intros Hs Hrtc Hn0 Hn1 v1 Hk Hi Hj Hin Hvm Hfu Hf0 Hf1 Hpos. split; [intros e; apply picture_elem |].
  by apply (fish_body_runs fuel junk s v k i j f0 f1 q garbage vm).
Qed.
End Theorems.

Section Demo.
Definition demo_frame0 : list Z := text "o" ++ [10] ++ text " x".
Definition demo_frame1 : list Z := text " O".

Definition demo_aquarium : view :=
  mkView [([46], NDir); (text "rtc", NRtc); (text "frame0.txt", NFile demo_frame0); (text "frame1.txt", NFile demo_frame1)] 0
    (Some HTerm :: Some HTerm :: replicate 6 None) blank (replicate 1023 0) [] (replicate (WAIT + (WAIT + (WAIT + 80 * 25))) Tick).

Lemma demo_aquarium_sees : view_sees demo_aquarium demo_aquarium.
Proof.
  constructor; [done | | |].
  - constructor; cbn [demo_aquarium fds ents row arg]; try done.
    + repeat constructor; vm_compute; lia || (by repeat constructor).
    + assert (Hc : content_ok demo_frame0 /\ content_ok demo_frame1).
      { split; (split; [|done]); unfold byte_ok; repeat (apply Forall_cons; split; [vm_compute; split; congruence |]); apply Forall_nil; done. }
      destruct Hc as [Hc0 Hc1]. intros name c Hin.
      apply elem_of_cons in Hin as [E|Hin]; [discriminate E |]. apply elem_of_cons in Hin as [E|Hin]; [discriminate E |].
      apply elem_of_cons in Hin as [E|Hin]; [by injection E as _ -> |]. apply elem_of_cons in Hin as [E|Hin]; [by injection E as _ -> |].
      by apply elem_of_nil in Hin.
    + intros i c pos Hi. do 8 (destruct i as [|i]; [done |]). done.
    + split; [by rewrite length_replicate | apply Forall_replicate; by unfold byte_ok].
    + constructor.
  - apply Forall_replicate. done.
  - simpl. lia.
Qed.

Lemma fish_plays_witness : picture zero_blink demo_frame0 demo_frame1 <> [] /\
  runs (fish_body 2001 zero_blink [0; 0; 0; 0] (mkFish (replicate (80 * 25) zero_blink) None (replicate 4096 32))) demo_aquarium
    (fun r s' => r.1 = 0 /\ view_sees s' (set_inputs demo_aquarium []) /\
       holds_board r.2 (fish_film zero_blink demo_frame0 demo_frame1 (replicate 4096 32))).
Proof.
  split; [by vm_compute |].
  destruct (fish_plays 2001 zero_blink demo_aquarium demo_aquarium 2 3 4 demo_frame0 demo_frame1 [] [0; 0; 0; 0] (replicate 4096 32))
    as (_ & Hr); [exact demo_aquarium_sees | done | done | done | done | done | done | symmetry; apply app_nil_r | apply length_replicate
    | lia | apply Nat.leb_le; by vm_compute | apply Nat.leb_le; by vm_compute | vm_compute; by repeat constructor | exact Hr].
Defined.
End Demo.
