(* ===== verification/Syserr.v ===== *)
(** * The tests of the system calls

    [src/syscalls/ece391syserr.c]: eight tests of the error results of the system
    calls, and the [main] that picks one of them or runs all. Each test says PASS or
    FAIL on the terminal; they all pass. [tmp k] is what the stack holds where the
    [k]-th array of a test lies. *)

From stdpp Require Import strings.
From S2P Require Import Prelude Strings Console Handlers User Userlib Programs.

Local Open Scope Z_scope.
Local Open Scope user_scope.

Definition NEG_FD : Z := -1073741823.
Definition BIG_FD : Z := 1073741823.
Definition BIG_NUM : Z := 1073741823.
Definition NEG_NUM : Z := -1073741823.

Section Code.
Context `{Os St} (fuel : nat) (above : reader).

(** [for (i = lo; i < lo + n; i++)]. *)
Fixpoint ufor {A} (n : nat) (i : Z) (body : Z -> A -> U St A) (x : A) : U St A :=
  match n with
  | O => uret x
  | S n => let* x := body i x in ufor n (i + 1) body x
  end.

(** [if (-1 != r) { fail = 2; ece391_fdputs (1, msg); }]. *)
Definition expect (r : Z) (msg : string) (fail : Z) : U St Z :=
  if negb (-1 =? r) then do* uputs fuel (litn msg) ;; uret 2 else uret fail.

Definition verdict (fail : Z) (test : string) : U St Z :=
  do* (if negb (fail =? 0) then uputs fuel (litn (test +:+ ": FAIL")) else uputs fuel (litn (test +:+ ": PASS"))) ;;
  uret fail.

(** The calls that the first two tests make. *)
Definition err_fd (fd : Z) (test : string) (buf : list Z) : U St Z :=
  let* (r, buf) := ece391_read fd buf 31 in
  let* fail := expect r "read fail" 0 in
  let* r := ece391_write fd (stack buf above) 31 in
  let* fail := expect r "write fail" fail in
  let* r := ece391_close fd in
  let* fail := expect r "close fail" fail in
  verdict fail test.

Definition err_neg_fd (buf : list Z) : U St Z := err_fd NEG_FD "err_neg_fd" buf.
Definition err_big_fd (buf : list Z) : U St Z := err_fd BIG_FD "err_big_fd" buf.

Definition err_open_lots : U St Z :=
  let* cnt := ufor 7 0 (fun _ cnt =>
    let* r := ece391_open (lit ".") in uret (if -1 =? r then cnt + 1 else cnt)) 0 in
  do* ufor 6 2 (fun i _ => let* _ := ece391_close i in uret tt) tt ;;
  if cnt =? 1 then do* uputs fuel (litn "err_open_lots: PASS") ;; uret 0
  else do* uputs fuel (litn "err_open_lots: FAIL") ;; uret 2.

Definition err_open : U St Z :=
  let* r := ece391_open (lit "helloo") in
  let* fail := expect r "'helloo' fail" 0 in
  let* r := ece391_open (lit "shel") in
  let* fail := expect r "'shel' fail" fail in
  let* r := ece391_open (lit "") in
  let* fail := expect r "empty string fail" fail in
  verdict fail "err_open".

Definition err_unopened (buf : list Z) : U St Z :=
  let* fail := ufor 8 0 (fun i fail =>
    let* r := ece391_close i in expect r "close unopened or invalid fd fail" fail) 0 in
  let* (fail, buf) := ufor 6 2 (fun i '(fail, buf) =>
    let* (r, buf) := ece391_read i buf 31 in
    let* fail := expect r "read from unopened fd fail" fail in uret (fail, buf)) (fail, buf) in
  let* fail := ufor 6 2 (fun i fail =>
    let* r := ece391_write i (stack buf above) 31 in expect r "write to unopened fd fail" fail) fail in
  verdict fail "err_unopened".

Definition err_vidmap : U St Z :=
  let* r := ece391_vidmap 0x0 in
  let* fail := expect r "Null pointer fail" 0 in
  let* r := ece391_vidmap 0x400000 in
  let* fail := expect r "Kernel pointer fail fail" fail in
  verdict fail "err_vidmap".

Definition err_stdin_out (buf : list Z) : U St Z :=
  let* r := ece391_write 0 (stack buf above) 31 in
  let* fail := expect r "write to stdin fail" 0 in
  let* (r, _) := ece391_read 1 buf 31 in
  let* fail := expect r "read from stdout fail" fail in
  verdict fail "err_stdin_out".

Definition err_syscall_num : U St Z :=
  let* r := call_sys BIG_NUM in
  let* fail := expect r "syscall 0 fail" 0 in
  let* r := call_sys NEG_NUM in
  let* fail := expect r "big num syscall fail" fail in
  let* r := call_sys 0 in
  let* fail := expect r "neg num syscall fail" fail in
  verdict fail "err_syscall_num".

Definition run_all (tmp : nat -> list Z) : U St Z :=
  let* f1 := err_neg_fd (tmp 1%nat) in
  let* f2 := err_big_fd (tmp 2%nat) in
  let* f3 := err_open_lots in
  let* f4 := err_open in
  let* f5 := err_unopened (tmp 5%nat) in
  let* f6 := err_vidmap in
  let* f7 := err_stdin_out (tmp 7%nat) in
  let* f8 := err_syscall_num in
  let fail := f1 + f2 + f3 + f4 + f5 + f6 + f7 + f8 in
  do* (if negb (fail =? 0) then uputs fuel (aget (nl ++ text "Overall Tests: FAIL" ++ nl ++ [0]))
       else uputs fuel (aget (nl ++ text "Overall Tests: PASS" ++ nl ++ [0]))) ;;
  uret fail.

Definition syserr_main (tmp : nat -> list Z) (buf : list Z) : U St Z :=
  do* uputs fuel (lit "Choose from tests 1-8. 0 to run all: ") ;;
  let* (cnt, buf) := ece391_read 0 buf 127 in
  if -1 =? cnt then do* uputs fuel (litn "Can't read test #") ;; uret 2 else
  let* c := ulift (aget buf 0) in
  let select := c - 48 in
  if select =? 0 then run_all tmp
  else if select =? 1 then err_neg_fd (tmp 1%nat)
  else if select =? 2 then err_big_fd (tmp 2%nat)
  else if select =? 3 then err_open_lots
  else if select =? 4 then err_open
  else if select =? 5 then err_unopened (tmp 5%nat)
  else if select =? 6 then err_vidmap
  else if select =? 7 then err_stdin_out (tmp 7%nat)
  else if select =? 8 then err_syscall_num
  else do* uputs fuel (lit "Invalid test number. Choose from tests 1-8 or 0") ;; uret 0.
End Code.

(** ** The tests pass *)

Section Facts.
Context `{Os St} `{!OsSpec St} (fuel : nat) (above : reader).
Hypothesis Hfuel : (200 <= fuel)%nat.

(** What a test says. *)
Definition passes (v : view) (test : string) : view := show v (text (test +:+ ": PASS") ++ nl).

(** A call that gives -1 and leaves the view alone. *)
Definition refused {A} (m : U St A) (s : St) (v : view) (x : A) : Prop :=
  runs m s (fun y s' => y = x /\ sees s' v).

Lemma expect_step s v m msg fail (k : Z -> U St Z) Q :
  refused m s v (-1) -> (forall s', sees s' v -> runs (k fail) s' Q) ->
  runs (ubind m (fun r => ubind (expect fuel r msg fail) k)) s Q.
Proof.
  intros Hm Hk. eapply runs_step; [exact Hm |]. intros r s' [-> Hs']. apply runs_bind, runs_ret. by apply Hk.
Qed.

Lemma verdict_runs s v test :
  sees s v -> on_terminal v -> nonnulb (text (test +:+ ": PASS") ++ nl) = true ->
  (length (text (test +:+ ": PASS") ++ nl) < 200)%nat ->
  runs (verdict fuel 0 test) s (fun r s' => r = 0 /\ sees s' (passes v test)).
Proof.
  intros Hv Ht Hn Hl. apply runs_bind. cbn [Z.eqb negb].
  eapply puts_runs; [done | done | by apply litn_cstr | lia | unfold zlen; lia |]. intros s' Hs'. by apply runs_ret.
Qed.

Lemma open_refused s v m :
  sees s v -> nonnulb (text m) = true -> (length (text m) < 1000)%nat -> file_named v (text m) = None ->
  refused (ece391_open (lit m)) s v (-1).
Proof.
  intros Hv Hn Hl Hf. pose proof (open_spec s v (lit m) (text m) Hv) as Ho. unfold view_open in Ho. rewrite Hf in Ho.
  assert (E : match free_fd v with Some _ => (-1, v) | None => (-1, v) end = (-1, v)) by by destruct (free_fd v).
  replace (match free_fd v with Some _ => _ | None => _ end) with (-1, v) in Ho. apply Ho; [by apply cstr_lit, nonnulb_ok | unfold zlen; lia].
Qed.

Lemma close_refused s v fd :
  sees s v -> view_close v fd = (-1, v) -> refused (ece391_close fd) s v (-1).
Proof. intros Hv E. pose proof (close_spec s v fd Hv) as Hc. by rewrite E in Hc. Qed.

Lemma read_refused s v fd buf n :
  sees s v -> view_read v fd buf n = Some (-1, buf, v) -> n < 2 ^ 31 -> refused (ece391_read fd buf n) s v (-1, buf).
Proof. intros Hv E Hn. by apply (read_spec s v fd buf n). Qed.

Lemma write_refused s v fd r n :
  sees s v -> view_write v fd [] n = Some (-1, v) -> 0 <= n < 2 ^ 31 -> refused (ece391_write fd r n) s v (-1).
Proof. intros Hv E Hn. apply (write_spec s v fd r [] n); [done | intros k c Hc; done | done | done]. Qed.

Lemma ufor_runs {A} (Inv : Z -> A -> St -> Prop) (body : Z -> A -> U St A) n : forall i x s Q,
  Inv i x s -> (forall j y t, i <= j < i + Z.of_nat n -> Inv j y t -> runs (body j y) t (Inv (j + 1))) ->
  (forall y t, Inv (i + Z.of_nat n) y t -> Q y t) -> runs (ufor n i body x) s Q.
Proof.
  induction n as [|n IH]; intros i x s Q Hx Hb HQ.
  - apply runs_ret. apply HQ. by rewrite Z.add_0_r.
  - cbn [ufor]. eapply runs_step; [by apply Hb; [lia |] |]. intros y t Hy.
    apply (IH (i + 1) y t Q Hy).
    + intros j z u Hj. apply Hb. lia.
    + intros z u Hz. apply HQ. by replace (i + Z.of_nat (S n)) with (i + 1 + Z.of_nat n) by lia.
Qed.

Lemma err_fd_runs s v fd test buf :
  sees s v -> on_terminal v -> fd < 0 \/ 7 < fd -> nonnulb (text (test +:+ ": PASS") ++ nl) = true ->
  (length (text (test +:+ ": PASS") ++ nl) < 200)%nat ->
  runs (err_fd fuel above fd test buf) s (fun r s' => r = 0 /\ sees s' (passes v test)).
Proof.
  intros Hv Ht Hfd Hn Hl. unfold err_fd.
  eapply runs_step; [apply (read_refused s v fd buf 31 Hv); [|lia]; unfold view_read; by replace ((fd <? 0) || (7 <? fd) || (fd =? 1)) with true by lia |].
  intros x s1 [-> Hs1]. apply runs_bind, runs_ret.
  eapply expect_step; [apply (write_refused s1 v fd _ 31 Hs1); [|lia]; unfold view_write; by replace ((fd <=? 0) || (7 <? fd)) with true by lia |].
  intros s2 Hs2.
  eapply expect_step; [apply (close_refused s2 v fd Hs2); unfold view_close; by replace ((fd <? 2) || (7 <? fd)) with true by lia |].
  intros s3 Hs3. by apply verdict_runs.
Qed.

Lemma err_open_runs s v :
  sees s v -> on_terminal v -> file_named v (text "helloo") = None -> file_named v (text "shel") = None ->
  file_named v (text "") = None ->
  runs (err_open fuel) s (fun r s' => r = 0 /\ sees s' (passes v "err_open")).
Proof.
  intros Hv Ht H1 H2 H3. unfold err_open.
  eapply expect_step; [by apply (open_refused s v "helloo"); [| |simpl; lia|] |]. intros s1 Hs1.
  eapply expect_step; [by apply (open_refused s1 v "shel"); [| |simpl; lia|] |]. intros s2 Hs2.
  eapply expect_step; [by apply (open_refused s2 v ""); [| |simpl; lia|] |]. intros s3 Hs3.
  apply verdict_runs; [done | done | done | simpl; lia].
Qed.

Lemma err_vidmap_runs s v :
  sees s v -> on_terminal v -> runs (err_vidmap fuel) s (fun r s' => r = 0 /\ sees s' (passes v "err_vidmap")).
Proof.
  intros Hv Ht. unfold err_vidmap.
  eapply expect_step; [by apply (vidmap_spec s v 0 Hv); left |]. intros s1 Hs1.
  eapply expect_step; [by apply (vidmap_spec s1 v 0x400000 Hs1); right |]. intros s2 Hs2.
  apply verdict_runs; [done | done | done | simpl; lia].
Qed.

Lemma err_stdin_out_runs s v buf :
  sees s v -> on_terminal v -> runs (err_stdin_out fuel above buf) s (fun r s' => r = 0 /\ sees s' (passes v "err_stdin_out")).
Proof.
  intros Hv Ht. unfold err_stdin_out.
  eapply expect_step; [by apply (write_refused s v 0 _ 31 Hv) |]. intros s1 Hs1.
  eapply runs_step; [by apply (read_refused s1 v 1 buf 31 Hs1) |]. intros x s2 [-> Hs2].
  apply runs_bind, runs_ret. apply verdict_runs; [done | done | done | simpl; lia].
Qed.

Lemma err_syscall_num_runs s v :
  sees s v -> on_terminal v -> runs (err_syscall_num fuel) s (fun r s' => r = 0 /\ sees s' (passes v "err_syscall_num")).
Proof.
  intros Hv Ht. unfold err_syscall_num.
  eapply expect_step; [apply (call_sys_spec s v BIG_NUM Hv); unfold BIG_NUM; lia |]. intros s1 Hs1.
  eapply expect_step; [apply (call_sys_spec s1 v NEG_NUM Hs1); unfold NEG_NUM; lia |]. intros s2 Hs2.
  eapply expect_step; [apply (call_sys_spec s2 v 0 Hs2); lia |]. intros s3 Hs3.
  apply verdict_runs; [done | done | done | simpl; lia].
Qed.

(** Only the descriptors of the terminal are in use. *)
Definition none_open (v : view) : Prop := drop 2 (fds v) = replicate 6 None.

Lemma none_open_fds v : none_open v -> view_ok v ->
  exists h0 h1, fds v = h0 :: h1 :: replicate 6 None.
Proof.
  intros Hn Hok. unfold none_open in Hn. pose proof (vo_fds v Hok) as Hl.
  destruct (fds v) as [|h0 [|h1 l]]; [done | done |]. exists h0, h1. simpl in Hn. rewrite drop_0 in Hn. by rewrite Hn.
Qed.

Lemma none_open_at v fd : none_open v -> view_ok v -> 2 <= fd < 8 -> fds v !! Z.to_nat fd = Some None.
Proof.
  intros Hn Hok Hfd. replace (Z.to_nat fd) with (2 + (Z.to_nat fd - 2))%nat by lia.
  rewrite <- lookup_drop, Hn. apply lookup_replicate. split; [done | lia].
Qed.

Lemma err_unopened_runs s v buf :
  sees s v -> on_terminal v -> none_open v ->
  runs (err_unopened fuel above buf) s (fun r s' => r = 0 /\ sees s' (passes v "err_unopened")).
Proof.
  intros Hv Ht Hn. unfold err_unopened. pose proof (sees_ok s v Hv) as Hok. apply runs_bind.
  apply (ufor_runs (fun _ fail t => fail = 0 /\ sees t v)); [done | |].
  { intros j fail t Hj [-> Hs]. eapply runs_step.
    - apply (close_refused t v j Hs). unfold view_close. destruct ((j <? 2) || (7 <? j)) eqn:E; [done |].
      by rewrite none_open_at by (done || lia).
    - intros r t' [-> Hs']. by apply runs_ret. }
  intros fail s1 [-> Hs1]. apply runs_bind.
  apply (ufor_runs (fun _ (x : Z * list Z) t => x.1 = 0 /\ sees t v)); [done | |].
  { intros j [fail b] t Hj [Hf Hs]. simpl in Hf. subst fail. eapply runs_step.
    - apply (read_refused t v j b 31 Hs); [|lia]. unfold view_read.
      replace ((j <? 0) || (7 <? j) || (j =? 1)) with false by lia. by rewrite none_open_at by (done || lia).
    - intros x t' [-> Hs']. apply runs_bind, runs_ret, runs_ret. done. }
  intros [fail b] s2 [Hf Hs2]. simpl in Hf. subst fail. apply runs_bind.
  apply (ufor_runs (fun _ fail t => fail = 0 /\ sees t v)); [done | |].
  { intros j fail t Hj [-> Hs]. eapply runs_step.
    - apply (write_refused t v j _ 31 Hs); [|lia]. unfold view_write.
      replace ((j <=? 0) || (7 <? j)) with false by lia. by rewrite none_open_at by (done || lia).
    - intros r t' [-> Hs']. by apply runs_ret. }
  intros fail s3 [-> Hs3]. apply verdict_runs; [done | done | done | simpl; lia].
Qed.

(** [k] descriptors are open on the directory. *)
Definition dirs_open (v : view) (k : nat) : view :=
  set_fds v (take 2 (fds v) ++ replicate k (Some HDir) ++ replicate (6 - k) None).
Definition dirs_closed (v : view) (k : nat) : view :=
  set_fds v (take 2 (fds v) ++ replicate k None ++ replicate (6 - k) (Some HDir)).

Lemma dirs_none v : none_open v -> dirs_open v (Z.to_nat 0 `min` 6) = v /\ dirs_closed v (Z.to_nat (2 + Z.of_nat 6 - 2)) = v.
Proof.
  intros Hn. assert (E : set_fds v (take 2 (fds v) ++ replicate 6 None) = v).
  { unfold none_open in Hn. rewrite <- Hn, take_drop. by destruct v. }
  split; exact E.
Qed.

Lemma open_next v k : none_open v -> view_ok v -> file_named v (text ".") = Some NDir -> (k < 7)%nat ->
  view_open (dirs_open v (k `min` 6)) (text ".") =
  (if (k =? 6)%nat then -1 else Z.of_nat (2 + k), dirs_open v (S k `min` 6)).
Proof.
  intros Hn Hok Hdot Hk. destruct (none_open_fds v Hn Hok) as (h0 & h1 & Ef). unfold dirs_open. rewrite Ef.
  assert (Hf : forall l, file_named (set_fds v l) (text ".") = Some NDir) by done.
  unfold view_open. rewrite Hf. do 7 (destruct k as [|k]; [reflexivity |]). lia.
Qed.

Lemma close_next v k : none_open v -> view_ok v -> (k < 6)%nat ->
  view_close (dirs_closed v k) (Z.of_nat (2 + k)) = (0, dirs_closed v (S k)).
Proof.
  intros Hn Hok Hk. destruct (none_open_fds v Hn Hok) as (h0 & h1 & Ef). unfold dirs_closed. rewrite Ef.
  do 6 (destruct k as [|k]; [reflexivity |]). lia.
Qed.

Lemma err_open_lots_runs s v :
  sees s v -> on_terminal v -> none_open v -> file_named v (text ".") = Some NDir ->
  runs (err_open_lots fuel) s (fun r s' => r = 0 /\ sees s' (passes v "err_open_lots")).
Proof.
  intros Hv Ht Hn Hdot. unfold err_open_lots. pose proof (sees_ok s v Hv) as Hok.
  apply runs_bind.
  apply (ufor_runs (fun j cnt t => cnt = (if j =? 7 then 1 else 0) /\ sees t (dirs_open v (Z.to_nat j `min` 6)))).
  { split; [done |]. by rewrite (proj1 (dirs_none v Hn)). }
  { intros j cnt t Hj [-> Hs]. pose proof (open_spec t _ (lit ".") (text ".") Hs) as Ho.
    rewrite (open_next v (Z.to_nat j)) in Ho by (done || lia).
    eapply runs_step; [apply Ho; [by apply cstr_lit, nonnulb_ok | done] |]. intros r t' [-> Hs']. apply runs_ret.
    replace (Z.to_nat (j + 1)) with (S (Z.to_nat j)) by lia. split; [|exact Hs'].
    cbn [fst]. destruct (Nat.eqb_spec (Z.to_nat j) 6), (Z.eqb_spec j 7), (Z.eqb_spec (j + 1) 7); try lia; [done |].
    by destruct (Z.eqb_spec (-1) (Z.of_nat (2 + Z.to_nat j))); [lia |]. }
  intros cnt s1 [-> Hs1]. change (Z.to_nat (0 + Z.of_nat 7) `min` 6)%nat with 6%nat in Hs1. apply runs_bind.
  apply (ufor_runs (fun j _ t => sees t (dirs_closed v (Z.to_nat (j - 2))))).
  { exact Hs1. }
  { intros j [] t Hj Hs. eapply runs_step; [apply (close_spec t _ j Hs) |]. intros r t' [_ Hs']. apply runs_ret.
    assert (Ej : j = Z.of_nat (2 + Z.to_nat (j - 2))) by lia. rewrite Ej in Hs' at 2.
    rewrite close_next in Hs' by (done || lia). by replace (Z.to_nat (j + 1 - 2)) with (S (Z.to_nat (j - 2))) by lia. }
  intros _ s2 Hs2. rewrite (proj2 (dirs_none v Hn)) in Hs2. change (0 + Z.of_nat 7 =? 7) with true. cbv iota. change (1 =? 1) with true. cbv iota. apply runs_bind.
  eapply puts_runs; [done | done | by apply litn_cstr | simpl; lia | done |]. intros s3 Hs3. by apply runs_ret.
Qed.

(** What the tests rely on: a directory with [.] and without the three names that
    are nearly those of programs. *)
Record test_image (v : view) : Prop := {
  ti_dot : file_named v (text ".") = Some NDir;
  ti_helloo : file_named v (text "helloo") = None;
  ti_shel : file_named v (text "shel") = None;
  ti_empty : file_named v (text "") = None
}.

Definition tests : list string :=
  ["err_neg_fd"; "err_big_fd"; "err_open_lots"; "err_open"; "err_unopened"; "err_vidmap"; "err_stdin_out"; "err_syscall_num"].

(** All tests pass, and the summary says so. *)
Definition all_pass (v : view) : view :=
  show (fold_left passes tests v) (nl ++ text "Overall Tests: PASS" ++ nl).

Lemma run_all_runs s v tmp :
  sees s v -> on_terminal v -> none_open v -> test_image v ->
  runs (run_all fuel above tmp) s (fun r s' => r = 0 /\ sees s' (all_pass v)).
Proof.
  intros Hv Ht Hn [Hdot H1 H2 H3]. unfold run_all.
  assert (Hp : forall w t, on_terminal w -> on_terminal (passes w t)) by (intros; by apply on_terminal_show).
  eapply runs_step; [apply (err_fd_runs s v); [done | done | by left | done | simpl; lia] |]. intros r s1 [-> Hs1].
  eapply runs_step; [apply (err_fd_runs s1 (passes v "err_neg_fd")); [done | auto | by right | done | simpl; lia] |]. intros r s2 [-> Hs2].
  eapply runs_step; [apply (err_open_lots_runs s2 _ Hs2); first [done | by auto 10] |]. intros r s3 [-> Hs3].
  eapply runs_step; [apply (err_open_runs s3 _ Hs3); first [done | by auto 10] |]. intros r s4 [-> Hs4].
  eapply runs_step; [apply (err_unopened_runs s4 _ _ Hs4); first [done | by auto 10] |]. intros r s5 [-> Hs5].
  eapply runs_step; [apply (err_vidmap_runs s5 _ Hs5); first [done | by auto 10] |]. intros r s6 [-> Hs6].
  eapply runs_step; [apply (err_stdin_out_runs s6 _ _ Hs6); first [done | by auto 10] |]. intros r s7 [-> Hs7].
  eapply runs_step; [apply (err_syscall_num_runs s7 _ Hs7); first [done | by auto 10] |]. intros r s8 [-> Hs8].
  cbn [Z.add Z.eqb negb]. apply runs_bind.
  eapply puts_runs; [exact Hs8 | auto 10 | by apply (cstr_array (nl ++ text "Overall Tests: PASS" ++ nl) []), nonnulb_ok
    | simpl; lia | done |].
  intros s9 Hs9. by apply runs_ret.
Qed.

(** The prompt, and a line that chooses a test. *)
Definition chosen (v : view) (l : list Z) (q : list input) : view :=
  line_read (show v (text "Choose from tests 1-8. 0 to run all: ")) l 127 q.

Lemma syserr_main_spec s v tmp l q buf :
  sees s v -> on_terminal v -> none_open v -> test_image v ->
  inputs v = Typed (48 :: l) :: q -> nonnul l -> length buf = 128%nat ->
  zlen (upto_nul (row_typed v (48 :: l))) < 128 ->
  runs (syserr_main fuel above tmp buf) s (fun r s' => r = 0 /\ sees s' (all_pass (chosen v (48 :: l) q))).
Proof.
  intros Hv Ht Hn Himg Hin Hl Hlen Hrow. unfold syserr_main. apply runs_bind.
  eapply puts_runs; [done | done | by apply cstr_lit, nonnulb_ok | simpl; lia | done |]. intros s1 Hs1.
  set (v1 := show v _) in *. destruct Ht as [Hi Ho Hr].
  eapply runs_step.
  { apply (read_spec s1 v1 0 buf 127 (zlen (typed (48 :: l))) (upto_nul (row_typed v (48 :: l)) ++ 0 :: drop (S (length (upto_nul (row_typed v (48 :: l))))) buf)
      (chosen v (48 :: l) q) Hs1); [|lia].
    unfold view_read. change (Z.to_nat 0) with 0%nat. change (fds v1) with (fds v). change (inputs v1) with (inputs v).
    rewrite Hi, Hin. change (row_typed v1 (48 :: l)) with (row_typed v (48 :: l)).
    assert (E1 : (1024 <=? zlen (upto_nul (row_typed v (48 :: l)))) = false) by lia.
    assert (E2 : (zlen buf <=? zlen (upto_nul (row_typed v (48 :: l)))) = false) by (unfold zlen in *; lia).
    rewrite E1, E2. reflexivity. }
  intros x s2 [-> Hs2].
  destruct (Z.eqb_spec (-1) (zlen (typed (48 :: l)))) as [E|_]; [pose proof (zlen_nonneg (typed (48 :: l))); lia |].
  assert (Et : exists rest, upto_nul (row_typed v (48 :: l)) = 48 :: rest).
  { unfold row_typed, typed. cbn [app take]. simpl. by eexists. }
  destruct Et as (rest & ->). eapply runs_lift_bind; [by apply (aget_nat _ 0 48) |].
  change (48 - 48 =? 0) with true. cbv iota.
  apply run_all_runs; [done | | done | by destruct Himg].
  apply on_terminal_read; [lia | by apply on_terminal_show].
Qed.
End Facts.
