(* ===== verification/Userland.v ===== *)
(** * The kernel under a user program

    The system calls of [User.v] on the kernel: [int $0x80] goes through
    [sys_call_jmptable.S] to the functions of [sys_call.c]. A machine is the
    kernel's state and the interrupts to come; they are taken while a call waits
    for one ([read] of the terminal and of the clock). A call by which another
    program gets the processor is outside this model ([Undef]). [seen] says that a
    program's view of the machine is right; the kernel keeps the contract of
    [User.v] ([kernel_spec]). *)

From S2P Require Import Prelude Strings Filesys Paging Mem State Pic Console Rtc Terminal Sched Syscalls.
From S2P Require Import Process Switch Keyboard Handlers User.

Local Open Scope Z_scope.

(** ** The machine *)

(** An interrupt: a scancode from the keyboard, or a tick of the clock. *)
Inductive irq : Type := Key (code : Z) | Clock.

Record machine := mkMachine { kern : kstate; irqs : list irq }.

Section Machine.
Context `{Layout} `{Linker} `{Env}.

(** The fuel of the kernel's loops, the stack and frame pointers in a system call
    of this program, and what [switchTerm] and the keyboard handler find beyond
    initialised memory. *)
Context (fuel : nat) (esp ebp : Z) (more : reader) (x0 : Z).

Definition deliver (i : irq) : K unit :=
  match i with
  | Key code => keyboard_scancode fuel more esp ebp esp ebp x0 code
  | Clock => periodic_interrupt_handler fuel esp ebp
  end.

(** A call that waits: [wait] looks again after each interrupt. *)
Fixpoint poll {A} (q : list irq) (wait : K A) (s : kstate) : res (A * kstate * list irq) :=
  match q with
  | [] => NoFuel
  | i :: q =>
      '(r, s) ← deliver i s;
      match r with
      | Stop _ => Undef
      | Ret _ =>
          '(r, s) ← wait s;
          match r with
          | Ret x => Ok (x, s, q)
          | Stop Blocked => poll q wait s
          | Stop _ => Undef
          end
      end
  end.

(** The wrapper: [cli], the function, [sti]. *)
Definition kcall {A} (f wait : K A) : U machine A := fun m =>
  '(r, s) ← f (cli (kern m));
  match r with
  | Ret x => Ok (x, mkMachine (sti s) (irqs m))
  | Stop Blocked => '(x, s, q) ← poll (irqs m) wait s; Ok (x, mkMachine (sti s) q)
  | Stop _ => Undef
  end.

(** Functions that do not wait. *)
Definition kret_call (f : kstate -> res (Z * kstate)) : U machine Z :=
  kcall (fun s => '(r, s) ← f s; Ok (Ret r, s)) (fun _ => Undef).

(** The loops of [read_terminal] and [rtc_read]. *)
Definition read_wait (fd : Z) (my_buf : list Z) (nbytes : Z) : K (Z * list Z) := fun s =>
  f ← fd_get s esp fd;
  match fotp f with
  | otp_terminal => read_terminal_wait my_buf (s32 nbytes) s
  | otp_rtc => (let! r := rtc_read in kret (r, my_buf))%K s
  | _ => Undef
  end.

Definition sys_call_other (num : Z) (s : kstate) : res (Z * kstate) :=
  f ← sys_call_entry num;
  match f with
  | Sys_error => Ok (sys_error, s)
  | Sys_set_handler => Ok (sys_set_handler, s)
  | Sys_sigreturn => Ok (sys_sigreturn, s)
  | _ => Undef
  end.

#[local] Instance kernel_os : Os machine := {|
  ece391_execute r := kcall (execute fuel r esp ebp) (fun _ => Undef);
  ece391_read fd b n := kcall (sys_read esp fd b n) (read_wait fd b n);
  ece391_write fd r n := kret_call (fun s => sys_write s esp fd r n);
  ece391_open r := kret_call (fun s => sys_open fuel s esp r);
  ece391_close fd := kret_call (fun s => sys_close s esp fd);
  ece391_getargs b n := kcall (fun s => '(r, b) ← getargs s b n; Ok (Ret (r, b), s)) (fun _ => Undef);
  ece391_vidmap a := kret_call (fun s => sys_vidmap s esp a);
  call_sys num := kret_call (sys_call_other num)
|}.
End Machine.

(** ** What a program sees of it *)

(** The interrupts that make the inputs happen: the keys of a line and Enter, or
    a tick. *)
Inductive irqs_are : list irq -> list input -> Prop :=
| ia_nil : irqs_are [] []
| ia_typed codes l qs ins :
    Forall2 key_is codes l -> Forall (fun c => c <> 0 /\ c <> 10) l -> irqs_are qs ins ->
    irqs_are (map Key codes ++ Key 0x1C :: qs) (Typed l :: ins)
| ia_tick qs ins : irqs_are qs ins -> irqs_are (Clock :: qs) (Tick :: ins).

(** A file of the image. *)
Definition file_seen (s : kstate) (ino : Z) (c : list Z) : Prop :=
  file_at (page_rd (ph s)) (fs s) ino c /\ content_ok c.

(** A directory entry; every entry names a block with a length word. *)
Definition entry_at (rd : reader) (f : filesys) (d : dentry_t) (e : list Z * node) : Prop :=
  dname d = e.1 /\
  (exists B, rd32 rd (inode_addr f (inode_num d)) = Ok B /\ 0 <= B < 2 ^ 31) /\
  match e.2 with
  | NRtc => file_type d = 0
  | NDir => file_type d = 1
  | NFile c => file_type d = 2 /\ file_at rd f (inode_num d) c /\ content_ok c
  end.

Lemma entry_at_mono rd rd' f d e : rd_le rd rd' -> entry_at rd f d e -> entry_at rd' f d e.
Proof.
  intros Hle (Hd & (B & HB & HBr) & Hn). split; [done |]. split.
  - exists B. split; [by eapply rd32_mono | done].
  - destruct (e.2); [done.. |]. destruct Hn as (? & ? & ?). split_and!; [done | by eapply file_at_mono | done].
Qed.

Definition entry_seen (s : kstate) : dentry_t -> list Z * node -> Prop := entry_at (page_rd (ph s)) (fs s).

(** A descriptor. *)
Definition fd_seen (s : kstate) (f : fd_t) (h : option handle) : Prop :=
  match h with
  | None => present f = false
  | Some HTerm => present f = true /\ fotp f = otp_terminal
  | Some HRtc => present f = true /\ fotp f = otp_rtc
  | Some HDir => present f = true /\ fotp f = otp_dir
  | Some (HFile c pos) =>
      present f = true /\ fotp f = otp_file /\ file_seen s (inode f) c /\ fp f = Z.of_nat pos /\ (pos <= length c)%nat
  end.

Section Seen.
Context `{Layout} (esp : Z).

(** The running program, whose PCB is at [a], runs on the terminal on screen and no
    other terminal is in use; [v] is what it sees. *)
Record seen_by (s : kstate) (a : Z) (pcb : pcb_t) (ds : list dentry_t) (p : Z) (line : list Z) (v : view) : Prop := {
  se_current : current s esp a pcb;
  se_fds : Forall2 (fd_seen s) (State.fd pcb) (fds v);
  se_paging : paging_inv (pg s) /\ kernel_dir (pg s);
  se_dir : dir_is (page_rd (ph s)) (fs s) ds;
  se_ents : Forall2 (entry_seen s) ds (ents v);
  se_dirpos : dir_index (fs s) = Z.of_nat (dirpos v) /\ (dirpos v <= length (ents v))%nat;
  se_screen : displays p s (scr v);
  se_page : 0 <= p /\ p + 4000 <= 4194304;
  se_kb : kb_ok s /\ mods_are false false (kb s) /\ fflag (kb s) = 0;
  se_line : line_is s line 0 /\ drop 1 line = row v /\ Forall byte_ok line;
  se_args : exists rest, args s = arg v ++ 0 :: rest /\ zlen (args s) = 1024 /\ (length (arg v) < 20)%nat /\
    Forall (fun c => c <> 0 /\ c <> 10 /\ c <> 32 /\ byte_ok c) (arg v);
  se_alone : sched_ok (sch s) /\ sum_list_with Z.to_nat (term_init (sch s)) = 1%nat /\
    (exists t, aget (term_init (sch s)) t = Ok 1) /\ interrupt_count s = 0
}.

Definition seen (m : machine) (v : view) : Prop :=
  (exists a pcb ds p line, seen_by (kern m) a pcb ds p line v) /\ irqs_are (irqs m) (inputs v).
End Seen.

(** ** The image stays *)

(** The same file system image, perhaps at another directory position. *)
Definition same_image (s s' : kstate) : Prop :=
  rd_le (page_rd (ph s)) (page_rd (ph s')) /\ exists k, fs s' = set_dir_index (fs s) k.

Lemma same_image_refl s : same_image s s.
Proof. split; [by intros ? |]. exists (dir_index (fs s)). by destruct (fs s). Qed.

Lemma file_seen_image s s' ino c : same_image s s' -> file_seen s ino c -> file_seen s' ino c.
Proof. intros [Hrd [k Hfs]] [Hf Hc]. split; [|done]. rewrite Hfs. by apply (file_at_mono (page_rd (ph s))). Qed.

Lemma entry_seen_image s s' d e : same_image s s' -> entry_seen s d e -> entry_seen s' d e.
Proof.
  intros Hi (Hd & (B & HB & HBr) & Hn). split; [done |]. split.
  - exists B. split; [|done]. destruct Hi as [Hrd [k Hfs]]. rewrite Hfs. by apply (rd32_mono (page_rd (ph s))).
  - destruct (e.2); [done.. |]. destruct Hn. split; [done | by apply (file_seen_image s)].
Qed.

Lemma fd_seen_image s s' f h : same_image s s' -> fd_seen s f h -> fd_seen s' f h.
Proof.
  intros Hi. destruct h as [[]|]; simpl; try done. intros (? & ? & ? & ?). split_and!; try tauto.
  by apply (file_seen_image s).
Qed.

Lemma same_image_pcbs s x : same_image s (set_pcbs s x).
Proof. split; [by intros ? |]. exists (dir_index (fs s)). simpl. by destruct (fs s). Qed.

Section Facts.
Context `{Layout} `{Linker} `{Env}.
Context (fuel : nat) (esp ebp : Z) (more : reader) (x0 : Z).

(** What a call may change, and what the program's new view is. *)
Lemma seen_by_update s a pcb ds p line v s' pcb' line' v' :
  seen_by esp s a pcb ds p line v -> same_image s s' -> pg s' = pg s -> sch s' = sch s -> args s' = args s ->
  interrupt_count s' = 0 -> current s' esp a pcb' -> Forall2 (fd_seen s') (State.fd pcb') (fds v') ->
  ents v' = ents v -> arg v' = arg v ->
  dir_index (fs s') = Z.of_nat (dirpos v') -> (dirpos v' <= length (ents v))%nat ->
  displays p s' (scr v') -> kb_ok s' -> mods_are false false (kb s') -> fflag (kb s') = 0 ->
  line_is s' line' 0 -> drop 1 line' = row v' -> Forall byte_ok line' ->
  seen_by esp s' a pcb' ds p line' v'.
Proof.
  intros [Hc Hf Hp Hd He Hdp Hs Hpg Hk Hl Ha Hal] Hi Epg Esch Eargs Hic Hc' Hf' Ee Ea Hdi Hdl Hs' Hk1 Hk2 Hk3 Hl1 Hl2 Hl3.
  constructor; rewrite ?Epg, ?Esch, ?Eargs, ?Ee, ?Ea; try done; try tauto.
  - destruct Hi as [Hrd [k ->]]. by apply (dir_is_mono (page_rd (ph s))), dir_is_set_dir_index.
  - eapply Forall2_impl; [exact He |]. intros d e. by apply entry_seen_image.
Qed.

Lemma io_same_image p s s' : 0 <= p /\ p + 4000 <= 4194304 -> io_frame p s s' -> same_image s s'.
Proof.
  intros Hp (E & _ & Hm). split.
  - intros a c. unfold page_rd. destruct (Z.leb_spec 4194304 a); [|done]. by rewrite Hm by lia.
  - exists (dir_index (fs s)). rewrite E. by destruct (fs s).
Qed.

Lemma current_same s s' a pcb : pg s' = pg s -> pcbs s' = pcbs s -> current s esp a pcb -> current s' esp a pcb.
Proof. intros Ep Ec [Ha Hp Hl]. unfold ktr in Ha. constructor; rewrite ?Ec; try done. unfold ktr. by rewrite Ep. Qed.

(** The console and the line buffer. *)
Lemma seen_by_io s a pcb ds p line v s' sc' line' :
  seen_by esp s a pcb ds p line v -> io_frame p s s' -> displays p s' sc' -> kb_ok s' -> mods_are false false (kb s') ->
  fflag (kb s') = 0 -> line_is s' line' 0 -> Forall byte_ok line' ->
  seen_by esp s' a pcb ds p line' (set_row (set_scr v sc') (drop 1 line')).
Proof.
  intros Hs Hio Hd Hk Hm Hff Hl Hlb. pose proof (io_same_image p s s' (se_page _ _ _ _ _ _ _ _ Hs) Hio) as Hi.
  destruct Hio as (E & _ & _).
  assert (Ef : pg s' = pg s /\ sch s' = sch s /\ args s' = args s /\ interrupt_count s' = interrupt_count s /\
    pcbs s' = pcbs s /\ fs s' = fs s) by by rewrite E.
  destruct Ef as (Epg & Esch & Ea & Eic & Ep & Efs). destruct (se_dirpos _ _ _ _ _ _ _ _ Hs) as [Hdi Hdl].
  apply (seen_by_update s a pcb ds p line v s' pcb line'); try done.
  - rewrite Eic. apply (se_alone _ _ _ _ _ _ _ _ Hs).
  - by apply (current_same s); [| |apply (se_current _ _ _ _ _ _ _ _ Hs)].
  - eapply Forall2_impl; [apply (se_fds _ _ _ _ _ _ _ _ Hs) |]. intros f h. by apply fd_seen_image.
  - by rewrite Efs.
Qed.

(** What is to come does not matter to the kernel's state. *)
Lemma seen_by_inputs s a pcb ds p line v ins :
  seen_by esp s a pcb ds p line v -> seen_by esp s a pcb ds p line (set_inputs v ins).
Proof. by intros []. Qed.

(** The port log and the interrupt flag. *)
Lemma seen_by_log s a pcb ds p line v l b :
  seen_by esp s a pcb ds p line v -> seen_by esp (set_iflag (set_log s l) b) a pcb ds p line v.
Proof.
  intros Hs. pose proof Hs as [Hc Hf Hp Hd He Hdp Hsc Hpg Hk Hl Ha Hal].
  replace v with (set_row (set_scr v (scr v)) (drop 1 line)) by (destruct v; simpl; by rewrite (proj1 (proj2 Hl))).
  apply (seen_by_io s a pcb ds p line v); try done; try tauto.
  - by apply io_displays.
  - by destruct Hk as [[] _].
  - by destruct Hl as [[] _].
Qed.

Lemma seen_by_flag s a pcb ds p line v b :
  seen_by esp s a pcb ds p line v -> seen_by esp (set_iflag s b) a pcb ds p line v.
Proof.
  intros Hs. replace (set_iflag s b) with (set_iflag (set_log s (log s)) b) by by destruct s. by apply seen_by_log.
Qed.

Lemma kcall_ret {A} (f wait : K A) m x s' (Q : A -> machine -> Prop) :
  f (cli (kern m)) = Ok (Ret x, s') -> Q x (mkMachine (sti s') (irqs m)) -> runs (kcall fuel esp ebp more x0 f wait) m Q.
Proof. intros E HQ. exists x, (mkMachine (sti s') (irqs m)). split; [|done]. unfold kcall. by rewrite E. Qed.
(** *** The view is well formed *)

Lemma upto_nul_bytes b : Forall byte_ok b -> nonnul (upto_nul b).
Proof.
  induction 1 as [|c b Hc _ IH]; simpl; [constructor |]. destruct (Z.eqb_spec c 0); [constructor | by constructor].
Qed.

Lemma upto_nul_split b : (length (upto_nul b) < length b)%nat -> exists tail, b = upto_nul b ++ 0 :: tail.
Proof.
  induction b as [|c b IH]; simpl; [lia |]. destruct (Z.eqb_spec c 0) as [->|]; [by exists b |].
  simpl. intros Hl. destruct IH as (tail & E); [lia |]. exists tail. by rewrite <- E.
Qed.

Lemma dname_ok rd f ds i d : dir_is rd f ds -> ds !! i = Some d -> (length (dname d) <= 32)%nat /\ nonnul (dname d).
Proof.
  intros (_ & _ & Hd) Hi. destruct (Hd i d Hi) as (Hf & Hl & _). split.
  - rewrite <- Hl. apply upto_nul_length.
  - apply upto_nul_bytes, Forall_lookup. intros n c Hc. apply (Hf n c Hc).
Qed.

Lemma seen_by_ok s a pcb ds p line v : seen_by esp s a pcb ds p line v -> view_ok v.
Proof.
  intros [Hc Hf Hp Hd He Hdp Hs Hpg (Hk & _) (Hl & Hr & Hb) (rest & Ha & _ & Hal & Harg) _]. constructor.
  - rewrite <- (Forall2_length _ _ _ Hf). pose proof (cur_fds _ _ _ _ Hc). unfold zlen in *. lia.
  - apply Forall_lookup. intros i [name nd] Hi. destruct (Forall2_lookup_r _ _ _ _ _ He Hi) as (d & Hdi & <- & _).
    by apply (dname_ok _ _ _ _ _ Hd Hdi).
  - intros name c (i & Hi)%list_elem_of_lookup. destruct (Forall2_lookup_r _ _ _ _ _ He Hi) as (d & _ & _ & _ & _ & Hx).
    apply Hx.
  - intros i c pos Hi. destruct (Forall2_lookup_r _ _ _ _ _ Hf Hi) as (f & _ & _ & _ & Hx & _). apply Hx.
  - rewrite <- Hr. pose proof (line_len _ _ _ Hk Hl) as Hlen. unfold zlen in Hlen. rewrite length_drop.
    split; [lia | by apply Forall_drop].
  - eapply Forall_impl; [exact Harg |]. tauto.
Qed.

(** *** Descriptors *)

Lemma fd_seen_present s f h : fd_seen s f h -> h = None <-> present f = false.
Proof. destruct h as [[]|]; simpl; intros Hf; split; intros E; try done; destruct Hf as [Hf _]; congruence. Qed.

Lemma fds_at s pcb v i h :
  Forall2 (fd_seen s) (State.fd pcb) (fds v) -> fds v !! i = Some h ->
  exists f, aget (State.fd pcb) (Z.of_nat i) = Ok f /\ fd_seen s f h.
Proof. intros Hf Hi. destruct (Forall2_lookup_r _ _ _ _ _ Hf Hi) as (f & Hfi & Hs). exists f. split; [by apply aget_nat | done]. Qed.

Lemma fds_at' s pcb v i f :
  Forall2 (fd_seen s) (State.fd pcb) (fds v) -> aget (State.fd pcb) i = Ok f ->
  exists h, fds v !! Z.to_nat i = Some h /\ fd_seen s f h.
Proof. intros Hf (Hi & Hl)%aget_lookup. by destruct (Forall2_lookup_l _ _ _ _ _ Hf Hl) as (h & Hh & Hs); exists h. Qed.

Lemma free_fd_full s pcb v :
  Forall2 (fd_seen s) (State.fd pcb) (fds v) -> length (fds v) = 8%nat ->
  (forall j f, 2 <= j < 8 -> aget (State.fd pcb) j = Ok f -> present f = true) -> free_fd v = None.
Proof.
  intros Hf Hl Hall. unfold free_fd. replace (list_find _ _) with (@None (nat * option handle)); [done |].
  symmetry. apply list_find_None, Forall_lookup. intros k h Hk ->. rewrite lookup_drop in Hk.
  destruct (fds_at _ _ _ _ _ Hf Hk) as (f & Hfa & Hs). apply lookup_lt_Some in Hk.
  assert (E : present f = true) by (eapply Hall; [|exact Hfa]; lia). simpl in Hs. congruence.
Qed.

Lemma free_fd_lowest s pcb v i f :
  Forall2 (fd_seen s) (State.fd pcb) (fds v) -> 2 <= i < 8 -> aget (State.fd pcb) i = Ok f -> present f = false ->
  (forall k g, 2 <= k < i -> aget (State.fd pcb) k = Ok g -> present g = true) -> free_fd v = Some (Z.to_nat i).
Proof.
  intros Hf Hi Hfi Hp Hlow. destruct (fds_at' _ _ _ _ _ Hf Hfi) as (h & Hh & Hs).
  apply (fd_seen_present _ _ _ Hs) in Hp as ->. unfold free_fd.
  replace (list_find _ _) with (Some ((Z.to_nat i - 2)%nat, @None handle)); [simpl; f_equal; lia |].
  symmetry. apply list_find_Some. rewrite lookup_drop. replace (2 + (Z.to_nat i - 2))%nat with (Z.to_nat i) by lia.
  split_and!; [done | done |]. intros j y Hj Hlt ->. rewrite lookup_drop in Hj.
  destruct (fds_at _ _ _ _ _ Hf Hj) as (g & Hg & Hgs). assert (E : present g = true) by (eapply Hlow; [|exact Hg]; lia).
  simpl in Hgs. congruence.
Qed.

(** *** Names *)

Lemma file_named_missing s ds v name :
  Forall2 (entry_seen s) ds (ents v) -> (31 < zlen name \/ forall d, d ∈ ds -> dname d <> name) -> file_named v name = None.
Proof.
  intros He Hno. unfold file_named. destruct (Z.ltb_spec 31 (zlen name)); [done |]. destruct Hno as [?|Hno]; [lia |].
  replace (list_find _ _) with (@None (nat * (list Z * node))); [done |]. symmetry.
  apply list_find_None, Forall_lookup. intros i e Hi E. destruct (Forall2_lookup_r _ _ _ _ _ He Hi) as (d & Hd & Hdn & _).
  apply (Hno d); [by apply list_elem_of_lookup_2 in Hd | congruence].
Qed.

Lemma file_named_found s ds v name j d :
  Forall2 (entry_seen s) ds (ents v) -> zlen name <= 31 -> list_find (fun d => dname d = name) ds = Some (j, d) ->
  exists nd, file_named v name = Some nd /\ entry_seen s d (name, nd).
Proof.
  intros He Hl (Hj & Hd & Hlow)%list_find_Some. destruct (Forall2_lookup_l _ _ _ _ _ He Hj) as ([n nd] & Hi & Hs).
  pose proof Hs as (Hdn & _). simpl in Hdn. assert (n = name) as -> by congruence. exists nd. split; [|done].
  unfold file_named. destruct (Z.ltb_spec 31 (zlen name)); [lia |].
  replace (list_find _ _) with (Some (j, (name, nd))); [done |]. symmetry. apply list_find_Some. split_and!; [done..|].
  intros k [n' nd'] Hk Hlt E. simpl in E. subst n'. destruct (Forall2_lookup_r _ _ _ _ _ He Hk) as (d' & Hd' & Hdn' & _).
  by apply (Hlow k d' Hd' Hlt).
Qed.

(** *** Calls that do not wait *)

Lemma seen_cli m v :
  seen esp m v -> exists a pcb ds p line, seen_by esp (cli (kern m)) a pcb ds p line v /\ irqs_are (irqs m) (inputs v).
Proof. intros [(a & pcb & ds & p & line & Hs) Hi]. exists a, pcb, ds, p, line. split; [by apply seen_by_flag | done]. Qed.

Lemma seen_sti s a pcb ds p line v q :
  seen_by esp s a pcb ds p line v -> irqs_are q (inputs v) -> seen esp (mkMachine (sti s) q) v.
Proof. intros Hs Hq. split; [|done]. exists a, pcb, ds, p, line. by apply seen_by_flag. Qed.

Lemma kret_call_runs f m x s' (Q : Z -> machine -> Prop) :
  f (cli (kern m)) = Ok (x, s') -> Q x (mkMachine (sti s') (irqs m)) -> runs (kret_call fuel esp ebp more x0 f) m Q.
Proof. intros E. apply kcall_ret. by rewrite E. Qed.

(** A descriptor changes. *)
Lemma seen_by_fd s a pcb ds p line v i f h :
  seen_by esp s a pcb ds p line v -> (i < length (fds v))%nat -> fd_seen s f h ->
  seen_by esp (put_fd s a pcb (Z.of_nat i) f) a (set_fd_list pcb (<[i := f]> (State.fd pcb))) ds p line
    (set_fds v (<[i := h]> (fds v))).
Proof.
  intros Hs Hi Hf. pose proof Hs as [Hc Hfds Hp Hd He [Hdi Hdl] Hsc Hpg (Hk & Hm & Hff) (Hl & Hr & Hb) Ha Hal].
  pose proof (Forall2_length _ _ _ Hfds) as Hlen.
  destruct (aget_in_range (State.fd pcb) (Z.of_nat i)) as [g Hg]; [unfold zlen; lia |].
  destruct (fd_upd_current s esp a pcb (Z.of_nat i) g (fun _ => f) Hc Hg) as [_ Hc'].
  rewrite Nat2Z.id in Hc'. unfold put_fd in Hc'. rewrite Nat2Z.id in Hc'.
  unfold put_fd. rewrite Nat2Z.id.
  apply (seen_by_update s a pcb ds p line v _ (set_fd_list pcb (<[i := f]> (State.fd pcb))) line); try done.
  - apply same_image_pcbs.
  - apply Hal.
  - simpl. apply Forall2_insert; [|done]. exact Hfds.
  - destruct Hsc as [[] ? ? ? ?]. by constructor; [constructor|..].
  - by destruct Hk.
  - by destruct Hl.
Qed.

Lemma kernel_page_reads s a pcb ds p line v :
  seen_by esp s a pcb ds p line v -> rd_le (page_rd (ph s)) (kld s).
Proof. intros Hs. apply page_rd_kld; apply (se_paging _ _ _ _ _ _ _ _ Hs). Qed.

Lemma entry_seen_opened s d f n nd : entry_seen s d (n, nd) -> fd_seen s (opened d f) (Some (handle_of nd)).
Proof.
  intros (_ & _ & Hn). unfold opened. destruct nd; simpl in *.
  - by rewrite Hn.
  - by rewrite Hn.
  - destruct Hn as [-> Hf]. simpl. split_and!; [done | done | done | done | lia].
Qed.

Lemma open_law m v fname name :
  (1024 <= fuel)%nat -> seen esp m v -> cstr fname name -> zlen name < 1024 ->
  runs (kret_call fuel esp ebp more x0 (fun s => sys_open fuel s esp fname)) m
    (fun r m' => r = (view_open v name).1 /\ seen esp m' (view_open v name).2).
Proof.
  intros Hfuel (a & pcb & ds & p & line & Hs & Hq)%seen_cli Hn Hl. set (s := cli (kern m)) in *.
  pose proof (dir_is_mono _ _ _ _ (kernel_page_reads _ _ _ _ _ _ _ Hs) (se_dir _ _ _ _ _ _ _ _ Hs)) as Hd.
  pose proof (se_ents _ _ _ _ _ _ _ _ Hs) as He. pose proof (se_fds _ _ _ _ _ _ _ _ Hs) as Hf.
  pose proof (vo_fds v (seen_by_ok _ _ _ _ _ _ _ Hs)) as H8.
  destruct (sys_open_spec s esp a pcb ds fname name fuel (se_current _ _ _ _ _ _ _ _ Hs) Hd Hn)
    as [[E Hno]|(i & f & j & d & E & Hi & Hfi & Hp & Hlow & Hln & Hfind)].
  - lia.
  - unfold zlen in Hl. lia.
  - intros d (j & Hj)%list_elem_of_lookup. destruct (Forall2_lookup_l _ _ _ _ _ He Hj) as (e & _ & _ & (B & HB & HBr) & Hn').
    split; [destruct (e.2); tauto |]. exists B. split; [|done]. eapply rd32_mono; [|exact HB].
    by eapply kernel_page_reads.
  - apply (kret_call_runs _ _ _ _ _ E).
    assert (view_open v name = (-1, v)) as ->.
    { unfold view_open. destruct Hno as [Hno|Hno]; [by rewrite (free_fd_full _ _ _ Hf H8 Hno) |].
      rewrite (file_named_missing _ _ _ _ He Hno). by destruct (free_fd v). }
    split; [done | by eapply seen_sti].
  - apply (kret_call_runs _ _ _ _ _ E). destruct (file_named_found _ _ _ _ _ _ He Hln Hfind) as (nd & En & Hnd).
    unfold view_open. rewrite (free_fd_lowest _ _ _ _ _ Hf Hi Hfi Hp Hlow), En. split; [simpl; lia |].
    pose proof (seen_by_fd s a pcb ds p line v (Z.to_nat i) _ _ Hs ltac:(lia) (entry_seen_opened s d f name nd Hnd)) as Hs'.
    rewrite Z2Nat.id in Hs' by lia. eapply (seen_sti (sti _)); [|exact Hq]. by apply seen_by_flag.
Qed.

Lemma close_law m v fd :
  seen esp m v ->
  runs (kret_call fuel esp ebp more x0 (fun s => sys_close s esp fd)) m
    (fun r m' => r = (view_close v fd).1 /\ seen esp m' (view_close v fd).2).
Proof.
  intros (a & pcb & ds & p & line & Hs & Hq)%seen_cli. set (s := cli (kern m)) in *.
  pose proof (se_fds _ _ _ _ _ _ _ _ Hs) as Hf. pose proof (vo_fds v (seen_by_ok _ _ _ _ _ _ _ Hs)) as H8.
  destruct (descriptor_errors_spec s esp a pcb fd [] (fun _ => Undef) 0 (se_current _ _ _ _ _ _ _ _ Hs)) as (_ & _ & Hbad & Hgood).
  unfold view_close. destruct ((fd <? 2) || (7 <? fd)) eqn:Er.
  { eapply kret_call_runs; [apply Hbad; lia |]. split; [done | by eapply seen_sti]. }
  destruct (lookup_lt_is_Some_2 (fds v) (Z.to_nat fd)) as [h Hh]; [lia |].
  destruct (fds_at _ _ _ _ _ Hf Hh) as (f & Hfa & Hfs). rewrite Z2Nat.id in Hfa by lia. rewrite Hh.
  destruct (present f) eqn:Hp.
  - destruct h as [h|]; [|simpl in Hfs; congruence].
    eapply kret_call_runs; [by apply (Hgood f); [lia |..] |]. split; [done |].
    pose proof (seen_by_fd s a pcb ds p line v (Z.to_nat fd) (set_flags f 0) None Hs ltac:(lia) eq_refl) as Hs'.
    rewrite Z2Nat.id in Hs' by lia. by eapply seen_sti.
  - apply (fd_seen_present _ _ _ Hfs) in Hp as E. subst h.
    eapply kret_call_runs; [apply Hbad; do 2 right; by exists f |]. split; [done | by eapply seen_sti].
Qed.

Lemma drop_cons_app (l k : list Z) c : drop (S (length l)) (l ++ c :: k) = k.
Proof. induction l; simpl; [by rewrite drop_0 | done]. Qed.

Lemma word_no_blanks l : Forall (fun c => c <> 32) l -> word l = l.
Proof. induction 1 as [|c l Hc _ IH]; [done |]. simpl. destruct (Z.eqb_spec c 32); [done |]. by rewrite IH. Qed.

Lemma getargs_law m v (my_buf : list Z) n :
  seen esp m v -> 32 <= n -> 32 <= zlen my_buf ->
  runs (kcall fuel esp ebp more x0 (fun s => '(r, b) ← getargs s my_buf n; Ok (Ret (r, b), s)) (fun _ => Undef)) m
    (fun x m' => seen esp m' v /\
      if decide (arg v = []) then x = (-1, my_buf)
      else x.1 = 0 /\ cstr (aget x.2) (arg v) /\ length x.2 = length my_buf /\
        (Forall byte_ok my_buf -> Forall byte_ok x.2)).
Proof.
  intros (a & pcb & ds & p & line & Hs & Hq)%seen_cli Hn Hb. set (s := cli (kern m)) in *.
  destruct (se_args _ _ _ _ _ _ _ _ Hs) as (rest & Ha & _ & Hl & Harg). destruct (decide (arg v = [])) as [E|Hne].
  - eapply kcall_ret; [fold s; unfold getargs; rewrite Ha, E; reflexivity |]. split; [by eapply seen_sti | done].
  - assert (Hw : word (arg v) = arg v) by (apply word_no_blanks; eapply Forall_impl; [exact Harg | simpl; tauto]).
    assert (Ht : take (Z.to_nat n) (word (arg v)) = arg v) by (rewrite Hw, take_ge by lia; done).
    pose proof (Process.getargs_spec s my_buf n (arg v) rest Ha Hne) as E. cbv zeta in E. rewrite Ht in E.
    eapply kcall_ret.
    { fold s. rewrite E; [reflexivity | | lia | lia | unfold zlen in Hb; lia].
      eapply Forall_impl; [exact Harg |]. intros c (? & ? & ? & ?). split; [unfold arg_stop; lia | done]. }
    assert (Hnn : nonnul (arg v)) by (eapply Forall_impl; [exact Harg |]; simpl; tauto).
    split; [by eapply seen_sti |]. cbn [fst snd]. split_and!; [done | by apply cstr_array | |].
    + rewrite drop_cons_app, length_app. simpl. rewrite length_drop. unfold zlen in Hb. lia.
    + intros Hbs. apply Forall_app. split; [eapply Forall_impl; [exact Harg |]; simpl; tauto |].
      apply Forall_cons. split; [unfold byte_ok; lia |]. rewrite drop_cons_app. by apply Forall_drop.
Qed.

Lemma vidmap_law m v addr :
  seen esp m v -> addr = 0 \/ addr = 0x400000 ->
  runs (kret_call fuel esp ebp more x0 (fun s => sys_vidmap s esp addr)) m (fun x m' => x = -1 /\ seen esp m' v).
Proof.
  intros (a & pcb & ds & p & line & Hs & Hq)%seen_cli Ha.
  eapply kret_call_runs; [by destruct Ha as [-> | ->] |]. split; [done | by eapply seen_sti].
Qed.

Lemma call_sys_law m v num :
  seen esp m v -> - 2 ^ 31 < num < 2 ^ 31 -> num < 1 \/ 10 < num ->
  runs (kret_call fuel esp ebp more x0 (sys_call_other num)) m (fun x m' => x = -1 /\ seen esp m' v).
Proof.
  intros (a & pcb & ds & p & line & Hs & Hq)%seen_cli Hr Hn.
  eapply kret_call_runs; [unfold sys_call_other; by rewrite (sys_call_entry_other num Hr Hn) |].
  split; [done | by eapply seen_sti].
Qed.

(** *** [write] *)

Lemma rtc_write_log s f : exists l, rtc_write s f = set_log s l.
Proof.
  unfold rtc_write. destruct (rtc_rate f); [eexists; reflexivity |]. exists (log s). by destruct s.
Qed.

Lemma field_rd32 r src : field r src -> (4 <= length src)%nat -> exists w, rd32 r 0 = Ok w.
Proof.
  intros Hr Hl. destruct src as [|a [|b [|c [|d src]]]]; try (simpl in Hl; lia).
  destruct (Hr 0%nat a eq_refl) as [Ea _], (Hr 1%nat b eq_refl) as [Eb _], (Hr 2%nat c eq_refl) as [Ec _],
    (Hr 3%nat d eq_refl) as [Ed _].
  unfold rd32. change (u32 (0 + 1)) with 1. change (u32 (0 + 2)) with 2. change (u32 (0 + 3)) with 3.
  change (Z.of_nat 0) with 0 in Ea. rewrite Ea. change (Z.of_nat 1) with 1 in Eb. rewrite Eb.
  change (Z.of_nat 2) with 2 in Ec. rewrite Ec. change (Z.of_nat 3) with 3 in Ed. rewrite Ed. by eexists.
Qed.

(** A write to the terminal, its line buffer's index at the start. *)
Lemma seen_by_write s a pcb ds p line v r src n :
  seen_by esp s a pcb ds p line v -> field r src -> zlen src = n + 1 -> 0 <= n < 2 ^ 31 ->
  exists s' line', write_terminal s r n = Ok (n, s') /\ seen_by esp s' a pcb ds p line' (set_scr v (put (scr v) src)).
Proof.
  intros Hs Hsrc Hlen Hn. destruct (se_kb _ _ _ _ _ _ _ _ Hs) as (Hk & Hm & Hff).
  destruct (se_line _ _ _ _ _ _ _ _ Hs) as (Hl & Hr & Hb).
  destruct (write_terminal_spec p s (scr v) r src n line 0 (se_screen _ _ _ _ _ _ _ _ Hs) Hk Hl ltac:(lia) Hsrc Hlen)
    as (s' & line' & E & Hd' & Hk' & Hl' & Hline & Ekb & Hf).
  exists s', line'. split; [done |].
  assert (Hdrop : drop 1 line' = row v) by (rewrite <- Hr; destruct Hline as [-> | ->]; [done | by destruct line]).
  assert (Eput : put (scr v) src = if n =? 1023 then type_string (scr v) src else erase (type_string (scr v) src)).
  { unfold put. by replace (zlen src =? 1024) with (n =? 1023) by lia. }
  replace (set_scr v (put (scr v) src)) with (set_row (set_scr v (put (scr v) src)) (drop 1 line'))
    by (rewrite Hdrop; by destruct v).
  assert (Ekb' : kb s' = kb (set_buf_index (set_buf s (buf (kb s'))) (buf_index (kb s')))) by (rewrite Ekb at 1; done).
  apply (seen_by_io s a pcb ds p line v); try done.
  - eapply io_frame_trans; [apply kb_io_frame |]. by apply con_io_frame.
  - by rewrite Eput.
  - by rewrite Ekb'.
  - by rewrite Ekb'.
  - destruct Hline as [-> | ->]; [done |]. apply Forall_insert; [done | by unfold byte_ok].
Qed.

Lemma write_law m v fd r src n x v' :
  seen esp m v -> field r src -> view_write v fd src n = Some (x, v') -> 0 <= n < 2 ^ 31 ->
  runs (kret_call fuel esp ebp more x0 (fun s => sys_write s esp fd r n)) m (fun y m' => y = x /\ seen esp m' v').
Proof.
  intros (a & pcb & ds & p & line & Hs & Hq)%seen_cli Hsrc Hw Hn. set (s := cli (kern m)) in *.
  pose proof (se_fds _ _ _ _ _ _ _ _ Hs) as Hf. pose proof (vo_fds v (seen_by_ok _ _ _ _ _ _ _ Hs)) as H8.
  pose proof (se_current _ _ _ _ _ _ _ _ Hs) as Hc.
  destruct (descriptor_errors_spec s esp a pcb fd [] r n Hc) as (_ & Hbad & _ & _).
  assert (Hsame : forall y, sys_write s esp fd r n = Ok (y, s) ->
    runs (kret_call fuel esp ebp more x0 (fun s => sys_write s esp fd r n)) m (fun z m' => z = y /\ seen esp m' v)).
  { intros y E. eapply kret_call_runs; [exact E |]. split; [done | by eapply seen_sti]. }
  unfold view_write in Hw. destruct ((fd <=? 0) || (7 <? fd)) eqn:Er.
  { injection Hw as <- <-. apply Hsame, Hbad. lia. }
  destruct (lookup_lt_is_Some_2 (fds v) (Z.to_nat fd)) as [h Hh]; [lia |]. rewrite Hh in Hw.
  destruct (fds_at _ _ _ _ _ Hf Hh) as (f & Hfa & Hfs). rewrite Z2Nat.id in Hfa by lia.
  assert (Hopen : forall t, present f = true -> fotp f = t -> sys_write s esp fd r n = fotp_write t s r n).
  { intros t Hp Ht. unfold sys_write. rewrite Er, (fd_get_current _ _ _ _ _ Hc), Hfa. rstep.
    unfold present in Hp. apply negb_true_iff in Hp. by rewrite Hp, Ht. }
  destruct h as [[| | |c pos]|]; simpl in Hfs.
  - destruct (Z.eqb_spec (zlen src) (n + 1)) as [Hlen|]; [|done]. injection Hw as <- <-.
    destruct Hfs as [Hp Ht]. specialize (Hopen _ Hp Ht). simpl in Hopen. unfold fnc_term_write in Hopen.
    rewrite s32_id in Hopen by lia.
    destruct (seen_by_write s a pcb ds p line v r src n Hs Hsrc Hlen Hn) as (s' & line' & E & Hs').
    eapply kret_call_runs; [fold s; by rewrite Hopen, E |]. split; [done | by eapply seen_sti].
  - destruct (Nat.ltb_spec (length src) 4) as [|Hl4]; [done |]. injection Hw as <- <-.
    destruct Hfs as [Hp Ht]. specialize (Hopen _ Hp Ht). simpl in Hopen. unfold fnc_rtc_write in Hopen.
    destruct (field_rd32 r src Hsrc Hl4) as (w & Ew). rewrite Ew in Hopen.
    destruct (rtc_write_log s (s32 w)) as (l & El).
    eapply kret_call_runs; [fold s; rewrite Hopen; simpl; by rewrite El |]. split; [done |].
    apply (seen_sti _ a pcb ds p line); [|done].
    replace (set_log s l) with (set_iflag (set_log s l) (iflag s)) by by destruct s. by apply seen_by_log.
  - injection Hw as <- <-. destruct Hfs as [Hp Ht]. by apply Hsame, (Hopen otp_dir).
  - injection Hw as <- <-. destruct Hfs as (Hp & Ht & _). by apply Hsame, (Hopen otp_file).
  - injection Hw as <- <-. apply Hsame, Hbad. do 2 right. by exists f.
Qed.

(** *** [read] without waiting *)

Lemma seen_by_dirpos s a pcb ds p line v k :
  seen_by esp s a pcb ds p line v -> (k <= length (ents v))%nat ->
  seen_by esp (set_fs s (set_dir_index (fs s) (Z.of_nat k))) a pcb ds p line (set_dirpos v k).
Proof.
  intros Hs Hk. pose proof Hs as [Hc Hfds Hp Hd He [Hdi Hdl] Hsc Hpg (Hkb & Hm & Hff) (Hl & Hr & Hb) Ha Hal].
  assert (Hi : same_image s (set_fs s (set_dir_index (fs s) (Z.of_nat k)))) by (split; [by intros ? | by eexists]).
  apply (seen_by_update s a pcb ds p line v _ pcb line); try done.
  - apply Hal.
  - by destruct Hc.
  - destruct Hsc as [[] ? ? ? ?]. by constructor; [constructor|..].
  - by destruct Hkb.
  - by destruct Hl.
Qed.

Lemma read_file_law s a pcb ds p line v i c pos (my_buf : list Z) n :
  seen_by esp s a pcb ds p line v -> (i < 8)%nat -> i <> 1%nat -> fds v !! i = Some (Some (HFile c pos)) ->
  let cs := take (Z.to_nat n) (drop pos c) in
  (length cs <= length my_buf)%nat ->
  exists s' pcb', sys_read esp (Z.of_nat i) my_buf n s = Ok (Ret (zlen cs, cs ++ drop (length cs) my_buf), s') /\
    seen_by esp s' a pcb' ds p line (set_fds v (<[i := Some (HFile c (pos + length cs))]> (fds v))).
Proof.
  intros Hs Hi Hi1 Hh cs Hcs. destruct (fds_at _ _ _ _ _ (se_fds _ _ _ _ _ _ _ _ Hs) Hh) as (f & Hf & Hp & Ht & [Hfile Hco] & Hfp & Hpos).
  assert (Hopen : file_open_at s esp a (Z.of_nat i) c pcb f).
  { constructor; [apply (se_current _ _ _ _ _ _ _ _ Hs) | lia | done | done | done | | unfold zlen; lia].
    eapply file_at_mono; [by eapply kernel_page_reads | exact Hfile]. }
  destruct (sys_read_open_file s esp a (Z.of_nat i) c pcb f my_buf n Hopen) as [E _];
    [rewrite Hfp, Nat2Z.id; exact Hcs |].
  rewrite Hfp, Nat2Z.id in E. fold cs in E. do 2 eexists. split; [exact E |]. apply seen_by_flag.
  apply seen_by_fd; [done | by apply lookup_lt_Some in Hh |]. simpl. split_and!; [done.. | unfold zlen; lia |].
  assert (length cs <= length c - pos)%nat by (unfold cs; rewrite length_take, length_drop; lia). lia.
Qed.

Lemma read_dir_law s a pcb ds p line v i (my_buf : list Z) n :
  seen_by esp s a pcb ds p line v -> (i < 8)%nat -> i <> 1%nat -> fds v !! i = Some (Some HDir) -> (32 <= length my_buf)%nat ->
  exists r my_buf' v' s',
    match ents v !! dirpos v with
    | Some (name, _) => Some (32, pad32 name ++ drop 32 my_buf, set_dirpos v (S (dirpos v)))
    | None => Some (0, my_buf, set_dirpos v 0)
    end = Some (r, my_buf', v') /\
    sys_read esp (Z.of_nat i) my_buf n s = Ok (Ret (r, my_buf'), s') /\ seen_by esp s' a pcb ds p line v'.
Proof.
  intros Hs Hi Hi1 Hh Hb. destruct (fds_at _ _ _ _ _ (se_fds _ _ _ _ _ _ _ _ Hs) Hh) as (f & Hf & Hp & Ht).
  destruct (se_dirpos _ _ _ _ _ _ _ _ Hs) as [Hdi Hdl]. pose proof (se_ents _ _ _ _ _ _ _ _ Hs) as He.
  pose proof (Forall2_length _ _ _ He) as Hlen.
  pose proof (dir_is_mono _ _ _ _ (kernel_page_reads _ _ _ _ _ _ _ Hs) (se_dir _ _ _ _ _ _ _ _ Hs)) as Hd.
  assert (E : sys_read esp (Z.of_nat i) my_buf n s = '(r, b, s') ← fnc_dir_read (sti s) my_buf; Ok (Ret (r, b), s')).
  { unfold sys_read. destruct (Z.ltb_spec (Z.of_nat i) 0); [lia |]. destruct (Z.ltb_spec 7 (Z.of_nat i)); [lia |].
    destruct (Z.eqb_spec (Z.of_nat i) 1); [lia |]. cbn [orb].
    rewrite (fd_get_current _ _ _ _ _ (se_current _ _ _ _ _ _ _ _ Hs)), Hf. rstep.
    unfold present in Hp. apply negb_true_iff in Hp. by rewrite Hp, Ht. }
  rewrite E. unfold fnc_dir_read. change (kld (sti s)) with (kld s). change (fs (sti s)) with (fs s).
  rewrite (dir_read_spec _ _ ds) by (done || (unfold zlen; lia)). rewrite Hdi, Nat2Z.id.
  destruct (ents v !! dirpos v) as [[name nd]|] eqn:En.
  - destruct (Forall2_lookup_r _ _ _ _ _ He En) as (d & -> & Hdn & _). simpl in Hdn. rstep.
    do 4 eexists. split; [done |]. split.
    + unfold pad32. rewrite <- Hdn, <- app_assoc. done.
    + replace (Z.of_nat (dirpos v) + 1) with (Z.of_nat (S (dirpos v))) by lia.
      apply (seen_by_dirpos (sti s) a pcb ds p line v (S (dirpos v))); [by apply seen_by_flag |].
      apply lookup_lt_Some in En. lia.
  - apply lookup_ge_None in En. rewrite (proj2 (lookup_ge_None ds _)) by lia. rstep.
    do 4 eexists. split; [done |]. split; [done |].
    apply (seen_by_dirpos (sti s) a pcb ds p line v 0); [by apply seen_by_flag | lia].
Qed.

(** *** [read] of the terminal *)

(** While the keys of a line come in, the call waits. *)
Lemma poll_keys {A} p row (wait : K A) s0 codes cs :
  (forall t, io_frame p s0 t -> fflag (kb t) = 0 -> wait t = Ok (Stop Blocked, t)) ->
  Forall2 key_is codes cs -> Forall (fun c => c <> 10) cs ->
  forall q s sc l, io_frame p s0 s -> fflag (kb s) = 0 ->
  typing false false p s sc (take 127 l) (drop (length (take 127 l)) row) ->
  exists s', poll fuel esp ebp more x0 (map Key codes ++ q) wait s = poll fuel esp ebp more x0 q wait s' /\
    io_frame p s0 s' /\ fflag (kb s') = 0 /\
    typing false false p s' (type_string sc cs) (take 127 (l ++ cs)) (drop (length (take 127 (l ++ cs))) row).
Proof.
  intros Hwait. induction 1 as [|code c codes cs Hk _ IH]; intros Hne q s sc l Hio Hff Ht.
  { exists s. by rewrite app_nil_r. }
  apply Forall_cons in Hne as [Hc Hne]. cbn [map app poll deliver].
  destruct (scancode_key false false p sc _ _ fuel more esp ebp esp ebp x0 code s
    (type_string sc [c]) (take 127 (l ++ [c])) (drop (length (take 127 (l ++ [c]))) row)
    (fun t => io_frame p s t /\ fflag (kb t) = 0) Ht) as (s1 & lg & -> & Ht1 & Hio1 & Hff1).
  { intros t Ek _ Hiot Htt.
    destruct (key_typing _ _ _ _ _ _ _ fuel more esp ebp esp ebp x0 code c Htt Hk Hc) as (t' & E & Ht' & Hf' & _ & Hio').
    exists t'. split; [done |]. unfold stored in Ht'. rewrite append_take1, (consume_drop l c) in Ht'.
    split; [exact Ht' |]. split; [by eapply io_frame_trans | congruence]. }
  set (s2 := set_iflag (set_log s1 lg) true) in *. rstep.
  assert (Hio2 : io_frame p s0 s2) by (eapply io_frame_trans; [exact Hio |]; eapply io_frame_trans; [exact Hio1 | apply flag_io_frame]).
  rewrite (Hwait s2 Hio2 Hff1). rstep.
  destruct (IH Hne q s2 _ _ Hio2 Hff1 Ht1) as (s' & E & Hio' & Hff' & Ht'). exists s'.
  rewrite <- app_assoc in Ht'. split_and!; [exact E | done | done |].
  by rewrite <- (type_string_app sc [c] cs) in Ht'.
Qed.

(** Once Enter is pressed the call looks at a complete line. *)
Lemma poll_enter {A} p row (wait : K A) s l sc q :
  typing false false p s sc (take 127 l) (drop (length (take 127 l)) row) ->
  exists s2, poll fuel esp ebp more x0 (Key 0x1C :: q) wait s =
      ('(r, s) ← wait s2;
       match r with
       | Ret x => Ok (x, s, q)
       | Stop Blocked => poll fuel esp ebp more x0 q wait s
       | Stop _ => Undef
       end) /\
    io_frame p s s2 /\ fflag (kb s2) = 1 /\ entered_get s2 = Ok (zlen (typed l)) /\
    typing false false p s2 (type_char sc 10) (typed l) (drop (length (typed l)) row).
Proof.
  intros Ht. cbn [poll deliver].
  destruct (scancode_key false false p sc _ _ fuel more esp ebp esp ebp x0 0x1C s (type_char sc 10)
    (append (take 127 l) 10) (consume (take 127 l) (drop (length (take 127 l)) row))
    (fun t => io_frame p s t /\ fflag (kb t) = 1 /\ entered_get t = Ok (zlen (append (take 127 l) 10))) Ht)
    as (s1 & lg & -> & Ht1 & Hio1 & Hff1 & He1).
  { intros t _ _ Hiot Htt.
    destruct (enter_typing _ _ _ _ _ _ fuel more esp ebp esp ebp x0 Htt) as (t' & E & Ht' & Hf & He & _ & Hio').
    exists t'. split_and!; [exact E | exact Ht' | by eapply io_frame_trans | done | exact He]. }
  rewrite append_take1 in *. rewrite (consume_drop l 10) in Ht1. fold (typed l) in *.
  exists (set_iflag (set_log s1 lg) true). rstep. split_and!; [done | | done | done | done].
  eapply io_frame_trans; [exact Hio1 | apply flag_io_frame].
Qed.

(** What the call gives then. *)
Lemma wait_line s p (my_buf : list Z) n l sc row :
  typing false false p s sc (typed l) (drop (length (typed l)) row) -> fflag (kb s) = 1 ->
  entered_get s = Ok (zlen (typed l)) -> 0 <= n <= 1024 -> Forall byte_ok row -> Forall byte_ok l ->
  let txt := upto_nul (typed l ++ drop (length (typed l)) row) in
  zlen txt < 1024 -> zlen txt < zlen my_buf ->
  exists s', read_terminal_wait my_buf n s = Ok (Ret (zlen (typed l), txt ++ 0 :: drop (S (length txt)) my_buf), s') /\
    io_frame p s s' /\ displays p s' sc /\ kb_ok s' /\ mods_are false false (kb s') /\ fflag (kb s') = 0 /\
    line_is s' (replicate (Z.to_nat n) 32 ++ drop (Z.to_nat n) (typed l ++ drop (length (typed l)) row)) 0.
Proof.
  intros [Hd Hk Hl Hlen Hm] Hff He Hn Hrow Hlb txt Hnul Hfit.
  assert (Hby : Forall byte_ok (typed l ++ drop (length (typed l)) row)).
  { apply Forall_app. split; [|by apply Forall_drop]. apply Forall_take, Forall_app. split; [done |].
    apply Forall_singleton. by unfold byte_ok. }
  destruct (upto_nul_split (typed l ++ drop (length (typed l)) row)) as (tail & Et).
  { pose proof (line_len _ _ _ Hk Hl). fold txt. unfold zlen in *. lia. }
  fold txt in Et.
  pose proof (read_terminal_line_spec s my_buf n txt tail (zlen (typed l)) (zlen (typed l)) Hk ltac:(lia)) as Hr.
  rewrite <- Et in Hr. specialize (Hr Hl (upto_nul_bytes _ Hby) He Hn).
  destruct (Z.ltb_spec (zlen txt) (zlen my_buf)); [|lia].
  destruct Hr as (s' & E & Hk' & Hf' & Hl' & b & ix & Es'). exists s'.
  rewrite s32_id in E by (pose proof (zlen_nonneg (typed l)); lia).
  split_and!; [exact E | | | done | | done | exact Hl'].
  - rewrite Es'. by split_and!.
  - rewrite Es'. by apply (kb_displays p (set_buf _ _)), (kb_displays p (set_fflag _ _)), kb_displays.
  - by rewrite Es'.
Qed.

Lemma keys_bytes codes l : Forall2 key_is codes l -> Forall byte_ok l.
Proof. induction 1 as [|code c codes l [Hk _] _ IH]; constructor; [|done]. by destruct (kbd_byte _ _ Hk). Qed.

Lemma read_terminal_law m a pcb ds p line v i (my_buf : list Z) n l ins :
  seen_by esp (cli (kern m)) a pcb ds p line v -> irqs_are (irqs m) (Typed l :: ins) ->
  (i < 8)%nat -> i <> 1%nat -> fds v !! i = Some (Some HTerm) -> 0 <= n <= 1024 ->
  let txt := upto_nul (row_typed v l) in
  zlen txt < 1024 -> zlen txt < zlen my_buf ->
  runs (kcall fuel esp ebp more x0 (sys_read esp (Z.of_nat i) my_buf n) (read_wait esp (Z.of_nat i) my_buf n)) m
    (fun x m' => x = (zlen (typed l), txt ++ 0 :: drop (S (length txt)) my_buf) /\
      seen esp m' (mkView (ents v) (dirpos v) (fds v) (type_string (scr v) (l ++ [10]))
        (drop 1 (replicate (Z.to_nat n) 32 ++ drop (Z.to_nat n) (row_typed v l))) (arg v) ins)).
Proof.
  intros Hs Hq Hi Hi1 Hh Hn txt Hnul Hfit. set (s := cli (kern m)) in *.
  inversion Hq as [|codes l' qs ins' Hkeys Hl Hqs Eq El|]. subst l' ins'.
  destruct (fds_at _ _ _ _ _ (se_fds _ _ _ _ _ _ _ _ Hs) Hh) as (f & Hf & Hp & Ht).
  pose proof (se_current _ _ _ _ _ _ _ _ Hs) as Hc.
  destruct (se_kb _ _ _ _ _ _ _ _ Hs) as (Hk & Hm & Hff). destruct (se_line _ _ _ _ _ _ _ _ Hs) as (Hli & Hr & Hb).
  assert (Hrow : row_typed v l = typed l ++ drop (length (typed l)) line).
  { unfold row_typed. rewrite <- Hr, drop_drop. f_equal. f_equal. unfold typed. rewrite length_take, length_app. cbn [length]. lia. }
  (* the call *)
  pose (s1 := put_entered (put_index (sti s) 0) (u32 n)).
  assert (Hio1 : io_frame p s s1) by by split_and!.
  assert (E1 : sys_read esp (Z.of_nat i) my_buf n s = Ok (Stop Blocked, s1)).
  { unfold sys_read. destruct (Z.ltb_spec (Z.of_nat i) 0); [lia |]. destruct (Z.ltb_spec 7 (Z.of_nat i)); [lia |].
    destruct (Z.eqb_spec (Z.of_nat i) 1); [lia |]. cbn [orb]. rewrite (fd_get_current _ _ _ _ _ Hc), Hf. rstep.
    unfold present in Hp. apply negb_true_iff in Hp. rewrite Hp, Ht. cbn [fotp_read]. unfold fnc_term_read.
    rewrite s32_id by lia. unfold read_terminal, read_terminal_start, kbind, kdo.
    rewrite index_set_ok by by destruct Hk. rstep. rewrite entered_set_ok by (apply kb_ok_put_index; by destruct Hk).
    rstep. unfold read_terminal_wait. fold s1. change (fflag (kb s1)) with (fflag (kb s)). by rewrite Hff. }
  assert (Ht1 : typing false false p s1 (scr v) (take 127 []) (drop (length (take 127 (@nil Z))) line)).
  { pose proof (se_screen _ _ _ _ _ _ _ _ Hs) as Hd. constructor.
    - apply (kb_displays p (put_index (sti s) 0)), (kb_displays p (sti s)). destruct Hd as [[] ? ? ? ?]. by constructor; [constructor|..].
    - apply kb_ok_put_entered, kb_ok_put_index. by destruct Hk.
    - assert (Hk' : kb_ok (sti s)) by by destruct Hk. assert (Hli' : line_is (sti s) line 0) by by destruct Hli.
      apply (line_put_index _ _ _ 0 Hk') in Hli'. by destruct Hli'.
    - done.
    - done. }
  (* the wait *)
  pose (wait := read_wait esp (Z.of_nat i) my_buf n).
  assert (Hwait : forall t, io_frame p s t -> wait t = read_terminal_wait my_buf n t).
  { intros t (Et & _ & _). unfold wait, read_wait. rewrite (fd_get_current t esp a pcb), Hf.
    - rstep. rewrite Ht, s32_id by lia. done.
    - by apply (current_same s); [rewrite Et..|]. }
  destruct (poll_keys p line wait s1 codes l) with (q := Key 0x1C :: qs) (s := s1) (sc := scr v) (l := @nil Z)
    as (s2 & E2 & Hio2 & Hff2 & Ht2); [| exact Hkeys | by eapply Forall_impl; [exact Hl | intros ? []] | apply io_frame_refl | done | done |].
  { intros t Hio Hft. rewrite (Hwait t (io_frame_trans p s s1 t Hio1 Hio)). unfold read_terminal_wait. by rewrite Hft. }
  rewrite app_nil_l in Ht2.
  destruct (poll_enter p line wait s2 l _ qs Ht2) as (s3 & E3 & Hio3 & Hff3 & He3 & Ht3).
  assert (Hio : io_frame p s s3) by (apply (io_frame_trans p s s1 s3 Hio1), (io_frame_trans p s1 s2 s3 Hio2 Hio3)).
  destruct (wait_line s3 p my_buf n l _ line Ht3 Hff3 He3 Hn Hb) as (s4 & E4 & Hio4 & Hd4 & Hk4 & Hm4 & Hf4 & Hl4).
  { by eapply keys_bytes. }
  { by rewrite <- Hrow. }
  { by rewrite <- Hrow. }
  rewrite <- Hrow in E4, Hl4. fold txt in E4.
  rewrite Hwait, E4 in E3 by done. rewrite E3 in E2.
  exists (zlen (typed l), txt ++ 0 :: drop (S (length txt)) my_buf), (mkMachine (sti s4) qs). split.
  { unfold kcall. fold s. rewrite E1. rstep. rewrite <- Eq. fold wait. rewrite E2. done. }
  split; [done |]. split; [|exact Hqs]. exists a, pcb, ds, p, (replicate (Z.to_nat n) 32 ++ drop (Z.to_nat n) (row_typed v l)).
  apply seen_by_flag.
  pose proof (seen_by_io s a pcb ds p line v s4 _ _ Hs (io_frame_trans p s s3 s4 Hio Hio4) Hd4 Hk4 Hm4 Hf4 Hl4) as Hs4.
  assert (Hsc : type_char (type_string (scr v) l) 10 = type_string (scr v) (l ++ [10])) by (by rewrite type_string_app).
  rewrite Hsc in Hs4. apply (seen_by_inputs s4 a pcb ds p _ _ ins) in Hs4; [exact Hs4 |].
  apply Forall_app. split; [apply Forall_lookup; intros k c [-> _]%lookup_replicate; by unfold byte_ok |]. apply Forall_drop.
  rewrite Hrow. apply Forall_app. split; [|by apply Forall_drop].
  apply Forall_take, Forall_app. split; [|by apply Forall_singleton].
  by eapply keys_bytes.
Qed.

(** *** [read] of the clock *)

(** A tick when no other terminal is in use: the handler returns. *)
Lemma tick_alone s :
  (3 <= fuel)%nat -> paging_inv (pg s) -> sched_ok (sch s) -> sum_list_with Z.to_nat (term_init (sch s)) = 1%nat ->
  (exists t, aget (term_init (sch s)) t = Ok 1) ->
  exists l, periodic_interrupt_handler fuel esp ebp s = Ok (Ret tt, set_iflag (set_log (set_interrupt_count s 1) l) true).
Proof.
  intros Hfuel Hp Hok Hsum Hone. destruct fuel as [|[|[|f]]]; try lia. unfold periodic_interrupt_handler.
  set (s1 := snd (inb (outb (set_interrupt_count (cli s) 1) C_MASK RTC_PORT) CMOS_PORT)).
  change (let '(_, s0) := inb _ _ in ?k s0) with (k s1).
  pose proof (do_events_spec f esp ebp s1 Hok (inv_shaped _ Hp) Hone) as Hdo.
  change (sch s1) with (sch s) in Hdo. rewrite Hsum in Hdo. change (1 =? 1)%nat with true in Hdo. rewrite orb_true_r in Hdo.
  unfold kbind. change (S (S (S f))) with (3 + f)%nat. rewrite Hdo. rstep. eexists. reflexivity.
Qed.

Lemma read_rtc_law m a pcb ds p line v i (my_buf : list Z) n ins :
  (3 <= fuel)%nat -> seen_by esp (cli (kern m)) a pcb ds p line v -> irqs_are (irqs m) (Tick :: ins) ->
  (i < 8)%nat -> i <> 1%nat -> fds v !! i = Some (Some HRtc) ->
  runs (kcall fuel esp ebp more x0 (sys_read esp (Z.of_nat i) my_buf n) (read_wait esp (Z.of_nat i) my_buf n)) m
    (fun x m' => x = (0, my_buf) /\ seen esp m' (set_inputs v ins)).
Proof.
  intros Hfuel Hs Hq Hi Hi1 Hh. set (s := cli (kern m)) in *. inversion Hq as [| |qs ins' Hqs Eq El]. subst ins'.
  destruct (fds_at _ _ _ _ _ (se_fds _ _ _ _ _ _ _ _ Hs) Hh) as (f & Hf & Hp & Ht).
  pose proof (se_current _ _ _ _ _ _ _ _ Hs) as Hc. destruct (se_alone _ _ _ _ _ _ _ _ Hs) as (Hok & Hsum & Hone & Hic).
  assert (E1 : sys_read esp (Z.of_nat i) my_buf n s = Ok (Stop Blocked, sti s)).
  { unfold sys_read. destruct (Z.ltb_spec (Z.of_nat i) 0); [lia |]. destruct (Z.ltb_spec 7 (Z.of_nat i)); [lia |].
    destruct (Z.eqb_spec (Z.of_nat i) 1); [lia |]. cbn [orb]. rewrite (fd_get_current _ _ _ _ _ Hc), Hf. rstep.
    unfold present in Hp. apply negb_true_iff in Hp. rewrite Hp, Ht. cbn [fotp_read]. unfold kbind, fnc_rtc_read, rtc_read.
    change (interrupt_count (sti s)) with (interrupt_count s). by rewrite Hic. }
  destruct (tick_alone (sti s) Hfuel (proj1 (se_paging _ _ _ _ _ _ _ _ Hs)) Hok Hsum Hone) as (l & E2).
  set (s1 := set_iflag (set_log (set_interrupt_count (sti s) 1) l) true) in *.
  assert (Hc1 : current s1 esp a pcb) by by destruct Hc.
  eexists (0, my_buf), (mkMachine _ qs). split.
  { unfold kcall. fold s. rewrite E1. rstep. rewrite <- Eq. cbn [poll deliver]. rewrite E2. rstep.
    unfold read_wait. rewrite (fd_get_current _ _ _ _ _ Hc1), Hf. rstep. rewrite Ht. reflexivity. }
  split; [done |]. split; [|exact Hqs]. exists a, pcb, ds, p, line. apply seen_by_inputs.
  pose proof (seen_by_log s a pcb ds p line v l true Hs) as Hs'.
  replace (sti (set_interrupt_count s1 0)) with (set_iflag (set_log s l) true); [exact Hs' |].
  unfold s1, sti, set_interrupt_count, set_iflag, set_log. simpl. by rewrite <- Hic.
Qed.

Lemma read_law m v fd (my_buf : list Z) n r my_buf' v' :
  (3 <= fuel)%nat -> seen esp m v -> view_read v fd my_buf n = Some (r, my_buf', v') ->
  runs (kcall fuel esp ebp more x0 (sys_read esp fd my_buf n) (read_wait esp fd my_buf n)) m
    (fun x m' => x = (r, my_buf') /\ seen esp m' v').
Proof.
  intros Hfuel (a & pcb & ds & p & line & Hs & Hq)%seen_cli Hr.
  pose proof (vo_fds v (seen_by_ok _ _ _ _ _ _ _ Hs)) as H8.
  destruct (descriptor_errors_spec _ esp a pcb fd my_buf (fun _ => Undef) n (se_current _ _ _ _ _ _ _ _ Hs)) as (Hbad & _).
  unfold view_read in Hr. destruct ((fd <? 0) || (7 <? fd) || (fd =? 1)) eqn:Er.
  { injection Hr as <- <- <-. eapply kcall_ret; [apply Hbad; lia |]. split; [done | by eapply seen_sti]. }
  destruct (lookup_lt_is_Some_2 (fds v) (Z.to_nat fd)) as [h Hh]; [lia |]. rewrite Hh in Hr.
  assert (Hfd : fd = Z.of_nat (Z.to_nat fd) /\ (Z.to_nat fd < 8)%nat /\ Z.to_nat fd <> 1%nat) by lia.
  destruct Hfd as (Efd & Hi & Hi1). destruct h as [[| | |c pos]|].
  - destruct (inputs v) as [|[l|] q] eqn:Ei; try done.
    destruct (Z.ltb_spec n 0); [done |]. destruct (Z.ltb_spec 1024 n); [done |].
    destruct (Z.leb_spec 1024 (zlen (upto_nul (row_typed v l)))); [done |].
    destruct (Z.leb_spec (zlen my_buf) (zlen (upto_nul (row_typed v l)))); [done |].
    injection Hr as <- <- <-. rewrite Efd at 1 2. by eapply read_terminal_law.
  - destruct (inputs v) as [|[l|] q] eqn:Ei; try done. injection Hr as <- <- <-. rewrite Efd. by eapply read_rtc_law.
  - destruct (Nat.ltb_spec (length my_buf) 32); [done |].
    destruct (read_dir_law _ a pcb ds p line v (Z.to_nat fd) my_buf n Hs Hi Hi1 Hh) as (r1 & b1 & v1 & s' & E1 & E2 & Hs'); [done |].
    rewrite E1 in Hr. injection Hr as -> -> ->. rewrite <- Efd in E2. eapply kcall_ret; [exact E2 |].
    split; [done |]. eapply seen_sti; [exact Hs' |]. destruct (ents v !! dirpos v) as [[]|]; by injection E1 as _ _ <-.
  - destruct (Nat.ltb_spec (length my_buf) (length (take (Z.to_nat n) (drop pos c)))); [done |]. injection Hr as <- <- <-.
    destruct (read_file_law _ a pcb ds p line v (Z.to_nat fd) c pos my_buf n Hs Hi Hi1 Hh) as (s' & pcb' & E & Hs'); [done |].
    rewrite <- Efd in E. eapply kcall_ret; [exact E |]. split; [done | by eapply seen_sti].
  - injection Hr as <- <- <-. eapply kcall_ret; [apply Hbad |]; [|split; [done | by eapply seen_sti]].
    do 3 right. destruct (fds_at _ _ _ _ _ (se_fds _ _ _ _ _ _ _ _ Hs) Hh) as (f & Hf & Hp). rewrite <- Efd in Hf. by exists f.
Qed.

(** *** The kernel keeps the contract *)

Lemma seen_ok m v : seen esp m v -> view_ok v.
Proof. intros [(a & pcb & ds & p & line & Hs) _]. by eapply seen_by_ok. Qed.

(** *** A command that cannot be run *)

Definition not_runnable (v : view) (cmd : list Z) : Prop :=
  file_named v cmd = None \/
  exists c, file_named v cmd = Some (NFile c) /\ 4 <= zlen c /\ take 4 c <> elf_magic.

Lemma seen_by_no_args s a pcb ds p line v :
  seen_by esp s a pcb ds p line v -> seen_by esp (with_args s []) a pcb ds p line (set_arg v []).
Proof.
  intros [Hc Hfds Hp Hd He Hdp Hsc Hpg (Hk & Hm) (Hl & Hr) (rest & Ha & Ha1 & Hal & Harg) Hal'].
  constructor; try done.
  - by destruct Hc.
  - destruct Hsc as [[] ? ? ? ?]. by constructor; [constructor|..].
  - by destruct Hk.
  - by destruct Hl.
  - exists (drop 1 (args s)). split; [done |]. split; [|split; [simpl; lia | constructor]].
    change (args (with_args s [])) with (0 :: drop 1 (args s)). unfold zlen in *. cbn [length]. rewrite length_drop. lia.
Qed.

Lemma execute_law m v cmd rest :
  (1024 <= fuel)%nat -> seen esp m v -> Forall (fun c => name_stop c = false /\ byte_ok c) cmd -> (length cmd < 20)%nat ->
  Forall byte_ok rest -> (20 <= length (cmd ++ 0%Z :: rest))%nat -> not_runnable v cmd ->
  runs (kcall fuel esp ebp more x0 (execute fuel (aget (cmd ++ 0 :: rest)) esp ebp) (fun _ => Undef)) m
    (fun x m' => x = -1 /\ seen esp m' (set_arg v [])).
Proof.
  intros Hfuel (a & pcb & ds & p & line & Hs & Hq)%seen_cli Hcmd Hcl Hrest Hlen Hno. set (s := cli (kern m)) in *.
  destruct (se_args _ _ _ _ _ _ _ _ Hs) as (rest' & _ & Hargs & _).
  pose proof (kernel_page_reads _ _ _ _ _ _ _ Hs) as Hle.
  pose proof (se_ents _ _ _ _ _ _ _ _ Hs) as He. assert (Hcz : zlen cmd <= 31) by (unfold zlen; lia).
  eapply kcall_ret.
  { apply (execute_fails_spec s _ cmd 0 [] 0 (take (19 - length cmd) rest) ds fuel esp ebp); [| done | lia | |].
    - constructor; [| | | by constructor | by left | done].
      + intros n c Hc. simpl in Hc.
        assert (Hpre : (cmd ++ 0 :: rest) !! n = Some c).
        { change (cmd ++ 0 :: rest) with (cmd ++ (0 :: rest)).
          replace (cmd ++ 0 :: take (19 - length cmd) rest) with (take 20 (cmd ++ 0 :: rest)) in Hc.
          - by apply lookup_take_Some in Hc as [Hc _].
          - rewrite take_app_ge by lia. replace (20 - length cmd)%nat with (S (19 - length cmd)) by lia. done. }
        split; [by apply aget_nat |].
        assert (Hall : Forall byte_ok (cmd ++ 0 :: rest)).
        { apply Forall_app. split; [by eapply Forall_impl; [exact Hcmd | intros x []] |].
          apply Forall_cons. by split; [unfold byte_ok |]. }
        by apply (Forall_lookup_1 _ _ _ _ Hall Hpre).
      + rewrite length_app in Hlen. simpl in Hlen. simpl. rewrite length_app. simpl. rewrite length_take. lia.
      + by eapply Forall_impl; [exact Hcmd | intros x []].
    - by eapply dir_is_mono; [exact Hle | apply (se_dir _ _ _ _ _ _ _ _ Hs)].
    - destruct (list_find (fun d => dname d = cmd) ds) as [[j d]|] eqn:Ef.
      + right. destruct (file_named_found _ _ _ _ _ _ He Hcz Ef) as (nd & En & _ & _ & Hnd).
        destruct Hno as [Hno|(c & Hf & Hc4 & Hm)]; [congruence |]. assert (nd = NFile c) as -> by congruence.
        destruct Hnd as (_ & Hfile & _). exists j, d, c. split; [done |].
        split; [by eapply file_at_mono|]. split; [done | by left].
      + left. intros d Hd. apply list_find_None in Ef. rewrite Forall_forall in Ef. by apply (Ef d Hd). }
  split; [done |]. eapply seen_sti; [by apply seen_by_no_args | done].
Qed.

Context (Hfuel : (1024 <= fuel)%nat).

#[local] Instance kernel_machine : Os machine := kernel_os fuel esp ebp more x0.

#[local] Instance kernel_spec : OsSpec machine := {|
  sees := seen esp;
  sees_ok := seen_ok;
  open_spec m v fname name := open_law m v fname name Hfuel;
  close_spec m v fd := close_law m v fd;
  read_spec m v fd b n r b' v' Hs Hr _ := read_law m v fd b n r b' v' ltac:(lia) Hs Hr;
  write_spec m v fd r src n x v' := write_law m v fd r src n x v';
  getargs_spec m v b n := getargs_law m v b n;
  vidmap_spec m v addr := vidmap_law m v addr;
  call_sys_spec m v num := call_sys_law m v num
|}.

End Facts.

(** ** A program that was just started *)

Section Started.
Context `{Layout} `{Linker} `{Env}.

(** [new_process q]: from then on the console takes the copy of the screen that has
    the number [q]. *)
Definition writing (q : Z) (s : kstate) : kstate := set_sch s (set_bg_term (sch s) q).

(** The kernel is ready to start a program as process [q] on the terminal on screen,
    the only one in use; [v] is what the program will see. Of the kernel's copies of
    the screens the one numbered [q] has to agree with the screen: it is the copy of the
    terminal itself when the first shell is started, as process 0 on terminal 0;
    what a shell starts gets the copy of another terminal. *)
Record quiescent (s : kstate) (q : Z) (p : pcb_t) (ds : list dentry_t) (line : list Z) (v : view) : Prop := {
  qu_term : 0 <= q < 3;
  qu_fds : zlen (fd p) = 8 /\ Forall (fun f => present f = false) (drop 2 (fd p));
  qu_seen_fds : fds v = Some HTerm :: Some HTerm :: replicate 6 None;
  qu_dir : dir_is (page_rd (ph s)) (fs s) ds;
  qu_ents : Forall2 (entry_seen s) ds (ents v);
  qu_dirpos : dir_index (fs s) = Z.of_nat (dirpos v) /\ (dirpos v <= length (ents v))%nat;
  qu_screen : displays VIDEO (writing q s) (scr v);
  qu_kb : kb_ok s /\ mods_are false false (kb s) /\ fflag (kb s) = 0;
  qu_line : line_is s line 0 /\ drop 1 line = row v /\ Forall byte_ok line;
  qu_args : exists rest, args s = arg v ++ 0 :: rest /\ zlen (args s) = 1024 /\ (length (arg v) < 20)%nat /\
    Forall (fun c => c <> 0 /\ c <> 10 /\ c <> 32 /\ byte_ok c) (arg v);
  qu_alone : sched_ok (sch s) /\ sum_list_with Z.to_nat (term_init (sch s)) = 1%nat /\
    (exists t, aget (term_init (sch s)) t = Ok 1) /\ interrupt_count s = 0
}.

Lemma started_image s s' q content p esp ebp :
  started s s' q content p esp ebp -> 0 <= q < 7 -> active_term (sch s) < 3 -> same_image s s'.
Proof.
  intros Hst Hq Ha. split.
  - intros a c. unfold page_rd. destruct (Z.leb_spec 4194304 a); [|done]. destruct (Z.ltb_spec a 8388608); [|done].
    cbn [andb]. pose proof (load_addr_range q Hq). rewrite (st_frame _ _ _ _ _ _ _ Hst) by lia. done.
  - destruct (st_rest _ _ _ _ _ _ _ Hst) as (_ & _ & _ & _ & -> & _). exists (dir_index (fs s)). by destruct (fs s).
Qed.

Lemma started_shows s s' q content p esp ebp n cs :
  started s s' q content p esp ebp -> 0 <= q < 7 -> active_term (sch s) < 3 -> n <= 2000 ->
  shows VIDEO n (writing q s) cs -> shows VIDEO n s' cs.
Proof.
  intros Hst Hq Ha Hn [Hm Hb Hl Hby Hc]. destruct (st_rest _ _ _ _ _ _ _ Hst) as (_ & _ & Econ & _).
  assert (Hdir : kernel_dir (pg s')).
  { right. exists q. split; [done |]. by destruct (started_facts _ _ _ _ _ _ _ Hst Hq) as (_ & ?). }
  assert (Hph : forall a, VIDEO <= a < VIDEO + 4000 -> ph s' !! a = ph s !! a).
  { intros a Hr. apply (st_frame _ _ _ _ _ _ _ Hst); unfold VIDEO in Hr; pose proof (load_addr_range q Hq); lia. }
  constructor; try done.
  - intros i Hi. destruct (Hm i Hi) as (_ & x & Hx'). split; [|exists x; by rewrite Hph by lia].
    unfold VIDEO. rewrite u32_id by lia. change 0xB8000 with (4096 * 0xB8). unfold ktr.
    apply low_page_walk; [apply Hst | done | lia | apply Hst | lia].
  - by rewrite Econ, (st_sched _ _ _ _ _ _ _ Hst).
  - intros i c Hi Hg. destruct (Hc i c Hi Hg) as [E1 E2]. split; rewrite Hph; done || lia.
Qed.

Lemma started_displays s s' q content p esp ebp sc :
  started s s' q content p esp ebp -> 0 <= q < 7 -> active_term (sch s) < 3 ->
  displays VIDEO (writing q s) sc -> displays VIDEO s' sc.
Proof.
  intros Hst Hq Ha [Hs Hx Hy Hxr Hyr]. destruct (st_rest _ _ _ _ _ _ _ Hst) as (_ & _ & Econ & _).
  constructor; rewrite ?Econ; try done. by eapply started_shows.
Qed.

Lemma started_seen s s' q content p ds line v esp ebp esp' qs :
  started s s' q content p esp ebp -> quiescent s q p ds line v -> in_stack esp' q -> irqs_are qs (inputs v) ->
  seen esp' (mkMachine s' qs) v.
Proof.
  intros Hst [Hq (Hpl & Hpf) Hfds Hd He Hdp Hsc (Hk & Hm & Hff) (Hl & Hr & Hb) Harg (Hok & Hsum & Hone & Hic)] Hin Hqs.
  destruct (started_facts _ _ _ _ _ _ _ Hst ltac:(lia)) as (Hinv & Hcr & Hlive).
  destruct (st_rest _ _ _ _ _ _ _ Hst) as (_ & _ & Econ & Ekb & Efs & Eargs).
  pose proof (st_sched _ _ _ _ _ _ _ Hst) as Esch.
  pose proof (so_active _ Hok) as Ha.
  pose proof (started_image _ _ _ _ _ _ _ Hst ltac:(lia) ltac:(lia)) as Hi.
  assert (Hdir : kernel_dir (pg s')) by (right; exists q; split_and!; done || lia).
  split; [|done]. exists (pcb_addr q), (new_pcb p esp ebp q), ds, VIDEO, line. constructor; cbn [kern].
  - apply (current_in_stack s' q q); [done | lia | done | done | done | |].
    + rewrite (proj2 (st_pcb _ _ _ _ _ _ _ Hst)). apply lookup_insert_eq.
    + simpl. by rewrite !zlen_insert.
  - rewrite Hfds. destruct p as [l o kst oe pid]. simpl in *.
    destruct l as [|f0 [|f1 l]]; try (unfold zlen in Hpl; simpl in Hpl; lia). simpl in *.
    constructor; [done |]. constructor; [done |].
    assert (Hll : length l = 6%nat) by (unfold zlen in Hpl; simpl in Hpl; lia). rewrite drop_0 in Hpf.
    change (Forall2 (fd_seen s') l (replicate 6 None)). rewrite <- Hll. clear -Hpf. induction Hpf; simpl; by constructor.
  - done.
  - destruct Hi as [Hrd _]. rewrite Efs. by apply (dir_is_mono (page_rd (ph s))).
  - eapply Forall2_impl; [exact He |]. intros d e. by apply entry_seen_image.
  - by rewrite Efs.
  - apply (started_displays _ _ _ _ _ _ _ _ Hst); done || lia.
  - unfold VIDEO. lia.
  - rewrite Ekb. split; [|done]. destruct Hk. constructor; rewrite ?Ekb, ?Esch; done.
  - split; [|done]. destruct Hl. constructor; rewrite Ekb, Esch; done.
  - by rewrite Eargs.
  - rewrite Esch, (st_count _ _ _ _ _ _ _ Hst). split; [|done]. destruct Hok. constructor; simpl; try done.
    by rewrite zlen_insert.
Qed.
End Started.

(** ** A machine with a program

    The file system of [Syscalls.v]; a program runs as process 0 on terminal 0,
    with the argument [arg]. *)

Section Demo.
#[local] Existing Instance demo_layout.
#[local] Instance demo_ports : Env := {| port_in _ _ := 0 |}.
#[local] Instance demo_linker : Linker := {| zeros_addr := 0x500000; zeros_range := ltac:(lia) |}.

(** Process [q] is the last that was started. *)
Definition demo_one (q : Z) : sched_t :=
  mkSched (replicate 6 [0; 0]) 0 [1; 0; 0] [0; 0; 0] q 0 [0; 0; 0] [0; 0; 0].

Definition demo_machine (q : Z) (pg0 : paging) : kstate :=
  set_pcbs (set_fs (set_pg (set_sch (kboot (demo_mem q)) (demo_one q)) pg0) demo_fs) {[ pcb_addr q := zero_pcb ]}.

Definition demo_files : list (list Z * node) :=
  [([46], NDir); ([104; 105], NFile demo_hi); ([103; 111], NFile demo_go); ([114; 116; 99], NRtc)].

Definition demo_view (arg : list Z) (ins : list input) : view :=
  mkView demo_files 0 (Some HTerm :: Some HTerm :: replicate 6 None) blank (replicate 1023 0) arg ins.

Lemma demo_one_ok q : 0 <= q < 3 -> sched_ok (demo_one q).
Proof.
  intros Hq. constructor; try (simpl; done || lia).
  - intros t Ht. exists [0; 0]. split; [|done]. by assert (t = 0 \/ t = 1 \/ t = 2) as [->|[->| ->]] by lia.
  - exists 1, 0, 0. split_and!; auto.
Qed.

Lemma demo_files_seen s : fs s = demo_fs -> rd_le (page_rd demo_image) (page_rd (ph s)) ->
  Forall2 (entry_seen s) demo_ents demo_files.
Proof.
  intros Hf Hrd.
  assert (Hlen : forall ino B, rd32 (page_rd demo_image) (inode_addr demo_fs ino) = Ok B -> 0 <= B < 2 ^ 31 ->
    exists B, rd32 (page_rd (ph s)) (inode_addr (fs s) ino) = Ok B /\ 0 <= B < 2 ^ 31).
  { intros ino B E HB. exists B. rewrite Hf. split; [by eapply rd32_mono | done]. }
  constructor; [|constructor; [|constructor; [|constructor; [|constructor]]]]; (split; [done |]); split; simpl.
  - apply (Hlen 0 0); [by vm_compute | lia].
  - done.
  - apply (Hlen 1 5); [by vm_compute | lia].
  - split; [done |]. split; [rewrite Hf; apply (file_at_mono (page_rd demo_image)); [done | apply demo_hi_file] |].
    by repeat constructor.
  - apply (Hlen 2 28); [by vm_compute | lia].
  - split; [done |]. split; [rewrite Hf; apply (file_at_mono (page_rd demo_image)); [done | apply demo_go_file] |].
    split; [|done]. vm_compute. by repeat constructor.
  - apply (Hlen 0 0); [by vm_compute | lia].
  - done.
Qed.

Lemma demo_machine_fields q pg0 : let m := demo_machine q pg0 in
  pg m = pg0 /\ sch m = demo_one q /\ fs m = demo_fs /\ kb m = kb (kboot ∅) /\ interrupt_count m = 0 /\
  pcbs m = {[ pcb_addr q := zero_pcb ]} /\ args m = replicate 1024 0 /\ ph m = demo_mem q.
Proof. unfold demo_machine. generalize (demo_mem q) as mem. intros mem. by split_and!. Qed.

(** The console changes nothing else. *)
Lemma con_frame_fields p s0 s : con_frame p s0 s ->
  pg s = pg s0 /\ sch s = sch s0 /\ fs s = fs s0 /\ kb s = kb s0 /\ interrupt_count s = interrupt_count s0 /\
  pcbs s = pcbs s0 /\ args s = args s0.
Proof. intros (E & _ & _). rewrite E. by split_and!. Qed.

Lemma demo_machine_cleared q pg0 :
  0 <= q < 3 -> demo_paging (Z.to_nat q) pg0 ->
  exists s, displays VIDEO s blank /\ con_frame VIDEO (demo_machine q (set_cr3 pg0 0)) s.
Proof.
  intros Hq [Hinv Hcr Hproc Hpte]. destruct (clear_spec VIDEO (demo_machine q (set_cr3 pg0 0))) as (s & _ & Hd & Hf & _); [|by exists s].
  exists (replicate 2000 0). constructor.
  - intros i Hi. unfold VIDEO. rewrite u32_id by lia. split.
    + change 0xB8000 with (4096 * 0xB8). unfold ktr.
      apply low_page_walk; [by apply set_cr3_inv | by left | lia | by apply Hpte | lia].
    + exists 32. change (ph (demo_machine q (set_cr3 pg0 0))) with (demo_mem q). rewrite demo_mem_at. by zcases.
  - change (bg_term (sch (demo_machine q (set_cr3 pg0 0)))) with q. by assert (q = 0 \/ q = 1 \/ q = 2) as [->|[->| ->]] by lia.
  - done.
  - apply Forall_replicate. by unfold byte_ok.
  - intros i c Hi. lia.
Qed.

Lemma demo_quiescent q pg0 s arg ins :
  0 <= q < 3 -> demo_paging (Z.to_nat q) pg0 -> displays VIDEO s blank ->
  con_frame VIDEO (demo_machine q (set_cr3 pg0 0)) s ->
  (length arg < 20)%nat -> Forall (fun c => c <> 0 /\ c <> 10 /\ c <> 32 /\ byte_ok c) arg ->
  quiescent (with_args s arg) q zero_pcb demo_ents (replicate 1024 0) (demo_view arg ins) /\
  can_run (with_args s arg) q 0x8048018 demo_go zero_pcb.
Proof.
  intros Hq0 [Hinv Hcr Hproc Hpte] Hd Hf Hl Harg.
  destruct (con_frame_fields _ _ _ Hf) as (Epg & Esch & Efs & Ekb & Eic & Epcb & Eargs). destruct Hf as (_ & _ & Hph).
  destruct (demo_machine_fields q (set_cr3 pg0 0)) as (Fpg & Fsch & Ffs & Fkb & Fic & Fpcb & Fargs & Fph).
  rewrite Fpg in Epg. rewrite Fsch in Esch. rewrite Ffs in Efs. rewrite Fkb in Ekb. rewrite Fic in Eic.
  rewrite Fpcb in Epcb. rewrite Fargs in Eargs. rewrite Fph in Hph. clear Fpg Fsch Ffs Fkb Fic Fpcb Fargs Fph.
  assert (Hrd : rd_le (page_rd demo_image) (page_rd (ph s))).
  { intros a c Hc. apply (demo_kernel_image q) in Hc; [|lia]. revert Hc. unfold page_rd.
    destruct (Z.leb_spec 4194304 a); [|done]. by rewrite Hph by (unfold VIDEO; lia). }
  split.
  - constructor; change (sch (with_args s arg)) with (sch s); change (fs (with_args s arg)) with (fs s);
      change (ph (with_args s arg)) with (ph s); rewrite ?Esch.
    + lia.
    + split; [done |]. by repeat constructor.
    + done.
    + rewrite Efs. eapply dir_is_mono; [exact Hrd | apply demo_ents_dir].
    + by apply demo_files_seen.
    + rewrite Efs. simpl. lia.
    + assert (Hbg : bg_term (sch s) = q) by by rewrite Esch.
      destruct Hd as [[] ? ? ? ?]. rewrite Hbg in *. by constructor; [constructor|..].
    + change (kb (with_args s arg)) with (kb s). split; [|by rewrite Ekb].
      constructor; change (kb (with_args s arg)) with (kb s); change (sch (with_args s arg)) with (sch s);
        rewrite ?Ekb, ?Esch; try done. repeat constructor.
    + split; [constructor; change (kb (with_args s arg)) with (kb s); change (sch (with_args s arg)) with (sch s);
        by rewrite Ekb, Esch |]. split; [done |]. apply Forall_replicate. by unfold byte_ok.
    + exists (drop (S (length arg)) (args s)). split; [done |]. split; [|done]. simpl. rewrite Eargs.
      unfold zlen. rewrite length_app. cbn [length]. rewrite length_drop, length_replicate. lia.
    + split_and!; [by apply demo_one_ok | done | by exists 0 | done].
  - apply can_run_with_args. constructor; rewrite ?Epg, ?Esch, ?Epcb.
    + by apply set_cr3_inv.
    + rewrite <- (Z2Nat.id q) by lia. apply demo_first_free; [lia | exact Hproc].
    + split; [done | lia].
    + split; [simpl; lia | done].
    + apply lookup_insert_eq.
    + done.
    + vm_compute. repeat constructor; discriminate.
    + by apply Z.leb_le.
    + intros i Hi. change (Z.of_nat (length demo_go)) with 28 in Hi. exists 0. unfold load_addr, frame.
      rewrite Hph by (unfold VIDEO; lia). rewrite demo_mem_at. unfold byte_ok, load_addr, frame. split; [by zcases | lia].
    + intros i Hi. change (Z.of_nat 4096) with 4096 in Hi. destruct (decide (i < 4000)) as [Hlt|Hge].
      * destruct (sh_map _ _ _ _ (d_shows _ _ _ Hd) i ltac:(lia)) as (_ & x & Hx). by exists x.
      * exists 32. rewrite Hph by (unfold VIDEO; lia). rewrite demo_mem_at. unfold byte_ok. split; [by zcases | lia].
    + intros i Hi. change (Z.of_nat 4096) with 4096 in Hi. simpl active_term.
      exists 0. rewrite Hph by (unfold VIDEO; lia). rewrite demo_mem_at. unfold byte_ok. split; [by zcases | lia].
    + by apply (Hpte 1).
Qed.

Lemma demo_seen arg ins qs :
  (length arg < 20)%nat -> Forall (fun c => c <> 0 /\ c <> 10 /\ c <> 32 /\ byte_ok c) arg -> irqs_are qs ins ->
  exists m, seen demo_esp m (demo_view arg ins).
Proof.
  intros Hl Harg Hqs. destruct (demo_paging_exists 0) as (pg0 & Hpg); [lia |].
  destruct (demo_machine_cleared 0 pg0 ltac:(lia) Hpg) as (s & Hd & Hf).
  destruct (demo_quiescent 0 pg0 s arg ins ltac:(lia) Hpg Hd Hf Hl Harg) as (Hq & Hrun).
  destruct (execute_enter_spec (with_args s arg) (demo_dentry [103; 111] 2 2) 0 0x8048018 demo_go zero_pcb demo_esp 7 Hrun)
    as (s' & _ & Hst).
  { destruct (Forall2_lookup_r _ _ _ 2%nat ([103; 111], NFile demo_go) (qu_ents _ _ _ _ _ _ Hq) eq_refl) as (d & Ed & _ & _ & _ & Hfile & _).
    injection Ed as <-. exact Hfile. }
  exists (mkMachine s' qs). by eapply started_seen; [exact Hst | exact Hq | apply demo_in_stack |].
Qed.
End Demo.
