(* ===== verification/Slices.v ===== *)
(** * What programs and interrupts do between two switches

    The processor's work while no program is started or ended and no terminal is
    switched to: stores of the running program, system calls, keys, ticks that
    switch to nobody, and the rest of the calls that a switch left ([work]). The
    scheduler's variables and the process control blocks of the other processes
    survive it, and of the page tables only [vidmap] changes an entry. With that: a terminal
    that a tick preempts gets its context back, and no terminal waits for more than
    two turns; and a program that ends comes back to the call of [execute] that
    started it, whatever it did and whichever programs it ran itself ([life]).

    That no program is started or ended while a terminal waits is a restriction that the
    code needs: [execute] leaves a process number in [bg_term]
    ([Process.execute_breaks_scheduler]). *)

From S2P Require Import Prelude Strings Filesys Paging Mem State Pic Console Rtc Terminal Sched Syscalls.
From S2P Require Import Process Switch Keyboard Handlers User Userland.

Local Open Scope Z_scope.
Local Open Scope kernel_scope.

(** ** The core of the state *)

(** What the console, the line buffers, the clock and the file system leave
    alone. *)
Definition core (s : kstate) : paging * sched_t * gmap Z pcb_t := (pg s, sch s, pcbs s).

Create Rewrite HintDb core.

Lemma core_set_log s x : core (set_log s x) = core s.
Proof. done. Qed.
Lemma core_set_iflag s x : core (set_iflag s x) = core s.
Proof. done. Qed.
Lemma core_set_ph s x : core (set_ph s x) = core s.
Proof. done. Qed.
Lemma core_set_con s x : core (set_con s x) = core s.
Proof. done. Qed.
Lemma core_set_kb s x : core (set_kb s x) = core s.
Proof. done. Qed.
Lemma core_set_fs s x : core (set_fs s x) = core s.
Proof. done. Qed.
Lemma core_set_interrupt_count s x : core (set_interrupt_count s x) = core s.
Proof. done. Qed.
Lemma core_cli s : core (cli s) = core s.
Proof. done. Qed.
Lemma core_sti s : core (sti s) = core s.
Proof. done. Qed.
Lemma core_outb s d p : core (outb s d p) = core s.
Proof. done. Qed.
Lemma core_change_coord s x y : core (change_coord s x y) = core s.
Proof. done. Qed.
Lemma core_set_xy s x y : core (set_xy s x y) = core s.
Proof. done. Qed.
Lemma core_set_mods s a b c d : core (set_mods s a b c d) = core s.
Proof. done. Qed.
Lemma core_set_fflag s x : core (set_fflag s x) = core s.
Proof. done. Qed.
Lemma core_set_buf s x : core (set_buf s x) = core s.
Proof. done. Qed.
Lemma core_set_buf_index s x : core (set_buf_index s x) = core s.
Proof. done. Qed.
Lemma core_set_ind_entered s x : core (set_ind_entered s x) = core s.
Proof. done. Qed.
Lemma core_set_scr_buf s x : core (set_scr_buf s x) = core s.
Proof. done. Qed.
#[export] Hint Rewrite core_set_log core_set_iflag core_set_ph core_set_con core_set_kb core_set_fs core_set_interrupt_count
  core_cli core_sti core_outb core_change_coord core_set_xy core_set_mods core_set_fflag core_set_buf
  core_set_buf_index core_set_ind_entered core_set_scr_buf : core.

Lemma core_send_eoi `{Env} s k : core (send_eoi s k) = core s.
Proof. unfold send_eoi. by repeat case_match. Qed.
#[export] Hint Rewrite @core_send_eoi : core.

(** Takes a function that returned apart: its steps, its branches, its results. *)
Ltac returned :=
  cbv beta zeta in *;
  repeat match goal with
  | E : (_ ≫= _) = Ok _ |- _ => let E1 := fresh "E" in apply res_bind_ok_inv in E as (? & E1 & E); cbv beta zeta in E
  | E : match ?p with (_, _) => _ end = Ok _ |- _ => destruct p
  | E : (if ?b then _ else _) = Ok _ |- _ => destruct b eqn:?
  | E : Ok _ = Ok _ |- _ => injection E; clear E; intros; subst
  | E : Undef = Ok _ |- _ => discriminate E
  | E : NoFuel = Ok _ |- _ => discriminate E
  end.

(** Replaces a step that returned by what it did to the core; extended below. *)
Ltac core_step := fail.

(** Proves that a function that returned left the core alone. *)
Ltac core_same := intros; returned; repeat core_step; autorewrite with core in *; congruence.

Lemma range_core {A} (P : kstate -> A) lo hi body s s' :
  (forall j x y, body j x = Ok y -> P y = P x) -> for_range lo hi body s = Ok s' -> P s' = P s.
Proof.
  intros Hb. unfold for_range. apply (for_loop_rel (fun x y => P y = P x)); [done | congruence | done].
Qed.

(** What is beside the screen: a part [P] of the state that the memory, the console
    variables and the port log are not in. *)
Class Beside {A} (P : kstate -> A) := {
  beside_ph s x : P (set_ph s x) = P s;
  beside_con s x : P (set_con s x) = P s;
  beside_log s x : P (set_log s x) = P s
}.

#[export] Instance core_beside : Beside core.
Proof. by constructor. Qed.
#[export] Instance kb_beside : Beside kb.
Proof. by constructor. Qed.

Section Screen.
Context `{Layout} {A} (P : kstate -> A) `{!Beside P}.

Lemma beside_outb s d p : P (outb s d p) = P s.
Proof. apply beside_log. Qed.
Lemma beside_xy s x y : P (set_xy s x y) = P s.
Proof. apply beside_con. Qed.
Lemma beside_scr_buf s x : P (set_scr_buf s x) = P s.
Proof. apply beside_con. Qed.
Lemma beside_coord s x y : P (change_coord s x y) = P s.
Proof. unfold change_coord. by rewrite !beside_outb, beside_xy. Qed.
#[local] Hint Rewrite (beside_ph (P := P)) beside_xy beside_scr_buf beside_coord : core.

Lemma kst_beside s a v s' : kst s a v = Ok s' -> P s' = P s.
Proof. unfold kst. core_same. Qed.

Lemma scr_set_beside s i c s' : scr_set s i c = Ok s' -> P s' = P s.
Proof. unfold scr_set. core_same. Qed.

Ltac core_step ::= match goal with
  | E : kst _ _ _ = Ok _ |- _ => apply kst_beside in E
  | E : scr_set _ _ _ = Ok _ |- _ => apply scr_set_beside in E
  | E : for_range _ _ _ _ = Ok _ |- _ => apply (range_core P) in E; [|solve [clear E; core_same]]
  end.

Lemma shift_down_beside s s' : shift_down s = Ok s' -> P s' = P s.
Proof. unfold shift_down. core_same. Qed.

Lemma clear_beside s s' : clear s = Ok s' -> P s' = P s.
Proof. unfold clear. core_same. Qed.

Ltac core_step ::= match goal with
  | E : kst _ _ _ = Ok _ |- _ => apply kst_beside in E
  | E : scr_set _ _ _ = Ok _ |- _ => apply scr_set_beside in E
  | E : shift_down _ = Ok _ |- _ => apply shift_down_beside in E
  end.

Lemma putc_beside s c s' : putc s c = Ok s' -> P s' = P s.
Proof. unfold putc. core_same. Qed.

Lemma puts_beside fuel s r n s' : puts fuel s r = Ok (n, s') -> P s' = P s.
Proof.
  unfold puts. generalize 0. revert s. induction fuel as [|fuel IH]; intros s i E; [done |].
  cbn [puts_loop] in E. returned; [done |]. apply IH in E. apply putc_beside in E1. congruence.
Qed.
End Screen.

Ltac core_chars := match goal with
  | E : putc _ _ = Ok _ |- _ => apply (putc_beside core) in E
  | E : puts _ _ _ = Ok _ |- _ => apply (puts_beside core) in E
  | E : clear _ = Ok _ |- _ => apply (clear_beside core) in E
  | E : for_range _ _ _ _ = Ok _ |- _ => apply (range_core core) in E; [|solve [clear E; core_same]]
  end.
Ltac core_step ::= core_chars.

Section Lines.
Context `{Layout}.

Lemma backspacing_core s n s' : backspacing s n = Ok s' -> core s' = core s.
Proof. unfold backspacing. core_same. Qed.

Lemma buf_set_core s i c s' : buf_set s i c = Ok s' -> core s' = core s.
Proof. unfold buf_set. core_same. Qed.

Lemma index_set_core s k s' : index_set s k = Ok s' -> core s' = core s.
Proof. unfold index_set. core_same. Qed.

Lemma entered_set_core s k s' : entered_set s k = Ok s' -> core s' = core s.
Proof. unfold entered_set. core_same. Qed.
End Lines.

Ltac core_lines := first [core_chars | match goal with
  | E : backspacing _ _ = Ok _ |- _ => apply backspacing_core in E
  | E : buf_set _ _ _ = Ok _ |- _ => apply buf_set_core in E
  | E : index_set _ _ = Ok _ |- _ => apply index_set_core in E
  | E : entered_set _ _ = Ok _ |- _ => apply entered_set_core in E
  end].
Ltac core_step ::= core_lines.

Section Terminal.
Context `{Layout}.

Lemma buf_push_core s c s' : buf_push s c = Ok s' -> core s' = core s.
Proof. unfold buf_push. core_same. Qed.

Lemma read_wait_core b n s r s' : read_terminal_wait b n s = Ok (r, s') -> core s' = core s.
Proof. unfold read_terminal_wait, clear_buffer. core_same. Qed.

Lemma read_terminal_core b n s r s' : read_terminal b n s = Ok (r, s') -> core s' = core s.
Proof.
  unfold read_terminal, read_terminal_start, kbind, kdo. intros; returned.
  match goal with E : read_terminal_wait _ _ _ = _ |- _ => apply read_wait_core in E end. core_same.
Qed.

Lemma write_terminal_core s r n x s' : write_terminal s r n = Ok (x, s') -> core s' = core s.
Proof. unfold write_terminal. core_same. Qed.

Ltac core_step ::= first [core_lines | match goal with E : buf_push _ _ = Ok _ |- _ => apply buf_push_core in E end].

Lemma check_buf_core s n x s' : check_buf s n x = Ok s' -> core s' = core s.
Proof. unfold check_buf. core_same. Qed.

Lemma store_key_core s x s' : store_key s x = Ok s' -> core s' = core s.
Proof.
  unfold store_key. intros; returned;
    match goal with E : check_buf _ _ _ = _ |- _ => apply check_buf_core in E end; core_same.
Qed.
End Terminal.

Ltac core_keys := first [core_lines | match goal with
  | E : buf_push _ _ = Ok _ |- _ => apply buf_push_core in E
  | E : check_buf _ _ _ = Ok _ |- _ => apply check_buf_core in E
  | E : store_key _ _ = Ok _ |- _ => apply store_key_core in E
  end].
Ltac core_step ::= core_keys.

(** ** Keys and ticks that switch to nobody *)

Section Interrupts.
Context `{Layout} `{Linker} `{Env}.

(** Alt with F1 to F6. *)
Definition switches (s : kstate) (code : Z) : bool :=
  (alt_on (kb s) =? 1) && (code - F1 <? 6) && (0 <=? code - F1).

Lemma press_core fuel more esp ebp esp2 ebp2 x0 code s r s' :
  switches s code = false -> press fuel more esp ebp esp2 ebp2 x0 code s = Ok (r, s') -> core s' = core s.
Proof.
  unfold switches, press. intros Hno E. apply res_bind_ok_inv in E as (c & _ & E). cbv zeta in E.
  apply res_bind_ok_inv in E as (s1 & E1 & E).
  assert (Hck : core s1 = core s /\ kb s1 = kb s).
  { destruct (_ && _) in E1; [|by injection E1 as <-].
    split; [by apply (putc_beside core) in E1 | by apply (putc_beside kb) in E1]. }
  destruct Hck as (Hc & Hk). rewrite Hk in E. destruct (alt_on (kb s) =? 1); cbn [andb] in Hno.
  - rewrite Hno in E. by injection E as _ <-.
  - destruct (shift_on (kb s) =? 1).
    + apply res_bind_ok_inv in E as ([x|] & _ & E); core_same.
    + core_same.
Qed.

Lemma key_core fuel more esp ebp esp2 ebp2 x0 code s r s' :
  switches s code = false -> keyboard_key fuel more esp ebp esp2 ebp2 x0 code s = Ok (r, s') -> core s' = core s.
Proof.
  unfold keyboard_key. intros Hno E. returned;
    try match goal with E : press _ _ _ _ _ _ _ _ _ = Ok _ |- _ => apply press_core in E; [|done] end; core_same.
Qed.

Lemma scancode_core fuel more esp ebp esp2 ebp2 x0 code s r s' :
  switches s code = false -> keyboard_scancode fuel more esp ebp esp2 ebp2 x0 code s = Ok (r, s') -> core s' = core s.
Proof.
  unfold keyboard_scancode, kbind, kdo, keyboard_done. intros Hno E. apply res_bind_ok_inv in E as ([r1 s1] & E1 & E).
  apply key_core in E1; [|done]. destruct r1; core_same.
Qed.

(** A tick that returns. *)
Lemma do_events_ret fuel esp ebp s x s' : do_events fuel esp ebp s = Ok (Ret x, s') -> s' = s.
Proof.
  unfold do_events. intros E. returned; try done. unfold run_proc in *. by returned.
Qed.

Lemma periodic_core fuel esp ebp s x s' :
  periodic_interrupt_handler fuel esp ebp s = Ok (Ret x, s') -> core s' = core s.
Proof.
  destruct (periodic_start fuel esp ebp s) as (s0 & -> & E0 & _). unfold kbind, kdo. intros E.
  apply res_bind_ok_inv in E as ([r s1] & E1 & E). destruct r; [|done]. apply do_events_ret in E1 as ->.
  assert (core s0 = core s) by by rewrite E0. core_same.
Qed.

(** The rest of a call that a switch left. *)
Lemma return_core sv s r s' : return_from sv s = Ok (r, s') -> core s' = core s.
Proof. destruct sv; unfold return_from, kdo, keyboard_done; core_same. Qed.
End Interrupts.

(** ** System calls *)

Section Calls.
Context `{Layout} `{Linker} `{Env}.

(** What a call of the process whose PCB [esp] finds leaves: the tables, the
    scheduler, and of the PCBs everything but the caller's descriptors. *)
Record kept (esp : Z) (s s' : kstate) : Prop := {
  kp_pg : pg s' = pg s;
  kp_sch : sch s' = sch s;
  kp_pcbs : forall a p, pcbs s !! a = Some p -> exists l, pcbs s' !! a = Some (set_fd_list p l) /\
    (ktr s (get_curr_pcb esp) <> Some a -> l = fd p)
}.

Lemma core_kept esp s s' : core s' = core s -> kept esp s s'.
Proof.
  intros [= E1 E2 E3]. constructor; [done.. |]. intros a p Hp. exists (fd p). rewrite E3, Hp. by destruct p.
Qed.

Lemma kept_trans esp s1 s2 s3 : kept esp s1 s2 -> kept esp s2 s3 -> kept esp s1 s3.
Proof.
  intros [A1 B1 C1] [A2 B2 C2]. constructor; [congruence.. |]. intros a p Hp.
  destruct (C1 a p Hp) as (l1 & Hp1 & F1). destruct (C2 a _ Hp1) as (l2 & Hp2 & F2).
  exists l2. split; [done |]. intros Hne. unfold ktr in *. rewrite A1 in F2. by rewrite F2, <- F1.
Qed.

Lemma fd_upd_kept s esp i f s' : fd_upd s esp i f = Ok s' -> kept esp s s'.
Proof.
  unfold fd_upd, pcb_load, pcb_store. destruct (ktr s (get_curr_pcb esp)) as [a|] eqn:Ea; [|done].
  destruct (pcbs s !! a) as [p|] eqn:Ep; [|done]. intros E. returned. constructor; [done.. |]. intros b p' Hp'.
  destruct (decide (b = a)) as [->|Hne].
  - rewrite Ep in Hp'. injection Hp' as <-. eexists. split; [apply lookup_insert_eq | congruence].
  - exists (fd p'). split; [|done]. simpl. rewrite lookup_insert_ne by done. rewrite Hp'. by destruct p'.
Qed.

(** Steps of a call. *)
Ltac call_step := match goal with
  | E : fd_upd _ _ _ _ = Ok _ |- _ => apply fd_upd_kept in E
  | E : file_open _ _ _ _ _ = Ok _ |- _ => unfold file_open in E; returned
  | E : fotp_open ?t _ _ _ _ _ = Ok _ |- _ => destruct t; simpl in E; unfold fnc_fopen in E; returned
  | E : write_terminal _ _ _ = Ok _ |- _ => apply write_terminal_core in E
  end.

Lemma cli_kept esp s : kept esp s (cli s).
Proof. by apply core_kept. Qed.
Lemma sti_kept esp s : kept esp s (sti s).
Proof. by apply core_kept. Qed.

Lemma sys_open_kept fuel s esp name x s' : sys_open fuel s esp name = Ok (x, s') -> kept esp s s'.
Proof.
  assert (Hrefl : forall t, kept esp t t) by (intros; by apply core_kept). pose proof (kept_trans esp) as Htr.
  unfold sys_open. intros E. returned; repeat call_step; eauto using sti_kept.
Qed.

Lemma sys_close_kept s esp fd x s' : sys_close s esp fd = Ok (x, s') -> kept esp s s'.
Proof. unfold sys_close. intros E. returned; try (by apply core_kept). by eapply fd_upd_kept. Qed.
Lemma sys_write_kept s esp fd r n x s' : sys_write s esp fd r n = Ok (x, s') -> kept esp s s'.
Proof.
  unfold sys_write. intros E. returned; try (by apply core_kept). apply core_kept.
  match goal with E : fotp_write ?t _ _ _ = Ok _ |- _ => destruct t; simpl in E; unfold fnc_rtc_write in E; returned; try done end.
  - by eapply write_terminal_core.
  - unfold rtc_write. by case_match.
Qed.

Lemma read_file_kept s esp fd b n x b' s' : fnc_fread s esp fd b n = Ok (x, b', s') -> kept esp s s'.
Proof. unfold fnc_fread. intros E. returned. by eapply fd_upd_kept. Qed.

Lemma rtc_read_core s r s' : rtc_read s = Ok (r, s') -> core s' = core s.
Proof. unfold rtc_read. core_same. Qed.

Lemma sys_read_kept s esp fd b n r s' : sys_read esp fd b n s = Ok (r, s') -> kept esp s s'.
Proof.
  unfold sys_read. intros E. returned; try (by apply core_kept).
  eapply kept_trans; [apply sti_kept |]. match goal with E : fotp_read ?t _ _ _ _ _ = Ok _ |- _ => destruct t; simpl in E end.
  - apply core_kept. by eapply read_terminal_core.
  - unfold fnc_dir_read in *. returned. by apply core_kept.
  - apply core_kept. unfold kbind in *. returned. match goal with E : fnc_rtc_read _ = Ok _ |- _ => apply rtc_read_core in E end.
    destruct c; unfold kret in *; core_same.
  - returned. by eapply read_file_kept.
  - done.
Qed.

(** The loops of [read] looking again. *)
Lemma read_again_core s esp fd b n r s' : read_wait esp fd b n s = Ok (r, s') -> core s' = core s.
Proof.
  unfold read_wait. intros E. returned. destruct (fotp _); try done.
  - by eapply read_wait_core.
  - unfold kbind, kret in *. returned. match goal with E : rtc_read _ = Ok _ |- _ => apply rtc_read_core in E end.
    destruct c; unfold kret in *; core_same.
Qed.

(** A command that [execute] cannot run. *)
Lemma find_slot_nonneg n pr i k : 0 <= i -> find_slot n pr i = Ok k -> 0 <= k.
Proof.
  revert i. induction n as [|n IH]; intros i Hi; cbn [find_slot]; [by intros [= <-] |]. intros E. returned; [done |].
  by eapply (IH (i + 1)); [lia |].
Qed.

Lemma new_pde_full pg0 v pg' : new_pde pg0 v = Ok (-1, pg') -> pg' = pg0.
Proof.
  unfold new_pde. intros (i & Hi & E)%res_bind_ok_inv. apply find_slot_nonneg in Hi; [|lia].
  destruct (i =? 7); [by injection E as <- |]. exfalso. returned. lia.
Qed.

Lemma execute_ret_core fuel cmd e b s x s' : execute fuel cmd e b s = Ok (Ret x, s') -> core s' = core s.
Proof.
  unfold execute. intros ([o s1] & E1 & E)%res_bind_ok_inv.
  assert (Hc : core s1 = core s) by (unfold execute_load in E1; by returned).
  destruct o as [[[d size] addr]|]; [|by injection E as _ <-]. rewrite <- Hc. clear E1 Hc.
  unfold execute_enter in E. apply res_bind_ok_inv in E as ([pid pg'] & Ep & E). cbv beta zeta in E.
  destruct (Z.eqb_spec pid (-1)) as [->|_].
  - apply new_pde_full in Ep as ->. by injection E as _ <-.
  - exfalso. by returned.
Qed.
End Calls.

(** ** The work of a slice *)

Section Work.
Context `{Layout} `{Linker} `{Env}.

(** The kernel's stacks, with the process control blocks at their ends. *)
Definition kernel_stacks (pa : Z) : Prop := 2 ^ 22 - 8192 * 8 <= pa < 2 ^ 22.

(** One step of the processor between two switches, [esp] being in the kernel stack
    of the running process: a store of user code (not into the kernel's stacks, which
    nothing protects); a system call that returns or starts to wait, what it
    puts into the caller's buffers being stores of their own; a call that waited and
    returns; a command that [execute] refuses; a key, but not one that switches
    terminals; a tick that returns; and the rest of a call that a switch left. *)
Inductive work (esp : Z) (s : kstate) : kstate -> Prop :=
| wk_store v pa c :
    walk (pg s) true (u32 v) = Some pa -> ~ kernel_stacks pa -> byte_ok c ->
    work esp s (set_ph s (<[pa := c]> (ph s)))
| wk_open fuel name x s' : sys_open fuel (cli s) esp name = Ok (x, s') -> work esp s (sti s')
| wk_close fd x s' : sys_close (cli s) esp fd = Ok (x, s') -> work esp s (sti s')
| wk_write fd r n x s' : sys_write (cli s) esp fd r n = Ok (x, s') -> work esp s (sti s')
| wk_read fd b n x s' : sys_read esp fd b n (cli s) = Ok (Ret x, s') -> work esp s (sti s')
| wk_waits fd b n s' : sys_read esp fd b n (cli s) = Ok (Stop Blocked, s') -> work esp s s'
| wk_waited fd b n x s' : read_wait esp fd b n s = Ok (Ret x, s') -> work esp s (sti s')
| wk_getargs b n x : getargs (cli s) b n = Ok x -> work esp s (sti (cli s))
| wk_vidmap a x s' : sys_vidmap (cli s) esp a = Ok (x, s') -> work esp s (sti s')
| wk_other num x s' : sys_call_other num (cli s) = Ok (x, s') -> work esp s (sti s')
| wk_refused fuel cmd e b x s' : execute fuel cmd e b (cli s) = Ok (Ret x, s') -> work esp s (sti s')
| wk_key fuel more e b e2 b2 x0 code s' :
    switches s code = false -> keyboard_scancode fuel more e b e2 b2 x0 code s = Ok (Ret tt, s') -> work esp s s'
| wk_tick fuel e b s' : periodic_interrupt_handler fuel e b s = Ok (Ret tt, s') -> work esp s s'
| wk_return sv s' : return_from sv s = Ok (Ret tt, s') -> work esp s s'.

Lemma other_core num s x s' : sys_call_other num s = Ok (x, s') -> core s' = core s.
Proof. unfold sys_call_other. intros (f & _ & E)%res_bind_ok_inv. destruct f; core_same. Qed.

(** What [vidmap] changes: the tables. *)
Lemma sys_vidmap_inv s esp a x s' :
  sys_vidmap s esp a = Ok (x, s') -> s' = s \/
  exists p pg' m, pcb_load s (get_curr_pcb esp) = Ok p /\ vidmap_pages (pg s) (proc_id p) = Ok pg' /\
    s' = set_ph (set_pg s pg') m.
Proof. unfold sys_vidmap. intros E. returned; eauto 10. Qed.

Lemma work_cases esp s s' :
  work esp s s' -> kept esp s s' \/
  exists p pg', pcb_load s (get_curr_pcb esp) = Ok p /\ vidmap_pages (pg s) (proc_id p) = Ok pg' /\
    core s' = (pg', sch s, pcbs s).
Proof.
  assert (Hcall : forall t, kept esp (cli s) t -> kept esp s (sti t)).
  { intros t Ht. eapply kept_trans; [apply cli_kept |]. eapply kept_trans; [exact Ht | apply sti_kept]. }
  assert (Hcore : forall t, core t = core (cli s) -> kept esp s (sti t)) by (intros; by apply core_kept).
  destruct 1.
  - left. by apply core_kept.
  - left. eapply Hcall, sys_open_kept; eassumption.
  - left. eapply Hcall, sys_close_kept; eassumption.
  - left. eapply Hcall, sys_write_kept; eassumption.
  - left. eapply Hcall, sys_read_kept; eassumption.
  - left. eapply kept_trans; [apply cli_kept |]. eapply sys_read_kept; eassumption.
  - left. apply core_kept. rewrite core_sti. eapply read_again_core; eassumption.
  - left. by apply core_kept.
  - apply sys_vidmap_inv in H2 as [->|(p & pg' & m & Hp & Ev & ->)]; [left; by apply core_kept |].
    right. by exists p, pg'.
  - left. eapply Hcore, other_core; eassumption.
  - left. eapply Hcore, execute_ret_core; eassumption.
  - left. apply core_kept. eapply scancode_core; eassumption.
  - left. apply core_kept. eapply periodic_core; eassumption.
  - left. apply core_kept. eapply return_core; eassumption.
Qed.

(** The work of some process. *)
Definition works (s s' : kstate) : Prop := exists esp, work esp s s'.

Lemma works_sch s s' : works s s' -> sch s' = sch s /\ (shaped (pg s) -> shaped (pg s')).
Proof.
  intros (esp & [[Epg Esch _]|(p & pg' & _ & Ev & [= <- <- _])]%work_cases).
  - by rewrite Epg.
  - split; [done | by eapply vidmap_pages_shaped].
Qed.

End Work.

(** ** Ticks and slices *)

Section Ticks.
Context `{Layout} `{Linker} `{Env}.

Lemma change_pte_shaped pg0 i v pg' : change_pte pg0 i v = Ok pg' -> shaped pg0 -> shaped pg'.
Proof.
  unfold change_pte. intros (p1 & E1 & E)%res_bind_ok_inv Hs.
  by apply (pte_upd_shaped _ _ _ _ E), (pte_set_shaped _ _ _ _ E1).
Qed.

(** A tick that switches, from what it did. *)
Lemma tick_inv fuel esp ebp s w s' :
  sched_ok (sch s) -> shaped (pg s) -> periodic_interrupt_handler fuel esp ebp s = Ok (Stop w, s') ->
  switched esp ebp (getXY s) (sch s) (sch s') /\ shaped (pg s') /\
  exists e b, w = Resume e b /\ context (sch s') (bg_term (sch s')) = Ok (e, b, getXY s').
Proof.
  intros Hok Hsh E. destruct (periodic_start fuel esp ebp s) as (s0 & Es & E0 & _). rewrite Es in E.
  unfold kbind, kdo in E. apply res_bind_ok_inv in E as ([r s1] & E1 & E). destruct r as [x|w1]; [by returned |].
  injection E as -> ->. assert (Hf : sch s0 = sch s /\ pg s0 = pg s /\ getXY s0 = getXY s) by by rewrite E0.
  destruct Hf as (F1 & F2 & F3). rewrite <- F1, <- F3. rewrite <- F1 in Hok. rewrite <- F2 in Hsh.
  destruct (do_events_inv _ _ _ _ _ _ Hok E1) as (Hsw & Hctx & _ & pg1 & pid & Hpte & _ & Hpg).
  split_and!; [done | | done]. rewrite Hpg. by apply (change_pte_shaped _ _ _ _ Hpte) in Hsh.
Qed.

(** With several terminals in use every tick switches. *)
Lemma tick_switches f esp ebp s :
  sched_ok (sch s) -> shaped (pg s) -> several (sch s) ->
  exists e b s', periodic_interrupt_handler (3 + f) esp ebp s = Ok (Stop (Resume e b), s') /\
    switched esp ebp (getXY s) (sch s) (sch s') /\ bg_term (sch s') <> bg_term (sch s) /\
    context (sch s) (bg_term (sch s')) = Ok (e, b, getXY s') /\ shaped (pg s').
Proof.
  intros Hok Hsh Hsev. destruct (periodic_start (3 + f) esp ebp s) as (s0 & Es & E0 & _).
  assert (Hf : sch s0 = sch s /\ pg s0 = pg s /\ getXY s0 = getXY s) by by rewrite E0. destruct Hf as (F1 & F2 & F3).
  pose proof (do_events_spec f esp ebp s0) as Hdo. rewrite F1, F2, F3, several_count in Hdo by done.
  destruct Hdo as (e & b & s' & E & Hsw & Hne & Hctx & _); [done | done | |].
  { destruct Hsev as (_ & t & _ & _ & Ht & _). by exists t. }
  assert (Et : periodic_interrupt_handler (3 + f) esp ebp s = Ok (Stop (Resume e b), s')).
  { rewrite Es. unfold kbind. by rewrite E. }
  exists e, b, s'. split_and!; try done. by apply (tick_inv _ _ _ _ _ _ Hok Hsh Et).
Qed.

(** What the processor does while terminal [u] waits: the work of the others, and
    ticks that switch between them. *)
Inductive meanwhile (u : Z) (s : kstate) : kstate -> Prop :=
| mw_work s' : works s s' -> meanwhile u s s'
| mw_tick fuel esp ebp w s' :
    periodic_interrupt_handler fuel esp ebp s = Ok (Stop w, s') -> bg_term (sch s') <> u -> meanwhile u s s'.

(** Terminal [u] waits with the context [ctx]. *)
Record waiting (u : Z) (ctx : Z * Z * (Z * Z)) (s : kstate) : Prop := {
  wt_ok : sched_ok (sch s);
  wt_shaped : shaped (pg s);
  wt_several : several (sch s);
  wt_bg : bg_term (sch s) <> u;
  wt_ctx : context (sch s) u = Ok ctx
}.

Lemma meanwhile_waiting u ctx s s' : waiting u ctx s -> meanwhile u s s' -> waiting u ctx s'.
Proof.
  intros [Hok Hsh Hsev Hbg Hctx] [s1 (E & Hs)%works_sch | fuel esp ebp w s1 E Hne].
  - constructor; rewrite ?E; auto.
  - destruct (tick_inv _ _ _ _ _ _ Hok Hsh E) as (Hsw & Hsh' & _).
    constructor; [apply Hsw | done | by eapply switched_several | done |].
    by rewrite (sw_others _ _ _ _ _ Hsw) by congruence.
Qed.

Lemma rtc_meanwhile_waiting u ctx s s' : waiting u ctx s -> rtc (meanwhile u) s s' -> waiting u ctx s'.
Proof. induction 2; eauto using meanwhile_waiting. Qed.

(** C12. A context switch is a round trip. With several terminals in use, a tick takes
    the processor from the running terminal [u]. However the others then work and
    switch among themselves (any stores, system calls, keys and ticks, but without
    starting or ending a program and without a key that switches terminals), the tick
    after which it is the turn of [u] resumes it, with the stack and frame pointers it
    was preempted with and with the cursor where it was. *)
Theorem context_roundtrip u f esp ebp s :
  sched_ok (sch s) -> shaped (pg s) -> several (sch s) -> bg_term (sch s) = u ->
  exists e1 b1 s1, periodic_interrupt_handler (3 + f) esp ebp s = Ok (Stop (Resume e1 b1), s1) /\
    bg_term (sch s1) <> u /\
    forall s2 f2 e2 b2, rtc (meanwhile u) s1 s2 -> next_in (term_init (sch s2)) (bg_term (sch s2)) u ->
      exists s3, periodic_interrupt_handler (3 + f2) e2 b2 s2 = Ok (Stop (Resume esp ebp), s3) /\
        bg_term (sch s3) = u /\ getXY s3 = getXY s.
Proof.
  intros Hok Hsh Hsev <-. destruct (tick_switches f esp ebp s Hok Hsh Hsev) as (e1 & b1 & s1 & E1 & Hsw & Hne & _ & Hsh1).
  exists e1, b1, s1. split_and!; [done | done |]. intros s2 f2 e2 b2 Hrun Hnext.
  assert (Hw : waiting (bg_term (sch s)) (esp, ebp, getXY s) s1).
  { constructor; [apply Hsw | done | by eapply switched_several | done | apply Hsw]. }
  destruct (rtc_meanwhile_waiting _ _ _ _ Hw Hrun) as [Hok2 Hsh2 Hsev2 Hbg2 Hctx2].
  destruct (tick_switches f2 e2 b2 s2 Hok2 Hsh2 Hsev2) as (e & b & s3 & E3 & Hsw3 & _ & Hctx3 & _).
  rewrite (next_in_unique _ _ _ _ (sw_next _ _ _ _ _ Hsw3) Hnext), Hctx2 in Hctx3.
  assert (e = esp /\ b = ebp /\ getXY s3 = getXY s) as (-> & -> & Hxy) by (split_and!; congruence).
  exists s3. split_and!; [done | | done]. by apply (next_in_unique _ _ _ _ (sw_next _ _ _ _ _ Hsw3)).
Qed.

End Ticks.

(** ** The life of a program *)

Section Life.
Context `{Layout} `{Linker} `{Env}.

(** The processor is in process [q]. *)
Record owns (q : Z) (s : kstate) : Prop := {
  ow_slot : 0 <= q < 7;
  ow_inv : paging_inv (pg s);
  ow_cr3 : cr3 (pg s) = q + 1;
  ow_live : aget (proc (pg s)) q = Ok 1;
  ow_pcb : exists p, pcbs s !! pcb_addr q = Some p /\ proc_id p = q
}.

(** The scheduler's arrays of the three terminals. *)
Record arrays (c : sched_t) : Prop := {
  ar_active : 0 <= active_term c < 3;
  ar_proc : zlen (proc_active c) = 3;
  ar_esp : zlen (proc_esp c) = 3;
  ar_ebp : zlen (proc_ebp c) = 3
}.

(** Nobody else has lost anything: the process slots and the processes of the
    terminals are what they were; so are the PCBs of the live processes, apart
    from the descriptors of [own]; and [bg_term] is as before or names a slot that
    is free. *)
Record steady (own : Z -> Prop) (s s' : kstate) : Prop := {
  sd_proc : proc (pg s') = proc (pg s);
  sd_active : active_term (sch s') = active_term (sch s);
  sd_procs : proc_active (sch s') = proc_active (sch s);
  sd_arrays : arrays (sch s) -> arrays (sch s');
  sd_bg : bg_term (sch s') = bg_term (sch s) \/ aget (proc (pg s)) (bg_term (sch s')) = Ok 0;
  sd_pcbs : forall r p, 0 <= r < 7 -> aget (proc (pg s)) r = Ok 1 -> pcbs s !! pcb_addr r = Some p ->
    exists l, pcbs s' !! pcb_addr r = Some (set_fd_list p l) /\ (~ own r -> l = fd p)
}.

#[export] Instance steady_preorder own : PreOrder (steady own).
Proof.
  split.
  - intros s. constructor; auto. intros r p _ _ Hp. exists (fd p). rewrite Hp. by destruct p.
  - intros s1 s2 s3 [A1 A2 A3 A4 A5 A6] [B1 B2 B3 B4 B5 B6]. constructor; try congruence; auto.
    + rewrite A1 in B5. destruct B5 as [->|?]; auto.
    + intros r p Hr Hl Hp. destruct (A6 r p Hr Hl Hp) as (l1 & Hp1 & F1). rewrite A1 in B6.
      destruct (B6 r _ Hr Hl Hp1) as (l2 & Hp2 & F2). exists l2. split; [exact Hp2 |]. intros Ho.
      by rewrite F2, <- F1.
Qed.

Lemma steady_le own own' s s' : (forall r, own r -> own' r) -> steady own s s' -> steady own' s s'.
Proof.
  intros Ho [A1 A2 A3 A4 A5 A6]. constructor; auto. intros r p Hr Hl Hp.
  destruct (A6 r p Hr Hl Hp) as (l & Hp1 & F). exists l. split; [exact Hp1 | auto].
Qed.

Lemma core_steady own s s' : core s' = core s -> steady own s s'.
Proof.
  intros [= E1 E2 E3]. constructor; rewrite ?E1, ?E2; auto. intros r p _ _ Hp. exists (fd p). rewrite E3, Hp.
  by destruct p.
Qed.

Lemma core_owns q s s' : core s' = core s -> owns q s -> owns q s'.
Proof. intros [= E1 E2 E3] [Hq Hi Hc Hl Hp]. constructor; rewrite ?E1, ?E3; done. Qed.

Lemma steady_owns own q s s' :
  owns q s -> steady own s s' -> paging_inv (pg s') -> cr3 (pg s') = q + 1 -> owns q s'.
Proof.
  intros [Hq Hi Hc Hl (p & Hp & Hid)] Hsd Hi' Hc'. constructor; [done.. | by rewrite (sd_proc _ _ _ Hsd) |].
  destruct (sd_pcbs _ _ _ Hsd q p Hq Hl Hp) as (l & Hp' & _). by exists (set_fd_list p l).
Qed.

Lemma owns_pcb q s esp : owns q s -> in_stack esp q -> ktr s (get_curr_pcb esp) = Some (pcb_addr q).
Proof.
  intros [Hq Hi Hc Hl _] Hst. rewrite (get_curr_pcb_stack esp q Hst). unfold ktr. apply (pcb_walk _ q); (done || lia).
Qed.

Lemma pcb_addr_inj q r : pcb_addr q = pcb_addr r -> q = r.
Proof. unfold pcb_addr. lia. Qed.

(** The work of process [q]. *)
Lemma work_steady q esp s s' :
  owns q s -> in_stack esp q -> work esp s s' -> owns q s' /\ steady (eq q) s s'.
Proof.
  intros Hown Hst [[Epg Esch Epcbs]|(p & pg' & Hp & Ev & [= <- Esch Epcbs])]%work_cases.
  - assert (Hsd : steady (eq q) s s').
    { constructor; rewrite ?Epg, ?Esch; auto. intros r p _ _ Hp. destruct (Epcbs _ p Hp) as (l & Hp' & Hl).
      exists l. split; [exact Hp' |]. intros Hne. apply Hl. rewrite (owns_pcb q s esp Hown Hst).
      intros [= ->%pcb_addr_inj]. done. }
    split; [|done]. apply (steady_owns _ _ _ _ Hown Hsd); [rewrite Epg..]; apply Hown.
  - destruct Hown as [Hq Hi Hc Hl (p0 & Hp0 & Hid)]. unfold pcb_load in Hp.
    rewrite (owns_pcb q s esp) in Hp by (done || by constructor; eauto). rewrite Hp0 in Hp. injection Hp as ->.
    rewrite Hid in Ev. destruct (vidmap_walks (pg s) q Hi Hq Hc Hl) as (pg1 & Ev1 & Hi1 & Hc1 & Hpr1 & _).
    rewrite Ev in Ev1. injection Ev1 as <-.
    assert (Hsd : steady (eq q) s s').
    { constructor; rewrite ?Hpr1, ?Esch; auto. intros r p' _ _ Hp'. exists (fd p'). rewrite Epcbs, Hp'. by destruct p'. }
    split; [|done]. apply (steady_owns (eq q) q s); try done. constructor; eauto.
Qed.

(** What happens from the start of process [q] on: the process works, and it runs
    programs, whose lives are as long as they like. *)
Inductive life (q : Z) (s : kstate) : kstate -> Prop :=
| lf_start : life q s s
| lf_work esp s1 s2 : life q s s1 -> in_stack esp q -> work esp s1 s2 -> life q s s2
| lf_child fuel cmd e b entry stk s1 s2 arg q2 content p2 s3 esp2 s4 :
    life q s s1 -> in_stack e q ->
    execute fuel cmd e b (cli s1) = Ok (Stop (EnterUser entry stk), s2) ->
    started (with_args (cli s1) arg) s2 q2 content p2 e b -> first_free (pg s1) q2 ->
    life q2 s2 s3 -> in_stack esp2 q2 -> halt esp2 (cli s3) = Ok (Stop (UsrEnd e b), s4) ->
    life q s (sti s4).

(** The start of process [q] seen from its PCB and from the scheduler. *)
Lemma started_owns s s1 q content p esp ebp :
  started s s1 q content p esp ebp -> 0 <= q < 7 -> owns q s1.
Proof.
  intros Hst Hq. destruct (started_facts _ _ _ _ _ _ _ Hst Hq) as (Hi & Hc & Hl). constructor; try done.
  rewrite (proj2 (st_pcb _ _ _ _ _ _ _ Hst)), lookup_insert_eq. by eexists.
Qed.

(** A child that has been [steady] since its start comes back to its parent. *)
Lemma child_returns s s1 s2 q pp content p esp ebp esp2 :
  owns pp s -> arrays (sch s) -> in_stack esp pp ->
  started s s1 q content p esp ebp -> first_free (pg s) q -> q <> 0 ->
  owns q s2 -> steady (eq q) s1 s2 -> in_stack esp2 q ->
  exists s3, halt esp2 (cli s2) = Ok (Stop (UsrEnd esp ebp), s3) /\ owns pp s3 /\
    proc (pg s3) = proc (pg s) /\ active_term (sch s3) = active_term (sch s) /\
    proc_active (sch s3) = <[Z.to_nat (active_term (sch s)) := pp]> (proc_active (sch s)) /\
    arrays (sch s3) /\ bg_term (sch s3) = bg_term (sch s2) /\ aget (proc (pg s)) (bg_term (sch s3)) = Ok 0 /\
    tss_esp0 (tss s3) = esp /\ ph s3 = ph s2 /\
    forall r pr, 0 <= r < 7 -> aget (proc (pg s)) r = Ok 1 -> pcbs s !! pcb_addr r = Some pr ->
      pcbs s3 !! pcb_addr r = Some pr.
Proof.
  intros [Hpp Hi Hc Hl (pq & Hpq & Hid)] [Hact Lp Le Lb] Hin Hst (Hq & Hfree & _) Hq0 Hown2 Hsd Hin2.
  pose proof (st_sched _ _ _ _ _ _ _ Hst) as Hsch. pose proof (st_proc _ _ _ _ _ _ _ Hst) as Hproc.
  pose proof (proj2 (st_pcb _ _ _ _ _ _ _ Hst)) as Hpcb.
  pose proof (aget_Ok_range _ _ _ Hfree) as Hqr.
  assert (Hlive1 : forall r, r <> q -> aget (proc (pg s1)) r = aget (proc (pg s)) r).
  { intros r Hr. rewrite Hproc. apply aget_insert_ne; [congruence | lia]. }
  assert (Hkeep : forall r pr, 0 <= r < 7 -> aget (proc (pg s)) r = Ok 1 -> pcbs s !! pcb_addr r = Some pr ->
    pcbs s2 !! pcb_addr r = Some pr).
  { intros r pr Hr Hlr Hpr. assert (r <> q) as Hne by congruence.
    destruct (sd_pcbs _ _ _ Hsd r pr Hr) as (l & -> & Hl'); [by rewrite Hlive1 | |].
    - rewrite Hpcb, lookup_insert_ne; [done |]. by intros ->%pcb_addr_inj.
    - rewrite Hl' by congruence. by destruct pr. }
  assert (Hrun : running (cli s2) q pp esp ebp).
  { destruct (sd_arrays _ _ _ Hsd) as [A1 A2 A3 A4]; [rewrite Hsch; constructor; simpl; rewrite ?zlen_insert; done |].
    constructor; try done; [apply Hown2 | lia | apply Hown2 | apply Hown2 | | by exists pq; split; [apply Hkeep |]].
    destruct (sd_pcbs _ _ _ Hsd q (new_pcb p esp ebp q)) as (l & Hp2 & _); [done | | | by eexists].
    - rewrite Hproc. by apply aget_insert_eq.
    - rewrite Hpcb. apply lookup_insert_eq. }
  destruct (halt_spec (cli s2) q pp esp ebp esp2 Hrun Hin2) as
    (s3 & E & Hi3 & Hc3 & Hproc3 & _ & _ & _ & _ & _ & _ & Htss & _ & Hph & Hpcb3 & Hsch3).
  { change (sch (cli s2)) with (sch s2). rewrite (sd_procs _ _ _ Hsd), (sd_active _ _ _ Hsd), Hsch. simpl.
    apply aget_insert_eq. lia. }
  change (sch (cli s2)) with (sch s2) in *. change (pg (cli s2)) with (pg s2) in *.
  change (pcbs (cli s2)) with (pcbs s2) in *.
  assert (Hproc0 : proc (pg s3) = proc (pg s)).
  { rewrite Hproc3, (sd_proc _ _ _ Hsd), Hproc, list_insert_insert_eq. apply list_insert_id.
    by apply aget_lookup in Hfree as [_ ?]. }
  exists s3. split; [done |]. rewrite Hsch3, Hproc0. simpl.
  rewrite (sd_procs _ _ _ Hsd), (sd_active _ _ _ Hsd), Hsch. simpl. rewrite list_insert_insert_eq.
  split_and!; try done.
  - constructor; try done; [by rewrite Hproc0 |]. exists pq. rewrite Hpcb3. by split; [apply Hkeep |].
  - destruct (sd_arrays _ _ _ Hsd) as [A1 A2 A3 A4]; [rewrite Hsch; constructor; simpl; rewrite ?zlen_insert; done |].
    constructor; simpl; rewrite ?zlen_insert; done.
  - destruct (sd_bg _ _ _ Hsd) as [->|Hbg]; [by rewrite Hsch |].
    destruct (decide (bg_term (sch s2) = q)) as [->|Hne]; [done |]. by rewrite <- Hlive1.
  - intros r pr Hr Hlr Hpr. rewrite Hpcb3. by apply Hkeep.
Qed.

(** The process of the terminal on screen is [q]. *)
Definition on_screen (q : Z) (c : sched_t) : Prop := arrays c /\ aget (proc_active c) (active_term c) = Ok q.

Lemma steady_on_screen own q s s' : steady own s s' -> on_screen q (sch s) -> on_screen q (sch s').
Proof.
  intros Hsd [Har Ha]. split; [by apply (sd_arrays _ _ _ Hsd) | by rewrite (sd_procs _ _ _ Hsd), (sd_active _ _ _ Hsd)].
Qed.

Lemma started_on_screen s s1 q content p esp ebp :
  started s s1 q content p esp ebp -> arrays (sch s) -> on_screen q (sch s1).
Proof.
  intros Hst [Ha Lp Le Lb]. rewrite (st_sched _ _ _ _ _ _ _ Hst). split; [|by apply aget_insert_eq; simpl; lia].
  constructor; simpl; rewrite ?zlen_insert; done.
Qed.

(** A life of process [q] leaves everything but its own descriptors in place. *)
Lemma life_steady q s s' :
  life q s s' -> owns q s -> on_screen q (sch s) -> owns q s' /\ steady (eq q) s s'.
Proof.
  induction 1 as [q s | q s esp s1 s2 _ IH Hin Hw | q s fuel cmd e b entry stk s1 s2 arg q2 content p2 s3 esp2 s4
    _ IH Hin _ Hst Hff _ IHc Hin2 Eh]; intros Hown Hon.
  - by split.
  - destruct (IH Hown Hon) as (Hown1 & Hsd1). destruct (work_steady q esp s1 s2 Hown1 Hin Hw) as (Hown2 & Hsd2).
    split; [done | by transitivity s1].
  - destruct (IH Hown Hon) as (Hown1 & Hsd1). pose proof (steady_on_screen _ _ _ _ Hsd1 Hon) as (Har & Ha).
    destruct (IHc (started_owns _ _ _ _ _ _ _ Hst (proj1 Hff))) as (Hown3 & Hsd3); [by eapply started_on_screen |].
    assert (Hq2 : q2 <> 0).
    { intros ->. destruct Hown3 as [Hq Hi Hc Hl (p & Hp & Hid)].
      destruct (halt_others (cli s3) 0 esp2 p Hi Hq Hc Hl Hp Hid Hin2) as (E0 & _). rewrite E0 in Eh by done. done. }
    assert (Hown1' : owns q (with_args (cli s1) arg)) by by apply (core_owns q s1).
    destruct (child_returns _ s2 s3 q2 q content p2 e b esp2 Hown1' Har Hin Hst Hff Hq2 Hown3 Hsd3 Hin2)
      as (s5 & E & Hown5 & Hproc & Hact & Hprocs & Har5 & _ & Hbg & _ & _ & Hpcbs).
    rewrite Eh in E. injection E as <-.
    change (pg (with_args (cli s1) arg)) with (pg s1) in *. change (sch (with_args (cli s1) arg)) with (sch s1) in *.
    change (pcbs (with_args (cli s1) arg)) with (pcbs s1) in *.
    split; [by apply (core_owns q s4) |]. transitivity s1; [done |]. transitivity s4; [|by apply core_steady].
    constructor; auto.
    + rewrite Hprocs. apply list_insert_id. by apply aget_lookup in Ha as [_ ?].
    + intros r p Hr Hl Hp. exists (fd p). rewrite (Hpcbs r p Hr Hl Hp). by destruct p.
Qed.

(** C8. [execute] and [halt]. A process [pp] starts a program; the program does what
    it likes: it stores where the page tables let it (but not in the kernel's stacks),
    makes system calls, waits for keys, is interrupted, runs programs of its own, which
    do the same; and halts. As long as nobody switches to another terminal, [halt]
    comes back to the stack and the frame of the call of [execute], in the directory
    of [pp], with its kernel stack, and with [pp] as the process of the terminal: the
    process slots are as they were before the call, and so are the PCBs of all live
    processes, the parent's descriptors among them, and memory is as the
    program left it. Only the scheduler's [bg_term] is not: it names a slot
    that is free again. *)
Theorem execute_halt_roundtrip s s1 s2 q pp content p esp ebp esp2 :
  owns pp s -> arrays (sch s) -> in_stack esp pp ->
  started s s1 q content p esp ebp -> first_free (pg s) q -> q <> 0 ->
  life q s1 s2 -> in_stack esp2 q ->
  exists s3, halt esp2 (cli s2) = Ok (Stop (UsrEnd esp ebp), s3) /\ owns pp s3 /\
    proc (pg s3) = proc (pg s) /\ active_term (sch s3) = active_term (sch s) /\
    proc_active (sch s3) = <[Z.to_nat (active_term (sch s)) := pp]> (proc_active (sch s)) /\
    arrays (sch s3) /\ bg_term (sch s3) = bg_term (sch s2) /\ aget (proc (pg s)) (bg_term (sch s3)) = Ok 0 /\
    tss_esp0 (tss s3) = esp /\ ph s3 = ph s2 /\
    forall r pr, 0 <= r < 7 -> aget (proc (pg s)) r = Ok 1 -> pcbs s !! pcb_addr r = Some pr ->
      pcbs s3 !! pcb_addr r = Some pr.
Proof.
  intros Hown Har Hin Hst Hff Hq0 Hlife Hin2.
  destruct (life_steady q s1 s2 Hlife) as (Hown2 & Hsd); [by eapply started_owns, Hff | by eapply started_on_screen |].
  by eapply child_returns.
Qed.
End Life.

(** ** Witnesses *)

Section Demo.
#[local] Existing Instance demo_layout.
#[local] Instance demo_linker : Linker := {| zeros_addr := 0x500000; zeros_range := ltac:(lia) |}.
#[local] Instance demo_ports : Env := {| port_in _ _ := 0 |}.

(** A terminal that gets the processor back finishes the tick that left it and asks
    for its argument. *)
Definition resumed (s : kstate) : kstate := sti (cli (send_eoi (sti s) 8)).

Lemma resumed_works s : args s = replicate 1024 0 -> rtc works s (resumed s).
Proof.
  intros Ha. apply rtc_l with (send_eoi (sti s) 8); [|apply rtc_once].
  - exists 0. by apply (wk_return _ _ In_do_events).
  - exists 0. apply (wk_getargs _ _ [0] 1 (-1, [0])). unfold getargs.
    change (args (cli (send_eoi (sti s) 8))) with (args s). by rewrite Ha.
Qed.

(** What a tick that switches leaves of the command's argument. *)
Lemma tick_args fuel esp ebp s w s' :
  periodic_interrupt_handler fuel esp ebp s = Ok (Stop w, s') -> args s' = args s.
Proof.
  destruct (periodic_start fuel esp ebp s) as (s0 & -> & E0 & _). assert (args s0 = args s) as <- by by rewrite E0.
  unfold kbind, kdo. intros E. apply res_bind_ok_inv in E as ([r s1] & E1 & E). destruct r as [x|w1]; [by returned |].
  injection E as -> ->. unfold do_events in E1. returned; try done.
  unfold do_events_switch, save_regs, save_cursor, run_proc, kchange_pte in *. by returned.
Qed.

Definition demo_ticking (c : sched_t) : kstate := set_sch (kboot ∅) c.

(** Terminal 0 is preempted, terminal 2 works and is preempted, and terminal 0 is
    back. *)
Lemma context_roundtrip_witness :
  exists s1 s2 s3, periodic_interrupt_handler 3 7 8 (demo_ticking demo_sched) = Ok (Stop (Resume 300 310), s1) /\
    rtc works s1 s2 /\ periodic_interrupt_handler 3 41 42 s2 = Ok (Stop (Resume 7 8), s3).
Proof.
  set (s := demo_ticking demo_sched).
  assert (Hsev : several (sch s)) by (split; [done |]; by exists 0, 2).
  destruct (context_roundtrip 0 0 7 8 s demo_sched_ok kboot_shaped Hsev eq_refl) as (e1 & b1 & s1 & E1 & Hne & Hback).
  destruct (tick_inv _ 7 8 s _ s1 demo_sched_ok kboot_shaped E1) as (Hsw & _ & e & b & [= -> ->] & Hctx).
  pose proof (demo_next s1 (sw_next _ _ _ _ _ Hsw) Hne) as Hbg.
  rewrite (sw_others _ _ _ _ _ Hsw), Hbg in Hctx by exact Hne.
  assert (e = 300 /\ b = 310) as [-> ->] by (cbv in Hctx; split; congruence).
  pose proof (resumed_works s1 (tick_args _ _ _ _ _ _ E1)) as Hw.
  assert (Haw : rtc (meanwhile 0) s1 (resumed s1)).
  { apply (rtc_subrel works); [|exact Hw]. intros x y Hxy. by apply mw_work. }
  destruct (Hback (resumed s1) 0%nat 41 42 Haw) as (s3 & E3 & _).
  - change (sch (resumed s1)) with (sch s1). rewrite Hbg, (sw_init _ _ _ _ _ Hsw). exists 1.
    split_and!; try done. intros k Hk. lia.
  - exists s1, (resumed s1), s3. exact (conj E1 (conj Hw E3)).
Defined.




(** A program that maps the video memory. *)
Lemma demo_vidmap s1 s pg0 :
  started (with_args (demo_kernel 1 pg0) demo_arg) s1 1 demo_go zero_pcb demo_esp 7 -> s = cli s1 ->
  exists s', sys_vidmap s 0x7ffdabc 0x8048004 = Ok (0, s') /\ walk (pg s') true (user_video + 0) = Some (0xB8000 + 0).
Proof.
  intros Hst ->. destruct (started_facts _ _ _ _ _ _ _ Hst) as (Hinv & Hcr & Hlive); [lia |].
  destruct (sys_vidmap_maps (cli s1) 1 0x7ffdabc (new_pcb zero_pcb demo_esp 7 1) 0x8048004 Hinv ltac:(lia) Hcr Hlive)
    as ((s' & E & _ & _ & Hv & _) & _).
  - apply demo_in_stack.
  - change (pcbs (cli s1)) with (pcbs s1). rewrite (proj2 (st_pcb _ _ _ _ _ _ _ Hst)). apply lookup_insert_eq.
  - done.
  - lia.
  - intros i Hi. destruct (lookup_lt_is_Some_2 demo_go (Z.to_nat (4 + i))) as (c & Hc); [simpl; lia |].
    exists c. destruct (st_image _ _ _ _ _ _ _ Hst false _ _ Hc) as (pa & Hpa & Hm).
    rewrite (load_walk (pg s1) 1) in Hpa by (done || lia). injection Hpa as <-. split.
    + change (ph (cli s1)) with (ph s1). rewrite <- Hm. f_equal. unfold load_addr. lia.
    + assert (Hall : Forall byte_ok demo_go) by (vm_compute; repeat constructor; discriminate).
      by apply (Forall_lookup_1 _ _ _ _ Hall Hc).
  - exists s'. split; [exact E | apply Hv; lia].
Qed.

Lemma demo_owns pg0 : demo_paging 1 pg0 -> owns 0 (with_args (demo_kernel 1 pg0) demo_arg).
Proof.
  intros [Hinv Hcr Hproc _]. constructor; [lia | exact Hinv | exact Hcr | |].
  - change (proc (pg (with_args (demo_kernel 1 pg0) demo_arg))) with (proc pg0). by rewrite Hproc.
  - exists demo_pcb. split; [by apply (demo_parent 1); lia | done].
Qed.

(** The shell runs a program that maps the video memory, puts a letter on the screen
    and halts. *)
Lemma execute_halt_roundtrip_witness :
  exists s1 s2 s3, life 1 s1 s2 /\ halt 0x7ffdabc (cli s2) = Ok (Stop (UsrEnd demo_esp 7), s3) /\
    cr3 (pg s3) = 1 /\ ph s3 !! 0xB8000 = Some 65.
Proof.
  destruct (demo_started 1) as (pg0 & s1 & Hpg & Hst); [lia |].
  destruct (demo_vidmap s1 (cli s1) pg0 Hst eq_refl) as (s2 & Ev & Hv).
  set (s3 := set_ph (sti s2) (<[0xB8000 := 65]> (ph (sti s2)))).
  assert (Hlife : life 1 s1 s3).
  { apply (lf_work _ _ 0x7ffdabc (sti s2)); [| apply demo_in_stack |].
    - apply (lf_work _ _ 0x7ffdabc s1); [apply lf_start | apply demo_in_stack |]. by eapply wk_vidmap.
    - apply (wk_store _ _ (user_video + 0) 0xB8000); [exact Hv | | by unfold byte_ok].
      unfold kernel_stacks. lia. }
  destruct (execute_halt_roundtrip _ s1 s3 1 0 demo_go zero_pcb demo_esp 7 0x7ffdabc (demo_owns pg0 Hpg))
    as (s4 & E & Hown & _ & _ & _ & _ & _ & _ & _ & Hph & _).
  - constructor; try done; simpl; lia.
  - apply demo_in_stack.
  - exact Hst.
  - apply (demo_first_free 1); [lia | apply Hpg].
  - done.
  - exact Hlife.
  - apply demo_in_stack.
  - exists s1, s3, s4. split; [exact Hlife | split; [exact E |]]. split; [apply Hown |].
    rewrite Hph. apply lookup_insert_eq.
Defined.
End Demo.
