(* ===== verification/Session.v ===== *)
(** * The programs on the kernel

    The programs of [Programs.v], [Grep.v] and [Syserr.v] making the system calls of
    [Userland.v]: what they do on a machine that runs the kernel. A program runs on
    the terminal on screen, and no other terminal is in use; what it sees is a
    [view]. *)

From stdpp Require Import strings.
From S2P Require Import Prelude Strings Filesys Paging Mem State Console Syscalls Process Keyboard Handlers User.
From S2P Require Import Userlib Programs Grep Syserr Userland.

Local Open Scope Z_scope.

Section Kernel.
Context `{Layout} `{Linker} `{Env}.
Context (fuel : nat) (esp ebp : Z) (more : reader) (x0 : Z).
Context (Hfuel : (1024 <= fuel)%nat).

(** A program whose system calls are the kernel's. *)
Definition on_kernel {A} (p : Os machine -> U machine A) : U machine A := p (kernel_os fuel esp ebp more x0).

(** C4. The kernel keeps the contract of the system calls: every call that a program
    can make ([open], [read], [write], [close], [getargs], [vidmap], and numbers that
    are no calls) returns, with the result and the new view that the contract gives
    for the view before, the reads that wait for the keyboard or the clock included;
    views are well formed. *)
Theorem kernel_refines_view :
  exists S : @OsSpec machine (kernel_os fuel esp ebp more x0), forall m v, @sees _ _ S m v <-> seen esp m v.
Proof. by exists (kernel_spec fuel esp ebp more x0 Hfuel). Qed.

(** C14. [cat] of a file prints the bytes of the file, in pieces of 1024, each followed
    by the erasure that [write] makes, and returns 0; the file's descriptor stays
    open. *)
Theorem cat_prints n above y m v content i buf :
  above 0 = Ok y -> byte_ok y ->
  seen esp m v -> fds v !! 1%nat = Some (Some HTerm) -> arg v <> [] ->
  file_named v (arg v) = Some (NFile content) -> free_fd v = Some i ->
  length buf = 1024%nat -> Forall byte_ok buf -> (length content < n)%nat ->
  runs (on_kernel (fun _ => cat_main n above buf)) m (fun r m' => r = 0 /\ exists sc',
    seen esp m' (set_scr (set_fds v (<[i := Some (HFile content (length content))]> (fds v))) sc') /\
    written (scr v) (pieces 1024 content) sc').
Proof. intros Ha Hy. exact (@cat_main_spec _ _ (kernel_spec fuel esp ebp more x0 Hfuel) n above y Ha Hy m v content i buf). Qed.

(** [cat] that has nothing to print: without an argument, and for a name the
    directory does not have or with no descriptor free, it says so on the terminal
    and returns 3 or 2. *)
Theorem cat_complains n above m v buf :
  seen esp m v -> fds v !! 1%nat = Some (Some HTerm) -> length buf = 1024%nat -> (200 <= n)%nat -> (length (arg v) < 1024)%nat ->
  arg v = [] \/ file_named v (arg v) = None \/ free_fd v = None ->
  runs (on_kernel (fun _ => cat_main n above buf)) m (fun r m' =>
    if decide (arg v = []) then r = 3 /\ seen esp m' (set_scr v (put (scr v) (text "could not read arguments" ++ nl ++ [0])))
    else r = 2 /\ seen esp m' (set_scr v (put (scr v) (text "file not found" ++ nl ++ [0])))).
Proof. exact (@cat_main_fails _ _ (kernel_spec fuel esp ebp more x0 Hfuel) n above m v buf). Qed.

(** C25. [ls] prints the names of the directory's entries from the directory's position
    on, in order, each padded with NULs to 32 characters and ended by a newline; it
    leaves the position at the start, and the descriptor open. *)
Theorem ls_lists n above y m v i buf :
  above 0 = Ok y -> byte_ok y ->
  seen esp m v -> fds v !! 1%nat = Some (Some HTerm) -> file_named v (text ".") = Some NDir -> free_fd v = Some i ->
  length buf = 33%nat -> Forall byte_ok buf -> (length (ents v) < n)%nat ->
  runs (on_kernel (fun _ => ls_main n above buf)) m (fun r m' => r = 0 /\ exists sc',
    seen esp m' (set_scr (set_dirpos (set_fds v (<[i := Some HDir]> (fds v))) 0) sc') /\
    written (scr v) (map (fun e => pad32 e.1 ++ nl) (drop (dirpos v) (ents v))) sc').
Proof. intros Ha Hy. exact (@ls_main_spec _ _ (kernel_spec fuel esp ebp more x0 Hfuel) n above y Ha Hy m v i buf). Qed.

(** C15. [grep] prints, for each file of the directory in order (but for names with a
    leading dot), exactly the lines that contain the pattern, each after the file's
    name and a colon: lines are what lies between the newlines of the whole file,
    however the 1024-byte reads cut it. Files have lines of at most 1023 bytes and no
    NUL; the pattern starts with an ASCII character; for an entry that is the clock
    it waits for a tick. *)
Theorem grep_matches n junk m v i j buf search q :
  (2000 <= n)%nat -> junk_ok junk ->
  seen esp m v -> fds v !! 1%nat = Some (Some HTerm) -> arg v <> [] ->
  (forall c, arg v !! 0%nat = Some c -> c < 128) -> (length (arg v) < n)%nat ->
  file_named v (text ".") = Some NDir -> free_fd v = Some i -> free_fd (set_fds v (<[i := Some HDir]> (fds v))) = Some j ->
  length buf = 33%nat -> length search = 1024%nat -> Forall (searchable n v) (drop (dirpos v) (ents v)) ->
  inputs v = replicate (ticks (drop (dirpos v) (ents v))) Tick ++ q -> (length (ents v) < n)%nat ->
  runs (on_kernel (fun _ => grep_main n junk buf search)) m (fun r m' => r = 0 /\ seen esp m' (grepped (arg v) i v)).
Proof.
  intros Hn Hj. exact (@grep_main_spec _ _ (kernel_spec fuel esp ebp more x0 Hfuel) n junk Hn Hj m v i j buf search q).
Qed.

(** [hello] asks, reads the line that is typed, and greets with it, newline
    included; lines are cut at 127 characters. *)
Theorem hello_greets n m v l q buf :
  seen esp m v -> on_terminal v -> inputs v = Typed l :: q -> nonnul l -> length buf = 1024%nat -> (200 <= n)%nat ->
  runs (on_kernel (fun _ => hello_main n buf)) m (fun r m' => r = 0 /\
    seen esp m' (show (show (line_read (show v (text "Hi, what's your name? ")) l 1023 q) (text "Hello, ")) (typed l))).
Proof. exact (@hello_main_spec _ _ (kernel_spec fuel esp ebp more x0 Hfuel) n m v l q buf). Qed.

(** [counter] never counts: whatever line is typed, it answers that the choice is
    wrong, since the line it checks has the newline at its end. *)
Theorem counter_rejects n m v l q buf :
  seen esp m v -> on_terminal v -> inputs v = Typed l :: q -> nonnul l -> length buf = 1024%nat -> (200 <= n)%nat ->
  runs (on_kernel (fun _ => counter_main n buf)) m (fun r m' => r = 0 /\
    seen esp m' (show (line_read (show v (text "Enter the Test Number: (0): 100, (1): 10000, (2): 100000" ++ nl)) l 1023 q)
      (text "Wrong Choice!" ++ nl))).
Proof. exact (@counter_main_spec _ _ (kernel_spec fuel esp ebp more x0 Hfuel) n m v l q buf). Qed.

(** C16. The tests of the system calls all pass when a program that has opened nothing
    runs all of them: each says PASS, so does the summary, and [main] returns 0. *)
Theorem syserr_passes n above tmp m v l q buf :
  (200 <= n)%nat -> seen esp m v -> on_terminal v -> none_open v -> test_image v ->
  inputs v = Typed (48 :: l) :: q -> nonnul l -> length buf = 128%nat ->
  zlen (upto_nul (row_typed v (48 :: l))) < 128 ->
  runs (on_kernel (fun _ => syserr_main n above tmp buf)) m (fun r m' => r = 0 /\
    seen esp m' (all_pass (chosen v (48 :: l) q))).
Proof. intros Hn. exact (@syserr_main_spec _ _ (kernel_spec fuel esp ebp more x0 Hfuel) n above Hn m v tmp l q buf). Qed.

(** C26. [pingpong] draws a frame at every tick: in [n] rounds the letter runs out and
    back between the walls [n] times, and then the next letter does; after Z comes
    A. *)
Theorem pingpong_bounces k n m v i buf q :
  seen esp m v -> on_terminal v -> file_named v (text "rtc") = Some NRtc -> free_fd v = Some i ->
  inputs v = replicate (n * length out_and_back) Tick ++ q -> length buf = 81%nat -> (200 <= k)%nat ->
  runs (on_kernel (fun _ => pingpong_main k n buf)) m (fun _ m' =>
    seen esp m' (set_inputs (bounces n STARTCHAR (set_fds v (<[i := Some HRtc]> (fds v)))) q)).
Proof. exact (@pingpong_main_spec _ _ (kernel_spec fuel esp ebp more x0 Hfuel) k n m v i buf q). Qed.

(** ** The shell *)

(** A command of one word that names no executable: [execute] gives -1, and the
    argument is empty from then on. *)
Definition unknown (cmd : list Z) (v : view) (x : Z) (v' : view) : Prop :=
  Forall (fun c => name_stop c = false) cmd /\ (length cmd < 20)%nat /\ not_runnable v cmd /\ x = -1 /\ v' = set_arg v [].

Lemma unknown_runs m v cmd rest x v' :
  seen esp m v -> nonnul cmd -> Forall byte_ok rest -> (20 <= length (cmd ++ 0%Z :: rest))%nat -> unknown cmd v x v' ->
  runs (on_kernel (fun _ => ece391_execute (aget (cmd ++ 0 :: rest)))) m (fun y m' => y = x /\ seen esp m' v').
Proof.
  intros Hm Hn Hr Hl (Hs & Hc & Hno & -> & ->). apply (execute_law fuel esp ebp more x0 m v cmd rest Hfuel Hm); try done.
  apply Forall_forall. intros c Hin. rewrite Forall_forall in Hs. unfold nonnul in Hn. rewrite Forall_forall in Hn.
  split; [by apply Hs | by apply Hn].
Qed.

(** C9. The shell prompts, reads a line, and goes on until the line is [exit]; it
    ignores empty lines, and to every command that names no executable it says "no
    such command". *)
Theorem shell_answers n k m v v' buf :
  seen esp m v -> on_terminal v -> dialogue unknown k (show v (text "Starting 391 Shell" ++ nl)) v' ->
  length buf = 1024%nat -> Forall byte_ok buf -> (k <= n)%nat -> (200 <= n)%nat ->
  runs (on_kernel (fun _ => shell_main n buf)) m (fun r m' => r = 0 /\ seen esp m' v').
Proof.
  exact (@shell_main_spec _ _ (kernel_spec fuel esp ebp more x0 Hfuel) n unknown unknown_runs k m v v' buf).
Qed.
End Kernel.

Section Started.
Context `{Layout} `{Linker} `{Env}.


(** A program that the shell starts, on a full screen: at the next newline the text that
    was on the screen is gone, and the screen has what the kernel's copy with the
    number of the process holds, moved up by a line. *)
Theorem started_scrolls s s' q content p esp ebp cs :
  started s s' q content p esp ebp -> 0 <= q < 3 -> active_term (sch s) < 3 ->
  shows VIDEO 0 (writing q s) cs -> screen_y (con s) = 24 ->
  exists s2, putc s' 10 = Ok s2 /\ shows VIDEO 2000 s2 (drop 80 cs ++ replicate 80 32).
Proof.
  intros Hst Hq Ha Hs Hy. destruct (st_rest _ _ _ _ _ _ _ Hst) as (_ & _ & Econ & _).
  apply (started_shows _ _ _ _ _ _ _ _ _ Hst) in Hs; [|lia..].
  destruct (shift_down_spec VIDEO s' cs Hs) as (s2 & E & Hs2 & _ & _). unfold putc.
  rewrite Econ, Hy. cbn [Z.eqb Pos.eqb orb]. change (24 =? NUM_ROWS - 1) with true. cbv iota. rewrite E. rstep.
  eexists. split; [done |]. by apply shows_coord.
Qed.
End Started.

(** ** On a machine

    The kernel after [execute] started the program [go] in the first terminal, with
    an argument, and with the keys still to be pressed and the ticks to come. *)

Section Demo.
#[local] Existing Instance demo_layout.
#[local] Existing Instance Userland.demo_ports.
#[local] Existing Instance Userland.demo_linker.

Definition demo_zeros : reader := fun _ => Ok 0.

Definition on_demo {A} (p : Os machine -> U machine A) : U machine A := on_kernel 1024 demo_esp 7 demo_zeros 0 p.

(** The keys to press for a line, and the interrupts that make up a list of inputs. *)
Definition keycode (c : Z) : Z := from_option (fun e => Z.of_nat e.1) (-1) (list_find (fun x => x = c) kbd).

Definition irqs_of (ins : list input) : list irq :=
  flat_map (fun i => match i with Tick => [Clock] | Typed l => map Key (map keycode l) ++ [Key 0x1C] end) ins.

Definition typable (i : input) : bool :=
  match i with
  | Tick => true
  | Typed l => forallb (fun c => match aget kbd (keycode c) with Ok x => x =? c | _ => false end &&
                                 negb (special (keycode c)) && negb (c =? 0) && negb (c =? 10)) l
  end.

Lemma irqs_of_are ins : forallb typable ins = true -> irqs_are (irqs_of ins) ins.
Proof.
  induction ins as [|[l|] ins IH]; simpl; [constructor | | intros; constructor; auto].
  intros [Hl Hi]%andb_prop. rewrite <- app_assoc. simpl. rewrite forallb_forall in Hl.
  assert (Hk : forall c, c ∈ l -> key_is (keycode c) c /\ c <> 0 /\ c <> 10).
  { intros c Hc. specialize (Hl c (proj1 (list_elem_of_In _ _) Hc)). unfold key_is.
    rewrite !andb_true_iff, !negb_true_iff, !Z.eqb_neq in Hl. destruct Hl as [[[Hx Hs] H0] H10].
    destruct (aget kbd (keycode c)) as [x| |]; try done. apply Z.eqb_eq in Hx. by subst x. }
  constructor; [| | by apply IH].
  - apply Forall2_fmap_l, Forall_Forall2_diag, Forall_forall. intros c Hc. by apply Hk.
  - apply Forall_forall. intros c Hc. by apply Hk.
Qed.

(** A machine with the view [demo_view arg ins]. *)
Ltac demo_runs arg ins :=
  let m := fresh "m" in let Hm := fresh "Hm" in
  destruct (demo_seen arg ins (irqs_of ins)) as (m & Hm);
    [ vm_compute; lia | vm_compute; by repeat constructor | apply irqs_of_are; by vm_compute | exists m ].

Lemma kernel_refines_view_witness : (1024 <= 1024)%nat /\
  exists S : @OsSpec machine (kernel_os 1024 demo_esp 7 demo_zeros 0), forall m v, @sees _ _ S m v <-> seen demo_esp m v.
Proof. split; [lia | exact (kernel_refines_view 1024 demo_esp 7 demo_zeros 0 (Nat.le_refl _))]. Defined.

Lemma cat_prints_witness : exists m, seen demo_esp m (demo_view (text "hi") []) /\
  runs (on_demo (fun _ => cat_main 6 demo_zeros (replicate 1024 0))) m (fun r m' => r = 0 /\ exists sc',
    seen demo_esp m' (set_scr (set_fds (demo_view (text "hi") []) (<[2%nat := Some (HFile demo_hi (length demo_hi))]> (fds (demo_view (text "hi") [])))) sc') /\
    written blank (pieces 1024 demo_hi) sc').
Proof.
  demo_runs (text "hi") (@nil input).
  split; [exact Hm |]. apply (cat_prints 1024 demo_esp 7 demo_zeros 0 (Nat.le_refl _) 6 demo_zeros 0 m (demo_view (text "hi") [])); try done.
  - by apply Forall_replicate.
  - vm_compute. lia.
Defined.

Lemma cat_complains_witness : exists m, seen demo_esp m (demo_view [] []) /\
  runs (on_demo (fun _ => cat_main 200 demo_zeros (replicate 1024 0))) m (fun r _ => r = 3).
Proof.
  demo_runs (@nil Z) (@nil input).
  split; [exact Hm |]. eapply runs_mono.
  - apply (cat_complains 1024 demo_esp 7 demo_zeros 0 (Nat.le_refl _) 200 demo_zeros m (demo_view [] [])); try done; try lia.
    + simpl. lia.
    + by left.
  - by intros r m' [-> _].
Defined.

Lemma ls_lists_witness : exists m, seen demo_esp m (demo_view [] []) /\
  runs (on_demo (fun _ => ls_main 5 demo_zeros (replicate 33 0))) m (fun r m' => r = 0 /\ exists sc',
    seen demo_esp m' (set_scr (set_dirpos (set_fds (demo_view [] []) (<[2%nat := Some HDir]> (fds (demo_view [] [])))) 0) sc') /\
    written blank (map (fun e => pad32 e.1 ++ nl) demo_files) sc').
Proof.
  demo_runs (@nil Z) (@nil input).
  split; [exact Hm |]. apply (ls_lists 1024 demo_esp 7 demo_zeros 0 (Nat.le_refl _) 5 demo_zeros 0 m (demo_view [] [])); try done.
  - by apply Forall_replicate.
  - vm_compute. lia.
Defined.

Lemma grep_matches_witness : exists m, seen demo_esp m (demo_view (text "l") [Tick]) /\
  runs (on_demo (fun _ => grep_main 2000 (fun _ => replicate 1025 0) (replicate 33 0) (replicate 1024 0))) m
    (fun r m' => r = 0 /\ seen demo_esp m' (grepped (text "l") 2 (demo_view (text "l") [Tick]))).
Proof.
  demo_runs (text "l") [Tick].
  split; [exact Hm |]. apply (grep_matches 1024 demo_esp 7 demo_zeros 0 (Nat.le_refl _) 2000 _ m (demo_view (text "l") [Tick]) 2 3 _ _ []); try done; try lia.
  - intros c Hc. vm_compute in Hc. injection Hc as <-. lia.
  - vm_compute. lia.
  - constructor; [by left |]. constructor; [|constructor; [|constructor; [|constructor]]]; right; (split; [done |]).
    + right. exists demo_hi. vm_compute. split_and!; [done | by repeat constructor | repeat constructor; lia | lia].
    + right. exists demo_go. vm_compute. split_and!; [done | by repeat constructor | repeat constructor; lia | lia].
    + by left.
  - vm_compute. lia.
Defined.

Lemma hello_greets_witness : exists m, seen demo_esp m (demo_view [] [Typed (text "bo")]) /\
  runs (on_demo (fun _ => hello_main 200 (replicate 1024 0))) m (fun r m' => r = 0 /\
    seen demo_esp m' (show (show (line_read (show (demo_view [] [Typed (text "bo")]) (text "Hi, what's your name? ")) (text "bo") 1023 [])
      (text "Hello, ")) (text "bo" ++ nl))).
Proof.
  demo_runs (@nil Z) [Typed (text "bo")].
  split; [exact Hm |]. apply (hello_greets 1024 demo_esp 7 demo_zeros 0 (Nat.le_refl _) 200 m (demo_view [] [Typed (text "bo")]) (text "bo") []); try done; try lia.
  by apply nonnulb_ok.
Defined.

Lemma counter_rejects_witness : exists m, seen demo_esp m (demo_view [] [Typed (text "0")]) /\
  runs (on_demo (fun _ => counter_main 200 (replicate 1024 0))) m (fun r m' => r = 0 /\
    seen demo_esp m' (show (line_read (show (demo_view [] [Typed (text "0")])
      (text "Enter the Test Number: (0): 100, (1): 10000, (2): 100000" ++ nl)) (text "0") 1023 []) (text "Wrong Choice!" ++ nl))).
Proof.
  demo_runs (@nil Z) [Typed (text "0")].
  split; [exact Hm |]. apply (counter_rejects 1024 demo_esp 7 demo_zeros 0 (Nat.le_refl _) 200 m (demo_view [] [Typed (text "0")]) (text "0") []); try done; try lia.
  by apply nonnulb_ok.
Defined.

Lemma syserr_passes_witness : exists m, seen demo_esp m (demo_view [] [Typed (text "0")]) /\
  runs (on_demo (fun _ => syserr_main 200 demo_zeros (fun _ => replicate 32 0) (replicate 128 0))) m (fun r m' => r = 0 /\
    seen demo_esp m' (all_pass (chosen (demo_view [] [Typed (text "0")]) (text "0") []))).
Proof.
  demo_runs (@nil Z) [Typed (text "0")].
  split; [exact Hm |]. apply (syserr_passes 1024 demo_esp 7 demo_zeros 0 (Nat.le_refl _) 200 demo_zeros _ m (demo_view [] [Typed (text "0")]) [] []); try done; try lia.
  constructor.
Defined.

Lemma pingpong_bounces_witness : exists m, seen demo_esp m (demo_view [] (replicate (1 * length out_and_back) Tick ++ [])) /\
  runs (on_demo (fun _ => pingpong_main 200 1 (replicate 81 0))) m (fun _ m' => exists v', inputs v' = [] /\ seen demo_esp m' v').
Proof.
  demo_runs (@nil Z) (replicate (1 * length out_and_back) Tick ++ []).
  split; [exact Hm |]. eapply runs_mono.
  - apply (pingpong_bounces 1024 demo_esp 7 demo_zeros 0 (Nat.le_refl _) 200 1 m
      (demo_view [] (replicate (1 * length out_and_back) Tick ++ [])) 2 _ []); try done; lia.
  - intros r m' Hm'. eexists. split; [|exact Hm']. reflexivity.
Defined.

(** A command that does not exist, and [exit]. *)
Lemma shell_answers_witness : exists m v', seen demo_esp m (demo_view [] [Typed (text "foo"); Typed (text "exit")]) /\
  dialogue unknown 2 (show (demo_view [] [Typed (text "foo"); Typed (text "exit")]) (text "Starting 391 Shell" ++ nl)) v' /\
  runs (on_demo (fun _ => shell_main 200 (replicate 1024 0))) m (fun r m' => r = 0 /\ seen demo_esp m' v').
Proof.
  demo_runs (@nil Z) [Typed (text "foo"); Typed (text "exit")].
  eassert (Hd : dialogue unknown 2 (show (demo_view [] [Typed (text "foo"); Typed (text "exit")]) (text "Starting 391 Shell" ++ nl)) _).
  { eapply (dia_command _ _ _ (text "foo")); [done | done | by vm_compute; repeat constructor | by apply nonnulb_ok | done | done | | |].
    + constructor; [by repeat constructor |]. split; [vm_compute; lia |]. split; [by left | done].
    + done.
    + by eapply (dia_exit _ _ (text "exit") []). }
  eexists. split; [exact Hm |]. split; [exact Hd |].
  apply (shell_answers 1024 demo_esp 7 demo_zeros 0 (Nat.le_refl _) 200 2 m (demo_view [] [Typed (text "foo"); Typed (text "exit")]));
    [exact Hm | done | exact Hd | by rewrite length_replicate | by apply Forall_replicate | lia | lia].
Defined.

End Demo.
