(* ===== verification/System.v ===== *)
(** * From the boot loader to the prompt

    [Boot.v] ends where the shell's first instruction is fetched, and [Session.v]
    starts from a machine that a program sees rightly. Here the two meet: the
    state that [entry] leaves is such a machine, and the shell that runs on it talks
    to whoever types. *)

From stdpp Require Import strings.
From S2P Require Import Prelude Strings Filesys Paging Mem State Pic Console Terminal Sched Syscalls Process Keyboard.
From S2P Require Import Handlers Boot User Userlib Programs Userland Session.

Local Open Scope Z_scope.

(** What the shell will see, in the state the boot loader leaves: the directory
    [ds] of the image, whose entries stand for [es], read from the start; the line
    buffer of the first terminal; no modifier key down, no tick pending, and a
    process control block with no descriptor open. *)
Record boot_sees `{Linker} (s : kstate) (f : filesys) (p : pcb_t) (ds : list dentry_t) (es : list (list Z * node)) (line : list Z) : Prop := {
  bs_dir : dir_is (image_rd (ph s)) f ds;
  bs_ents : Forall2 (entry_at (image_rd (ph s)) f) ds es;
  bs_pos : dir_index f = 0;
  bs_line : aget (buf (kb s)) 0 = Ok line /\ Forall byte_ok line;
  bs_keys : (ctrl_on (kb s) =? 1) = false /\ (shift_on (kb s) =? 1) = false /\ (alt_on (kb s) =? 1) = false;
  bs_count : interrupt_count s = 0;
  bs_fds : Forall (fun f => Syscalls.present f = false) (drop 2 (fd p))
}.

(** The shell's view when it starts. *)
Definition boot_view (es : list (list Z * node)) (line : list Z) (ins : list input) : view :=
  mkView es 0 (Some HTerm :: Some HTerm :: replicate 6 None) blank (drop 1 line) [] ins.

Section System.
Context `{Layout} `{Linker} `{Env} `{Symbols}.

(** The banner and the segments change nothing of it. *)
Lemma boot_sees_banner b b2 b' s3 s4 s' sc f content p esp ebp ds es line :
  2 ^ 22 <= zeros_addr -> boot_steps b b2 b' s3 s4 s' sc f content p esp ebp ->
  boot_sees (bk b) f p ds es line -> boot_sees (bk b2) f p ds es line.
Proof.
  intros Hz Hbo [Hd He Hp Hl Hk Hc Hf]. destruct (bo_banner _ _ _ _ _ _ _ _ _ _ _ _ Hbo) as (t & _ & (E & _ & Hm)).
  assert (Hr : kb (bk b2) = kb (bk b) /\ interrupt_count (bk b2) = interrupt_count (bk b)).
  { change (kb (bk b2)) with (kb (set_tss (bk b2) t)). change (interrupt_count (bk b2)) with (interrupt_count (set_tss (bk b2) t)).
    by rewrite E. }
  destruct Hr as [Ek Ec].
  assert (Hle : rd_le (image_rd (ph (bk b))) (image_rd (ph (bk b2)))).
  { intros x c. unfold image_rd. destruct (_ && _); [done |]. unfold page_rd. destruct (Z.leb_spec 4194304 x); [|done].
    change (ph (bk b2)) with (ph (set_tss (bk b2) t)). rewrite Hm by (unfold VIDEO; lia). done. }
  constructor; rewrite ?Ek, ?Ec; try done.
  - by eapply dir_is_mono.
  - eapply Forall2_impl; [exact He |]. intros d e. by apply entry_at_mono.
Qed.

(** The devices leave the image, too. *)
Lemma booted_image s s3 s4 sc :
  loaded s -> devices_up s s3 sc -> ready s3 s4 -> rd_le (image_rd (ph s)) (page_rd (ph s4)).
Proof.
  intros Hlo Hdu Hrd. destruct (lo_linked _ Hlo) as (Hz1 & Hz2). apply image_le; [done |]. intros q Hq Hn.
  rewrite (rd_ph _ _ Hrd) by (unfold VIDEO; lia). rewrite (du_ph _ _ _ Hdu).
  replace ((0x1000 <=? q) && (q <? 0x5000)) with false by lia. by replace ((zeros_addr <=? q) && _) with false by lia.
Qed.

(** When [execute] starts the shell, the kernel is as a program needs it. *)
Lemma boot_quiescent b b2 b' s3 s4 s' sc f content p esp ebp ds es line ins :
  boot_steps b b2 b' s3 s4 s' sc f content p esp ebp -> boot_sees (bk b2) f p ds es line ->
  zlen (fd p) = 8 -> zlen (args (bk b2)) = 1024 ->
  quiescent (with_args (cli s4) []) 0 p ds line (boot_view es line ins).
Proof.
  intros [_ _ _ (Hlo & _) Hdu Hrd Hfs _] [Hd He Hp (Hl & Hlb) (Hk1 & Hk2 & Hk3) Hc Hf] Hpl Hal.
  destruct (rd_rest _ _ Hrd) as (_ & Rsch & Rfs & Rargs & _). destruct (du_rest _ _ _ Hdu) as (_ & Dfs & Dargs & _).
  destruct (du_keys _ _ _ Hdu) as (Kb & Kc & Ks & Ka). destruct (du_index _ _ _ Hdu) as (Ki & Kcap).
  destruct (rd_fflag _ _ Hrd) as (Rkb & _). pose proof (booted_image _ _ _ _ Hlo Hdu Hrd) as Hle.
  pose proof (du_sched _ _ _ Hdu) as Hok. pose proof (du_sch _ _ _ Hdu) as Dsch. pose proof (du_kb _ _ _ Hdu) as Hkb.
  constructor; change (sch (with_args (cli s4) [])) with (sch s4); change (fs (with_args (cli s4) [])) with (fs s4);
    change (ph (with_args (cli s4) [])) with (ph s4); rewrite ?Rsch.
  - lia.
  - done.
  - done.
  - rewrite Rfs, Dfs, Hfs. by eapply dir_is_mono.
  - eapply Forall2_impl; [exact He |]. intros d e. unfold entry_seen.
    change (fs (with_args (cli s4) [])) with (fs s4). change (ph (with_args (cli s4) [])) with (ph s4).
    rewrite Rfs, Dfs, Hfs. by apply entry_at_mono.
  - rewrite Rfs, Dfs, Hfs, Hp. simpl. lia.
  - assert (Hbg : bg_term (sch s4) = 0) by by rewrite Rsch, Dsch.
    destruct (rd_displays _ _ Hrd) as [[] ? ? ? ?]. rewrite Hbg in *. by constructor; [constructor|..].
  - change (kb (with_args (cli s4) [])) with (kb s4). split; [|split].
    + destruct Hkb. constructor; change (kb (with_args (cli s4) [])) with (kb s4);
        change (sch (with_args (cli s4) [])) with (sch s4); rewrite ?Rkb, ?Rsch; done.
    + rewrite Rkb. unfold mods_are. simpl. by rewrite Kcap, Kc, Ks, Ka.
    + by rewrite Rkb.
  - split; [|done]. constructor; change (kb (with_args (cli s4) [])) with (kb s4);
      change (sch (with_args (cli s4) [])) with (sch s4); rewrite Rkb, Rsch, Dsch; simpl; [by rewrite Kb | by rewrite Ki].
  - exists (drop 1 (args s4)). split; [done |]. split; [|split; [simpl; lia | constructor]].
    change (args (with_args (cli s4) [])) with (0 :: drop 1 (args s4)). rewrite Rargs, Dargs.
    unfold zlen in *. cbn [length]. rewrite length_drop. lia.
  - change (interrupt_count (with_args (cli s4) [])) with (interrupt_count s4).
    rewrite (rd_count _ _ Hrd), (du_count _ _ _ Hdu), Hc. split; [done |]. rewrite Dsch. simpl.
    split; [done |]. split; [by exists 0 | done].
Qed.
(** The hypotheses on the loader and its image, as in [entry_boots_shell]. *)
Record bootable (b : boot_t) (fuel : nat) (more : reader) (rest : list Z) (addr flags : Z) (f : filesys) (content : list Z) (a : Z) (p : pcb_t) : Prop := {
  bl_loaded : loaded (bk b);
  bl_text : exists cs, shows VIDEO 0 (bk b) cs;
  bl_idt : length (idt b) = 256%nat /\ Forall (fun d => reserved4 d = 0) (idt b);
  bl_info : info_ok (outside (ph (bk b))) fuel addr flags (fs (bk b)) f /\ CHECK_FLAG flags 4 && CHECK_FLAG flags 5 = false;
  bl_shell : shell_file (bk b) f content a p;
  bl_rest : length rest = 13%nat /\ field (fun i => more (7 + i)) rest
}.

(** After [entry] the shell sees the directory of the image, a blank screen, the
    terminal on its descriptors and no argument, from whatever its stack pointer is
    in its calls and whatever will be typed. *)
Lemma boot_seen b fuel more rest addr flags f content a p ds es line esp ebp :
  bootable b fuel more rest addr flags f content a p -> boot_sees (bk b) f p ds es line -> (1000 <= fuel)%nat ->
  exists b', entry fuel more MULTIBOOT_BOOTLOADER_MAGIC addr esp ebp b = Ok (Stop (EnterUser a (_128MB + _4MB - 4)), b') /\
    forall esp' qs ins, in_stack esp' 0 -> irqs_are qs ins -> seen esp' (mkMachine (bk b') qs) (boot_view es line ins).
Proof.
  intros [Hlo Htext (Hlen & Hres) (Hinfo & Hbits) Hsf (Hrl & Hr)] Hbs Hfu. destruct (lo_linked _ Hlo) as (Hz & _).
  destruct (entry_steps b fuel more rest addr flags f content a p esp ebp) as (b' & b2 & s3 & s4 & s' & sc & E & Hbo); try done.
  exists b'. split; [exact E |]. intros esp' qs ins Hesp Hqs.
  pose proof (boot_sees_banner _ _ _ _ _ _ _ _ _ _ _ _ _ _ _ Hz Hbo Hbs) as Hbs2.
  destruct (bo_shell _ _ _ _ _ _ _ _ _ _ _ _ Hbo) as (-> & Hst).
  assert (Hargs : zlen (args (bk b2)) = 1024).
  { destruct (bo_banner _ _ _ _ _ _ _ _ _ _ _ _ Hbo) as (t & _ & (Eb & _)).
    change (args (bk b2)) with (args (set_tss (bk b2) t)). rewrite Eb. exact (sf_args _ _ _ _ _ Hsf). }
  eapply started_seen; [exact Hst | | exact Hesp | exact Hqs].
  eapply boot_quiescent; [exact Hbo | exact Hbs2 | exact (proj2 (sf_pcb _ _ _ _ _ Hsf)) | exact Hargs].
Qed.

(** C3. From power-on to the prompt: the kernel boots from what the boot loader leaves,
    and the shell it enters, making its calls to this kernel, prompts on the blank
    screen, reads what is typed, says "no such command" to each word that
    names no executable of the image, and ends at [exit]. The shell is its C code; that
    the image's file compiles it is not part of the statement. *)
Theorem boot_session b fuel more rest addr flags f content a p ds es line esp ebp x0 esp' ebp' above qs ins n k buf v' :
  bootable b fuel more rest addr flags f content a p -> boot_sees (bk b) f p ds es line -> (1024 <= fuel)%nat ->
  in_stack esp' 0 -> irqs_are qs ins -> line !! 1023%nat = Some 0 ->
  dialogue unknown k (show (boot_view es line ins) (text "Starting 391 Shell" ++ nl)) v' ->
  length buf = 1024%nat -> Forall byte_ok buf -> (k <= n)%nat -> (200 <= n)%nat ->
  exists b', entry fuel more MULTIBOOT_BOOTLOADER_MAGIC addr esp ebp b = Ok (Stop (EnterUser a (_128MB + _4MB - 4)), b') /\
    runs (on_kernel fuel esp' ebp' above x0 (fun _ => shell_main n buf)) (mkMachine (bk b') qs)
      (fun r m' => r = 0 /\ seen esp' m' v').
Proof.
  intros Hb Hbs Hfu Hesp Hqs Hline Hdia Hlen Hbytes Hk Hn.
  destruct (boot_seen b fuel more rest addr flags f content a p ds es line esp ebp Hb Hbs ltac:(lia)) as (b' & E & Hseen).
  exists b'. split; [exact E |].
  assert (Hon : on_terminal (boot_view es line ins)) by (constructor; [done | done |]; simpl; by rewrite lookup_drop).
  exact (@shell_main_spec _ _ (kernel_spec fuel esp' ebp' above x0 Hfu) n unknown
    (unknown_runs fuel esp' ebp' above x0 Hfu) k _ (boot_view es line ins) v' buf (Hseen esp' qs ins Hesp Hqs) Hon
    Hdia Hlen Hbytes Hk Hn).
Qed.
End System.

(** ** A machine *)

Section Demo.
#[local] Existing Instance demo_layout.
#[local] Existing Instance Boot.demo_ports.
#[local] Existing Instance Boot.demo_linker.
#[local] Existing Instance Boot.demo_symbols.

Definition demo_dir : list dentry_t := [demo_dentry [46] 1 0; demo_dentry (text "shell") 2 1].
Definition demo_entries : list (list Z * node) := [([46], NDir); (text "shell", NFile demo_go)].

Lemma demo_bootable :
  bootable demo_loader 1024 demo_zeros (replicate 13 0) 0x500 0xD demo_disk_fs demo_go 0x8048018 zero_pcb.
Proof.
  constructor.
  - exact demo_loaded.
  - exact demo_text_page.
  - split; [reflexivity | by apply Forall_replicate].
  - split; [apply demo_boot_info; lia | reflexivity].
  - exact demo_shell_file.
  - split; [reflexivity |]. intros n c Hc. apply lookup_replicate in Hc as [-> _]. split; [reflexivity | by unfold byte_ok].
Qed.

Lemma demo_boot_sees : boot_sees (bk demo_loader) demo_disk_fs zero_pcb demo_dir demo_entries (replicate 1024 0).
Proof.
  constructor; change (ph (bk demo_loader)) with demo_ram.
  - eapply dir_is_mono; [apply small_le_image |]. apply dir_isb_is. vm_compute. reflexivity.
  - constructor; [|constructor; [|constructor]].
    + eapply entry_at_mono; [apply small_le_image |]. split; [done |]. split; [|done]. exists 0. split; [by vm_compute | lia].
    + eapply entry_at_mono; [apply small_le_image |]. split; [done |]. split; [exists 28; split; [by vm_compute | lia] |].
      split; [done |]. split; [apply file_atb_at; vm_compute; reflexivity |].
      split; [vm_compute; by repeat constructor | done].
  - reflexivity.
  - split; [reflexivity |]. by apply Forall_replicate.
  - done.
  - reflexivity.
  - by repeat constructor.
Qed.

Definition demo_typed : list input := [Typed (text "foo"); Typed (text "exit")].

Lemma boot_session_witness : exists b' v',
  entry 1024 demo_zeros MULTIBOOT_BOOTLOADER_MAGIC 0x500 0x7ff000 0 demo_loader = Ok (Stop (EnterUser 0x8048018 (_128MB + _4MB - 4)), b') /\
  dialogue unknown 2 (show (boot_view demo_entries (replicate 1024 0) demo_typed) (text "Starting 391 Shell" ++ nl)) v' /\
  runs (on_kernel 1024 demo_esp 7 demo_zeros 0 (fun _ => shell_main 200 (replicate 1024 0)))
    (mkMachine (bk b') (irqs_of demo_typed)) (fun r m' => r = 0 /\ seen demo_esp m' v').
Proof.
  eassert (Hd : dialogue unknown 2 (show (boot_view demo_entries (replicate 1024 0) demo_typed) (text "Starting 391 Shell" ++ nl)) _).
  { eapply (dia_command _ _ _ (text "foo")); [done | done | by vm_compute; repeat constructor | by apply nonnulb_ok | done | done | | |].
    - constructor; [by repeat constructor |]. split; [vm_compute; lia |]. split; [by left | done].
    - done.
    - by eapply (dia_exit _ _ (text "exit") []). }
  destruct (boot_session demo_loader 1024 demo_zeros (replicate 13 0) 0x500 0xD demo_disk_fs demo_go 0x8048018 zero_pcb demo_dir
    demo_entries (replicate 1024 0) 0x7ff000 0 0 demo_esp 7 demo_zeros (irqs_of demo_typed) demo_typed 200 2 (replicate 1024 0) _
    demo_bootable demo_boot_sees (Nat.le_refl _) (proj1 demo_in_stack) (irqs_of_are demo_typed eq_refl) eq_refl Hd
    (length_replicate _ _)) as (b' & E & Hr).
  - by apply Forall_replicate.
  - lia.
  - lia.
  - eexists b', _. split; [exact E |]. split; [exact Hd | exact Hr].
Defined.
End Demo.
